(* ===== verification/_CoqProject ===== *)
-Q . S2P
Prelude.v
Config.v
ChunkCalc.v
Distributor.v
PathUtil.v
Metadata.v
Merge.v
MetadataDB.v
ChunkStorage.v
ChunkPlan.v
SrvData.v
Tasks.v
Agios.v
SrvMetadata.v
Rpc.v
ForwardData.v
ForwardMetadata.v
Cluster.v
Wire.v
Namespace.v
OpenFileMap.v
Path.v
Kernel.v
SyscallInfo.v
Decoder.v
PreloadContext.v
GkfsFunctions.v
Dirents.v
FileSystem.v
FileNamespace.v
Tree.v
Frame.v
SharedDaemon.v
Interference.v
Hooks.v
HostFile.v
Logging.v
Intercept.v
Preload.v
Daemon.v
