(* ===== verification/Prelude.v ===== *)
(** * A verification library for GekkoFWD

    GekkoFWD is a user-level distributed file system.  A client library is
    preloaded into an application, intercepts its system calls and serves
    those below a mount point; daemons on the nodes keep the data in chunk
    files of their local file systems and the metadata in RocksDB.  A
    forwarding mode sends all data of a client to one forwarder.

    ** The parts and the files that model them

    Shared by client and daemon:
    - [Config]: [include/config.hpp], CMake options and Linux constants; the
      theorems hold for every configuration unless they say otherwise.
    - [ChunkCalc]: [include/global/chunk_calc_util.hpp] on 64-bit integers.
    - [ChunkPlan]: the mathematics of a byte range cut into chunks, used by
      both sides (no code of its own).
    - [Distributor]: [global/rpc/distributor.cpp], which host holds what; the
      class [DistributorOk] is what clients of a distributor rely on.
    - [PathUtil]: [global/path_util.cpp]; [Metadata]: [global/metadata.cpp].
    - [Wire]: the request classes of [client/rpc/rpc_types.hpp], the Mercury
      structures of [global/rpc/rpc_types.hpp] and both registrations.
    - [HostFile]: the hosts file, the forwarding map and host names
      ([daemon/util.cpp], [client/preload_util.cpp],
      [global/rpc/rpc_util.cpp], [global/env_util.cpp]).

    Daemon:
    - [Merge]: [daemon/backend/metadata/merge.cpp], the RocksDB merge operator.
    - [MetadataDB]: [daemon/backend/metadata/db.cpp] over the interface
      [RocksDB] (laws [RocksDBLaws], instance [MemDB]).
    - [ChunkStorage]: [daemon/backend/data/chunk_storage.cpp] over the
      interface [PosixFS] (laws [PosixFSLaws], instance [MemFS]).
    - [SrvData]: [daemon/handler/srv_data.cpp]; Margo and Argobots are the
      record [margo_env].
    - [Tasks]: the I/O tasks of the data handlers as they run beside the
      handler, a machine whose schedules are lists of choices, and the end of
      a request ([daemon/handler/rpc_util.hpp]).
    - [Agios]: the gate that the AGIOS scheduler puts before a data handler
      ([daemon/scheduler/agios.cpp] and the AGIOS blocks).
    - [SrvMetadata]: [daemon/ops/metadentry.cpp] and
      [daemon/handler/srv_metadata.cpp]; the state is the record [daemon].
    - [Daemon]: [daemon/daemon.cpp], [FsData] and the loggers of
      [global/log_util.cpp]: options, start, failure, signals, shutdown.

    Client:
    - [Rpc]: the requests and the interface [Network].
    - [ForwardData], [ForwardMetadata]: [client/rpc/forward_data.cpp] and
      [forward_metadata.cpp].
    - [OpenFileMap]: [client/open_file_map.cpp] and [open_dir.cpp], with the
      open files as shared objects in a store.
    - [Path]: [client/path.cpp]; [Kernel]: the interface of the operating
      system; [PreloadContext]: [client/preload_context.cpp] and the working
      directory functions of [path.cpp].
    - [GkfsFunctions]: [client/gkfs_functions.cpp], [get_metadata] and
      [metadata_to_stat] of [preload_util.cpp]; the state is the record
      [client].
    - [Hooks]: [client/hooks.cpp], one function per intercepted system call.
    - [Intercept]: [client/intercept.cpp], the dispatch of system calls with
      both guards; [Preload]: [client/preload.cpp] and the exchange of the
      configuration ([forward_management.cpp], [srv_management.cpp]).
    - [SyscallInfo]: the tables of [client/syscalls/detail/syscall_info.c];
      [Decoder]: the formatters of [client/syscalls/args.hpp], [rets.hpp] and
      [decoder.hpp]; [Logging]: [client/logging.cpp] and [logging.hpp] with
      the trace points of [intercept.cpp].

    Together:
    - [Cluster]: a network of daemons; data requests end to end.
    - [Namespace]: the metadata stores of all daemons as one map of paths.
    - [FileSystem], [FileNamespace]: the client's operations on files and on
      paths over a cluster; [Tree]: the directory tree as an invariant.
    - [Frame]: what a request leaves alone; [SharedDaemon]: requests served at
      the same time on one daemon; [Interference]: a client among others, as
      a [Network] that serves other clients' requests in between.
    - [Dirents]: a program that reads a directory with [getdents].

    Calls go downwards: [Preload] starts [Intercept], which dispatches to
    [Hooks], these call [GkfsFunctions], which calls [ForwardData] and
    [ForwardMetadata] over [Network]; [Cluster] implements [Network] with the
    handlers of [SrvData] and [SrvMetadata], which use [ChunkStorage] and
    [MetadataDB].

    ** How code is represented

    Machine integers are [Z] with explicit wrap-around ([u32], [i64], ...).
    Strings and buffers are lists of characters.  Stateful code that may
    throw is in the monad [M]: [Throw] is an exception that leaves the
    function, [Trap] a failed assertion, a null dereference or fuel that ran
    out.  [errno] is a field of the client's state, or the second component
    of a [result].  Code outside the repository (RocksDB, the node-local file
    system, Margo, Hermes, the kernel, [std::hash]) is a parameter or a class
    whose laws state its documented behaviour; each class has an instance
    that shows the laws can hold.

    ** What the theorems show

    - Data: the loop of the data handlers assigns to a host exactly its chunks
      and terminates; write and read handlers store and return those ranges,
      and do so in every interleaving of their tasks, all of which end; the
      client's requests partition the range; a complete [forward_write] is
      a write of one flat file spread over the hosts, and reading returns it;
      [gkfs_write] also extends the size kept by the metadata host and moves
      the position, and write, seek, read is a round trip, also through the
      system call numbers the application uses.
    - Metadata: the store refines a map from paths to entries, the handlers
      refine its operations and report it, listings are exactly the children;
      text of entries and listings round-trip; merge operands fold, can be
      batched and commute; the requests over a cluster refine the operations
      of one map, whose entries stay a tree (but for [unlink] of directories);
      [rmdir] removes only empty directories.
    - Concurrency: a request changes no chunk file of a path it does not name;
      a write request stores its share however its tasks and the work of other
      requests are interleaved on the daemon; among other clients' requests
      that spare its byte range, a client's write lands, stays and is read
      back, wherever they are served between its own; acknowledged sizes are
      not lost.  What is not atomic is shown by runs of two clients: exclusive
      creation, creation in a directory that is removed, overlapping writes.
    - Chunks: the arithmetic is division by the chunk size; chunk files of
      different files differ (for paths without colons); truncation cuts.
    - Messages: what travels in the Mercury structures is what the handler
      gets; requests and handlers agree on the structures, their fields fit.
    - Client state: descriptors are fresh and never change their meaning;
      duplicates share their position; [resolve] computes the canonical path
      and whether it is inside; names relative to a directory, the working
      directory across [exec], the internal descriptors; [getdents] yields
      every entry once; calls on descriptors of GekkoFS never reach the kernel
      and other calls change nothing else.
    - Start and end: daemons that register are found by clients, the client
      library and the daemon start with what they were told, failures to start
      leave nothing behind (or, for the hosts file, too little), signals stop
      the daemon; the scheduler's gate opens exactly for accepted requests.
    - Log: the tables and their lookups agree, decoding prints a call with its
      arguments and result, printed flags read back, options and filters select
      what is traced.
    - Errors: what failed transfers answer, and the places where the code does
      not do what it means to (the theorems that describe them are listed as
      findings).

    ** Bounds

    Loops that are not structural take fuel, and each has a theorem that its
    fuel is enough: the chunk loop ([assign_fuel], the ids of the request),
    the search for a descriptor (the number of open files), path loops (the
    length of the path), [split_path], [read_loop] (the bytes to read),
    [getdents] (the entries), [bsearch] (the table), the lines of a log
    message (its length).  A schedule of a handler with [n] tasks has at most
    [4 n + 3] steps ([schedules_end]), also when other requests are served in
    between ([concurrent_requests_store]).  Following links is not bounded in the
    code; [link_fuel] bounds it in the model and [link_cycle_never_ends] shows
    that no amount is enough on a cycle.  Waiting for the forwarding map is
    not bounded either; its fuel is the number of attempts.

    ** Not modelled

    Third-party code: RocksDB, Mercury, Margo, Hermes, Argobots, AGIOS, Boost,
    fmt, the vendored spdlog and the system call interception library.  They
    are parameters or classes, as is the byte encoding Mercury's macros
    generate.  Methods of the client's shared objects are atomic steps: the
    races their mutexes exclude are not represented.  A task of a data handler
    takes effect when it ends; in [Cluster] and [Interference] a daemon serves
    a request as one step, and [SharedDaemon] shows what that hides of a write
    request when the others spare its range.  Messages the daemon logs are left out, and those of the client
    appear only in [Logging]. *)

From Stdlib Require Export ZArith Lia Ascii String.
From stdpp Require Export base tactics option list gmap strings.

#[global] Open Scope Z_scope.
#[global] Set Default Goal Selector "!".

(** ** Machine integers

    A [w]-bit integer is a [Z]; conversions wrap explicitly. *)

Definition wrapu (w x : Z) : Z := x mod 2 ^ w.
Definition wraps (w x : Z) : Z := (x + 2 ^ (w - 1)) mod 2 ^ w - 2 ^ (w - 1).

Abbreviation u32 := (wrapu 32).
Abbreviation u64 := (wrapu 64).
Abbreviation i32 := (wraps 32).
Abbreviation i64 := (wraps 64).

Definition in_u (w x : Z) : Prop := 0 <= x < 2 ^ w.
Definition in_s (w x : Z) : Prop := - 2 ^ (w - 1) <= x < 2 ^ (w - 1).

Lemma wrapu_small w x : in_u w x -> wrapu w x = x.
Proof. intros H. by apply Z.mod_small. Qed.

Lemma wrapu_range w x : 0 <= w -> in_u w (wrapu w x).
Proof. intros. apply Z.mod_pos_bound, Z.pow_pos_nonneg; lia. Qed.

Lemma wraps_small w x : 0 < w -> in_s w x -> wraps w x = x.
Proof.
  intros Hw [H1 H2]. unfold wraps.
  assert (2 ^ w = 2 * 2 ^ (w - 1)) as E.
  { rewrite <- Z.pow_succ_r by lia. f_equal. lia. }
  rewrite Z.mod_small; lia.
Qed.

Lemma wraps_range w x : 0 < w -> in_s w (wraps w x).
Proof.
  intros Hw. unfold wraps, in_s.
  assert (2 ^ w = 2 * 2 ^ (w - 1)) as E.
  { rewrite <- Z.pow_succ_r by lia. f_equal. lia. }
  pose proof (Z.mod_pos_bound (x + 2 ^ (w - 1)) (2 ^ w)) as B.
  pose proof (Z.pow_pos_nonneg 2 (w - 1)). lia.
Qed.

Lemma wrapu_small_lt w x : 0 <= x < 2 ^ w -> wrapu w x = x.
Proof. apply wrapu_small. Qed.

Lemma wrapu_wraps w x : 0 < w -> wrapu w (wraps w x) = wrapu w x.
Proof.
  intros Hw. unfold wrapu, wraps. rewrite Zminus_mod_idemp_l.
  f_equal. lia.
Qed.

Lemma lor_range w a b : 0 <= w -> in_u w a -> in_u w b -> in_u w (Z.lor a b).
Proof.
  unfold in_u. intros Hw Ha Hb. assert (0 <= Z.lor a b) by (apply Z.lor_nonneg; lia). split; [done|].
  apply Z.bounded_iff_bits_nonneg; [lia|done|]. intros l Hl. rewrite Z.lor_spec. apply orb_false_iff.
  split; (apply Z.bounded_iff_bits_nonneg with (k := w); lia).
Qed.

(** [int_solve] closes range side conditions on literal widths. *)
Ltac int_solve := unfold in_u, in_s in *; simpl in *; lia.

(** Facts about integers and buffers for [auto with gkfs]. *)
Create HintDb gkfs.
#[export] Hint Resolve wrapu_range wraps_range : gkfs.
#[export] Hint Extern 1 (in_u _ _) => int_solve : gkfs.
#[export] Hint Extern 1 (in_s _ _) => int_solve : gkfs.

(** ** Results of C++ functions

    [Throw] is an exception that leaves the function, [Trap] a failed
    [assert] (the process stops). *)

Inductive exn : Type :=
| NotFoundException
| DBException
| RuntimeError
| SystemError (code : Z)
| FilesystemError
| OutOfRange
| InvalidArgument
| SpdlogException
| Exit (code : Z).            (* ::exit(code): never caught *)

Inductive res (A : Type) : Type :=
| Ok (a : A)
| Throw (e : exn)
| Trap.
Arguments Ok {A} a.
Arguments Throw {A} e.
Arguments Trap {A}.

#[global] Instance res_ret : MRet res := @Ok.
#[global] Instance res_bind : MBind res := fun A B f r =>
  match r with Ok a => f a | Throw e => Throw e | Trap => Trap end.
#[global] Instance res_fmap : FMap res := fun A B f r =>
  match r with Ok a => Ok (f a) | Throw e => Throw e | Trap => Trap end.

(** [assert(b)] followed by the rest of the function. *)
Definition assert_ {A} (b : bool) (k : res A) : res A := if b then k else Trap.

(** ** Stateful code that may throw

    A state change made before an exception is kept. *)

Definition M (S A : Type) : Type := S -> res A * S.

Definition m_ret {S A} (a : A) : M S A := fun s => (Ok a, s).
Definition m_bind {S A B} (c : M S A) (k : A -> M S B) : M S B := fun s =>
  match c s with
  | (Ok a, s') => k a s'
  | (Throw e, s') => (Throw e, s')
  | (Trap, s') => (Trap, s')
  end.
Definition m_throw {S A} (e : exn) : M S A := fun s => (Throw e, s).
Definition m_trap {S A} : M S A := fun s => (Trap, s).
Definition m_assert {S} (b : bool) : M S () := if b then m_ret tt else m_trap.
Definition m_lift {S A} (r : res A) : M S A := fun s => (r, s).
Definition m_get {S} : M S S := fun s => (Ok s, s).
Definition m_gets {S A} (f : S -> A) : M S A := fun s => (Ok (f s), s).
Definition m_modify {S} (f : S -> S) : M S () := fun s => (Ok tt, f s).
(** [try { c } catch (e) { h e }]: a failed assertion is not caught. *)
Definition m_try {S A} (c : M S A) (h : exn -> M S A) : M S A := fun s =>
  match c s with
  | (Throw e, s') => h e s'
  | r => r
  end.

Declare Scope gkfs_scope.
Delimit Scope gkfs_scope with gkfs.
#[global] Open Scope gkfs_scope.

Notation "'let*' x ':=' c 'in' k" := (m_bind c (fun x => k))
  (at level 10, x name, c at level 200, k at level 200) : gkfs_scope.
Notation "c1 ';;;' c2" := (m_bind c1 (fun _ => c2))
  (at level 199, right associativity) : gkfs_scope.

Lemma m_bind_ok {S A B} (c : M S A) (k : A -> M S B) s a s' :
  c s = (Ok a, s') -> m_bind c k s = k a s'.
Proof. intros H. unfold m_bind. by rewrite H. Qed.

Lemma m_bind_throw {S A B} (c : M S A) (k : A -> M S B) s e s' :
  c s = (Throw e, s') -> m_bind c k s = (Throw e, s').
Proof. intros H. unfold m_bind. by rewrite H. Qed.

Lemma m_bind_inv {S A B} (c : M S A) (k : A -> M S B) s b s'' :
  m_bind c k s = (Ok b, s'') -> exists a s', c s = (Ok a, s') /\ k a s' = (Ok b, s'').
Proof. unfold m_bind. destruct (c s) as [[a|e|] s'] eqn:E; [by eauto|done|done]. Qed.

(** [m_inv H] takes a successful computation apart, step by step. *)
Ltac m_inv H :=
  lazymatch type of H with
  | m_bind _ _ _ = (Ok _, _) =>
      let a := fresh "a" in let s := fresh "s" in let E := fresh "E" in
      apply m_bind_inv in H as (a & s & E & H)
  end.

(** A result that is neither an exception nor a failed assertion. *)
Definition is_ok {A} (r : res A) : bool := match r with Ok _ => true | _ => false end.

(** ** Strings as lists of characters *)

Abbreviation str := (list ascii).
Definition s_ (s : string) : str := list_ascii_of_string s.
Arguments s_ s%_string.

Definition NUL : ascii := "000"%char.
Definition sep : ascii := "/"%char.

(** [s.front()] and [s.back()] on a non-empty string. *)
Definition front (s : str) : ascii := hd NUL s.
Definition back (s : str) : ascii := List.last s NUL.

(** [s.find(c, pos)] with [npos] as [None]. *)
Fixpoint find_from (c : ascii) (s : str) : option nat :=
  match s with
  | [] => None
  | x :: s' => if decide (x = c) then Some 0%nat else S <$> find_from c s'
  end.
Definition find_char (c : ascii) (s : str) (pos : nat) : option nat :=
  (fun n => (pos + n)%nat) <$> find_from c (drop pos s).

(** [s.find_last_of(c)]. *)
Fixpoint find_last_of (c : ascii) (s : str) : option nat :=
  match s with
  | [] => None
  | x :: s' =>
      match find_last_of c s' with
      | Some n => Some (S n)
      | None => if decide (x = c) then Some 0%nat else None
      end
  end.

(** [s.substr(pos, n)]. *)
Definition substr (s : str) (pos n : nat) : str := take n (drop pos s).

(** The C string at the start of a character sequence. *)
Fixpoint cstr (s : str) : str :=
  match s with
  | [] => []
  | c :: s' => if decide (c = NUL) then [] else c :: cstr s'
  end.

Definition starts_with (p s : str) : bool := bool_decide (take (length p) s = p).

(** ** Lemmas on string searches *)

Lemma find_from_Some c s n :
  find_from c s = Some n <->
  s !! n = Some c /\ forall i, (i < n)%nat -> s !! i <> Some c.
Proof.
  revert n. induction s as [|x s IH]; intros n; simpl.
  { split; [done|]. intros [H _]. by rewrite lookup_nil in H. }
  case_decide as E; subst.
  - split.
    + intros [= <-]. split; [done|]. lia.
    + intros [H1 H2]. destruct n; [done|]. exfalso. by apply (H2 0%nat); [lia|].
  - rewrite fmap_Some. split.
    + intros (m & Hm & ->). apply IH in Hm as [H1 H2]. split; [done|].
      intros [|i] Hi; simpl; [congruence|]. apply H2; lia.
    + intros [H1 H2]. destruct n as [|n]; [simpl in *; congruence|].
      exists n. split; [|done]. apply IH. split; [done|].
      intros i Hi. apply (H2 (S i)). lia.
Qed.

Lemma find_from_None c s : find_from c s = None <-> c ∉ s.
Proof.
  induction s as [|x s IH]; simpl.
  { split; [|done]. intros _ H. by apply not_elem_of_nil in H. }
  case_decide as E; subst.
  - split; [done|]. intros H. by exfalso; apply H, list_elem_of_here.
  - rewrite fmap_None, IH, not_elem_of_cons. naive_solver.
Qed.

Lemma find_last_of_None c s : find_last_of c s = None <-> c ∉ s.
Proof.
  induction s as [|x s IH]; simpl.
  { split; [|done]. intros _ H. by apply not_elem_of_nil in H. }
  destruct (find_last_of c s) as [n|].
  - split; [done|]. rewrite not_elem_of_cons. intros [_ H]. by apply IH in H.
  - rewrite not_elem_of_cons. case_decide; naive_solver.
Qed.

Lemma find_last_of_Some c s n :
  find_last_of c s = Some n <-> exists a b, s = a ++ c :: b /\ length a = n /\ c ∉ b.
Proof.
  revert n. induction s as [|x s IH]; intros n; simpl.
  { split; [done|]. intros (a & b & E & _). by destruct a. }
  destruct (find_last_of c s) as [m|] eqn:Em.
  - split.
    + intros [= <-]. destruct (proj1 (IH m) eq_refl) as (a & b & -> & <- & Hb).
      by exists (x :: a), b.
    + intros (a & b & E & <- & Hb). destruct a as [|y a]; simplify_eq/=.
      * apply find_last_of_None in Hb. congruence.
      * f_equal. cut (Some m = Some (length a)); [by intros [= ->]|].
        apply IH. by exists a, b.
  - apply find_last_of_None in Em. case_decide as E; subst.
    + split; [intros [= <-]; by exists [], s|].
      intros (a & b & E & <- & Hb). destruct a as [|y a]; simplify_eq/=; [done|].
      exfalso. apply Em. set_solver.
    + split; [done|]. intros (a & b & E' & <- & Hb).
      destruct a as [|y a]; simplify_eq/=. exfalso. apply Em. set_solver.
Qed.

Lemma find_last_of_app c a b :
  c ∉ b -> find_last_of c (a ++ c :: b) = Some (length a).
Proof. intros H. apply find_last_of_Some. by exists a, b. Qed.

Lemma starts_with_spec p s : starts_with p s = true <-> exists t, s = p ++ t.
Proof.
  unfold starts_with. rewrite bool_decide_eq_true. split.
  - intros E. exists (drop (length p) s). rewrite <- E at 1. by rewrite take_drop.
  - intros [t ->]. by rewrite take_app_length.
Qed.

Lemma cstr_id s : NUL ∉ s -> cstr s = s.
Proof.
  induction s as [|c s IH]; simpl; [done|]. rewrite not_elem_of_cons.
  intros [H1 H2]. rewrite decide_False by naive_solver. by rewrite IH.
Qed.

Lemma cstr_app_nul s t : NUL ∉ s -> cstr (s ++ NUL :: t) = s.
Proof.
  induction s as [|c s IH]; simpl; [done|]. rewrite not_elem_of_cons.
  intros [H1 H2]. rewrite decide_False by naive_solver. by rewrite IH.
Qed.

Lemma back_snoc s c : back (s ++ [c]) = c.
Proof. unfold back. by rewrite List.last_last. Qed.

Lemma omap_none {A B} (f : A -> option B) l : (forall x, x ∈ l -> f x = None) -> omap f l = [].
Proof.
  induction l as [|x l IH]; intros H; [done|]. csimpl.
  rewrite H by apply list_elem_of_here. apply IH. intros y Hy. by apply H, list_elem_of_further.
Qed.

Lemma Forall2_elem_impl {A B} (P Q : A -> B -> Prop) l k :
  Forall2 P l k -> (forall x y, x ∈ l -> P x y -> Q x y) -> Forall2 Q l k.
Proof.
  induction 1 as [|x y l k Hxy H IH]; intros HQ; constructor.
  - apply HQ; [apply list_elem_of_here|done].
  - apply IH. intros a b Ha. apply HQ. by apply list_elem_of_further.
Qed.

(** ** Decimal text

    [to_string] and [fmt::format_int] print, [stoul] and [stol] parse. *)

Definition digit_char (d : Z) : ascii := ascii_of_nat (Z.to_nat (48 + d)).
Definition digit_val (c : ascii) : Z := Z.of_nat (nat_of_ascii c) - 48.
Definition is_digit (c : ascii) : bool :=
  let n := nat_of_ascii c in (48 <=? n)%nat && (n <=? 57)%nat.
(** The characters skipped by [strtol] (the C locale's [isspace]). *)
Definition is_space (c : ascii) : bool :=
  let n := nat_of_ascii c in (n =? 32)%nat || ((9 <=? n)%nat && (n <=? 13)%nat).

Fixpoint digits (fuel : nat) (n : Z) : str :=
  match fuel with
  | O => []
  | S f => if n <? 10 then [digit_char n] else digits f (n / 10) ++ [digit_char (n mod 10)]
  end.
(** [std::to_string] / [fmt::format_int] of an unsigned value. *)
Definition to_string_u (n : Z) : str := digits (S (Z.to_nat (Z.log2 n))) n.
(** [fmt::format_int] of a signed value. *)
Definition to_string_s (n : Z) : str :=
  if n <? 0 then "-"%char :: to_string_u (- n) else to_string_u n.

Fixpoint scan_digits (s : str) (acc : Z) (cnt : nat) : Z * nat :=
  match s with
  | c :: s' => if is_digit c then scan_digits s' (10 * acc + digit_val c) (S cnt) else (acc, cnt)
  | [] => (acc, cnt)
  end.

Fixpoint skip_space (s : str) (cnt : nat) : str * nat :=
  match s with
  | c :: s' => if is_space c then skip_space s' (S cnt) else (s, cnt)
  | [] => (s, cnt)
  end.

(** The part [strtol] and [strtoul] share: blanks, an optional sign and
    digits; sign, magnitude and number of characters read. *)
Definition scan_number (s : str) : option (bool * Z * nat) :=
  let '(s1, n1) := skip_space s 0 in
  let '(neg, s2, n2) :=
    match s1 with
    | c :: t => if decide (c = "-"%char) then (true, t, S n1)
                else if decide (c = "+"%char) then (false, t, S n1) else (false, s1, n1)
    | [] => (false, s1, n1)
    end in
  let '(v, n3) := scan_digits s2 0 0 in
  if (n3 =? 0)%nat then None else Some (neg, v, (n2 + n3)%nat).

(** [std::stoul(s, &read)]. *)
Definition stoul (s : str) : res (Z * nat) :=
  match scan_number s with
  | None => Throw InvalidArgument
  | Some (neg, v, n) =>
      if 2 ^ 64 - 1 <? v then Throw OutOfRange
      else Ok (if neg then u64 (- v) else v, n)
  end.

(** [std::stol(s, &read)]. *)
Definition stol (s : str) : res (Z * nat) :=
  match scan_number s with
  | None => Throw InvalidArgument
  | Some (neg, v, n) =>
      let x := if neg then - v else v in
      if (x <? - 2 ^ 63) || (2 ^ 63 - 1 <? x) then Throw OutOfRange else Ok (x, n)
  end.

(** *** Printing then scanning *)

Lemma digit_char_spec d : 0 <= d < 10 ->
  is_digit (digit_char d) = true /\ digit_val (digit_char d) = d /\
  is_space (digit_char d) = false /\ digit_char d <> "-"%char /\ digit_char d <> "+"%char /\
  digit_char d <> NUL.
Proof.
  intros H.
  assert (d ∈ [0;1;2;3;4;5;6;7;8;9]) as E.
  { rewrite !elem_of_cons. lia. }
  repeat (apply elem_of_cons in E as [->|E]; [by vm_compute|]).
  by apply not_elem_of_nil in E.
Qed.

Lemma digits_step f n : 10 <= n < 2 ^ Z.of_nat (S f) -> 0 <= n / 10 < 2 ^ Z.of_nat f.
Proof.
  intros [H1 H2]. rewrite Nat2Z.inj_succ, Z.pow_succ_r in H2 by lia.
  split; [by apply Z.div_pos; lia|]. apply Z.div_lt_upper_bound; lia.
Qed.

Lemma digits_nonempty f n : digits (S f) n <> [].
Proof. simpl. case_match; [done|]. by destruct (digits f _). Qed.

Lemma digits_all f n : 0 <= n ->
  Forall (fun c => is_digit c = true) (digits f n) /\
  Forall (fun c => c <> NUL) (digits f n).
Proof.
  revert n. induction f as [|f IH]; intros n Hn; simpl; [split; constructor|].
  destruct (n <? 10) eqn:E.
  - apply Z.ltb_lt in E. destruct (digit_char_spec n) as (?&?&?&?&?&?); [lia|].
    split; by repeat constructor.
  - destruct (IH (n / 10)) as [I1 I2]; [apply Z.div_pos; lia|].
    destruct (digit_char_spec (n mod 10)) as (?&?&?&?&?&?); [apply Z.mod_pos_bound; lia|].
    split; apply Forall_app; split; by repeat constructor.
Qed.

Lemma scan_digits_app f n rest acc cnt :
  0 <= n < 2 ^ Z.of_nat f ->
  scan_digits (digits f n ++ rest) acc cnt =
  scan_digits rest (10 ^ Z.of_nat (length (digits f n)) * acc + n)
    (cnt + length (digits f n)).
Proof.
  revert n rest acc cnt. induction f as [|f IH]; intros n rest acc cnt Hn.
  { simpl in *. rewrite Nat.add_0_r. f_equal. lia. }
  cbn [digits]. destruct (n <? 10) eqn:E.
  - apply Z.ltb_lt in E. destruct (digit_char_spec n) as (D1&D2&_); [lia|].
    cbn [app scan_digits length]. rewrite D1, D2. f_equal; lia.
  - apply Z.ltb_ge in E.
    destruct (digit_char_spec (n mod 10)) as (D1&D2&_); [apply Z.mod_pos_bound; lia|].
    rewrite <- app_assoc, IH by (apply digits_step; lia).
    cbn [app scan_digits]. rewrite D1, D2, length_app. cbn [length]. f_equal; [|lia].
    rewrite Nat2Z.inj_add, Z.pow_add_r by lia.
    pose proof (Z.div_mod n 10). lia.
Qed.

Lemma log2_fuel n : 0 <= n -> n < 2 ^ Z.of_nat (S (Z.to_nat (Z.log2 n))).
Proof.
  intros H. rewrite Nat2Z.inj_succ, Z2Nat.id by apply Z.log2_nonneg.
  destruct (decide (n = 0)) as [->|]; [done|]. apply Z.log2_spec. lia.
Qed.

Definition no_digit_head (rest : str) : Prop :=
  match rest with c :: _ => is_digit c = false | [] => True end.

Lemma scan_digits_stop rest acc cnt :
  no_digit_head rest -> scan_digits rest acc cnt = (acc, cnt).
Proof. destruct rest as [|c r]; simpl; [done|]. by intros ->. Qed.

Lemma to_string_u_head n : 0 <= n -> exists d t,
  0 <= d < 10 /\ to_string_u n = digit_char d :: t.
Proof.
  intros H. unfold to_string_u. generalize (Z.to_nat (Z.log2 n)) as f. intros f.
  revert n H. induction f as [|f IH]; intros n H; cbn [digits].
  - case_match eqn:E; [|cbn]. { apply Z.ltb_lt in E. by exists n, []. }
    exists (n mod 10), []. split; [|done]. apply Z.mod_pos_bound. lia.
  - case_match eqn:E. { apply Z.ltb_lt in E. by exists n, []. }
    destruct (IH (n / 10)) as (d & t & Hd & Et); [by apply Z.div_pos; lia|].
    exists d, (t ++ [digit_char (n mod 10)]). split; [done|].
    change (digits (S f) (n / 10) ++ [digit_char (n mod 10)] = digit_char d :: (t ++ [digit_char (n mod 10)])).
    by rewrite Et.
Qed.

Lemma to_string_u_nonempty n : to_string_u n <> [].
Proof. apply digits_nonempty. Qed.

Lemma to_string_u_no_nul n : 0 <= n -> NUL ∉ to_string_u n.
Proof.
  intros H Hin. destruct (digits_all (S (Z.to_nat (Z.log2 n))) n H) as [_ F].
  rewrite Forall_forall in F. by apply (F _ Hin).
Qed.

Lemma scan_number_u n rest :
  0 <= n -> no_digit_head rest ->
  scan_number (to_string_u n ++ rest) = Some (false, n, length (to_string_u n)).
Proof.
  intros Hn Hr.
  pose proof (scan_digits_app (S (Z.to_nat (Z.log2 n))) n rest 0 0) as S1.
  fold (to_string_u n) in S1.
  rewrite (scan_digits_stop rest) in S1 by done.
  specialize (S1 (conj Hn (log2_fuel n Hn))).
  pose proof (to_string_u_nonempty n) as Hne.
  destruct (to_string_u_head n Hn) as (d & t & Hd & Et).
  destruct (digit_char_spec d Hd) as (D1 & D2 & D3 & D4 & D5 & _).
  rewrite Et in *. cbn [app] in *. unfold scan_number. cbn [skip_space].
  rewrite D3, !decide_False by done. cbv iota beta. rewrite S1.
  cbn [length]. cbv iota beta. rewrite (proj2 (Nat.eqb_neq _ _)) by lia.
  repeat f_equal; lia.
Qed.

Lemma scan_number_neg n rest :
  0 <= n -> no_digit_head rest ->
  scan_number ("-"%char :: to_string_u n ++ rest) = Some (true, n, S (length (to_string_u n))).
Proof.
  intros Hn Hr.
  pose proof (scan_digits_app (S (Z.to_nat (Z.log2 n))) n rest 0 0) as S1.
  fold (to_string_u n) in S1.
  rewrite (scan_digits_stop rest) in S1 by done.
  specialize (S1 (conj Hn (log2_fuel n Hn))).
  pose proof (to_string_u_nonempty n) as Hne.
  unfold scan_number. cbn [skip_space]. change (is_space "-"%char) with false.
  cbv iota beta. rewrite decide_True by done. cbv iota beta. rewrite S1. cbv iota beta.
  rewrite (proj2 (Nat.eqb_neq _ _)) by (destruct (to_string_u n); [done|simpl; lia]).
  repeat f_equal; lia.
Qed.

Lemma stoul_to_string n rest :
  in_u 64 n -> no_digit_head rest ->
  stoul (to_string_u n ++ rest) = Ok (n, length (to_string_u n)).
Proof.
  intros [H1 H2] Hr. unfold stoul. rewrite scan_number_u by done.
  rewrite (proj2 (Z.ltb_ge _ _)) by lia. done.
Qed.

Lemma stol_to_string n rest :
  in_s 64 n -> no_digit_head rest ->
  stol (to_string_s n ++ rest) = Ok (n, length (to_string_s n)).
Proof.
  intros [H1 H2] Hr. unfold stol, to_string_s. destruct (n <? 0) eqn:E.
  - apply Z.ltb_lt in E. cbn [app]. rewrite scan_number_neg by (done || lia).
    rewrite Z.opp_involutive.
    rewrite !(proj2 (Z.ltb_ge _ _)) by (simpl in *; lia). done.
  - apply Z.ltb_ge in E. rewrite scan_number_u by done.
    rewrite !(proj2 (Z.ltb_ge _ _)) by (simpl in *; lia). done.
Qed.

Lemma to_string_s_pos n : 0 <= n -> to_string_s n = to_string_u n.
Proof. intros H. unfold to_string_s. by rewrite (proj2 (Z.ltb_ge _ _)). Qed.

Lemma to_string_u_inj n m : 0 <= n -> 0 <= m -> to_string_u n = to_string_u m -> n = m.
Proof.
  intros Hn Hm E.
  pose proof (scan_number_u n [] Hn I) as S1. pose proof (scan_number_u m [] Hm I) as S2.
  rewrite E, S2 in S1. by simplify_eq.
Qed.

Lemma to_string_u_digits n c : 0 <= n -> c ∈ to_string_u n -> is_digit c = true.
Proof.
  intros H Hc. destruct (digits_all (S (Z.to_nat (Z.log2 n))) n H) as [F _].
  rewrite Forall_forall in F. by apply F.
Qed.

(** ** Byte buffers and files *)

Abbreviation byte := ascii.

(** [pwrite] into a file's contents: a gap is filled with zeros, and a
    write of no bytes leaves the file alone. *)
Definition write_at (f : list byte) (off : nat) (d : list byte) : list byte :=
  match d with
  | [] => f
  | _ => take off (f ++ replicate (off - length f) NUL) ++ d ++ drop (off + length d) f
  end.

(** [pread]: at most [n] bytes from [off]. *)
Definition read_at (f : list byte) (off n : nat) : list byte := take n (drop off f).

Lemma lookup_write_at f off d i :
  write_at f off d !! i =
  if decide (off <= i < off + length d)%nat then d !! (i - off)%nat
  else if decide (i < length f)%nat then f !! i
  else if decide (i < off /\ d <> [])%nat then Some NUL else None.
Proof.
  unfold write_at. destruct d as [|x d0]; [|remember (x :: d0) as d eqn:Ed].
  { simpl. repeat case_decide; try lia; try naive_solver. by apply lookup_ge_None_2; lia. }
  assert (d <> []) as Hne by by subst.
  assert (length (take off (f ++ replicate (off - length f) NUL)) = off) as L1.
  { rewrite length_take, length_app, length_replicate. lia. }
  clear Ed. destruct (decide (i < off)%nat).
  - rewrite lookup_app_l by lia. rewrite lookup_take_lt by lia.
    rewrite decide_False by lia. case_decide.
    + by rewrite lookup_app_l.
    + rewrite lookup_app_r, lookup_replicate_2 by lia. by rewrite decide_True.
  - rewrite lookup_app_r, L1 by lia. case_decide.
    + by rewrite lookup_app_l by lia.
    + rewrite lookup_app_r, lookup_drop by lia.
      rewrite (decide_False (P := (i < off)%nat /\ d <> [])) by lia.
      replace (off + length d + (i - off - length d))%nat with i by lia.
      case_decide; [done|]. apply lookup_ge_None_2. lia.
Qed.

Lemma length_write_at f off d :
  length (write_at f off d) =
  match d with [] => length f | _ => Nat.max (length f) (off + length d) end.
Proof.
  unfold write_at. destruct d as [|x d]; [done|].
  rewrite !length_app, length_take, length_app, length_replicate, length_drop. lia.
Qed.

Lemma lookup_read_at f off n i :
  read_at f off n !! i = if decide (i < n)%nat then f !! (off + i)%nat else None.
Proof.
  unfold read_at. case_decide.
  - by rewrite lookup_take_lt, lookup_drop by lia.
  - apply lookup_ge_None_2. rewrite length_take. lia.
Qed.

Lemma length_read_at f off n : length (read_at f off n) = Nat.min n (length f - off).
Proof. unfold read_at. by rewrite length_take, length_drop. Qed.

Lemma read_at_all f : read_at f 0 (length f) = f.
Proof. unfold read_at. by rewrite drop_0, firstn_all. Qed.

(** The [n] low bytes of an integer, little endian. *)
Fixpoint le_bytes (n : nat) (v : Z) : list byte :=
  match n with
  | O => []
  | S n' => ascii_of_nat (Z.to_nat (v mod 256)) :: le_bytes n' (v / 256)
  end.

Fixpoint le_value (b : list byte) : Z :=
  match b with [] => 0 | x :: b' => Z.of_nat (nat_of_ascii x) + 256 * le_value b' end.

Lemma length_le_bytes n v : length (le_bytes n v) = n.
Proof. revert v. induction n; intros; simpl; auto. Qed.

Lemma le_bytes_value n v : 0 <= v < 256 ^ Z.of_nat n -> le_value (le_bytes n v) = v.
Proof.
  revert v. induction n as [|n IH]; intros v Hv.
  { change (256 ^ Z.of_nat 0) with 1 in Hv. cbn. lia. }
  replace (256 ^ Z.of_nat (S n)) with (256 * 256 ^ Z.of_nat n) in Hv
    by (rewrite Nat2Z.inj_succ, Z.pow_succ_r by lia; done).
  cbn [le_bytes le_value]. pose proof (Z.mod_pos_bound v 256 ltac:(lia)). pose proof (Z.div_mod v 256 ltac:(lia)).
  rewrite IH. 2:{ split; [apply Z.div_pos; lia|]. apply Z.div_lt_upper_bound; lia. }
  rewrite nat_ascii_embedding by lia. lia.
Qed.

(** Stores and loads inside a buffer. *)
Lemma write_at_inside A B C k d : (k + length d <= length B)%nat ->
  write_at (A ++ B ++ C) (length A + k) d = A ++ write_at B k d ++ C.
Proof.
  intros H. unfold write_at. destruct d as [|x d]; [done|].
  replace (length A + k - length (A ++ B ++ C))%nat with 0%nat by (rewrite !length_app; lia).
  replace (k - length B)%nat with 0%nat by (simpl in *; lia). cbn [replicate]. rewrite !app_nil_r.
  rewrite take_app_add, (take_app_le B) by (simpl in *; lia).
  rewrite <- Nat.add_assoc, drop_app_add, drop_app_le by (simpl in *; lia).
  by rewrite <- !app_assoc.
Qed.

Lemma length_write_inside f off d : (off + length d <= length f)%nat -> length (write_at f off d) = length f.
Proof. intros. rewrite length_write_at. destruct d; [done|]. lia. Qed.

Lemma read_write_same f off d : (off + length d <= length f)%nat -> read_at (write_at f off d) off (length d) = d.
Proof.
  intros H. apply list_eq. intros i. rewrite lookup_read_at. case_decide.
  - rewrite lookup_write_at, decide_True by lia. f_equal. lia.
  - symmetry. apply lookup_ge_None_2. lia.
Qed.

Lemma read_write_other f off d off2 n :
  (off + length d <= length f)%nat -> (off2 + n <= off \/ off + length d <= off2)%nat ->
  read_at (write_at f off d) off2 n = read_at f off2 n.
Proof.
  intros H Hd. apply list_eq. intros i. rewrite !lookup_read_at. case_decide; [|done].
  rewrite lookup_write_at, decide_False by lia. case_decide; [done|].
  rewrite decide_False by (simpl in *; lia). symmetry. apply lookup_ge_None_2. lia.
Qed.

(** ** What a computation leaves alone *)

(** [f] of the state is the same after [m], however [m] ends. *)
Definition preserves {S A B} (f : S -> B) (m : M S A) : Prop := forall s r s', m s = (r, s') -> f s' = f s.

Create HintDb preserves.

Section preserves.
Context {S B : Type} (f : S -> B).

Lemma preserves_ret {A} (a : A) : preserves f (m_ret a).
Proof. by intros s r s' [= _ <-]. Qed.

Lemma preserves_throw {A} e : preserves f (m_throw e : M S A).
Proof. by intros s r s' [= _ <-]. Qed.

Lemma preserves_trap {A} : preserves f (m_trap : M S A).
Proof. by intros s r s' [= _ <-]. Qed.

Lemma preserves_lift {A} (r : res A) : preserves f (m_lift r).
Proof. by intros s x s' [= _ <-]. Qed.

Lemma preserves_get : preserves f m_get.
Proof. by intros s r s' [= _ <-]. Qed.

Lemma preserves_gets {A} (g : S -> A) : preserves f (m_gets g).
Proof. by intros s r s' [= _ <-]. Qed.

Lemma preserves_modify g : (forall s, f (g s) = f s) -> preserves f (m_modify g).
Proof. by intros H s r s' [= _ <-]. Qed.

Lemma preserves_assert b : preserves f (m_assert b).
Proof. destruct b; [apply preserves_ret|apply preserves_trap]. Qed.

Lemma preserves_bind {A A'} (m : M S A) (k : A -> M S A') :
  preserves f m -> (forall a, preserves f (k a)) -> preserves f (m_bind m k).
Proof.
  intros Hm Hk s r s'. unfold m_bind. destruct (m s) as [[a|e|] s1] eqn:E.
  - intros E'. rewrite (Hk a _ _ _ E'). by eapply Hm.
  - intros [= _ <-]. by eapply Hm.
  - intros [= _ <-]. by eapply Hm.
Qed.

Lemma preserves_try {A} (m : M S A) h :
  preserves f m -> (forall e, preserves f (h e)) -> preserves f (m_try m h).
Proof.
  intros Hm Hh s r s'. unfold m_try. destruct (m s) as [[a|e|] s1] eqn:E.
  - intros [= _ <-]. by eapply Hm.
  - intros E'. rewrite (Hh e _ _ _ E'). by eapply Hm.
  - intros [= _ <-]. by eapply Hm.
Qed.
End preserves.

#[export] Hint Resolve preserves_ret preserves_throw preserves_trap preserves_lift preserves_get preserves_gets
  preserves_assert : preserves.

(** [Q] is kept by [c], however [c] ends. *)
Definition upholds {S A} (Q : S -> Prop) (c : M S A) : Prop := forall s r s', c s = (r, s') -> Q s -> Q s'.

Section upholds.
Context {S : Type} (Q : S -> Prop).

Lemma preserves_upholds {A B} (f : S -> B) (V : B -> Prop) (c : M S A) :
  preserves f c -> upholds (fun s => V (f s)) c.
Proof. intros H s r s' E. by rewrite (H _ _ _ E). Qed.

Lemma upholds_pure {A} (c : M S A) : (forall s, (c s).2 = s) -> upholds Q c.
Proof. intros H s r s' E. pose proof (H s) as Hs. rewrite E in Hs. cbn in Hs. by subst. Qed.

Lemma upholds_bind {A B} (m : M S A) (k : A -> M S B) :
  upholds Q m -> (forall a, upholds Q (k a)) -> upholds Q (m_bind m k).
Proof.
  intros Hm Hk s r s'. unfold m_bind. destruct (m s) as [[a|e|] s1] eqn:E.
  - intros E' HQ. apply (Hk a _ _ _ E'). by eapply Hm.
  - intros [= _ <-]. by eapply Hm.
  - intros [= _ <-]. by eapply Hm.
Qed.
End upholds.

(** Go through the code of a computation; what it calls is found in the
    hint database. *)
Ltac preserve :=
  intros;
  repeat first
    [ solve [auto with preserves]
    | apply preserves_bind; [|intros ?]
    | apply preserves_try; [|intros ?]
    | progress cbv zeta
    | case_match ].
