(* ===== verification/Config.v ===== *)
(** * Build configuration and Linux constants

    [include/config.hpp] and the CMake options fix compile-time constants;
    the model keeps them in a record so that the theorems hold for every
    setting, [default_config] being the values in the repository.  The
    numeric constants are those of the Linux x86-64 headers the sources
    include. *)

From S2P Require Import Prelude.

Record config := Config {
  chunksize : Z;                    (* config::rpc::chunksize *)
  dirents_buff_size : Z;            (* config::rpc::dirents_buff_size *)
  zero_buffer_before_read : bool;   (* config::io::zero_buffer_before_read *)
  use_atime : bool;                 (* config::metadata::use_* *)
  use_mtime : bool;
  use_ctime : bool;
  use_link_cnt : bool;
  use_blocks : bool;
  has_symlinks : bool;              (* -DHAS_SYMLINKS *)
  create_check_parents : bool;      (* CREATE_CHECK_PARENTS *)
  enable_forwarding : bool          (* GKFS_ENABLE_FORWARDING *)
}.

Definition default_config : config := {|
  chunksize := 524288;
  dirents_buff_size := 8 * 1024 * 1024;
  zero_buffer_before_read := false;
  use_atime := false;
  use_mtime := false;
  use_ctime := false;
  use_link_cnt := false;
  use_blocks := false;
  has_symlinks := true;
  create_check_parents := true;
  enable_forwarding := false
|}.

(** The chunk sizes the chunk arithmetic supports. *)
Definition chunksize_ok (cfg : config) : Prop :=
  exists k, 0 <= k < 32 /\ chunksize cfg = 2 ^ k.

Lemma default_chunksize_ok : chunksize_ok default_config.
Proof. exists 19. split; [lia|done]. Qed.

Definition path_max_length : Z := 4096. (* path::max_length *)

(** ** Error numbers *)
Definition ENOENT : Z := 2.
Definition EIO : Z := 5.
Definition EBADF : Z := 9.
Definition EBUSY : Z := 16.
Definition EEXIST : Z := 17.
Definition ENOTDIR : Z := 20.
Definition EISDIR : Z := 21.
Definition EINVAL : Z := 22.
Definition ENOSPC : Z := 28.
Definition ERANGE : Z := 34.
Definition ENAMETOOLONG : Z := 36.
Definition ENOTEMPTY : Z := 39.
Definition ELOOP : Z := 40.
Definition EOVERFLOW : Z := 75.
Definition ENOTSUP : Z := 95.
Definition ENOBUFS : Z := 105.
(** [#define EUNKNOWN (-1)] in [include/client/preload.hpp]. *)
Definition EUNKNOWN : Z := -1.

(** The result of a client function: the value returned, and the value it
    assigned to [errno] if it did. *)
Definition result : Type := Z * option Z.
Definition fail_with (err : Z) : result := (-1, Some err).

(** ** File modes *)
Definition S_IFMT : Z := 0xF000.
Definition S_IFSOCK : Z := 0xC000.
Definition S_IFLNK : Z := 0xA000.
Definition S_IFREG : Z := 0x8000.
Definition S_IFBLK : Z := 0x6000.
Definition S_IFDIR : Z := 0x4000.
Definition S_IFCHR : Z := 0x2000.
Definition S_IFIFO : Z := 0x1000.
Definition S_ISREG (m : Z) : bool := Z.land m S_IFMT =? S_IFREG.
Definition S_ISDIR (m : Z) : bool := Z.land m S_IFMT =? S_IFDIR.
Definition S_ISLNK (m : Z) : bool := Z.land m S_IFMT =? S_IFLNK.

(** ** Open flags, [*at] flags, seek and fcntl commands *)
Definition O_RDONLY : Z := 0.
Definition O_WRONLY : Z := 1.
Definition O_RDWR : Z := 2.
Definition O_CREAT : Z := 0x40.
Definition O_EXCL : Z := 0x80.
Definition O_TRUNC : Z := 0x200.
Definition O_APPEND : Z := 0x400.
Definition O_DIRECTORY : Z := 0x10000.
Definition O_NOFOLLOW : Z := 0x20000.
Definition O_CLOEXEC : Z := 0x80000.
Definition O_PATH : Z := 0x200000.
Definition AT_FDCWD : Z := -100.
Definition AT_REMOVEDIR : Z := 0x200.
Definition AT_EMPTY_PATH : Z := 0x1000.
Definition SEEK_SET : Z := 0.
Definition SEEK_CUR : Z := 1.
Definition SEEK_END : Z := 2.
Definition SEEK_DATA : Z := 3.
Definition SEEK_HOLE : Z := 4.
Definition F_DUPFD : Z := 0.
Definition F_GETFD : Z := 1.
Definition F_SETFD : Z := 2.
Definition F_GETFL : Z := 3.
Definition F_DUPFD_CLOEXEC : Z := 1030.
Definition FD_CLOEXEC : Z := 1.
Definition DT_DIR : Z := 4.
Definition DT_REG : Z := 8.

(** [flags & f] used as a condition. *)
Definition has_flag (flags f : Z) : bool := negb (Z.land flags f =? 0).

Lemma mode_kinds_disjoint m :
  (S_ISREG m = true -> S_ISDIR m = false /\ S_ISLNK m = false) /\
  (S_ISDIR m = true -> S_ISREG m = false /\ S_ISLNK m = false) /\
  (S_ISLNK m = true -> S_ISREG m = false /\ S_ISDIR m = false).
Proof.
  unfold S_ISREG, S_ISDIR, S_ISLNK. rewrite !Z.eqb_eq, !Z.eqb_neq.
  unfold S_IFREG, S_IFDIR, S_IFLNK. lia.
Qed.
