(* ===== verification/ChunkCalc.v ===== *)
(** * Chunk arithmetic ([include/global/chunk_calc_util.hpp])

    The functions that map a file offset to chunk ids and paddings.  They
    are written with masks and shifts on 64-bit integers and a de Bruijn
    style [log2] table; the theorems show that they are the division and
    remainder by the chunk size whenever that size is a power of two and
    the offsets fit in 63 bits. *)

From S2P Require Import Prelude.

(** ** Definitions *)

Definition log2_table : list Z :=
  [0; 58; 1; 59; 47; 53; 2; 60; 39; 48; 27; 54; 33; 42; 3; 61;
   51; 37; 40; 49; 18; 28; 20; 55; 30; 34; 11; 43; 14; 22; 4; 62;
   57; 46; 52; 38; 26; 32; 41; 50; 36; 17; 19; 29; 10; 13; 21; 56;
   45; 25; 31; 35; 16; 9; 12; 44; 24; 15; 8; 23; 7; 6; 5; 63].

(** [n |= n >> k] *)
Definition smear (k n : Z) : Z := Z.lor n (Z.shiftr n k).

Definition log2 (n : Z) : Z :=
  let n := smear 1 n in
  let n := smear 2 n in
  let n := smear 4 n in
  let n := smear 8 n in
  let n := smear 16 n in
  let n := smear 32 n in
  nth (Z.to_nat (Z.shiftr (u64 (n * 0x03f6eaf2cd271461)) 58)) log2_table 0.

Definition chnk_lalign (offset chnk_size : Z) : Z :=
  i64 (Z.land (u64 offset) (u64 (Z.lnot (u64 (chnk_size - 1))))).

Definition chnk_ralign (offset chnk_size : Z) : Z :=
  chnk_lalign (i64 (u64 (offset + chnk_size))) chnk_size.

Definition chnk_lpad (offset chnk_size : Z) : Z := u64 offset mod chnk_size.

Definition chnk_rpad (offset chnk_size : Z) : Z := u64 (i64 (- offset)) mod chnk_size.

Definition chnk_id_for_offset (offset chnk_size : Z) : Z :=
  u64 (Z.shiftr (chnk_lalign offset chnk_size) (log2 chnk_size)).

Definition chnk_count_for_offset (offset count chnk_size : Z) : Z :=
  let chnk_start := chnk_lalign offset chnk_size in
  let chnk_end := chnk_lalign (i64 (u64 (offset + count - 1))) chnk_size in
  u64 (i64 (Z.shiftr chnk_end (log2 chnk_size) - Z.shiftr chnk_start (log2 chnk_size) + 1)).

(** ** The [log2] table *)

(** [smeared w m n]: bit [i] of [m] is set when one of the [w] bits of [n]
    from [i] on is set. *)
Definition smeared (w m n : Z) : Prop :=
  forall i, 0 <= i ->
    Z.testbit m i = true <-> exists j, 0 <= j < w /\ Z.testbit n (i + j) = true.

Lemma smeared_init n : smeared 1 n n.
Proof.
  intros i Hi. split.
  - intros H. exists 0. by rewrite Z.add_0_r.
  - intros (j & Hj & H). replace (i + j) with i in H by lia. done.
Qed.

Lemma smeared_step w m n : 0 <= w -> smeared w m n -> smeared (2 * w) (smear w m) n.
Proof.
  intros Hw H i Hi. unfold smear. rewrite Z.lor_spec, Z.shiftr_spec by done.
  rewrite orb_true_iff, (H i), (H (i + w)) by lia. split.
  - intros [(j & ? & E)|(j & ? & E)]; [exists j|exists (w + j)]; (split; [lia|]).
    + done.
    + by rewrite Z.add_assoc.
  - intros (j & ? & E). destruct (decide (j < w)); [left; exists j; split; [lia|done]|].
    right. exists (j - w). split; [lia|]. by replace (i + w + (j - w)) with (i + j) by lia.
Qed.

Lemma smeared_ones n m : 0 < n < 2 ^ 64 -> 0 <= m -> smeared 64 m n ->
  m = Z.ones (Z.log2 n + 1).
Proof.
  intros Hn Hm H. apply Z.bits_inj_iff'. intros i Hi.
  assert (0 <= Z.log2 n < 64) as Hl.
  { split; [apply Z.log2_nonneg|]. apply Z.log2_lt_pow2; lia. }
  destruct (decide (i < Z.log2 n + 1)).
  - rewrite Z.ones_spec_low by lia. apply H; [done|].
    exists (Z.log2 n - i). split; [lia|].
    replace (i + (Z.log2 n - i)) with (Z.log2 n) by lia. apply Z.bit_log2. lia.
  - rewrite Z.ones_spec_high by lia. apply not_true_is_false. intros E.
    apply H in E as (j & ? & E); [|done]. rewrite Z.bits_above_log2 in E by lia. done.
Qed.

Lemma log2_smeared n : 0 < n < 2 ^ 64 ->
  smear 32 (smear 16 (smear 8 (smear 4 (smear 2 (smear 1 n))))) = Z.ones (Z.log2 n + 1).
Proof.
  intros Hn. apply smeared_ones; [done| |].
  - unfold smear. repeat (rewrite Z.lor_nonneg || rewrite Z.shiftr_nonneg). lia.
  - do 6 (apply smeared_step with (w := 32) || apply smeared_step with (w := 16)
      || apply smeared_step with (w := 8) || apply smeared_step with (w := 4)
      || apply smeared_step with (w := 2) || apply smeared_step with (w := 1); [lia|]).
    apply smeared_init.
Qed.

Definition table_ok (k : nat) : bool :=
  nth (Z.to_nat (Z.shiftr (u64 (Z.ones (Z.of_nat k + 1) * 0x03f6eaf2cd271461)) 58)) log2_table 0
    =? Z.of_nat k.

Lemma table_ok_all : forallb table_ok (seq 0 64) = true.
Proof. vm_compute. reflexivity. Qed.

Lemma log2_correct n : 0 < n < 2 ^ 64 -> log2 n = Z.log2 n.
Proof.
  intros Hn. unfold log2. cbv zeta. rewrite log2_smeared by done.
  assert (0 <= Z.log2 n < 64) as Hl.
  { split; [apply Z.log2_nonneg|]. apply Z.log2_lt_pow2; lia. }
  pose proof table_ok_all as T. rewrite forallb_forall in T.
  specialize (T (Z.to_nat (Z.log2 n))).
  rewrite in_seq in T. specialize (T ltac:(lia)). unfold table_ok in T.
  rewrite Z2Nat.id in T by lia. by apply Z.eqb_eq in T.
Qed.

Lemma log2_pow2 k : 0 <= k < 64 -> log2 (2 ^ k) = k.
Proof.
  intros Hk. rewrite log2_correct; [apply Z.log2_pow2; lia|].
  split; [apply Z.pow_pos_nonneg; lia|]. apply Z.pow_lt_mono_r; lia.
Qed.

(** ** Masks as division by a power of two *)

Lemma land_lnot_mask x k : 0 <= k -> 0 <= x ->
  Z.land x (Z.lnot (2 ^ k - 1)) = x - x mod 2 ^ k.
Proof.
  intros Hk Hx. change (2 ^ k - 1) with (Z.pred (2 ^ k)).
  rewrite <- Z.ones_equiv, <- Z.ldiff_land, Z.ldiff_ones_r by done.
  rewrite Z.shiftr_div_pow2, Z.shiftl_mul_pow2 by done.
  pose proof (Z.div_mod x (2 ^ k)). pose proof (Z.pow_pos_nonneg 2 k). lia.
Qed.

Lemma land_wrapu x y w : 0 <= w -> 0 <= x < 2 ^ w -> Z.land x (wrapu w y) = Z.land x y.
Proof.
  intros Hw Hx. unfold wrapu.
  rewrite <- Z.land_ones, (Z.land_comm y), Z.land_assoc by done.
  f_equal. rewrite Z.land_ones by done. by apply Z.mod_small.
Qed.

Section pow2.
Context (k cs : Z) (Hk : 0 <= k < 63) (Hcs : cs = 2 ^ k).

Lemma cs_pos : 0 < cs.
Proof using All. subst. apply Z.pow_pos_nonneg; lia. Qed.

Lemma cs_bound : cs < 2 ^ 63.
Proof using All. subst. apply Z.pow_lt_mono_r; lia. Qed.

Lemma cs_dvd : (cs | 2 ^ 64).
Proof using All.
  subst. exists (2 ^ (64 - k)). rewrite <- Z.pow_add_r by lia. f_equal. lia.
Qed.

Lemma chnk_lalign_pow2 offset :
  0 <= offset < 2 ^ 63 -> chnk_lalign offset cs = cs * (offset / cs).
Proof using All.
  intros Ho. pose proof cs_pos. pose proof cs_bound.
  unfold chnk_lalign. rewrite (wrapu_small 64 offset) by int_solve.
  rewrite (wrapu_small 64 (cs - 1)) by int_solve.
  rewrite land_wrapu by (simpl in *; lia). rewrite Hcs, land_lnot_mask, <- Hcs by lia.
  pose proof (Z.div_mod offset cs). pose proof (Z.mod_pos_bound offset cs).
  pose proof (Z.mod_le offset cs).
  rewrite wraps_small by int_solve. lia.
Qed.

Lemma log2_cs : log2 cs = k.
Proof using All. rewrite Hcs. apply log2_pow2. lia. Qed.

Lemma shiftr_lalign offset :
  0 <= offset < 2 ^ 63 -> Z.shiftr (chnk_lalign offset cs) (log2 cs) = offset / cs.
Proof using All.
  intros Ho. rewrite chnk_lalign_pow2, log2_cs by done. pose proof cs_pos.
  rewrite Z.shiftr_div_pow2, <- Hcs by lia. rewrite Z.mul_comm. apply Z.div_mul. lia.
Qed.

Lemma div_bound offset : 0 <= offset < 2 ^ 63 -> 0 <= offset / cs < 2 ^ 63.
Proof using All.
  intros Ho. pose proof cs_pos. split; [by apply Z.div_pos; lia|].
  apply Z.div_lt_upper_bound; nia.
Qed.

Lemma chnk_id_pow2 offset :
  0 <= offset < 2 ^ 63 -> chnk_id_for_offset offset cs = offset / cs.
Proof using All.
  intros Ho. unfold chnk_id_for_offset. rewrite shiftr_lalign by done.
  pose proof (div_bound offset Ho). apply wrapu_small. int_solve.
Qed.

Lemma chnk_lpad_pow2 offset : chnk_lpad offset cs = offset mod cs.
Proof using All.
  unfold chnk_lpad, wrapu. symmetry. pose proof cs_pos.
  apply Znumtheory.Zmod_div_mod; [done|lia|]. apply cs_dvd.
Qed.

Lemma chnk_rpad_pow2 offset :
  - 2 ^ 63 < offset < 2 ^ 63 -> chnk_rpad offset cs = (- offset) mod cs.
Proof using All.
  intros Ho. unfold chnk_rpad. rewrite wraps_small by int_solve.
  change (chnk_lpad (- offset) cs = - offset mod cs). apply chnk_lpad_pow2.
Qed.

Lemma chnk_ralign_pow2 offset :
  0 <= offset -> offset + cs < 2 ^ 63 -> chnk_ralign offset cs = cs * (offset / cs + 1).
Proof using All.
  intros Ho Hc. pose proof cs_pos. unfold chnk_ralign.
  rewrite wrapu_small, wraps_small by int_solve.
  rewrite chnk_lalign_pow2 by lia. f_equal.
  replace (offset + cs) with (offset + 1 * cs) by lia. apply Z.div_add. lia.
Qed.

Lemma chnk_count_pow2 offset count :
  0 <= offset -> 0 < count -> offset + count <= 2 ^ 63 ->
  chnk_count_for_offset offset count cs = (offset + count - 1) / cs - offset / cs + 1.
Proof using All.
  intros Ho Hc Hb. pose proof cs_pos. unfold chnk_count_for_offset. cbv zeta.
  rewrite (wrapu_small 64 (offset + count - 1)), (wraps_small 64 (offset + count - 1)) by int_solve.
  rewrite !shiftr_lalign by lia. rewrite wrapu_wraps by lia.
  pose proof (Z.div_le_mono offset (offset + count - 1) cs).
  pose proof (div_bound (offset + count - 1)). pose proof (div_bound offset).
  apply wrapu_small. int_solve.
Qed.
End pow2.

(** ** Properties *)

(** The table-driven [log2] is the floor of the base-2 logarithm for
    every non-zero 64-bit argument. *)
Theorem log2_floor (n : Z) : 0 < n < 2 ^ 64 -> log2 n = Z.log2 n.
Proof. apply log2_correct. Qed.

Lemma log2_floor_witness : log2 524288 = Z.log2 524288.
Proof. apply (log2_floor 524288). lia. Defined.

(** For a chunk size that is a power of two and a 63-bit offset, chunk
    id, left alignment and the two paddings describe the division of the
    offset by the chunk size: the id and left padding rebuild the offset,
    the right padding reaches the next boundary, and both paddings are
    smaller than a chunk. *)
Theorem chunk_geometry (k offset : Z) :
  0 <= k < 63 -> 0 <= offset < 2 ^ 63 ->
  let cs := 2 ^ k in
  offset = chnk_id_for_offset offset cs * cs + chnk_lpad offset cs /\
  chnk_lalign offset cs = chnk_id_for_offset offset cs * cs /\
  0 <= chnk_lpad offset cs < cs /\
  (offset + chnk_rpad offset cs) mod cs = 0 /\
  0 <= chnk_rpad offset cs < cs.
Proof.
  intros Hk Ho cs. pose proof (cs_pos k cs Hk eq_refl).
  rewrite (chnk_id_pow2 k cs), (chnk_lpad_pow2 k cs), (chnk_rpad_pow2 k cs),
    (chnk_lalign_pow2 k cs) by (done || lia).
  pose proof (Z.div_mod offset cs). pose proof (Z.mod_pos_bound offset cs).
  pose proof (Z.mod_pos_bound (- offset) cs).
  rewrite Z.add_mod_idemp_r, Z.add_opp_diag_r, Z.mod_0_l by lia. lia.
Qed.

Lemma chunk_geometry_witness :
  let cs := 2 ^ 19 in
  1000000 = chnk_id_for_offset 1000000 cs * cs + chnk_lpad 1000000 cs /\
  chnk_lalign 1000000 cs = chnk_id_for_offset 1000000 cs * cs /\
  0 <= chnk_lpad 1000000 cs < cs /\
  (1000000 + chnk_rpad 1000000 cs) mod cs = 0 /\
  0 <= chnk_rpad 1000000 cs < cs.
Proof. apply (chunk_geometry 19 1000000); lia. Defined.

(** [chnk_count_for_offset] counts the chunks an operation touches: the
    ids from the first chunk on, as many as it returns, are exactly the ids
    of the bytes [offset .. offset + count - 1]. *)
Theorem chunk_count_exact (k offset count id : Z) :
  0 <= k < 63 -> 0 <= offset -> 0 < count -> offset + count <= 2 ^ 63 ->
  let cs := 2 ^ k in
  let first := chnk_id_for_offset offset cs in
  first <= id < first + chnk_count_for_offset offset count cs <->
  exists o, offset <= o < offset + count /\ chnk_id_for_offset o cs = id.
Proof.
  intros Hk Ho Hc Hb cs first. pose proof (cs_pos k cs Hk eq_refl) as Hp.
  subst first. rewrite (chnk_count_pow2 k cs), (chnk_id_pow2 k cs) by (done || lia). split.
  - intros Hid. exists (Z.max offset (id * cs)).
    pose proof (Z.mul_div_le (offset + count - 1) cs Hp) as M.
    assert (id * cs <= offset + count - 1) by nia.
    split; [lia|]. rewrite (chnk_id_pow2 k cs) by (done || lia).
    destruct (Z.max_spec offset (id * cs)) as [[? ->]|[? ->]]; [by apply Z.div_mul; lia|].
    apply Z.le_antisymm; [lia|].
    rewrite <- (Z.div_mul id cs) by lia. apply Z.div_le_mono; lia.
  - intros (o & Hr & <-). rewrite (chnk_id_pow2 k cs) by (done || lia).
    pose proof (Z.div_le_mono offset o cs Hp). 
    pose proof (Z.div_le_mono o (offset + count - 1) cs Hp). lia.
Qed.

Lemma chunk_count_exact_witness :
  let cs := 2 ^ 2 in
  let first := chnk_id_for_offset 3 cs in
  first <= 2 < first + chnk_count_for_offset 3 6 cs <->
  exists o, 3 <= o < 3 + 6 /\ chnk_id_for_offset o cs = 2.
Proof. apply (chunk_count_exact 2 3 6 2); lia. Defined.
