(* ===== verification/Distributor.v ===== *)
(** * Placement of data and metadata ([src/global/rpc/distributor.cpp])

    The three [Distributor] classes.  [std::hash<std::string>] is a
    parameter: its only law is that it returns a [size_t]. *)

From S2P Require Import Prelude.

(** The virtual methods of [Distributor]. *)
Record Distributor := MkDistributor {
  localhost : Z;
  locate_data : str -> Z -> Z;
  locate_file_metadata : str -> Z;
  locate_directory_metadata : str -> list Z
}.

(** [iota(all_hosts_.begin(), all_hosts_.end(), 0)] over [hosts_size] slots. *)
Definition all_hosts (hosts_size : Z) : list Z := Z.of_nat <$> seq 0 (Z.to_nat hosts_size).

Section distributors.
Context (str_hash : str -> Z).

(** [SimpleHashDistributor].  A chunk id is narrowed to [chunkid_t]
    ([unsigned int]) at the call. *)
Definition SimpleHashDistributor (localhost_ hosts_size : Z) : Distributor := {|
  localhost := localhost_;
  locate_data path chnk_id :=
    u32 (str_hash (path ++ to_string_u (u32 chnk_id)) mod hosts_size);
  locate_file_metadata path := u32 (str_hash path mod hosts_size);
  locate_directory_metadata path := all_hosts hosts_size
|}.

(** [LocalOnlyDistributor]. *)
Definition LocalOnlyDistributor (localhost_ : Z) : Distributor := {|
  localhost := localhost_;
  locate_data path chnk_id := localhost_;
  locate_file_metadata path := localhost_;
  locate_directory_metadata path := [localhost_]
|}.

(** [ForwarderDistributor]: data go to the forwarder, metadata are hashed. *)
Definition ForwarderDistributor (fwhost hosts_size : Z) : Distributor := {|
  localhost := fwhost;
  locate_data path chnk_id := fwhost;
  locate_file_metadata path := u32 (str_hash path mod hosts_size);
  locate_directory_metadata path := all_hosts hosts_size
|}.
End distributors.

(** What the forwarding code relies on: every location is an index of the
    host table, and a directory is looked up on the host of every entry. *)
Class DistributorOk (n : Z) (d : Distributor) : Prop := {
  locate_data_range path id : 0 <= locate_data d path id < n;
  locate_metadata_range path : 0 <= locate_file_metadata d path < n;
  locate_directory_range path h : h ∈ locate_directory_metadata d path -> 0 <= h < n;
  locate_directory_complete path p :
    locate_file_metadata d p ∈ locate_directory_metadata d path;
  locate_directory_nodup path : NoDup (locate_directory_metadata d path)
}.

Lemma elem_of_all_hosts n h : h ∈ all_hosts n <-> 0 <= h < n.
Proof.
  unfold all_hosts. rewrite list_elem_of_fmap. setoid_rewrite elem_of_seq. split.
  - intros (i & -> & Hi). lia.
  - intros Hh. exists (Z.to_nat h). lia.
Qed.

Lemma all_hosts_nodup n : NoDup (all_hosts n).
Proof. apply NoDup_fmap_2; [apply _|]. apply NoDup_seq. Qed.

Lemma u32_mod_range h n : 0 < n < 2 ^ 32 -> 0 <= u32 (h mod n) < n.
Proof.
  intros Hn. pose proof (Z.mod_pos_bound h n). rewrite wrapu_small by int_solve. lia.
Qed.

Section instances.
Context (str_hash : str -> Z) (n : Z).

Lemma SimpleHashDistributor_ok l :
  0 < n < 2 ^ 32 -> DistributorOk n (SimpleHashDistributor str_hash l n).
Proof.
  intros Hn. split; simpl; intros; try by apply u32_mod_range.
  - by apply elem_of_all_hosts.
  - by apply elem_of_all_hosts, u32_mod_range.
  - apply all_hosts_nodup.
Qed.

Lemma LocalOnlyDistributor_ok l :
  0 <= l < n -> DistributorOk n (LocalOnlyDistributor l).
Proof.
  intros Hl. split; simpl; intros; try done.
  - by apply list_elem_of_singleton in H as ->.
  - by apply list_elem_of_singleton.
  - apply NoDup_singleton.
Qed.

Lemma ForwarderDistributor_ok f :
  0 < n < 2 ^ 32 -> 0 <= f < n -> DistributorOk n (ForwarderDistributor str_hash f n).
Proof.
  intros Hn Hf. split; simpl; intros; try done; try by apply u32_mod_range.
  - by apply elem_of_all_hosts.
  - by apply elem_of_all_hosts, u32_mod_range.
  - apply all_hosts_nodup.
Qed.

(** The daemon rebuilds a [SimpleHashDistributor] from the host id and
    host count in the request: placement does not depend on who asks. *)
Lemma locate_data_any_localhost l1 l2 path id :
  locate_data (SimpleHashDistributor str_hash l1 n) path id =
  locate_data (SimpleHashDistributor str_hash l2 n) path id.
Proof. done. Qed.
End instances.
