(* ===== verification/PathUtil.v ===== *)
(** * Path helpers ([src/global/path_util.cpp])

    Strings are lists of characters; a failed [assert] is [Trap].  The
    reference notion is a list of components: [split_path] inverts
    [join_path] on proper components, and [dirname] drops the last one. *)

From S2P Require Import Prelude.

(** ** Definitions *)

Definition is_relative (path : str) : bool :=
  bool_decide (path <> []) && bool_decide (front path <> sep).

Definition is_absolute (path : str) : bool :=
  bool_decide (path <> []) && bool_decide (front path = sep).

Definition has_trailing_slash (path : str) : bool :=
  bool_decide (path <> []) && bool_decide (back path = sep).

(** [raw_path] is a C string. *)
Definition prepend_path (prefix_path raw_path : str) : res str :=
  assert_ (negb (has_trailing_slash prefix_path))
    (Ok (prefix_path ++ [sep] ++ cstr raw_path)).

(** The [while] loop of [split_path]; [end_] is [None] for [npos].  The
    length of the path is enough fuel: [end_] grows at each turn. *)
Fixpoint split_loop (fuel : nat) (path : str) (end_ : option nat) (tokens : list str)
    : list str :=
  match fuel, end_ with
  | S f, Some start =>
      if (start <? length path)%nat then
        match find_char sep path start with
        | None => split_loop f path None (tokens ++ [drop start path])
        | Some e => split_loop f path (Some (S e)) (tokens ++ [substr path start (e - start)])
        end
      else tokens
  | _, _ => tokens
  end.

Definition split_path (path : str) : list str :=
  let end_ := if decide (front path <> sep) then 0%nat else 1%nat in
  split_loop (S (length path)) path (Some end_) [].

(** [std::mismatch(absolute.begin(), absolute.end(), root.begin())]: the
    length of the common prefix; the scan stops at the terminator of
    [root]. *)
Fixpoint mismatch (a b : str) : nat :=
  match a, b with
  | x :: a', y :: b' => if decide (x = y) then S (mismatch a' b') else 0%nat
  | _, _ => 0%nat
  end.

Definition absolute_to_relative (root_path absolute_path : str) : res str :=
  assert_ (is_absolute root_path)
  (assert_ (is_absolute absolute_path)
  (assert_ (negb (has_trailing_slash root_path))
  (let m := mismatch absolute_path root_path in
   if decide (m <> length root_path) then Ok [] else
   assert_ (bool_decide (m = length root_path))
   (let rel := drop m absolute_path in
    if decide (rel = []) then Ok [sep] else
    if has_trailing_slash absolute_path && bool_decide (length rel <> 1%nat)
    then Ok (take (length rel - 1) rel) else Ok rel)))).

Definition dirname (path : str) : res str :=
  assert_ ((1 <? length path)%nat || bool_decide (front path = sep))
  (assert_ ((length path =? 1)%nat || negb (has_trailing_slash path))
  (match find_last_of sep path with
   | None => Trap
   | Some parent_path_size =>
       let parent_path_size := if (parent_path_size =? 0)%nat then 1%nat else parent_path_size in
       Ok (substr path 0 parent_path_size)
   end)).

(** ** Components *)

(** A component: not empty and without separator. *)
Definition component (c : str) : Prop := c <> [] /\ sep ∉ c.

(** The absolute path of a list of components; no component gives [""]. *)
Definition join_path (cs : list str) : str := concat ((fun c => sep :: c) <$> cs).

Lemma join_path_cons c cs : join_path (c :: cs) = sep :: c ++ join_path cs.
Proof. done. Qed.

Lemma join_path_app cs1 cs2 : join_path (cs1 ++ cs2) = join_path cs1 ++ join_path cs2.
Proof. unfold join_path. by rewrite fmap_app, concat_app. Qed.

Lemma join_path_snoc cs c : join_path (cs ++ [c]) = join_path cs ++ sep :: c.
Proof. rewrite join_path_app. unfold join_path at 2. simpl. by rewrite app_nil_r. Qed.

Lemma join_path_nil cs : join_path cs = [] <-> cs = [].
Proof. destruct cs as [|c cs]; [done|]. rewrite join_path_cons. split; done. Qed.

Lemma join_path_absolute cs : cs <> [] -> is_absolute (join_path cs) = true.
Proof. by destruct cs. Qed.

Lemma find_from_app_sep (c t : str) : sep ∉ c -> find_from sep (c ++ sep :: t) = Some (length c).
Proof.
  intros H. apply find_from_Some. rewrite list_lookup_middle by done. split; [done|].
  intros i Hi E. rewrite lookup_app_l in E by done. by apply list_elem_of_lookup_2 in E.
Qed.

Lemma join_path_no_trailing cs :
  Forall component cs -> has_trailing_slash (join_path cs) = false.
Proof.
  intros F. unfold has_trailing_slash.
  destruct cs as [|c cs] using rev_ind; [by rewrite bool_decide_false by naive_solver|].
  apply Forall_app in F as [_ [[Hne Hs] _]%Forall_cons].
  rewrite join_path_snoc. apply andb_false_intro2, bool_decide_eq_false_2.
  destruct c as [|x c' _] using rev_ind; [done|].
  replace (join_path cs ++ sep :: c' ++ [x]) with ((join_path cs ++ sep :: c') ++ [x])
    by (by rewrite <- app_assoc).
  rewrite back_snoc. set_solver.
Qed.

Lemma drop_substr (pre c t : str) n : n = length pre ->
  substr (pre ++ c ++ t) n (length c) = c.
Proof. intros ->. unfold substr. by rewrite drop_app_length, take_app_length. Qed.

Lemma split_loop_join cs fuel pre c tokens :
  (length cs < fuel)%nat -> component c -> Forall component cs ->
  split_loop fuel (pre ++ c ++ join_path cs) (Some (length pre)) tokens = tokens ++ c :: cs.
Proof.
  revert fuel pre c tokens.
  induction cs as [|c2 cs IH]; intros fuel pre c tokens Hf [Hc Hs] F;
    (destruct fuel as [|fuel]; [lia|]); cbn [split_loop].
  all: rewrite (proj2 (Nat.ltb_lt _ _))
    by (rewrite !length_app; destruct c; [done|simpl; lia]).
  all: unfold find_char; rewrite drop_app_length.
  - unfold join_path. simpl. rewrite app_nil_r, (proj2 (find_from_None _ _)) by done.
    by destruct fuel.
  - rewrite join_path_cons, find_from_app_sep by done. cbn [fmap option_fmap option_map].
    apply Forall_cons in F as [Hc2 F].
    replace (length pre + length c - length pre)%nat with (length c) by lia.
    rewrite drop_substr by done.
    replace (pre ++ c ++ sep :: c2 ++ join_path cs)
      with ((pre ++ c ++ [sep]) ++ c2 ++ join_path cs) by (by rewrite <- !app_assoc).
    replace (S (length pre + length c))%nat with (length (pre ++ c ++ [sep]))
      by (rewrite !length_app; simpl; lia).
    rewrite IH by (done || (simpl in *; lia)). by rewrite <- app_assoc.
Qed.

Lemma length_join_path cs : Forall component cs -> (length cs <= length (join_path cs))%nat.
Proof.
  induction 1 as [|c cs [Hc _] _ IH]; [done|]. rewrite join_path_cons. simpl.
  rewrite length_app. lia.
Qed.

Lemma split_path_join cs : Forall component cs -> split_path (join_path cs) = cs.
Proof.
  intros F. destruct cs as [|c cs]; [done|]. unfold split_path.
  apply Forall_cons in F as [Hc F]. rewrite join_path_cons. simpl front.
  rewrite decide_False by naive_solver.
  replace (sep :: c ++ join_path cs) with ([sep] ++ c ++ join_path cs) by done.
  change 1%nat with (length [sep]).
  rewrite (split_loop_join cs _ [sep] c []); try done.
  pose proof (length_join_path cs F). rewrite !length_app. simpl. lia.
Qed.

Lemma join_path_inj cs1 cs2 :
  Forall component cs1 -> Forall component cs2 -> join_path cs1 = join_path cs2 -> cs1 = cs2.
Proof.
  intros F1 F2 E. rewrite <- (split_path_join cs1), <- (split_path_join cs2) by done.
  by rewrite E.
Qed.

Lemma dirname_join cs c :
  Forall component cs -> component c ->
  dirname (join_path (cs ++ [c])) = Ok (if decide (cs = []) then [sep] else join_path cs).
Proof.
  intros F Hc. unfold dirname.
  assert (Forall component (cs ++ [c])) as F' by (by apply Forall_app; auto).
  rewrite (join_path_no_trailing _ F'). destruct Hc as [Hne Hs].
  rewrite join_path_snoc at 1. rewrite length_app.
  rewrite (proj2 (Nat.ltb_lt _ _)) by (destruct c; [done|simpl; lia]).
  simpl. rewrite orb_true_r. simpl.
  rewrite join_path_snoc, find_last_of_app by done.
  destruct cs as [|c1 cs]; [done|]. rewrite decide_False by done.
  rewrite (proj2 (Nat.eqb_neq _ _)) by (rewrite join_path_cons; simpl; lia).
  unfold substr. rewrite drop_0. by rewrite take_app_length.
Qed.

Lemma mismatch_app a b : mismatch (a ++ b) a = length a.
Proof. induction a; simpl; [by destruct b|]. by rewrite decide_True, IHa. Qed.

Lemma mismatch_prefix a b : mismatch a b = length b -> exists t, a = b ++ t.
Proof.
  revert b. induction a as [|x a IH]; intros [|y b]; simpl; intros H.
  - by exists [].
  - done.
  - by exists (x :: a).
  - case_decide; [|done]. subst. destruct (IH b) as [t ->]; [lia|]. by exists t.
Qed.
