(* ===== verification/Metadata.v ===== *)
(** * Metadata entries ([src/global/metadata.cpp])

    The [Metadata] class and its textual form, the value stored in the
    key-value store and sent over the wire.  Which optional fields the text
    carries depends on the build configuration.  A constructor from text
    leaves the fields it does not read uninitialised: [junk] stands for
    their contents. *)

From S2P Require Import Prelude Config.

Record Metadata := MkMetadata {
  atime_ : Z;        (* time_t *)
  mtime_ : Z;
  ctime_ : Z;
  mode_ : Z;         (* mode_t, 32 bits *)
  link_count_ : Z;   (* nlink_t *)
  size_ : Z;         (* size_t *)
  blocks_ : Z;       (* blkcnt_t *)
  target_path_ : str
}.

Definition MSP : ascii := "|"%char.
Definition LINK_MODE : Z := Z.lor 0x1FF S_IFLNK.

(** ** Accessors *)

Definition set_atime (t : Z) (m : Metadata) : Metadata :=
  MkMetadata t (mtime_ m) (ctime_ m) (mode_ m) (link_count_ m) (size_ m) (blocks_ m) (target_path_ m).
Definition set_mtime (t : Z) (m : Metadata) : Metadata :=
  MkMetadata (atime_ m) t (ctime_ m) (mode_ m) (link_count_ m) (size_ m) (blocks_ m) (target_path_ m).
Definition set_ctime (t : Z) (m : Metadata) : Metadata :=
  MkMetadata (atime_ m) (mtime_ m) t (mode_ m) (link_count_ m) (size_ m) (blocks_ m) (target_path_ m).
Definition set_mode (v : Z) (m : Metadata) : Metadata :=
  MkMetadata (atime_ m) (mtime_ m) (ctime_ m) v (link_count_ m) (size_ m) (blocks_ m) (target_path_ m).
Definition set_link_count (v : Z) (m : Metadata) : Metadata :=
  MkMetadata (atime_ m) (mtime_ m) (ctime_ m) (mode_ m) v (size_ m) (blocks_ m) (target_path_ m).
Definition set_size (v : Z) (m : Metadata) : Metadata :=
  MkMetadata (atime_ m) (mtime_ m) (ctime_ m) (mode_ m) (link_count_ m) v (blocks_ m) (target_path_ m).
Definition set_blocks (v : Z) (m : Metadata) : Metadata :=
  MkMetadata (atime_ m) (mtime_ m) (ctime_ m) (mode_ m) (link_count_ m) (size_ m) v (target_path_ m).

Definition is_link (m : Metadata) : bool := S_ISLNK (mode_ m).

Definition target_path (m : Metadata) : res str :=
  assert_ (bool_decide (target_path_ m <> [])) (Ok (target_path_ m)).

Definition set_target_path (t : str) (m : Metadata) : res Metadata :=
  assert_ (bool_decide (t = []) || S_ISLNK (mode_ m))
  (assert_ (bool_decide (t = []) || bool_decide (front t = sep))
  (Ok (MkMetadata (atime_ m) (mtime_ m) (ctime_ m) (mode_ m) (link_count_ m) (size_ m)
         (blocks_ m) t))).

(** ** Constructors *)

(** [Metadata(mode)]. *)
Definition Metadata_mode (mode : Z) : res Metadata :=
  assert_ (S_ISDIR mode || S_ISREG mode) (Ok (MkMetadata 0 0 0 mode 0 0 0 [])).

(** [Metadata(mode, target_path)]. *)
Definition Metadata_link (mode : Z) (t : str) : res Metadata :=
  assert_ (S_ISLNK mode || S_ISDIR mode || S_ISREG mode)
  (assert_ (bool_decide (t = []) || S_ISLNK mode)
  (assert_ (bool_decide (t = []) || bool_decide (front t = sep))
  (Ok (MkMetadata 0 0 0 mode 0 0 0 t)))).

(** [init_ACM_time] and [update_ACM_time]; [time] is what [std::time] returned. *)
Definition init_ACM_time (time : Z) (m : Metadata) : Metadata :=
  set_ctime time (set_mtime time (set_atime time m)).

Definition update_ACM_time (a c mm : bool) (time : Z) (m : Metadata) : Metadata :=
  let m := if a then set_atime time m else m in
  let m := if c then set_ctime time m else m in
  if mm then set_mtime time m else m.

(** ** Text *)

(** [*ptr] on a NUL-terminated buffer. *)
Definition deref (ptr : str) : ascii := hd NUL ptr.

(** One [if (use_x)] block: check the separator, convert, advance;
    returns the field and the advanced pointer. *)
Definition parse_field (use : bool) (conv : str -> res (Z * nat)) (cast : Z -> Z)
    (old : Z) (ptr : str) : res (Z * str) :=
  if use then
    assert_ (bool_decide (deref ptr = MSP))
    ('(v, read) ← conv (tail ptr);
     assert_ (0 <? read)%nat (Ok (cast v, drop read (tail ptr))))
  else Ok (old, ptr).

(** [Metadata(const std::string& binary_str)]. *)
Definition Metadata_parse (cfg : config) (junk : Metadata) (binary_str : str) : res Metadata :=
  let ptr := cstr binary_str in
  '(mode, read) ← stoul ptr;
  assert_ (0 <? read)%nat
  (let ptr := drop read ptr in
  '(size, ptr) ← parse_field true stol u64 0 ptr;
  '(atime, ptr) ← parse_field (use_atime cfg) stol id (atime_ junk) ptr;
  '(mtime, ptr) ← parse_field (use_mtime cfg) stol id (mtime_ junk) ptr;
  '(ctime, ptr) ← parse_field (use_ctime cfg) stol id (ctime_ junk) ptr;
  '(link_count, ptr) ← parse_field (use_link_cnt cfg) stoul id (link_count_ junk) ptr;
  '(blocks, ptr) ← parse_field (use_blocks cfg) stoul i64 (blocks_ junk) ptr;
  if has_symlinks cfg then
    assert_ (bool_decide (deref ptr = MSP))
    (let t := tail ptr in
     assert_ (bool_decide (t = []) || S_ISLNK (u32 mode))
     (assert_ (bool_decide (deref (drop (length t) t) = NUL))
     (Ok (MkMetadata atime mtime ctime (u32 mode) link_count size blocks t))))
  else
    assert_ (bool_decide (deref ptr = NUL))
    (Ok (MkMetadata atime mtime ctime (u32 mode) link_count size blocks []))).

(** One optional field of [serialize]. *)
Definition print_field (use : bool) (text : str) : str := if use then MSP :: text else [].

(** [Metadata::serialize]. *)
Definition serialize (cfg : config) (m : Metadata) : str :=
  to_string_u (mode_ m) ++ MSP :: to_string_u (size_ m) ++
  print_field (use_atime cfg) (to_string_s (atime_ m)) ++
  print_field (use_mtime cfg) (to_string_s (mtime_ m)) ++
  print_field (use_ctime cfg) (to_string_s (ctime_ m)) ++
  print_field (use_link_cnt cfg) (to_string_u (link_count_ m)) ++
  print_field (use_blocks cfg) (to_string_s (blocks_ m)) ++
  print_field (has_symlinks cfg) (target_path_ m).

(** ** Well-formed entries *)

(** The machine ranges of the fields, with the two restrictions the text
    format adds: sizes are read back with [stol], so they must be below
    [2^63], and a target is a C string that only links have. *)
Record md_wf (m : Metadata) : Prop := {
  wf_mode : in_u 32 (mode_ m);
  wf_size : 0 <= size_ m < 2 ^ 63;
  wf_atime : in_s 64 (atime_ m);
  wf_mtime : in_s 64 (mtime_ m);
  wf_ctime : in_s 64 (ctime_ m);
  wf_link_count : in_u 64 (link_count_ m);
  wf_blocks : in_s 64 (blocks_ m);
  wf_target_nul : NUL ∉ target_path_ m;
  wf_target_link : target_path_ m = [] \/ S_ISLNK (mode_ m) = true
}.

(** What the text keeps of an entry: the fields it does not carry come from
    the uninitialised object. *)
Definition restrict (cfg : config) (junk m : Metadata) : Metadata :=
  MkMetadata
    (if use_atime cfg then atime_ m else atime_ junk)
    (if use_mtime cfg then mtime_ m else mtime_ junk)
    (if use_ctime cfg then ctime_ m else ctime_ junk)
    (mode_ m)
    (if use_link_cnt cfg then link_count_ m else link_count_ junk)
    (size_ m)
    (if use_blocks cfg then blocks_ m else blocks_ junk)
    (if has_symlinks cfg then target_path_ m else []).

(** ** Round trip *)

Lemma no_digit_msp t : no_digit_head (MSP :: t).
Proof. done. Qed.

Lemma no_digit_field use t rest : no_digit_head rest -> no_digit_head (print_field use t ++ rest).
Proof. by destruct use. Qed.

Lemma no_digit_field_nil use t : no_digit_head (print_field use t).
Proof. by destruct use. Qed.

Lemma parse_field_print use conv cast old text v rest :
  text <> [] -> conv (text ++ rest) = Ok (v, length text) ->
  parse_field use conv cast old (print_field use text ++ rest) =
  Ok (if use then cast v else old, rest).
Proof.
  intros Hne Hconv. unfold parse_field, print_field. destruct use; [|done].
  simpl. rewrite Hconv. simpl.
  destruct text as [|c t]; [done|]. simpl. by rewrite drop_app_length.
Qed.

Lemma to_string_s_nonempty n : to_string_s n <> [].
Proof. unfold to_string_s. case_match; [done|]. apply to_string_u_nonempty. Qed.

(** [stoul] reads back a signed value modulo [2^64]. *)
Lemma stoul_to_string_s n rest :
  in_s 64 n -> no_digit_head rest ->
  exists v, stoul (to_string_s n ++ rest) = Ok (v, length (to_string_s n)) /\ i64 v = n.
Proof.
  intros [H1 H2] Hr. simpl in *. unfold to_string_s. destruct (n <? 0) eqn:E.
  - apply Z.ltb_lt in E. unfold stoul. cbn [app].
    rewrite scan_number_neg by (done || lia). rewrite (proj2 (Z.ltb_ge _ _)) by lia.
    eexists. split; [done|]. rewrite Z.opp_involutive. unfold wrapu, wraps.
    rewrite Zplus_mod_idemp_l. fold (i64 n). apply wraps_small; [lia|]. split; simpl; lia.
  - apply Z.ltb_ge in E. exists n. rewrite stoul_to_string by (done || int_solve).
    split; [done|]. apply wraps_small; [lia|]. split; simpl; lia.
Qed.

Lemma to_string_s_no_nul n : NUL ∉ to_string_s n.
Proof.
  unfold to_string_s. destruct (n <? 0) eqn:E.
  - apply Z.ltb_lt in E. apply not_elem_of_cons. split; [done|].
    apply to_string_u_no_nul. lia.
  - apply Z.ltb_ge in E. by apply to_string_u_no_nul.
Qed.

Lemma print_field_no_nul use t : NUL ∉ t -> NUL ∉ print_field use t.
Proof. destruct use; simpl; [|set_solver]. rewrite not_elem_of_cons. done. Qed.

Lemma serialize_no_nul cfg m :
  0 <= mode_ m -> 0 <= size_ m -> 0 <= link_count_ m -> NUL ∉ target_path_ m ->
  NUL ∉ serialize cfg m.
Proof.
  intros. unfold serialize. rewrite !not_elem_of_app, not_elem_of_cons, !not_elem_of_app.
  repeat match goal with |- _ /\ _ => split end;
    try apply print_field_no_nul; try apply to_string_s_no_nul;
    try (by apply to_string_u_no_nul); done.
Qed.

Lemma parse_serialize cfg junk m :
  md_wf m -> Metadata_parse cfg junk (serialize cfg m) = Ok (restrict cfg junk m).
Proof.
  intros W. destruct W. unfold in_u in *.
  assert (NUL ∉ serialize cfg m) as Hnul by (apply serialize_no_nul; (done || lia)).
  unfold Metadata_parse. rewrite cstr_id by done. clear Hnul. unfold serialize.
  set (r6 := print_field (has_symlinks cfg) (target_path_ m)).
  set (r5 := print_field (use_blocks cfg) (to_string_s (blocks_ m)) ++ r6).
  set (r4 := print_field (use_link_cnt cfg) (to_string_u (link_count_ m)) ++ r5).
  set (r3 := print_field (use_ctime cfg) (to_string_s (ctime_ m)) ++ r4).
  set (r2 := print_field (use_mtime cfg) (to_string_s (mtime_ m)) ++ r3).
  set (r1 := print_field (use_atime cfg) (to_string_s (atime_ m)) ++ r2).
  assert (no_digit_head r6) as N6 by apply no_digit_field_nil.
  assert (no_digit_head r5) as N5 by by apply no_digit_field.
  assert (no_digit_head r4) as N4 by by apply no_digit_field.
  assert (no_digit_head r3) as N3 by by apply no_digit_field.
  assert (no_digit_head r2) as N2 by by apply no_digit_field.
  assert (no_digit_head r1) as N1 by by apply no_digit_field.
  destruct (stoul_to_string_s (blocks_ m) r6) as (vb & Eb & Ib); [done..|].
  pose proof (to_string_u_nonempty (mode_ m)) as Hm.
  rewrite stoul_to_string by (done || int_solve). cbn [mbind res_bind].
  rewrite (proj2 (Nat.ltb_lt _ _)) by (destruct (to_string_u (mode_ m)); [done|simpl; lia]).
  cbn [assert_]. rewrite drop_app_length.
  change (MSP :: to_string_u (size_ m) ++ r1)
    with (print_field true (to_string_u (size_ m)) ++ r1).
  rewrite <- (to_string_s_pos (size_ m)) by lia.
  rewrite (parse_field_print true stol u64 0 _ (size_ m)); cbn [mbind res_bind];
    [|apply to_string_s_nonempty|apply stol_to_string; [int_solve|done]].
  unfold r1. rewrite (parse_field_print _ stol id _ _ (atime_ m)); cbn [mbind res_bind];
    [|apply to_string_s_nonempty|by apply stol_to_string].
  unfold r2. rewrite (parse_field_print _ stol id _ _ (mtime_ m)); cbn [mbind res_bind];
    [|apply to_string_s_nonempty|by apply stol_to_string].
  unfold r3. rewrite (parse_field_print _ stol id _ _ (ctime_ m)); cbn [mbind res_bind];
    [|apply to_string_s_nonempty|by apply stol_to_string].
  unfold r4. rewrite (parse_field_print _ stoul id _ _ (link_count_ m)); cbn [mbind res_bind];
    [|apply to_string_u_nonempty|by apply stoul_to_string].
  unfold r5. rewrite (parse_field_print _ stoul i64 _ _ vb); cbn [mbind res_bind];
    [|apply to_string_s_nonempty|done].
  rewrite Ib, (wrapu_small 32 (mode_ m)), (wrapu_small 64 (size_ m)) by (done || int_solve).
  unfold restrict, r6, print_field, id. destruct (has_symlinks cfg); [|done]. simpl.
  rewrite drop_all. unfold assert_. rewrite (bool_decide_eq_true_2 (deref [] = NUL)) by done.
  destruct wf_target_link0 as [->| ->]; [done|]. by rewrite orb_true_r.
Qed.

(** ** Properties *)

(** C35. Parsing the text of a well-formed entry gives the entry back, for
    every build configuration: mode, size and the configured fields are
    recovered (a target path when symbolic links are compiled in), and only
    the fields the configuration leaves out are those of the uninitialised
    object. *)
Theorem metadata_text_roundtrip (cfg : config) (junk m : Metadata) :
  md_wf m -> Metadata_parse cfg junk (serialize cfg m) = Ok (restrict cfg junk m).
Proof. apply parse_serialize. Qed.

Definition example_md : Metadata := MkMetadata 0 0 0 33188 0 4096 0 [].

Lemma example_md_wf : md_wf example_md.
Proof. constructor; cbv [example_md mode_ size_ atime_ mtime_ ctime_ link_count_ blocks_ target_path_];
  unfold in_u, in_s; try lia; set_solver. Qed.

Lemma metadata_text_roundtrip_witness :
  Metadata_parse default_config example_md (serialize default_config example_md) =
  Ok (restrict default_config example_md example_md).
Proof. apply (metadata_text_roundtrip default_config example_md example_md example_md_wf). Defined.

(** Sizes of [2^63] bytes and more are printed but cannot be read back:
    the size is written as an unsigned number and parsed with [stol], which
    throws [std::out_of_range]. *)
Theorem huge_size_not_parsed (cfg : config) (junk m : Metadata) :
  in_u 32 (mode_ m) -> 2 ^ 63 <= size_ m < 2 ^ 64 -> 0 <= link_count_ m ->
  NUL ∉ target_path_ m ->
  Metadata_parse cfg junk (serialize cfg m) = Throw OutOfRange.
Proof.
  intros [Hm1 Hm2] Hs Hl Ht. unfold Metadata_parse.
  rewrite cstr_id by (apply serialize_no_nul; (done || lia)). unfold serialize.
  rewrite stoul_to_string by (done || int_solve). cbn [mbind res_bind].
  pose proof (to_string_u_nonempty (mode_ m)) as Hne.
  rewrite (proj2 (Nat.ltb_lt _ _)) by (destruct (to_string_u (mode_ m)); [done|simpl; lia]).
  cbn [assert_]. rewrite drop_app_length. unfold parse_field. cbn [deref hd tail].
  rewrite bool_decide_eq_true_2 by done. cbn [assert_]. unfold stol.
  rewrite scan_number_u by (lia || (repeat apply no_digit_field; apply no_digit_field_nil)).
  rewrite (proj2 (Z.ltb_ge _ _)), (proj2 (Z.ltb_lt _ _)) by lia. done.
Qed.

Lemma huge_size_not_parsed_witness :
  Metadata_parse default_config example_md
    (serialize default_config (set_size (2 ^ 63) example_md)) = Throw OutOfRange.
Proof.
  apply (huge_size_not_parsed default_config example_md (set_size (2 ^ 63) example_md)).
  - unfold in_u. simpl. lia.
  - simpl. lia.
  - simpl. lia.
  - set_solver.
Defined.
