(* ===== verification/Merge.v ===== *)
(** * Merge operands of the metadata store ([src/daemon/backend/metadata/merge.cpp])

    Creations and size changes are written to RocksDB as textual merge
    operands; [MetadataMergeOperator::FullMergeV2] folds a list of them over
    the stored entry.  [apply_op] is the abstract meaning of one operand on
    a file size, and the theorems show that the text round-trips and that
    [FullMergeV2] computes the abstract fold, however RocksDB batches the
    operands. *)

From S2P Require Import Prelude Config Metadata.

(** ** Operands *)

Definition id_increase_size : ascii := "i"%char.
Definition id_decrease_size : ascii := "d"%char.
Definition id_create : ascii := "c"%char.
Definition operand_id_suffix : ascii := ":"%char.
Definition op_separator : ascii := ","%char.
Definition true_char : ascii := "t"%char.
Definition false_char : ascii := "f"%char.

Inductive MergeOperand : Type :=
| IncreaseSizeOperand (size : Z) (append : bool)
| DecreaseSizeOperand (size : Z)
| CreateOperand (metadata : str).

Definition op_id (op : MergeOperand) : ascii :=
  match op with
  | IncreaseSizeOperand _ _ => id_increase_size
  | DecreaseSizeOperand _ => id_decrease_size
  | CreateOperand _ => id_create
  end.

Definition serialize_id (op : MergeOperand) : str := [op_id op; operand_id_suffix].

Definition serialize_params (op : MergeOperand) : str :=
  match op with
  | IncreaseSizeOperand size append =>
      to_string_u size ++ [op_separator; if negb append then false_char else true_char]
  | DecreaseSizeOperand size => to_string_u size
  | CreateOperand metadata => metadata
  end.

(** [MergeOperand::serialize]. *)
Definition serialize_op (op : MergeOperand) : str := serialize_id op ++ serialize_params op.

(** [slice[n]]; an index out of range fails the assertion of [rdb::Slice]. *)
Definition slice_at (s : str) (n : nat) : res ascii :=
  match s !! n with Some c => Ok c | None => Trap end.

(** [MergeOperand::get_id] and [get_params]. *)
Definition get_id (serialized_op : str) : res ascii := slice_at serialized_op 0.

Definition get_params (serialized_op : str) : res str :=
  c ← slice_at serialized_op 1;
  assert_ (bool_decide (c = operand_id_suffix)) (Ok (drop 2 serialized_op)).

(** [IncreaseSizeOperand(const rdb::Slice&)]: size and append flag. *)
Definition parse_increase (serialized_op : str) : res (Z * bool) :=
  '(size, read) ← stoul serialized_op;
  let chrs_parsed := (read + 1)%nat in
  c ← slice_at serialized_op (chrs_parsed - 1);
  assert_ (bool_decide (c = op_separator))
  (f ← slice_at serialized_op chrs_parsed;
   assert_ (bool_decide (f = false_char) || bool_decide (f = true_char))
   (assert_ (chrs_parsed + 1 =? length serialized_op)%nat
   (Ok (size, bool_decide (f <> false_char))))).

(** [DecreaseSizeOperand(const rdb::Slice&)]. *)
Definition parse_decrease (serialized_op : str) : res Z :=
  '(size, read) ← stoul serialized_op;
  assert_ (read =? length serialized_op)%nat (Ok size).

(** ** [FullMergeV2] *)

(** One turn of the loop over the operands. *)
Definition merge_step (fsize : Z) (serialized_op : str) : res Z :=
  assert_ (2 <=? length serialized_op)%nat
  (operand_id ← get_id serialized_op;
   parameters ← get_params serialized_op;
   if decide (operand_id = id_increase_size) then
     p ← parse_increase parameters;
     let '(size, append) := (p : Z * bool) in
     Ok (if append then u64 (fsize + size) else Z.max size fsize)
   else if decide (operand_id = id_decrease_size) then
     size ← parse_decrease parameters;
     assert_ (size <? fsize) (Ok size)
   else if decide (operand_id = id_create) then Ok fsize
   else Throw RuntimeError).

Fixpoint merge_loop (fsize : Z) (ops : list str) : res Z :=
  match ops with
  | [] => Ok fsize
  | o :: ops' => fsize' ← merge_step fsize o; merge_loop fsize' ops'
  end.

Definition FullMergeV2 (cfg : config) (junk : Metadata)
    (existing_value : option str) (operand_list : list str) : res str :=
  '(prev_md_value, ops) ←
    match existing_value with
    | None =>
        match operand_list with
        | [] => Trap
        | op0 :: ops =>
            operand_id ← get_id op0;
            if decide (operand_id <> id_create) then Throw RuntimeError
            else p ← get_params op0; Ok (p, ops)
        end
    | Some v => Ok (v, operand_list)
    end;
  md ← Metadata_parse cfg junk prev_md_value;
  fsize ← merge_loop (size_ md) ops;
  Ok (serialize cfg (set_size fsize md)).

(** [PartialMergeMulti] never combines operands, [AllowSingleOperand]. *)
Definition PartialMergeMulti (operand_list : list str) : option str := None.
Definition AllowSingleOperand : bool := true.

(** ** Abstract meaning of an operand *)

(** The size after an operand; [None] when the decrease assertion fails. *)
Definition apply_op (op : MergeOperand) (fsize : Z) : option Z :=
  match op with
  | IncreaseSizeOperand size true => Some (u64 (fsize + size))
  | IncreaseSizeOperand size false => Some (Z.max size fsize)
  | DecreaseSizeOperand size => if size <? fsize then Some size else None
  | CreateOperand _ => Some fsize
  end.

Fixpoint apply_ops (ops : list MergeOperand) (fsize : Z) : option Z :=
  match ops with
  | [] => Some fsize
  | op :: ops' => fsize' ← apply_op op fsize; apply_ops ops' fsize'
  end.

Definition op_wf (op : MergeOperand) : Prop :=
  match op with
  | IncreaseSizeOperand size _ | DecreaseSizeOperand size => in_u 64 size
  | CreateOperand _ => True
  end.

Definition of_option {A} (o : option A) : res A :=
  match o with Some a => Ok a | None => Trap end.

(** ** Text round trips *)

Lemma get_id_serialize op : get_id (serialize_op op) = Ok (op_id op).
Proof. done. Qed.

Lemma get_params_serialize op : get_params (serialize_op op) = Ok (serialize_params op).
Proof. done. Qed.

Lemma parse_increase_serialize size append :
  in_u 64 size ->
  parse_increase (serialize_params (IncreaseSizeOperand size append)) = Ok (size, append).
Proof.
  intros H. unfold parse_increase. simpl serialize_params.
  rewrite stoul_to_string by done. cbn [mbind res_bind].
  unfold slice_at. cbv zeta. rewrite Nat.add_sub.
  rewrite (list_lookup_middle _ _ _ (length (to_string_u size))) by done. simpl.
  rewrite lookup_app_r by lia. replace (length (to_string_u size) + 1 - length (to_string_u size))%nat
    with 1%nat by lia. simpl. rewrite length_app. simpl.
  rewrite (proj2 (Nat.eqb_eq _ _)) by lia. by destruct append.
Qed.

Lemma parse_decrease_serialize size :
  in_u 64 size -> parse_decrease (serialize_params (DecreaseSizeOperand size)) = Ok size.
Proof.
  intros H. unfold parse_decrease. simpl serialize_params.
  rewrite <- (app_nil_r (to_string_u size)) at 1. rewrite stoul_to_string by done.
  simpl. by rewrite Nat.eqb_refl.
Qed.

(** ** The fold *)

Lemma merge_step_serialize op fsize :
  op_wf op -> merge_step fsize (serialize_op op) = of_option (apply_op op fsize).
Proof.
  intros W. unfold merge_step. cbn [assert_]. rewrite get_id_serialize, get_params_serialize.
  replace (2 <=? length (serialize_op op))%nat with true by done. cbn [assert_ mbind res_bind].
  destruct op as [size append|size|md]; cbn [op_id]; simpl in W.
  - rewrite decide_True by done. rewrite parse_increase_serialize by done. simpl.
    by destruct append.
  - rewrite decide_False, decide_True by done. rewrite parse_decrease_serialize by done. simpl.
    by destruct (size <? fsize).
  - by rewrite decide_False, decide_False, decide_True.
Qed.

Lemma merge_loop_serialize ops fsize :
  Forall op_wf ops -> merge_loop fsize (serialize_op <$> ops) = of_option (apply_ops ops fsize).
Proof.
  intros F. revert fsize. induction F as [|op ops W F IH]; intros fsize; [done|].
  cbn [fmap list_fmap merge_loop apply_ops]. rewrite merge_step_serialize by done.
  destruct (apply_op op fsize); simpl; [apply IH|done].
Qed.

Lemma serialize_restrict cfg junk m v :
  serialize cfg (set_size v (restrict cfg junk m)) = serialize cfg (set_size v m).
Proof.
  unfold serialize, restrict, set_size, print_field. simpl.
  destruct (use_atime cfg), (use_mtime cfg), (use_ctime cfg), (use_link_cnt cfg),
    (use_blocks cfg), (has_symlinks cfg); reflexivity.
Qed.

Lemma FullMergeV2_existing cfg junk md ops :
  md_wf md -> Forall op_wf ops ->
  FullMergeV2 cfg junk (Some (serialize cfg md)) (serialize_op <$> ops) =
  (fsize ← of_option (apply_ops ops (size_ md)); Ok (serialize cfg (set_size fsize md))).
Proof.
  intros W F. unfold FullMergeV2. cbn [mbind res_bind].
  rewrite parse_serialize by done. cbn [mbind res_bind].
  change (size_ (restrict cfg junk md)) with (size_ md).
  rewrite merge_loop_serialize by done.
  destruct (apply_ops ops (size_ md)); simpl; [|done]. by rewrite serialize_restrict.
Qed.

Lemma FullMergeV2_create cfg junk md ops :
  md_wf md -> Forall op_wf ops ->
  FullMergeV2 cfg junk None (serialize_op <$> CreateOperand (serialize cfg md) :: ops) =
  FullMergeV2 cfg junk (Some (serialize cfg md)) (serialize_op <$> ops).
Proof.
  intros W F. unfold FullMergeV2. cbn [fmap list_fmap mbind res_bind].
  rewrite get_id_serialize, get_params_serialize. cbn [mbind res_bind op_id].
  by rewrite decide_False by naive_solver.
Qed.

Lemma apply_ops_app ops1 ops2 s :
  apply_ops (ops1 ++ ops2) s = (s' ← apply_ops ops1 s; apply_ops ops2 s').
Proof.
  revert s. induction ops1 as [|op ops1 IH]; intros s; [done|]. simpl.
  destruct (apply_op op s); simpl; [apply IH|done].
Qed.

Lemma serialize_size_wf m v : md_wf m -> 0 <= v < 2 ^ 63 -> md_wf (set_size v m).
Proof. intros [] ?. by constructor. Qed.

(** ** Properties *)

(** [FullMergeV2] computes the abstract fold of the operands over the
    stored size, on an existing entry and on a missing one whose first
    operand is a creation; a later creation changes nothing, and the only
    failure is the assertion that a decrease decreases. *)
Theorem full_merge_computes_fold (cfg : config) (junk md : Metadata) (ops : list MergeOperand) :
  md_wf md -> Forall op_wf ops ->
  let result := (fsize ← of_option (apply_ops ops (size_ md));
                 Ok (serialize cfg (set_size fsize md))) in
  FullMergeV2 cfg junk (Some (serialize cfg md)) (serialize_op <$> ops) = result /\
  FullMergeV2 cfg junk None (serialize_op <$> CreateOperand (serialize cfg md) :: ops) = result.
Proof.
  intros W F result. rewrite FullMergeV2_create by done.
  rewrite FullMergeV2_existing by done. done.
Qed.

Definition example_ops : list MergeOperand :=
  [IncreaseSizeOperand 10000 false; DecreaseSizeOperand 5000; IncreaseSizeOperand 100 true].

Lemma example_ops_wf : Forall op_wf example_ops.
Proof. repeat constructor; unfold in_u; simpl; lia. Qed.

Lemma full_merge_computes_fold_witness :
  let result := (fsize ← of_option (apply_ops example_ops (size_ example_md));
                 Ok (serialize default_config (set_size fsize example_md))) in
  FullMergeV2 default_config example_md (Some (serialize default_config example_md))
    (serialize_op <$> example_ops) = result /\
  FullMergeV2 default_config example_md None
    (serialize_op <$> CreateOperand (serialize default_config example_md) :: example_ops) = result.
Proof.
  apply (full_merge_computes_fold default_config example_md example_md example_ops
    example_md_wf example_ops_wf).
Defined.

(** Merging operands in two batches is merging them at once, as the
    store may do at any time, as long as the intermediate size can be
    stored. *)
Theorem full_merge_batches (cfg : config) (junk md : Metadata) (ops1 ops2 : list MergeOperand) (s1 : Z) :
  md_wf md -> Forall op_wf (ops1 ++ ops2) ->
  apply_ops ops1 (size_ md) = Some s1 -> 0 <= s1 < 2 ^ 63 ->
  FullMergeV2 cfg junk (Some (serialize cfg md)) (serialize_op <$> ops1 ++ ops2) =
  (v ← FullMergeV2 cfg junk (Some (serialize cfg md)) (serialize_op <$> ops1);
   FullMergeV2 cfg junk (Some v) (serialize_op <$> ops2)).
Proof.
  intros W F E B. apply Forall_app in F as F'. destruct F' as [F1 F2].
  rewrite !FullMergeV2_existing by done. rewrite apply_ops_app, E. cbn [mbind res_bind of_option].
  rewrite FullMergeV2_existing by (done || by apply serialize_size_wf). done.
Qed.

Lemma full_merge_batches_witness :
  FullMergeV2 default_config example_md (Some (serialize default_config example_md))
    (serialize_op <$> [IncreaseSizeOperand 10000 false] ++ [DecreaseSizeOperand 5000]) =
  (v ← FullMergeV2 default_config example_md (Some (serialize default_config example_md))
         (serialize_op <$> [IncreaseSizeOperand 10000 false]);
   FullMergeV2 default_config example_md (Some v) (serialize_op <$> [DecreaseSizeOperand 5000])).
Proof.
  apply (full_merge_batches default_config example_md example_md
    [IncreaseSizeOperand 10000 false] [DecreaseSizeOperand 5000] 10000).
  - apply example_md_wf.
  - repeat constructor; unfold in_u; simpl; lia.
  - reflexivity.
  - lia.
Defined.

(** The size reached by non-append updates is their maximum. *)
Lemma apply_increases sizes s :
  apply_ops ((fun n => IncreaseSizeOperand n false) <$> sizes) s = Some (foldr Z.max s sizes).
Proof.
  revert s. induction sizes as [|n sizes IH]; intros s; [done|]. csimpl. rewrite IH. f_equal.
  clear IH. induction sizes as [|x sizes IH]; [done|]. simpl. lia.
Qed.

(** Concurrent writers: the size updates of writes that do not append
    can reach the store in any order, the final size is the same. *)
Theorem size_updates_commute (cfg : config) (junk md : Metadata) (sizes1 sizes2 : list Z) :
  md_wf md -> Forall (in_u 64) sizes1 -> sizes1 ≡ₚ sizes2 ->
  FullMergeV2 cfg junk (Some (serialize cfg md))
    (serialize_op <$> ((fun n => IncreaseSizeOperand n false) <$> sizes1)) =
  FullMergeV2 cfg junk (Some (serialize cfg md))
    (serialize_op <$> ((fun n => IncreaseSizeOperand n false) <$> sizes2)).
Proof.
  intros W F P. assert (Forall (in_u 64) sizes2) as F2 by (by rewrite <- P).
  rewrite !FullMergeV2_existing by (done || by apply Forall_fmap).
  rewrite !apply_increases.
  assert (foldr Z.max (size_ md) sizes1 = foldr Z.max (size_ md) sizes2) as ->; [|done].
  clear F F2. induction P as [|x l1 l2 P IH|x y l|l1 l2 l3 P1 IH1 P2 IH2]; simpl; lia.
Qed.

Lemma size_updates_commute_witness :
  FullMergeV2 default_config example_md (Some (serialize default_config example_md))
    (serialize_op <$> ((fun n => IncreaseSizeOperand n false) <$> [8192; 5000])) =
  FullMergeV2 default_config example_md (Some (serialize default_config example_md))
    (serialize_op <$> ((fun n => IncreaseSizeOperand n false) <$> [5000; 8192])).
Proof.
  apply (size_updates_commute default_config example_md example_md [8192; 5000] [5000; 8192]).
  - apply example_md_wf.
  - repeat constructor; unfold in_u; lia.
  - constructor.
Defined.
