(* ===== verification/MetadataDB.v ===== *)
(** * The metadata store ([src/daemon/backend/metadata/db.cpp])

    [MetadataDB] on top of RocksDB.  RocksDB is not part of the sources: it
    is the interface [RocksDB], whose laws are its documented behaviour (a
    key holds a base value and the merge operands written since, [Get] and
    iterators resolve them with the merge operator in any batching, and
    iterators visit keys in byte order).  The theorems show that the
    operations implement a finite map from paths to [Metadata]. *)

From stdpp Require Import sorting.
From S2P Require Import Prelude Config PathUtil Metadata Merge.

(** ** Key order *)

(** Bytewise lexicographic comparison, the order of RocksDB's default
    comparator. *)
Fixpoint str_leb (a b : str) : bool :=
  match a, b with
  | [], _ => true
  | _ :: _, [] => false
  | x :: a', y :: b' =>
      (nat_of_ascii x <? nat_of_ascii y)%nat ||
      ((nat_of_ascii x =? nat_of_ascii y)%nat && str_leb a' b')
  end.
Definition str_le (a b : str) : Prop := str_leb a b = true.

(** ** RocksDB *)

Inductive rdb_status := RdbOk | RdbNotFound | RdbError.

(** Base value and merge operands written since, oldest first. *)
Definition db_entry : Type := option str * list str.
Definition no_entry : db_entry := (None, []).

(** The values the store may compute for an entry: the merge operator is
    applied to the operands in consecutive batches of any size. *)
Inductive batched (fm : option str -> list str -> res str) :
    option str -> list str -> res str -> Prop :=
| batched_one b ops : ops <> [] -> batched fm b ops (fm b ops)
| batched_split b ops1 ops2 v r :
    ops1 <> [] -> ops2 <> [] -> batched fm b ops1 (Ok v) -> batched fm (Some v) ops2 r ->
    batched fm b (ops1 ++ ops2) r.

Inductive resolved (fm : option str -> list str -> res str) : db_entry -> res str -> Prop :=
| resolved_base v : resolved fm (Some v, []) (Ok v)
| resolved_merge b ops r : batched fm b ops r -> resolved fm (b, ops) r.

(** The calls the sources make.  [Scan from] lists what an iterator
    positioned by [Seek(from)] visits; a merge operator that throws makes
    the call throw.  [entry] is the logical content. *)
Class RocksDB (D : Type) := {
  entry : D -> str -> db_entry;
  Get : str -> D -> res (rdb_status * str);
  MergeOp : str -> str -> D -> rdb_status * D;
  Delete : str -> D -> rdb_status * D;
  WriteReplace : str -> str -> str -> D -> rdb_status * D;  (* batch: Delete old; Put new *)
  Scan : str -> D -> list (str * res str)
}.

Class RocksDBLaws {D : Type} (R : RocksDB D) (fm : option str -> list str -> res str) : Prop := {
  Get_absent k d s v : entry d k = no_entry -> Get k d = Ok (s, v) -> s <> RdbOk;
  Get_absent_returns k d : entry d k = no_entry -> exists s v, Get k d = Ok (s, v);
  Get_present k d : entry d k <> no_entry ->
    (exists v, Get k d = Ok (RdbError, v)) \/
    (exists r, resolved fm (entry d k) r /\ Get k d = (v ← r; Ok (RdbOk, v)));
  MergeOp_ok k op d d' k' : MergeOp k op d = (RdbOk, d') ->
    entry d' k' = if decide (k' = k) then ((entry d k).1, (entry d k).2 ++ [op]) else entry d k';
  MergeOp_fail k op d s d' : MergeOp k op d = (s, d') -> s <> RdbOk -> entry d' = entry d;
  Delete_ok k d d' k' : Delete k d = (RdbOk, d') ->
    entry d' k' = if decide (k' = k) then no_entry else entry d k';
  Delete_not_found k d d' : Delete k d = (RdbNotFound, d') -> entry d k = no_entry;
  Delete_fail k d s d' : Delete k d = (s, d') -> s <> RdbOk -> entry d' = entry d;
  WriteReplace_ok k1 k2 v d d' k' : WriteReplace k1 k2 v d = (RdbOk, d') ->
    entry d' k' = if decide (k' = k2) then (Some v, [])
                  else if decide (k' = k1) then no_entry else entry d k';
  WriteReplace_fail k1 k2 v d s d' :
    WriteReplace k1 k2 v d = (s, d') -> s <> RdbOk -> entry d' = entry d;
  Scan_keys from d k : k ∈ (Scan from d).*1 <-> entry d k <> no_entry /\ str_le from k;
  Scan_sorted from d : StronglySorted str_le (Scan from d).*1;
  Scan_nodup from d : NoDup (Scan from d).*1;
  Scan_values from d k r : (k, r) ∈ Scan from d -> resolved fm (entry d k) r
}.

(** ** [MetadataDB] *)

Section metadata_db.
Context {D : Type} {R : RocksDB D} (cfg : config) (junk : Metadata).

(** [throw_rdb_status_excpt]. *)
Definition throw_rdb_status_excpt {A} (s : rdb_status) : res A :=
  match s with
  | RdbOk => Trap
  | RdbNotFound => Throw NotFoundException
  | RdbError => Throw DBException
  end.

(** The [if (!s.ok()) throw_rdb_status_excpt(s)] after a write. *)
Definition check_write (c : D -> rdb_status * D) : M D () := fun d =>
  let '(s, d') := c d in
  match s with RdbOk => (Ok tt, d') | _ => (throw_rdb_status_excpt s, d') end.

Definition db_get (key : str) : M D str := fun d =>
  (('(s, val) ← Get key d;
    match s with RdbOk => Ok val | _ => throw_rdb_status_excpt s end), d).

Definition db_put (key val : str) : M D () :=
  m_assert (is_absolute key) ;;;
  m_assert (bool_decide (key = [sep]) || negb (has_trailing_slash key)) ;;;
  check_write (MergeOp key (serialize_op (CreateOperand val))).

Definition db_remove (key : str) : M D () := check_write (Delete key).

Definition db_exists (key : str) : M D bool := fun d =>
  (('(s, val) ← Get key d;
    match s with
    | RdbOk => Ok true
    | RdbNotFound => Ok false
    | RdbError => throw_rdb_status_excpt s
    end), d).

Definition db_update (old_key new_key val : str) : M D () :=
  check_write (WriteReplace old_key new_key val).

Definition db_increase_size (key : str) (size : Z) (append : bool) : M D () :=
  check_write (MergeOp key (serialize_op (IncreaseSizeOperand size append))).

Definition db_decrease_size (key : str) (size : Z) : M D () :=
  check_write (MergeOp key (serialize_op (DecreaseSizeOperand size))).

(** The [for] loop of [get_dirents] over the iterator. *)
Fixpoint dirents_loop (root_path : str) (it : list (str * res str))
    (entries : list (str * bool)) : res (list (str * bool)) :=
  match it with
  | [] => Ok entries
  | (key, value) :: it' =>
      val ← value;
      if negb (starts_with root_path key) then Ok entries
      else if (length key =? length root_path)%nat then dirents_loop root_path it' entries
      else if bool_decide (find_char sep key (length root_path) <> None)
      then dirents_loop root_path it' entries
      else
        let name := drop (length root_path) key in
        assert_ (bool_decide (name <> []))
        (md ← Metadata_parse cfg junk val;
         dirents_loop root_path it' (entries ++ [(name, S_ISDIR (mode_ md))]))
  end.

Definition db_get_dirents (dir : str) : M D (list (str * bool)) := fun d =>
  (assert_ (is_absolute dir)
   (let root_path := if negb (has_trailing_slash dir) && negb (length dir =? 1)%nat
                     then dir ++ [sep] else dir in
    dirents_loop root_path (Scan root_path d) []), d).

(** The loop of [iterate_all]: every value is read. *)
Fixpoint iterate_loop (it : list (str * res str)) : res () :=
  match it with
  | [] => Ok tt
  | (key, value) :: it' => val ← value; iterate_loop it'
  end.

(** [SeekToFirst] is a seek to the empty key. *)
Definition iterate_all : M D () := fun d => (iterate_loop (Scan [] d), d).
End metadata_db.

(** ** Opening the store *)

(** The members of [rdb::Options] and [rdb::WriteOptions] the sources set. *)
Record rdb_options := MkRdbOptions {
  increased_parallelism : bool;       (* IncreaseParallelism() *)
  level_style_compaction : bool;      (* OptimizeLevelStyleCompaction() *)
  create_if_missing : bool;
  has_merge_operator : bool;          (* MetadataMergeOperator *)
  max_successive_merges : Z
}.

Definition use_write_ahead_log : bool := false. (* config::rocksdb *)

Definition optimize_rocksdb_options (o : rdb_options) : rdb_options :=
  MkRdbOptions (increased_parallelism o) (level_style_compaction o) (create_if_missing o)
    (has_merge_operator o) 128.

Record metadata_db_t (D : Type) := MkMetadataDB {
  db : D;
  options : rdb_options;
  disableWAL : bool;                  (* write_opts.disableWAL *)
  db_path : str
}.
Arguments MkMetadataDB {D}.
Arguments db {D}.
Arguments options {D}.
Arguments disableWAL {D}.
Arguments db_path {D}.

(** The constructor; [DB_Open] is [rocksdb::DB::Open]. *)
Definition MetadataDB_new {D} (DB_Open : rdb_options -> str -> option D) (path : str) : res (metadata_db_t D) :=
  let opts := optimize_rocksdb_options (MkRdbOptions true true true true 0) in
  match DB_Open opts path with
  | None => Throw RuntimeError
  | Some d => Ok (MkMetadataDB d opts (negb use_write_ahead_log) path)
  end.

(** ** The abstract store *)

(** Every prefix of the operands leaves a size the text format can hold. *)
Definition sizes_ok (s : Z) (ops : list MergeOperand) : Prop :=
  Forall op_wf ops /\
  forall ops1 ops2, ops = ops1 ++ ops2 ->
    exists s', apply_ops ops1 s = Some s' /\ 0 <= s' < 2 ^ 63.

(** The entries that stand for an optional [Metadata]. *)
Inductive entry_of (cfg : config) : option Metadata -> db_entry -> Prop :=
| entry_of_none : entry_of cfg None no_entry
| entry_of_base md ops s :
    md_wf md -> sizes_ok (size_ md) ops -> apply_ops ops (size_ md) = Some s ->
    entry_of cfg (Some (set_size s md)) (Some (serialize cfg md), serialize_op <$> ops)
| entry_of_created md ops s :
    md_wf md -> sizes_ok (size_ md) ops -> apply_ops ops (size_ md) = Some s ->
    entry_of cfg (Some (set_size s md))
      (None, serialize_op <$> CreateOperand (serialize cfg md) :: ops).

Definition db_rel {D} `{R : RocksDB D} (cfg : config) (d : D) (m : gmap str Metadata) : Prop :=
  forall k, entry_of cfg (m !! k) (entry d k).

(** The changes the daemon makes to the store. *)
Inductive db_op :=
| OpCreate (k : str) (md : Metadata)
| OpRemove (k : str)
| OpUpdate (k : str) (md : Metadata)
| OpIncrease (k : str) (size : Z) (append : bool)
| OpDecrease (k : str) (size : Z).

Definition run_op {D} `{R : RocksDB D} (cfg : config) (op : db_op) : M D () :=
  match op with
  | OpCreate k md => db_put k (serialize cfg md)
  | OpRemove k => db_remove k
  | OpUpdate k md => db_update k k (serialize cfg md)
  | OpIncrease k size append => db_increase_size k size append
  | OpDecrease k size => db_decrease_size k size
  end.

(** What a change means on the map: a creation keeps an entry that exists. *)
Definition abs_op (op : db_op) (m : gmap str Metadata) : gmap str Metadata :=
  match op with
  | OpCreate k md => match m !! k with Some _ => m | None => <[k := md]> m end
  | OpRemove k => delete k m
  | OpUpdate k md => <[k := md]> m
  | OpIncrease k size append =>
      alter (fun md => set_size (if append then u64 (size_ md + size) else Z.max size (size_ md)) md) k m
  | OpDecrease k size => alter (set_size size) k m
  end.

(** When a change is meaningful: the entries are well formed, a resized
    entry exists, sizes stay below [2^63] and a decrease does decrease. *)
Definition op_pre (op : db_op) (m : gmap str Metadata) : Prop :=
  match op with
  | OpCreate k md => md_wf md
  | OpRemove k => True
  | OpUpdate k md => md_wf md
  | OpIncrease k size append => in_u 64 size /\
      exists md, m !! k = Some md /\
        0 <= (if append then u64 (size_ md + size) else Z.max size (size_ md)) < 2 ^ 63
  | OpDecrease k size => 0 <= size < 2 ^ 63 /\
      exists md, m !! k = Some md /\ size < size_ md
  end.

(** ** Batching does not matter *)

Lemma sizes_ok_nil s : 0 <= s < 2 ^ 63 -> sizes_ok s [].
Proof.
  intros H. split; [constructor|]. intros ops1 ops2 E.
  destruct ops1; [by exists s|done].
Qed.

Lemma sizes_ok_app_l s ops1 ops2 : sizes_ok s (ops1 ++ ops2) -> sizes_ok s ops1.
Proof.
  intros [F H]. apply Forall_app in F as [F1 F2]. split; [done|].
  intros o1 o2 ->. apply (H o1 (o2 ++ ops2)). by rewrite app_assoc.
Qed.

Lemma sizes_ok_app_r s ops1 ops2 s1 :
  sizes_ok s (ops1 ++ ops2) -> apply_ops ops1 s = Some s1 -> sizes_ok s1 ops2.
Proof.
  intros [F H] E. apply Forall_app in F as [F1 F2]. split; [done|].
  intros o1 o2 ->. destruct (H (ops1 ++ o1) o2) as (s' & E' & ?); [by rewrite app_assoc|].
  rewrite apply_ops_app, E in E'. by exists s'.
Qed.

Lemma sizes_ok_snoc s ops op s1 s2 :
  sizes_ok s ops -> op_wf op -> apply_ops ops s = Some s1 -> apply_op op s1 = Some s2 ->
  0 <= s2 < 2 ^ 63 -> sizes_ok s (ops ++ [op]).
Proof.
  intros [F H] W E1 E2 B. split; [by apply Forall_app; auto|].
  intros o1 o2 E. destruct o2 as [|o o2 _] using rev_ind.
  - rewrite app_nil_r in E. subst. exists s2. split; [|done].
    rewrite apply_ops_app, E1. simpl. by rewrite E2.
  - rewrite app_assoc in E. apply app_inj_tail in E as [E _]. by apply (H o1 o2).
Qed.

Lemma apply_ops_snoc ops op s s1 s2 :
  apply_ops ops s = Some s1 -> apply_op op s1 = Some s2 -> apply_ops (ops ++ [op]) s = Some s2.
Proof. intros E1 E2. rewrite apply_ops_app, E1. simpl. by rewrite E2. Qed.

Lemma sizes_ok_result s ops s' : sizes_ok s ops -> apply_ops ops s = Some s' -> 0 <= s' < 2 ^ 63.
Proof.
  intros [_ H] E. destruct (H ops []) as (s2 & E2 & ?); [by rewrite app_nil_r|]. by simplify_eq.
Qed.

Section batching.
Context (cfg : config) (junk : Metadata).
Let fm := FullMergeV2 cfg junk.

Lemma fm_existing md ops s :
  md_wf md -> sizes_ok (size_ md) ops -> apply_ops ops (size_ md) = Some s ->
  fm (Some (serialize cfg md)) (serialize_op <$> ops) = Ok (serialize cfg (set_size s md)).
Proof. intros W [F _] E. unfold fm. rewrite FullMergeV2_existing by done. by rewrite E. Qed.

Lemma batched_existing b sops r :
  batched fm b sops r -> forall md ops s,
  b = Some (serialize cfg md) -> sops = serialize_op <$> ops ->
  md_wf md -> sizes_ok (size_ md) ops -> apply_ops ops (size_ md) = Some s ->
  r = Ok (serialize cfg (set_size s md)).
Proof.
  induction 1 as [b sops Hne|b so1 so2 v r N1 N2 B1 IH1 B2 IH2]; intros md ops s -> E W S A.
  - subst. by apply fm_existing.
  - symmetry in E. apply fmap_app_inv in E as (ops1 & ops2 & -> & -> & ->).
    destruct (proj2 S ops1 ops2 eq_refl) as (s1 & A1 & Hs1).
    pose proof (sizes_ok_app_l _ _ _ S) as S1. pose proof (sizes_ok_app_r _ _ _ _ S A1) as S2.
    pose proof (IH1 md ops1 s1 eq_refl eq_refl W S1 A1) as [= ->].
    rewrite apply_ops_app, A1 in A.
    by apply (IH2 (set_size s1 md) ops2 s); [| |apply serialize_size_wf| |].
Qed.

Lemma batched_created b sops r :
  batched fm b sops r -> forall md ops s,
  b = None -> sops = serialize_op <$> CreateOperand (serialize cfg md) :: ops ->
  md_wf md -> sizes_ok (size_ md) ops -> apply_ops ops (size_ md) = Some s ->
  r = Ok (serialize cfg (set_size s md)).
Proof.
  induction 1 as [b sops Hne|b so1 so2 v r N1 N2 B1 IH1 B2 IH2]; intros md ops s -> E W S A.
  - subst. unfold fm. rewrite FullMergeV2_create by (done || apply S). by apply fm_existing.
  - symmetry in E. apply fmap_app_inv in E as (ops1 & ops2 & -> & -> & E).
    destruct ops1 as [|op1 ops1]; [done|]. simplify_eq/=.
    destruct (proj2 S ops1 ops2 eq_refl) as (s1 & A1 & Hs1).
    pose proof (sizes_ok_app_l _ _ _ S) as S1. pose proof (sizes_ok_app_r _ _ _ _ S A1) as S2.
    pose proof (IH1 md ops1 s1 eq_refl eq_refl W S1 A1) as [= ->].
    rewrite apply_ops_app, A1 in A.
    by apply (batched_existing _ _ _ B2 (set_size s1 md) ops2 s); [| |apply serialize_size_wf| |].
Qed.

Lemma set_size_same md : set_size (size_ md) md = md.
Proof. by destruct md. Qed.

Lemma entry_of_resolved md e r :
  entry_of cfg (Some md) e -> resolved fm e r -> r = Ok (serialize cfg md).
Proof.
  intros E. inversion E as [|md0 ops s W S A Em Ee|md0 ops s W S A Em Ee]; subst; intros Hr.
  - inversion Hr as [v|b o r' B]; subst.
    + match goal with H : [] = _ <$> _ |- _ => symmetry in H; apply fmap_nil_inv in H end.
      subst. simpl in A. simplify_eq. by rewrite set_size_same.
    + by apply (batched_existing _ _ _ B md0 ops s).
  - inversion Hr as [|b o r' B]; subst. by apply (batched_created _ _ _ B md0 ops s).
Qed.

Lemma entry_of_wf md e : entry_of cfg (Some md) e -> md_wf md.
Proof.
  inversion 1 as [|md0 ops s W S A|md0 ops s W S A]; subst;
    apply serialize_size_wf; eauto using sizes_ok_result.
Qed.

Lemma entry_of_present md e : entry_of cfg (Some md) e -> e <> no_entry.
Proof. by inversion 1. Qed.
End batching.

(** ** Simulation of the abstract store *)

Lemma set_size_set_size a b md : set_size a (set_size b md) = set_size a md.
Proof. done. Qed.

Lemma entry_of_merge cfg md e op s2 :
  entry_of cfg (Some md) e -> op_wf op -> apply_op op (size_ md) = Some s2 ->
  0 <= s2 < 2 ^ 63 -> entry_of cfg (Some (set_size s2 md)) (e.1, e.2 ++ [serialize_op op]).
Proof.
  intros E W A B.
  inversion E as [|md0 ops s W0 S A0|md0 ops s W0 S A0]; subst; simpl in *;
    rewrite set_size_set_size.
  - replace (serialize_op <$> ops) with (serialize_op <$> ops) by done.
    change [serialize_op op] with (serialize_op <$> [op]). rewrite <- fmap_app.
    apply entry_of_base; eauto using sizes_ok_snoc, apply_ops_snoc.
  - change [serialize_op op] with (serialize_op <$> [op]). rewrite <- fmap_app.
    apply entry_of_created; eauto using sizes_ok_snoc, apply_ops_snoc.
Qed.

Lemma entry_of_fresh cfg md : md_wf md ->
  entry_of cfg (Some md) (None, [serialize_op (CreateOperand (serialize cfg md))]).
Proof.
  intros W. rewrite <- (set_size_same md) at 1.
  apply (entry_of_created cfg md [] (size_ md)); [done| |done].
  apply sizes_ok_nil. apply W.
Qed.

Lemma entry_of_put cfg md : md_wf md -> entry_of cfg (Some md) (Some (serialize cfg md), []).
Proof.
  intros W. rewrite <- (set_size_same md) at 1.
  apply (entry_of_base cfg md [] (size_ md)); [done| |done].
  apply sizes_ok_nil. apply W.
Qed.

Lemma entry_of_none_inv cfg e : entry_of cfg None e -> e = no_entry.
Proof. by inversion 1. Qed.

Section simulation.
Context {D : Type} {R : RocksDB D} (cfg : config) (junk : Metadata).
Context {L : RocksDBLaws R (FullMergeV2 cfg junk)}.

Lemma check_write_ok (c : D -> rdb_status * D) d d' :
  check_write c d = (Ok tt, d') -> c d = (RdbOk, d').
Proof. unfold check_write. destruct (c d) as [[] ?]; simpl; congruence. Qed.

(** A write that fails leaves the store as it was. *)
Lemma db_rel_ext d d' m : entry d' = entry d -> db_rel cfg d m -> db_rel cfg d' m.
Proof using Type. intros E H k. rewrite E. apply H. Qed.

Lemma merge_sim k op d d' m mo :
  db_rel cfg d m -> MergeOp k (serialize_op op) d = (RdbOk, d') ->
  entry_of cfg mo ((entry d k).1, (entry d k).2 ++ [serialize_op op]) ->
  forall k', entry_of cfg (partial_alter (fun _ => mo) k m !! k') (entry d' k').
Proof using L.
  intros Hr E He k'. rewrite (MergeOp_ok _ _ _ _ k' E). case_decide as Ek.
  - subst. by rewrite lookup_partial_alter_eq.
  - rewrite lookup_partial_alter_ne by done. apply Hr.
Qed.

Lemma alter_partial {A} (f : A -> A) (k : str) (m : gmap str A) x :
  m !! k = Some x -> alter f k m = partial_alter (fun _ => Some (f x)) k m.
Proof using Type. intros E. apply map_eq. intros i. destruct (decide (i = k)) as [->|].
  - by rewrite lookup_alter_eq, lookup_partial_alter_eq, E.
  - by rewrite lookup_alter_ne, lookup_partial_alter_ne.
Qed.

Lemma create_sim k md d d' m :
  db_rel cfg d m -> md_wf md ->
  MergeOp k (serialize_op (CreateOperand (serialize cfg md))) d = (RdbOk, d') ->
  db_rel cfg d' (abs_op (OpCreate k md) m).
Proof using L.
  intros Hr W E. pose proof (Hr k) as Hk. simpl.
  destruct (m !! k) as [md0|] eqn:Em.
  - assert (partial_alter (fun _ => Some md0) k m = m) as Ep by (by apply partial_alter_id).
    intros k'. rewrite <- Ep.
    apply (merge_sim k _ d d' m _ Hr E).
    rewrite <- (set_size_same md0). apply entry_of_merge; [done|done|done|].
    apply (wf_size _ (entry_of_wf _ _ _ Hk)).
  - unfold insert, map_insert. intros k'. apply (merge_sim k _ d d' m _ Hr E).
    apply entry_of_none_inv in Hk as ->. by apply entry_of_fresh.
Qed.

Lemma run_op_sim op d d' m :
  db_rel cfg d m -> op_pre op m -> run_op cfg op d = (Ok tt, d') ->
  db_rel cfg d' (abs_op op m).
Proof using L.
  intros Hr Hp. destruct op as [k md|k|k md|k size append|k size]; simpl in Hp.
  - unfold run_op, db_put, m_bind, m_assert.
    destruct (is_absolute k); [|done]. destruct (_ || _); [|done]. simpl.
    intros E%check_write_ok. by apply create_sim with (d := d).
  - intros E%check_write_ok k'. rewrite (Delete_ok _ _ _ k' E). simpl.
    case_decide as Ek; [subst; rewrite lookup_delete_eq; constructor|].
    rewrite lookup_delete_ne by done. apply Hr.
  - intros E%check_write_ok k'. rewrite (WriteReplace_ok _ _ _ _ _ k' E). simpl.
    case_decide as Ek; [subst; rewrite lookup_insert_eq; by apply entry_of_put|].
    rewrite lookup_insert_ne by done. apply Hr.
  - destruct Hp as (Hs & md & Em & Hb). intros E%check_write_ok. simpl.
    rewrite (alter_partial _ _ _ _ Em). intros k'. apply (merge_sim _ _ _ _ _ _ Hr E).
    pose proof (Hr k) as Hk. rewrite Em in Hk.
    apply entry_of_merge; [done|done| |done]. by destruct append.
  - destruct Hp as (Hs & md & Em & Hb). intros E%check_write_ok. simpl.
    rewrite (alter_partial _ _ _ _ Em). intros k'. apply (merge_sim _ _ _ _ _ _ Hr E).
    pose proof (Hr k) as Hk. rewrite Em in Hk.
    apply entry_of_merge; [done|simpl; int_solve| |done]. simpl.
    by rewrite (proj2 (Z.ltb_lt _ _)).
Qed.

(** A change that fails leaves the entries as they were. *)
Lemma run_op_fails op d r d' : run_op cfg op d = (r, d') -> r <> Ok tt -> entry d' = entry d.
Proof using L.
  assert (forall c : D -> rdb_status * D, (forall s, c d = (s, d') -> s <> RdbOk -> entry d' = entry d) ->
    check_write c d = (r, d') -> r <> Ok tt -> entry d' = entry d) as Hc.
  { intros c Hf. unfold check_write. destruct (c d) as [s d1] eqn:E. intros Ew Hr.
    destruct s; [by injection Ew as <- _|injection Ew as _ <-; by apply (Hf RdbNotFound)
      |injection Ew as _ <-; by apply (Hf RdbError)]. }
  destruct op as [k md|k|k md|k size append|k size]; cbn [run_op].
  - unfold db_put, m_bind, m_assert. destruct (is_absolute k); [|by intros [= _ <-]].
    destruct (_ || _); [|by intros [= _ <-]]. apply Hc. intros s. apply MergeOp_fail.
  - apply Hc. intros s. apply Delete_fail.
  - apply Hc. intros s. apply WriteReplace_fail.
  - apply Hc. intros s. apply MergeOp_fail.
  - apply Hc. intros s. apply MergeOp_fail.
Qed.

(** Whatever a change answers, it was made or not. *)
Lemma run_op_any op d r d' m :
  db_rel cfg d m -> op_pre op m -> run_op cfg op d = (r, d') ->
  db_rel cfg d' m \/ db_rel cfg d' (abs_op op m).
Proof using L.
  intros Hr Hp E. destruct r as [[]|e|]; [right; by eapply run_op_sim|left..];
    (eapply db_rel_ext; [by eapply run_op_fails|done]).
Qed.

(** [db_get] reads the abstract entry, unless the store reports an I/O
    error. *)
Lemma db_get_sim k d m :
  db_rel cfg d m -> (forall v, Get k d <> Ok (RdbError, v)) ->
  db_get k d = (match m !! k with
                | Some md => Ok (serialize cfg md)
                | None => Throw NotFoundException
                end, d).
Proof using L.
  intros Hr Hio. pose proof (Hr k) as Hk. unfold db_get. f_equal.
  destruct (m !! k) as [md|].
  - destruct (Get_present k d (entry_of_present _ _ _ Hk)) as [[v E]|(r & Hres & E)];
      [by apply Hio in E|].
    rewrite E. by rewrite (entry_of_resolved cfg junk md _ r Hk Hres).
  - apply entry_of_none_inv in Hk as He.
    destruct (Get_absent_returns k d He) as (s & v & E).
    pose proof (Get_absent k d s v He E). rewrite E. simpl.
    destruct s; [done|done|]. by apply Hio in E.
Qed.
End simulation.

(** ** Directory listing *)

Lemma str_le_app p t : str_le p (p ++ t).
Proof.
  unfold str_le. induction p as [|x p IH]; [done|]. simpl.
  by rewrite Nat.eqb_refl, IH, orb_true_r.
Qed.

Lemma nat_of_ascii_inj x y : nat_of_ascii x = nat_of_ascii y -> x = y.
Proof. intros E. by rewrite <- (ascii_nat_embedding x), E, ascii_nat_embedding. Qed.

(** The keys with a given prefix are contiguous in key order. *)
Lemma prefix_contiguous p k1 k2 :
  str_le p k1 -> str_le k1 k2 -> starts_with p k2 = true -> starts_with p k1 = true.
Proof.
  rewrite !starts_with_spec. unfold str_le. revert k1 k2.
  induction p as [|x p IH]; intros k1 k2; [by exists k1|].
  intros H1 H2 [t ->]. destruct k1 as [|y k1]; [done|]. simpl in *.
  apply orb_true_iff in H1, H2.
  assert (y = x) as ->.
  { rewrite !andb_true_iff, !Nat.ltb_lt, !Nat.eqb_eq in *. apply nat_of_ascii_inj. lia. }
  rewrite !Nat.ltb_irrefl, !Nat.eqb_refl in *. simpl in *.
  destruct (IH k1 (p ++ t)) as [t' ->]; [naive_solver|naive_solver|by exists t|]. by exists t'.
Qed.

(** The name of a first-level entry of [root], which ends with a separator. *)
Definition child_name (root key : str) : option str :=
  if starts_with root key then
    let name := drop (length root) key in
    if bool_decide (component name) then Some name else None
  else None.

#[export] Instance component_dec c : Decision (component c).
Proof. unfold component. apply _. Defined.

Lemma child_name_Some root key name :
  child_name root key = Some name <-> key = root ++ name /\ component name.
Proof.
  unfold child_name. destruct (starts_with root key) eqn:E.
  - apply starts_with_spec in E as [t ->]. rewrite drop_app_length. cbv zeta.
    case_bool_decide; split; [by intros [= ->]| |done|].
    + intros [E _]. by apply app_inv_head in E as ->.
    + intros [E ?]. apply app_inv_head in E as ->. done.
  - split; [done|]. intros [-> _].
    rewrite (proj2 (starts_with_spec _ _)) in E; [done|by exists name].
Qed.

Lemma find_char_None c s pos : find_char c s pos = None <-> c ∉ drop pos s.
Proof. unfold find_char. rewrite fmap_None. apply find_from_None. Qed.

Section dirents.
Context (cfg : config) (junk : Metadata) (m : gmap str Metadata).

Definition dirent_of (root key : str) : option (str * bool) :=
  name ← child_name root key; md ← m !! key; Some (name, S_ISDIR (mode_ md)).

Lemma dirents_loop_spec root it acc :
  (forall k r, (k, r) ∈ it ->
     exists md, m !! k = Some md /\ md_wf md /\ r = Ok (serialize cfg md)) ->
  StronglySorted str_le it.*1 -> (forall k, k ∈ it.*1 -> str_le root k) ->
  dirents_loop cfg junk root it acc = Ok (acc ++ omap (dirent_of root) it.*1).
Proof.
  revert acc. induction it as [|[k r] it IH]; intros acc Hv Hs Hle; csimpl.
  { by rewrite app_nil_r. }
  destruct (Hv k r) as (md & Em & W & ->); [set_solver|]. csimpl.
  apply StronglySorted_inv in Hs as [Hs Hk].
  assert (forall acc, dirents_loop cfg junk root it acc = Ok (acc ++ omap (dirent_of root) it.*1)) as IH'.
  { intros acc'. apply IH; [set_solver|done|set_solver]. }
  unfold dirent_of at 1, child_name.
  destruct (starts_with root k) eqn:Esw; csimpl.
  2:{ (* past the directory: no later key has the prefix *)
      rewrite omap_none; [by rewrite app_nil_r|]. intros k' Hk'. unfold dirent_of, child_name.
      destruct (starts_with root k') eqn:Esw'; [|done]. rewrite Forall_forall in Hk.
      rewrite (prefix_contiguous root k k') in Esw; [done|set_solver|by apply Hk|done]. }
  apply starts_with_spec in Esw as [name ->].
  rewrite !drop_app_length, length_app. cbv zeta.
  destruct (decide (name = [])) as [->|Hne].
  { rewrite (proj2 (Nat.eqb_eq _ _)), IH' by (simpl; lia).
    rewrite bool_decide_eq_false_2 by (by intros []). done. }
  rewrite (proj2 (Nat.eqb_neq _ _)) by (destruct name; [done|simpl; lia]).
  destruct (decide (sep ∈ name)) as [Hin|Hin].
  - rewrite bool_decide_eq_true_2, IH' by (rewrite find_char_None, drop_app_length; naive_solver).
    rewrite bool_decide_eq_false_2 by (by intros []). done.
  - rewrite bool_decide_eq_false_2 by (rewrite find_char_None, drop_app_length; naive_solver).
    rewrite bool_decide_eq_true_2 by done. cbn [assert_].
    rewrite parse_serialize by done. csimpl. rewrite IH'.
    rewrite bool_decide_eq_true_2 by done. csimpl. rewrite Em. csimpl.
    by rewrite <- app_assoc.
Qed.

Lemma dirent_names_nodup root keys :
  NoDup keys -> NoDup (omap (dirent_of root) keys).*1.
Proof.
  induction 1 as [|k keys Hk _ IH]; csimpl; [constructor|].
  destruct (dirent_of root k) as [[name b]|] eqn:E; csimpl; [|done].
  constructor; [|done]. intros ([name' b'] & -> & Hin)%list_elem_of_fmap.
  apply list_elem_of_omap in Hin as (k' & Hk' & E'). simpl in *. unfold dirent_of in *.
  apply bind_Some in E as (n1 & En1 & (md1 & _ & [= <- _])%bind_Some).
  apply bind_Some in E' as (n2 & En2 & (md2 & _ & [= <- _])%bind_Some).
  apply child_name_Some in En1 as [-> _]. apply child_name_Some in En2 as [-> _]. done.
Qed.
End dirents.

Section listing.
Context {D : Type} {R : RocksDB D} (cfg : config) (junk : Metadata).
Context {L : RocksDBLaws R (FullMergeV2 cfg junk)}.

(** The prefix under which the entries of a directory are stored. *)
Definition dir_prefix (dir : str) : str :=
  if negb (has_trailing_slash dir) && negb (length dir =? 1)%nat then dir ++ [sep] else dir.

(** An iterator over a store of metadata yields its entries. *)
Lemma scan_entries from d m k r : db_rel cfg d m -> (k, r) ∈ Scan from d ->
  exists md, m !! k = Some md /\ md_wf md /\ r = Ok (serialize cfg md).
Proof using L.
  intros Hr Hin. pose proof (Scan_values from d k r Hin) as Hres.
  pose proof (Hr k) as Hk. destruct (m !! k) as [md|].
  - exists md. split; [done|]. split; [by eapply entry_of_wf|].
    by apply (entry_of_resolved cfg junk md (entry d k) r).
  - apply entry_of_none_inv in Hk.
    destruct (proj1 (Scan_keys from d k)) as [Hne _]; [|done].
    apply list_elem_of_fmap. by exists (k, r).
Qed.

(** A full iteration reads every value and changes nothing. *)
Lemma iterate_all_ok d m : db_rel cfg d m -> iterate_all d = (Ok tt, d).
Proof using L.
  intros Hr. unfold iterate_all. f_equal.
  assert (forall k r, (k, r) ∈ Scan [] d -> exists v, r = Ok v) as Hv.
  { intros k r Hin. destruct (scan_entries [] d m k r Hr Hin) as (md & _ & _ & ->). eauto. }
  induction (Scan [] d) as [|[k r] it IH]; [done|]. cbn.
  destruct (Hv k r ltac:(constructor)) as [v ->]. cbn. apply IH. intros k' r' Hin. apply (Hv k' r'). by constructor.
Qed.

Lemma db_get_dirents_sim dir d m :
  db_rel cfg d m -> is_absolute dir = true ->
  exists entries, db_get_dirents cfg junk dir d = (Ok entries, d) /\
    NoDup entries.*1 /\
    forall name b, (name, b) ∈ entries <->
      component name /\ exists md, m !! (dir_prefix dir ++ name) = Some md /\ b = S_ISDIR (mode_ md).
Proof using L.
  intros Hr Ha. unfold db_get_dirents. rewrite Ha. cbn [assert_].
  fold (dir_prefix dir). cbv zeta. set (root := dir_prefix dir).
  rewrite (dirents_loop_spec cfg junk m); cycle 1.
  - intros k r Hin. by apply (scan_entries root d m).
  - apply Scan_sorted.
  - intros k Hk. by apply Scan_keys in Hk as [_ Hk].
  - eexists. split; [done|]. rewrite app_nil_l. split.
    + apply dirent_names_nodup, Scan_nodup.
    + intros name b. rewrite list_elem_of_omap. unfold dirent_of. split.
      * intros (k & Hk & E). apply bind_Some in E as (nm & En & (md & Em & [= <- <-])%bind_Some).
        apply child_name_Some in En as [-> Hc]. split; [done|]. by exists md.
      * intros (Hc & md & Em & ->). exists (root ++ name). split.
        -- apply Scan_keys. split; [|apply str_le_app].
           pose proof (Hr (root ++ name)) as Hk. rewrite Em in Hk. by eapply entry_of_present.
        -- rewrite (proj2 (child_name_Some root (root ++ name) name)) by done. csimpl.
           by rewrite Em.
Qed.
End listing.

(** ** An in-memory store

    A concrete [RocksDB] that never reports an I/O error and resolves the
    operands in one batch: the laws can hold. *)

#[export] Instance str_le_dec a b : Decision (str_le a b).
Proof. unfold str_le. apply _. Defined.

#[export] Instance str_le_total : Total str_le.
Proof.
  intros a. unfold str_le. induction a as [|x a IH]; intros [|y b]; simpl; [by left..|by right|].
  rewrite !orb_true_iff, !andb_true_iff, !Nat.ltb_lt, !Nat.eqb_eq.
  destruct (IH b), (Nat.lt_trichotomy (nat_of_ascii x) (nat_of_ascii y)) as [|[|]]; auto.
Qed.

#[export] Instance str_le_trans : Transitive str_le.
Proof.
  intros a. unfold str_le. induction a as [|x a IH]; intros [|y b] [|z c]; simpl; try done.
  rewrite !orb_true_iff, !andb_true_iff, !Nat.ltb_lt, !Nat.eqb_eq.
  intros [|[? H1]] [|[? H2]]; try (left; lia). right. split; [lia|]. eauto.
Qed.

Section memdb.
Context (fm : option str -> list str -> res str).

Definition mem_entry (d : gmap str db_entry) (k : str) : db_entry := default no_entry (d !! k).

Definition mem_resolve (e : db_entry) : res str :=
  match e with
  | (Some v, []) => Ok v
  | (b, ops) => fm b ops
  end.

Definition mem_keys (from : str) (d : gmap str db_entry) : list str :=
  filter (fun k => mem_entry d k <> no_entry /\ str_le from k) (map_to_list d).*1.

#[local] Instance MemDB : RocksDB (gmap str db_entry) := {|
  entry := mem_entry;
  Get k d := if decide (mem_entry d k = no_entry) then Ok (RdbNotFound, [])
             else v ← mem_resolve (mem_entry d k); Ok (RdbOk, v);
  MergeOp k op d :=
    (RdbOk, <[k := ((mem_entry d k).1, (mem_entry d k).2 ++ [op])]> d);
  Delete k d := (RdbOk, delete k d);
  WriteReplace k1 k2 v d := (RdbOk, <[k2 := (Some v, [])]> (delete k1 d));
  Scan from d := (fun k => (k, mem_resolve (mem_entry d k))) <$> merge_sort str_le (mem_keys from d)
|}.

Lemma mem_resolved e : e <> no_entry -> resolved fm e (mem_resolve e).
Proof.
  destruct e as [[v|] [|op ops]]; intros H; simpl; try done; constructor; by constructor.
Qed.

Lemma mem_entry_insert d k e k' :
  mem_entry (<[k := e]> d) k' = if decide (k' = k) then e else mem_entry d k'.
Proof. unfold mem_entry. rewrite lookup_insert. repeat case_decide; simpl; congruence. Qed.

Lemma mem_entry_delete d k k' :
  mem_entry (delete k d) k' = if decide (k' = k) then no_entry else mem_entry d k'.
Proof. unfold mem_entry. rewrite lookup_delete. repeat case_decide; simpl; congruence. Qed.

Lemma mem_keys_spec from d k :
  k ∈ mem_keys from d <-> mem_entry d k <> no_entry /\ str_le from k.
Proof.
  unfold mem_keys. rewrite list_elem_of_filter. split; [naive_solver|]. intros H. split; [done|].
  destruct H as [H _]. unfold mem_entry in H. destruct (d !! k) as [e|] eqn:E; [|done].
  apply list_elem_of_fmap. exists (k, e). split; [done|]. by apply elem_of_map_to_list.
Qed.

Lemma mem_scan_keys from d : (Scan from d).*1 = merge_sort str_le (mem_keys from d).
Proof. simpl. rewrite <- list_fmap_compose. apply list_fmap_id. Qed.

#[local] Instance MemDB_laws : RocksDBLaws MemDB fm.
Proof.
  split; try (intros; simpl in *; simplify_eq; done).
  - intros k d s v E. simpl in *. rewrite decide_True by done. naive_solver.
  - intros k d E. simpl in *. rewrite decide_True by done. eauto.
  - intros k d E. simpl in *. rewrite decide_False by done. right.
    eexists. split; [by apply mem_resolved|done].
  - intros k op d d' k' [= <-]. simpl. by rewrite mem_entry_insert.
  - intros k d d' k' [= <-]. simpl. by rewrite mem_entry_delete.
  - intros k1 k2 v d d' k' [= <-]. simpl. by rewrite mem_entry_insert, mem_entry_delete.
  - intros from d k. rewrite mem_scan_keys, merge_sort_Permutation. apply mem_keys_spec.
  - intros from d. rewrite mem_scan_keys. apply (StronglySorted_merge_sort str_le).
  - intros from d. rewrite mem_scan_keys, merge_sort_Permutation.
    apply NoDup_filter, NoDup_fst_map_to_list.
  - intros from d k r Hin. simpl in Hin. apply list_elem_of_fmap in Hin as (k' & [= -> ->] & Hin).
    rewrite merge_sort_Permutation in Hin. apply mem_keys_spec in Hin as [Hne _].
    simpl. by apply mem_resolved.
Qed.
End memdb.

(** ** Properties *)

(** A sequence of changes, each one meaningful when it is applied. *)
Fixpoint run_ops {D} `{R : RocksDB D} (cfg : config) (ops : list db_op) : M D () :=
  match ops with
  | [] => m_ret tt
  | op :: ops' => run_op cfg op ;;; run_ops cfg ops'
  end.

Fixpoint abs_ops (ops : list db_op) (m : gmap str Metadata) : gmap str Metadata :=
  match ops with
  | [] => m
  | op :: ops' => abs_ops ops' (abs_op op m)
  end.

Fixpoint ops_pre (ops : list db_op) (m : gmap str Metadata) : Prop :=
  match ops with
  | [] => True
  | op :: ops' => op_pre op m /\ ops_pre ops' (abs_op op m)
  end.

(** C6. The metadata store implements a map from paths to entries: after
    any sequence of creations, removals, updates and size changes that the
    store accepted, reading a path returns the text of the entry the map
    holds, or throws [NotFoundException] when it holds none. *)
Theorem metadata_store_refines_map {D : Type} (R : RocksDB D) (cfg : config) (junk : Metadata)
    (L : RocksDBLaws R (FullMergeV2 cfg junk)) (ops : list db_op) (d d' : D)
    (m : gmap str Metadata) (k : str) :
  db_rel cfg d m -> ops_pre ops m -> run_ops cfg ops d = (Ok tt, d') ->
  (forall v, Get k d' <> Ok (RdbError, v)) ->
  db_get k d' = (match abs_ops ops m !! k with
                 | Some md => Ok (serialize cfg md)
                 | None => Throw NotFoundException
                 end, d').
Proof.
  revert d m. induction ops as [|op ops IH]; intros d m Hr Hp E Hio.
  - injection E as <-. by apply (db_get_sim cfg junk).
  - destruct Hp as [Hp1 Hp2]. simpl in E. unfold m_bind in E.
    destruct (run_op cfg op d) as [[[]| |] d1] eqn:E1; try done.
    apply (IH d1); try done. by apply (run_op_sim cfg junk op d d1 m).
Qed.

Definition example_db_ops : list db_op :=
  [OpCreate (s_ "/a") example_md; OpIncrease (s_ "/a") 9000 false;
   OpCreate (s_ "/a") (set_size 7 example_md); OpDecrease (s_ "/a") 100].

Lemma metadata_store_refines_map_witness :
  exists d', db_get (R := MemDB (FullMergeV2 default_config example_md)) (s_ "/a") d' =
    (Ok (serialize default_config (set_size 100 example_md)), d').
Proof.
  eexists.
  refine (metadata_store_refines_map (MemDB (FullMergeV2 default_config example_md))
    default_config example_md (MemDB_laws _) example_db_ops ∅ _ ∅ (s_ "/a") _ _ eq_refl _).
  - intros k. rewrite lookup_empty. constructor.
  - repeat split; try apply example_md_wf; try (unfold in_u; lia); try (simpl; lia).
    + exists example_md. split; [by vm_compute|]. simpl. lia.
    + exists (set_size 9000 example_md). split; [by vm_compute|]. simpl. lia.
  - intros v. by vm_compute.
Defined.

(** Listing a directory returns each first-level entry once: the names
    are those without separator under the directory's prefix, with the flag
    telling directories from other entries. *)
Theorem get_dirents_lists_children {D : Type} (R : RocksDB D) (cfg : config) (junk : Metadata)
    (L : RocksDBLaws R (FullMergeV2 cfg junk)) (dir : str) (d : D) (m : gmap str Metadata) :
  db_rel cfg d m -> is_absolute dir = true ->
  exists entries, db_get_dirents cfg junk dir d = (Ok entries, d) /\
    NoDup entries.*1 /\
    forall name b, (name, b) ∈ entries <->
      component name /\ exists md, m !! (dir_prefix dir ++ name) = Some md /\ b = S_ISDIR (mode_ md).
Proof. apply db_get_dirents_sim, L. Qed.

Definition example_db : gmap str db_entry :=
  {[ s_ "/d/x" := (Some (serialize default_config example_md), []) ]}.

Lemma example_db_rel :
  db_rel (R := MemDB (FullMergeV2 default_config example_md)) default_config example_db
    {[ s_ "/d/x" := example_md ]}.
Proof.
  intros k. change (entry_of default_config (({[ s_ "/d/x" := example_md ]} : gmap str Metadata) !! k)
    (default no_entry (example_db !! k))). unfold example_db.
  destruct (decide (s_ "/d/x" = k)) as [<-|Hne].
  - rewrite !lookup_singleton_eq. apply entry_of_put, example_md_wf.
  - rewrite !lookup_singleton_ne by done. constructor.
Qed.

Lemma get_dirents_lists_children_witness :
  exists entries,
    db_get_dirents (R := MemDB (FullMergeV2 default_config example_md))
      default_config example_md (s_ "/d") example_db = (Ok entries, example_db) /\
    NoDup entries.*1 /\
    forall name b, (name, b) ∈ entries <->
      component name /\ exists md,
        ({[ s_ "/d/x" := example_md ]} : gmap str Metadata) !! (dir_prefix (s_ "/d") ++ name) = Some md /\
        b = S_ISDIR (mode_ md).
Proof.
  apply (get_dirents_lists_children (MemDB (FullMergeV2 default_config example_md))
    default_config example_md (MemDB_laws _) (s_ "/d") example_db).
  - apply example_db_rel.
  - reflexivity.
Defined.
