(* ===== verification/ChunkStorage.v ===== *)
(** * Chunk files on a daemon ([src/daemon/backend/data/chunk_storage.cpp])

    A file's chunks are files [<root>/<dir>/<chunk id>] of the node-local
    file system, where [<dir>] is the path with separators replaced.  The
    local file system is the interface [PosixFS] with its POSIX laws;
    [write_chunk] and [read_chunk] are then shown to write and read byte
    ranges of one chunk. *)

From S2P Require Import Prelude Config PathUtil.

(** ** The local file system *)

(** Calls return the result or an error number.  [fs_file] is the contents
    of a regular file and [fs_fd] the file of an open descriptor. *)
Class PosixFS (F : Type) := {
  fs_file : F -> str -> option (list byte);
  fs_fd : F -> Z -> option str;
  fs_dir : F -> str -> bool;
  px_mkdir : str -> F -> Z * F;                       (* 0 or errno *)
  px_open_w : str -> F -> (Z + Z) * F;                (* O_WRONLY | O_CREAT *)
  px_open_r : str -> F -> (Z + Z) * F;                (* O_RDONLY *)
  px_pwrite : Z -> list byte -> Z -> F -> (Z + Z) * F;
  px_pread : Z -> Z -> Z -> F -> list byte + Z;       (* fd, count, offset *)
  px_close : Z -> F -> F;
  px_truncate : str -> Z -> F -> Z * F;
  px_unlink : str -> F -> Z * F;
  px_readdir : str -> F -> option (list str);         (* None: no such directory *)
  px_remove_all : str -> F -> bool * F;               (* false: an exception *)
  px_statfs : F -> (Z * Z * Z) + Z                    (* f_bsize, f_blocks, f_bavail *)
}.

(** The contents of a file after [truncate]. *)
Definition resize (len : nat) (c : list byte) : list byte :=
  take len c ++ replicate (len - length c) NUL.

Class PosixFSLaws {F : Type} (P : PosixFS F) : Prop := {
  mkdir_files p f e f' : px_mkdir p f = (e, f') -> fs_file f' = fs_file f /\ 0 <= e;
  open_w_ok p f fd f' : px_open_w p f = (inl fd, f') ->
    fs_fd f' fd = Some p /\
    forall q, fs_file f' q = if decide (q = p) then Some (default [] (fs_file f p)) else fs_file f q;
  open_w_fail p f e f' : px_open_w p f = (inr e, f') -> fs_file f' = fs_file f /\ 0 < e;
  open_r_ok p f fd f' : px_open_r p f = (inl fd, f') ->
    fs_fd f' fd = Some p /\ is_Some (fs_file f p) /\ fs_file f' = fs_file f;
  open_r_fail p f e f' : px_open_r p f = (inr e, f') ->
    fs_file f' = fs_file f /\ 0 < e /\ (e = ENOENT -> fs_file f p = None);
  open_r_missing p f : fs_file f p = None -> (px_open_r p f).1 = inr ENOENT;
  pwrite_ok fd d off p f n f' : fs_fd f fd = Some p -> px_pwrite fd d off f = (inl n, f') ->
    0 <= n <= Z.of_nat (length d) /\
    forall q, fs_file f' q =
      if decide (q = p)
      then Some (write_at (default [] (fs_file f p)) (Z.to_nat off) (take (Z.to_nat n) d))
      else fs_file f q;
  pwrite_fail fd d off f e f' : px_pwrite fd d off f = (inr e, f') -> fs_file f' = fs_file f /\ 0 < e;
  pread_ok fd n off p f c bs : fs_fd f fd = Some p -> fs_file f p = Some c ->
    px_pread fd n off f = inl bs ->
    (exists j, bs = take j (read_at c (Z.to_nat off) (Z.to_nat n))) /\
    (bs = [] -> read_at c (Z.to_nat off) (Z.to_nat n) = []);
  pread_fail fd n off f e : px_pread fd n off f = inr e -> 0 < e /\ e <> ENOENT;
  close_files fd f : fs_file (px_close fd f) = fs_file f;
  truncate_ok p len f f' : px_truncate p len f = (0, f') ->
    is_Some (fs_file f p) /\
    forall q, fs_file f' q =
      if decide (q = p) then resize (Z.to_nat len) <$> fs_file f p else fs_file f q;
  truncate_fail p len f e f' : px_truncate p len f = (e, f') -> e <> 0 -> fs_file f' = fs_file f;
  truncate_missing p len f : fs_file f p = None -> (px_truncate p len f).1 = ENOENT;
  unlink_ok p f f' : px_unlink p f = (0, f') ->
    forall q, fs_file f' q = if decide (q = p) then None else fs_file f q;
  unlink_fail p f e f' : px_unlink p f = (e, f') -> e <> 0 -> fs_file f' = fs_file f;
  readdir_names p f names n : px_readdir p f = Some names ->
    (n ∈ names <-> sep ∉ n /\ is_Some (fs_file f (p ++ sep :: n)));
  readdir_missing p f : fs_dir f p = false -> px_readdir p f = None;
  remove_all_outside p f q : ~ (exists t, q = p ++ sep :: t) -> q <> p ->
    fs_file (px_remove_all p f).2 q = fs_file f q;
  remove_all_inside p f f' t : px_remove_all p f = (true, f') -> fs_file f' (p ++ sep :: t) = None
}.

(** ** [ChunkStorage] *)

Record ChunkStorage := MkChunkStorage {
  root_path : str;
  cs_chunksize : Z
}.

Record ChunkStat := MkChunkStat {
  chunk_size : Z;
  chunk_total : Z;
  chunk_free : Z
}.

(** The constructor's check. *)
Definition ChunkStorage_init (path : str) (chunksize : Z) : res ChunkStorage :=
  assert_ (is_absolute path) (Ok (MkChunkStorage path chunksize)).

Definition absolute (st : ChunkStorage) (internal_path : str) : res str :=
  assert_ (is_relative internal_path) (Ok (root_path st ++ [sep] ++ internal_path)).

(** [replace(begin, end, '/', ':')] on [file_path.substr(1)]. *)
Definition replace_sep (s : str) : str := (fun c => if decide (c = sep) then ":"%char else c) <$> s.

Definition get_chunks_dir (file_path : str) : res str :=
  assert_ (is_absolute file_path) (Ok (replace_sep (drop 1 file_path))).

Definition get_chunk_path (file_path : str) (chunk_id : Z) : res str :=
  d ← get_chunks_dir file_path; Ok (d ++ [sep] ++ to_string_u (u32 chunk_id)).

Section storage.
Context {F : Type} {P : PosixFS F} (st : ChunkStorage).

(** [absolute(get_chunks_dir(path))] and [absolute(get_chunk_path(path, id))]. *)
Definition chunk_dir (file_path : str) : res str :=
  d ← get_chunks_dir file_path; absolute st d.

Definition chunk_path (file_path : str) (chunk_id : Z) : res str :=
  p ← get_chunk_path file_path chunk_id; absolute st p.

(** A filesystem error of [remove_all] is logged only. *)
Definition destroy_chunk_space (file_path : str) : M F () :=
  let* dir := m_lift (chunk_dir file_path) in m_modify (fun f => (px_remove_all dir f).2).

Definition init_chunk_space (file_path : str) : M F () :=
  let* dir := m_lift (chunk_dir file_path) in
  let* e := (fun f => let '(e, f') := px_mkdir dir f in (Ok e, f')) in
  if negb (e =? 0) && negb (e =? EEXIST) then m_throw (SystemError e) else m_ret tt.

(** The loop of [trim_chunk_space] over the names in the directory. *)
Fixpoint trim_loop (dir : str) (names : list str) (chunk_start chunk_end : Z) : M F () :=
  match names with
  | [] => m_ret tt
  | n :: names' =>
      let* r := m_lift (stoul n) in
      let chunk_id := (r : Z * nat).1 in
      if (chunk_start <=? chunk_id) && (chunk_id <=? chunk_end) then
        let* e := (fun f => let '(e, f') := px_unlink (dir ++ [sep] ++ n) f in (Ok e, f')) in
        if e =? 0 then trim_loop dir names' chunk_start chunk_end else m_throw (SystemError e)
      else trim_loop dir names' chunk_start chunk_end
  end.

(** [bfs::directory_iterator] throws when the directory does not exist. *)
Definition trim_chunk_space (file_path : str) (chunk_start chunk_end : Z) : M F () :=
  let* dir := m_lift (chunk_dir file_path) in
  let* names := m_gets (px_readdir dir) in
  match names with
  | None => m_throw FilesystemError
  | Some names => trim_loop dir names chunk_start chunk_end
  end.

(** A system call that returns 0 or fails with an error number. *)
Definition check_sys (c : F -> Z * F) : M F () := fun f =>
  let '(e, f') := c f in if e =? 0 then (Ok tt, f') else (Throw (SystemError e), f').

Definition delete_chunk (file_path : str) (chunk_id : Z) : M F () :=
  let* p := m_lift (chunk_path file_path chunk_id) in check_sys (px_unlink p).

Definition truncate_chunk (file_path : str) (chunk_id length_ : Z) : M F () :=
  let* p := m_lift (chunk_path file_path chunk_id) in
  m_assert ((0 <? length_) && (u32 length_ <=? cs_chunksize st)) ;;;
  check_sys (px_truncate p length_).

(** Returns what is put in the eventual: the bytes written. *)
Definition write_chunk (file_path : str) (chunk_id : Z) (buff : list byte) (size offset : Z)
    : M F Z :=
  m_assert (u64 (offset + size) <=? cs_chunksize st) ;;;
  init_chunk_space file_path ;;;
  let* p := m_lift (chunk_path file_path chunk_id) in
  let* r := (fun f => let '(r, f') := px_open_w p f in (Ok r, f')) in
  match r with
  | inr e => m_throw (SystemError e)
  | inl fd =>
      let* w := (fun f => let '(w, f') := px_pwrite fd (take (Z.to_nat size) buff) offset f in (Ok w, f')) in
      match w with
      | inr e => m_throw (SystemError e)
      | inl wrote => m_modify (px_close fd) ;;; m_ret wrote
      end
  end.

(** The [do .. while (tot_read != size)] loop; [acc] is the buffer read so
    far.  Each turn reads at least a byte, so [size + 1] turns are enough. *)
Fixpoint read_loop (fuel : nat) (fd size offset : Z) (acc : list byte) (f : F)
    : option (list byte + Z) :=
  match fuel with
  | O => None
  | S n =>
      let tot_read := Z.of_nat (length acc) in
      match px_pread fd (size - tot_read) (offset + tot_read) f with
      | inr e => Some (inr e)
      | inl [] => Some (inl acc)
      | inl bs =>
          let acc' := acc ++ bs in
          if Z.of_nat (length acc') =? size then Some (inl acc')
          else read_loop n fd size offset acc' f
      end
  end.

(** Returns the bytes placed in the buffer; the eventual gets their number.
    A turn count above [size + 1] is not reachable ([read_chunk_spec]). *)
Definition read_chunk (file_path : str) (chunk_id size offset : Z) : M F (list byte) :=
  m_assert (u64 (offset + size) <=? cs_chunksize st) ;;;
  let* p := m_lift (chunk_path file_path chunk_id) in
  let* r := (fun f => let '(r, f') := px_open_r p f in (Ok r, f')) in
  match r with
  | inr e => m_throw (SystemError e)
  | inl fd =>
      let* bs := m_gets (read_loop (S (Z.to_nat size)) fd size offset []) in
      match bs with
      | None => m_trap
      | Some (inr e) => m_throw (SystemError e)
      | Some (inl bs) => m_modify (px_close fd) ;;; m_ret bs
      end
  end.

Definition chunk_stat : M F ChunkStat :=
  let* s := m_gets px_statfs in
  match s with
  | inr e => m_throw (SystemError e)
  | inl (bsize, blocks, bavail) =>
      let bytes_total := u64 (bsize * blocks) in
      let bytes_free := u64 (bsize * bavail) in
      m_ret (MkChunkStat (cs_chunksize st) (bytes_total / cs_chunksize st)
               (bytes_free / cs_chunksize st))
  end.
End storage.

(** ** Chunk paths *)

(** The paths of files other than the root directory. *)
Definition file_path_ok (p : str) : Prop := exists c t, p = sep :: c :: t.

Definition chunk_file (st : ChunkStorage) (file_path : str) (chunk_id : Z) : str :=
  root_path st ++ sep :: replace_sep (drop 1 file_path) ++ sep :: to_string_u (u32 chunk_id).

Lemma replace_sep_no_sep s : sep ∉ replace_sep s.
Proof.
  unfold replace_sep. intros (c & E & _)%list_elem_of_fmap. case_decide; done.
Qed.

Lemma replace_sep_relative c t s : is_relative (replace_sep (c :: t) ++ s) = true.
Proof.
  unfold is_relative. apply andb_true_iff.
  split; apply bool_decide_eq_true_2; [done|]. simpl. case_decide; done.
Qed.

Lemma chunk_path_ok st p id : file_path_ok p -> chunk_path st p id = Ok (chunk_file st p id).
Proof.
  intros (c & t & ->). unfold chunk_path, get_chunk_path, get_chunks_dir, absolute.
  replace (is_absolute (sep :: c :: t)) with true by done. cbn [assert_ mbind res_bind].
  cbn [drop]. by rewrite replace_sep_relative.
Qed.

Lemma chunk_dir_ok st p : file_path_ok p ->
  chunk_dir st p = Ok (root_path st ++ sep :: replace_sep (drop 1 p)).
Proof.
  intros (c & t & ->). unfold chunk_dir, get_chunks_dir, absolute.
  replace (is_absolute (sep :: c :: t)) with true by done. cbn [assert_ mbind res_bind].
  rewrite <- (app_nil_r (replace_sep (drop 1 _))). cbn [drop]. rewrite replace_sep_relative.
  by rewrite app_nil_r.
Qed.

(** Splitting at the last separator. *)
Lemma app_sep_inj (a1 a2 b1 b2 : str) :
  sep ∉ b1 -> sep ∉ b2 -> a1 ++ sep :: b1 = a2 ++ sep :: b2 -> a1 = a2 /\ b1 = b2.
Proof.
  intros H1 H2 E.
  pose proof (find_last_of_app sep a1 b1 H1) as E1. pose proof (find_last_of_app sep a2 b2 H2) as E2.
  rewrite E, E2 in E1. injection E1 as E1. apply app_inj_1 in E as [-> E]; [|done].
  by injection E as ->.
Qed.

Lemma chunk_file_inj st p1 p2 id1 id2 :
  in_u 32 id1 -> in_u 32 id2 -> chunk_file st p1 id1 = chunk_file st p2 id2 ->
  replace_sep (drop 1 p1) = replace_sep (drop 1 p2) /\ id1 = id2.
Proof.
  unfold chunk_file. intros H1 H2 E. rewrite !wrapu_small in E by done.
  apply app_inv_head in E. injection E as E.
  assert (forall n, 0 <= n -> sep ∉ to_string_u n) as Hd.
  { intros n Hn Hin. by apply to_string_u_digits in Hin. }
  apply app_sep_inj in E as [E1 E2]; [|apply Hd, H1|apply Hd, H2].
  split; [done|]. by apply to_string_u_inj in E2; [|apply H1|apply H2].
Qed.

(** Names without [':'] are not confused by the replacement. *)
Lemma replace_sep_inj s1 s2 :
  ":"%char ∉ s1 -> ":"%char ∉ s2 -> replace_sep s1 = replace_sep s2 -> s1 = s2.
Proof.
  revert s2. induction s1 as [|x s1 IH]; intros [|y s2] H1 H2 E; try done.
  apply not_elem_of_cons in H1 as [H1 H1'], H2 as [H2 H2'].
  unfold replace_sep in E. csimpl in E. injection E as Ex Es.
  f_equal; [|by apply IH]. repeat case_decide; congruence.
Qed.

(** ** Specifications *)

Section specs.
Context {F : Type} {P : PosixFS F} {L : PosixFSLaws P} (st : ChunkStorage).
Context (path : str) (id : Z) (Hp : file_path_ok path).

Lemma init_chunk_space_spec f r f' :
  init_chunk_space st path f = (r, f') ->
  fs_file f' = fs_file f /\ (r = Ok tt \/ exists e, r = Throw (SystemError e) /\ 0 < e).
Proof using L Hp.
  unfold init_chunk_space, m_bind, m_lift. rewrite chunk_dir_ok by done.
  destruct (px_mkdir _ f) as [e f1] eqn:E. apply mkdir_files in E as [E He].
  case_match eqn:Hb; intros [= <- <-]; (split; [done|]); [right|by left].
  apply andb_true_iff in Hb as [Hb _]. apply negb_true_iff, Z.eqb_neq in Hb.
  exists e. split; [done|lia].
Qed.

(** Removing a file's chunk directory leaves other chunk directories. *)
Lemma destroy_chunk_space_spec f :
  exists f', destroy_chunk_space st path f = (Ok tt, f') /\
    (forall q, ~ (exists t, q = root_path st ++ sep :: replace_sep (drop 1 path) ++ sep :: t) ->
       q <> root_path st ++ sep :: replace_sep (drop 1 path) -> fs_file f' q = fs_file f q) /\
    ((px_remove_all (root_path st ++ sep :: replace_sep (drop 1 path)) f).1 = true ->
       fs_file f' (chunk_file st path id) = None).
Proof using L Hp.
  unfold destroy_chunk_space, m_bind, m_lift. rewrite chunk_dir_ok by done. eexists. split; [done|].
  set (dir := root_path st ++ sep :: replace_sep (drop 1 path)).
  assert (forall t, root_path st ++ sep :: replace_sep (drop 1 path) ++ sep :: t = dir ++ sep :: t) as Ed.
  { intros t. unfold dir. by rewrite <- app_assoc. }
  split.
  - intros q H1 H2. apply remove_all_outside; [|done]. intros [t ->]. apply H1. exists t. by rewrite Ed.
  - intros Ht. destruct (px_remove_all dir f) as [b f1] eqn:E. simpl in Ht. subst b. cbn.
    unfold chunk_file. rewrite Ed. by eapply remove_all_inside.
Qed.

Lemma write_chunk_spec buff size offset f r f' :
  0 <= size <= Z.of_nat (length buff) -> 0 <= offset -> offset + size <= cs_chunksize st < 2 ^ 64 ->
  write_chunk st path id buff size offset f = (r, f') ->
  (forall q, q <> chunk_file st path id -> fs_file f' q = fs_file f q) /\
  match r with
  | Ok n => 0 <= n <= size /\
      fs_file f' (chunk_file st path id) =
      Some (write_at (default [] (fs_file f (chunk_file st path id))) (Z.to_nat offset)
              (take (Z.to_nat n) buff))
  | Throw (SystemError e) => 0 < e /\
      default [] (fs_file f' (chunk_file st path id)) = default [] (fs_file f (chunk_file st path id))
  | _ => False
  end.
Proof using L Hp.
  intros Hs Ho Hc. unfold write_chunk, m_bind at 1, m_assert.
  rewrite wrapu_small by int_solve. rewrite (proj2 (Z.leb_le _ _)) by lia. cbn [m_ret].
  unfold m_bind at 1. destruct (init_chunk_space st path f) as [r0 f0] eqn:E0.
  apply init_chunk_space_spec in E0 as [E0 [->|(e & -> & He)]]; [|intros [= <- <-]; by rewrite E0].
  unfold m_bind, m_lift. rewrite chunk_path_ok by done.
  destruct (px_open_w _ f0) as [[fd|e] f1] eqn:E1.
  2:{ apply open_w_fail in E1 as [E1 He]. intros [= <- <-]. by rewrite E1, E0. }
  apply open_w_ok in E1 as [Hfd E1].
  destruct (px_pwrite fd _ offset f1) as [[n|e] f2] eqn:E2.
  - destruct (pwrite_ok _ _ _ _ _ _ _ Hfd E2) as [Hn E3].
    unfold m_modify, m_ret. intros [= <- <-]. rewrite close_files. split.
    + intros q Hq. rewrite E3, decide_False by done. rewrite E1, decide_False by done. by rewrite E0.
    + rewrite length_take in Hn. split; [lia|].
      rewrite E3, decide_True by done. rewrite E1, decide_True by done. rewrite E0. simpl. by rewrite take_take, Nat.min_l by lia.
  - apply pwrite_fail in E2 as [E2 He]. intros [= <- <-]. rewrite E2. split.
    + intros q Hq. rewrite E1, decide_False by done. by rewrite E0.
    + split; [done|]. rewrite E1, decide_True by done. by rewrite E0.
Qed.

Lemma read_loop_spec fd f c size offset fuel acc :
  fs_fd f fd = Some (chunk_file st path id) -> fs_file f (chunk_file st path id) = Some c ->
  0 <= size -> 0 <= offset ->
  acc = take (length acc) (drop (Z.to_nat offset) c) -> Z.of_nat (length acc) <= size ->
  (Z.to_nat size - length acc < fuel)%nat ->
  (exists e, read_loop fuel fd size offset acc f = Some (inr e) /\ 0 < e /\ e <> ENOENT) \/
  read_loop fuel fd size offset acc f = Some (inl (read_at c (Z.to_nat offset) (Z.to_nat size))).
Proof using L.
  intros Hfd Hf Hs Ho. revert acc. induction fuel as [|fuel IH]; intros acc Ha Hl Hfu; [lia|].
  cbn [read_loop]. cbv zeta.
  destruct (px_pread fd _ _ f) as [bs|e] eqn:E.
  2:{ left. exists e. split; [done|]. by eapply pread_fail. }
  destruct (pread_ok _ _ _ _ _ _ _ Hfd Hf E) as [[j Ej] Enil].
  replace (Z.to_nat (offset + Z.of_nat (length acc))) with (Z.to_nat offset + length acc)%nat in * by lia.
  replace (Z.to_nat (size - Z.of_nat (length acc))) with (Z.to_nat size - length acc)%nat in * by lia.
  unfold read_at in *. rewrite <- drop_drop in *.
  set (t := drop (Z.to_nat offset) c) in *. clearbody t.
  assert (length acc <= length t)%nat as Hat.
  { rewrite Ha, length_take. lia. }
  assert (bs = take (length bs) (drop (length acc) t)) as Hb.
  { rewrite Ej, take_take, length_take, length_drop.
    rewrite <- (firstn_all (drop (length acc) t)) at 1. rewrite take_take, length_drop.
    f_equal; lia. }
  assert (acc ++ bs = take (length (acc ++ bs)) t) as Hab.
  { by rewrite length_app, <- take_take_drop, <- Ha, <- Hb. }
  assert (length (acc ++ bs) <= Z.to_nat size)%nat as Hlen.
  { rewrite length_app, Ej, !length_take. lia. }
  destruct bs as [|b bs].
  - right. do 2 f_equal. specialize (Enil eq_refl).
    rewrite Ha at 1. apply (f_equal length) in Enil.
    rewrite length_take, length_drop in Enil. simpl in Enil.
    destruct (decide (length acc = Z.to_nat size)) as [->|]; [done|].
    rewrite !take_ge by lia. done.
  - case_match eqn:Esz.
    + apply Z.eqb_eq in Esz. right. do 2 f_equal. rewrite Hab at 1. f_equal. lia.
    + apply Z.eqb_neq in Esz. apply IH; [done|lia|].
      rewrite length_app in *. simpl in *. lia.
Qed.

Lemma read_chunk_spec size offset f r f' :
  0 <= size -> 0 <= offset -> offset + size <= cs_chunksize st < 2 ^ 64 ->
  read_chunk st path id size offset f = (r, f') ->
  fs_file f' = fs_file f /\
  match r with
  | Ok bs => exists c, fs_file f (chunk_file st path id) = Some c /\
               bs = read_at c (Z.to_nat offset) (Z.to_nat size)
  | Throw (SystemError e) => 0 < e /\ (e = ENOENT -> fs_file f (chunk_file st path id) = None)
  | _ => False
  end.
Proof using L Hp.
  intros Hs Ho Hc. unfold read_chunk, m_bind at 1, m_assert.
  rewrite wrapu_small by int_solve. rewrite (proj2 (Z.leb_le _ _)) by lia. cbn [m_ret].
  unfold m_bind, m_lift. rewrite chunk_path_ok by done.
  destruct (px_open_r _ f) as [[fd|e] f1] eqn:E1.
  2:{ apply open_r_fail in E1 as (E1 & He & Hm). intros [= <- <-]. done. }
  apply open_r_ok in E1 as (Hfd & [c Hf] & E1). rewrite <- E1 in Hf.
  unfold m_gets.
  destruct (read_loop_spec fd f1 c size offset (S (Z.to_nat size)) []) as [(e & -> & He)| ->];
    simpl; try done; try lia.
  - intros [= <- <-]. naive_solver.
  - intros [= <- <-]. rewrite close_files. split; [done|]. exists c. by rewrite <- E1.
Qed.

Lemma read_chunk_missing size offset f :
  0 <= size -> 0 <= offset -> offset + size <= cs_chunksize st < 2 ^ 64 ->
  fs_file f (chunk_file st path id) = None ->
  (read_chunk st path id size offset f).1 = Throw (SystemError ENOENT).
Proof using L Hp.
  intros Hs Ho Hc Hf. unfold read_chunk, m_bind at 1, m_assert.
  rewrite wrapu_small by int_solve. rewrite (proj2 (Z.leb_le _ _)) by lia. cbn [m_ret].
  unfold m_bind, m_lift. rewrite chunk_path_ok by done.
  pose proof (open_r_missing _ _ Hf) as E. destruct (px_open_r _ f) as [r f1]. simpl in E.
  by subst.
Qed.
End specs.

(** ** An in-memory file system

    A concrete [PosixFS] on which every call succeeds when its file exists:
    the laws can hold. *)

Record memfs := MkMemFS {
  mf_files : gmap str (list byte);
  mf_dirs : gset str;
  mf_fds : gmap Z str
}.

Definition mf_names (p : str) (m : gmap str (list byte)) : list str :=
  omap (fun kv : str * list byte =>
    if starts_with (p ++ [sep]) kv.1 then
      let n := drop (length (p ++ [sep])) kv.1 in if decide (sep ∈ n) then None else Some n
    else None) (map_to_list m).

#[export] Instance MemFS : PosixFS memfs := {|
  fs_file f p := mf_files f !! p;
  fs_fd f fd := mf_fds f !! fd;
  fs_dir f p := bool_decide (p ∈ mf_dirs f);
  px_mkdir p f := if decide (p ∈ mf_dirs f) then (EEXIST, f)
                  else (0, MkMemFS (mf_files f) ({[p]} ∪ mf_dirs f) (mf_fds f));
  px_open_w p f :=
    (inl 3, MkMemFS (<[p := default [] (mf_files f !! p)]> (mf_files f)) (mf_dirs f) (<[3 := p]> (mf_fds f)));
  px_open_r p f :=
    match mf_files f !! p with
    | Some _ => (inl 3, MkMemFS (mf_files f) (mf_dirs f) (<[3 := p]> (mf_fds f)))
    | None => (inr ENOENT, f)
    end;
  px_pwrite fd d off f :=
    match mf_fds f !! fd with
    | Some p => (inl (Z.of_nat (length d)),
        MkMemFS (<[p := write_at (default [] (mf_files f !! p)) (Z.to_nat off) d]> (mf_files f))
          (mf_dirs f) (mf_fds f))
    | None => (inr EBADF, f)
    end;
  px_pread fd n off f :=
    match mf_fds f !! fd with
    | Some p => inl (read_at (default [] (mf_files f !! p)) (Z.to_nat off) (Z.to_nat n))
    | None => inr EBADF
    end;
  px_close fd f := MkMemFS (mf_files f) (mf_dirs f) (delete fd (mf_fds f));
  px_truncate p len f :=
    match mf_files f !! p with
    | Some c => (0, MkMemFS (<[p := resize (Z.to_nat len) c]> (mf_files f)) (mf_dirs f) (mf_fds f))
    | None => (ENOENT, f)
    end;
  px_unlink p f :=
    match mf_files f !! p with
    | Some c => (0, MkMemFS (delete p (mf_files f)) (mf_dirs f) (mf_fds f))
    | None => (ENOENT, f)
    end;
  px_readdir p f := if decide (p ∈ mf_dirs f) then Some (mf_names p (mf_files f)) else None;
  px_remove_all p f :=
    (true, MkMemFS (filter (fun kv => starts_with (p ++ [sep]) kv.1 = false /\ kv.1 <> p) (mf_files f))
      (mf_dirs f ∖ {[p]}) (mf_fds f));
  px_statfs f := inl (4096, 1000000, 500000)
|}.

Lemma mf_names_spec p m n :
  n ∈ mf_names p m <-> sep ∉ n /\ is_Some (m !! (p ++ sep :: n)).
Proof.
  unfold mf_names. rewrite list_elem_of_omap. split.
  - intros ([k c] & Hk & E). apply elem_of_map_to_list in Hk. simpl in E.
    destruct (starts_with _ k) eqn:Es; [|done]. apply starts_with_spec in Es as [t ->].
    rewrite drop_app_length in E. case_decide; [done|]. injection E as ->.
    split; [done|]. rewrite <- app_assoc in Hk. simpl in Hk. by rewrite Hk.
  - intros [Hn [c Hc]]. exists (p ++ sep :: n, c). split; [by apply elem_of_map_to_list|]. simpl.
    replace (p ++ sep :: n) with ((p ++ [sep]) ++ n) by (by rewrite <- app_assoc).
    rewrite (proj2 (starts_with_spec _ _)) by (by exists n).
    rewrite drop_app_length. by rewrite decide_False.
Qed.

#[export] Instance MemFS_laws : PosixFSLaws MemFS.
Proof.
  split; simpl.
  - intros p f e f'. case_decide; by intros [= <- <-].
  - intros p f fd f' [= <- <-]. split; [apply lookup_insert_eq|]. intros q. simpl.
    rewrite lookup_insert. repeat case_decide; congruence.
  - done.
  - intros p f fd f'. case_match eqn:E; intros [= <- <-]. split; [apply lookup_insert_eq|]. eauto.
  - intros p f e f'. case_match; intros [= <- <-]. done.
  - intros p f ->. done.
  - intros fd d off p f n f' ->. intros [= <- <-]. simpl. split; [lia|]. intros q.
    rewrite lookup_insert. rewrite take_ge by lia. repeat case_decide; congruence.
  - intros fd d off f e f'. case_match; intros [= <- <-]. done.
  - intros fd n off p f c bs -> Hc. rewrite Hc. intros [= <-]. simpl. split; [|done].
    exists (Z.to_nat n). unfold read_at. by rewrite take_take, Nat.min_id.
  - intros fd n off f e. case_match; by intros [= <-].
  - done.
  - intros p len f f'. case_match eqn:E; intros [= <-]. split; [eauto|]. intros q. simpl.
    rewrite lookup_insert. repeat case_decide; simplify_eq; done.
  - intros p len f e f'. case_match; intros [= <- <-]; done.
  - intros p len f ->. done.
  - intros p f f'. case_match eqn:E; intros [= <-]. intros q. simpl.
    rewrite lookup_delete. repeat case_decide; congruence.
  - intros p f e f'. case_match; intros [= <- <-]; done.
  - intros p f names n. case_decide; intros [= <-]. apply mf_names_spec.
  - intros p f H%bool_decide_eq_false. by rewrite decide_False.
  - intros p f q H1 H2. apply option_eq. intros c. rewrite map_lookup_filter_Some. simpl.
    split; [naive_solver|]. intros Hc. split; [done|]. split; [|done].
    apply not_true_is_false. intros [t Ht]%starts_with_spec. apply H1. exists t.
    by rewrite <- app_assoc in Ht.
  - intros p f f' t [= <-]. simpl. apply map_lookup_filter_None. right. intros c _ [H _].
    rewrite (proj2 (starts_with_spec (p ++ [sep]) _)) in H; [done|]. exists t. by rewrite <- app_assoc.
Qed.

(** ** Properties *)

(** A chunk write that reports [size] bytes is read back: reading the
    same range of the same chunk returns the bytes written (or the read
    fails with an error of the local file system), and no other file of the
    store has changed. *)
Theorem chunk_write_then_read {F : Type} (P : PosixFS F) (L : PosixFSLaws P) (st : ChunkStorage)
    (path : str) (id size offset : Z) (buff : list byte) (f f1 f2 : F) (r : res (list byte)) :
  file_path_ok path -> 0 <= size <= Z.of_nat (length buff) -> 0 <= offset ->
  offset + size <= cs_chunksize st < 2 ^ 64 ->
  write_chunk st path id buff size offset f = (Ok size, f1) ->
  read_chunk st path id size offset f1 = (r, f2) ->
  (r = Ok (take (Z.to_nat size) buff) \/ exists e, r = Throw (SystemError e)) /\
  forall q, q <> chunk_file st path id -> fs_file f2 q = fs_file f q.
Proof.
  intros Hp Hs Ho Hc Hw Hr.
  destruct (write_chunk_spec st path id Hp buff size offset f _ _ Hs Ho Hc Hw) as (Hq & _ & Hf).
  destruct (read_chunk_spec st path id Hp size offset f1 _ _ (proj1 Hs) Ho Hc Hr) as [E Hm].
  split; [|intros q Hne; by rewrite E, Hq].
  destruct r as [bs|[]|]; try done; [|eauto]. left.
  destruct Hm as (c & Hc' & ->). rewrite Hf in Hc'. injection Hc' as <-. f_equal.
  apply list_eq. intros i. rewrite lookup_read_at, lookup_write_at, length_take.
  case_decide; [|symmetry; apply lookup_ge_None_2; rewrite length_take; lia].
  rewrite decide_True by lia. f_equal. lia.
Qed.

Definition example_store : ChunkStorage := MkChunkStorage (s_ "/r") 16.

Lemma chunk_write_then_read_witness :
  exists f1 f2 r,
    ((r : res (list byte)) = Ok (take 3 (s_ "abc")) \/ exists e, r = Throw (SystemError e)) /\
    forall q, q <> chunk_file example_store (s_ "/f") 7 -> fs_file f2 q = fs_file (f1 : memfs) q.
Proof.
  eexists (MkMemFS ∅ ∅ ∅), _, _.
  refine (chunk_write_then_read MemFS _ example_store (s_ "/f") 7 3 2 (s_ "abc")
    (MkMemFS ∅ ∅ ∅) _ _ _ _ _ _ _ eq_refl eq_refl).
  - by eexists _, _.
  - simpl. lia.
  - lia.
  - simpl. lia.
Defined.

(** Distinct files never share a chunk file, provided their paths do
    not contain [':']. *)
Theorem chunk_files_distinct (st : ChunkStorage) (p1 p2 : str) (id1 id2 : Z) :
  file_path_ok p1 -> file_path_ok p2 -> ":"%char ∉ p1 -> ":"%char ∉ p2 ->
  in_u 32 id1 -> in_u 32 id2 ->
  chunk_path st p1 id1 = chunk_path st p2 id2 -> p1 = p2 /\ id1 = id2.
Proof.
  intros H1 H2 C1 C2 I1 I2. rewrite !chunk_path_ok by done. intros [= E].
  apply chunk_file_inj in E as [E ->]; [|done..]. split; [|done].
  destruct H1 as (x & s & ->), H2 as (y & t & ->). cbn [drop] in E.
  apply replace_sep_inj in E; [by injection E as -> ->| |]; set_solver.
Qed.

Lemma chunk_files_distinct_witness :
  s_ "/a/b" = s_ "/a/b" /\ 1 = 1.
Proof.
  apply (chunk_files_distinct example_store (s_ "/a/b") (s_ "/a/b") 1 1).
  - by eexists _, _.
  - by eexists _, _.
  - by apply (bool_decide_unpack _).
  - by apply (bool_decide_unpack _).
  - unfold in_u. lia.
  - unfold in_u. lia.
  - reflexivity.
Defined.

(** With [':'] in a name two files do share their chunk files: ["/a/b"]
    and ["/a:b"] are stored in the same directory, whatever the chunk. *)
Theorem colon_paths_collide (st : ChunkStorage) (id : Z) :
  chunk_path st (s_ "/a/b") id = chunk_path st (s_ "/a:b") id /\
  chunk_dir st (s_ "/a/b") = chunk_dir st (s_ "/a:b").
Proof. done. Qed.
