(* ===== verification/ChunkPlan.v ===== *)
(** * The chunks of a byte range

    A read or write of [size] bytes at [offset] touches the chunks [ids];
    of chunk [id] it touches the bytes from [lo id] up to [hi id].  This is
    the specification the client's grouping and the daemon's assignment loop
    are proved against: the pieces are disjoint, non-empty, inside their
    chunk and cover the range. *)

From S2P Require Import Prelude.

(** Sum of [f] over a list. *)
Fixpoint zsum {A} (f : A -> Z) (l : list A) : Z :=
  match l with [] => 0 | x :: l' => f x + zsum f l' end.

Lemma zsum_app {A} (f : A -> Z) l1 l2 : zsum f (l1 ++ l2) = zsum f l1 + zsum f l2.
Proof. induction l1; simpl; lia. Qed.

Lemma zsum_fmap {A B} (f : B -> Z) (g : A -> B) l : zsum f (g <$> l) = zsum (fun x => f (g x)) l.
Proof. induction l as [|x l IH]; [done|]. cbn. by f_equal. Qed.

Lemma zsum_ext {A} (f g : A -> Z) l : (forall x, x ∈ l -> f x = g x) -> zsum f l = zsum g l.
Proof.
  induction l as [|x l IH]; intros H; simpl; [done|].
  rewrite H, IH; [done| |]; set_solver.
Qed.

Lemma zsum_nonneg {A} (f : A -> Z) l : (forall x, x ∈ l -> 0 <= f x) -> 0 <= zsum f l.
Proof.
  induction l as [|x l IH]; intros H; simpl; [done|].
  pose proof (H x ltac:(set_solver)). assert (0 <= zsum f l) by (apply IH; set_solver). lia.
Qed.

Lemma zsum_add {A} (f g : A -> Z) l : zsum (fun x => f x + g x) l = zsum f l + zsum g l.
Proof. induction l; simpl; lia. Qed.

Lemma zsum_sub {A} (f g : A -> Z) l : zsum (fun x => f x - g x) l = zsum f l - zsum g l.
Proof. induction l; simpl; lia. Qed.

Lemma zsum_const {A} c (l : list A) : zsum (fun _ => c) l = Z.of_nat (length l) * c.
Proof. induction l; simpl length; simpl zsum; lia. Qed.

Lemma zsum_indicator (a : Z) c l : NoDup l ->
  zsum (fun x => if x =? a then c else 0) l = if decide (a ∈ l) then c else 0.
Proof.
  induction 1 as [|x l Hx Hl IH]; [done|]. cbn [zsum].
  rewrite IH. destruct (x =? a) eqn:E.
  - apply Z.eqb_eq in E as ->. rewrite (decide_False (P := a ∈ l)) by done.
    rewrite decide_True by set_solver. lia.
  - apply Z.eqb_neq in E. repeat case_decide; set_solver by lia.
Qed.

Lemma zsum_filter_le {A} (f : A -> Z) (P : A -> Prop) `{!forall x, Decision (P x)} l :
  (forall x, x ∈ l -> 0 <= f x) -> zsum f (filter P l) <= zsum f l.
Proof.
  induction l as [|x l IH]; intros Hf; [done|].
  pose proof (Hf x ltac:(set_solver)). assert (zsum f (filter P l) <= zsum f l) by (apply IH; set_solver).
  rewrite filter_cons. simpl. case_decide; simpl; lia.
Qed.

Lemma zsum_le {A} (f g : A -> Z) l : (forall x, x ∈ l -> f x <= g x) -> zsum f l <= zsum g l.
Proof.
  induction l as [|x l IH]; intros H; simpl; [done|].
  pose proof (H x ltac:(set_solver)). assert (zsum f l <= zsum g l) by (apply IH; set_solver). lia.
Qed.

Lemma zsum_eq_pointwise {A} (f g : A -> Z) l x :
  (forall y, y ∈ l -> f y <= g y) -> zsum f l = zsum g l -> x ∈ l -> f x = g x.
Proof.
  induction l as [|y l IH]; intros H E Hx; [by apply not_elem_of_nil in Hx|]. simpl in E.
  pose proof (H y ltac:(set_solver)). assert (zsum f l <= zsum g l) by (apply zsum_le; set_solver).
  apply elem_of_cons in Hx as [->|Hx]; [lia|]. apply IH; [set_solver|lia|done].
Qed.

Section plan.
Context (cs offset size : Z).

Definition first_id : Z := offset / cs.
Definition last_id : Z := (offset + size - 1) / cs.
(** The ids from [id] up to the last chunk. *)
Definition ids_from (id : Z) : list Z := seqZ id (last_id + 1 - id).
Definition ids : list Z := ids_from first_id.
Definition lo (id : Z) : Z := Z.max offset (id * cs).
Definition hi (id : Z) : Z := Z.min (offset + size) ((id + 1) * cs).
Definition psize (id : Z) : Z := hi id - lo id.
(** Where the bytes of chunk [id] start in the caller's buffer, and in
    the chunk. *)
Definition buf_off (id : Z) : Z := lo id - offset.
Definition chunk_off (id : Z) : Z := lo id - id * cs.

Context (Hcs : 0 < cs) (Ho : 0 <= offset) (Hs : 0 < size).

Lemma plan_first : offset = first_id * cs + offset mod cs /\ 0 <= offset mod cs < cs.
Proof using Hcs.
  unfold first_id. pose proof (Z.div_mod offset cs). pose proof (Z.mod_pos_bound offset cs). lia.
Qed.

Lemma plan_last : last_id * cs <= offset + size - 1 < (last_id + 1) * cs.
Proof using Hcs.
  unfold last_id. pose proof (Z.div_mod (offset + size - 1) cs).
  pose proof (Z.mod_pos_bound (offset + size - 1) cs). lia.
Qed.

Lemma first_le_last : 0 <= first_id <= last_id.
Proof using Hcs Ho Hs.
  split; [by apply Z.div_pos|]. apply Z.div_le_mono; lia.
Qed.

Lemma elem_of_ids id : id ∈ ids <-> first_id <= id <= last_id.
Proof using All. pose proof first_le_last. unfold ids, ids_from. rewrite elem_of_seqZ. lia. Qed.

Lemma ids_nodup : NoDup ids.
Proof. apply NoDup_seqZ. Qed.

Lemma ids_from_cons id : id <= last_id -> ids_from id = id :: ids_from (id + 1).
Proof using. intros H. unfold ids_from. rewrite seqZ_cons by lia. f_equal. f_equal; lia. Qed.

Lemma ids_from_end : ids_from (last_id + 1) = [].
Proof using. unfold ids_from. by rewrite Z.sub_diag. Qed.

Lemma lo_hi id : first_id <= id <= last_id ->
  offset <= lo id /\ lo id < hi id /\ hi id <= offset + size /\
  id * cs <= lo id /\ hi id <= (id + 1) * cs.
Proof using Hcs Ho Hs.
  intros H. pose proof plan_first. pose proof plan_last. unfold lo, hi. nia.
Qed.

(** The chunk of a byte of the range is the one whose piece holds it. *)
Lemma in_piece id o : first_id <= id <= last_id -> offset <= o < offset + size ->
  lo id <= o < hi id <-> o / cs = id.
Proof using Hcs Ho Hs.
  intros Hid Hr. pose proof (Z.div_mod o cs). pose proof (Z.mod_pos_bound o cs). unfold lo, hi.
  split; [|intros <-; lia]. intros H1. symmetry. apply Z.div_unique with (r := o - cs * id); lia.
Qed.

Lemma byte_chunk_range o : offset <= o < offset + size -> first_id <= o / cs <= last_id.
Proof using Hcs Ho Hs. intros H. split; apply Z.div_le_mono; lia. Qed.

Lemma psize_bounds id : first_id <= id <= last_id -> 0 < psize id <= cs /\ psize id <= size.
Proof using Hcs Ho Hs. intros H. pose proof (lo_hi id H). unfold psize. lia. Qed.

Lemma chunk_off_bounds id : first_id <= id <= last_id ->
  0 <= chunk_off id /\ chunk_off id + psize id <= cs /\
  0 <= buf_off id /\ buf_off id + psize id <= size.
Proof using Hcs Ho Hs. intros H. pose proof (lo_hi id H). unfold chunk_off, buf_off, psize. lia. Qed.

Lemma lo_first : lo first_id = offset.
Proof using Hcs. pose proof plan_first. unfold lo. lia. Qed.

Lemma lo_later id : first_id < id -> lo id = id * cs.
Proof using Hcs. intros H. pose proof plan_first. unfold lo. nia. Qed.

Lemma psize_first :
  psize first_id = if offset mod cs + size <=? cs then size else cs - offset mod cs.
Proof using Hcs.
  pose proof plan_first. unfold psize. rewrite lo_first. unfold hi.
  destruct (Z.leb_spec (offset mod cs + size) cs); lia.
Qed.

(** Every chunk before the last one is complete, but for a first chunk
    with an offset. *)
Lemma psize_full id :
  first_id <= id < last_id -> (id = first_id -> offset mod cs = 0) -> psize id = cs /\ cs < size.
Proof using Hcs Ho Hs.
  intros H1 H2. pose proof plan_first as [F1 F2]. pose proof plan_last. unfold psize, hi.
  destruct (decide (id = first_id)) as [->|].
  - rewrite lo_first. specialize (H2 eq_refl). nia.
  - rewrite lo_later by lia. nia.
Qed.

(** The padding to the right of the range. *)
Lemma plan_rpad : (- (offset + size)) mod cs = (last_id + 1) * cs - (offset + size).
Proof using Hcs.
  pose proof plan_last as L. symmetry. apply Z.mod_unique with (q := - (last_id + 1)); [lia|]. lia.
Qed.

Lemma psize_pads id : first_id <= id <= last_id ->
  psize id = cs - (if id =? first_id then offset mod cs else 0)
                - (if id =? last_id then (- (offset + size)) mod cs else 0).
Proof using Hcs Ho Hs.
  intros H. rewrite plan_rpad. pose proof plan_first. pose proof plan_last.
  unfold psize, lo, hi. destruct (Z.eqb_spec id first_id), (Z.eqb_spec id last_id); subst; nia.
Qed.

(** A host's share of the range: whole chunks less the paddings. *)
Lemma zsum_share (P : Z -> Prop) `{!forall x, Decision (P x)} :
  zsum psize (filter P ids) =
  Z.of_nat (length (filter P ids)) * cs
    - (if decide (P first_id) then offset mod cs else 0)
    - (if decide (P last_id) then (- (offset + size)) mod cs else 0).
Proof using Hcs Ho Hs.
  pose proof first_le_last as Hfl.
  rewrite (zsum_ext _ (fun id => cs - (if id =? first_id then offset mod cs else 0)
                - (if id =? last_id then (- (offset + size)) mod cs else 0))).
  2:{ intros id [_ Hid]%list_elem_of_filter. apply psize_pads. by apply elem_of_ids. }
  rewrite !zsum_sub, zsum_const, !zsum_indicator by (apply NoDup_filter, ids_nodup).
  assert (forall id, first_id <= id <= last_id -> (id ∈ filter P ids <-> P id)) as E.
  { intros id Hid. rewrite list_elem_of_filter, elem_of_ids. naive_solver. }
  rewrite (decide_ext _ _ _ _ (E first_id ltac:(lia))).
  rewrite (decide_ext _ _ _ _ (E last_id ltac:(lia))). done.
Qed.

(** The pieces add up to the range. *)
Lemma zsum_total : zsum psize ids = size.
Proof using All.
  pose proof first_le_last as Hfl. pose proof plan_first. pose proof plan_last.
  pose proof (zsum_share (fun _ => True)) as E.
  rewrite !decide_True, plan_rpad in E by done.
  assert (filter (fun _ => True) ids = ids) as F.
  { clear. induction ids; simpl; [done|]. rewrite filter_cons_True by done. by f_equal. }
  rewrite F in E. rewrite E. unfold ids, ids_from. rewrite length_seqZ. lia.
Qed.
End plan.
