(* ===== verification/SrvData.v ===== *)
(** * Data handlers of the daemon ([src/daemon/handler/srv_data.cpp])

    [rpc_srv_write] and [rpc_srv_read] split the part of a request that
    belongs to this host into chunk operations, move the bytes by RDMA
    between the client's buffer and a local one, run one I/O task per chunk
    and sum the results.  Margo, Mercury and Argobots are not part of the
    sources: [margo_env] says which of their calls succeed.  Here the tasks
    run one after the other; [Tasks] lets them run beside the handler, and
    [Agios] has the blocks of the optional scheduler. *)

From S2P Require Import Prelude Config ChunkCalc Distributor ChunkStorage ChunkPlan.

(** ** Requests and replies ([include/global/rpc/rpc_types.hpp]) *)

(** [rpc_write_data_in_t] and [rpc_read_data_in_t] have the same fields; the
    bulk handle is the client's buffer, passed beside. *)
Record rpc_data_in := MkDataIn {
  in_path : str;
  in_offset : Z;            (* int64_t *)
  in_host_id : Z;           (* hg_uint64_t from here on *)
  in_host_size : Z;
  in_chunk_n : Z;
  in_chunk_start : Z;
  in_chunk_end : Z;
  in_total_chunk_size : Z
}.

Record rpc_data_out := MkDataOut {
  out_err : Z;
  out_io_size : Z
}.

(** ** External calls *)

(** The calls of Margo and Argobots; the functions take the index of the
    chunk operation.  [bulk_transfer] moves bytes between two memories
    (source, its offset, destination, its offset, size) and returns the new
    destination, [None] is an error.  [task_ran] tells which of the tasks
    that a failing handler cancels had run already. *)
Record margo_env := MkMargoEnv {
  get_input_ok : bool;
  bulk_create_ok : bool;
  bulk_access_ok : bool;
  bulk_transfer : nat -> list byte -> Z -> list byte -> Z -> Z -> option (list byte);
  task_create_ok : nat -> bool;
  eventual_wait_ok : nat -> bool;
  task_ran : nat -> bool
}.

(** What a transfer does when it succeeds: it copies a range that lies
    inside both memories. *)
Definition in_bounds (src : list byte) (src_off : Z) (dst : list byte) (dst_off n : Z) : bool :=
  (0 <=? src_off) && (src_off + n <=? Z.of_nat (length src)) &&
  (0 <=? dst_off) && (dst_off + n <=? Z.of_nat (length dst)) && (0 <=? n).

Definition copy_range (src : list byte) (src_off : Z) (dst : list byte) (dst_off n : Z) : list byte :=
  write_at dst (Z.to_nat dst_off) (read_at src (Z.to_nat src_off) (Z.to_nat n)).

Definition transfers_copy (env : margo_env) : Prop := forall i src so dst d_o n dst',
  bulk_transfer env i src so dst d_o n = Some dst' ->
  in_bounds src so dst d_o n = true /\ dst' = copy_range src so dst d_o n.

Definition transfer_works (env : margo_env) (i : nat) : Prop := forall src so dst d_o n,
  in_bounds src so dst d_o n = true ->
  bulk_transfer env i src so dst d_o n = Some (copy_range src so dst d_o n).

Definition transfer_fails (env : margo_env) (i : nat) : Prop := forall src so dst d_o n,
  bulk_transfer env i src so dst d_o n = None.

Lemma in_bounds_true src so dst d_o n :
  0 <= so -> so + n <= Z.of_nat (length src) -> 0 <= d_o -> d_o + n <= Z.of_nat (length dst) -> 0 <= n ->
  in_bounds src so dst d_o n = true.
Proof. intros. unfold in_bounds. rewrite !(proj2 (Z.leb_le _ _)) by lia. done. Qed.

Lemma length_copy_range src so dst d_o n :
  in_bounds src so dst d_o n = true -> length (copy_range src so dst d_o n) = length dst.
Proof.
  unfold in_bounds, copy_range. intros E. repeat (apply andb_true_iff in E as [E ?]).
  rewrite length_write_at. destruct (read_at src _ _) as [|b t] eqn:Er; [done|]. rewrite <- Er.
  rewrite length_read_at. lia.
Qed.

(** ** Chunk operations of a request *)

(** One turn's [chnk_ids_host], [chnk_sizes], offsets and task arguments. *)
Record piece := MkPiece {
  pc_id : Z;        (* task_arg.chnk_id *)
  pc_origin : Z;    (* origin_offset, in the client's buffer *)
  pc_local : Z;     (* local_offset, in the bulk buffer *)
  pc_ptr : Z;       (* bulk_buf_ptrs: where the task finds its bytes *)
  pc_size : Z;      (* chnk_sizes / task_arg.size *)
  pc_off : Z        (* task_arg.off *)
}.

(** The variables of the loop that assigns chunks. *)
Record loop_state := MkLoop {
  chnk_id_curr : Z;
  chnk_size_left_host : Z;
  transfer_size : Z;
  chnk_ptr : Z;
  pieces : list piece
}.

Section handlers.
Context (cfg : config) (str_hash : str -> Z).

(** The chunk hashes to this host; forwarders serve every chunk. *)
Definition serves (in_ : rpc_data_in) (chnk_id_file : Z) : bool :=
  enable_forwarding cfg ||
  (locate_data (SimpleHashDistributor str_hash (in_host_id in_) (in_host_size in_))
     (in_path in_) chnk_id_file =? in_host_id in_).

Definition loop_init (in_ : rpc_data_in) (bulk_size : Z) : loop_state :=
  MkLoop 0 (in_total_chunk_size in_)
    (if bulk_size <=? chunksize cfg then bulk_size else chunksize cfg) 0 [].

(** The body of the loop for a chunk of this host, up to the task
    arguments.  The vectors have [chunk_n] slots. *)
Definition loop_body (in_ : rpc_data_in) (bulk_size chnk_id_file : Z) (s : loop_state)
    : option loop_state :=
  if negb (chnk_id_curr s <? in_chunk_n in_) then None else
  let off := if chnk_id_file =? in_chunk_start in_ then in_offset in_ else 0 in
  if (chnk_id_file =? in_chunk_start in_) && (0 <? in_offset in_) then
    let offset_transfer_size :=
      if u64 (in_offset in_ + bulk_size) <=? chunksize cfg then bulk_size
      else u64 (chunksize cfg - in_offset in_) in
    Some (MkLoop (chnk_id_curr s + 1)
            (u64 (chnk_size_left_host s - offset_transfer_size))
            (transfer_size s)
            (chnk_ptr s + offset_transfer_size)
            (pieces s ++ [MkPiece chnk_id_file 0 0 (chnk_ptr s) offset_transfer_size off]))
  else
    let local_offset := u64 (in_total_chunk_size in_ - chnk_size_left_host s) in
    let origin_offset :=
      if 0 <? in_offset in_
      then u64 ((chunksize cfg - in_offset in_) +
                ((chnk_id_file - in_chunk_start in_) - 1) * chunksize cfg)
      else u64 ((chnk_id_file - in_chunk_start in_) * chunksize cfg) in
    let transfer_size' :=
      if chnk_id_curr s =? u64 (in_chunk_n in_ - 1) then chnk_size_left_host s
      else transfer_size s in
    Some (MkLoop (chnk_id_curr s + 1)
            (u64 (chnk_size_left_host s - transfer_size'))
            transfer_size'
            (chnk_ptr s + transfer_size')
            (pieces s ++ [MkPiece chnk_id_file origin_offset local_offset (chnk_ptr s) transfer_size' off])).

(** The [for] loop over [chnk_id_file].  [Trap] is an access outside the
    vectors, [Ok None] means more fuel is needed. *)
Fixpoint assign_loop (fuel : nat) (in_ : rpc_data_in) (bulk_size chnk_id_file : Z) (s : loop_state)
    : res (option loop_state) :=
  match fuel with
  | O => Ok None
  | S n =>
      if (chnk_id_file <? in_chunk_end in_) || (chnk_id_curr s <? in_chunk_n in_) then
        if serves in_ chnk_id_file then
          match loop_body in_ bulk_size chnk_id_file s with
          | None => Trap
          | Some s' => assign_loop n in_ bulk_size (u64 (chnk_id_file + 1)) s'
          end
        else assign_loop n in_ bulk_size (u64 (chnk_id_file + 1)) s
      else Ok (Some s)
  end.

(** Fuel for a request: every id of its chunk interval, and the exit test. *)
Definition assign_fuel (in_ : rpc_data_in) : nat :=
  S (S (Z.to_nat (in_chunk_end in_ - in_chunk_start in_))).

Definition assign_chunks (in_ : rpc_data_in) (bulk_size : Z) : res (option loop_state) :=
  assign_loop (assign_fuel in_) in_ bulk_size (in_chunk_start in_) (loop_init in_ bulk_size).

Section tasks.
Context {F : Type} {P : PosixFS F} (st : ChunkStorage) (env : margo_env).

(** [write_file_abt]: the value set in the eventual. *)
Definition write_file_abt (path : str) (bulk_buf : list byte) (p : piece) : M F Z :=
  m_try
    (write_chunk st path (pc_id p) (drop (Z.to_nat (pc_ptr p)) bulk_buf) (pc_size p) (pc_off p))
    (fun e => match e with SystemError c => m_ret (- c) | _ => m_throw e end).

(** [read_file_abt]: the bytes read or the negated error number. *)
Definition read_file_abt (path : str) (p : piece) : M F (list byte + Z) :=
  m_try
    (let* bs := read_chunk st path (pc_id p) (pc_size p) (pc_off p) in m_ret (inl bs))
    (fun e => match e with SystemError c => m_ret (inr (- c)) | _ => m_throw e end).

(** Run the tasks; the eventuals in the order of the operations. *)
Fixpoint run_tasks {A} (task : piece -> M F A) (ps : list piece) : M F (list A) :=
  match ps with
  | [] => m_ret []
  | p :: ps' => let* r := task p in let* rs := run_tasks task ps' in m_ret (r :: rs)
  end.

(** The tasks among the first [n] that had run when the handler gave up. *)
Definition cancelled (n : nat) (ps : list piece) : list piece :=
  (fun ip : nat * piece => ip.2) <$>
    filter (fun ip : nat * piece => task_ran env ip.1 = true) (zip (seq 0 n) ps).

(** [write]: pulling the pieces into the bulk buffer; the left result is
    the number of tasks created before a failure and the buffer then. *)
Fixpoint pull_pieces (i : nat) (client : list byte) (ps : list piece) (bulk : list byte)
    : (nat * list byte) + list byte :=
  match ps with
  | [] => inr bulk
  | p :: ps' =>
      match bulk_transfer env i client (pc_origin p) bulk (pc_local p) (pc_size p) with
      | None => inl (i, bulk)
      | Some bulk' =>
          if task_create_ok env i then pull_pieces (S i) client ps' bulk' else inl (i, bulk')
      end
  end.

(** Part 4 of [rpc_srv_write]: accumulate the eventuals. *)
Fixpoint collect_written (i : nat) (results : list Z) (io_size : Z) : rpc_data_out :=
  match results with
  | [] => MkDataOut 0 io_size
  | w :: results' =>
      if negb (eventual_wait_ok env i) then MkDataOut EIO io_size
      else if w <? 0 then MkDataOut (- w) io_size
      else collect_written (S i) results' (u64 (io_size + w))
  end.

(** [rpc_srv_write]; [client] is the memory the client exposes and [junk]
    the initial contents of the allocated bulk buffer. *)
Definition rpc_srv_write (in_ : rpc_data_in) (client junk : list byte) : M F rpc_data_out :=
  let error := MkDataOut EIO 0 in
  if negb (get_input_ok env) then m_ret error else
  let bulk_size := Z.of_nat (length client) in
  if negb (bulk_create_ok env) then m_ret error else
  if negb (bulk_access_ok env) then m_ret error else
  let bulk_buf := resize (Z.to_nat (in_total_chunk_size in_)) junk in
  let* s := m_lift (assign_chunks in_ bulk_size) in
  match s with
  | None => m_trap
  | Some s =>
      match pull_pieces 0 client (pieces s) bulk_buf with
      | inl (n, bulk_buf') =>
          run_tasks (write_file_abt (in_path in_) bulk_buf') (cancelled n (pieces s)) ;;;
          m_ret error
      | inr bulk_buf' =>
          let* results := run_tasks (write_file_abt (in_path in_) bulk_buf') (pieces s) in
          m_ret (collect_written 0 results 0)
      end
  end.

(** The bulk buffer once the read tasks have put their bytes into it. *)
Fixpoint place_reads (ps : list piece) (results : list (list byte + Z)) (bulk : list byte) : list byte :=
  match ps, results with
  | p :: ps', inl bs :: results' => place_reads ps' results' (write_at bulk (Z.to_nat (pc_ptr p)) bs)
  | _ :: ps', _ :: results' => place_reads ps' results' bulk
  | _, _ => bulk
  end.

(** Part 4 of [rpc_srv_read]: push what the tasks read to the client. *)
Fixpoint collect_read (i : nat) (ps : list piece) (results : list (list byte + Z)) (bulk : list byte)
    (client : list byte) (io_size : Z) : rpc_data_out * list byte :=
  match ps, results with
  | p :: ps', r :: results' =>
      if negb (eventual_wait_ok env i) then (MkDataOut EIO io_size, client)
      else
        match r with
        | inr e =>
            if - e =? ENOENT then collect_read (S i) ps' results' bulk client io_size
            else (MkDataOut (- e) io_size, client)
        | inl [] => collect_read (S i) ps' results' bulk client io_size
        | inl bs =>
            match bulk_transfer env i bulk (pc_local p) client (pc_origin p)
                    (Z.of_nat (length bs)) with
            | None => (MkDataOut EIO io_size, client)
            | Some client' =>
                collect_read (S i) ps' results' bulk client' (u64 (io_size + Z.of_nat (length bs)))
            end
        end
  | _, _ => (MkDataOut 0 io_size, client)
  end.

(** The first task that could not be created. *)
Fixpoint tasks_created (i : nat) (ps : list piece) : option nat :=
  match ps with
  | [] => None
  | _ :: ps' => if task_create_ok env i then tasks_created (S i) ps' else Some i
  end.

(** [rpc_srv_read]: the reply and the client's buffer after the pushes. *)
Definition rpc_srv_read (in_ : rpc_data_in) (client junk : list byte) : M F (rpc_data_out * list byte) :=
  let error := (MkDataOut EIO 0, client) in
  if negb (get_input_ok env) then m_ret error else
  let bulk_size := Z.of_nat (length client) in
  if negb (bulk_create_ok env) then m_ret error else
  if negb (bulk_access_ok env) then m_ret error else
  let bulk_buf := resize (Z.to_nat (in_total_chunk_size in_)) junk in
  let* s := m_lift (assign_chunks in_ bulk_size) in
  match s with
  | None => m_trap
  | Some s =>
      match tasks_created 0 (pieces s) with
      | Some n => run_tasks (read_file_abt (in_path in_)) (cancelled n (pieces s)) ;;; m_ret error
      | None =>
          let* results := run_tasks (read_file_abt (in_path in_)) (pieces s) in
          m_ret (collect_read 0 (pieces s) results (place_reads (pieces s) results bulk_buf) client 0)
      end
  end.

(** [rpc_srv_truncate]: the storage calls are not guarded, their
    exceptions leave the handler. *)
Definition rpc_srv_truncate (path : str) (length_ : Z) : M F Z :=
  if negb (get_input_ok env) then m_throw RuntimeError else
  let chunk_start := u32 (chnk_id_for_offset length_ (chunksize cfg)) in
  let left_pad := chnk_lpad length_ (chunksize cfg) in
  (if negb (left_pad =? 0) then truncate_chunk st path chunk_start left_pad else m_ret tt) ;;;
  let chunk_start := if negb (left_pad =? 0) then u32 (chunk_start + 1) else chunk_start in
  trim_chunk_space st path chunk_start (2 ^ 32 - 1) ;;;
  m_ret 0.

(** [rpc_srv_get_chunk_stat]. *)
Definition rpc_srv_get_chunk_stat : M F ChunkStat := chunk_stat st.
End tasks.
End handlers.

(** ** The assignment loop follows the plan *)

(** The operations for the chunks [l], whose bytes are packed from [acc] on
    in the bulk buffer. *)
Fixpoint plan_pieces (cs offset size : Z) (l : list Z) (acc : Z) : list piece :=
  match l with
  | [] => []
  | id :: l' =>
      MkPiece id (buf_off cs offset id) acc acc (psize cs offset size id) (chunk_off cs offset id)
        :: plan_pieces cs offset size l' (acc + psize cs offset size id)
  end.

Lemma plan_pieces_ids cs offset size l acc : pc_id <$> plan_pieces cs offset size l acc = l.
Proof. revert acc. induction l as [|id l IH]; intros acc; csimpl; [done|]. by rewrite IH. Qed.

Section assignment.
Context (cfg : config) (str_hash : str -> Z) (in_ : rpc_data_in) (offset size : Z).
Local Abbreviation cs := (chunksize cfg).
Local Abbreviation served := (fun id => serves cfg str_hash in_ id = true).

(** The chunks of the range that this host serves. *)
Definition host_ids : list Z := filter served (ids cs offset size).

(** A request as the client builds it for [size] bytes at [offset]. *)
Record request_for : Prop := {
  rf_offset : in_offset in_ = offset mod cs;
  rf_start : in_chunk_start in_ = first_id cs offset;
  rf_end : in_chunk_end in_ = last_id cs offset size;
  rf_n : in_chunk_n in_ = Z.of_nat (length host_ids);
  rf_total : in_total_chunk_size in_ = zsum (psize cs offset size) host_ids
}.

Context (Hcs : 0 < cs < 2 ^ 63) (Ho : 0 <= offset) (Hs : 0 < size) (Hb : offset + size <= 2 ^ 63).

Local Abbreviation rest id := (filter served (ids_from cs offset size id)).
Local Abbreviation sizes l := (zsum (psize cs offset size) l).

Lemma psize_rest_nonneg id x : first_id cs offset <= id -> x ∈ rest id -> 0 <= psize cs offset size x.
Proof using Hcs Ho Hs.
  intros Hid [_ Hx%elem_of_seqZ]%list_elem_of_filter.
  pose proof (psize_bounds cs offset size ltac:(lia) Ho Hs x). lia.
Qed.

Lemma sizes_rest_le id : first_id cs offset <= id -> 0 <= sizes (rest id).
Proof using Hcs Ho Hs. intros H. apply zsum_nonneg. intros x Hx. by eapply psize_rest_nonneg. Qed.

Lemma sizes_host_le : 0 <= sizes host_ids <= size.
Proof using Hcs Ho Hs.
  split; [by apply (sizes_rest_le (first_id cs offset))|].
  rewrite <- (zsum_total cs offset size) at 2 by lia. apply zsum_filter_le. intros x Hx.
  apply elem_of_ids in Hx; [|lia..]. pose proof (psize_bounds cs offset size ltac:(lia) Ho Hs x). lia.
Qed.

(** What the loop has done when it reaches [id]. *)
Record loop_inv (id : Z) (s : loop_state) : Prop := {
  li_curr0 : 0 <= chnk_id_curr s;
  li_curr : chnk_id_curr s + Z.of_nat (length (rest id)) = in_chunk_n in_;
  li_left : chnk_size_left_host s = sizes (rest id);
  li_ptr : chnk_ptr s + sizes (rest id) = in_total_chunk_size in_;
  li_sum : sizes (rest id) <= in_total_chunk_size in_;
  li_transfer : rest id = [] \/ transfer_size s = Z.min size cs
}.

Context (R : request_for).

Lemma last_id_small : last_id cs offset size < 2 ^ 63.
Proof using Hcs Ho Hs Hb.
  apply Z.div_lt_upper_bound; nia.
Qed.

Lemma chunk_n_small : 0 <= in_chunk_n in_ <= 2 ^ 63.
Proof using All.
  pose proof last_id_small. pose proof (first_le_last cs offset size ltac:(lia) Ho Hs).
  rewrite (rf_n R). split; [lia|]. unfold host_ids.
  pose proof (length_filter served (ids cs offset size)) as L.
  unfold ids, ids_from in *. rewrite length_seqZ in L. lia.
Qed.

(** The size of a transfer that does not start inside the first chunk. *)
Lemma transfer_size_plan id s :
  first_id cs offset <= id <= last_id cs offset size -> served id -> loop_inv id s ->
  (id = first_id cs offset -> offset mod cs = 0) ->
  (if chnk_id_curr s =? u64 (in_chunk_n in_ - 1) then chnk_size_left_host s else transfer_size s)
    = psize cs offset size id.
Proof using All.
  intros Hid Hserved [C0 C1 C2 C3 C4 C5] Hm. pose proof chunk_n_small as CN.
  rewrite ids_from_cons, filter_cons_True in * by (done || lia). cbn [length zsum] in *.
  rewrite wrapu_small by int_solve. destruct (Z.eqb_spec (chnk_id_curr s) (in_chunk_n in_ - 1)).
  - destruct (rest (id + 1)); simpl in *; lia.
  - destruct C5 as [C5|C5]; [done|].
    assert (id < last_id cs offset size) as Hl.
    { destruct (decide (id = last_id cs offset size)) as [->|]; [|lia].
      rewrite ids_from_end in C1. simpl in C1. lia. }
    destruct (psize_full cs offset size ltac:(lia) Ho Hs id ltac:(lia) Hm). lia.
Qed.

Lemma origin_plan id : first_id cs offset <= id <= last_id cs offset size ->
  (id = first_id cs offset -> offset mod cs = 0) ->
  (if 0 <? offset mod cs
   then u64 ((cs - offset mod cs) + ((id - first_id cs offset) - 1) * cs)
   else u64 ((id - first_id cs offset) * cs)) = buf_off cs offset id.
Proof using Hcs Ho Hs Hb.
  intros Hid Hm. pose proof (plan_first cs offset ltac:(lia)) as [PF PM].
  pose proof (chunk_off_bounds cs offset size ltac:(lia) Ho Hs id Hid) as (_ & _ & B1 & B2).
  pose proof (psize_bounds cs offset size ltac:(lia) Ho Hs id Hid).
  assert (buf_off cs offset id = id * cs - offset) as Eb.
  { unfold buf_off. destruct (decide (id = first_id cs offset)) as [->|].
    - rewrite lo_first by lia. specialize (Hm eq_refl). lia.
    - rewrite lo_later by lia. done. }
  destruct (Z.ltb_spec 0 (offset mod cs)); rewrite wrapu_small; unfold in_u; lia.
Qed.

(** A turn of the loop for a chunk of this host. *)
Lemma loop_body_plan id s :
  first_id cs offset <= id <= last_id cs offset size -> served id -> loop_inv id s ->
  (id = first_id cs offset -> chnk_ptr s = 0) ->
  exists s', loop_body cfg in_ size id s = Some s' /\ loop_inv (id + 1) s' /\
    pieces s' = pieces s ++ plan_pieces cs offset size [id] (chnk_ptr s).
Proof using All.
  intros Hid Hserved Inv Hptr. pose proof Inv as [C0 C1 C2 C3 C4 C5].
  pose proof (sizes_rest_le (id + 1) ltac:(lia)) as N1.
  pose proof (psize_bounds cs offset size ltac:(lia) Ho Hs id ltac:(lia)) as PB.
  pose proof (plan_first cs offset ltac:(lia)) as PF.
  pose proof sizes_host_le as HL. rewrite <- (rf_total R) in HL.
  rewrite ids_from_cons, filter_cons_True in C1, C2, C3, C4, C5 by (done || lia).
  cbn [length zsum] in *. destruct C5 as [C5|C5]; [done|].
  unfold loop_body. rewrite (proj2 (Z.ltb_lt (chnk_id_curr s) _)) by lia. cbn [negb].
  rewrite (rf_offset R), (rf_start R).
  destruct ((id =? first_id cs offset) && (0 <? offset mod cs)) eqn:Ef.
  - apply andb_true_iff in Ef as [E%Z.eqb_eq Hm%Z.ltb_lt]. specialize (Hptr E).
    assert ((if u64 (offset mod cs + size) <=? cs then size else u64 (cs - offset mod cs))
               = psize cs offset size id) as ->.
    { rewrite E, psize_first by lia. rewrite !wrapu_small by int_solve. done. }
    rewrite E, Z.eqb_refl, <- E. eexists. split; [done|]. split; [split|]; cbn -[psize].
    1,2,4,5: lia.
    + rewrite C2, wrapu_small by int_solve. lia.
    + by right.
    + rewrite Hptr. unfold buf_off, chunk_off. rewrite E, lo_first by lia.
      repeat f_equal; lia.
  - assert (id = first_id cs offset -> offset mod cs = 0) as Hm.
    { intros E. apply andb_false_iff in Ef as [Ef|Ef]; [by apply Z.eqb_neq in Ef|].
      apply Z.ltb_ge in Ef. lia. }
    rewrite (transfer_size_plan id s), (origin_plan id) by done.
    eexists. split; [done|]. split; [split|]; cbn -[psize].
    1,2,4,5: lia.
    + rewrite C2, wrapu_small by int_solve. lia.
    + destruct (decide (id = last_id cs offset size)) as [->|]; [left; by rewrite ids_from_end|].
      right. destruct (psize_full cs offset size ltac:(lia) Ho Hs id ltac:(lia) Hm). lia.
    + do 3 f_equal.
      * rewrite C2, wrapu_small by int_solve. lia.
      * destruct (Z.eqb_spec id (first_id cs offset)) as [E|E]; unfold chunk_off.
        -- rewrite (Hm E), E, lo_first by lia. rewrite (Hm E) in PF. lia.
        -- rewrite lo_later by lia. lia.
Qed.

Lemma loop_skip_plan id s :
  id <= last_id cs offset size -> ~ served id -> loop_inv id s -> loop_inv (id + 1) s.
Proof using.
  intros Hid Hn [C0 C1 C2 C3 C4 C5].
  rewrite ids_from_cons, filter_cons_False in * by (done || lia). by split.
Qed.

Lemma assign_loop_exit fuel id s :
  rest id = [] -> last_id cs offset size <= id -> loop_inv id s ->
  exists s', assign_loop cfg str_hash (S fuel) in_ size id s = Ok (Some s') /\
    chnk_size_left_host s' = 0 /\
    pieces s' = pieces s ++ plan_pieces cs offset size (rest id) (chnk_ptr s).
Proof using R.
  intros Er Hge [_ C1 C2 _ _ _]. rewrite Er in *. simpl in C1, C2. exists s.
  cbn [assign_loop]. rewrite (rf_end R), !(proj2 (Z.ltb_ge _ _)) by lia.
  simpl. by rewrite app_nil_r.
Qed.

Lemma assign_loop_plan fuel id s :
  first_id cs offset <= id <= last_id cs offset size + 1 -> loop_inv id s ->
  (id = first_id cs offset -> chnk_ptr s = 0) ->
  last_id cs offset size + 1 - id < Z.of_nat fuel ->
  exists s', assign_loop cfg str_hash fuel in_ size id s = Ok (Some s') /\
    chnk_size_left_host s' = 0 /\
    pieces s' = pieces s ++ plan_pieces cs offset size (rest id) (chnk_ptr s).
Proof using All.
  revert id s. induction fuel as [|fuel IH]; intros id s Hid Inv Hptr Hfuel; [lia|].
  pose proof Inv as [_ C1 C2 _ _ _]. pose proof last_id_small.
  pose proof (first_le_last cs offset size ltac:(lia) Ho Hs).
  destruct (decide (id = last_id cs offset size + 1)) as [E|E].
  { apply assign_loop_exit; [by rewrite E, ids_from_end|lia|done]. }
  destruct (serves cfg str_hash in_ id) eqn:Es.
  - destruct (loop_body_plan id s) as (s1 & Eb & Inv1 & Ep); [lia|done..|].
    cbn [assign_loop]. rewrite Es, Eb, (rf_end R).
    rewrite ids_from_cons, filter_cons_True in C1 by (done || lia). cbn [length] in C1.
    rewrite (proj2 (Z.ltb_lt (chnk_id_curr s) _)), orb_true_r by lia.
    rewrite wrapu_small by int_solve.
    destruct (IH (id + 1) s1) as (s' & -> & Hl & Ep'); [lia|done|lia..|].
    exists s'. split; [done|]. split; [done|]. rewrite Ep', Ep, <- app_assoc. f_equal.
    rewrite (ids_from_cons cs offset size id), filter_cons_True by (done || lia). simpl. do 2 f_equal.
    pose proof (li_ptr _ _ Inv) as P0. pose proof (li_ptr _ _ Inv1) as P1.
    rewrite (ids_from_cons cs offset size id), filter_cons_True in P0 by (done || lia).
    simpl in P0. lia.
  - assert (~ served id) as Hns by congruence.
    destruct (decide (id = last_id cs offset size)) as [El|].
    { apply assign_loop_exit; [|lia|done]. rewrite ids_from_cons, filter_cons_False by (done || lia).
      by rewrite El, ids_from_end. }
    cbn [assign_loop]. rewrite Es, (rf_end R).
    rewrite (proj2 (Z.ltb_lt id _)) by lia. cbn [orb]. rewrite wrapu_small by int_solve.
    destruct (IH (id + 1) s) as (s' & -> & Hl & Ep); [lia|by apply loop_skip_plan; [lia|..]|lia..|].
    exists s'. split; [done|]. split; [done|]. rewrite Ep.
    by rewrite (ids_from_cons cs offset size id), filter_cons_False by (done || lia).
Qed.

Lemma assign_chunks_plan :
  exists s, assign_chunks cfg str_hash in_ size = Ok (Some s) /\ chnk_size_left_host s = 0 /\
    pieces s = plan_pieces cs offset size host_ids 0.
Proof using All.
  pose proof (first_le_last cs offset size ltac:(lia) Ho Hs).
  unfold assign_chunks, assign_fuel. rewrite (rf_start R), (rf_end R).
  apply (assign_loop_plan _ (first_id cs offset) (loop_init cfg in_ size)); simpl; try lia.
  split; simpl; fold (ids cs offset size); fold host_ids.
  - done.
  - by rewrite (rf_n R).
  - apply (rf_total R).
  - by rewrite (rf_total R).
  - by rewrite (rf_total R).
  - right. destruct (Z.leb_spec size cs); lia.
Qed.
End assignment.

(** ** The write handler *)

Section write_handler.
Context {F : Type} {P : PosixFS F} {L : PosixFSLaws P} (st : ChunkStorage).
Context (cs offset size : Z) (path : str) (client : list byte).
Context (Hcs : 0 < cs < 2 ^ 63) (Hst : cs_chunksize st = cs) (Ho : 0 <= offset) (Hs : 0 < size).
Context (H32 : last_id cs offset size < 2 ^ 32) (Hp : file_path_ok path).
Context (Hclient : Z.of_nat (length client) = size).

(** The client's bytes for chunk [id]. *)
Definition slice (id : Z) : list byte :=
  read_at client (Z.to_nat (buf_off cs offset id)) (Z.to_nat (psize cs offset size id)).

Local Abbreviation in_range l := (forall id, id ∈ l -> first_id cs offset <= id <= last_id cs offset size).
Local Abbreviation sizes l := (zsum (psize cs offset size) l).

Lemma length_slice id : first_id cs offset <= id <= last_id cs offset size ->
  Z.of_nat (length (slice id)) = psize cs offset size id.
Proof using All.
  intros H. unfold slice. rewrite length_read_at.
  pose proof (chunk_off_bounds cs offset size ltac:(lia) Ho Hs id H).
  pose proof (psize_bounds cs offset size ltac:(lia) Ho Hs id H). lia.
Qed.

Lemma length_slices l : in_range l -> Z.of_nat (length (concat (slice <$> l))) = sizes l.
Proof using All.
  induction l as [|id l IH]; intros H; [done|]. csimpl. rewrite length_app.
  rewrite Nat2Z.inj_add, length_slice, IH by set_solver. lia.
Qed.

(** Pulling packs the slices of the chunks one after the other. *)
Lemma pull_pieces_packs env l i acc bulk :
  (forall n, transfer_works env n) -> (forall n, task_create_ok env n = true) ->
  in_range l -> 0 <= acc -> acc + sizes l = Z.of_nat (length bulk) ->
  pull_pieces env i client (plan_pieces cs offset size l acc) bulk =
    inr (take (Z.to_nat acc) bulk ++ concat (slice <$> l)).
Proof using All.
  intros Ht Hc. revert i acc bulk. induction l as [|id l IH]; intros i acc bulk Hr Ha Hb.
  { simpl in *. rewrite take_ge by lia. by rewrite app_nil_r. }
  assert (first_id cs offset <= id <= last_id cs offset size) as Hid by set_solver.
  pose proof (chunk_off_bounds cs offset size ltac:(lia) Ho Hs id Hid) as CB.
  pose proof (psize_bounds cs offset size ltac:(lia) Ho Hs id Hid) as PB.
  pose proof (length_slice id Hid) as LS.
  assert (0 <= sizes l) as N.
  { apply zsum_nonneg. intros x Hx. pose proof (psize_bounds cs offset size ltac:(lia) Ho Hs x).
    set_solver by lia. }
  cbn [plan_pieces pull_pieces pc_origin pc_local pc_size zsum] in *.
  rewrite (Ht i), Hc by (apply in_bounds_true; lia). unfold copy_range. fold (slice id).
  assert (slice id <> []) as Hne by (intros E; rewrite E in LS; simpl in LS; lia).
  rewrite IH; [|set_solver|lia|].
  - f_equal. csimpl. rewrite app_assoc. f_equal.
    unfold write_at. destruct (slice id) as [|b t] eqn:Esl; [done|]. rewrite <- Esl in *.
    replace (Z.to_nat acc - length bulk)%nat with 0%nat by lia. rewrite app_nil_r.
    rewrite app_assoc, take_app_le by (rewrite length_app, length_take; lia).
    apply take_ge. rewrite length_app, length_take. lia.
  - rewrite length_write_at. destruct (slice id); [done|]. lia.
Qed.

(** The tasks of a write: chunk [id] receives the first [k id] bytes of
    its slice and no other file changes. *)
Definition wrote_prefixes (k : Z -> Z) (l : list Z) (f f' : F) : Prop :=
  (forall id, id ∈ l -> 0 <= k id <= psize cs offset size id /\
    default [] (fs_file f' (chunk_file st path id)) =
    write_at (default [] (fs_file f (chunk_file st path id))) (Z.to_nat (chunk_off cs offset id))
      (take (Z.to_nat (k id)) (slice id))) /\
  (forall q, (forall id, id ∈ l -> q <> chunk_file st path id) -> fs_file f' q = fs_file f q).

Definition result_of (k : Z -> Z) (id w : Z) : Prop := (0 <= w /\ k id = w) \/ (w < 0 /\ k id = 0).

Lemma write_file_abt_spec bulk ptr id f r f' :
  first_id cs offset <= id <= last_id cs offset size ->
  take (Z.to_nat (psize cs offset size id)) (drop ptr bulk) = slice id ->
  write_file_abt st path bulk (MkPiece id (buf_off cs offset id) (Z.of_nat ptr) (Z.of_nat ptr)
    (psize cs offset size id) (chunk_off cs offset id)) f = (r, f') ->
  exists w, r = Ok w /\ w <= psize cs offset size id /\
    wrote_prefixes (fun _ => Z.max 0 w) [id] f f'.
Proof using All.
  intros Hid Hsl. unfold write_file_abt, m_try. cbn [pc_id pc_ptr pc_size pc_off].
  rewrite Nat2Z.id. pose proof (length_slice id Hid) as LS.
  pose proof (chunk_off_bounds cs offset size ltac:(lia) Ho Hs id Hid) as CB.
  pose proof (psize_bounds cs offset size ltac:(lia) Ho Hs id Hid) as PB.
  assert (psize cs offset size id <= Z.of_nat (length (drop ptr bulk))) as Hlen.
  { rewrite <- LS, <- Hsl, length_take. lia. }
  destruct (write_chunk st path id _ _ _ f) as [r0 f0] eqn:E.
  apply (write_chunk_spec st path id Hp) in E as [Hq Hm]; [|lia..].
  assert (forall q, (forall id0, id0 ∈ [id] -> q <> chunk_file st path id0) -> fs_file f0 q = fs_file f q) as Ho'.
  { intros q H. apply Hq. apply H. set_solver. }
  destruct r0 as [n|[]|]; try done; intros [= <- <-].
  - destruct Hm as [Hn Hf]. exists n. split; [done|]. split; [lia|]. split; [|done].
    intros id' ->%list_elem_of_singleton. split; [lia|]. rewrite Hf. simpl. f_equal.
    rewrite <- Hsl, take_take. f_equal. lia.
  - destruct Hm as [Hn Hf]. exists (- code). split; [done|]. split; [lia|]. split; [|done].
    intros id' ->%list_elem_of_singleton. split; [lia|].
    rewrite Z.max_l by lia. rewrite Hf. done.
Qed.

(** An operation of the plan whose bytes are in the bulk buffer. *)
Definition loaded (bulk : list byte) (p : piece) : Prop := exists id ptr,
  p = MkPiece id (buf_off cs offset id) (Z.of_nat ptr) (Z.of_nat ptr) (psize cs offset size id) (chunk_off cs offset id) /\
  first_id cs offset <= id <= last_id cs offset size /\
  take (Z.to_nat (psize cs offset size id)) (drop ptr bulk) = slice id.

(** The tasks of distinct chunks, in any order. *)
Lemma run_loaded_tasks bulk ps f r f' :
  Forall (loaded bulk) ps -> NoDup (pc_id <$> ps) -> run_tasks (write_file_abt st path bulk) ps f = (r, f') ->
  exists k ws, r = Ok ws /\ Forall2 (result_of k) (pc_id <$> ps) ws /\ wrote_prefixes k (pc_id <$> ps) f f'.
Proof using All.
  revert f f' r. induction ps as [|p ps IH]; intros f f' r Hld Hnd.
  { intros [= <- <-]. exists (fun _ => 0), []. split; [done|]. split; [done|]. split; [|done].
    intros id H. by apply not_elem_of_nil in H. }
  apply Forall_cons in Hld as [(id & ptr & -> & Hid & Hsl) Hld]. csimpl in Hnd. apply NoDup_cons in Hnd as [Hni Hnd].
  cbn [run_tasks]. csimpl. set (l := pc_id <$> ps) in *. unfold m_bind at 1.
  destruct (write_file_abt _ _ _ _ f) as [r0 f0] eqn:E0.
  apply write_file_abt_spec in E0 as (w & -> & Hw & Hk0 & Hq0); [|done..].
  destruct (Hk0 id ltac:(set_solver)) as [Hb0 Hf0].
  unfold m_bind. destruct (run_tasks _ _ f0) as [r1 f1] eqn:E1.
  apply IH in E1 as (k & ws & -> & Hws & Hk & Hq); [|done..]. fold l in Hws, Hk, Hq.
  intros [= <- <-]. exists (fun x => if decide (x = id) then Z.max 0 w else k x), (w :: ws).
  assert (forall a, a ∈ id :: l -> first_id cs offset <= a <= last_id cs offset size) as Hr.
  { intros a [->|(q & -> & Hq')%list_elem_of_fmap]%elem_of_cons; [done|].
    rewrite Forall_forall in Hld. by destruct (Hld q Hq') as (id' & ptr' & -> & H & _). }
  pose proof (first_le_last cs offset size ltac:(lia) Ho Hs) as FL.
  assert (forall a b, a ∈ id :: l -> b ∈ id :: l -> chunk_file st path a = chunk_file st path b -> a = b) as Inj.
  { intros a b Ha%Hr Hb%Hr E. by apply chunk_file_inj in E as [_ E]; [|unfold in_u; lia..]. }
  split; [done|]. split; [constructor|split].
  - unfold result_of. rewrite decide_True by done. lia.
  - eapply Forall2_elem_impl; [exact Hws|]. intros x y Hx. unfold result_of.
    by rewrite decide_False by (by intros ->).
  - intros x [->|Hx]%elem_of_cons.
    + rewrite decide_True by done. split; [lia|]. rewrite Hq; [done|].
      intros y Hy E. apply Inj in E; [|set_solver..]. by subst.
    + rewrite decide_False by (by intros ->). destruct (Hk x Hx) as [B ->]. split; [done|].
      rewrite Hq0; [done|]. intros y ->%list_elem_of_singleton E. apply Inj in E; [|set_solver..]. by subst.
  - intros q H. rewrite Hq, Hq0; [done| |]; intros y Hy; apply H; set_solver.
Qed.

Lemma plan_pieces_loaded l pre : in_range l ->
  Forall (loaded (pre ++ concat (slice <$> l))) (plan_pieces cs offset size l (Z.of_nat (length pre))).
Proof using All.
  revert pre. induction l as [|id l IH]; intros pre Hr; [done|].
  assert (first_id cs offset <= id <= last_id cs offset size) as Hid by set_solver.
  pose proof (length_slice id Hid) as LS. cbn [plan_pieces]. constructor.
  - exists id, (length pre). split; [done|]. split; [done|]. rewrite drop_app_length. csimpl.
    by rewrite take_app_length' by lia.
  - replace (pre ++ concat (slice <$> id :: l)) with ((pre ++ slice id) ++ concat (slice <$> l))
      by (csimpl; by rewrite <- app_assoc).
    replace (Z.of_nat (length pre) + psize cs offset size id) with (Z.of_nat (length (pre ++ slice id)))
      by (rewrite length_app; lia).
    apply IH. set_solver.
Qed.

Lemma run_write_tasks l pre f r f' :
  in_range l -> NoDup l ->
  run_tasks (write_file_abt st path (pre ++ concat (slice <$> l)))
    (plan_pieces cs offset size l (Z.of_nat (length pre))) f = (r, f') ->
  exists k ws, r = Ok ws /\ Forall2 (result_of k) l ws /\ wrote_prefixes k l f f'.
Proof using All.
  intros Hr Hnd E. apply run_loaded_tasks in E; [|by apply plan_pieces_loaded|by rewrite plan_pieces_ids].
  by rewrite plan_pieces_ids in E.
Qed.

Lemma collect_written_spec env k l ws i acc :
  (forall n, eventual_wait_ok env n = true) ->
  Forall2 (result_of k) l ws -> (forall id, id ∈ l -> 0 <= k id) ->
  0 <= acc -> acc + zsum k l < 2 ^ 64 ->
  acc <= out_io_size (collect_written env i ws acc) <= acc + zsum k l /\
  (out_err (collect_written env i ws acc) = 0 ->
   out_io_size (collect_written env i ws acc) = acc + zsum k l).
Proof using client.
  intros He H. revert i acc. induction H as [|id w l ws Hw H IH]; intros i acc Hk Ha Hb.
  { simpl. lia. }
  cbn [collect_written zsum] in *. rewrite He. cbn [negb].
  pose proof (Hk id ltac:(constructor)).
  assert (forall x, x ∈ l -> 0 <= k x) as Hk' by (intros x Hx; apply Hk; by constructor).
  pose proof (zsum_nonneg k l Hk').
  unfold result_of in Hw. destruct (Z.ltb_spec w 0); cbn; [lia|].
  rewrite wrapu_small by (unfold in_u; lia).
  specialize (IH (S i) (acc + w) Hk' ltac:(lia) ltac:(lia)). lia.
Qed.

(** The handler always replies; what it wrote is a prefix of every slice,
    all of it when the reply has no error and the full size. *)
Lemma rpc_srv_write_spec cfg str_hash env in_ junk f r f' :
  chunksize cfg = cs -> in_path in_ = path -> request_for cfg str_hash in_ offset size ->
  offset + size <= 2 ^ 63 ->
  get_input_ok env = true -> bulk_create_ok env = true -> bulk_access_ok env = true ->
  (forall n, transfer_works env n) -> (forall n, task_create_ok env n = true) ->
  (forall n, eventual_wait_ok env n = true) ->
  rpc_srv_write cfg str_hash st env in_ client junk f = (r, f') ->
  exists out k, r = Ok out /\
    wrote_prefixes k (host_ids cfg str_hash in_ offset size) f f' /\
    0 <= out_io_size out <= zsum k (host_ids cfg str_hash in_ offset size) /\
    (out_err out = 0 -> out_io_size out = zsum k (host_ids cfg str_hash in_ offset size)).
Proof using All.
  intros Ecs Epath R Hb H1 H2 H3 H4 H5 H6.
  unfold rpc_srv_write. rewrite H1, H2, H3. cbn [negb]. rewrite Hclient.
  destruct (assign_chunks_plan cfg str_hash in_ offset size ltac:(lia) Ho Hs Hb R) as (s & Ea & _ & Ep).
  unfold m_bind at 1, m_lift. rewrite Ea, Ep, Ecs, Epath.
  set (l := host_ids cfg str_hash in_ offset size).
  assert (forall id, id ∈ l -> first_id cs offset <= id <= last_id cs offset size) as Hr.
  { intros id [_ Hin]%list_elem_of_filter. rewrite Ecs in Hin. by apply elem_of_ids in Hin; [|lia..]. }
  assert (NoDup l) as Hnd by apply NoDup_filter, ids_nodup.
  assert (0 <= sizes l <= size) as HL by (subst l; rewrite <- Ecs; apply sizes_host_le; lia).
  rewrite pull_pieces_packs; [|done|done|done|lia|].
  2:{ rewrite (rf_total _ _ _ _ _ R), Ecs. fold l. unfold resize.
      rewrite length_app, length_take, length_replicate. lia. }
  change (take (Z.to_nat 0) _) with (@nil byte). cbn [app]. unfold m_bind.
  destruct (run_tasks _ _ f) as [r1 f1] eqn:E1.
  apply (run_write_tasks l [] f r1 f1 Hr Hnd) in E1 as (k & ws & -> & Hws & Hk).
  intros [= <- <-]. eexists _, k. split; [done|]. split; [done|].
  assert (zsum k l <= sizes l) as Hle.
  { clear -Hk. destruct Hk as [Hk _]. induction l as [|x l IH]; simpl; [lia|].
    pose proof (Hk x ltac:(set_solver)). assert (zsum k l <= sizes l) by (apply IH; set_solver). lia. }
  pose proof (collect_written_spec env k l ws 0 0 H6 Hws (fun id Hid => proj1 (proj1 (proj1 Hk id Hid)))
    ltac:(lia) ltac:(lia)) as C. simpl in C. lia.
Qed.
End write_handler.

(** ** The read handler *)

Section read_handler.
Context {F : Type} {P : PosixFS F} {L : PosixFSLaws P} (st : ChunkStorage).
Context (cs offset size : Z) (path : str).
Context (Hcs : 0 < cs < 2 ^ 63) (Hst : cs_chunksize st = cs) (Ho : 0 <= offset) (Hs : 0 < size).
Context (Hp : file_path_ok path).

Local Abbreviation in_range l := (forall id, id ∈ l -> first_id cs offset <= id <= last_id cs offset size).

(** What a chunk file holds of the range. *)
Definition stored (f : F) (id : Z) : list byte :=
  read_at (default [] (fs_file f (chunk_file st path id)))
    (Z.to_nat (chunk_off cs offset id)) (Z.to_nat (psize cs offset size id)).

(** The outcome of a read task: the stored bytes, or an error; a missing
    chunk is [ENOENT]. *)
Definition read_result (f : F) (id : Z) (r : list byte + Z) : Prop :=
  match r with
  | inl bs => bs = stored f id
  | inr e => e < 0 /\ (- e = ENOENT -> stored f id = [])
  end.

Lemma stored_ext f f' id : fs_file f' = fs_file f -> stored f' id = stored f id.
Proof using. intros E. unfold stored. by rewrite E. Qed.

Lemma read_file_abt_spec acc id f r f' :
  first_id cs offset <= id <= last_id cs offset size ->
  read_file_abt st path (MkPiece id (buf_off cs offset id) acc acc
    (psize cs offset size id) (chunk_off cs offset id)) f = (r, f') ->
  fs_file f' = fs_file f /\ exists o, r = Ok o /\ read_result f id o.
Proof using All.
  intros Hid. unfold read_file_abt, m_try, m_bind. cbn [pc_id pc_size pc_off].
  pose proof (chunk_off_bounds cs offset size ltac:(lia) Ho Hs id Hid) as CB.
  pose proof (psize_bounds cs offset size ltac:(lia) Ho Hs id Hid) as PB.
  destruct (read_chunk st path id _ _ f) as [r0 f0] eqn:E.
  apply (read_chunk_spec st path id Hp) in E as [Hq Hm]; [|lia..].
  destruct r0 as [bs|[]|]; try done; intros [= <- <-]; (split; [done|]); eexists; (split; [done|]).
  - destruct Hm as (c & Hc & ->). unfold read_result, stored. by rewrite Hc.
  - destruct Hm as [He Hm]. simpl. split; [lia|]. rewrite Z.opp_involutive. intros E.
    unfold stored. rewrite (Hm E). unfold read_at. simpl. by rewrite drop_nil, take_nil.
Qed.

Lemma run_read_tasks l acc f r f' :
  in_range l -> run_tasks (read_file_abt st path) (plan_pieces cs offset size l acc) f = (r, f') ->
  fs_file f' = fs_file f /\ exists rs, r = Ok rs /\ Forall2 (read_result f) l rs.
Proof using All.
  revert acc f r f'. induction l as [|id l IH]; intros acc f r f' Hr.
  { intros [= <- <-]. split; [done|]. by exists []. }
  cbn [plan_pieces run_tasks]. unfold m_bind.
  destruct (read_file_abt _ _ _ f) as [r0 f0] eqn:E0.
  apply read_file_abt_spec in E0 as (E0 & o & -> & Hro); [|set_solver].
  destruct (run_tasks _ _ f0) as [r1 f1] eqn:E1.
  apply IH in E1 as (E1 & rs & -> & Hrs); [|set_solver].
  intros [= <- <-]. split; [congruence|]. eexists. split; [done|]. constructor; [done|].
  eapply Forall2_impl; [exact Hrs|]. intros x [bs|e]; simpl; by rewrite (stored_ext f f0).
Qed.

(** The client's buffer after the stored bytes of the chunks [l]. *)
Definition fill (f : F) (l : list Z) (client : list byte) : list byte :=
  foldl (fun c id => write_at c (Z.to_nat (buf_off cs offset id)) (stored f id)) client l.

Lemma length_stored f id : first_id cs offset <= id <= last_id cs offset size ->
  Z.of_nat (length (stored f id)) <= psize cs offset size id.
Proof using Hcs Ho Hs.
  intros H. unfold stored. rewrite length_read_at.
  pose proof (psize_bounds cs offset size ltac:(lia) Ho Hs id H). lia.
Qed.

Lemma length_fill_step f id client :
  first_id cs offset <= id <= last_id cs offset size -> Z.of_nat (length client) = size ->
  length (write_at client (Z.to_nat (buf_off cs offset id)) (stored f id)) = length client.
Proof using Hcs Ho Hs.
  intros H Hc. rewrite length_write_at. pose proof (length_stored f id H).
  pose proof (chunk_off_bounds cs offset size ltac:(lia) Ho Hs id H).
  destruct (stored f id); [done|]. lia.
Qed.

(** The bytes of a task are where its push takes them from. *)
Definition placed (bulk : list byte) (p : piece) (r : list byte + Z) : Prop :=
  match r with
  | inl bs => 0 <= pc_local p /\ pc_local p + Z.of_nat (length bs) <= Z.of_nat (length bulk) /\
              read_at bulk (Z.to_nat (pc_local p)) (length bs) = bs
  | inr _ => True
  end.

Lemma place_reads_keeps f l rs acc bulk :
  Forall2 (read_result f) l rs -> in_range l -> 0 <= acc ->
  acc + zsum (psize cs offset size) l <= Z.of_nat (length bulk) ->
  length (place_reads (plan_pieces cs offset size l acc) rs bulk) = length bulk /\
  take (Z.to_nat acc) (place_reads (plan_pieces cs offset size l acc) rs bulk) = take (Z.to_nat acc) bulk.
Proof using Hcs Ho Hs.
  intros H. revert acc bulk. induction H as [|id r l rs Hres H IH]; intros acc bulk Hr Ha Hb; [done|].
  assert (first_id cs offset <= id <= last_id cs offset size) as Hid by (apply Hr; constructor).
  assert (in_range l) as Hr' by (intros x Hx; apply Hr; by constructor).
  pose proof (psize_bounds cs offset size ltac:(lia) Ho Hs id Hid) as PB. cbn [zsum] in Hb.
  cbn [plan_pieces place_reads pc_ptr]. destruct r as [bs|e].
  - cbn in Hres. subst bs. pose proof (length_stored f id Hid) as LS.
    assert (0 <= zsum (psize cs offset size) l) as N.
    { apply zsum_nonneg. intros x Hx. pose proof (psize_bounds cs offset size ltac:(lia) Ho Hs x (Hr' x Hx)). lia. }
    set (bulk1 := write_at bulk (Z.to_nat acc) (stored f id)).
    assert (length bulk1 = length bulk) as L1.
    { unfold bulk1. rewrite length_write_at. destruct (stored f id); [done|]. lia. }
    destruct (IH (acc + psize cs offset size id) bulk1) as [I1 I2]; [done|lia|lia|].
    split; [lia|]. apply (f_equal (take (Z.to_nat acc))) in I2. rewrite !take_take, !Nat.min_l in I2 by lia.
    rewrite I2. unfold bulk1, write_at. destruct (stored f id) as [|b t]; [done|].
    rewrite take_app_le by (rewrite length_take, length_app; lia). rewrite take_take, Nat.min_id.
    by rewrite take_app_le by lia.
  - destruct (IH (acc + psize cs offset size id) bulk) as [I1 I2]; [done|lia|lia|].
    split; [done|]. apply (f_equal (take (Z.to_nat acc))) in I2. by rewrite !take_take, !Nat.min_l in I2 by lia.
Qed.

Lemma place_reads_placed f l rs acc bulk :
  Forall2 (read_result f) l rs -> in_range l -> 0 <= acc ->
  acc + zsum (psize cs offset size) l <= Z.of_nat (length bulk) ->
  Forall2 (placed (place_reads (plan_pieces cs offset size l acc) rs bulk)) (plan_pieces cs offset size l acc) rs.
Proof using Hcs Ho Hs.
  intros H. revert acc bulk. induction H as [|id r l rs Hres H IH]; intros acc bulk Hr Ha Hb; [constructor|].
  assert (first_id cs offset <= id <= last_id cs offset size) as Hid by (apply Hr; constructor).
  assert (in_range l) as Hr' by (intros x Hx; apply Hr; by constructor).
  pose proof (psize_bounds cs offset size ltac:(lia) Ho Hs id Hid) as PB. cbn [zsum] in Hb.
  cbn [plan_pieces place_reads pc_ptr]. destruct r as [bs|e].
  2:{ constructor; [done|]. apply IH; [done|lia|lia]. }
  cbn in Hres. subst bs. pose proof (length_stored f id Hid) as LS.
  assert (0 <= zsum (psize cs offset size) l) as N.
  { apply zsum_nonneg. intros x Hx. pose proof (psize_bounds cs offset size ltac:(lia) Ho Hs x (Hr' x Hx)). lia. }
  set (bulk1 := write_at bulk (Z.to_nat acc) (stored f id)).
  assert (length bulk1 = length bulk) as L1.
  { unfold bulk1. rewrite length_write_at. destruct (stored f id); [done|]. lia. }
  constructor; [|apply IH; [done|lia|lia]].
  destruct (place_reads_keeps f l rs (acc + psize cs offset size id) bulk1 H Hr' ltac:(lia) ltac:(lia)) as [I1 I2].
  cbn [placed pc_local]. split; [done|]. split; [lia|].
  apply list_eq. intros i. rewrite lookup_read_at. case_decide; [|symmetry; apply lookup_ge_None_2; lia].
  apply (f_equal (lookup (Z.to_nat acc + i)%nat)) in I2. rewrite !lookup_take_lt in I2 by lia.
  rewrite I2. unfold bulk1. rewrite lookup_write_at, decide_True by lia. f_equal. lia.
Qed.

Lemma collect_read_spec env f l rs acc i bulk client io :
  (forall n, eventual_wait_ok env n = true) -> (forall n, transfer_works env n) ->
  Forall2 (read_result f) l rs -> Forall2 (placed bulk) (plan_pieces cs offset size l acc) rs ->
  in_range l -> Z.of_nat (length client) = size ->
  0 <= io -> io + zsum (psize cs offset size) l < 2 ^ 64 ->
  exists out client', collect_read env i (plan_pieces cs offset size l acc) rs bulk client io = (out, client') /\
    length client' = length client /\ (exists l', l' `prefix_of` l /\ client' = fill f l' client) /\
    (out_err out = 0 ->
     client' = fill f l client /\
     out_io_size out = io + zsum (fun id => Z.of_nat (length (stored f id))) l).
Proof using Hcs Ho Hs.
  intros He Ht H. revert i acc client io.
  induction H as [|id r l rs Hres H IH]; intros i acc client io Hpl Hr Hc Hio Hb.
  { eexists _, _. split; [done|]. split; [done|]. split; [by exists []|]. intros _. simpl. split; [done|lia]. }
  assert (first_id cs offset <= id <= last_id cs offset size) as Hid by (apply Hr; constructor).
  assert (in_range l) as Hr' by (intros x Hx; apply Hr; by constructor).
  pose proof (length_stored f id Hid) as LS.
  pose proof (chunk_off_bounds cs offset size ltac:(lia) Ho Hs id Hid) as CB.
  pose proof (length_fill_step f id client Hid Hc) as LF.
  cbn [zsum] in *.
  assert (0 <= zsum (psize cs offset size) l) as N.
  { apply zsum_nonneg. intros x Hx. pose proof (psize_bounds cs offset size ltac:(lia) Ho Hs x (Hr' x Hx)). lia. }
  cbn [plan_pieces collect_read] in *. apply Forall2_cons in Hpl as [Hp0 Hpl]. rewrite He. cbn [negb].
  assert (forall io', stored f id = [] -> io' = io -> exists out client',
    collect_read env (S i) (plan_pieces cs offset size l (acc + psize cs offset size id)) rs bulk client io' =
      (out, client') /\ length client' = length client /\
    (exists l', l' `prefix_of` id :: l /\ client' = fill f l' client) /\
    (out_err out = 0 -> client' = fill f (id :: l) client /\ out_io_size out =
      io + (Z.of_nat (length (stored f id)) + zsum (fun id => Z.of_nat (length (stored f id))) l))) as Hskip.
  { intros io' Es ->. destruct (IH (S i) (acc + psize cs offset size id) client io) as (out & c' & E & Hl & (l' & Hpre & Hl') & Hok);
      [done|done|done|done|pose proof (psize_bounds cs offset size ltac:(lia) Ho Hs id Hid); lia|].
    exists out, c'. split; [done|]. split; [done|].
    split; [exists (id :: l'); split; [by apply prefix_cons|]; unfold fill; simpl; by rewrite Es|].
    intros Hz. destruct (Hok Hz) as [-> ->]. unfold fill. simpl. rewrite Es. simpl. split; [done|lia]. }
  destruct r as [bs|e]; cbn in Hres.
  - subst bs. destruct (stored f id) as [|b t] eqn:Es; [by apply Hskip|].
    rewrite <- Es in *. cbn [pc_origin pc_local placed] in *. destruct Hp0 as (P1 & P2 & P3).
    rewrite (Ht i) by (apply in_bounds_true; lia). unfold copy_range.
    rewrite Nat2Z.id, P3.
    rewrite wrapu_small by (unfold in_u; lia).
    destruct (IH (S i) (acc + psize cs offset size id)
      (write_at client (Z.to_nat (buf_off cs offset id)) (stored f id))
      (io + Z.of_nat (length (stored f id)))) as (out & c' & E & Hl & (l' & Hpre & Hl') & Hok);
      [done|done|lia|lia|lia|].
    exists out, c'. split; [done|]. split; [lia|]. split; [exists (id :: l'); split; [by apply prefix_cons|done]|].
    intros Hz. destruct (Hok Hz) as [-> ->]. split; [done|lia].
  - destruct Hres as [Hneg Hmiss]. destruct (Z.eqb_spec (- e) ENOENT) as [E|E]; [by apply Hskip; [apply Hmiss|]|].
    eexists _, _. split; [done|]. split; [done|]. split; [|cbn; lia]. exists []. split; [apply prefix_nil|done].
Qed.

(** A byte of the buffer comes from its chunk when that chunk is among
    [l] and holds it; other bytes stay. *)
Lemma lookup_fill f l client (i : Z) :
  in_range l -> NoDup l -> Z.of_nat (length client) = size -> 0 <= i < size ->
  fill f l client !! Z.to_nat i =
  if decide ((offset + i) / cs ∈ l) then
    match default [] (fs_file f (chunk_file st path ((offset + i) / cs))) !! Z.to_nat ((offset + i) mod cs) with
    | Some b => Some b
    | None => client !! Z.to_nat i
    end
  else client !! Z.to_nat i.
Proof using Hcs Ho Hs.
  intros Hr Hnd. revert client. induction l as [|id l IH]; intros client Hc Hi.
  { by rewrite decide_False by apply not_elem_of_nil. }
  apply NoDup_cons in Hnd as [Hni Hnd].
  assert (first_id cs offset <= id <= last_id cs offset size) as Hid by (apply Hr; constructor).
  assert (in_range l) as Hr' by (intros x Hx; apply Hr; by constructor).
  pose proof (in_piece cs offset size ltac:(lia) Ho Hs id (offset + i) Hid ltac:(lia)) as IP.
  pose proof (chunk_off_bounds cs offset size ltac:(lia) Ho Hs id Hid) as CB.
  pose proof (length_stored f id Hid) as LS.
  pose proof (Z.div_mod (offset + i) cs ltac:(lia)) as DM.
  change (fill f (id :: l) client) with
    (fill f l (write_at client (Z.to_nat (buf_off cs offset id)) (stored f id))).
  rewrite IH by (done || (rewrite length_fill_step by done; lia)).
  rewrite lookup_write_at.
  destruct (decide ((offset + i) / cs = id)) as [E|E].
  - rewrite (decide_False (P := (offset + i) / cs ∈ l)) by congruence.
    rewrite (decide_True (P := _ ∈ id :: l)) by (rewrite E; constructor).
    destruct (proj2 IP E) as [I1 I2]. pose proof (Z.mod_pos_bound (offset + i) cs ltac:(lia)). unfold psize, buf_off, chunk_off in *. rewrite E in *.
    assert (Z.to_nat ((offset + i) mod cs) =
      Z.to_nat (lo cs offset id - id * cs) + (Z.to_nat i - Z.to_nat (lo cs offset id - offset)))%nat as ->
      by lia.
    assert (stored f id !! (Z.to_nat i - Z.to_nat (lo cs offset id - offset))%nat =
      default [] (fs_file f (chunk_file st path id)) !!
        (Z.to_nat (lo cs offset id - id * cs) + (Z.to_nat i - Z.to_nat (lo cs offset id - offset)))%nat) as <-.
    { unfold stored. rewrite lookup_read_at. unfold psize, chunk_off. by rewrite decide_True by lia. }
    destruct (stored f id !! _) eqn:El.
    + apply lookup_lt_Some in El. by rewrite decide_True by lia.
    + apply lookup_ge_None_1 in El. rewrite decide_False by lia. by rewrite decide_True by lia.
  - assert (~ (lo cs offset id <= offset + i < hi cs offset size id)) as Hn by (by rewrite IP).
    unfold psize, buf_off in *.
    rewrite (decide_False (P := (_ <= Z.to_nat i < _)%nat)) by lia.
    rewrite (decide_True (P := (Z.to_nat i < length client)%nat)) by lia.
    rewrite (decide_ext ((offset + i) / cs ∈ id :: l) ((offset + i) / cs ∈ l)); [done|].
    rewrite elem_of_cons. naive_solver.
Qed.

(** The handler always replies and leaves the store alone; the buffer gets
    the bytes of a prefix of the chunks, without an error of all of them, and
    the size is then what the chunks held. *)
Lemma rpc_srv_read_spec cfg str_hash env in_ client junk f r f' :
  chunksize cfg = cs -> in_path in_ = path -> request_for cfg str_hash in_ offset size ->
  offset + size <= 2 ^ 63 -> Z.of_nat (length client) = size ->
  get_input_ok env = true -> bulk_create_ok env = true -> bulk_access_ok env = true ->
  (forall n, transfer_works env n) -> (forall n, task_create_ok env n = true) ->
  (forall n, eventual_wait_ok env n = true) ->
  rpc_srv_read cfg str_hash st env in_ client junk f = (r, f') ->
  fs_file f' = fs_file f /\
  exists out client', r = Ok (out, client') /\ length client' = length client /\
    (exists l', l' `prefix_of` host_ids cfg str_hash in_ offset size /\ client' = fill f l' client) /\
    (out_err out = 0 ->
     client' = fill f (host_ids cfg str_hash in_ offset size) client /\
     out_io_size out =
       zsum (fun id => Z.of_nat (length (stored f id))) (host_ids cfg str_hash in_ offset size)).
Proof using All.
  intros Ecs Epath R Hb Hclient H1 H2 H3 H4 H5 H6.
  unfold rpc_srv_read. rewrite H1, H2, H3. cbn [negb]. rewrite Hclient.
  destruct (assign_chunks_plan cfg str_hash in_ offset size ltac:(lia) Ho Hs Hb R) as (s & Ea & _ & Ep).
  unfold m_bind at 1, m_lift. rewrite Ea, Ep, Ecs, Epath.
  set (l := host_ids cfg str_hash in_ offset size).
  assert (in_range l) as Hr.
  { intros id [_ Hin]%list_elem_of_filter. rewrite Ecs in Hin. by apply elem_of_ids in Hin; [|lia..]. }
  assert (0 <= zsum (psize cs offset size) l <= size) as HL
    by (subst l; rewrite <- Ecs; apply sizes_host_le; lia).
  assert (forall ps n, tasks_created env n ps = None) as ->.
  { clear -H5. induction ps as [|p ps IH]; intros n; simpl; [done|]. by rewrite H5, IH. }
  unfold m_bind. destruct (run_tasks _ _ f) as [r1 f1] eqn:E1.
  apply run_read_tasks in E1 as (E1 & rs & -> & Hrs); [|done].
  set (bulk := place_reads _ rs _).
  assert (Forall2 (placed bulk) (plan_pieces cs offset size l 0) rs) as Hpl.
  { apply (place_reads_placed f); [done..|]. unfold resize.
    rewrite length_app, length_take, length_replicate, (rf_total _ _ _ _ _ R), Ecs. fold l. lia. }
  destruct (collect_read_spec env f l rs 0 0 bulk client 0 H6 H4 Hrs Hpl Hr Hclient) as (out & c' & -> & Hl & Hpre & Hok);
    [lia|lia|].
  intros [= <- <-]. split; [done|]. exists out, c'. split; [done|]. split; [done|]. split; [done|].
  intros Hz. by destruct (Hok Hz).
Qed.
End read_handler.

(** ** A failed transfer *)

Section write_failure.
Context {F : Type} {P : PosixFS F} {L : PosixFSLaws P} (st : ChunkStorage).
Context (cs offset size : Z) (path : str).
Context (Hcs : 0 < cs < 2 ^ 63) (Hst : cs_chunksize st = cs) (Ho : 0 <= offset) (Hs : 0 < size).
Context (Hp : file_path_ok path).

(** The task arguments of [p] lie in a buffer of [len] bytes and a chunk. *)
Definition piece_fits (len : Z) (p : piece) : Prop :=
  0 <= pc_ptr p /\ 0 <= pc_size p /\ pc_ptr p + pc_size p <= len /\
  0 <= pc_off p /\ pc_off p + pc_size p <= cs.

Lemma plan_pieces_fit l acc len :
  (forall id, id ∈ l -> first_id cs offset <= id <= last_id cs offset size) ->
  0 <= acc -> acc + zsum (psize cs offset size) l <= len ->
  Forall (piece_fits len) (plan_pieces cs offset size l acc).
Proof using Hcs Ho Hs.
  revert acc. induction l as [|id l IH]; intros acc Hr Ha Hl; [constructor|].
  assert (first_id cs offset <= id <= last_id cs offset size) as Hid by (apply Hr; constructor).
  assert (forall x, x ∈ l -> first_id cs offset <= x <= last_id cs offset size) as Hr'
    by (intros x Hx; apply Hr; by constructor).
  pose proof (chunk_off_bounds cs offset size ltac:(lia) Ho Hs id Hid).
  pose proof (psize_bounds cs offset size ltac:(lia) Ho Hs id Hid).
  assert (0 <= zsum (psize cs offset size) l).
  { apply zsum_nonneg. intros x Hx. pose proof (psize_bounds cs offset size ltac:(lia) Ho Hs x (Hr' x Hx)). lia. }
  cbn [zsum plan_pieces] in *. constructor; [unfold piece_fits; cbn; lia|]. apply IH; [done|lia..].
Qed.

Lemma run_write_tasks_ok bulk ps f :
  Forall (piece_fits (Z.of_nat (length bulk))) ps ->
  exists ws f', run_tasks (write_file_abt st path bulk) ps f = (Ok ws, f').
Proof using L Hp Hst Hcs.
  intros H. revert f. induction H as [|p ps (B1 & B2 & B3 & B4 & B5) H IH]; intros f; [by eexists _, _|].
  cbn [run_tasks]. unfold m_bind. destruct (write_file_abt st path bulk p f) as [r0 f0] eqn:E0.
  assert (exists w, r0 = Ok w) as [w ->].
  { unfold write_file_abt, m_try in E0.
    destruct (write_chunk st path _ _ _ _ f) as [r1 f1] eqn:E1.
    apply (write_chunk_spec st path _ Hp) in E1 as [_ Hm];
      [|rewrite ?length_drop; lia..].
    destruct r1 as [n|[]|]; try done; injection E0 as <- <-; eauto. }
  destruct (IH f0) as (ws & f' & ->). by eexists _, _.
Qed.

Lemma pull_pieces_length env client ps i bulk n bulk' :
  transfers_copy env ->
  pull_pieces env i client ps bulk = inl (n, bulk') -> length bulk' = length bulk.
Proof using.
  intros Ht. revert i bulk. induction ps as [|p ps IH]; intros i bulk; [done|]. cbn [pull_pieces].
  destruct (bulk_transfer env i _ _ _ _ _) as [dst|] eqn:E; [|by intros [= _ <-]].
  apply Ht in E as [Hb ->]. apply length_copy_range in Hb.
  destruct (task_create_ok env i); [|by intros [= _ <-]]. intros E'. apply IH in E'. lia.
Qed.

Lemma pull_pieces_fails env client ps i bulk m :
  (i <= m < i + length ps)%nat -> transfer_fails env m \/ task_create_ok env m = false ->
  exists r, pull_pieces env i client ps bulk = inl r.
Proof using.
  revert i bulk. induction ps as [|p ps IH]; intros i bulk Hm Hf; simpl in Hm; [lia|].
  cbn [pull_pieces]. destruct (decide (m = i)) as [->|].
  - destruct Hf as [Hf|Hf]; rewrite Hf; [by eexists|].
    destruct (bulk_transfer _ _ _ _ _ _ _); by eexists.
  - destruct (bulk_transfer _ _ _ _ _ _ _); [|by eexists].
    destruct (task_create_ok env i); [|by eexists]. apply IH; [lia|done].
Qed.

(** When a transfer or the creation of a task fails the handler replies
    [EIO] and no size. *)
Lemma rpc_srv_write_failed cfg str_hash env in_ client junk m f :
  chunksize cfg = cs -> in_path in_ = path -> request_for cfg str_hash in_ offset size ->
  offset + size <= 2 ^ 63 -> Z.of_nat (length client) = size ->
  transfers_copy env ->
  Z.of_nat m < in_chunk_n in_ -> transfer_fails env m \/ task_create_ok env m = false ->
  exists f', rpc_srv_write cfg str_hash st env in_ client junk f = (Ok (MkDataOut EIO 0), f').
Proof using All.
  intros Ecs Epath R Hb Hclient Hcopy Hm Hf. unfold rpc_srv_write.
  destruct (get_input_ok env); cbn [negb]; [|eauto].
  destruct (bulk_create_ok env); cbn [negb]; [|eauto].
  destruct (bulk_access_ok env); cbn [negb]; [|eauto]. rewrite Hclient.
  destruct (assign_chunks_plan cfg str_hash in_ offset size ltac:(lia) Ho Hs Hb R) as (s & Ea & _ & Ep).
  unfold m_bind at 1, m_lift. rewrite Ea, Ep, Ecs, Epath.
  set (l := host_ids cfg str_hash in_ offset size). set (ps := plan_pieces cs offset size l 0).
  assert (forall id, id ∈ l -> first_id cs offset <= id <= last_id cs offset size) as Hr.
  { intros id [_ Hin]%list_elem_of_filter. rewrite Ecs in Hin. by apply elem_of_ids in Hin; [|lia..]. }
  assert (0 <= zsum (psize cs offset size) l <= size) as HL by (subst l; rewrite <- Ecs; apply sizes_host_le; lia).
  assert (length ps = length l) as Hlen.
  { subst ps. generalize 0. clear. induction l; intros acc; simpl; auto. }
  rewrite (rf_n _ _ _ _ _ R) in Hm. fold l in Hm.
  set (bulk := resize _ junk).
  destruct (pull_pieces_fails env client ps 0 bulk m ltac:(lia) Hf) as [[n bulk'] E]. rewrite E.
  apply pull_pieces_length in E; [|done].
  assert (Forall (piece_fits (Z.of_nat (length bulk'))) ps) as Hfit.
  { apply plan_pieces_fit; [done|lia|]. rewrite E. subst bulk. unfold resize.
    rewrite length_app, length_take, length_replicate, (rf_total _ _ _ _ _ R), Ecs. fold l. lia. }
  unfold m_bind. destruct (run_write_tasks_ok bulk' (cancelled env n ps) f) as (ws & f' & ->); [|by eauto].
  rewrite Forall_forall in *. intros p Hin. apply Hfit.
  apply list_elem_of_fmap in Hin as ([j q] & -> & [_ Hz]%list_elem_of_filter).
  by apply elem_of_zip_r in Hz.
Qed.
End write_failure.

(** ** Truncation *)

Section truncation.
Context {F : Type} {P : PosixFS F} {L : PosixFSLaws P} (st : ChunkStorage).

(** The name of a chunk to be removed. *)
Definition trimmed (n : str) (chunk_start chunk_end : Z) : Prop :=
  exists v r, stoul n = Ok (v, r) /\ chunk_start <= v <= chunk_end.

Lemma trim_loop_spec dir names s e f f' :
  trim_loop dir names s e f = (Ok tt, f') ->
  (forall n, n ∈ names -> trimmed n s e -> fs_file f' (dir ++ [sep] ++ n) = None) /\
  (forall q, (forall n, n ∈ names -> trimmed n s e -> q <> dir ++ [sep] ++ n) -> fs_file f' q = fs_file f q) /\
  (forall q, fs_file f q = None -> fs_file f' q = None).
Proof using L.
  revert f. induction names as [|n names IH]; intros f.
  { intros [= <-]. split; [|done]. intros n H. by apply not_elem_of_nil in H. }
  cbn [trim_loop]. unfold m_bind, m_lift.
  destruct (stoul n) as [[v rd]| |] eqn:Ev; try done. cbn [fst].
  destruct ((s <=? v) && (v <=? e)) eqn:Er.
  - destruct (px_unlink (dir ++ [sep] ++ n) f) as [c f1] eqn:Eu.
    destruct (Z.eqb_spec c 0) as [->|]; [|done].
    pose proof (unlink_ok _ _ _ Eu) as U. intros E. apply IH in E as (I1 & I2 & I3).
    assert (forall q, fs_file f q = None -> fs_file f1 q = None) as M.
    { intros q Hq. rewrite U. by case_decide. }
    split; [|split].
    + intros m [->|Hm]%elem_of_cons Ht; [|by apply I1]. apply I3. rewrite U. by rewrite decide_True.
    + intros q Hq. rewrite I2.
      * rewrite U, decide_False; [done|]. apply Hq; [constructor|]. exists v, rd. split; [done|lia].
      * intros m Hm. apply Hq. by constructor.
    + auto.
  - intros E. apply IH in E as (I1 & I2 & I3). split; [|split; [|done]].
    + intros m [->|Hm]%elem_of_cons Ht; [|by apply I1].
      destruct Ht as (v' & r' & Ht & Hb). rewrite Ev in Ht. simplify_eq. lia.
    + intros q Hq. apply I2. intros m Hm. apply Hq. by constructor.
Qed.

Context (path : str) (Hp : file_path_ok path).

Lemma chunk_name_trimmed id s e : in_u 32 id -> trimmed (to_string_u (u32 id)) s e <-> s <= id <= e.
Proof using.
  intros H. rewrite wrapu_small by done. unfold trimmed.
  pose proof (stoul_to_string id [] ltac:(unfold in_u in *; lia) I) as E. rewrite app_nil_r in E.
  rewrite E. split; [intros (v & r & [= <- <-] & B); done|]. intros B. by eexists _, _.
Qed.

(** Chunks in the interval are removed, the others of the file stay. *)
Lemma trim_chunk_space_spec s e f f' :
  trim_chunk_space st path s e f = (Ok tt, f') ->
  forall id, in_u 32 id ->
    fs_file f' (chunk_file st path id) =
    if decide (s <= id <= e) then None else fs_file f (chunk_file st path id).
Proof using L Hp.
  unfold trim_chunk_space, m_bind, m_lift, m_gets. rewrite chunk_dir_ok by done.
  destruct (px_readdir _ f) as [names|] eqn:En; [|done]. intros E id Hid.
  apply trim_loop_spec in E as (I1 & I2 & I3).
  set (dir := root_path st ++ sep :: replace_sep (drop 1 path)) in *.
  assert (chunk_file st path id = dir ++ [sep] ++ to_string_u (u32 id)) as Ec.
  { unfold chunk_file, dir. by rewrite <- app_assoc. }
  assert (sep ∉ to_string_u (u32 id)) as Hns.
  { intros Hin. apply to_string_u_digits in Hin; [done|]. rewrite wrapu_small by done. apply Hid. }
  case_decide as Hr.
  - destruct (fs_file f (chunk_file st path id)) as [c|] eqn:Ef; [|by apply I3].
    rewrite Ec. apply I1; [|by apply chunk_name_trimmed].
    apply (readdir_names _ _ _ _ En). split; [done|]. exists c. rewrite Ec in Ef. exact Ef.
  - apply I2. intros n Hn Ht Eq. apply (readdir_names _ _ _ _ En) in Hn as [Hs _].
    rewrite Ec in Eq. cbn [app] in Eq. apply app_sep_inj in Eq as [_ <-]; [|done..].
    by apply chunk_name_trimmed in Ht.
Qed.

Context (cfg : config) (k : Z) (Hk : 0 <= k < 63) (Hcs : chunksize cfg = 2 ^ k) (Hst : cs_chunksize st = chunksize cfg).

(** A truncation that succeeds cuts the file's chunks at [len]. *)
Lemma rpc_srv_truncate_spec env len f f' :
  get_input_ok env = true -> 0 <= len < 2 ^ 63 -> len / chunksize cfg + 1 < 2 ^ 32 ->
  rpc_srv_truncate cfg st env path len f = (Ok 0, f') ->
  forall id i, in_u 32 id -> (i < Z.to_nat (chunksize cfg))%nat ->
    (len <= id * chunksize cfg + Z.of_nat i ->
       default [] (fs_file f' (chunk_file st path id)) !! i = None) /\
    (id * chunksize cfg + Z.of_nat i < len -> forall b,
       default [] (fs_file f (chunk_file st path id)) !! i = Some b ->
       default [] (fs_file f' (chunk_file st path id)) !! i = Some b).
Proof using All.
  intros He Hl H32. pose proof (cs_pos k _ Hk Hcs) as Hpos. set (cs := chunksize cfg) in *.
  pose proof (Z.div_mod len cs ltac:(lia)) as DM. pose proof (Z.mod_pos_bound len cs ltac:(lia)) as MB.
  assert (0 <= len / cs) by (apply Z.div_pos; lia).
  unfold rpc_srv_truncate. rewrite He. cbn [negb]. fold cs.
  rewrite (chnk_id_pow2 k cs Hk Hcs) by lia. rewrite (chnk_lpad_pow2 k cs Hk Hcs).
  rewrite (wrapu_small 32 (len / cs)) by (unfold in_u; lia). unfold m_bind.
  destruct (Z.eqb_spec (len mod cs) 0) as [E0|E0]; cbn [negb].
  - unfold m_ret. destruct (trim_chunk_space st path _ _ f) as [[[]| |] f1] eqn:Et; try done.
    intros [= <-] id i Hid Hi. rewrite (trim_chunk_space_spec _ _ _ _ Et id Hid).
    destruct Hid. case_decide; (split; intros; [|try done]); try nia; done.
  - unfold truncate_chunk, m_bind, m_lift. rewrite chunk_path_ok by done.
    destruct (m_assert _ f) as [[[]| |] f0] eqn:Ea; try done.
    assert (f0 = f) as -> by (unfold m_assert in Ea; by case_match; injection Ea).
    unfold check_sys. destruct (px_truncate _ _ f) as [e f1] eqn:Eu.
    destruct (Z.eqb_spec e 0) as [->|]; [|done].
    pose proof (truncate_ok _ _ _ _ Eu) as [[c Hc] T].
    rewrite (wrapu_small 32 (len / cs + 1)) by (unfold in_u; lia).
    destruct (trim_chunk_space st path _ _ f1) as [[[]| |] f2] eqn:Et; try done.
    intros [= <-] id i Hid Hi. rewrite (trim_chunk_space_spec _ _ _ _ Et id Hid).
    assert (in_u 32 (len / cs)) as Hq by (unfold in_u; lia).
    pose proof (fun E => proj2 (chunk_file_inj st path path id _ Hid Hq E)) as Inj.
    destruct Hid. case_decide as Hr; [split; [done|nia]|].
    assert (id <= len / cs) by lia. rewrite T. case_decide as Ep.
    + apply Inj in Ep as ->. rewrite Hc. cbn. unfold resize. split.
      * intros Hge. apply lookup_ge_None_2. rewrite length_app, length_take, length_replicate. nia.
      * intros Hlt b Hb. rewrite lookup_app_l.
        { rewrite lookup_take_lt by nia. done. }
        apply lookup_lt_Some in Hb. rewrite length_take. nia.
    + assert (id <> len / cs) by (intros ->; by apply Ep). split; [nia|done].
Qed.

(** A host that does not hold the chunk: the exception of the storage
    leaves the handler. *)
Lemma rpc_srv_truncate_missing env len f :
  get_input_ok env = true -> 0 <= len < 2 ^ 63 -> len mod chunksize cfg <> 0 ->
  len mod chunksize cfg < 2 ^ 32 -> len / chunksize cfg < 2 ^ 32 ->
  fs_file f (chunk_file st path (len / chunksize cfg)) = None ->
  (rpc_srv_truncate cfg st env path len f).1 = Throw (SystemError ENOENT).
Proof using All.
  intros He Hl Hm H32 Hid Hf. pose proof (cs_pos k _ Hk Hcs) as Hpos.
  pose proof (Z.mod_pos_bound len (chunksize cfg) ltac:(lia)) as MB.
  assert (0 <= len / chunksize cfg) by (apply Z.div_pos; lia).
  unfold rpc_srv_truncate. rewrite He. cbn [negb].
  rewrite (chnk_id_pow2 k _ Hk Hcs) by lia. rewrite (chnk_lpad_pow2 k _ Hk Hcs).
  rewrite (wrapu_small 32 (len / _)) by (unfold in_u; lia).
  rewrite (proj2 (Z.eqb_neq _ _)) by done. cbn [negb].
  unfold truncate_chunk, m_bind, m_lift. rewrite chunk_path_ok by done.
  rewrite (wrapu_small 32 (len mod _)) by (unfold in_u; lia).
  rewrite (proj2 (Z.ltb_lt _ _)), (proj2 (Z.leb_le _ _)) by lia. cbn [andb m_assert]. unfold m_ret, check_sys.
  pose proof (truncate_missing _ (len mod chunksize cfg) _ Hf) as T.
  destruct (px_truncate _ _ f) as [e f1]. simpl in T. by subst e.
Qed.
End truncation.

(** ** What the plan and a write mean byte by byte *)

Section plan_facts.
Context (cs offset size : Z).

Lemma plan_pieces_elem l acc id : id ∈ l -> exists acc',
  MkPiece id (buf_off cs offset id) acc' acc' (psize cs offset size id) (chunk_off cs offset id)
    ∈ plan_pieces cs offset size l acc.
Proof.
  revert acc. induction l as [|x l IH]; intros acc Hin; [by apply not_elem_of_nil in Hin|].
  apply elem_of_cons in Hin as [->|Hin]; [eexists; constructor|].
  destruct (IH (acc + psize cs offset size x) Hin) as [a Ha]. exists a. by constructor.
Qed.

Lemma elem_of_plan_pieces p l acc : p ∈ plan_pieces cs offset size l acc -> exists id acc',
  id ∈ l /\
  p = MkPiece id (buf_off cs offset id) acc' acc' (psize cs offset size id) (chunk_off cs offset id).
Proof.
  revert acc. induction l as [|x l IH]; intros acc Hin; [by apply not_elem_of_nil in Hin|].
  apply elem_of_cons in Hin as [->|Hin]; [by eexists _, _; split; [constructor|]|].
  apply IH in Hin as (id & a & Hid & ->). eexists _, _. split; [by constructor|done].
Qed.

Lemma plan_pieces_packed l acc n p : plan_pieces cs offset size l acc !! n = Some p ->
  pc_local p = acc + zsum pc_size (take n (plan_pieces cs offset size l acc)) /\ pc_ptr p = pc_local p.
Proof.
  revert acc n. induction l as [|x l IH]; intros acc n Hn; [done|].
  destruct n as [|n]; cbn in Hn.
  - injection Hn as <-. cbn. lia.
  - apply IH in Hn as [-> ->]. cbn [plan_pieces take zsum pc_size]. lia.
Qed.
End plan_facts.

Section wrote_facts.
Context {F : Type} {P : PosixFS F} (st : ChunkStorage) (cs offset size : Z) (path : str) (client : list byte).
Context (Hcs : 0 < cs < 2 ^ 63) (Ho : 0 <= offset) (Hs : 0 < size).
Context (Hclient : Z.of_nat (length client) = size).
Context (k : Z -> Z) (l : list Z) (f f' : F).
Context (W : wrote_prefixes st cs offset size path client k l f f').

(** A byte of a slice that was stored completely. *)
Lemma wrote_all_lookup o :
  offset <= o < offset + size -> o / cs ∈ l -> k (o / cs) = psize cs offset size (o / cs) ->
  default [] (fs_file f' (chunk_file st path (o / cs))) !! Z.to_nat (o mod cs) =
  client !! Z.to_nat (o - offset).
Proof using All.
  intros Hor Hin Hk. destruct (proj1 W _ Hin) as [_ ->].
  pose proof (byte_chunk_range cs offset size ltac:(lia) Ho Hs o Hor) as Hid.
  pose proof (proj2 (in_piece cs offset size ltac:(lia) Ho Hs _ o Hid Hor) eq_refl) as IP.
  pose proof (chunk_off_bounds cs offset size ltac:(lia) Ho Hs _ Hid) as CB.
  pose proof (Z.div_mod o cs ltac:(lia)) as DM. pose proof (Z.mod_pos_bound o cs ltac:(lia)).
  rewrite Hk. unfold slice, read_at. rewrite take_take, Nat.min_id. fold (read_at client (Z.to_nat (buf_off cs offset (o / cs))) (Z.to_nat (psize cs offset size (o / cs)))).
  rewrite lookup_write_at, length_read_at, lookup_read_at.
  unfold psize, buf_off, chunk_off in *. rewrite !decide_True by lia. f_equal. lia.
Qed.

(** Bytes outside the range stay. *)
Lemma wrote_keeps id i b :
  id ∈ l -> first_id cs offset <= id <= last_id cs offset size ->
  ~ (offset <= id * cs + Z.of_nat i < offset + size) ->
  default [] (fs_file f (chunk_file st path id)) !! i = Some b ->
  default [] (fs_file f' (chunk_file st path id)) !! i = Some b.
Proof using All.
  intros Hin Hid Hout Hb. destruct (proj1 W _ Hin) as [Hk ->].
  pose proof (chunk_off_bounds cs offset size ltac:(lia) Ho Hs _ Hid) as CB.
  pose proof (lo_hi cs offset size ltac:(lia) Ho Hs _ Hid) as LH.
  rewrite lookup_write_at, length_take. unfold slice. rewrite length_read_at.
  unfold psize, buf_off, chunk_off in *. rewrite decide_False by lia.
  pose proof (lookup_lt_Some _ _ _ Hb). by rewrite decide_True.
Qed.
End wrote_facts.

(** ** Properties *)

(** Every call of Margo and Argobots succeeds. *)
Record env_ok (env : margo_env) : Prop := {
  eo_input : get_input_ok env = true;
  eo_create : bulk_create_ok env = true;
  eo_access : bulk_access_ok env = true;
  eo_transfer n : transfer_works env n;
  eo_task n : task_create_ok env n = true;
  eo_wait n : eventual_wait_ok env n = true
}.

(** An environment in which every call works. *)
Definition memory_transfer (src : list byte) (src_off : Z) (dst : list byte) (dst_off n : Z)
    : option (list byte) :=
  if in_bounds src src_off dst dst_off n then Some (copy_range src src_off dst dst_off n) else None.

Definition good_env : margo_env :=
  MkMargoEnv true true true (fun _ => memory_transfer) (fun _ => true) (fun _ => true) (fun _ => true).

Lemma good_env_ok : env_ok good_env.
Proof. split; try done. intros i src so dst d_o n E. simpl. unfold memory_transfer. by rewrite E. Qed.

(** A byte range a client may send: it ends below 2^63 and its chunk ids
    fit the [unsigned int] of the chunk files. *)
Definition range_ok (cs offset size : Z) : Prop :=
  0 < cs < 2 ^ 63 /\ 0 <= offset /\ 0 < size /\ offset + size <= 2 ^ 63 /\
  last_id cs offset size < 2 ^ 32.

(** A concrete request for the witnesses: 10 bytes at offset 3 with chunks
    of 4 bytes; host 1 of 2 serves the odd chunks. *)
Definition small_config : config := Config 4 1024 false false false false false false true true false.
Definition last_char_hash (p : str) : Z := Z.of_nat (nat_of_ascii (back p)).
Definition small_in : rpc_data_in := MkDataIn (s_ "/f") 3 1 2 2 0 3 5.
Definition small_store : ChunkStorage := MkChunkStorage (s_ "/r") 4.
Definition empty_fs : memfs := MkMemFS ∅ ∅ ∅.

Lemma small_request : request_for small_config last_char_hash small_in 3 10.
Proof. split; reflexivity. Qed.

Lemma small_range : range_ok 4 3 10.
Proof. unfold range_ok. vm_compute. repeat split; congruence. Qed.

(** C22. The loop that assigns chunks to operations ends without leaving its
    vectors and makes one operation per chunk of the range that hashes to
    this host, in order: each lies inside its chunk, addresses the same file
    bytes in the chunk and in the client's buffer, the bulk buffer is packed
    without gaps, and nothing is left over. *)
Theorem assign_chunks_exact (cfg : config) (str_hash : str -> Z) (in_ : rpc_data_in) (offset size : Z) :
  range_ok (chunksize cfg) offset size -> request_for cfg str_hash in_ offset size ->
  exists s, assign_chunks cfg str_hash in_ size = Ok (Some s) /\
    chnk_size_left_host s = 0 /\
    pc_id <$> pieces s = host_ids cfg str_hash in_ offset size /\
    (forall p, p ∈ pieces s ->
       0 < pc_size p /\ 0 <= pc_off p /\ pc_off p + pc_size p <= chunksize cfg /\
       pc_id p * chunksize cfg + pc_off p = offset + pc_origin p /\
       0 <= pc_origin p /\ pc_origin p + pc_size p <= size) /\
    (forall n p, pieces s !! n = Some p ->
       pc_local p = zsum pc_size (take n (pieces s)) /\ pc_ptr p = pc_local p) /\
    (forall o, offset <= o < offset + size -> serves cfg str_hash in_ (o / chunksize cfg) = true ->
       exists p, p ∈ pieces s /\ offset + pc_origin p <= o < offset + pc_origin p + pc_size p).
Proof.
  intros (Hcs & Ho & Hs & Hb & _) R.
  destruct (assign_chunks_plan cfg str_hash in_ offset size Hcs Ho Hs Hb R) as (s & Ea & El & Ep).
  exists s. split; [done|]. split; [done|]. rewrite Ep. clear Ea Ep El.
  assert (forall id, id ∈ host_ids cfg str_hash in_ offset size ->
    first_id (chunksize cfg) offset <= id <= last_id (chunksize cfg) offset size) as Hr.
  { intros id [_ Hin]%list_elem_of_filter. by apply elem_of_ids in Hin; [|lia..]. }
  split; [|split; [|split]].
  - apply plan_pieces_ids.
  - intros p (id & acc & Hid & ->)%elem_of_plan_pieces. cbn.
    pose proof (chunk_off_bounds (chunksize cfg) offset size ltac:(lia) Ho Hs id (Hr id Hid)) as CB.
    pose proof (psize_bounds (chunksize cfg) offset size ltac:(lia) Ho Hs id (Hr id Hid)).
    unfold chunk_off, buf_off in *. lia.
  - intros n p Hn. by apply plan_pieces_packed in Hn.
  - intros o Hor Hsv. pose proof (byte_chunk_range (chunksize cfg) offset size ltac:(lia) Ho Hs o Hor) as Hid.
    destruct (plan_pieces_elem (chunksize cfg) offset size (host_ids cfg str_hash in_ offset size) 0
      (o / chunksize cfg)) as (acc & Hin).
    { apply list_elem_of_filter. split; [done|]. apply elem_of_ids; [lia..|done]. }
    eexists. split; [exact Hin|]. cbn.
    pose proof (proj2 (in_piece (chunksize cfg) offset size ltac:(lia) Ho Hs (o / chunksize cfg) o Hid Hor) eq_refl).
    unfold buf_off, psize. lia.
Qed.

Lemma assign_chunks_exact_witness :
  exists s, assign_chunks small_config last_char_hash small_in 10 = Ok (Some s) /\
    pc_id <$> pieces s = [1; 3].
Proof.
  destruct (assign_chunks_exact small_config last_char_hash small_in 3 10 small_range small_request)
    as (s & E & _ & Hids & _).
  exists s. split; [exact E|]. rewrite Hids. reflexivity.
Defined.

(** C23. A write request makes the handler reply; every chunk of this host
    then holds a prefix of its slice of the client's buffer at the right
    place and no other file of the store has changed.  A reply without
    error counts exactly the bytes stored, and when it counts the whole
    share every byte of the range on this host is the client's. *)
Theorem write_handler_stores {F : Type} (P : PosixFS F) (L : PosixFSLaws P) (st : ChunkStorage)
    (cfg : config) (str_hash : str -> Z) (env : margo_env) (in_ : rpc_data_in)
    (client junk : list byte) (offset size : Z) (f f' : F) (r : res rpc_data_out) :
  range_ok (chunksize cfg) offset size -> cs_chunksize st = chunksize cfg ->
  request_for cfg str_hash in_ offset size -> file_path_ok (in_path in_) ->
  Z.of_nat (length client) = size -> env_ok env ->
  rpc_srv_write cfg str_hash st env in_ client junk f = (r, f') ->
  exists out k, r = Ok out /\
    wrote_prefixes st (chunksize cfg) offset size (in_path in_) client k
      (host_ids cfg str_hash in_ offset size) f f' /\
    (out_err out = 0 -> out_io_size out = zsum k (host_ids cfg str_hash in_ offset size)) /\
    (out_err out = 0 -> out_io_size out = in_total_chunk_size in_ ->
     forall o, offset <= o < offset + size -> serves cfg str_hash in_ (o / chunksize cfg) = true ->
       default [] (fs_file f' (chunk_file st (in_path in_) (o / chunksize cfg)))
         !! Z.to_nat (o mod chunksize cfg) = client !! Z.to_nat (o - offset)).
Proof.
  intros (Hcs & Ho & Hs & Hb & H32) Hst R Hp Hc [E1 E2 E3 E4 E5 E6] E.
  apply (rpc_srv_write_spec st (chunksize cfg) offset size (in_path in_) client) in E
    as (out & k & -> & Hk & Hle & Hz); [|done..].
  exists out, k. split; [done|]. split; [done|]. split; [done|]. intros H0 Ht o Hor Hsv.
  rewrite Hz, (rf_total _ _ _ _ _ R) in Ht by done.
  assert (o / chunksize cfg ∈ host_ids cfg str_hash in_ offset size) as Hin.
  { apply list_elem_of_filter. split; [done|]. apply elem_of_ids; [lia..|].
    apply byte_chunk_range; lia. }
  eapply wrote_all_lookup; [done..|].
  eapply zsum_eq_pointwise; [|exact Ht|done]. intros x Hx. apply (proj1 Hk x Hx).
Qed.

Lemma write_handler_stores_witness :
  exists out f', rpc_srv_write small_config last_char_hash small_store good_env small_in
      (s_ "abcdefghij") [] empty_fs = (Ok out, f') /\
    default [] (fs_file f' (chunk_file small_store (s_ "/f") (12 / 4))) !! Z.to_nat (12 mod 4) =
      s_ "abcdefghij" !! Z.to_nat (12 - 3).
Proof.
  destruct (rpc_srv_write small_config last_char_hash small_store good_env small_in
      (s_ "abcdefghij") [] empty_fs) as [r f'] eqn:E.
  destruct (write_handler_stores MemFS _ small_store small_config last_char_hash good_env small_in
    (s_ "abcdefghij") [] 3 10 empty_fs f' r small_range eq_refl small_request) as (out & k & -> & _ & _ & H).
  - by eexists _, _.
  - reflexivity.
  - apply good_env_ok.
  - exact E.
  - exists out, f'. split; [reflexivity|].
    assert (out = MkDataOut 0 5) as -> by (vm_compute in E; congruence).
    apply (H eq_refl eq_refl 12); [lia|reflexivity].
Defined.

(** C24. A read request makes the handler reply without changing the store.
    When the reply has no error, each byte of the client's buffer whose
    chunk is on this host is the stored byte, bytes the store does not hold
    and bytes of other hosts are left alone, and the size is the number of
    stored bytes of the range. *)
Theorem read_handler_fills {F : Type} (P : PosixFS F) (L : PosixFSLaws P) (st : ChunkStorage)
    (cfg : config) (str_hash : str -> Z) (env : margo_env) (in_ : rpc_data_in)
    (client junk : list byte) (offset size : Z) (f f' : F) (r : res (rpc_data_out * list byte)) :
  range_ok (chunksize cfg) offset size -> cs_chunksize st = chunksize cfg ->
  request_for cfg str_hash in_ offset size -> file_path_ok (in_path in_) ->
  Z.of_nat (length client) = size -> env_ok env ->
  rpc_srv_read cfg str_hash st env in_ client junk f = (r, f') ->
  fs_file f' = fs_file f /\
  exists out client', r = Ok (out, client') /\ length client' = length client /\
    (out_err out = 0 ->
      (forall i, 0 <= i < size ->
         let o := offset + i in
         client' !! Z.to_nat i =
           match default [] (fs_file f (chunk_file st (in_path in_) (o / chunksize cfg)))
                   !! Z.to_nat (o mod chunksize cfg) with
           | Some b => if serves cfg str_hash in_ (o / chunksize cfg) then Some b else client !! Z.to_nat i
           | None => client !! Z.to_nat i
           end) /\
      out_io_size out = zsum (fun id => Z.of_nat (length
        (stored st (chunksize cfg) offset size (in_path in_) f id))) (host_ids cfg str_hash in_ offset size)).
Proof.
  intros (Hcs & Ho & Hs & Hb & H32) Hst R Hp Hc [E1 E2 E3 E4 E5 E6] E.
  apply (rpc_srv_read_spec st (chunksize cfg) offset size (in_path in_)) in E
    as (Ef & out & c' & -> & Hl & _ & Hok); [|done..].
  split; [done|]. exists out, c'. split; [done|]. split; [done|]. intros Hz.
  destruct (Hok Hz) as [-> ->]. split; [|done]. intros i Hi o.
  rewrite lookup_fill; [|done..| | |done|done].
  2:{ intros id [_ Hin]%list_elem_of_filter. by apply elem_of_ids in Hin; [|lia..]. }
  2:{ apply NoDup_filter, ids_nodup. }
  pose proof (byte_chunk_range (chunksize cfg) offset size ltac:(lia) Ho Hs (offset + i) ltac:(lia)) as Hr.
  fold o in Hr |- *. destruct (serves cfg str_hash in_ (o / chunksize cfg)) eqn:Es.
  - rewrite decide_True; [done|]. apply list_elem_of_filter. split; [done|]. by apply elem_of_ids; [lia..|].
  - rewrite decide_False; [by case_match|]. intros [Hn _]%list_elem_of_filter. congruence.
Qed.

Lemma read_handler_fills_witness :
  exists f' out client', rpc_srv_read small_config last_char_hash small_store good_env small_in
      (s_ "..........") [] empty_fs = (Ok (out, client'), f') /\ fs_file f' = fs_file empty_fs.
Proof.
  destruct (rpc_srv_read small_config last_char_hash small_store good_env small_in
      (s_ "..........") [] empty_fs) as [r f'] eqn:E.
  destruct (read_handler_fills MemFS _ small_store small_config last_char_hash good_env small_in
    (s_ "..........") [] 3 10 empty_fs f' r small_range eq_refl small_request) as (Ef & out & c' & -> & _).
  - by eexists _, _.
  - reflexivity.
  - apply good_env_ok.
  - exact E.
  - by exists f', out, c'.
Defined.

(** When an RDMA transfer or the creation of an I/O task of a write
    fails, the handler cancels what it started and replies [EIO] with a
    size of zero. *)
Theorem write_handler_transfer_error {F : Type} (P : PosixFS F) (L : PosixFSLaws P) (st : ChunkStorage)
    (cfg : config) (str_hash : str -> Z) (env : margo_env) (in_ : rpc_data_in)
    (client junk : list byte) (offset size : Z) (m : nat) (f : F) :
  range_ok (chunksize cfg) offset size -> cs_chunksize st = chunksize cfg ->
  request_for cfg str_hash in_ offset size -> file_path_ok (in_path in_) ->
  Z.of_nat (length client) = size -> transfers_copy env -> Z.of_nat m < in_chunk_n in_ ->
  transfer_fails env m \/ task_create_ok env m = false ->
  exists f', rpc_srv_write cfg str_hash st env in_ client junk f = (Ok (MkDataOut EIO 0), f').
Proof.
  intros (Hcs & Ho & Hs & Hb & H32) Hst R Hp Hc Hcopy Hm Hf.
  by apply (rpc_srv_write_failed st (chunksize cfg) offset size (in_path in_)) with (m := m).
Qed.

Definition failing_env : margo_env :=
  MkMargoEnv true true true (fun n => if (n =? 1)%nat then fun _ _ _ _ _ => None else memory_transfer)
    (fun _ => true) (fun _ => true) (fun _ => true).

Lemma failing_env_copies : transfers_copy failing_env.
Proof.
  intros i src so dst d_o n dst' E. simpl in E. destruct (i =? 1)%nat; [done|]. unfold memory_transfer in E.
  destruct (in_bounds src so dst d_o n); [|done]. by injection E as <-.
Qed.

Lemma write_handler_transfer_error_witness :
  exists f', rpc_srv_write small_config last_char_hash small_store failing_env small_in
    (s_ "abcdefghij") [] empty_fs = (Ok (MkDataOut EIO 0), f').
Proof.
  apply (write_handler_transfer_error MemFS _ small_store small_config last_char_hash failing_env small_in
    (s_ "abcdefghij") [] 3 10 1 empty_fs small_range eq_refl small_request).
  - by eexists _, _.
  - reflexivity.
  - apply failing_env_copies.
  - reflexivity.
  - by left.
Defined.

(** A truncation that succeeds cuts every chunk of the file on this
    host at the new length: no byte from the length on remains, and the
    bytes before it are unchanged. *)
Theorem truncate_handler_cuts {F : Type} (P : PosixFS F) (L : PosixFSLaws P) (st : ChunkStorage)
    (cfg : config) (k : Z) (env : margo_env) (path : str) (len : Z) (f f' : F) :
  0 <= k < 63 -> chunksize cfg = 2 ^ k -> cs_chunksize st = chunksize cfg -> file_path_ok path ->
  get_input_ok env = true -> 0 <= len < 2 ^ 63 -> len / chunksize cfg + 1 < 2 ^ 32 ->
  rpc_srv_truncate cfg st env path len f = (Ok 0, f') ->
  forall id i, in_u 32 id -> (i < Z.to_nat (chunksize cfg))%nat ->
    (len <= id * chunksize cfg + Z.of_nat i ->
       default [] (fs_file f' (chunk_file st path id)) !! i = None) /\
    (id * chunksize cfg + Z.of_nat i < len -> forall b,
       default [] (fs_file f (chunk_file st path id)) !! i = Some b ->
       default [] (fs_file f' (chunk_file st path id)) !! i = Some b).
Proof. intros. by apply (rpc_srv_truncate_spec st path) with (k := k) (env := env) (len := len). Qed.

(** A store that holds chunk 1 of ["/f"]. *)
Definition one_chunk_fs : memfs :=
  MkMemFS {[ chunk_file small_store (s_ "/f") 1 := s_ "abcd" ]} {[ s_ "/r/f" ]} ∅.

Lemma truncate_handler_cuts_witness :
  exists f', rpc_srv_truncate small_config small_store good_env (s_ "/f") 6 one_chunk_fs = (Ok 0, f') /\
    default [] (fs_file f' (chunk_file small_store (s_ "/f") 1)) !! 2%nat = None.
Proof.
  destruct (rpc_srv_truncate small_config small_store good_env (s_ "/f") 6 one_chunk_fs) as [r f'] eqn:E.
  assert (r = Ok 0) as -> by (vm_compute in E; congruence). exists f'. split; [reflexivity|].
  apply (truncate_handler_cuts MemFS _ small_store small_config 2 good_env (s_ "/f") 6 one_chunk_fs f');
    try reflexivity; try exact E; try (unfold in_u; simpl; lia).
  by eexists _, _.
Defined.

(** A truncation to a length inside a chunk that this host does not
    hold is not answered: the storage's [ENOENT] leaves the handler. *)
Theorem truncate_missing_chunk_escapes {F : Type} (P : PosixFS F) (L : PosixFSLaws P) (st : ChunkStorage)
    (cfg : config) (k : Z) (env : margo_env) (path : str) (len : Z) (f : F) :
  0 <= k <= 32 -> chunksize cfg = 2 ^ k -> cs_chunksize st = chunksize cfg -> file_path_ok path ->
  get_input_ok env = true -> 0 <= len < 2 ^ 63 -> len mod chunksize cfg <> 0 ->
  len / chunksize cfg < 2 ^ 32 ->
  fs_file f (chunk_file st path (len / chunksize cfg)) = None ->
  (rpc_srv_truncate cfg st env path len f).1 = Throw (SystemError ENOENT).
Proof.
  intros Hk Hcs Hst Hp He Hl Hm Hid Hf.
  apply (rpc_srv_truncate_missing st path Hp cfg k ltac:(lia) Hcs Hst); try done.
  pose proof (Z.mod_pos_bound len (chunksize cfg)). pose proof (Z.pow_pos_nonneg 2 k).
  pose proof (Z.pow_le_mono_r 2 k 32). lia.
Qed.

Lemma truncate_missing_chunk_escapes_witness :
  (rpc_srv_truncate small_config small_store good_env (s_ "/f") 2 one_chunk_fs).1 =
    Throw (SystemError ENOENT).
Proof.
  apply (truncate_missing_chunk_escapes MemFS _ small_store small_config 2 good_env (s_ "/f") 2 one_chunk_fs);
    try reflexivity; try lia; try done.
  by eexists _, _.
Defined.
