(* ===== verification/Tasks.v ===== *)
(** * The I/O tasks of the data handlers ([src/daemon/handler/srv_data.cpp],
    [include/daemon/handler/rpc_util.hpp])

    [SrvData] runs the tasks of a request one after the other.  Here they run
    beside the handler: a task is started and ends at any time, while the
    handler waits for their eventuals in order, stops at the first failure,
    calls [cleanup_respond] and only then joins ([rpc_srv_write]) or cancels
    ([rpc_srv_read]) the tasks.  The machine is executable, a schedule is a
    list of choices; a task takes effect when it ends, which is no loss as
    the tasks of a request work on separate chunk files. *)

From S2P Require Import Prelude Config ChunkCalc Distributor ChunkStorage ChunkPlan SrvData.

(** ** Ending a request ([include/daemon/handler/rpc_util.hpp]) *)

(** Which calls of Margo succeed at the end of a request. *)
Record margo_end := MkMargoEnd {
  respond_ok : bool;
  bulk_free_ok : bool;
  free_input_ok : bool;
  free_output_ok : bool;
  destroy_ok : bool
}.

Inductive end_event := Responded | BulkFreed | InputFreed | OutputFreed | Destroyed.
#[export] Instance end_event_eq_dec : EqDecision end_event.
Proof. solve_decision. Defined.

Section ending.
Context (calls : margo_end).

(** [ret = margo_...; if (ret != HG_SUCCESS) return ret;] under a condition;
    the result is what was done and whether [HG_SUCCESS] is returned. *)
Definition guarded (cond ok : bool) (e : end_event) (rest : list end_event * bool) : list end_event * bool :=
  if cond then if ok then (e :: rest.1, rest.2) else ([], false) else rest.

(** The arguments tell which pointers are not null. *)
Definition cleanup (handle input output bulk_handle : bool) : list end_event * bool :=
  guarded bulk_handle (bulk_free_ok calls) BulkFreed $
  guarded (input && handle) (free_input_ok calls) InputFreed $
  guarded (output && handle) (free_output_ok calls) OutputFreed $
  guarded handle (destroy_ok calls) Destroyed ([], true).

Definition cleanup_respond (handle input output bulk_handle : bool) : list end_event * bool :=
  guarded (output && handle) (respond_ok calls) Responded $ cleanup handle input false bulk_handle.

(** What a request that got all its resources releases. *)
Definition end_events : list end_event := (cleanup_respond true true true true).1.
Definition sent : bool := bool_decide (Responded ∈ end_events).
Definition freed : bool := bool_decide (BulkFreed ∈ end_events).
End ending.

(** ** The machine *)

(** A task that is done has set its eventual, or was cancelled ([None]). *)
Inductive task_status (A : Type) := Ready | Running | Done (o : option A).
Arguments Ready {A}.
Arguments Running {A}.
Arguments Done {A} o.

Definition is_ready {A} (t : option (task_status A)) : bool := match t with Some Ready => true | _ => false end.
Definition is_running {A} (t : option (task_status A)) : bool := match t with Some Running => true | _ => false end.
Definition is_done {A} (t : option (task_status A)) : bool := match t with Some (Done _) => true | _ => false end.
Definition has_run {A} (t : option (task_status A)) : bool := match t with Some (Done (Some _)) => true | _ => false end.

(** Where the handler is: waiting for an eventual, about to respond, freeing
    a task, done; an exception that leaves a task ends the daemon. *)
Inductive point (R : Type) :=
| Waiting (i : nat)
| Responding (out : R)
| Freeing (i : nat)
| Finished
| Crashed.
Arguments Waiting {R} i.
Arguments Responding {R} out.
Arguments Freeing {R} i.
Arguments Finished {R}.
Arguments Crashed {R}.

(** What runs next: a task starts, a task ends, or the handler does its next
    step. *)
Inductive choice := Start (i : nat) | End_ (i : nat) | Main.

(** The handler's side of a request. *)
Record handler (A Acc R : Type) := MkHandler {
  wait_ok : nat -> bool;                 (* ABT_eventual_wait succeeds *)
  turn : nat -> A -> Acc -> Acc + R;     (* a turn of the loop: go on or break *)
  wait_error : Acc -> R;                 (* the reply after a failed wait *)
  finish : Acc -> R;                     (* the reply after the last turn *)
  cancel : bool;                         (* tasks are cancelled, not joined *)
  start_acc : Acc
}.
Arguments MkHandler {A Acc R}.
Arguments wait_ok {A Acc R}.
Arguments turn {A Acc R}.
Arguments wait_error {A Acc R}.
Arguments finish {A Acc R}.
Arguments cancel {A Acc R}.
Arguments start_acc {A Acc R}.

Record run (St A Acc R : Type) := MkRun {
  at_ : point R;
  status : list (task_status A);
  acc : Acc;
  store : St;
  ended : list nat;                  (* the tasks that ran, in the order they ended *)
  buffer_live : bool;                (* the bulk buffer is allocated *)
  response : option R;
  use_after_free : bool              (* a task used the buffer after it was freed *)
}.
Arguments MkRun {St A Acc R}.
Arguments at_ {St A Acc R}.
Arguments status {St A Acc R}.
Arguments acc {St A Acc R}.
Arguments store {St A Acc R}.
Arguments ended {St A Acc R}.
Arguments buffer_live {St A Acc R}.
Arguments response {St A Acc R}.
Arguments use_after_free {St A Acc R}.

Section machine.
Context {St A Acc R : Type} (h : handler A Acc R) (calls : margo_end).
Context (ps : list piece) (task : piece -> M St A) (store0 : St).
Local Abbreviation run := (run St A Acc R).

Definition init : run := MkRun (Waiting 0) (replicate (length ps) Ready) (start_acc h) store0 [] true None false.

Definition set_point (p : point R) (r : run) : run :=
  MkRun p (status r) (acc r) (store r) (ended r) (buffer_live r) (response r) (use_after_free r).

Definition set_status (i : nat) (t : task_status A) (r : run) : run :=
  MkRun (at_ r) (<[i := t]> (status r)) (acc r) (store r) (ended r) (buffer_live r) (response r) (use_after_free r).

(** The turn for eventual [i]. *)
Definition take_turn (i : nat) (o : A) (r : run) : run :=
  match turn h i o (acc r) with
  | inl a => MkRun (Waiting (S i)) (status r) a (store r) (ended r) (buffer_live r) (response r) (use_after_free r)
  | inr out => set_point (Responding out) r
  end.

(** [cleanup_respond] with all resources. *)
Definition respond (out : R) (r : run) : run :=
  MkRun (Freeing 0) (status r) (acc r) (store r) (ended r) (negb (freed calls))
    (if sent calls then Some out else None) (use_after_free r).

(** One step of the handler; [None] if it has to wait or is done. *)
Definition main_step (r : run) : option run :=
  match at_ r with
  | Waiting i =>
      if (length ps <=? i)%nat then Some (set_point (Responding (finish h (acc r))) r)
      else if negb (wait_ok h i) then Some (set_point (Responding (wait_error h (acc r))) r)
      else match status r !! i with
           | Some (Done (Some o)) => Some (take_turn i o r)
           | _ => None
           end
  | Responding out => Some (respond out r)
  | Freeing i =>
      match status r !! i with
      | None => Some (set_point Finished r)
      | Some (Done _) => Some (set_point (Freeing (S i)) r)
      | Some Ready => if cancel h then Some (set_point (Freeing (S i)) (set_status i (Done None) r)) else None
      | Some Running => None
      end
  | Finished | Crashed => None
  end.

(** A task ends: it has used its part of the buffer until now. *)
Definition end_task (i : nat) (p : piece) (r : run) : run :=
  let uaf := use_after_free r || negb (buffer_live r) in
  match task p (store r) with
  | (Ok o, s) =>
      MkRun (at_ r) (<[i := Done (Some o)]> (status r)) (acc r) s (ended r ++ [i]) (buffer_live r) (response r) uaf
  | (_, s) => MkRun Crashed (status r) (acc r) s (ended r) (buffer_live r) (response r) uaf
  end.

Definition step_fn (c : choice) (r : run) : option run :=
  match at_ r with
  | Crashed => None
  | _ =>
      match c with
      | Start i => if is_ready (status r !! i) then Some (set_status i Running r) else None
      | End_ i =>
          if is_running (status r !! i) then p ← ps !! i; Some (end_task i p r) else None
      | Main => main_step r
      end
  end.

Inductive step : run -> run -> Prop :=
| step_choice c r r' : step_fn c r = Some r' -> step r r'.

(** The states some schedule leads to, and the ones nothing leads out of. *)
Definition reachable (r : run) : Prop := rtc step init r.
Definition stuck (r : run) : Prop := forall r', ~ step r r'.

Fixpoint run_schedule (cs : list choice) (r : run) : option run :=
  match cs with
  | [] => Some r
  | c :: cs' => r' ← step_fn c r; run_schedule cs' r'
  end.

(** The reply for what the tasks have set in their eventuals so far, and how
    many of them were waited for; [None] while the loop has to wait. *)
Fixpoint collect (i : nat) (ts : list (task_status A)) (a : Acc) : option (R * nat) :=
  match ts with
  | [] => Some (finish h a, i)
  | t :: ts' =>
      if negb (wait_ok h i) then Some (wait_error h a, i)
      else match t with
           | Done (Some o) =>
               match turn h i o a with
               | inl a' => collect (S i) ts' a'
               | inr out => Some (out, S i)
               end
           | _ => None
           end
  end.
End machine.

(** ** Ending a request *)

(** The calls that are due, in order. *)
Definition due (handle input output bulk_handle : bool) : list end_event :=
  (if output && handle then [Responded] else []) ++ (if bulk_handle then [BulkFreed] else []) ++
  (if input && handle then [InputFreed] else []) ++ (if handle then [Destroyed] else []).

Lemma cleanup_respond_due calls handle input output bulk_handle :
  let '(es, ok) := cleanup_respond calls handle input output bulk_handle in
  es `prefix_of` due handle input output bulk_handle /\
  (ok = true <-> es = due handle input output bulk_handle).
Proof.
  destruct calls as [[] [] [] [] []], handle, input, output, bulk_handle; cbn; (split; [|done]);
    repeat (apply prefix_cons || apply prefix_nil).
Qed.

Lemma freed_sent calls : freed calls = true -> sent calls = true.
Proof. by destruct calls as [[] [] [] [] []]. Qed.

(** ** Invariant *)

Section machine_facts.
Context {St A Acc R : Type} (h : handler A Acc R) (calls : margo_end).
Context (ps : list piece) (task : piece -> M St A) (store0 : St).
Local Abbreviation run := (run St A Acc R).
Local Abbreviation step := (step h calls ps task).
Local Abbreviation next := (step_fn h calls ps task).
Local Abbreviation reachable := (reachable h calls ps task store0).
Local Abbreviation n := (length ps).

Lemma run_schedule_rtc cs : forall r r', run_schedule h calls ps task cs r = Some r' -> rtc step r r'.
Proof.
  induction cs as [|c cs IH]; intros r r' H; cbn in H; [by simplify_eq|].
  destruct (next c r) as [r1|] eqn:E; [|done]. eapply rtc_l; [by econstructor|by apply IH].
Qed.

(** The reply stays what it is when tasks that have not run change. *)
Lemma collect_stable ts : forall i a x j t, collect h i ts a = Some x -> has_run (ts !! j) = false ->
  collect h i (<[j := t]> ts) a = Some x.
Proof.
  induction ts as [|t0 ts IH]; intros i a x j t H Hj; [done|]. cbn [collect] in H.
  destruct j as [|j]; cbn in Hj |- *; (destruct (wait_ok h i); [|done]); cbn in *.
  - by destruct t0 as [| |[o|]].
  - destruct t0 as [| |[o|]]; try done. destruct (turn h i o a); [|done]. by apply IH.
Qed.

(** The eventuals that were waited for are set. *)
Lemma collect_ran ts : forall i a out k j, collect h i ts a = Some (out, k) -> (i + j < k)%nat ->
  has_run (ts !! j) = true.
Proof.
  induction ts as [|t0 ts IH]; intros i a out k j H Hj; cbn in H; [simplify_eq; lia|].
  destruct (wait_ok h i); [|cbn in H; simplify_eq; lia]. cbn in H.
  destruct t0 as [| |[o|]]; try done. destruct j as [|j]; [done|]. cbn.
  destruct (turn h i o a); [|simplify_eq; lia]. eapply IH; [done|lia].
Qed.

Lemma collect_count ts : forall i a out k, collect h i ts a = Some (out, k) -> (k <= i + length ts)%nat.
Proof.
  induction ts as [|t0 ts IH]; intros i a out k H; cbn in H |- *; [simplify_eq; lia|].
  destruct (wait_ok h i); [|cbn in H; simplify_eq; lia]. cbn in H.
  destruct t0 as [| |[o|]]; try done. destruct (turn h i o a); [|simplify_eq; lia]. apply IH in H. lia.
Qed.

(** The reply [out] is decided, with [k] eventuals waited for. *)
Definition decided (r : run) (out : R) (k : nat) : Prop := collect h 0 (status r) (start_acc h) = Some (out, k).

Definition waiting_ok (i : nat) (r : run) : Prop :=
  (i <= n)%nat /\ buffer_live r = true /\ response r = None /\
  (forall j, (j < i)%nat -> has_run (status r !! j) = true) /\
  forall ts, length ts = n -> take i ts = take i (status r) ->
    collect h 0 ts (start_acc h) = collect h i (drop i ts) (acc r).

Definition point_ok (r : run) : Prop :=
  match at_ r with
  | Waiting i => waiting_ok i r
  | Responding out => buffer_live r = true /\ response r = None /\ exists k, decided r out k
  | Freeing i => (exists out k, decided r out k /\ response r = if sent calls then Some out else None) /\
      (i <= n)%nat /\ forall j, (j < i)%nat -> is_done (status r !! j) = true
  | Finished => (exists out k, decided r out k /\ response r = if sent calls then Some out else None) /\
      forall j, (j < n)%nat -> is_done (status r !! j) = true
  | Crashed => True
  end.

(** What the tasks that ended have done, in the order they ended. *)
Definition history_ok (r : run) : Prop :=
  NoDup (ended r) /\
  (forall i, i ∈ ended r <-> has_run (status r !! i) = true) /\
  (at_ r = Crashed \/
   exists os, run_tasks task (omap (ps !!.) (ended r)) store0 = (Ok os, store r) /\
     length os = length (ended r) /\
     forall j i o, ended r !! j = Some i -> os !! j = Some o -> status r !! i = Some (Done (Some o))).

(** The handler has not responded. *)
Definition before_end (r : run) : bool := match at_ r with Waiting _ | Responding _ => true | _ => false end.

Record inv (r : run) : Prop := {
  inv_length : length (status r) = n;
  inv_point : point_ok r;
  inv_history : history_ok r;
  inv_race : use_after_free r = true -> exists out k, decided r out k /\ (k < n)%nat;
  inv_live : buffer_live r = false -> exists out k, decided r out k;
  inv_response : forall out, response r = Some out -> exists k, decided r out k;
  inv_cancel : cancel h = false \/ before_end r = true -> forall i, status r !! i <> Some (Done None)
}.

Lemma has_run_done (t : option (task_status A)) : has_run t = true -> is_done t = true.
Proof. by destruct t as [[| |[]]|]. Qed.

Lemma init_inv : inv (init h ps store0).
Proof.
  split; cbn; [by rewrite length_replicate| | |done|done|done|].
  - split_and!; [lia|done|done|lia|done].
  - split; [apply NoDup_nil_2|]. split; [|right; by exists []].
    intros i. split; [by intros ?%not_elem_of_nil|].
    unfold has_run. case_match eqn:E; [|done]. apply lookup_replicate in E as [-> _]. done.
  - intros _ i H. by apply lookup_replicate in H as [H _].
Qed.

(** The states that differ in the status of a task that is not done. *)
Record changes (j : nat) (t : task_status A) (r r' : run) : Prop := {
  ch_at : at_ r' = at_ r;
  ch_status : status r' = <[j := t]> (status r);
  ch_acc : acc r' = acc r;
  ch_live : buffer_live r' = buffer_live r;
  ch_response : response r' = response r
}.

Lemma decided_change j t r r' out k :
  status r' = <[j := t]> (status r) -> is_done (status r !! j) = false -> decided r out k -> decided r' out k.
Proof.
  unfold decided. intros -> Hj H. apply collect_stable; [done|].
  destruct (has_run (status r !! j)) eqn:E; [|done]. apply has_run_done in E. congruence.
Qed.

Lemma done_change j t (r r' : run) (P : option (task_status A) -> bool) i :
  status r' = <[j := t]> (status r) -> is_done (status r !! j) = false ->
  (forall x, P x = true -> is_done x = true) -> P (status r !! i) = true -> P (status r' !! i) = true.
Proof.
  intros -> Hj HP Hi. rewrite list_lookup_insert_ne; [done|]. intros ->. apply HP in Hi. congruence.
Qed.

Lemma point_ok_change j t r r' : changes j t r r' -> is_done (status r !! j) = false -> point_ok r -> point_ok r'.
Proof.
  intros [C1 C2 C3 C4 C5] Hj. unfold point_ok. rewrite C1. destruct (at_ r) as [i|out|i| |]; [..|done].
  - intros (H1 & H2 & H3 & H4 & H5). unfold waiting_ok. rewrite C3, C4, C5. split_and!; [done..| |].
    + intros k Hk. eapply done_change; [done..|apply has_run_done|by apply H4].
    + intros ts Hl Ht. apply H5; [done|]. rewrite Ht, C2. apply take_insert_ge.
      apply Nat.nlt_ge. intros Hlt. apply H4, has_run_done in Hlt. congruence.
  - intros (H1 & H2 & k & H3). rewrite C4, C5. split_and!; [done..|]. exists k. by eapply decided_change.
  - intros ((out & k & H1 & H2) & H3 & H4). rewrite C5. split_and!; [|done|].
    + exists out, k. split; [by eapply decided_change|done].
    + intros l Hl. eapply done_change; [done..| |by apply H4]. done.
  - intros ((out & k & H1 & H2) & H4). rewrite C5. split.
    + exists out, k. split; [by eapply decided_change|done].
    + intros l Hl. eapply done_change; [done..| |by apply H4]. done.
Qed.

(** A task that has not run gets a status without a result. *)
Lemma history_ok_change j t r r' : status r' = <[j := t]> (status r) -> is_done (status r !! j) = false ->
  has_run (Some t) = false -> ended r' = ended r -> store r' = store r -> (at_ r = Crashed -> at_ r' = Crashed) ->
  history_ok r -> history_ok r'.
Proof.
  intros C2 Hj Ht E1 E2 E3 (H1 & H2 & H3). unfold history_ok. rewrite E1, E2, C2. split; [done|]. split.
  - intros i. rewrite H2. destruct (decide (i = j)) as [->|].
    + destruct (has_run (status r !! j)) eqn:E; [apply has_run_done in E; congruence|].
      destruct (decide (j < length (status r))%nat); [by rewrite list_lookup_insert_eq, Ht|].
      rewrite list_insert_ge by lia. by rewrite E.
    + by rewrite list_lookup_insert_ne.
  - destruct H3 as [H3|(os & H3 & H4 & H5)]; [left; by apply E3|right]. exists os. split_and!; [done..|].
    intros k i o Hk Ho. specialize (H5 k i o Hk Ho). rewrite list_lookup_insert_ne; [done|].
    intros ->. by rewrite H5 in Hj.
Qed.

Lemma run_tasks_snoc (l : list piece) : forall p s s1 s2 os o,
  run_tasks task l s = (Ok os, s1) -> task p s1 = (Ok o, s2) -> run_tasks task (l ++ [p]) s = (Ok (os ++ [o]), s2).
Proof.
  induction l as [|q l IH]; intros p s s1 s2 os o H Hp; cbn in H |- *; unfold m_bind in *.
  - injection H as <- <-. by rewrite Hp.
  - destruct (task q s) as [[x|e|] s3]; [|done..]. destruct (run_tasks task l s3) as [[os'|e|] s4] eqn:E; [|done..].
    injection H as <- <-. by rewrite (IH p s3 s4 s2 os' o E Hp).
Qed.

Lemma not_ran (r : run) i : is_running (status r !! i) = true \/ is_ready (status r !! i) = true ->
  is_done (status r !! i) = false /\ (i < length (status r))%nat.
Proof.
  destruct (status r !! i) as [t|] eqn:E; [|by intros [|]]. apply lookup_lt_Some in E. by destruct t; intros [|].
Qed.

Lemma history_ok_end i p o s r r' : at_ r' = at_ r -> at_ r <> Crashed -> status r' = <[i := Done (Some o)]> (status r) ->
  ended r' = ended r ++ [i] -> store r' = s -> is_running (status r !! i) = true -> ps !! i = Some p ->
  task p (store r) = (Ok o, s) -> history_ok r -> history_ok r'.
Proof.
  intros C1 Hc C2 E1 E2 Hi Hp Ht (H1 & H2 & H3). destruct (not_ran r i (or_introl Hi)) as [Hd Hl].
  assert (i ∉ ended r) as Hni by (rewrite H2; intros E%has_run_done; congruence).
  unfold history_ok. rewrite E1, C2, E2. split_and!.
  - apply NoDup_app. split_and!; [done| |apply NoDup_singleton]. intros x Hx ->%list_elem_of_singleton. done.
  - intros x. rewrite elem_of_app, list_elem_of_singleton, H2. destruct (decide (x = i)) as [->|].
    + rewrite list_lookup_insert_eq by done. cbn. tauto.
    + rewrite list_lookup_insert_ne by done. tauto.
  - destruct H3 as [H3|(os & H3 & H4 & H5)]; [done|right]. exists (os ++ [o]). split_and!.
    + rewrite omap_app. cbn. rewrite Hp. by eapply run_tasks_snoc.
    + rewrite !length_app. cbn. lia.
    + intros k x y Hx Hy. apply lookup_snoc_Some in Hx as [[Hk Hx]|[-> ->]].
      * rewrite lookup_app_l in Hy by lia. rewrite list_lookup_insert_ne; [by eapply H5|].
        intros ->. apply list_elem_of_lookup_2 in Hx. done.
      * rewrite <- H4, list_lookup_middle in Hy by done. simplify_eq. by apply list_lookup_insert_eq.
Qed.

(** While the reply is not decided the buffer is allocated; a task that runs
    after the buffer was freed was not waited for. *)
Lemma running_left (r : run) i : inv r -> is_running (status r !! i) = true -> buffer_live r = false ->
  exists out k, decided r out k /\ (k < n)%nat.
Proof.
  intros I Hi Hb. destruct (inv_live r I Hb) as (out & k & Hd). exists out, k. split; [done|].
  destruct (not_ran r i (or_introl Hi)) as [Hn Hl]. rewrite (inv_length r I) in Hl.
  apply Nat.nle_gt. intros Hk. unfold decided in Hd. apply (collect_ran _ 0 _ _ _ i), has_run_done in Hd; [|lia].
  congruence.
Qed.

Lemma start_inv (r : run) i : inv r -> is_ready (status r !! i) = true -> inv (set_status i Running r).
Proof.
  intros I Hi. destruct (not_ran r i (or_intror Hi)) as [Hd Hl]. pose proof I as [I1 I2 I3 I4 I5 I7 I6].
  split; cbn; [by rewrite length_insert| | | | | |].
  - by apply (point_ok_change i Running r).
  - by apply (history_ok_change i Running r).
  - intros Hu. destruct (I4 Hu) as (out & k & H & Hk). exists out, k. split; [by eapply decided_change|done].
  - intros Hu. destruct (I5 Hu) as (out & k & H). exists out, k. by eapply decided_change.
  - intros out Hu. destruct (I7 out Hu) as (k & H). exists k. by eapply decided_change.
  - intros Hc j. destruct (decide (j = i)) as [->|]; [by rewrite list_lookup_insert_eq|].
    rewrite list_lookup_insert_ne by done. by apply I6.
Qed.

Lemma end_inv (r : run) i p : inv r -> at_ r <> Crashed -> is_running (status r !! i) = true -> ps !! i = Some p ->
  inv (end_task task i p r).
Proof.
  intros I Hc Hi Hp. destruct (not_ran r i (or_introl Hi)) as [Hd Hl]. pose proof I as [I1 I2 I3 I4 I5 I7 I6].
  assert (use_after_free r || negb (buffer_live r) = true -> exists out k, decided r out k /\ (k < n)%nat) as Hu.
  { intros [Hu|Hb%negb_true_iff]%orb_true_iff; [by apply I4|by apply (running_left r i)]. }
  unfold end_task. destruct (task p (store r)) as [[o|e|] s] eqn:Et.
  2,3: split; cbn; [done|done| |done|done|done|by intros [H|H]; [apply I6; left|]]; destruct I3 as (H1 & H2 & _); by split_and!; [| |left].
  split; cbn; [by rewrite length_insert| | | | | |].
  - by apply (point_ok_change i (Done (Some o)) r).
  - by apply (history_ok_end i p o s r).
  - intros H. destruct (Hu H) as (out & k & Hk & Hn). exists out, k. split; [by eapply decided_change|done].
  - intros H. destruct (I5 H) as (out & k & Hk). exists out, k. by eapply decided_change.
  - intros out H. destruct (I7 out H) as (k & Hk). exists k. by eapply decided_change.
  - intros Hcc j. destruct (decide (j = i)) as [->|]; [by rewrite list_lookup_insert_eq|].
    rewrite list_lookup_insert_ne by done. by apply I6.
Qed.

(** The handler moves on without touching the tasks. *)
Lemma main_move (r r' : run) : inv r -> at_ r <> Crashed -> status r' = status r -> store r' = store r ->
  ended r' = ended r -> use_after_free r' = use_after_free r ->
  (buffer_live r' = false -> exists out k, decided r out k) -> (before_end r' = true -> before_end r = true) ->
  (forall out, response r' = Some out -> exists k, decided r out k) -> point_ok r' -> inv r'.
Proof.
  intros [I1 I2 I3 I4 I5 I7 I6] Hc E1 E2 E3 E4 Hl Hbe Hrs Hp. unfold history_ok, decided in *. split; rewrite ?E1, ?E4; try done.
  - unfold history_ok. rewrite E1, E2, E3. destruct I3 as (H1 & H2 & [H3|H3]); [done|]. auto.
  - unfold decided. by rewrite E1.
  - unfold decided. by rewrite E1.
  - unfold decided. by rewrite E1.
  - intros [H|H]; apply I6; auto.
Qed.

Lemma waiting_decided i (r : run) x : length (status r) = n -> waiting_ok i r ->
  collect h i (drop i (status r)) (acc r) = Some x -> collect h 0 (status r) (start_acc h) = Some x.
Proof. intros Hl (_ & _ & _ & _ & H) E. by rewrite (H (status r) Hl eq_refl). Qed.

Lemma turn_inv (r : run) i o : inv r -> at_ r = Waiting i -> wait_ok h i = true ->
  status r !! i = Some (Done (Some o)) -> inv (take_turn h i o r).
Proof.
  intros I Ea Hw Hi. pose proof (inv_point r I) as Hp. pose proof (inv_length r I) as Hl.
  unfold point_ok in Hp. rewrite Ea in Hp. pose proof (drop_S _ _ _ Hi) as Ed. pose proof Hp as (P1 & P2 & P3 & P4 & P5).
  unfold take_turn. destruct (turn h i o (acc r)) as [a|out] eqn:Et.
  - apply (main_move r); try done; [by rewrite Ea|by cbn; rewrite P2|by unfold before_end; rewrite Ea|by cbn; rewrite P3|]. cbn.
    assert (i < n)%nat as Hin by (rewrite <- Hl; by eapply lookup_lt_Some).
    split_and!; [lia|done|done| |].
    + intros j Hj. destruct (decide (j = i)) as [->|]; [by cbn; rewrite Hi|]. apply P4. lia.
    + intros ts Hts Htk. cbn in *. assert (ts !! i = Some (Done (Some o))) as Hti.
      { rewrite <- (lookup_take_lt ts (S i)), Htk, lookup_take_lt by lia. done. }
      rewrite P5; [|done|].
      * rewrite (drop_S _ _ _ Hti). cbn. by rewrite Hw, Et.
      * apply (f_equal (take i)) in Htk. by rewrite !take_take, !Nat.min_l in Htk by lia.
  - apply (main_move r); try done; [by rewrite Ea|by cbn; rewrite P2|by unfold before_end; rewrite Ea|by cbn; rewrite P3|]. cbn. split_and!; [done..|].
    exists (S i). unfold decided. cbn. apply (waiting_decided i r); [done..|]. rewrite Ed. cbn. by rewrite Hw, Et.
Qed.

Lemma waiting_stop (r : run) i out k : inv r -> at_ r = Waiting i ->
  collect h i (drop i (status r)) (acc r) = Some (out, k) -> inv (set_point (Responding out) r).
Proof.
  intros I Ea E. pose proof (inv_point r I) as Hp. unfold point_ok in Hp. rewrite Ea in Hp.
  pose proof Hp as (P1 & P2 & P3 & _). apply (main_move r); try done; [by rewrite Ea|by cbn; rewrite P2|by unfold before_end; rewrite Ea|by cbn; rewrite P3|].
  cbn. split_and!; [done..|]. exists k. apply (waiting_decided i r); [by apply inv_length|done..].
Qed.

Lemma cancel_inv (r : run) i : inv r -> at_ r = Freeing i -> status r !! i = Some Ready -> cancel h = true ->
  inv (set_point (Freeing (S i)) (set_status i (Done None) r)).
Proof.
  intros I Ea Hi Hc. assert (is_ready (status r !! i) = true) as Hr by (by rewrite Hi).
  destruct (not_ran r i (or_intror Hr)) as [Hd Hl]. pose proof I as [I1 I2 I3 I4 I5 I7 I6].
  split; cbn; [by rewrite length_insert| | | | | |by intros [H|H]; [rewrite Hc in H|]].
  - unfold point_ok in *. rewrite Ea in I2. cbn. destruct I2 as ((out & k & H1 & H2) & H3 & H4). split_and!; [|lia|].
    + exists out, k. split; [by eapply decided_change|done].
    + intros j Hj. destruct (decide (j = i)) as [->|]; [by rewrite list_lookup_insert_eq|].
      rewrite list_lookup_insert_ne by done. apply H4. lia.
  - apply (history_ok_change i (Done None) r); try done. by rewrite Ea.
  - intros Hu. destruct (I4 Hu) as (out & k & H & Hk). exists out, k. split; [by eapply decided_change|done].
  - intros Hu. destruct (I5 Hu) as (out & k & H). exists out, k. by eapply decided_change.
  - intros out Hu. destruct (I7 out Hu) as (k & H). exists k. by eapply decided_change.
Qed.

Lemma main_inv (r r' : run) : inv r -> main_step h calls ps r = Some r' -> inv r'.
Proof.
  intros I H. unfold main_step in H. pose proof (inv_point r I) as Hp. pose proof (inv_length r I) as Hl.
  unfold point_ok in Hp. destruct (at_ r) as [i|out|i| |] eqn:Ea; [| | |done..].
  - destruct (Nat.leb_spec n i) as [Hn|Hn].
    + injection H as <-. apply (waiting_stop r i _ i I Ea). by rewrite drop_ge by lia.
    + destruct (lookup_lt_is_Some_2 (status r) i ltac:(lia)) as [t Ht].
      destruct (wait_ok h i) eqn:Ew; cbn in H.
      * rewrite Ht in H. destruct t as [| |[o|]]; try done. injection H as <-. by apply turn_inv.
      * injection H as <-. apply (waiting_stop r i _ i I Ea). rewrite (drop_S _ _ _ Ht). cbn. by rewrite Ew.
  - injection H as <-. destruct Hp as (P1 & P2 & k & P3). apply (main_move r); try done; [by rewrite Ea|by eauto| |].
    + cbn. intros o. destruct (sent calls); [|done]. intros [= <-]. by exists k.
    + cbn. split_and!; [by exists out, k|lia|lia].
  - destruct Hp as (P1 & P2 & P3). destruct (status r !! i) as [[| |o]|] eqn:Ei; [|done|..].
    + destruct (cancel h) eqn:Ec; [|done]. injection H as <-. by apply cancel_inv.
    + injection H as <-. apply (main_move r); try done; [by rewrite Ea|apply (inv_live r I)|apply (inv_response r I)|]. cbn.
      apply lookup_lt_Some in Ei as Hlt. split_and!; [done|lia|].
      intros j Hj. destruct (decide (j = i)) as [->|]; [by rewrite Ei|]. apply P3. lia.
    + injection H as <-. apply (main_move r); try done; [by rewrite Ea|apply (inv_live r I)|apply (inv_response r I)|]. cbn. split; [done|].
      apply lookup_ge_None in Ei. intros j Hj. apply P3. lia.
Qed.

(** A step is possible only before a crash. *)
Lemma next_live c r r' : next c r = Some r' -> at_ r <> Crashed /\
  match c with
  | Start i => is_ready (status r !! i) = true /\ r' = set_status i Running r
  | End_ i => is_running (status r !! i) = true /\ exists p, ps !! i = Some p /\ r' = end_task task i p r
  | Main => main_step h calls ps r = Some r'
  end.
Proof.
  unfold step_fn. intros H. assert (at_ r <> Crashed) as Hc by (intros E; by rewrite E in H). split; [done|].
  assert (match c with
    | Start i => if is_ready (status r !! i) then Some (set_status i Running r) else None
    | End_ i => if is_running (status r !! i) then p ← ps !! i; Some (end_task task i p r) else None
    | Main => main_step h calls ps r
    end = Some r') as H' by (by destruct (at_ r)).
  destruct c as [i|i|]; [| |done].
  - destruct (is_ready _); [|done]. by injection H' as <-.
  - destruct (is_running _); [|done]. split; [done|]. destruct (ps !! i) as [p|]; [|done]. injection H' as <-. by exists p.
Qed.

Lemma step_fn_inv (r r' : run) c : inv r -> next c r = Some r' -> inv r'.
Proof.
  intros I [Hc H]%next_live. destruct c as [i|i|].
  - destruct H as [H ->]. by apply start_inv.
  - destruct H as (H & p & Hp & ->). by apply end_inv.
  - by eapply main_inv.
Qed.

Lemma run_inv (r : run) : reachable r -> inv r.
Proof.
  intros H. assert (forall a b, rtc step a b -> inv a -> inv b) as Hs.
  { induction 1 as [|x y z [c x' y' Hxy] _ IH]; [done|]. intros Hx. apply IH. by eapply step_fn_inv. }
  by eapply Hs, init_inv.
Qed.

(** ** Termination and progress *)

Definition task_work (t : task_status A) : nat := match t with Ready => 2 | Running => 1 | Done _ => 0 end.

Definition tasks_work (ts : list (task_status A)) : nat := foldr (fun t m => (task_work t + m)%nat) 0%nat ts.

Definition work (r : run) : nat :=
  match at_ r with
  | Waiting i => tasks_work (status r) + (n - i) + length (status r) + 3
  | Responding _ => tasks_work (status r) + length (status r) + 2
  | Freeing i => tasks_work (status r) + (length (status r) - i) + 1
  | Finished => tasks_work (status r)
  | Crashed => 0
  end.

Lemma work_insert (ts : list (task_status A)) i t t' : ts !! i = Some t ->
  (tasks_work (<[i := t']> ts) + task_work t = tasks_work ts + task_work t')%nat.
Proof.
  revert i. induction ts as [|x ts IH]; intros [|i] H; try done.
  - injection H as ->. change (<[0%nat := t']> (t :: ts)) with (t' :: ts). unfold tasks_work. cbn [foldr]. lia.
  - specialize (IH i H). change (<[S i := t']> (x :: ts)) with (x :: <[i := t']> ts).
    unfold tasks_work in *. cbn [foldr]. lia.
Qed.

(** Every step of a task or of the handler reduces the work left. *)
Local Ltac work_cbn := cbn [task_work set_status set_point respond at_ status] in *.

Lemma next_work c r r' : next c r = Some r' -> (work r' < work r)%nat.
Proof.
  intros [Hc H]%next_live. destruct c as [i|i|].
  - destruct H as [H ->]. unfold is_ready in H. destruct (status r !! i) as [[]|] eqn:E; try done.
    pose proof (work_insert _ _ _ Running E). unfold work. work_cbn. rewrite length_insert. destruct (at_ r); (done || lia).
  - destruct H as (H & p & Hp & ->). unfold is_running in H. destruct (status r !! i) as [[]|] eqn:E; try done.
    unfold end_task. destruct (task p (store r)) as [[o|e|] s]; unfold work; work_cbn.
    + pose proof (work_insert _ _ _ (Done (Some o)) E). work_cbn. rewrite length_insert. destruct (at_ r); (done || lia).
    + pose proof (work_insert _ _ _ (Done None) E). work_cbn. destruct (at_ r); (done || lia).
    + pose proof (work_insert _ _ _ (Done None) E). work_cbn. destruct (at_ r); (done || lia).
  - unfold main_step in H. unfold work. destruct (at_ r) as [i|out|i| |] eqn:Ea; [| | |done..].
    + destruct (Nat.leb_spec n i) as [Hn|Hn]; [injection H as <-; work_cbn; lia|].
      destruct (wait_ok h i); [|injection H as <-; work_cbn; lia]. cbn in H.
      destruct (status r !! i) as [[| |[o|]]|]; try done. injection H as <-. unfold take_turn.
      destruct (turn h i o (acc r)); work_cbn; lia.
    + injection H as <-. work_cbn. lia.
    + destruct (status r !! i) as [[| |o]|] eqn:Ei; try done.
      * destruct (cancel h); [|done]. injection H as <-. pose proof (work_insert _ _ _ (Done None) Ei).
        apply lookup_lt_Some in Ei. work_cbn. rewrite length_insert. lia.
      * injection H as <-. apply lookup_lt_Some in Ei. work_cbn. lia.
      * injection H as <-. work_cbn. lia.
Qed.

Lemma schedule_work cs : forall r r', run_schedule h calls ps task cs r = Some r' -> (length cs + work r' <= work r)%nat.
Proof.
  induction cs as [|c cs IH]; intros r r' H; cbn [run_schedule length] in *; [by simplify_eq|].
  destruct (next c r) as [r1|] eqn:E; [|done]. apply IH in H. apply next_work in E. lia.
Qed.

Lemma init_work : work (init h ps store0) = (4 * n + 3)%nat.
Proof.
  assert (forall m, tasks_work (replicate m Ready) = (2 * m)%nat) as E.
  { induction m as [|m IH]; [done|]. unfold tasks_work in *. cbn [replicate foldr task_work]. lia. }
  unfold work, init. cbn [at_ status]. rewrite E, length_replicate. lia.
Qed.

(** Before the end some task or the handler can go on. *)
Lemma progress r : inv r -> at_ r <> Finished -> at_ r <> Crashed -> exists c r', next c r = Some r'.
Proof.
  intros I Hf Hc. pose proof (inv_length r I) as Hl. pose proof (inv_point r I) as Hp.
  assert (forall t i, status r !! i = Some t -> t = Ready \/ t = Running -> exists c r', next c r = Some r') as Htask.
  { intros t i Hi [->| ->].
    - exists (Start i). unfold step_fn. rewrite Hi. cbn. destruct (at_ r) eqn:?; by eauto.
    - assert (is_Some (ps !! i)) as [p Hps] by (apply lookup_lt_is_Some_2; rewrite <- Hl; by eapply lookup_lt_Some).
      exists (End_ i). unfold step_fn. rewrite Hi, Hps. cbn. destruct (at_ r) eqn:?; by eauto. }
  assert (is_Some (main_step h calls ps r) -> exists c r', next c r = Some r') as Hmain.
  { intros [r' E]. exists Main, r'. unfold step_fn. destruct (at_ r) eqn:?; congruence. }
  unfold main_step in Hmain. unfold point_ok in Hp. destruct (at_ r) as [i|out|i| |] eqn:Ea; [| | |done..].
  - destruct (Nat.leb_spec n i) as [Hn|Hn]; [by eauto|]. destruct (wait_ok h i); [|by eauto]. cbn in Hmain.
    destruct (lookup_lt_is_Some_2 (status r) i ltac:(lia)) as [t Ht]. rewrite Ht in Hmain.
    destruct t as [| |[o|]]; [by eauto|by eauto|by eauto|].
    destruct (inv_cancel r I) with i; [|done]. right. unfold before_end. by rewrite Ea.
  - eauto.
  - destruct (status r !! i) as [[| |o]|] eqn:Ei; eauto.
Qed.
End machine_facts.

(** ** The tasks have ended *)

Lemma omap_lookup_all {X} (xs : list X) (l : list nat) j i x :
  (forall i, i ∈ l -> is_Some (xs !! i)) -> l !! j = Some i -> xs !! i = Some x -> omap (xs !!.) l !! j = Some x.
Proof.
  revert j. induction l as [|y l IH]; intros j Hl Hj Hx; [done|].
  destruct (Hl y ltac:(constructor)) as [z Hz]. cbn. rewrite Hz. destruct j as [|j]; cbn in *; [congruence|].
  apply IH; [|done..]. intros w Hw. apply Hl. by constructor.
Qed.

Lemma all_ran {A} (ts : list (task_status A)) : (forall i, (i < length ts)%nat -> has_run (ts !! i) = true) ->
  exists os, ts = (fun o => Done (Some o)) <$> os.
Proof.
  induction ts as [|t ts IH]; intros H; [by exists []|].
  destruct IH as [os ->]; [intros i Hi; apply (H (S i)); cbn; lia|].
  specialize (H 0%nat ltac:(cbn; lia)). destruct t as [| |[o|]]; try done. by exists (o :: os).
Qed.

Section ended_facts.
Context {St A Acc R : Type} (h : handler A Acc R) (calls : margo_end).
Context (ps : list piece) (task : piece -> M St A) (store0 : St).
Local Abbreviation run := (run St A Acc R).
Local Abbreviation reachable := (reachable h calls ps task store0).
Local Abbreviation inv := (inv h calls ps task store0).

(** Tasks that throw nothing do not end the daemon. *)
Lemma no_crash (r : run) : (forall p s, p ∈ ps -> exists o s', task p s = (Ok o, s')) ->
  reachable r -> at_ r <> Crashed.
Proof.
  intros Hok H. assert (forall a b, rtc (step h calls ps task) a b -> at_ a <> Crashed -> at_ b <> Crashed) as Hs.
  { induction 1 as [|x y z [c x' y' Hxy] _ IH]; [done|]. intros Hx. apply IH. apply next_live in Hxy as [_ Hxy].
    destruct c as [i|i|].
    - by destruct Hxy as [_ ->].
    - destruct Hxy as (_ & p & Hp & ->). apply list_elem_of_lookup_2 in Hp.
      unfold end_task. by destruct (Hok p (store x') Hp) as (o & s' & ->).
    - unfold main_step in Hxy. destruct (at_ x') as [i|out|i| |] eqn:Ea; [| | |done..].
      + destruct (length ps <=? i)%nat; [by injection Hxy as <-|].
        destruct (wait_ok h i); cbn in Hxy; [|by injection Hxy as <-].
        destruct (status x' !! i) as [[| |[o|]]|]; try done. injection Hxy as <-. unfold take_turn.
        by destruct (turn h i o (acc x')).
      + by injection Hxy as <-.
      + destruct (status x' !! i) as [[| |o]|]; try done; [|by injection Hxy as <-..].
        destruct (cancel h); [|done]. by injection Hxy as <-. }
  by eapply Hs.
Qed.

(** At the end of a handler that joins its tasks, every task has run. *)
Lemma finished_ran (r : run) i : inv r -> at_ r = Finished -> cancel h = false -> (i < length ps)%nat ->
  has_run (status r !! i) = true.
Proof.
  intros I Ea Hc Hi. pose proof (inv_point _ _ _ _ _ r I) as Hp. unfold point_ok in Hp. rewrite Ea in Hp.
  destruct Hp as [_ Hp]. specialize (Hp i Hi). pose proof (inv_cancel _ _ _ _ _ r I (or_introl Hc) i).
  by destruct (status r !! i) as [[| |[]]|].
Qed.

(** A duplicate-free list of all positions reorders a list. *)
Lemma omap_lookup_perm {X} (xs : list X) (l : list nat) : NoDup l -> (forall i, i ∈ l <-> (i < length xs)%nat) ->
  omap (xs !!.) l ≡ₚ xs.
Proof.
  intros Hnd Hin. assert (l ≡ₚ seq 0 (length xs)) as ->.
  { apply NoDup_Permutation; [done|apply NoDup_seq|]. intros i. rewrite Hin, elem_of_seq. lia. }
  apply reflexive_eq. clear. induction xs as [|x xs IH] using rev_ind; [done|].
  rewrite length_app, seq_app, omap_app. cbn. rewrite lookup_app_r, Nat.sub_diag by lia. cbn. f_equal.
  rewrite <- IH at 2. apply list_omap_ext, Forall_Forall2_diag, Forall_forall. intros i Hi%elem_of_seq.
  by rewrite lookup_app_l by lia.
Qed.

(** The tasks ran in some order from the initial store to the final one,
    and set their eventuals. *)
Lemma finished_order (r : run) : inv r -> at_ r = Finished -> cancel h = false ->
  omap (ps !!.) (ended r) ≡ₚ ps /\
  exists os, run_tasks task (omap (ps !!.) (ended r)) store0 = (Ok os, store r) /\ length os = length (ended r) /\
    forall j i o, ended r !! j = Some i -> os !! j = Some o -> status r !! i = Some (Done (Some o)).
Proof.
  intros I Ea Hc. pose proof (inv_history _ _ _ _ _ r I) as (H1 & H2 & [H3|H3]); [congruence|]. split; [|done].
  apply omap_lookup_perm; [done|]. intros i. rewrite H2. split.
  - rewrite <- (inv_length _ _ _ _ _ r I). destruct (status r !! i) eqn:E; [|done]. intros _. by eapply lookup_lt_Some.
  - by apply finished_ran.
Qed.

(** What holds of the tasks' results in the order they ended holds in the
    order of the operations. *)
Lemma results_in_order (r : run) (Q : piece -> A -> Prop) : inv r -> at_ r <> Crashed ->
  (forall i, (i < length ps)%nat -> has_run (status r !! i) = true) ->
  (forall os, run_tasks task (omap (ps !!.) (ended r)) store0 = (Ok os, store r) -> Forall2 Q (omap (ps !!.) (ended r)) os) ->
  exists os, status r = (fun o => Done (Some o)) <$> os /\ Forall2 Q ps os.
Proof.
  intros I Hc Hran HQ. pose proof (inv_length _ _ _ _ _ r I) as Hl.
  pose proof (inv_history _ _ _ _ _ r I) as (_ & Hin & [H3|(os & Hrun & Hlen & Hst)]); [done|].
  specialize (HQ os Hrun). destruct (all_ran (status r)) as [ws Hws]; [intros i Hi; apply Hran; lia|].
  exists ws. split; [done|]. assert (length ws = length ps) as Hlw by (rewrite Hws, length_fmap in Hl; lia).
  apply Forall2_same_length_lookup_2; [done|]. intros i p w Hpi Hwi.
  assert (status r !! i = Some (Done (Some w))) as Hsi by (by rewrite Hws, list_lookup_fmap, Hwi).
  assert (i ∈ ended r) as [j Hj]%list_elem_of_lookup_1 by (apply Hin; by rewrite Hsi).
  destruct (lookup_lt_is_Some_2 os j) as [o Hoj]; [rewrite Hlen; by eapply lookup_lt_Some|].
  assert (w = o) as -> by (specialize (Hst j i o Hj Hoj); congruence).
  eapply Forall2_lookup_lr; [exact HQ| |exact Hoj]. apply (omap_lookup_all ps _ j i); [|done..].
  intros x Hx%Hin. apply lookup_lt_is_Some_2. rewrite <- Hl.
  destruct (status r !! x) eqn:Ex; [by eapply lookup_lt_Some|done].
Qed.
End ended_facts.

(** ** The write and the read handler *)

(** Part 4 of [rpc_srv_write]: a negative result is an error number. *)
Definition write_turn (i : nat) (written io_size : Z) : Z + rpc_data_out :=
  if written <? 0 then inr (MkDataOut (- written) io_size) else inl (u64 (io_size + written)).

Definition write_handler (env : margo_env) : handler Z Z rpc_data_out :=
  MkHandler (eventual_wait_ok env) write_turn (MkDataOut EIO) (MkDataOut 0) false 0.

(** Part 4 of [rpc_srv_read]: a missing chunk and an empty read are skipped,
    what was read is pushed to the client. *)
Definition read_turn (push_ok : nat -> bool) (i : nat) (read_size io_size : Z) : Z + rpc_data_out :=
  if read_size <? 0 then
    if - read_size =? ENOENT then inl io_size else inr (MkDataOut (- read_size) io_size)
  else if read_size =? 0 then inl io_size
  else if push_ok i then inl (u64 (io_size + read_size))
  else inr (MkDataOut EIO io_size).

Definition read_handler (env : margo_env) (push_ok : nat -> bool) : handler Z Z rpc_data_out :=
  MkHandler (eventual_wait_ok env) (read_turn push_ok) (MkDataOut EIO) (MkDataOut 0) true 0.

(** The handler stops before the last eventual only with an error. *)
Definition stops_with_error (h : handler Z Z rpc_data_out) : Prop :=
  (forall i o a out, turn h i o a = inr out -> out_err out <> 0) /\ (forall a, out_err (wait_error h a) <> 0).

Lemma write_stops env : stops_with_error (write_handler env).
Proof.
  split; [|done]. intros i o a out. cbn. unfold write_turn. destruct (Z.ltb_spec o 0); [|done].
  intros [= <-]. cbn. lia.
Qed.

Lemma read_stops env push_ok : stops_with_error (read_handler env push_ok).
Proof.
  split; [|done]. intros i o a out. cbn. unfold read_turn. destruct (Z.ltb_spec o 0).
  - destruct (_ =? _); [done|]. intros [= <-]. cbn. lia.
  - destruct (_ =? _); [done|]. destruct (push_ok i); [done|]. by intros [= <-].
Qed.

Lemma collect_early (h : handler Z Z rpc_data_out) ts : stops_with_error h -> forall i a out k,
  collect h i ts a = Some (out, k) -> (k < i + length ts)%nat -> out_err out <> 0.
Proof.
  intros [H1 H2]. induction ts as [|t ts IH]; intros i a out k H Hk; cbn in H, Hk; [simplify_eq; lia|].
  destruct (wait_ok h i); cbn in H; [|injection H as <- <-; apply H2].
  destruct t as [| |[o|]]; try done. destruct (turn h i o a) eqn:E.
  - apply (IH (S i) z out k H). lia.
  - injection H as <- <-. by eapply H1.
Qed.

Lemma collect_write env ws : forall i a,
  exists k, collect (write_handler env) i ((fun w => Done (Some w)) <$> ws) a = Some (collect_written env i ws a, k).
Proof.
  induction ws as [|w ws IH]; intros i a; [by eexists|]. csimpl. destruct (eventual_wait_ok env i); [|by eexists].
  cbn. unfold write_turn. destruct (w <? 0); [by eexists|]. apply IH.
Qed.

(** [SrvData.rpc_srv_write] up to the tasks, which run beside the handler
    from here on. *)
Definition concurrent_write {F : Type} {P : PosixFS F} (cfg : config) (str_hash : str -> Z) (st : ChunkStorage)
    (env : margo_env) (calls : margo_end) (in_ : rpc_data_in) (client junk : list byte) (f : F)
    (r : run F Z Z rpc_data_out) : Prop :=
  exists s bulk,
    assign_chunks cfg str_hash in_ (Z.of_nat (length client)) = Ok (Some s) /\
    pull_pieces env 0 client (pieces s) (resize (Z.to_nat (in_total_chunk_size in_)) junk) = inr bulk /\
    reachable (write_handler env) calls (pieces s) (write_file_abt st (in_path in_) bulk) f r.

Section concurrent_write_facts.
Context {F : Type} {P : PosixFS F} {L : PosixFSLaws P} (st : ChunkStorage).
Context (cs offset size : Z) (path : str) (client : list byte).
Context (Hcs : 0 < cs < 2 ^ 63) (Hst : cs_chunksize st = cs) (Ho : 0 <= offset) (Hs : 0 < size).
Context (H32 : last_id cs offset size < 2 ^ 32) (Hp : file_path_ok path).
Context (Hclient : Z.of_nat (length client) = size).
Context (env : margo_env) (calls : margo_end) (bulk : list byte) (ps : list piece) (f : F).
Context (Hld : Forall (loaded cs offset size client bulk) ps) (Hnd : NoDup (pc_id <$> ps)).
Local Abbreviation task := (write_file_abt st path bulk).
Local Abbreviation h := (write_handler env).
Local Abbreviation wrote k l := (wrote_prefixes st cs offset size path client k l).

Lemma write_tasks_ok p s : p ∈ ps -> exists o s', task p s = (Ok o, s').
Proof using All.
  intros Hin. rewrite Forall_forall in Hld. destruct (Hld p Hin) as (id & ptr & -> & Hid & Hsl).
  destruct (write_file_abt _ _ _ _ s) as [r s'] eqn:E.
  eapply (write_file_abt_spec st cs offset size path client) in E as (w & -> & _); try done. by eexists _, _.
Qed.

Lemma wrote_perm k l l' f' : l ≡ₚ l' -> wrote k l f f' -> wrote k l' f f'.
Proof.
  intros Hl [H1 H2]. split.
  - intros id Hid. apply H1. by rewrite Hl.
  - intros q Hq. apply H2. intros id Hid. apply Hq. by rewrite <- Hl.
Qed.

(** The results in the order of the operations, whatever the order in which
    the tasks ended. *)
Lemma write_tasks_results (r : run F Z Z rpc_data_out) : inv h calls ps task f r -> at_ r = Finished ->
  exists k ws, status r = (fun w => Done (Some w)) <$> ws /\
    Forall2 (result_of k) (pc_id <$> ps) ws /\ wrote k (pc_id <$> ps) f (store r).
Proof using All.
  intros I Ea. destruct (finished_order h calls ps task f r I Ea eq_refl) as (Hperm & os & Hrun & Hlen & Hst').
  pose proof Hrun as Hrun'. apply (run_loaded_tasks st cs offset size path client) in Hrun' as (k & ws & [= <-] & Hres & Hw); try done.
  2:{ by rewrite Hperm. }
  2:{ by rewrite Hperm. }
  destruct (results_in_order h calls ps task f r (fun p w => result_of k (pc_id p) w)) as (ws & Hws & HQ); [done|by rewrite Ea| | |].
  - intros i Hi. by apply (finished_ran h calls ps task f r).
  - intros os' Hrun2. rewrite Hrun in Hrun2. injection Hrun2 as <-. exact (proj1 (Forall2_fmap_l pc_id (result_of k) _ _) Hres).
  - exists k, ws. split; [done|]. split; [exact (proj2 (Forall2_fmap_l pc_id (result_of k) _ _) HQ)|].
    apply (wrote_perm k (pc_id <$> omap (ps !!.) (ended r))); [by rewrite Hperm|done].
Qed.

Context (Hwait : forall n, eventual_wait_ok env n = true) (Hsum : zsum (psize cs offset size) (pc_id <$> ps) < 2 ^ 64).

Lemma write_tasks_reply (r : run F Z Z rpc_data_out) : reachable h calls ps task f r -> at_ r = Finished ->
  exists k out, wrote k (pc_id <$> ps) f (store r) /\
    (response r = if sent calls then Some out else None) /\
    (out_err out = 0 -> out_io_size out = zsum k (pc_id <$> ps) /\ use_after_free r = false).
Proof using All.
  intros I%run_inv Ea. destruct (write_tasks_results r I Ea) as (k & ws & Hws & Hres & Hw).
  pose proof (inv_point _ _ _ _ _ r I) as Hpt. unfold point_ok in Hpt. rewrite Ea in Hpt.
  destruct Hpt as ((out & m & Hd & Hrs) & _). pose proof Hd as Hd'. unfold decided in Hd'. rewrite Hws in Hd'.
  destruct (collect_write env ws 0 0) as [m' Hm]. change (start_acc h) with 0 in Hd'. rewrite Hm in Hd'. injection Hd' as <- <-.
  eexists k, _. split; [done|]. split; [exact Hrs|]. intros He.
  assert (zsum k (pc_id <$> ps) <= zsum (psize cs offset size) (pc_id <$> ps)) as Hle.
  { apply zsum_le. intros x Hx. apply (proj1 Hw x Hx). }
  split.
  - apply (collect_written_spec client env k (pc_id <$> ps) ws 0 0 Hwait Hres); [|done|lia|done].
    intros x Hx. apply (proj1 Hw x Hx).
  - destruct (use_after_free r) eqn:Eu; [|done]. destruct (inv_race _ _ _ _ _ r I Eu) as (out & k' & Hd2 & Hk').
    unfold decided in Hd, Hd2. rewrite Hd in Hd2. injection Hd2 as <- <-.
    destruct (collect_early h (status r) (write_stops env) 0 _ _ _ Hd); [|done].
    rewrite (inv_length _ _ _ _ _ r I). lia.
Qed.
End concurrent_write_facts.

(** The operations of a write request once its pieces are pulled. *)
Lemma planned_write (st : ChunkStorage) (cfg : config) (str_hash : str -> Z) (env : margo_env) (in_ : rpc_data_in)
    (client junk : list byte) (offset size : Z) s bulk :
  range_ok (chunksize cfg) offset size -> cs_chunksize st = chunksize cfg ->
  request_for cfg str_hash in_ offset size -> file_path_ok (in_path in_) ->
  Z.of_nat (length client) = size -> env_ok env ->
  assign_chunks cfg str_hash in_ (Z.of_nat (length client)) = Ok (Some s) ->
  pull_pieces env 0 client (pieces s) (resize (Z.to_nat (in_total_chunk_size in_)) junk) = inr bulk ->
  Forall (loaded (chunksize cfg) offset size client bulk) (pieces s) /\
  pc_id <$> pieces s = host_ids cfg str_hash in_ offset size /\ NoDup (pc_id <$> pieces s) /\
  0 <= zsum (psize (chunksize cfg) offset size) (pc_id <$> pieces s) <= size.
Proof.
  intros (Hcs & Ho & Hs & Hb & H32) Hst Rq Hp Hc [E1 E2 E3 E4 E5 E6] Ea Epl.
  destruct (assign_chunks_plan cfg str_hash in_ offset size Hcs Ho Hs Hb Rq) as (s' & Ea' & _ & Eps).
  rewrite Hc in Ea. rewrite Ea in Ea'. injection Ea' as <-. clear Ea.
  set (l := host_ids cfg str_hash in_ offset size) in *.
  assert (forall id, id ∈ l -> first_id (chunksize cfg) offset <= id <= last_id (chunksize cfg) offset size) as Hin.
  { intros id [_ Hi]%list_elem_of_filter. by apply elem_of_ids in Hi; [|lia..]. }
  assert (0 <= zsum (psize (chunksize cfg) offset size) l <= size) as HL by (apply sizes_host_le; lia).
  rewrite Eps, (pull_pieces_packs st (chunksize cfg) offset size (in_path in_) client) in Epl; try done; try lia.
  2:{ rewrite (rf_total _ _ _ _ _ Rq). fold l. unfold resize. rewrite length_app, length_take, length_replicate. lia. }
  injection Epl as <-. rewrite Eps, plan_pieces_ids. split; [|split; [done|]; split; [by apply NoDup_filter, ids_nodup|done]].
  by apply (plan_pieces_loaded st (chunksize cfg) offset size (in_path in_) client Hcs Hst Ho Hs H32 Hp Hc l []).
Qed.

(** ** Properties *)

(** C33. Whatever the order in which the tasks of a data request run, the
    handler ends: a schedule has at most [4 n + 3] steps for [n] tasks, one
    that cannot go on has reached the handler's end (or a task has thrown an
    exception), and at the end the reply that was sent is the one the loop
    over the eventuals computes from what the tasks set in them. *)
Theorem schedules_end {St A Acc R : Type} (h : handler A Acc R) (calls : margo_end) (ps : list piece)
    (task : piece -> M St A) (store0 : St) :
  (forall cs r, run_schedule h calls ps task cs (init h ps store0) = Some r -> (length cs <= 4 * length ps + 3)%nat) /\
  (forall r, reachable h calls ps task store0 r -> stuck h calls ps task r -> at_ r = Finished \/ at_ r = Crashed) /\
  (forall r, reachable h calls ps task store0 r -> at_ r = Finished ->
     exists out k, collect h 0 (status r) (start_acc h) = Some (out, k) /\
       response r = if sent calls then Some out else None).
Proof.
  split_and!.
  - intros cs r H. apply schedule_work in H. rewrite init_work in H. lia.
  - intros r H%run_inv Hs.
    destruct (at_ r) eqn:Ea; [| | |by left|by right].
    all: destruct (progress h calls ps task store0 r H) as (c & r' & E); [by rewrite Ea..|]; destruct (Hs r'); by econstructor.
  - intros r H%run_inv Ea. pose proof (inv_point _ _ _ _ _ r H) as Hp. unfold point_ok in Hp. rewrite Ea in Hp.
    by destruct Hp as [Hp _].
Qed.


Definition calls_ok : margo_end := MkMargoEnd true true true true true.

(** The second chunk is written first. *)
Definition reversed_schedule : list choice :=
  [Start 1; Start 0; End_ 1; End_ 0; Main; Main; Main; Main; Main; Main; Main].


(** C34. The bulk buffer is freed while a task still uses it only in a
    request that is answered with an error: if a task used the buffer after
    it was freed, the handler stopped before the last eventual, and the
    reply it sent has an error number. *)
Theorem freed_early_replies_error {St : Type} (h : handler Z Z rpc_data_out) (calls : margo_end) (env : margo_env)
    (push_ok : nat -> bool) (ps : list piece) (task : piece -> M St Z) (store0 : St)
    (r : run St Z Z rpc_data_out) :
  h = write_handler env \/ h = read_handler env push_ok ->
  reachable h calls ps task store0 r -> use_after_free r = true ->
  exists out k, collect h 0 (status r) (start_acc h) = Some (out, k) /\ (k < length ps)%nat /\ out_err out <> 0 /\
    forall out', response r = Some out' -> out' = out.
Proof.
  intros Hh I%run_inv Hu. destruct (inv_race _ _ _ _ _ r I Hu) as (out & k & Hd & Hk). exists out, k.
  split; [done|]. split; [done|]. split.
  - assert (stops_with_error h) as Hse by (destruct Hh as [-> | ->]; [apply write_stops|apply read_stops]).
    apply (collect_early h (status r) Hse 0 _ _ _ Hd). rewrite (inv_length _ _ _ _ _ r I). lia.
  - intros out' Hr. destruct (inv_response _ _ _ _ _ r I out' Hr) as [k' Hd']. unfold decided in Hd, Hd'. congruence.
Qed.

(** The race is there: the first task fails, the handler replies and frees
    the buffer while the second task runs. *)
Definition full_disk (p : piece) : M () Z := m_ret (if pc_id p =? 0 then - ENOSPC else pc_size p).
Definition two_pieces : list piece := [MkPiece 0 0 0 0 4 0; MkPiece 1 4 4 4 4 0].
Definition racing_schedule : list choice := [Start 0; End_ 0; Start 1; Main; Main; End_ 1].

Lemma freed_early_replies_error_witness : exists r : run () Z Z rpc_data_out,
  use_after_free r = true /\ response r = Some (MkDataOut ENOSPC 0) /\
  exists out k, collect (write_handler good_env) 0 (status r) 0 = Some (out, k) /\ (k < 2)%nat /\ out_err out <> 0.
Proof.
  destruct (run_schedule (write_handler good_env) calls_ok two_pieces full_disk racing_schedule
    (init (write_handler good_env) two_pieces tt)) as [r|] eqn:Er; [|vm_compute in Er; discriminate].
  exists r.
  assert (use_after_free r = true /\ response r = Some (MkDataOut ENOSPC 0)) as [H1 H2]
    by (vm_compute in Er; injection Er as <-; split; reflexivity).
  split; [exact H1|]. split; [exact H2|].
  destruct (freed_early_replies_error (write_handler good_env) calls_ok good_env (fun _ => true) two_pieces full_disk tt r)
    as (out & k & Hc & Hk & He & _).
  - left. reflexivity.
  - by eapply run_schedule_rtc.
  - exact H1.
  - exists out, k. split; [exact Hc|]. split; [exact Hk|exact He].
Defined.

(** Ending a request makes its calls in a fixed order - respond, free the
    bulk handle, free the input, destroy the handle - each once, and stops at
    the first that fails: the calls made are a prefix of the calls due, all of
    them exactly when success is returned; the output is never freed. *)
Theorem cleanup_respond_order (calls : margo_end) (handle input output bulk_handle : bool) :
  let '(es, ok) := cleanup_respond calls handle input output bulk_handle in
  es `prefix_of` due handle input output bulk_handle /\
  (ok = true <-> es = due handle input output bulk_handle) /\ NoDup es /\ OutputFreed ∉ es.
Proof.
  pose proof (cleanup_respond_due calls handle input output bulk_handle) as H.
  destruct (cleanup_respond calls handle input output bulk_handle) as [es ok]. destruct H as [H1 H2].
  assert (NoDup (due handle input output bulk_handle) /\ OutputFreed ∉ due handle input output bulk_handle) as [N1 N2].
  { destruct handle, input, output, bulk_handle; split; apply (bool_decide_unpack _); exact I. }
  destruct H1 as [t Ht]. rewrite Ht in N1, N2. split_and!; [by exists t|done| |].
  - by apply NoDup_app in N1 as [N1 _].
  - intros Hin. apply N2, elem_of_app. by left.
Qed.

(** The bound of eleven steps for two tasks is reached. *)
Lemma schedules_end_witness : exists r : run () Z Z rpc_data_out,
  at_ r = Finished /\ response r = Some (MkDataOut 0 8) /\ length reversed_schedule = 11%nat /\
  exists k, collect (write_handler good_env) 0 (status r) 0 = Some (MkDataOut 0 8, k).
Proof.
  destruct (run_schedule (write_handler good_env) calls_ok two_pieces (fun p => m_ret (pc_size p)) reversed_schedule
    (init (write_handler good_env) two_pieces tt)) as [r|] eqn:Er; [|vm_compute in Er; discriminate].
  exists r.
  assert (at_ r = Finished /\ response r = Some (MkDataOut 0 8)) as [H1 H2]
    by (vm_compute in Er; injection Er as <-; split; reflexivity).
  destruct (schedules_end (write_handler good_env) calls_ok two_pieces (fun p => m_ret (pc_size p)) tt) as (_ & _ & H).
  destruct (H r) as (out & k & Hc & Hr); [by eapply run_schedule_rtc|exact H1|].
  rewrite H2 in Hr. injection Hr as <-. split; [exact H1|]. split; [exact H2|]. split; [reflexivity|]. exists k. exact Hc.
Defined.

(** ** Reading beside the tasks *)

(** The number a read task sets in its eventual. *)
Definition read_task {F : Type} {P : PosixFS F} (st : ChunkStorage) (path : str) (p : piece) : M F Z :=
  let* o := read_file_abt st path p in
  m_ret (match o with inl bs => Z.of_nat (length bs) | inr e => e end).

(** [SrvData.rpc_srv_read] up to the tasks; [push_ok] tells which transfers
    to the client succeed. *)
Definition concurrent_read {F : Type} {P : PosixFS F} (cfg : config) (str_hash : str -> Z) (st : ChunkStorage)
    (env : margo_env) (push_ok : nat -> bool) (calls : margo_end) (in_ : rpc_data_in) (client_size : Z) (f : F)
    (r : run F Z Z rpc_data_out) : Prop :=
  exists s,
    assign_chunks cfg str_hash in_ client_size = Ok (Some s) /\
    tasks_created env 0 (pieces s) = None /\
    reachable (read_handler env push_ok) calls (pieces s) (read_task st (in_path in_)) f r.

Section concurrent_read_facts.
Context {F : Type} {P : PosixFS F} {L : PosixFSLaws P} (st : ChunkStorage).
Context (cs offset size : Z) (path : str).
Context (Hcs : 0 < cs < 2 ^ 63) (Hst : cs_chunksize st = cs) (Ho : 0 <= offset) (Hs : 0 < size).
Context (Hp : file_path_ok path).
Local Abbreviation task := (read_task st path).
Local Abbreviation bytes f id := (Z.of_nat (length (stored st cs offset size path f id))).

(** An operation of the plan. *)
Definition planned (p : piece) : Prop := exists id acc,
  p = MkPiece id (buf_off cs offset id) acc acc (psize cs offset size id) (chunk_off cs offset id) /\
  first_id cs offset <= id <= last_id cs offset size.

(** What a task reports: how much it read, or an error, which is [ENOENT]
    only for a chunk without bytes in the range. *)
Definition reported (f : F) (p : piece) (o : Z) : Prop :=
  o = bytes f (pc_id p) \/ (o < 0 /\ (- o = ENOENT -> bytes f (pc_id p) = 0)).

Lemma read_task_spec p f : planned p -> exists o f', task p f = (Ok o, f') /\ fs_file f' = fs_file f /\ reported f p o.
Proof using All.
  intros (id & a & -> & Hid). unfold read_task, m_bind.
  destruct (read_file_abt _ _ _ f) as [r0 f0] eqn:E.
  apply (read_file_abt_spec st cs offset size path) in E as (E & o & -> & Hr); [|done..].
  eexists _, _. split; [done|]. split; [done|]. unfold reported. destruct o as [bs|e]; cbn in Hr |- *.
  - left. by subst bs.
  - right. destruct Hr as [H1 H2]. split; [done|]. intros H3. by rewrite H2.
Qed.

Lemma run_read_task ps f r f' : Forall planned ps -> run_tasks task ps f = (r, f') ->
  fs_file f' = fs_file f /\ exists os, r = Ok os /\ Forall2 (reported f) ps os.
Proof using All.
  intros Hps. revert f r f'. induction Hps as [|p ps Hpl Hps IH]; intros f r f'; cbn [run_tasks].
  { intros [= <- <-]. split; [done|]. by exists []. }
  unfold m_bind. destruct (read_task_spec p f Hpl) as (o & f1 & -> & E1 & Ho').
  destruct (run_tasks task ps f1) as [r2 f2] eqn:E2. apply IH in E2 as (E2 & os & -> & Hos).
  intros [= <- <-]. split; [congruence|]. eexists. split; [done|]. constructor; [done|].
  eapply Forall2_impl; [exact Hos|]. intros q x. unfold reported. by rewrite (stored_ext st cs offset size path f f1).
Qed.

(** The reply without error when every eventual was waited for. *)
Lemma collect_reads env push_ok f ps os : Forall2 (reported f) ps os -> forall i a out k,
  0 <= a -> a + zsum (fun p => bytes f (pc_id p)) ps < 2 ^ 64 ->
  collect (read_handler env push_ok) i ((fun o => Done (Some o)) <$> os) a = Some (out, k) -> out_err out = 0 ->
  out_io_size out = a + zsum (fun p => bytes f (pc_id p)) ps.
Proof using Hcs.
  induction 1 as [|p o ps os Hr _ IH]; intros i a out k Ha Hb Hc He.
  { cbn in Hc. injection Hc as <- <-. cbn. lia. }
  csimpl in Hc. cbn [collect zsum] in *. destruct (eventual_wait_ok env i); [|injection Hc as <- <-; done]. cbn [negb turn read_handler] in Hc.
  unfold read_turn in Hc.
  assert (0 <= zsum (fun p => bytes f (pc_id p)) ps) as Hz by (apply zsum_nonneg; lia).
  destruct (Z.ltb_spec o 0) as [Ho'|Ho'].
  - destruct Hr as [Hr|[_ Hr]]; [lia|]. destruct (Z.eqb_spec (- o) ENOENT) as [E|E].
    + rewrite (IH (S i) a out k); [|done|lia|done|done]. rewrite (Hr E). lia.
    + injection Hc as <- <-. cbn in He. lia.
  - destruct Hr as [Hr|[Hr _]]; [|lia]. destruct (Z.eqb_spec o 0).
    + rewrite (IH (S i) a out k); [|done|lia|done|done]. lia.
    + destruct (push_ok i); [|injection Hc as <- <-; done]. rewrite wrapu_small in Hc by (unfold in_u; lia).
      rewrite (IH (S i) (a + o) out k); [|lia|lia|done|done]. lia.
Qed.

Context (env : margo_env) (push_ok : nat -> bool) (calls : margo_end) (ps : list piece) (f : F).
Context (Hps : Forall planned ps) (Hsum : zsum (fun p => bytes f (pc_id p)) ps < 2 ^ 64).
Local Abbreviation h := (read_handler env push_ok).

Lemma read_tasks_ok p s : p ∈ ps -> exists o s', task p s = (Ok o, s').
Proof using L Hcs Hst Ho Hs Hp Hps.
  intros Hin. rewrite Forall_forall in Hps. destruct (read_task_spec p s (Hps p Hin)) as (o & s' & E & _). by eexists _, _.
Qed.

Lemma planned_ended (r : run F Z Z rpc_data_out) : Forall planned (omap (ps !!.) (ended r)).
Proof using L Hcs Hst Ho Hs Hp Hps.
  apply Forall_forall. intros p (i & _ & Hi)%list_elem_of_omap. rewrite Forall_forall in Hps. apply Hps.
  by eapply list_elem_of_lookup_2.
Qed.

(** Whatever has run, the files are as they were. *)
Lemma reads_keep_files (r : run F Z Z rpc_data_out) : inv h calls ps task f r -> at_ r <> Crashed ->
  fs_file (store r) = fs_file f.
Proof using L Hcs Hst Ho Hs Hp Hps.
  intros I Hc. pose proof (inv_history _ _ _ _ _ r I) as (_ & _ & [H3|(os & Hrun & _)]); [done|].
  by apply run_read_task in Hrun as [E _]; [|apply planned_ended].
Qed.

Lemma read_tasks_reply (r : run F Z Z rpc_data_out) : reachable h calls ps task f r -> at_ r = Finished ->
  exists out, (response r = if sent calls then Some out else None) /\
    (out_err out = 0 -> out_io_size out = zsum (fun p => bytes f (pc_id p)) ps /\ use_after_free r = false).
Proof using All.
  intros I%run_inv Ea. pose proof (inv_point _ _ _ _ _ r I) as Hpt. unfold point_ok in Hpt. rewrite Ea in Hpt.
  destruct Hpt as ((out & k & Hd & Hrs) & _). exists out. split; [exact Hrs|]. intros He. unfold decided in Hd.
  assert (k = length ps) as Hk.
  { pose proof (collect_count _ _ _ _ _ _ Hd) as Hk. rewrite (inv_length _ _ _ _ _ r I) in Hk.
    destruct (decide (k < length ps)%nat) as [Hlt|]; [|lia].
    destruct (collect_early h (status r) (read_stops env push_ok) 0 _ _ _ Hd); [|done].
    rewrite (inv_length _ _ _ _ _ r I). lia. }
  split.
  - destruct (results_in_order h calls ps task f r (reported f)) as (os & Hos & HQ); [done|by rewrite Ea| | |].
    + intros i Hi. apply (collect_ran _ _ 0 _ _ _ i Hd). lia.
    + intros os Hrun. apply run_read_task in Hrun as (_ & os' & [= <-] & Hos); [done|apply planned_ended].
    + rewrite Hos in Hd. by apply (collect_reads env push_ok f ps os HQ 0 0 out k).
  - destruct (use_after_free r) eqn:Eu; [|done]. destruct (inv_race _ _ _ _ _ r I Eu) as (out' & k' & Hd2 & Hk').
    unfold decided in Hd2. rewrite Hd in Hd2. injection Hd2 as <- <-. lia.
Qed.
End concurrent_read_facts.

(** C20. Whatever the order in which the tasks of a read request run and are
    cancelled, none ends the daemon and the chunk files stay as they are; a
    reply without error counts exactly the bytes the chunks of this host hold
    of the range, with no task having used the bulk buffer after it was
    freed. *)
Theorem concurrent_read_counts {F : Type} (P : PosixFS F) (L : PosixFSLaws P) (st : ChunkStorage)
    (cfg : config) (str_hash : str -> Z) (env : margo_env) (push_ok : nat -> bool) (calls : margo_end)
    (in_ : rpc_data_in) (offset size : Z) (f : F) (r : run F Z Z rpc_data_out) :
  range_ok (chunksize cfg) offset size -> cs_chunksize st = chunksize cfg ->
  request_for cfg str_hash in_ offset size -> file_path_ok (in_path in_) ->
  concurrent_read cfg str_hash st env push_ok calls in_ size f r ->
  at_ r <> Crashed /\ fs_file (store r) = fs_file f /\
  (at_ r = Finished -> exists out,
     (response r = if sent calls then Some out else None) /\
     (out_err out = 0 ->
      out_io_size out = zsum (fun id => Z.of_nat (length (stored st (chunksize cfg) offset size (in_path in_) f id)))
                          (host_ids cfg str_hash in_ offset size) /\
      use_after_free r = false)).
Proof.
  intros (Hcs & Ho & Hs & Hb & H32) Hst Rq Hp (s & Ea & _ & Hr).
  destruct (assign_chunks_plan cfg str_hash in_ offset size Hcs Ho Hs Hb Rq) as (s' & Ea' & _ & Eps).
  rewrite Ea in Ea'. injection Ea' as <-. clear Ea. rewrite Eps in Hr.
  set (l := host_ids cfg str_hash in_ offset size) in *.
  assert (forall id, id ∈ l -> first_id (chunksize cfg) offset <= id <= last_id (chunksize cfg) offset size) as Hin.
  { intros id [_ Hi]%list_elem_of_filter. by apply elem_of_ids in Hi; [|lia..]. }
  assert (Forall (planned (chunksize cfg) offset size) (plan_pieces (chunksize cfg) offset size l 0)) as Hps.
  { apply Forall_forall. intros p (id & a & Hid & ->)%elem_of_plan_pieces. exists id, a. split; [done|by apply Hin]. }
  assert (forall g : Z -> Z, zsum (fun p => g (pc_id p)) (plan_pieces (chunksize cfg) offset size l 0) = zsum g l) as Hsum.
  { intros g. by rewrite <- zsum_fmap, plan_pieces_ids. }
  assert (at_ r <> Crashed) as Hc.
  { eapply no_crash; [|exact Hr]. by eapply (read_tasks_ok st (chunksize cfg) offset size). }
  split; [done|]. split.
  - apply run_inv in Hr. by eapply (reads_keep_files st (chunksize cfg) offset size).
  - intros Ef. rewrite <- Hsum. eapply (read_tasks_reply st (chunksize cfg) offset size); try done.
    rewrite (Hsum (fun id => Z.of_nat (length (stored st (chunksize cfg) offset size (in_path in_) f id)))).
    pose proof (sizes_host_le cfg str_hash in_ offset size Hcs Ho Hs) as HL. fold l in HL.
    assert (zsum (fun id => Z.of_nat (length (stored st (chunksize cfg) offset size (in_path in_) f id))) l <=
      zsum (psize (chunksize cfg) offset size) l); [|lia].
    apply zsum_le. intros id Hid. by apply length_stored; [..|apply Hin].
Qed.

(** Chunk 1 is stored, chunk 3 is missing. *)
Definition one_chunk_fs : memfs := MkMemFS {[ chunk_file small_store (s_ "/f") 1 := s_ "abcd" ]} ∅ ∅.

Lemma concurrent_read_counts_witness : exists r : run memfs Z Z rpc_data_out,
  at_ r = Finished /\ response r = Some (MkDataOut 0 4) /\ use_after_free r = false /\
  fs_file (store r) = fs_file one_chunk_fs.
Proof.
  destruct (assign_chunks small_config last_char_hash small_in 10) as [[s|]| |] eqn:Ea; try discriminate.
  destruct (run_schedule (read_handler good_env (fun _ => true)) calls_ok (pieces s) (read_task small_store (s_ "/f"))
    reversed_schedule (init (read_handler good_env (fun _ => true)) (pieces s) one_chunk_fs)) as [r|] eqn:Er.
  2:{ vm_compute in Ea. injection Ea as <-. discriminate. }
  exists r.
  assert (at_ r = Finished /\ response r = Some (MkDataOut 0 4)) as (H1 & H2).
  { vm_compute in Ea. injection Ea as <-. vm_compute in Er. by injection Er as <-. }
  destruct (concurrent_read_counts MemFS _ small_store small_config last_char_hash good_env (fun _ => true) calls_ok
    small_in 3 10 one_chunk_fs r small_range eq_refl small_request) as (_ & Hf & H).
  - by eexists _, _.
  - exists s. split; [exact Ea|]. split; [|by eapply run_schedule_rtc].
    vm_compute in Ea. injection Ea as <-. reflexivity.
  - destruct (H H1) as (out & Hr & Hz). rewrite H2 in Hr. injection Hr as <-. destruct (Hz eq_refl) as [_ Hu].
    split; [exact H1|]. split; [exact H2|]. split; [exact Hu|exact Hf].
Defined.
