(* ===== verification/Agios.v ===== *)
(** * Scheduling with AGIOS ([src/daemon/scheduler/agios.cpp], the AGIOS blocks
    of [src/daemon/handler/srv_data.cpp] and [src/daemon/daemon.cpp])

    With AGIOS a data handler hands its request to the scheduling library and
    blocks on an eventual until the library calls back, before it does what
    [SrvData] describes.  The library is not part of the sources: whether it
    accepts a request is a parameter, and it may call back for an accepted
    request at any time. *)

From S2P Require Import Prelude Config.

Record timespec := MkTimespec { tv_sec : Z; tv_nsec : Z }.

(** The clock's value in nanoseconds, an [unsigned long long int]. *)
Definition generate_unique_id (ts : timespec) : Z := u64 (i64 (tv_sec ts * 1000000000 + tv_nsec ts)).

(** Where a handler is: before [agios_add_request], in [ABT_eventual_wait],
    after it, after [agios_release_request]. *)
Inductive gate_point := Submitting | Blocked | Unblocked (data : Z) | Passed.

Record gate := MkGate {
  g_at : gate_point;
  g_queued : bool;                 (* AGIOS holds the request *)
  g_eventual : option Z;           (* what the eventual was set to *)
  g_eventual_freed : bool;
  g_released : bool                (* agios_release_request was called *)
}.

Definition gate_init : gate := MkGate Submitting false None false false.

(** The callback sets the eventual that was passed as [info]. *)
Definition agios_eventual_callback (request_id : Z) (g : gate) : gate :=
  MkGate (g_at g) (g_queued g) (Some (i64 request_id)) (g_eventual_freed g) (g_released g).

Inductive actor := Handler | Agios.

Section gate.
Context (accepted : bool) (request_id : Z).

(** The handler's part.  A request that is not accepted is only logged. *)
Definition handler_step (g : gate) : option gate :=
  match g_at g with
  | Submitting => Some (MkGate Blocked accepted (g_eventual g) (g_eventual_freed g) (g_released g))
  | Blocked =>
      match g_eventual g with
      | Some data => Some (MkGate (Unblocked data) (g_queued g) (g_eventual g) (g_eventual_freed g) (g_released g))
      | None => None
      end
  | Unblocked data => Some (MkGate Passed (g_queued g) (g_eventual g) true true)
  | Passed => None
  end.

(** The library's part: it calls back once for a request it holds. *)
Definition agios_step (g : gate) : option gate :=
  if g_queued g then
    Some (agios_eventual_callback request_id
            (MkGate (g_at g) false (g_eventual g) (g_eventual_freed g) (g_released g)))
  else None.

Definition gate_step (a : actor) : gate -> option gate :=
  match a with Handler => handler_step | Agios => agios_step end.

Fixpoint run_gate (l : list actor) (g : gate) : option gate :=
  match l with
  | [] => Some g
  | a :: l' => g' ← gate_step a g; run_gate l' g'
  end.

(** [int* data] points at the eventual's [int64_t]: the handler sees its low
    32 bits. *)
Definition seen_request (data : Z) : Z := u64 (wraps 32 data).

(** The states that can be reached. *)
Inductive gate_ok : gate -> Prop :=
| ok_submit : gate_ok gate_init
| ok_blocked : gate_ok (MkGate Blocked accepted None false false)
| ok_called : accepted = true -> gate_ok (MkGate Blocked false (Some (i64 request_id)) false false)
| ok_unblocked : accepted = true ->
    gate_ok (MkGate (Unblocked (i64 request_id)) false (Some (i64 request_id)) false false)
| ok_passed : accepted = true -> gate_ok (MkGate Passed false (Some (i64 request_id)) true true).

Lemma gate_step_ok a g g' : gate_ok g -> gate_step a g = Some g' -> gate_ok g'.
Proof.
  intros H E. destruct a, H; cbn in E; try done; try (injection E as <-; by constructor).
  unfold agios_step in E. cbn in E. destruct accepted eqn:Ea; [|done]. injection E as <-. by constructor.
Qed.

Lemma run_gate_ok l : forall g g', gate_ok g -> run_gate l g = Some g' -> gate_ok g'.
Proof.
  induction l as [|a l IH]; intros g g' H E; cbn in E; [by injection E as <-|].
  destruct (gate_step a g) as [g1|] eqn:E1; [|done]. by eapply IH, E; eapply gate_step_ok.
Qed.
End gate.

(** [agios_initialize]: after a failed [agios_init] the bare [throw] has no
    exception to rethrow, which terminates the process. *)
Definition agios_initialize (agios_init_ok : bool) : res () := if agios_init_ok then Ok tt else Trap.

(** The block of [init_environment]: an exception is logged and rethrown. *)
Definition init_agios (agios_init_ok : bool) : res () :=
  match agios_initialize agios_init_ok with
  | Throw e => Throw e
  | r => r
  end.

(** ** Properties *)

Lemma run_gate_short accepted id l : forall g, gate_ok accepted id g -> is_Some (run_gate accepted id l g) ->
  (length l + match g_at g with Submitting => 0 | Blocked => 1 | Unblocked _ => 2 | Passed => 3 end +
   (if g_eventual g then 1 else 0) <= 4)%nat.
Proof.
  induction l as [|a l IH]; intros g H [g' E].
  - by destruct H; cbn; try destruct accepted; lia.
  - cbn in E. destruct (gate_step accepted id a g) as [g1|] eqn:E1; [|done].
    pose proof (gate_step_ok accepted id a g g1 H E1) as H1.
    specialize (IH g1 H1 ltac:(by exists g')). cbn [length].
    destruct a, H; cbn in E1; try done; try (injection E1 as <-; cbn in *; lia).
    unfold agios_step in E1. cbn in E1. destruct accepted; [|done]. injection E1 as <-. cbn in *. lia.
Qed.



(** Requests of different clock readings have different ids. *)
Lemma unique_ids (a b : timespec) :
  0 <= tv_nsec a < 1000000000 -> 0 <= tv_nsec b < 1000000000 -> 0 <= tv_sec a < 2 ^ 33 -> 0 <= tv_sec b < 2 ^ 33 ->
  generate_unique_id a = generate_unique_id b -> a = b.
Proof.
  destruct a as [s1 n1], b as [s2 n2]. cbn. intros H1 H2 H3 H4. unfold generate_unique_id. cbn.
  rewrite !wraps_small by (done || (unfold in_s; lia)). rewrite !wrapu_small by (unfold in_u; lia).
  intros E. f_equal; lia.
Qed.

(** The id a handler logs is not the request's once it needs 32 bits. *)
Example seen_request_truncated : seen_request (i64 (2 ^ 32 + 7)) = 7.
Proof. reflexivity. Qed.
