(* ===== verification/SrvMetadata.v ===== *)
(** * Metadata handlers of the daemon ([src/daemon/handler/srv_metadata.cpp])

    The operations of [src/daemon/ops/metadentry.cpp] and the RPC handlers
    on top of them.  A daemon's state is its metadata store and its local
    file system.  [input_ok] tells whether [margo_get_input] succeeded. *)

From S2P Require Import Prelude Config PathUtil Metadata Merge MetadataDB ChunkStorage SrvData.

(** The state of a daemon. *)
Record daemon (D F : Type) := MkDaemon {
  mdb : D;
  storage : F
}.
Arguments MkDaemon {D F} mdb storage.
Arguments mdb {D F} d.
Arguments storage {D F} d.

Definition on_mdb {D F A} (c : M D A) : M (daemon D F) A := fun s =>
  let '(r, d) := c (mdb s) in (r, MkDaemon d (storage s)).
Definition on_storage {D F A} (c : M F A) : M (daemon D F) A := fun s =>
  let '(r, f) := c (storage s) in (r, MkDaemon (mdb s) f).

(** [rpc_update_metadentry_in_t] without the path and the fields the handler
    ignores. *)
Record md_update := MkUpdate {
  up_nlink : Z; up_size : Z; up_blocks : Z; up_atime : Z; up_mtime : Z; up_ctime : Z;
  up_nlink_flag : bool; up_size_flag : bool; up_block_flag : bool;
  up_atime_flag : bool; up_mtime_flag : bool; up_ctime_flag : bool
}.

(** [flags] of a directory listing on the wire: the kinds, then the names. *)
Definition bool_byte (b : bool) : byte := if b then "001"%char else NUL.

(** [strcpy] of a name into its zeroed slot of [size + 1] characters. *)
Definition name_field (name : str) : list byte :=
  cstr name ++ replicate (S (length name) - length (cstr name)) NUL.

(** The buffer [rpc_srv_get_dirents] sends. *)
Definition serialize_dirents (entries : list (str * bool)) : list byte :=
  ((fun e => bool_byte e.2) <$> entries) ++ concat ((fun e => name_field e.1) <$> entries).

(** [out_size]. *)
Definition dirents_out_size (entries : list (str * bool)) : Z :=
  foldr (fun e n => Z.of_nat (length e.1) + n) 0 entries + Z.of_nat (length entries) * 2.

Section metadentry.
Context {D F : Type} {R : RocksDB D} {P : PosixFS F}.
Context (cfg : config) (junk : Metadata) (st : ChunkStorage).
Local Abbreviation DM := (M (daemon D F)).

(** ** [ops/metadentry.cpp] *)

Definition get_str (path : str) : DM str := on_mdb (db_get path).

Definition metadentry_get (path : str) : DM Metadata :=
  let* s := get_str path in m_lift (Metadata_parse cfg junk s).

Definition get_size (path : str) : DM Z := let* md := metadentry_get path in m_ret (size_ md).

Definition get_dirents (dir : str) : DM (list (str * bool)) := on_mdb (db_get_dirents cfg junk dir).

(** [time] is what [std::time] returned. *)
Definition create (time : Z) (path : str) (md : Metadata) : DM () :=
  let md := if use_atime cfg then set_atime time md else md in
  let md := if use_mtime cfg then set_mtime time md else md in
  let md := if use_ctime cfg then set_ctime time md else md in
  on_mdb (db_put path (serialize cfg md)).

Definition update (path : str) (md : Metadata) : DM () :=
  on_mdb (db_update path path (serialize cfg md)).

Definition update_size (path : str) (io_size offset : Z) (append : bool) : DM () :=
  on_mdb (db_increase_size path (u64 (io_size + offset)) append).

Definition remove_node (path : str) : DM () :=
  on_mdb (db_remove path) ;;; on_storage (destroy_chunk_space st path).

(** ** Handlers

    A reply is the error number with the other fields of the output. *)

Definition rpc_srv_create (input_ok : bool) (time : Z) (path : str) (mode : Z) : DM Z :=
  m_assert input_ok ;;;
  let* md := m_lift (Metadata_mode mode) in
  m_try (create time path md ;;; m_ret 0) (fun _ => m_ret (-1)).

Definition rpc_srv_stat (input_ok : bool) (path : str) : DM (Z * str) :=
  m_assert input_ok ;;;
  m_try (let* val := get_str path in m_ret (0, cstr val))
    (fun e => m_ret (match e with NotFoundException => ENOENT | _ => EBUSY end, [])).

Definition rpc_srv_decr_size (input_ok : bool) (path : str) (len : Z) : DM Z :=
  if negb input_ok then m_throw RuntimeError else
  m_try (on_mdb (db_decrease_size path len) ;;; m_ret 0) (fun _ => m_ret EIO).

Definition rpc_srv_remove (input_ok : bool) (path : str) : DM Z :=
  m_assert input_ok ;;;
  m_try (remove_node path ;;; m_ret 0)
    (fun e => m_ret (match e with NotFoundException => 0 | _ => EBUSY end)).

Definition apply_update (u : md_update) (md : Metadata) : Metadata :=
  let md := if up_block_flag u then set_blocks (up_blocks u) md else md in
  let md := if up_nlink_flag u then set_link_count (up_nlink u) md else md in
  let md := if up_size_flag u then set_size (u64 (up_size u)) md else md in
  let md := if up_atime_flag u then set_atime (up_atime u) md else md in
  let md := if up_mtime_flag u then set_mtime (up_mtime u) md else md in
  if up_ctime_flag u then set_ctime (up_ctime u) md else md.

Definition rpc_srv_update_metadentry (input_ok : bool) (path : str) (u : md_update) : DM Z :=
  m_assert input_ok ;;;
  m_try (let* md := metadentry_get path in update path (apply_update u md) ;;; m_ret 0) (fun _ => m_ret 1).

(** The reply is the error and [ret_size]. *)
Definition rpc_srv_update_metadentry_size (input_ok : bool) (path : str) (size offset : Z) (append : bool)
    : DM (Z * Z) :=
  m_assert input_ok ;;;
  m_try (update_size path size offset append ;;; m_ret (0, i64 (size + offset)))
    (fun e => m_ret (match e with NotFoundException => ENOENT | _ => EBUSY end, 0)).

Definition rpc_srv_get_metadentry_size (input_ok : bool) (path : str) : DM (Z * Z) :=
  m_assert input_ok ;;;
  m_try (let* n := get_size path in m_ret (0, i64 n))
    (fun e => m_ret (match e with NotFoundException => ENOENT | _ => EBUSY end, 0)).

(** The reply is the error, [dirents_size] and the client's buffer.  When
    the input cannot be read no reply is sent. *)
Definition rpc_srv_get_dirents (env : margo_env) (path : str) (client : list byte)
    : DM (option (Z * Z * list byte)) :=
  if negb (get_input_ok env) then m_ret None else
  let bulk_size := Z.of_nat (length client) in
  let* entries := get_dirents path in
  let dirents_size := Z.of_nat (length entries) in
  match entries with
  | [] => m_ret (Some (0, dirents_size, client))
  | _ =>
      let out_size := dirents_out_size entries in
      if bulk_size <? out_size then m_ret (Some (ENOBUFS, dirents_size, client))
      else if negb (bulk_create_ok env) then m_ret (Some (EBUSY, dirents_size, client))
      else
        match bulk_transfer env 0 (serialize_dirents entries) 0 client 0 out_size with
        | None => m_ret (Some (0, dirents_size, client))  (* out is zero-initialised *)
        | Some client' => m_ret (Some (0, dirents_size, client'))
        end
  end.

Definition rpc_srv_mk_symlink (time : Z) (path target : str) : DM Z :=
  m_try (let* md := m_lift (Metadata_link LINK_MODE target) in create time path md ;;; m_ret 0)
    (fun _ => m_ret (-1)).
End metadentry.

(** ** The abstract effect of the requests *)

Inductive md_request :=
| ReqCreate (time : Z) (path : str) (mode : Z)
| ReqSymlink (time : Z) (path target : str)
| ReqRemove (path : str)
| ReqUpdate (path : str) (u : md_update)
| ReqUpdateSize (path : str) (size offset : Z) (append : bool)
| ReqDecrSize (path : str) (len : Z).

(** The entry [create] stores for a fresh [Metadata]. *)
Definition stamped (cfg : config) (time : Z) (md : Metadata) : Metadata :=
  let md := if use_atime cfg then set_atime time md else md in
  let md := if use_mtime cfg then set_mtime time md else md in
  if use_ctime cfg then set_ctime time md else md.

Definition fresh_md (mode : Z) (target : str) : Metadata := MkMetadata 0 0 0 mode 0 0 0 target.

Definition handle_md {D F} `{R : RocksDB D} `{P : PosixFS F} (cfg : config) (junk : Metadata)
    (st : ChunkStorage) (req : md_request) : M (daemon D F) Z :=
  match req with
  | ReqCreate time path mode => rpc_srv_create cfg true time path mode
  | ReqSymlink time path target => rpc_srv_mk_symlink cfg time path target
  | ReqRemove path => rpc_srv_remove st true path
  | ReqUpdate path u => rpc_srv_update_metadentry cfg junk true path u
  | ReqUpdateSize path size offset append =>
      let* r := rpc_srv_update_metadentry_size true path size offset append in m_ret r.1
  | ReqDecrSize path len => rpc_srv_decr_size true path len
  end.

(** The change of the store's map that a request asks for. *)
Definition request_op (cfg : config) (junk : Metadata) (m : gmap str Metadata) (req : md_request) : db_op :=
  match req with
  | ReqCreate time path mode => OpCreate path (stamped cfg time (fresh_md mode []))
  | ReqSymlink time path target => OpCreate path (stamped cfg time (fresh_md LINK_MODE target))
  | ReqRemove path => OpRemove path
  | ReqUpdate path u =>
      OpUpdate path (apply_update u (restrict cfg junk (default junk (m !! path))))
  | ReqUpdateSize path size offset append => OpIncrease path (u64 (size + offset)) append
  | ReqDecrSize path len => OpDecrease path len
  end.

(** The fields of a request have their machine ranges. *)
Definition request_pre (cfg : config) (junk : Metadata) (m : gmap str Metadata) (req : md_request) : Prop :=
  match req with
  | ReqCreate time path mode => in_s 64 time /\ in_u 32 mode
  | ReqSymlink time path target => in_s 64 time /\ NUL ∉ target
  | _ => op_pre (request_op cfg junk m req) m
  end.

Lemma stamped_wf cfg time mode target :
  in_s 64 time -> in_u 32 mode -> NUL ∉ target -> target = [] \/ S_ISLNK mode = true ->
  md_wf (stamped cfg time (fresh_md mode target)).
Proof.
  intros Ht Hm Hn Hl. unfold stamped, fresh_md.
  destruct (use_atime cfg), (use_mtime cfg), (use_ctime cfg); split; simpl; try done;
    try (unfold in_s, in_u; simpl; lia).
Qed.

Section refinement.
Context {D F : Type} {R : RocksDB D} {P : PosixFS F} (cfg : config) (junk : Metadata) (st : ChunkStorage).
Context {L : RocksDBLaws R (FullMergeV2 cfg junk)}.
Local Abbreviation state := (daemon D F).

Lemma on_mdb_ok {A} (c : M D A) (s s' : state) a :
  on_mdb c s = (Ok a, s') -> c (mdb s) = (Ok a, mdb s') /\ storage s' = storage s.
Proof. unfold on_mdb. destruct (c (mdb s)) as [r d]. by intros [= -> <-]. Qed.

Lemma on_mdb_run {A} (c : M D A) (s : state) r d :
  c (mdb s) = (r, d) -> on_mdb c s = (r, MkDaemon d (storage s)).
Proof. unfold on_mdb. by intros ->. Qed.

(** Success of [try { c; err = 0 } catch { err = e }] with [e] not 0. *)
Lemma try_ok (c : M state ()) (h : exn -> Z) (s s' : state) :
  (forall e, h e <> 0) ->
  m_try (c ;;; m_ret 0) (fun e => m_ret (h e)) s = (Ok 0, s') -> c s = (Ok tt, s').
Proof.
  intros Hh. unfold m_try, m_bind. destruct (c s) as [[[]|e|] s1]; cbn; [by intros [= ->]| |done].
  intros [= E _]. by apply Hh in E.
Qed.

Lemma db_get_ok k d d' v m :
  db_rel cfg d m -> db_get k d = (Ok v, d') ->
  exists md, m !! k = Some md /\ v = serialize cfg md /\ md_wf md.
Proof using L.
  intros Hr. unfold db_get. intros [= E _]. pose proof (Hr k) as Hk.
  destruct (m !! k) as [md|].
  - exists md. split; [done|]. split; [|by eapply entry_of_wf].
    destruct (Get_present k d (entry_of_present _ _ _ Hk)) as [[w Ew]|(r & Hres & Ew)]; rewrite Ew in E; [done|].
    rewrite (entry_of_resolved cfg junk md _ r Hk Hres) in E. by injection E as <-.
  - apply entry_of_none_inv in Hk.
    destruct (Get_absent_returns k d Hk) as (s & w & Ew).
    pose proof (Get_absent k d s w Hk Ew). rewrite Ew in E. by destruct s.
Qed.

Local Abbreviation sim req s s' m :=
  (db_rel cfg (mdb s) m -> request_pre cfg junk m req -> handle_md cfg junk st req s = (Ok 0, s') ->
   db_rel cfg (mdb s') (abs_op (request_op cfg junk m req) m)).

Lemma create_handler_sim time path mode (s s' : state) m : sim (ReqCreate time path mode) s s' m.
Proof using L.
  intros Hr [Ht Hm]. cbn [handle_md request_op]. unfold rpc_srv_create.
  rewrite (m_bind_ok _ _ s tt s) by done.
  destruct (S_ISDIR mode || S_ISREG mode) eqn:Hd;
    [|unfold m_bind, m_lift, Metadata_mode; by rewrite Hd].
  rewrite (m_bind_ok _ _ s (fresh_md mode []) s) by (unfold m_lift, Metadata_mode; by rewrite Hd).
  intros E. apply (try_ok _ (fun _ => -1)) in E; [|done]. apply on_mdb_ok in E as [E _].
  apply (run_op_sim cfg junk (OpCreate path (stamped cfg time (fresh_md mode []))) (mdb s)); [done| |done].
  apply stamped_wf; [done|done|set_solver|by left].
Qed.

Lemma symlink_handler_sim time path target (s s' : state) m : sim (ReqSymlink time path target) s s' m.
Proof using L.
  intros Hr [Ht Hn]. cbn [handle_md request_op]. unfold rpc_srv_mk_symlink, m_try, m_bind at 1, m_lift.
  destruct (Metadata_link LINK_MODE target) as [md|e|] eqn:El; [|done|done].
  assert (md = fresh_md LINK_MODE target) as ->.
  { clear -El. unfold Metadata_link, assert_ in El. unfold fresh_md. repeat case_match; congruence. }
  intros E. apply (try_ok (create cfg time path (fresh_md LINK_MODE target)) (fun _ => -1)) in E; [|done].
  apply on_mdb_ok in E as [E _].
  apply (run_op_sim cfg junk (OpCreate path (stamped cfg time (fresh_md LINK_MODE target))) (mdb s)); [done| |done].
  apply stamped_wf; [done|by vm_compute|done|by right].
Qed.

Lemma remove_handler_sim path (s s' : state) m : sim (ReqRemove path) s s' m.
Proof using L.
  intros Hr _. cbn [handle_md request_op].
  unfold rpc_srv_remove, m_bind at 1, m_assert, m_ret at 1, m_try, remove_node, m_bind.
  destruct (on_mdb (db_remove path) s) as [[[]|e|] s1] eqn:E1; [| |done].
  - apply on_mdb_ok in E1 as [E1 _]. unfold on_storage.
    destruct (destroy_chunk_space st path (storage s1)) as [[[]|e|] f1]; [| |done].
    + intros [= <-]. by apply (run_op_sim cfg junk (OpRemove path) (mdb s)).
    + destruct e; intros [= <-]; by apply (run_op_sim cfg junk (OpRemove path) (mdb s)).
  - destruct e; cbn; try done. intros [= <-]. unfold on_mdb, db_remove, check_write in E1.
    destruct (Delete path (mdb s)) as [[] d1] eqn:Ed; try done. injection E1 as <-.
    pose proof (Delete_not_found _ _ _ Ed) as Hno. pose proof (Hr path) as Hk. rewrite Hno in Hk.
    apply (db_rel_ext cfg (mdb s)); [by eapply Delete_fail|]. cbn. rewrite delete_id; [done|].
    by inversion Hk.
Qed.

Lemma update_handler_sim path u (s s' : state) m : sim (ReqUpdate path u) s s' m.
Proof using L.
  intros Hr Hp. cbn [handle_md request_op request_pre] in *.
  unfold rpc_srv_update_metadentry, m_bind at 1, m_assert, m_ret at 1. intros E.
  unfold m_try, m_bind at 1 in E.
  destruct (metadentry_get cfg junk path s) as [[md|e|] s1] eqn:E1; [|done|done].
  unfold metadentry_get, m_bind, get_str in E1.
  destruct (on_mdb (db_get path) s) as [[v|e|] s2] eqn:E2; [|done|done].
  apply on_mdb_ok in E2 as [E2 _]. pose proof E2 as E2'. unfold db_get in E2'. injection E2' as _ Ed.
  apply (db_get_ok path (mdb s) _ v m Hr) in E2 as (md0 & Em & -> & W).
  unfold m_lift in E1. rewrite parse_serialize in E1 by done. injection E1 as <- <-.
  unfold m_bind in E. rewrite Em. cbn.
  destruct (update cfg path _ s2) as [[[]|e|] s3] eqn:E3; [|done|done].
  injection E as <-. apply on_mdb_ok in E3 as [E3 _].
  apply (run_op_sim cfg junk (OpUpdate path (apply_update u (restrict cfg junk md0))) (mdb s2)); [| |done].
  - by rewrite <- Ed.
  - rewrite Em in Hp. exact Hp.
Qed.

(** A request answered without error changes the map as its operation
    says. *)
Lemma handle_md_sim req (s s' : state) m : sim req s s' m.
Proof using L.
  destruct req as [time path mode|time path target|path|path u|path size offset append|path len].
  - apply create_handler_sim.
  - apply symlink_handler_sim.
  - apply remove_handler_sim.
  - apply update_handler_sim.
  - intros Hr Hp. cbn [handle_md request_op request_pre] in *.
    unfold rpc_srv_update_metadentry_size, m_bind at 1, m_bind at 1, m_assert, m_ret at 1, m_try, m_bind at 1.
    destruct (update_size path size offset append s) as [[[]|e|] s1] eqn:E1; [| |done].
    + intros [= <-]. apply on_mdb_ok in E1 as [E1 _].
      by apply (run_op_sim cfg junk (OpIncrease path (u64 (size + offset)) append) (mdb s)).
    + destruct e; done.
  - intros Hr Hp. cbn [handle_md request_op request_pre] in *.
    unfold rpc_srv_decr_size. cbn [negb]. intros E.
    apply (try_ok _ (fun _ => EIO)) in E; [|done]. apply on_mdb_ok in E as [E _].
    by apply (run_op_sim cfg junk (OpDecrease path len) (mdb s)).
Qed.

(** Reading an entry changes nothing. *)
Lemma metadentry_get_run path (s : state) m : db_rel cfg (mdb s) m ->
  exists r, metadentry_get cfg junk path s = (r, s) /\
    forall md, r = Ok md -> exists md0, m !! path = Some md0 /\ md = restrict cfg junk md0.
Proof using L.
  intros Hr. unfold metadentry_get, get_str, on_mdb, m_bind.
  destruct (db_get path (mdb s)) as [r1 d1] eqn:E1.
  assert (d1 = mdb s) as -> by (unfold db_get in E1; by injection E1 as _ <-).
  replace (MkDaemon (mdb s) (storage s)) with s by (by destruct s).
  destruct r1 as [v|e|]; [|by eexists..].
  apply (db_get_ok path (mdb s) _ v m Hr) in E1 as (md0 & Em & -> & W).
  unfold m_lift. rewrite parse_serialize by done. eexists. split; [done|]. intros md [= <-]. eauto.
Qed.

(** The store after a handler: what its one change left. *)
Local Abbreviation outcome op s s' m :=
  (db_rel cfg (mdb s') m \/ db_rel cfg (mdb s') (abs_op op m)) (only parsing).

Lemma on_mdb_any op (s s' : state) r m :
  db_rel cfg (mdb s) m -> op_pre op m -> on_mdb (run_op cfg op) s = (r, s') -> outcome op s s' m.
Proof using L.
  intros Hr Hp. unfold on_mdb. destruct (run_op cfg op (mdb s)) as [r1 d1] eqn:E. intros [= _ <-].
  by apply (run_op_any cfg junk op (mdb s) r1).
Qed.

(** A handler of the form [try { change } catch { .. }]. *)
Lemma try_any {A} op (k : M state A) (h : exn -> M state A) (s s' : state) r m :
  db_rel cfg (mdb s) m -> op_pre op m -> preserves mdb k -> (forall e, preserves mdb (h e)) ->
  m_try (on_mdb (run_op cfg op) ;;; k) h s = (r, s') -> outcome op s s' m.
Proof using L.
  intros Hr Hp Hk Hh. unfold m_try, m_bind. destruct (on_mdb (run_op cfg op) s) as [r1 s1] eqn:E1.
  apply (on_mdb_any op s s1 r1 m Hr Hp) in E1.
  destruct r1 as [[]|e|]; [|intros E; apply Hh in E; by rewrite E|by intros [= _ <-]].
  destruct (k s1) as [[a|e|] s2] eqn:E2; apply Hk in E2; [intros [= _ <-]|intros E; apply Hh in E; rewrite E|intros [= _ <-]];
    by rewrite E2.
Qed.

Lemma handle_md_any req (s s' : state) r m :
  db_rel cfg (mdb s) m -> request_pre cfg junk m req -> handle_md cfg junk st req s = (r, s') ->
  outcome (request_op cfg junk m req) s s' m.
Proof using L.
  intros Hr Hp E.
  destruct req as [time path mode|time path target|path|path u|path size offset append|path len];
    cbn [handle_md request_op request_pre] in *.
  - destruct Hp as [Ht Hm]. unfold rpc_srv_create in E. unfold m_bind at 1, m_assert, m_ret at 1 in E.
    unfold m_bind at 1, m_lift, Metadata_mode in E. destruct (S_ISDIR mode || S_ISREG mode); [|injection E as _ <-; by left].
    eapply (try_any (OpCreate path (stamped cfg time (fresh_md mode [])))); [done| | | |exact E]; [|preserve..].
    apply stamped_wf; [done|done|set_solver|by left].
  - destruct Hp as [Ht Hn]. unfold rpc_srv_mk_symlink, m_try, m_bind at 1, m_lift in E.
    destruct (Metadata_link LINK_MODE target) as [md|e|] eqn:El; [|injection E as _ <-; by left..].
    assert (md = fresh_md LINK_MODE target) as ->.
    { clear -El. unfold Metadata_link, assert_ in El. unfold fresh_md. repeat case_match; congruence. }
    eapply (try_any (OpCreate path (stamped cfg time (fresh_md LINK_MODE target))) _ (fun _ => m_ret (-1)));
      [done| | | |exact E]; [|preserve..].
    apply stamped_wf; [done|by vm_compute|done|by right].
  - unfold rpc_srv_remove in E. unfold m_bind at 1, m_assert, m_ret at 1, m_try, remove_node in E.
    eapply (try_any (OpRemove path) (on_storage (destroy_chunk_space st path) ;;; m_ret 0));
      [done|done| | |]; [| |].
    3:{ unfold m_try. etransitivity; [|exact E]. unfold m_bind.
        cbn [run_op]. by destruct (on_mdb (db_remove path) s) as [[[]|e|] s1]. }
    + apply preserves_bind; [|preserve]. intros s1 r1 s2. unfold on_storage.
      destruct (destroy_chunk_space st path (storage s1)). by intros [= _ <-].
    + intros []; preserve.
  - unfold rpc_srv_update_metadentry in E. unfold m_bind at 1, m_assert, m_ret at 1, m_try, m_bind at 1 in E.
    destruct (metadentry_get_run path s m Hr) as (r1 & E1 & Hok). rewrite E1 in E.
    destruct r1 as [md|e|]; [|injection E as _ <-; by left..].
    destruct (Hok md eq_refl) as (md0 & Em & ->). rewrite Em in *. cbn [default from_option id] in *.
    eapply (try_any (OpUpdate path (apply_update u (restrict cfg junk md0))) _ (fun _ => m_ret 1));
      [done|done| | |exact E]; preserve.
  - unfold rpc_srv_update_metadentry_size in E. unfold m_bind at 1 in E. unfold m_bind at 1, m_assert, m_ret at 1 in E.
    destruct (m_try _ _ s) as [r1 s1] eqn:E1.
    assert (s1 = s') as -> by (destruct r1; by injection E as _ <-).
    eapply (try_any (OpIncrease path (u64 (size + offset)) append)); [done|done| | |exact E1]; [preserve|].
    intros []; preserve.
  - unfold rpc_srv_decr_size in E. cbn [negb] in E.
    eapply (try_any (OpDecrease path len) _ (fun _ => m_ret EIO)); [done|done| | |exact E]; preserve.
Qed.

(** The store answers reads: no I/O error. *)
Definition reads_ok (d : D) : Prop := forall k v, Get k d <> Ok (RdbError, v).

Lemma serialize_cstr md : md_wf md -> cstr (serialize cfg md) = serialize cfg md.
Proof using. intros W. apply cstr_id. destruct W. apply serialize_no_nul; try done; unfold in_u in *; lia. Qed.

Lemma stat_handler_sim path (s : state) m :
  db_rel cfg (mdb s) m -> reads_ok (mdb s) ->
  rpc_srv_stat true path s =
    (Ok (match m !! path with Some md => (0, serialize cfg md) | None => (ENOENT, []) end), s).
Proof using L.
  intros Hr Hio. unfold rpc_srv_stat, m_bind, m_assert, m_ret, m_try, get_str, on_mdb.
  rewrite (db_get_sim cfg junk path (mdb s) m Hr) by apply Hio.
  pose proof (Hr path) as Hk. destruct s as [d f]. destruct (m !! path) as [md|]; [|done]. cbn -[serialize cstr].
  rewrite serialize_cstr; [done|]. by eapply entry_of_wf.
Qed.

Lemma get_size_handler_sim path (s : state) m :
  db_rel cfg (mdb s) m -> reads_ok (mdb s) ->
  rpc_srv_get_metadentry_size cfg junk true path s =
    (Ok (match m !! path with Some md => (0, size_ md) | None => (ENOENT, 0) end), s).
Proof using L.
  intros Hr Hio. unfold rpc_srv_get_metadentry_size, m_bind, m_assert, m_ret, m_try, get_size, metadentry_get, get_str, m_bind, on_mdb.
  rewrite (db_get_sim cfg junk path (mdb s) m Hr) by apply Hio.
  pose proof (Hr path) as Hk. destruct s as [d f]. destruct (m !! path) as [md|]; [|done].
  apply entry_of_wf in Hk. unfold m_lift. rewrite parse_serialize by done. cbn -[wraps].
  destruct Hk. rewrite wraps_small by int_solve. done.
Qed.
End refinement.

(** ** Directory listings on the wire *)

Lemma length_name_field name : length (name_field name) = S (length name).
Proof.
  unfold name_field. rewrite length_app, length_replicate.
  assert (length (cstr name) <= length name)%nat; [|lia].
  induction name as [|c name IH]; simpl; [lia|]. case_decide; simpl; lia.
Qed.

Lemma length_serialize_dirents entries :
  Z.of_nat (length (serialize_dirents entries)) = dirents_out_size entries.
Proof.
  unfold serialize_dirents, dirents_out_size. rewrite length_app, length_fmap.
  induction entries as [|e entries IH]; [done|]. csimpl. rewrite length_app, length_name_field.
  simpl length in *. lia.
Qed.

(** ** Properties *)


Definition example_daemon : daemon (gmap str db_entry) memfs := MkDaemon example_db empty_fs.


(** The read handlers report the abstract store: [stat] answers with
    the entry's text and [get_metadentry_size] with its size, [ENOENT] when
    there is no entry; the daemon's state does not change. *)
Theorem metadata_reads_report_map {D F : Type} (R : RocksDB D) (P : PosixFS F) (cfg : config)
    (junk : Metadata) (L : RocksDBLaws R (FullMergeV2 cfg junk))
    (path : str) (s : daemon D F) (m : gmap str Metadata) :
  db_rel cfg (mdb s) m -> reads_ok (mdb s) ->
  rpc_srv_stat true path s =
    (Ok (match m !! path with Some md => (0, serialize cfg md) | None => (ENOENT, []) end), s) /\
  rpc_srv_get_metadentry_size cfg junk true path s =
    (Ok (match m !! path with Some md => (0, size_ md) | None => (ENOENT, 0) end), s).
Proof.
  intros Hr Hio. split; [by apply (stat_handler_sim cfg junk)|by apply get_size_handler_sim].
Qed.

Lemma metadata_reads_report_map_witness :
  rpc_srv_stat (R := MemDB (FullMergeV2 default_config example_md)) true (s_ "/d/x") example_daemon =
    (Ok (0, serialize default_config example_md), example_daemon).
Proof.
  refine (proj1 (metadata_reads_report_map (MemDB (FullMergeV2 default_config example_md)) MemFS
    default_config example_md (MemDB_laws _) (s_ "/d/x") example_daemon {[ s_ "/d/x" := example_md ]}
    example_db_rel _)).
  intros k v. simpl. case_decide; [done|]. by destruct (mem_resolve _ _).
Defined.

(** When the push of a directory listing to the client fails, the
    handler still replies without error and announces all entries, although
    the client's buffer holds none of them. *)
Theorem dirents_push_failure_unreported {D F : Type} (R : RocksDB D) (cfg : config) (junk : Metadata)
    (env : margo_env) (path : str) (client : list byte) (s s1 : daemon D F) (entries : list (str * bool)) :
  get_dirents cfg junk path s = (Ok entries, s1) ->
  dirents_out_size entries <= Z.of_nat (length client) ->
  get_input_ok env = true -> bulk_create_ok env = true -> transfer_fails env 0 ->
  rpc_srv_get_dirents cfg junk env path client s =
    (Ok (Some (0, Z.of_nat (length entries), client)), s1).
Proof.
  intros E Hsz E1 E2 Hf. unfold rpc_srv_get_dirents, m_bind. rewrite E1, E2. cbn [negb]. rewrite E.
  destruct entries as [|e entries]; [done|]. rewrite (proj2 (Z.ltb_ge _ _)) by done. by rewrite Hf.
Qed.

Definition no_push_env : margo_env :=
  MkMargoEnv true true true (fun _ _ _ _ _ _ => None) (fun _ => true) (fun _ => true) (fun _ => true).

Lemma dirents_push_failure_unreported_witness :
  rpc_srv_get_dirents (R := MemDB (FullMergeV2 default_config example_md)) default_config example_md
    no_push_env (s_ "/d") (s_ "........") example_daemon = (Ok (Some (0, 1, s_ "........")), example_daemon).
Proof.
  apply (dirents_push_failure_unreported (MemDB (FullMergeV2 default_config example_md))
    default_config example_md no_push_env (s_ "/d") (s_ "........") example_daemon example_daemon
    [(s_ "x", false)]).
  - by vm_compute.
  - by vm_compute.
  - reflexivity.
  - reflexivity.
  - done.
Defined.
