(* ===== verification/Rpc.v ===== *)
(** * Remote procedure calls between clients and daemons

    The request types of [include/client/rpc/rpc_types.hpp] (the client's
    view) and [include/global/rpc/rpc_types.hpp] (the daemon's view), and
    the network as the interface [Network]: Hermes and Mercury are not part
    of the sources.  A call fails when posting the request or getting its
    output throws. *)

From S2P Require Import Prelude Config Metadata ChunkStorage SrvData SrvMetadata.

(** A request with the type of its output.  The bulk handle of a request is
    the number of a region of memory the client exposed. *)
Inductive rpc : Type -> Type :=
| RpcCreate (path : str) (mode : Z) : rpc Z
| RpcStat (path : str) : rpc (Z * str)
| RpcRemove (path : str) : rpc Z
| RpcDecrSize (path : str) (length : Z) : rpc Z
| RpcUpdateMetadentry (path : str) (u : md_update) : rpc Z
| RpcUpdateMetadentrySize (path : str) (size offset : Z) (append : bool) : rpc (Z * Z)
| RpcGetMetadentrySize (path : str) : rpc (Z * Z)
| RpcGetDirents (path : str) (bulk : nat) : rpc (Z * Z)
| RpcMkSymlink (path target : str) : rpc Z
| RpcWriteData (in_ : rpc_data_in) (bulk : nat) : rpc rpc_data_out
| RpcReadData (in_ : rpc_data_in) (bulk : nat) : rpc rpc_data_out
| RpcTruncData (path : str) (length : Z) : rpc Z
| RpcChunkStat : rpc ChunkStat.

(** A posted request: [get] waits for its output, [None] is an exception. *)
Definition handle (N R : Type) : Type := N -> option R * N.

Class Network (N : Type) := {
  expose : list byte -> N -> option nat * N;
  region : nat -> N -> list byte;
  post {R} : Z -> rpc R -> N -> option (handle N R) * N
}.

Section calls.
Context {N : Type} {W : Network N}.

Definition net_expose (buf : list byte) : M N (option nat) := fun n =>
  let '(r, n') := expose buf n in (Ok r, n').

Definition net_post {R} (host : Z) (q : rpc R) : M N (option (handle N R)) := fun n =>
  let '(r, n') := post host q n in (Ok r, n').

Definition net_get {R} (h : handle N R) : M N (option R) := fun n =>
  let '(r, n') := h n in (Ok r, n').

(** [post(..).get().at(0)] in one [try] block. *)
Definition call {R} (host : Z) (q : rpc R) : M N (option R) :=
  let* h := net_post host q in
  match h with None => m_ret None | Some h => net_get h end.

(** [CTX->hosts().at(host)]. *)
Definition host_at (hosts_size host : Z) : M N Z :=
  if (0 <=? host) && (host <? hosts_size) then m_ret host else m_throw OutOfRange.
End calls.
