(* ===== verification/ForwardData.v ===== *)
(** * Data requests of the client ([src/client/rpc/forward_data.cpp])

    [forward_write] and [forward_read] group the chunks of a byte range by
    target host, send one request per target and add up the replies. *)

From S2P Require Import Prelude Config ChunkCalc Distributor ChunkStorage ChunkPlan SrvData Rpc.

(** The grouping loop's variables: [targets] and [target_chnks], and the
    targets of the first and last chunk. *)
Record grouping := MkGrouping {
  targets : list Z;
  target_chnks : gmap Z (list Z);
  chnk_start_target : Z;
  chnk_end_target : Z
}.

Section grouping.
Context (d : Distributor) (path : str) (chnk_start chnk_end : Z).

(** The body of the [for] loop. *)
Definition group_step (g : grouping) (chnk_id : Z) : grouping :=
  let target := locate_data d path chnk_id in
  MkGrouping
    (match target_chnks g !! target with
     | None => targets g ++ [target]
     | Some _ => targets g
     end)
    (match target_chnks g !! target with
     | None => <[target := [chnk_id]]> (target_chnks g)
     | Some l => <[target := l ++ [chnk_id]]> (target_chnks g)
     end)
    (if chnk_id =? chnk_start then target else chnk_start_target g)
    (if chnk_id =? chnk_end then target else chnk_end_target g).

Definition group_chunks : grouping :=
  foldl group_step (MkGrouping [] ∅ 0 0) (seqZ chnk_start (chnk_end - chnk_start + 1)).
End grouping.

Section forward_data.
Context {N : Type} {W : Network N}.
Context (cfg : config) (d : Distributor) (hosts_size : Z).

(** [total_chunk_size] of a target for [size] bytes at [offset]. *)
Definition total_chunk_size (g : grouping) (offset size target : Z) : Z :=
  let chnks := default [] (target_chnks g !! target) in
  let t := u64 (Z.of_nat (length chnks) * chunksize cfg) in
  let t := if target =? chnk_start_target g then u64 (t - chnk_lpad offset (chunksize cfg)) else t in
  if target =? chnk_end_target g
  then u64 (t - chnk_rpad (i64 (u64 (offset + size))) (chunksize cfg)) else t.

(** The [input] of a target. *)
Definition data_input (path : str) (g : grouping) (chnk_start chnk_end offset size target : Z)
    : rpc_data_in :=
  MkDataIn path (chnk_lpad offset (chunksize cfg)) target hosts_size
    (Z.of_nat (length (default [] (target_chnks g !! target)))) chnk_start chnk_end
    (total_chunk_size g offset size target).

(** Posting the requests: [None] when one could not be sent. *)
Fixpoint post_all (mk : Z -> rpc rpc_data_out) (ts : list Z) : M N (option (list (handle N rpc_data_out))) :=
  match ts with
  | [] => m_ret (Some [])
  | t :: ts' =>
      let* endp := host_at hosts_size t in
      let* h := net_post endp (mk t) in
      match h with
      | None => m_ret None
      | Some h =>
          let* hs := post_all mk ts' in
          m_ret (match hs with None => None | Some hs => Some (h :: hs) end)
      end
  end.

(** The loop over the handles; all outputs are fetched. *)
Fixpoint wait_all (hs : list (handle N rpc_data_out)) (error : bool) (errno : option Z) (out_size : Z)
    : M N result :=
  match hs with
  | [] => m_ret (if error then -1 else out_size, errno)
  | h :: hs' =>
      let* out := net_get h in
      match out with
      | None => wait_all hs' true (Some EIO) out_size
      | Some out =>
          let failed := negb (out_err out =? 0) in
          wait_all hs' (error || failed) (if failed then Some (out_err out) else errno)
            (i64 (out_size + out_io_size out))
      end
  end.

(** [buf] is the caller's memory. *)
Definition forward_write (path : str) (buf : list byte) (append_flag : bool)
    (in_offset write_size updated_metadentry_size : Z) : M N result :=
  m_assert (0 <? write_size) ;;;
  let offset := if append_flag then in_offset else i64 (u64 (updated_metadentry_size - write_size)) in
  let chnk_start := chnk_id_for_offset offset (chunksize cfg) in
  let chnk_end := chnk_id_for_offset (i64 (u64 (u64 (offset + write_size) - 1))) (chunksize cfg) in
  let g := group_chunks d path chnk_start chnk_end in
  let* mem := net_expose (take (Z.to_nat write_size) buf) in
  match mem with
  | None => m_ret (fail_with EBUSY)
  | Some mem =>
      let* hs := post_all (fun t =>
        RpcWriteData (data_input path g chnk_start chnk_end offset write_size t) mem) (targets g) in
      match hs with
      | None => m_ret (fail_with EBUSY)
      | Some hs => wait_all hs false None 0
      end
  end.

(** The second component is the caller's buffer afterwards. *)
Definition forward_read (path : str) (buf : list byte) (offset read_size : Z)
    : M N (result * list byte) :=
  let chnk_start := chnk_id_for_offset offset (chunksize cfg) in
  let chnk_end := chnk_id_for_offset (i64 (u64 (u64 (offset + read_size) - 1))) (chunksize cfg) in
  let g := group_chunks d path chnk_start chnk_end in
  let* mem := net_expose (take (Z.to_nat read_size) buf) in
  match mem with
  | None => m_ret (fail_with EBUSY, buf)
  | Some mem =>
      let* hs := post_all (fun t =>
        RpcReadData (data_input path g chnk_start chnk_end offset read_size t) mem) (targets g) in
      let* r := match hs with
                | None => m_ret (fail_with EBUSY)
                | Some hs => wait_all hs false None 0
                end in
      let* out := m_gets (region mem) in
      m_ret (r, out ++ drop (Z.to_nat read_size) buf)
  end.

(** [forward_truncate]: the hosts of the chunks from the new end on.  The
    set of hosts is iterated in no particular order; [remove_dups] picks
    one. *)
Definition truncate_hosts (path : str) (current_size new_size : Z) : list Z :=
  let chunk_start := u32 (chnk_id_for_offset (i64 new_size) (chunksize cfg)) in
  let chunk_end := u32 (chnk_id_for_offset (i64 (u64 (current_size - new_size - 1))) (chunksize cfg)) in
  remove_dups (locate_data d path <$> seqZ chunk_start (chunk_end - chunk_start + 1)).

Fixpoint post_trunc (path : str) (new_size : Z) (hosts : list Z) : M N (option (list (handle N Z))) :=
  match hosts with
  | [] => m_ret (Some [])
  | h :: hosts' =>
      let* endp := host_at hosts_size h in
      let* hd := net_post endp (RpcTruncData path new_size) in
      match hd with
      | None => m_ret None
      | Some hd =>
          let* hs := post_trunc path new_size hosts' in
          m_ret (match hs with None => None | Some hs => Some (hd :: hs) end)
      end
  end.

Fixpoint wait_trunc (hs : list (handle N Z)) (error : bool) : M N result :=
  match hs with
  | [] => m_ret (if error then (-1, Some EIO) else (0, None))
  | h :: hs' =>
      let* out := net_get h in
      wait_trunc hs' (error || match out with Some err => negb (err =? 0) | None => true end)
  end.

Definition forward_truncate (path : str) (current_size new_size : Z) : M N result :=
  m_assert (new_size <? current_size) ;;;
  let* hs := post_trunc path new_size (truncate_hosts path current_size new_size) in
  match hs with
  | None => m_ret (fail_with EIO)
  | Some hs => wait_trunc hs false
  end.

(** [forward_get_chunk_stat]. *)
Fixpoint post_stats (hosts : list Z) : M N (list (handle N ChunkStat)) :=
  match hosts with
  | [] => m_ret []
  | h :: hosts' =>
      let* hd := net_post h RpcChunkStat in
      match hd with
      | None => m_throw RuntimeError
      | Some hd => let* hs := post_stats hosts' in m_ret (hd :: hs)
      end
  end.

Fixpoint wait_stats (hs : list (handle N ChunkStat)) (total free : Z) : M N ChunkStat :=
  match hs with
  | [] => m_ret (MkChunkStat (chunksize cfg) total free)
  | h :: hs' =>
      let* out := net_get h in
      match out with
      | None => m_throw RuntimeError
      | Some out =>
          m_assert (chunk_size out =? chunksize cfg) ;;;
          wait_stats hs' (u64 (total + chunk_total out)) (u64 (free + chunk_free out))
      end
  end.

Definition forward_get_chunk_stat : M N ChunkStat :=
  let* hs := post_stats (all_hosts hosts_size) in wait_stats hs 0 0.
End forward_data.

(** ** The grouping is a partition by target *)

Section grouping_facts.
Context (d : Distributor) (path : str) (chnk_start chnk_end : Z).
Local Abbreviation at_target t := (fun id => locate_data d path id = t).

(** What the loop has computed for the ids [l]. *)
Record group_inv (l : list Z) (g : grouping) : Prop := {
  gi_chnks t : target_chnks g !! t =
    match filter (at_target t) l with [] => None | l' => Some l' end;
  gi_targets t : t ∈ targets g <-> exists id, id ∈ l /\ locate_data d path id = t;
  gi_nodup : NoDup (targets g);
  gi_start : chnk_start ∈ l -> chnk_start_target g = locate_data d path chnk_start;
  gi_end : chnk_end ∈ l -> chnk_end_target g = locate_data d path chnk_end
}.

Lemma group_chnks_elem l g t : group_inv l g ->
  target_chnks g !! t = None <-> t ∉ targets g.
Proof.
  intros I. rewrite (gi_chnks _ _ I), (gi_targets _ _ I). split.
  - intros H (id & Hid & Ht). assert (id ∈ filter (at_target t) l) as Hin by (apply list_elem_of_filter; split; done).
    destruct (filter _ l); [|done]. by apply not_elem_of_nil in Hin.
  - intros H. destruct (filter (at_target t) l) as [|id l'] eqn:E; [done|]. exfalso. apply H.
    exists id. assert (id ∈ filter (at_target t) l) as Hin by (rewrite E; constructor).
    apply list_elem_of_filter in Hin. naive_solver.
Qed.

Lemma group_step_inv l g id : group_inv l g ->
  group_inv (l ++ [id]) (group_step d path chnk_start chnk_end g id).
Proof.
  intros I. pose proof (group_chnks_elem l g (locate_data d path id) I) as HN.
  pose proof I as [I1 I2 I3 I4 I5]. unfold group_step. set (t0 := locate_data d path id) in *.
  split; cbn [target_chnks targets chnk_start_target chnk_end_target].
  - intros t. rewrite filter_app. destruct (decide (t0 = t)) as [<-|Hne].
    + rewrite filter_cons_True, filter_nil by done.
      destruct (target_chnks g !! t0) as [l0|] eqn:E; rewrite lookup_insert_eq.
      * rewrite I1 in E. destruct (filter (at_target t0) l); [done|]. by simplify_eq.
      * rewrite I1 in E. by destruct (filter (at_target t0) l).
    + rewrite filter_cons_False, filter_nil, app_nil_r, <- I1 by done.
      destruct (target_chnks g !! t0); by rewrite lookup_insert_ne.
  - intros t. setoid_rewrite elem_of_app. setoid_rewrite list_elem_of_singleton.
    destruct (target_chnks g !! t0) as [l0|] eqn:E.
    + assert (t0 ∈ targets g) as Ht0.
      { destruct (decide (t0 ∈ targets g)) as [|Hn]; [done|]. by apply HN in Hn. }
      rewrite I2 in *. split; [naive_solver|]. intros (x & [Hx| ->] & <-); naive_solver.
    + rewrite elem_of_app, list_elem_of_singleton, I2. split.
      * intros [(x & Hx & <-)| ->]; [eauto|]. exists id. auto.
      * intros (x & [Hx| ->] & <-); eauto.
  - destruct (target_chnks g !! t0) as [l0|] eqn:E; [done|].
    apply NoDup_app. split; [done|]. split; [|apply NoDup_singleton].
    intros t Ht ->%list_elem_of_singleton. exact (proj1 HN eq_refl Ht).
  - destruct (Z.eqb_spec id chnk_start) as [E|E]; [by subst|].
    intros [H|H%list_elem_of_singleton]%elem_of_app; [auto|congruence].
  - destruct (Z.eqb_spec id chnk_end) as [E|E]; [by subst|].
    intros [H|H%list_elem_of_singleton]%elem_of_app; [auto|congruence].
Qed.

Lemma group_chunks_inv :
  group_inv (seqZ chnk_start (chnk_end - chnk_start + 1)) (group_chunks d path chnk_start chnk_end).
Proof.
  unfold group_chunks. generalize (seqZ chnk_start (chnk_end - chnk_start + 1)). intros l.
  induction l as [|id l IH] using rev_ind.
  - split; cbn; try done.
    + intros t. split; [intros H; by apply not_elem_of_nil in H|]. intros (id & H & _).
      by apply not_elem_of_nil in H.
    + constructor.
    + intros H; by apply not_elem_of_nil in H.
    + intros H; by apply not_elem_of_nil in H.
  - rewrite foldl_app. by apply group_step_inv.
Qed.
End grouping_facts.

(** ** The requests are the ones the daemons expect *)

Section requests.
Context (cfg : config) (str_hash : str -> Z) (d : Distributor) (hosts_size : Z) (path : str).
Context (offset size : Z).
Local Abbreviation cs := (chunksize cfg).

Definition range_groups : grouping :=
  group_chunks d path (first_id cs offset) (last_id cs offset size).

Lemma range_groups_inv : group_inv d path (first_id cs offset) (last_id cs offset size)
  (ids cs offset size) range_groups.
Proof using.
  unfold range_groups, ids, ids_from.
  replace (last_id cs offset size + 1 - first_id cs offset)
    with (last_id cs offset size - first_id cs offset + 1) by lia.
  apply group_chunks_inv.
Qed.

Lemma target_chnks_ids t : t ∈ targets range_groups ->
  default [] (target_chnks range_groups !! t) = filter (fun id => locate_data d path id = t) (ids cs offset size).
Proof using.
  intros Ht. rewrite (gi_chnks _ _ _ _ _ _ range_groups_inv).
  by destruct (filter _ (ids cs offset size)).
Qed.

Context (k : Z) (Hk : 0 <= k < 63) (Hcs : chunksize cfg = 2 ^ k).
Context (Ho : 0 <= offset) (Hs : 0 < size) (Hb : offset + size < 2 ^ 63).

Lemma cs_range : 0 < cs < 2 ^ 63.
Proof using Hk Hcs. pose proof (cs_pos k cs Hk Hcs). pose proof (cs_bound k cs Hk Hcs). lia. Qed.

(** The size announced to a target is the sum of its pieces. *)
Lemma total_chunk_size_share t : t ∈ targets range_groups ->
  total_chunk_size cfg range_groups offset size t =
  zsum (psize cs offset size) (filter (fun id => locate_data d path id = t) (ids cs offset size)).
Proof using Hk Hcs Ho Hs Hb.
  intros Ht. pose proof cs_range as Hc. pose proof range_groups_inv as I.
  pose proof (first_le_last cs offset size ltac:(lia) Ho Hs) as FL.
  unfold total_chunk_size. rewrite target_chnks_ids by done.
  rewrite (chnk_lpad_pow2 k cs Hk Hcs).
  rewrite (wrapu_small 64 (offset + size)), (wraps_small 64 (offset + size)) by int_solve.
  rewrite (chnk_rpad_pow2 k cs Hk Hcs) by lia.
  rewrite (gi_start _ _ _ _ _ _ I), (gi_end _ _ _ _ _ _ I) by (apply elem_of_ids; lia).
  pose proof (zsum_share cs offset size ltac:(lia) Ho Hs (fun id => locate_data d path id = t)) as E.
  set (l := filter _ (ids cs offset size)) in *.
  assert (0 <= zsum (psize cs offset size) l <= size) as B.
  { split.
    - apply zsum_nonneg. intros x [_ Hx%elem_of_ids]%list_elem_of_filter; [|lia..].
      pose proof (psize_bounds cs offset size ltac:(lia) Ho Hs x Hx). lia.
    - rewrite <- (zsum_total cs offset size) at 2 by lia. apply zsum_filter_le.
      intros x Hx%elem_of_ids; [|lia..]. pose proof (psize_bounds cs offset size ltac:(lia) Ho Hs x Hx). lia. }
  rewrite <- (wrapu_small 64 (zsum _ l)) by int_solve. rewrite E. unfold wrapu.
  rewrite !(Z.eqb_sym t).
  destruct (decide (locate_data d path (first_id cs offset) = t)) as [->|N1];
    [rewrite Z.eqb_refl|rewrite (proj2 (Z.eqb_neq _ _) N1)];
  (destruct (decide (locate_data d path (last_id cs offset size) = t)) as [->|N2];
    [rewrite Z.eqb_refl|rewrite (proj2 (Z.eqb_neq _ _) N2)]);
  repeat (rewrite Zminus_mod_idemp_l || rewrite Z.mod_mod by lia); rewrite ?Z.sub_0_r; try done.
  rewrite <- !Z.sub_add_distr. by rewrite Zminus_mod_idemp_l.
Qed.

(** A target's input describes the range to a daemon that serves exactly
    the chunks located at the target. *)
Lemma data_input_request t :
  t ∈ targets range_groups ->
  let in_ := data_input cfg hosts_size path range_groups (first_id cs offset) (last_id cs offset size)
               offset size t in
  (forall id, serves cfg str_hash in_ id = true <-> locate_data d path id = t) ->
  request_for cfg str_hash in_ offset size.
Proof using Hk Hcs Ho Hs Hb.
  intros Ht in_ Hserve.
  assert (host_ids cfg str_hash in_ offset size =
    filter (fun id => locate_data d path id = t) (ids cs offset size)) as Eh.
  { unfold host_ids. apply list_filter_iff. intros id. apply Hserve. }
  split; cbn [in_offset in_chunk_start in_chunk_end in_chunk_n in_total_chunk_size in_ data_input].
  - apply (chnk_lpad_pow2 k cs Hk Hcs).
  - done.
  - done.
  - rewrite Eh, target_chnks_ids by done. done.
  - rewrite Eh. by apply total_chunk_size_share.
Qed.

(** The ids the client computes are those of the range. *)
Lemma client_ids :
  chnk_id_for_offset offset cs = first_id cs offset /\
  chnk_id_for_offset (i64 (u64 (u64 (offset + size) - 1))) cs = last_id cs offset size.
Proof using Hk Hcs Ho Hs Hb.
  rewrite (wrapu_small 64 (offset + size)) by int_solve.
  rewrite (wrapu_small 64 (offset + size - 1)), (wraps_small 64 (offset + size - 1)) by int_solve.
  rewrite !(chnk_id_pow2 k cs Hk Hcs) by lia. done.
Qed.
End requests.

(** ** Properties *)

Lemma zsum_partition {A} (f : A -> Z) (g : A -> Z) (ts : list Z) (l : list A) :
  NoDup ts -> (forall x, x ∈ l -> f x ∈ ts) ->
  zsum (fun t => zsum g (filter (fun x => f x = t) l)) ts = zsum g l.
Proof.
  intros Hnd. revert l. induction l as [|x l IH]; intros Hl.
  { clear. rewrite (zsum_ext _ (fun _ => 0)) by done. rewrite zsum_const. simpl. lia. }
  simpl. rewrite <- IH by (intros y Hy; apply Hl; by constructor).
  assert (f x ∈ ts) as Hx by (apply Hl; constructor). clear IH Hl.
  rewrite (zsum_ext _ (fun t => zsum g (filter (fun x => f x = t) l) + (if t =? f x then g x else 0))).
  - rewrite zsum_add, zsum_indicator, decide_True by done. lia.
  - intros t _. rewrite filter_cons. rewrite Z.eqb_sym.
    destruct (Z.eqb_spec (f x) t); case_decide; simpl; try done; lia.
Qed.

(** C25. The requests a client sends for a byte range partition it: each
    target appears once and gets the chunks that are located there, the
    sizes announced add up to the range, and each request is one a daemon
    serving these chunks expects. *)
Theorem client_requests_partition (cfg : config) (str_hash : str -> Z) (d : Distributor)
    (hosts_size k offset size : Z) (path : str) :
  0 <= k < 63 -> chunksize cfg = 2 ^ k -> 0 <= offset -> 0 < size -> offset + size < 2 ^ 63 ->
  let g := group_chunks d path (chnk_id_for_offset offset (chunksize cfg))
             (chnk_id_for_offset (i64 (u64 (u64 (offset + size) - 1))) (chunksize cfg)) in
  NoDup (targets g) /\
  zsum (total_chunk_size cfg g offset size) (targets g) = size /\
  forall t, t ∈ targets g ->
    let in_ := data_input cfg hosts_size path g (chnk_id_for_offset offset (chunksize cfg))
                 (chnk_id_for_offset (i64 (u64 (u64 (offset + size) - 1))) (chunksize cfg)) offset size t in
    (forall id, serves cfg str_hash in_ id = true <-> locate_data d path id = t) ->
    request_for cfg str_hash in_ offset size /\
    host_ids cfg str_hash in_ offset size =
      filter (fun id => locate_data d path id = t) (ids (chunksize cfg) offset size).
Proof.
  intros Hk Hcs Ho Hs Hb.
  destruct (client_ids cfg offset size k Hk Hcs Ho Hs Hb) as [-> ->]. intros g.
  change g with (range_groups cfg d path offset size). clear g.
  pose proof (range_groups_inv cfg d path offset size) as I.
  split; [apply (gi_nodup _ _ _ _ _ _ I)|]. split.
  - rewrite (zsum_ext _ (fun t => zsum (psize (chunksize cfg) offset size)
      (filter (fun id => locate_data d path id = t) (ids (chunksize cfg) offset size)))).
    2:{ intros t Ht. by apply (total_chunk_size_share cfg d path offset size k). }
    rewrite zsum_partition.
    + apply zsum_total; [apply (cs_pos k _ Hk Hcs)|done|done].
    + apply (gi_nodup _ _ _ _ _ _ I).
    + intros id Hid. apply (gi_targets _ _ _ _ _ _ I). eauto.
  - intros t Ht in_ Hserve. split.
    + by apply (data_input_request cfg str_hash d hosts_size path offset size k).
    + apply list_filter_iff. intros id. apply Hserve.
Qed.

Lemma client_requests_partition_witness :
  zsum (total_chunk_size small_config
    (group_chunks (SimpleHashDistributor last_char_hash 0 2) (s_ "/f") 0 3) 3 10) [0; 1] = 10.
Proof.
  refine (proj1 (proj2 (client_requests_partition small_config last_char_hash
    (SimpleHashDistributor last_char_hash 0 2) 2 2 3 10 (s_ "/f") _ eq_refl _ _ _))); lia.
Defined.

(** A truncation does not reach the hosts that hold data past the new
    end: whenever the bytes to cut are fewer than the whole chunks that
    stay, no host at all is asked to cut, although the last byte of the
    file is on one. *)
Theorem truncate_contacts_no_host (cfg : config) (d : Distributor) (k current_size new_size : Z) (path : str) :
  0 <= k < 32 -> chunksize cfg = 2 ^ k -> 0 < new_size < current_size -> current_size < 2 ^ 63 ->
  current_size / chunksize cfg < 2 ^ 32 ->
  current_size - new_size <= chunksize cfg * (new_size / chunksize cfg) ->
  truncate_hosts cfg d path current_size new_size = [].
Proof.
  intros Hk Hcs Hn Hc Hid Hle. set (cs := chunksize cfg) in *.
  assert (0 <= k < 63) as Hk' by lia. pose proof (cs_pos k cs Hk' Hcs) as Hp.
  assert (new_size / cs <= current_size / cs) by (apply Z.div_le_mono; lia).
  assert (0 <= new_size / cs) by (apply Z.div_pos; lia).
  assert (0 <= (current_size - new_size - 1) / cs) by (apply Z.div_pos; lia).
  assert ((current_size - new_size - 1) / cs < new_size / cs) as Hlt.
  { apply Z.div_lt_upper_bound; lia. }
  unfold truncate_hosts. fold cs. rewrite (wrapu_small 64) by int_solve.
  rewrite !(wraps_small 64) by int_solve. rewrite !(chnk_id_pow2 k cs Hk' Hcs) by lia.
  rewrite !(wrapu_small 32) by int_solve.
  by rewrite seqZ_nil by lia.
Qed.

Lemma truncate_contacts_no_host_witness :
  truncate_hosts small_config (SimpleHashDistributor last_char_hash 0 2) (s_ "/f") 12 8 = [].
Proof.
  apply (truncate_contacts_no_host small_config _ 2 12 8 (s_ "/f")); try lia; try reflexivity; by vm_compute.
Defined.
