(* ===== verification/ForwardMetadata.v ===== *)
(** * Metadata requests of the client ([src/client/rpc/forward_metadata.cpp])

    One call per function to the host of the path; [forward_remove] also
    reaches the hosts of the chunks and [forward_get_dirents] collects the
    entries of all hosts and parses their buffers. *)

From S2P Require Import Prelude Config Distributor Metadata ChunkStorage SrvData SrvMetadata Rpc.

(** [MetadentryUpdateFlags]; the flags the sender ignores are left out. *)
Record MetadentryUpdateFlags := MkUpdateFlags {
  uf_atime : bool; uf_mtime : bool; uf_ctime : bool;
  uf_link_count : bool; uf_size : bool; uf_blocks : bool
}.

Section forward_metadata.
Context {N : Type} {W : Network N}.
Context (cfg : config) (d : Distributor) (hosts_size : Z).

(** A call to the metadata host of [path]. *)
Definition metadata_call {R} (path : str) (q : rpc R) : M N (option R) :=
  let* endp := host_at hosts_size (locate_file_metadata d path) in call endp q.

(** [if (out.err() != 0) { errno = out.err(); return -1; } return 0;] with
    [EBUSY] for a failed call. *)
Definition err_reply (out : option Z) : result :=
  match out with
  | None => fail_with EBUSY
  | Some err => if negb (err =? 0) then fail_with err else (0, None)
  end.

Definition forward_create (path : str) (mode : Z) : M N result :=
  let* out := metadata_call path (RpcCreate path mode) in m_ret (err_reply out).

(** The second component is [attr], changed on success only. *)
Definition forward_stat (path attr : str) : M N (result * str) :=
  let* out := metadata_call path (RpcStat path) in
  m_ret (match out with
         | None => (fail_with EBUSY, attr)
         | Some (err, db_val) => if negb (err =? 0) then (fail_with err, attr) else ((0, None), db_val)
         end).

(** Posting [remove] to a list of hosts: an exception inside the [try]
    blocks becomes a [runtime_error]. *)
Fixpoint post_removes (path : str) (hosts : list Z) : M N (list (handle N Z)) :=
  match hosts with
  | [] => m_ret []
  | h :: hosts' =>
      let* endp := m_try (host_at hosts_size h) (fun _ => m_throw RuntimeError) in
      let* hd := net_post endp (RpcRemove path) in
      match hd with
      | None => m_throw RuntimeError
      | Some hd => let* hs := post_removes path hosts' in m_ret (hd :: hs)
      end
  end.

Fixpoint wait_removes (hs : list (handle N Z)) (r : result) : M N result :=
  match hs with
  | [] => m_ret r
  | h :: hs' =>
      let* out := net_get h in
      wait_removes hs'
        (match out with
         | None => fail_with EBUSY
         | Some err => if negb (err =? 0) then fail_with err else r
         end)
  end.

(** The hosts of a removal that also removes chunks: for a file of fewer
    chunks than hosts the metadata host and the host of each chunk. *)
Definition remove_hosts (path : str) (size : Z) : list Z :=
  if u64 (Z.quot size (chunksize cfg)) <? hosts_size then
    locate_file_metadata d path ::
      (locate_data d path <$> seqZ 0 (u64 (Z.quot size (chunksize cfg)) + 1))
  else all_hosts hosts_size.

Definition forward_remove (path : str) (remove_metadentry_only : bool) (size : Z) : M N result :=
  if remove_metadentry_only then
    let* out := metadata_call path (RpcRemove path) in m_ret (err_reply out)
  else
    (* hosts().at of the metadata host is outside the try block *)
    (if u64 (Z.quot size (chunksize cfg)) <? hosts_size
     then host_at hosts_size (locate_file_metadata d path) else m_ret 0) ;;;
    let* hs := post_removes path (remove_hosts path size) in
    wait_removes hs (0, None).

Definition forward_decr_size (path : str) (length_ : Z) : M N result :=
  let* out := metadata_call path (RpcDecrSize path length_) in m_ret (err_reply out).

(** The fields [forward_update_metadentry] sends. *)
Definition sent_update (md : Metadata) (f : MetadentryUpdateFlags) : md_update :=
  let pick (b : bool) (v : Z) := if b then v else 0 in
  MkUpdate (pick (uf_link_count f) (link_count_ md)) (pick (uf_size f) (i64 (size_ md)))
    (pick (uf_blocks f) (blocks_ md)) (pick (uf_atime f) (atime_ md))
    (pick (uf_mtime f) (mtime_ md)) (pick (uf_ctime f) (ctime_ md))
    (uf_link_count f) (uf_size f) (uf_blocks f) (uf_atime f) (uf_mtime f) (uf_ctime f).

Definition forward_update_metadentry (path : str) (md : Metadata) (f : MetadentryUpdateFlags)
    : M N result :=
  let* out := metadata_call path (RpcUpdateMetadentry path (sent_update md f)) in
  m_ret (err_reply out).

(** The second component is [ret_size]. *)
Definition forward_update_metadentry_size (path : str) (size offset : Z) (append_flag : bool) (ret_size : Z)
    : M N (result * Z) :=
  let* out := metadata_call path (RpcUpdateMetadentrySize path size offset append_flag) in
  m_ret (match out with
         | None => ((EUNKNOWN, Some EBUSY), 0)
         | Some (err, sz) => if negb (err =? 0) then (fail_with err, ret_size) else ((0, None), sz)
         end).

(** Returns the daemon's error number itself, without setting [errno]. *)
Definition forward_get_metadentry_size (path : str) : M N (result * Z) :=
  let* out := metadata_call path (RpcGetMetadentrySize path) in
  m_ret (match out with
         | None => ((EUNKNOWN, Some EBUSY), 0)
         | Some (err, sz) => ((err, None), sz)
         end).

Definition forward_mk_symlink (path target : str) : M N result :=
  let* out := metadata_call path (RpcMkSymlink path target) in m_ret (err_reply out).

(** ** Directory listings *)

(** The loop over the entries of one host: [kinds] points at the kinds and
    [names] is the offset of the names in the host's buffer [base]. *)
Fixpoint parse_dirents (n : nat) (base : list byte) (kinds names : nat) (acc : list (str * bool))
    : res (list (str * bool)) :=
  match n with
  | O => Ok acc
  | S n' =>
      let is_dir := negb (bool_decide (nth kinds base NUL = NUL)) in
      assert_ ((0 <? names)%nat && (names <? length base)%nat)
      (let name := cstr (drop names base) in
       parse_dirents n' base (S kinds) (names + length name + 1) (acc ++ [(name, is_dir)]))
  end.

(** [expose] for each target, all before the first request. *)
Fixpoint expose_all (per_host : nat) (ts : list Z) (buffer : list byte) : M N (list nat) :=
  match ts with
  | [] => m_ret []
  | _ :: ts' =>
      let* mem := net_expose (take per_host buffer) in
      match mem with
      | None => m_throw RuntimeError
      | Some mem => let* mems := expose_all per_host ts' (drop per_host buffer) in m_ret (mem :: mems)
      end
  end.

Fixpoint post_dirents (path : str) (ts : list Z) (mems : list nat) : M N (list (handle N (Z * Z))) :=
  match ts, mems with
  | t :: ts', mem :: mems' =>
      let* endp := host_at hosts_size t in
      let* h := net_post endp (RpcGetDirents path mem) in
      match h with
      | None => m_throw RuntimeError
      | Some h => let* hs := post_dirents path ts' mems' in m_ret (h :: hs)
      end
  | _, _ => m_ret []
  end.

Fixpoint collect_dirents (hs : list (handle N (Z * Z))) (mems : list nat) (acc : list (str * bool))
    : M N (list (str * bool)) :=
  match hs, mems with
  | h :: hs', mem :: mems' =>
      let* out := net_get h in
      match out with
      | None => m_throw RuntimeError
      | Some (err, dirents_size) =>
          if negb (err =? 0) then m_throw RuntimeError else
          let* base := m_gets (region mem) in
          let* acc' := m_lift (parse_dirents (Z.to_nat dirents_size) base 0 (Z.to_nat dirents_size) acc) in
          collect_dirents hs' mems' acc'
      end
  | _, _ => m_ret acc
  end.

(** Returns the entries added to the open directory; [buffer] is the
    uninitialised receive buffer. *)
Definition forward_get_dirents (root_dir : str) (buffer : list byte) : M N (list (str * bool)) :=
  let targets := locate_directory_metadata d root_dir in
  let per_host_buff_size := Z.to_nat (dirents_buff_size cfg / Z.of_nat (length targets)) in
  let* mems := expose_all per_host_buff_size targets buffer in
  let* hs := post_dirents root_dir targets mems in
  collect_dirents hs mems [].
End forward_metadata.

(** ** Parsing what the daemon serialised *)

Lemma name_field_no_nul name : NUL ∉ name -> name_field name = name ++ [NUL].
Proof.
  intros H. unfold name_field. rewrite cstr_id by done.
  by replace (S (length name) - length name)%nat with 1%nat by lia.
Qed.

Lemma bool_byte_nul b : negb (bool_decide (bool_byte b = NUL)) = b.
Proof. by destruct b. Qed.

(** The parser resumes at any entry: [kinds] and [names] are what the
    entries before it take. *)
Lemma parse_dirents_resume pre post rest acc :
  Forall (fun e : str * bool => NUL ∉ e.1) (pre ++ post) -> pre ++ post <> [] ->
  parse_dirents (length post)
    (((fun e => bool_byte e.2) <$> pre ++ post) ++ concat ((fun e => name_field e.1) <$> pre ++ post) ++ rest)
    (length pre) (length (pre ++ post) + length (concat ((fun e => name_field e.1) <$> pre))) acc
  = Ok (acc ++ post).
Proof.
  revert pre acc. induction post as [|[name b] post IH]; intros pre acc Hn Hne.
  { cbn. by rewrite app_nil_r. }
  assert (NUL ∉ name) as Hname.
  { rewrite Forall_forall in Hn. apply (Hn (name, b)). set_solver. }
  specialize (IH (pre ++ [(name, b)])). rewrite <- app_assoc in IH. cbn [app] in IH.
  set (all := pre ++ (name, b) :: post) in *.
  set (kinds := (fun e : str * bool => bool_byte e.2) <$> all) in *.
  set (before := concat ((fun e : str * bool => name_field e.1) <$> pre)) in *.
  assert (concat ((fun e : str * bool => name_field e.1) <$> all) =
    before ++ name ++ [NUL] ++ concat ((fun e : str * bool => name_field e.1) <$> post)) as En.
  { unfold all. rewrite fmap_app, concat_app. csimpl. rewrite name_field_no_nul by done.
    rewrite <- !app_assoc. done. }
  assert (length kinds = length all) as Lk by apply length_fmap.
  assert (length all = length pre + S (length post))%nat as La by (unfold all; rewrite length_app; simpl; lia).
  cbn [length parse_dirents].
  assert (nth (length pre) (kinds ++ concat ((fun e : str * bool => name_field e.1) <$> all) ++ rest) NUL
    = bool_byte b) as ->.
  { rewrite app_nth1 by (rewrite Lk; lia). unfold kinds, all. rewrite fmap_app, app_nth2 by (rewrite length_fmap; lia).
    by rewrite length_fmap, Nat.sub_diag. }
  rewrite bool_byte_nul.
  assert (cstr (drop (length all + length before)
    (kinds ++ concat ((fun e : str * bool => name_field e.1) <$> all) ++ rest)) = name) as Ec.
  { rewrite drop_app_ge by lia. rewrite Lk. replace (length all + length before - length all)%nat with (length before) by lia.
    rewrite En, <- !app_assoc, drop_app_length. cbn [app]. by apply cstr_app_nul. }
  rewrite Ec. rewrite (proj2 (Nat.ltb_lt 0 _)), (proj2 (Nat.ltb_lt _ _)).
  2:{ rewrite !length_app, En, !length_app, Lk. simpl. lia. }
  2:{ lia. }
  cbn [andb assert_].
  specialize (IH (acc ++ [(name, b)]) Hn ltac:(by destruct pre)).
  rewrite <- app_assoc in IH. cbn [app] in IH. rewrite <- IH. f_equal.
  - rewrite length_app. simpl. lia.
  - rewrite fmap_app, concat_app. csimpl. rewrite name_field_no_nul, app_nil_r by done.
    rewrite !length_app. simpl. fold before. lia.
Qed.

Lemma parse_serialize_dirents entries rest acc :
  Forall (fun e : str * bool => NUL ∉ e.1) entries -> entries <> [] ->
  parse_dirents (length entries) (serialize_dirents entries ++ rest) 0 (length entries) acc = Ok (acc ++ entries).
Proof.
  intros Hn Hne. pose proof (parse_dirents_resume [] entries rest acc Hn Hne) as E. cbn in E.
  rewrite Nat.add_0_r in E. unfold serialize_dirents. by rewrite <- app_assoc.
Qed.

(** The push of a listing into a region that can hold it. *)
Lemma dirents_push (entries : list (str * bool)) (env : margo_env) (buffer : list byte) :
  Forall (fun e : str * bool => NUL ∉ e.1) entries ->
  dirents_out_size entries <= Z.of_nat (length buffer) -> transfer_works env 0 ->
  exists buffer', bulk_transfer env 0 (serialize_dirents entries) 0 buffer 0 (dirents_out_size entries) = Some buffer' /\
    forall acc, parse_dirents (length entries) buffer' 0 (length entries) acc = Ok (acc ++ entries).
Proof.
  intros Hn Hsz Ht. rewrite <- length_serialize_dirents in *.
  rewrite Ht by (apply in_bounds_true; lia). eexists. split; [done|]. intros acc. unfold copy_range.
  rewrite Nat2Z.id. change (Z.to_nat 0) with 0%nat. rewrite read_at_all.
  destruct entries as [|e entries]; [by rewrite app_nil_r|].
  unfold write_at. destruct (serialize_dirents (e :: entries)) eqn:E; [done|]. rewrite <- E.
  rewrite take_0. cbn [app]. by apply parse_serialize_dirents.
Qed.

(** ** Properties *)

(** A directory listing survives the wire: what the daemon writes into
    the client's region, followed by whatever the region held before, parses
    back to the same entries in the same order. *)
Theorem dirents_roundtrip (entries : list (str * bool)) (acc : list (str * bool)) (env : margo_env)
    (buffer : list byte) :
  Forall (fun e : str * bool => NUL ∉ e.1) entries ->
  dirents_out_size entries <= Z.of_nat (length buffer) -> transfer_works env 0 ->
  exists buffer', bulk_transfer env 0 (serialize_dirents entries) 0 buffer 0 (dirents_out_size entries) = Some buffer' /\
    parse_dirents (length entries) buffer' 0 (length entries) acc = Ok (acc ++ entries).
Proof.
  intros Hn Hsz Ht. destruct (dirents_push entries env buffer Hn Hsz Ht) as (b & E & H).
  exists b. split; [done|apply H].
Qed.

Lemma dirents_roundtrip_witness :
  exists buffer', bulk_transfer good_env 0 (serialize_dirents [(s_ "ab", true); (s_ "c", false)]) 0
      (replicate 20 "x"%char) 0 7 = Some buffer' /\
    parse_dirents 2 buffer' 0 2 [] = Ok [(s_ "ab", true); (s_ "c", false)].
Proof.
  apply (dirents_roundtrip [(s_ "ab", true); (s_ "c", false)] [] good_env (replicate 20 "x"%char)).
  - repeat constructor; by apply (bool_decide_unpack _).
  - by vm_compute.
  - apply good_env_ok.
Defined.
