(* ===== verification/Cluster.v ===== *)
(** * Clients and daemons together

    A [cluster] is a list of daemons and the memory a client has exposed;
    posting a request runs the handler of the target host.  Over this
    network [forward_write] and [forward_read] are shown to write and read
    a flat file whose bytes are spread over the chunk files of the hosts. *)

From S2P Require Import Prelude Config ChunkCalc Distributor PathUtil Metadata Merge MetadataDB ChunkStorage.
From S2P Require Import ChunkPlan SrvData SrvMetadata Rpc ForwardData ForwardMetadata.

Record cluster (D F : Type) := MkCluster {
  daemons : list (daemon D F);
  regions : list (list byte)
}.
Arguments MkCluster {D F} daemons regions.
Arguments daemons {D F} c.
Arguments regions {D F} c.

Section cluster.
Context {D F : Type} {R : RocksDB D} {P : PosixFS F}.
Context (cfg : config) (junk : Metadata) (st : ChunkStorage) (str_hash : str -> Z).
Context (env : margo_env) (time : Z).

(** The handler of a request; the result is the output and the regions. *)
Definition run_rpc {A} (q : rpc A) (regs : list (list byte)) : M (daemon D F) (A * list (list byte)) :=
  match q in rpc A return M (daemon D F) (A * list (list byte)) with
  | RpcCreate path mode =>
      let* e := rpc_srv_create cfg (get_input_ok env) time path mode in m_ret (e, regs)
  | RpcStat path => let* o := rpc_srv_stat (get_input_ok env) path in m_ret (o, regs)
  | RpcRemove path => let* e := rpc_srv_remove st (get_input_ok env) path in m_ret (e, regs)
  | RpcDecrSize path len => let* e := rpc_srv_decr_size (get_input_ok env) path len in m_ret (e, regs)
  | RpcUpdateMetadentry path u =>
      let* e := rpc_srv_update_metadentry cfg junk (get_input_ok env) path u in m_ret (e, regs)
  | RpcUpdateMetadentrySize path size offset append =>
      let* o := rpc_srv_update_metadentry_size (get_input_ok env) path size offset append in m_ret (o, regs)
  | RpcGetMetadentrySize path =>
      let* o := rpc_srv_get_metadentry_size cfg junk (get_input_ok env) path in m_ret (o, regs)
  | RpcGetDirents path b =>
      let* o := rpc_srv_get_dirents cfg junk env path (default [] (regs !! b)) in
      match o with
      | None => m_throw RuntimeError
      | Some (err, n, buf) => m_ret ((err, n), <[b := buf]> regs)
      end
  | RpcMkSymlink path target => let* e := rpc_srv_mk_symlink cfg time path target in m_ret (e, regs)
  | RpcWriteData in_ b =>
      let* o := on_storage (rpc_srv_write cfg str_hash st env in_ (default [] (regs !! b)) []) in
      m_ret (o, regs)
  | RpcReadData in_ b =>
      let* o := on_storage (rpc_srv_read cfg str_hash st env in_ (default [] (regs !! b)) []) in
      m_ret (o.1, <[b := o.2]> regs)
  | RpcTruncData path len => let* e := on_storage (rpc_srv_truncate cfg st env path len) in m_ret (e, regs)
  | RpcChunkStat => let* o := on_storage (rpc_srv_get_chunk_stat st) in m_ret (o, regs)
  end.

(** A handler that ends with an exception or a failed assertion sends no
    output. *)
Definition cluster_post {A} (host : Z) (q : rpc A) (n : cluster D F)
    : option (handle (cluster D F) A) * cluster D F :=
  match daemons n !! Z.to_nat host with
  | None => (None, n)
  | Some s =>
      match run_rpc q (regions n) s with
      | (Ok (out, regs), s') =>
          (Some (fun n' => (Some out, n')), MkCluster (<[Z.to_nat host := s']> (daemons n)) regs)
      | (_, s') =>
          (Some (fun n' => (None, n')), MkCluster (<[Z.to_nat host := s']> (daemons n)) (regions n))
      end
  end.

#[local] Instance ClusterNet : Network (cluster D F) := {|
  expose buf n := (Some (length (regions n)), MkCluster (daemons n) (regions n ++ [buf]));
  region b n := default [] (regions n !! b);
  post A := cluster_post
|}.

(** ** The flat file *)

(** The contents of chunk file [id] of [path] on a host. *)
Definition chunk_on (n : cluster D F) (path : str) (host id : Z) : list byte :=
  default [] (s ← daemons n !! Z.to_nat host; fs_file (storage s) (chunk_file st path id)).

(** Byte [o] of the file, on the host its chunk is located at. *)
Definition flat (d : Distributor) (n : cluster D F) (path : str) (o : Z) : option byte :=
  chunk_on n path (locate_data d path (o / chunksize cfg)) (o / chunksize cfg)
    !! Z.to_nat (o mod chunksize cfg).
End cluster.

(** ** Replies that are already there *)

Section waiting.
Context {N : Type} {W : Network N}.

Definition replied {A} (o : A) : handle N A := fun n => (Some o, n).

Lemma wait_all_ok outs error errno acc (n : N) r e n' :
  wait_all (replied <$> outs) error errno acc n = (Ok (r, e), n') -> 0 <= r ->
  n' = n /\ error = false /\ (forall o, o ∈ outs -> out_err o = 0) /\
  (0 <= acc -> (forall o, o ∈ outs -> 0 <= out_io_size o) ->
   acc + zsum out_io_size outs < 2 ^ 63 -> r = acc + zsum out_io_size outs).
Proof.
  revert error errno acc. induction outs as [|o outs IH]; intros error errno acc E Hr.
  - simpl in E. unfold m_ret in E. simplify_eq. destruct error; [lia|].
    split; [done|]. split; [done|]. split; [|simpl; lia]. intros o H. by apply not_elem_of_nil in H.
  - csimpl in E. unfold m_bind, net_get, replied at 1 in E.
    apply IH in E as (-> & Ee & Hz & Hs); [|done]. apply orb_false_iff in Ee as [-> Ho].
    apply negb_false_iff, Z.eqb_eq in Ho.
    split; [done|]. split; [done|]. split.
    + intros x [->|Hx]%elem_of_cons; [done|]. by apply Hz.
    + intros Ha Hn Hb. simpl in Hb. pose proof (Hn o ltac:(constructor)).
      assert (forall x, x ∈ outs -> 0 <= out_io_size x) as Hn' by (intros x Hx; apply Hn; by constructor).
      pose proof (zsum_nonneg out_io_size outs Hn').
      rewrite wraps_small in Hs by int_solve. rewrite Hs by (done || lia). simpl. lia.
Qed.
End waiting.

Section data_path.
Context {D F : Type} {R : RocksDB D} {P : PosixFS F} {L : PosixFSLaws P}.
Context (cfg : config) (junk : Metadata) (st : ChunkStorage) (str_hash : str -> Z).
Context (env : margo_env) (time localhost_ hosts_size k offset size : Z) (path : str).
Context (Hfwd : enable_forwarding cfg = false) (Hk : 0 <= k < 63) (Hcs : chunksize cfg = 2 ^ k).
Context (Hst : cs_chunksize st = chunksize cfg) (Henv : env_ok env) (Hhosts : 0 < hosts_size < 2 ^ 32).
Context (Ho : 0 <= offset) (Hs : 0 < size) (Hb : offset + size < 2 ^ 63).
Context (H32 : last_id (chunksize cfg) offset size < 2 ^ 32) (Hp : file_path_ok path).

Local Abbreviation cs := (chunksize cfg).
Local Abbreviation d := (SimpleHashDistributor str_hash localhost_ hosts_size).
Local Abbreviation groups := (range_groups cfg d path offset size).
Local Abbreviation input t :=
  (data_input cfg hosts_size path groups (first_id cs offset) (last_id cs offset size) offset size t).
Local Abbreviation ids_at t := (filter (fun id => locate_data d path id = t) (ids cs offset size)).
#[local] Existing Instance ClusterNet.
Local Abbreviation net := (ClusterNet cfg junk st str_hash env time).

Lemma d_ok : DistributorOk hosts_size d.
Proof using Hhosts. by apply SimpleHashDistributor_ok. Qed.

Lemma target_range t : t ∈ targets groups -> 0 <= t < hosts_size.
Proof using Hhosts.
  intros Ht. apply (gi_targets _ _ _ _ _ _ (range_groups_inv cfg d path offset size)) in Ht as (id & _ & <-).
  apply (locate_data_range (DistributorOk := d_ok)).
Qed.

Lemma input_serves t id : serves cfg str_hash (input t) id = true <-> locate_data d path id = t.
Proof using Hfwd. unfold serves. rewrite Hfwd. cbn [orb]. apply Z.eqb_eq. Qed.

Lemma input_host_ids t : host_ids cfg str_hash (input t) offset size = ids_at t.
Proof using Hfwd. apply list_filter_iff. intros id. apply input_serves. Qed.

Lemma input_request t : t ∈ targets groups -> request_for cfg str_hash (input t) offset size.
Proof using Hfwd Hk Hcs Ho Hs Hb.
  intros Ht. apply (data_input_request cfg str_hash d hosts_size path offset size k); try done.
  intros id. apply input_serves.
Qed.

(** The effect of a write on its target and what the reply says of it. *)
Definition wrote_host (client : list byte) (t : Z) (s s' : daemon D F) (out : rpc_data_out) : Prop :=
  exists kf, wrote_prefixes st cs offset size path client kf (ids_at t) (storage s) (storage s') /\
    0 <= out_io_size out <= zsum kf (ids_at t) /\
    (out_err out = 0 -> out_io_size out = zsum kf (ids_at t)) /\ mdb s' = mdb s.

Lemma write_rpc t mem client regs (s : daemon D F) :
  t ∈ targets groups -> regs !! mem = Some client -> Z.of_nat (length client) = size ->
  exists out s', run_rpc cfg junk st str_hash env time (RpcWriteData (input t) mem) regs s = (Ok (out, regs), s') /\
    wrote_host client t s s' out.
Proof using All.
  intros Ht Hmem Hc. cbn [run_rpc]. rewrite Hmem. cbn [default from_option id]. unfold m_bind, on_storage.
  destruct (rpc_srv_write cfg str_hash st env (input t) client [] (storage s)) as [r f'] eqn:E.
  destruct Henv as [E1 E2 E3 E4 E5 E6]. pose proof (cs_range cfg k Hk Hcs).
  apply (rpc_srv_write_spec st cs offset size path client) in E as (out & kf & -> & Hw & Hle & Hz);
    [|done || lia || by apply input_request..].
  exists out, (MkDaemon (mdb s) f'). split; [done|]. exists kf. by rewrite input_host_ids in *.
Qed.

Lemma write_post t mem client (n : cluster D F) s :
  t ∈ targets groups -> daemons n !! Z.to_nat t = Some s -> regions n !! mem = Some client ->
  Z.of_nat (length client) = size ->
  exists out s', post (Network := net) t (RpcWriteData (input t) mem) n =
      (Some (replied out), MkCluster (<[Z.to_nat t := s']> (daemons n)) (regions n)) /\
    wrote_host client t s s' out.
Proof using All.
  intros Ht Hsd Hmem Hc. destruct (write_rpc t mem client (regions n) s Ht Hmem Hc) as (out & s' & E & Hw).
  exists out, s'. split; [|done]. cbn [post ClusterNet]. unfold cluster_post. by rewrite Hsd, E.
Qed.

Lemma post_writes ts mem client (n : cluster D F) :
  (forall t, t ∈ ts -> t ∈ targets groups) -> NoDup ts ->
  Z.of_nat (length (daemons n)) = hosts_size -> regions n !! mem = Some client ->
  Z.of_nat (length client) = size ->
  exists outs n', post_all (W := net) hosts_size (fun t => RpcWriteData (input t) mem) ts n =
      (Ok (Some (replied <$> outs)), n') /\
    length (daemons n') = length (daemons n) /\ regions n' = regions n /\
    (forall h, 0 <= h -> h ∉ ts -> daemons n' !! Z.to_nat h = daemons n !! Z.to_nat h) /\
    Forall2 (fun t out => exists s s', daemons n !! Z.to_nat t = Some s /\
      daemons n' !! Z.to_nat t = Some s' /\ wrote_host client t s s' out) ts outs.
Proof using All.
  intros Hts Hnd. revert n. induction Hnd as [|t ts Hni Hnd IH]; intros n Hl Hmem Hc.
  { exists [], n. by repeat split. }
  assert (t ∈ targets groups) as Ht by (apply Hts; constructor).
  pose proof (target_range t Ht) as Hr.
  destruct (lookup_lt_is_Some_2 (daemons n) (Z.to_nat t)) as [s Hsd]; [lia|].
  destruct (write_post t mem client n s Ht Hsd Hmem Hc) as (out & s' & Epost & Hw).
  cbn [post_all]. rewrite (m_bind_ok _ _ n t n).
  2:{ unfold host_at. rewrite (proj2 (Z.leb_le _ _)), (proj2 (Z.ltb_lt _ _)) by lia. done. }
  unfold m_bind at 1, net_post. rewrite Epost.
  destruct (IH ltac:(intros x Hx; apply Hts; by constructor)
    (MkCluster (<[Z.to_nat t := s']> (daemons n)) (regions n))) as (outs & n' & E & L1 & Hreg & Hoth & Hall);
    [cbn; by rewrite length_insert|done|done|].
  exists (out :: outs), n'. unfold m_bind. rewrite E. split; [done|]. cbn [daemons regions] in *.
  rewrite length_insert in L1. split; [done|]. split; [done|].
  assert (forall x, x ∈ ts -> Z.to_nat t <> Z.to_nat x) as Hne.
  { intros x Hx Eq. pose proof (target_range x (Hts x ltac:(by constructor))).
    assert (t = x) by lia. by subst. }
  split.
  - intros h Hh Hnin. apply not_elem_of_cons in Hnin as [N1 N2]. rewrite Hoth by done.
    apply list_lookup_insert_ne. lia.
  - constructor.
    + exists s, s'. split; [done|]. split; [|done]. rewrite Hoth by (done || lia).
      apply list_lookup_insert_eq. lia.
    + eapply Forall2_elem_impl; [exact Hall|]. intros x o Hx (s1 & s1' & H1 & H2 & H3).
      rewrite list_lookup_insert_ne in H1 by auto. eauto.
Qed.

Lemma chunk_on_host (n : cluster D F) t id s : daemons n !! Z.to_nat t = Some s ->
  chunk_on st n path t id = default [] (fs_file (storage s) (chunk_file st path id)).
Proof using. intros E. unfold chunk_on. by rewrite E. Qed.

Lemma ids_at_range t id : id ∈ ids_at t -> first_id cs offset <= id <= last_id cs offset size.
Proof using Hk Hcs Ho Hs.
  intros [_ H]%list_elem_of_filter. pose proof (cs_pos k _ Hk Hcs).
  by apply elem_of_ids in H; [|lia..].
Qed.

Lemma prefixes_le client kf t f f' :
  wrote_prefixes st cs offset size path client kf (ids_at t) f f' ->
  zsum kf (ids_at t) <= zsum (psize cs offset size) (ids_at t).
Proof using. intros W. apply zsum_le. intros x Hx. apply (proj1 W x Hx). Qed.

(** What every request announces adds up to the range. *)
Lemma shares_total : zsum (fun t => zsum (psize cs offset size) (ids_at t)) (targets groups) = size.
Proof using Hk Hcs Ho Hs.
  pose proof (range_groups_inv cfg d path offset size) as I.
  rewrite zsum_partition.
  - apply zsum_total; [apply (cs_pos k _ Hk Hcs)|done|done].
  - apply (gi_nodup _ _ _ _ _ _ I).
  - intros id Hid. apply (gi_targets _ _ _ _ _ _ I). eauto.
Qed.

(** Replies without error whose sizes add up to the range are complete. *)
Lemma replies_complete client (n n' : cluster D F) ts outs :
  Forall2 (fun t out => exists s s', daemons n !! Z.to_nat t = Some s /\
      daemons n' !! Z.to_nat t = Some s' /\ wrote_host client t s s' out) ts outs ->
  0 <= zsum out_io_size outs <= zsum (fun t => zsum (psize cs offset size) (ids_at t)) ts /\
  ((forall o, o ∈ outs -> out_err o = 0) ->
   zsum out_io_size outs = zsum (fun t => zsum (psize cs offset size) (ids_at t)) ts ->
   forall t, t ∈ ts -> exists s s' kf, daemons n !! Z.to_nat t = Some s /\
      daemons n' !! Z.to_nat t = Some s' /\
      wrote_prefixes st cs offset size path client kf (ids_at t) (storage s) (storage s') /\
      forall id, id ∈ ids_at t -> kf id = psize cs offset size id).
Proof using Hk.
  induction 1 as [|t o ts outs (s & s' & E1 & E2 & kf & Hw & Hle & Hz & _) H [IH1 IH2]].
  { split; [done|]. intros _ _ t Ht. by apply not_elem_of_nil in Ht. }
  pose proof (prefixes_le _ _ _ _ _ Hw) as Hpl. cbn [zsum]. split; [lia|].
  intros He Hsum x [->|Hx]%elem_of_cons.
  - exists s, s', kf. repeat (split; [done|]). intros id Hid.
    eapply zsum_eq_pointwise; [|rewrite <- Hz by (apply He; constructor)|exact Hid]; [|lia].
    intros y Hy. apply (proj1 Hw y Hy).
  - apply IH2; [|lia|done]. intros y Hy. apply He. by constructor.
Qed.

Lemma forward_write_posts buf in_offset (n : cluster D F) :
  Z.of_nat (length (daemons n)) = hosts_size -> size <= Z.of_nat (length buf) ->
  exists outs n', forward_write (W := net) cfg d hosts_size path buf false in_offset size (offset + size) n =
      wait_all (replied <$> outs) false None 0 n' /\
    length (daemons n') = length (daemons n) /\
    (forall h, 0 <= h -> h ∉ targets groups -> daemons n' !! Z.to_nat h = daemons n !! Z.to_nat h) /\
    Forall2 (fun t out => exists s s', daemons n !! Z.to_nat t = Some s /\
      daemons n' !! Z.to_nat t = Some s' /\ wrote_host (take (Z.to_nat size) buf) t s s' out) (targets groups) outs.
Proof using All.
  intros Hl Hbuf. unfold forward_write. rewrite (m_bind_ok _ _ n tt n).
  2:{ unfold m_assert. by rewrite (proj2 (Z.ltb_lt _ _)). }
  assert (i64 (u64 (offset + size - size)) = offset) as ->.
  { replace (offset + size - size) with offset by lia. rewrite wrapu_small, wraps_small by int_solve. done. }
  destruct (client_ids cfg offset size k Hk Hcs Ho Hs Hb) as [-> ->]. fold groups.
  set (n1 := MkCluster (daemons n) (regions n ++ [take (Z.to_nat size) buf])).
  rewrite (m_bind_ok _ _ n (Some (length (regions n))) n1) by done.
  destruct (post_writes (targets groups) (length (regions n)) (take (Z.to_nat size) buf) n1)
    as (outs & n' & E & L1 & _ & Hoth & Hall); [done| |done| | |].
  - apply (gi_nodup _ _ _ _ _ _ (range_groups_inv cfg d path offset size)).
  - cbn. by rewrite list_lookup_middle.
  - rewrite length_take. lia.
  - exists outs, n'. rewrite (m_bind_ok _ _ n1 _ n' E). done.
Qed.

(** The host of a byte of the range is a target. *)
Lemma byte_target o : offset <= o < offset + size ->
  let t := locate_data d path (o / cs) in t ∈ targets groups /\ o / cs ∈ ids_at t.
Proof using Hk Hcs Ho Hs.
  intros Hr t. pose proof (cs_pos k _ Hk Hcs) as Hpos.
  assert (o / cs ∈ ids cs offset size) as Hin.
  { apply elem_of_ids; [done..|]. by apply byte_chunk_range. }
  split.
  - apply (gi_targets _ _ _ _ _ _ (range_groups_inv cfg d path offset size)). by exists (o / cs).
  - by apply list_elem_of_filter.
Qed.

(** A write leaves the bytes outside its range alone. *)
Lemma prefixes_keep client kf t f f' o b :
  wrote_prefixes st cs offset size path client kf (ids_at t) f f' -> Z.of_nat (length client) = size ->
  0 <= o -> ~ (offset <= o < offset + size) -> o / cs < 2 ^ 32 ->
  default [] (fs_file f (chunk_file st path (o / cs))) !! Z.to_nat (o mod cs) = Some b ->
  default [] (fs_file f' (chunk_file st path (o / cs))) !! Z.to_nat (o mod cs) = Some b.
Proof using Hk Hcs Ho Hs H32.
  intros W Hlt H0 Hout Hid Hold. pose proof (cs_range cfg k Hk Hcs) as Hcr.
  pose proof (Z.div_mod o cs ltac:(lia)) as DM. pose proof (Z.mod_pos_bound o cs ltac:(lia)).
  destruct (decide (o / cs ∈ ids_at t)) as [Hin|Hnin].
  - eapply (wrote_keeps st cs offset size path _ Hcr Ho Hs Hlt kf _ _ _ W); [done|by eapply ids_at_range| |done].
    lia.
  - rewrite (proj2 W); [done|]. intros x Hx Eq.
    pose proof (ids_at_range t x Hx). pose proof (first_le_last cs offset size ltac:(lia) Ho Hs).
    assert (0 <= o / cs) by (apply Z.div_pos; lia).
    apply chunk_file_inj in Eq as [_ Eq]; [by rewrite Eq in Hnin|unfold in_u; lia..].
Qed.

(** Writes leave the metadata stores alone. *)
Lemma writes_keep_mdb client (n n' : cluster D F) ts outs h :
  (forall h, 0 <= h -> h ∉ ts -> daemons n' !! Z.to_nat h = daemons n !! Z.to_nat h) ->
  Forall2 (fun t out => exists s s', daemons n !! Z.to_nat t = Some s /\
      daemons n' !! Z.to_nat t = Some s' /\ wrote_host client t s s' out) ts outs ->
  0 <= h -> mdb <$> daemons n' !! Z.to_nat h = mdb <$> daemons n !! Z.to_nat h.
Proof using.
  intros Hoth Hall Hh. destruct (decide (h ∈ ts)) as [Ht|Ht]; [|by rewrite Hoth].
  apply list_elem_of_lookup in Ht as [i Hi].
  destruct (Forall2_lookup_l _ _ _ _ _ Hall Hi) as (o & _ & s & s' & E1 & E2 & kf & _ & _ & _ & Em).
  rewrite E1, E2. csimpl. by rewrite Em.
Qed.

(** A write that returns the full size writes the flat file. *)
Lemma forward_write_flat buf in_offset (n n' : cluster D F) e :
  Z.of_nat (length (daemons n)) = hosts_size -> size <= Z.of_nat (length buf) ->
  forward_write (W := net) cfg d hosts_size path buf false in_offset size (offset + size) n =
    (Ok (size, e), n') ->
  length (daemons n') = length (daemons n) /\
  (forall h, 0 <= h -> mdb <$> daemons n' !! Z.to_nat h = mdb <$> daemons n !! Z.to_nat h) /\
  (forall o, offset <= o < offset + size -> flat cfg st d n' path o = buf !! Z.to_nat (o - offset)) /\
  (forall o b, 0 <= o -> ~ (offset <= o < offset + size) -> o / cs < 2 ^ 32 ->
     flat cfg st d n path o = Some b -> flat cfg st d n' path o = Some b) /\
  (forall q h, (forall id, id ∈ ids cs offset size -> q <> chunk_file st path id) -> 0 <= h ->
     (s ← daemons n' !! Z.to_nat h; fs_file (storage s) q) =
     (s ← daemons n !! Z.to_nat h; fs_file (storage s) q)).
Proof using All.
  intros Hl Hbuf E. pose proof (cs_pos k _ Hk Hcs) as Hpos. pose proof (cs_range cfg k Hk Hcs) as Hcr.
  destruct (forward_write_posts buf in_offset n Hl Hbuf) as (outs & n1 & E1 & L1 & Hoth & Hall).
  rewrite E1 in E. apply wait_all_ok in E as (-> & _ & Hz & Hsum); [|lia].
  destruct (replies_complete _ _ _ _ _ Hall) as [Hb1 Hcomp]. rewrite shares_total in Hb1, Hcomp.
  assert (forall t, t ∈ targets groups -> exists s s' kf, daemons n !! Z.to_nat t = Some s /\
      daemons n1 !! Z.to_nat t = Some s' /\
      wrote_prefixes st cs offset size path (take (Z.to_nat size) buf) kf (ids_at t) (storage s) (storage s') /\
      forall id, id ∈ ids_at t -> kf id = psize cs offset size id) as Hdone.
  { apply Hcomp; [done|]. symmetry. apply Hsum; [done| |lia]. intros o Ho'.
    clear -Hall Ho'. induction Hall as [|t x ts outs (s & s' & _ & _ & kf & _ & Hx & _) H IH];
      [by apply not_elem_of_nil in Ho'|]. apply elem_of_cons in Ho' as [->|Ho']; [lia|auto]. }
  assert (Z.of_nat (length (take (Z.to_nat size) buf)) = size) as Hlt by (rewrite length_take; lia).
  split; [done|]. split; [intros h Hh; by eapply writes_keep_mdb|]. split; [|split].
  - intros o Hr. destruct (byte_target o Hr) as [Ht Hid].
    destruct (Hdone _ Ht) as (s & s' & kf & Es & Es' & W & Hf). unfold flat.
    rewrite (chunk_on_host n1 _ _ _ Es'), (wrote_all_lookup st cs offset size path _ Hcr Ho Hs Hlt kf _ _ _ W)
      by auto.
    apply lookup_take_lt. lia.
  - intros o b H0 Hout Hid Hold. unfold flat in *. set (t := locate_data d path (o / cs)) in *.
    assert (0 <= t < hosts_size) as Htr by apply (locate_data_range (DistributorOk := d_ok)).
    destruct (decide (t ∈ targets groups)) as [Ht|Ht].
    2:{ unfold chunk_on in *. by rewrite Hoth by (done || lia). }
    destruct (Hdone _ Ht) as (s & s' & kf & Es & Es' & W & Hf).
    rewrite (chunk_on_host n1 _ _ _ Es'). rewrite (chunk_on_host n _ _ _ Es) in Hold.
    by eapply prefixes_keep.
  - intros q h Hq Hh. destruct (decide (h ∈ targets groups)) as [Ht|Ht].
    + destruct (Hdone _ Ht) as (s & s' & kf & -> & -> & W & _). csimpl. apply (proj2 W).
      intros id [_ Hid]%list_elem_of_filter. by apply Hq.
    + by rewrite Hoth.
Qed.

(** *** Reading *)

(** All files of all hosts are the same. *)
Definition same_files (n n' : cluster D F) : Prop := forall h q,
  (s ← daemons n' !! h; fs_file (storage s) q) = (s ← daemons n !! h; fs_file (storage s) q).

Lemma same_files_flat n n' o : same_files n n' -> flat cfg st d n' path o = flat cfg st d n path o.
Proof using. intros H. unfold flat, chunk_on. by rewrite H. Qed.

(** What host [t] holds of chunk [id] in the range. *)
Definition held (n : cluster D F) (t id : Z) : list byte :=
  read_at (chunk_on st n path t id) (Z.to_nat (chunk_off cs offset id)) (Z.to_nat (psize cs offset size id)).

Lemma read_post t mem client (n : cluster D F) s :
  t ∈ targets groups -> daemons n !! Z.to_nat t = Some s -> regions n !! mem = Some client ->
  Z.of_nat (length client) = size ->
  exists out s' client', post (Network := net) t (RpcReadData (input t) mem) n =
      (Some (replied out), MkCluster (<[Z.to_nat t := s']> (daemons n)) (<[mem := client']> (regions n))) /\
    fs_file (storage s') = fs_file (storage s) /\ length client' = length client /\
    (exists l, l `prefix_of` ids_at t /\ client' = fill st cs offset size path (storage s) l client) /\
    (out_err out = 0 ->
      client' = fill st cs offset size path (storage s) (ids_at t) client /\
      out_io_size out = zsum (fun id => Z.of_nat (length (held n t id))) (ids_at t)).
Proof using All.
  intros Ht Hsd Hmem Hc. simpl. unfold cluster_post. rewrite Hsd. cbn [run_rpc].
  rewrite Hmem. cbn [default from_option id]. unfold m_bind, on_storage.
  destruct (rpc_srv_read cfg str_hash st env (input t) client [] (storage s)) as [r f'] eqn:E.
  destruct Henv as [E1 E2 E3 E4 E5 E6]. pose proof (cs_range cfg k Hk Hcs).
  apply (rpc_srv_read_spec st cs offset size path) in E as (Ef & out & c' & -> & Hlen & Hpre & Hok);
    [|done || lia || by apply input_request..].
  rewrite input_host_ids in Hok, Hpre.
  exists out, (MkDaemon (mdb s) f'), c'. do 4 (split; [done|]).
  intros Hz. destruct (Hok Hz) as [-> ->]. split; [done|].
  apply zsum_ext. intros id _. unfold stored, held. by rewrite (chunk_on_host n t id s).
Qed.

(** The chunks of another target do not fill a byte. *)
Lemma other_target_byte t s l client i :
  l `prefix_of` ids_at t -> Z.of_nat (length client) = size -> 0 <= i < size ->
  locate_data d path ((offset + i) / cs) <> t ->
  fill st cs offset size path s l client !! Z.to_nat i = client !! Z.to_nat i.
Proof using Hk Hcs Ho Hs.
  intros Hpre Hc Hi Hne. pose proof (cs_range cfg k Hk Hcs) as Hcr.
  assert (forall id, id ∈ l -> id ∈ ids_at t) as Hin by (intros id Hid; by eapply elem_of_prefix).
  rewrite (lookup_fill st cs offset size path Hcr Ho Hs s l client i); [|by intros id Hid; eapply ids_at_range, Hin| |done|done].
  - rewrite decide_False; [done|]. by intros [? _]%Hin%list_elem_of_filter.
  - destruct Hpre as [l2 Hl2]. assert (NoDup (ids_at t)) as Hnd by apply NoDup_filter, ids_nodup.
    rewrite Hl2 in Hnd. by apply NoDup_app in Hnd as [? _].
Qed.

(** A byte of the buffer after target [t] has answered. *)
Lemma target_byte t s client (n : cluster D F) i :
  daemons n !! Z.to_nat t = Some s -> Z.of_nat (length client) = size -> 0 <= i < size ->
  fill st cs offset size path (storage s) (ids_at t) client !! Z.to_nat i =
    if decide (locate_data d path ((offset + i) / cs) = t)
    then match flat cfg st d n path (offset + i) with Some b => Some b | None => client !! Z.to_nat i end
    else client !! Z.to_nat i.
Proof using Hk Hcs Ho Hs.
  intros Hsd Hc Hi. pose proof (cs_range cfg k Hk Hcs) as Hcr.
  rewrite (lookup_fill st cs offset size path Hcr Ho Hs (storage s) (ids_at t) client i
    (ids_at_range t) ltac:(apply NoDup_filter, ids_nodup) Hc Hi).
  pose proof (byte_target (offset + i) ltac:(lia)) as [_ Hin].
  destruct (decide (locate_data d path ((offset + i) / cs) = t)) as [Et|Et].
  - rewrite Et in Hin. rewrite decide_True by done. unfold flat. by rewrite Et, (chunk_on_host n t _ s Hsd).
  - by rewrite decide_False by (intros [? _]%list_elem_of_filter; done).
Qed.

Lemma post_reads ts mem client (n : cluster D F) :
  (forall t, t ∈ ts -> t ∈ targets groups) -> NoDup ts ->
  Z.of_nat (length (daemons n)) = hosts_size -> regions n !! mem = Some client ->
  Z.of_nat (length client) = size ->
  exists outs n' client', post_all (W := net) hosts_size (fun t => RpcReadData (input t) mem) ts n =
      (Ok (Some (replied <$> outs)), n') /\
    length (daemons n') = length (daemons n) /\ same_files n n' /\
    regions n' !! mem = Some client' /\ length client' = length client /\
    ((forall o, o ∈ outs -> out_err o = 0) ->
      (forall o, o ∈ outs -> 0 <= out_io_size o) /\
      (forall i, 0 <= i < size -> client' !! Z.to_nat i =
         match flat cfg st d n path (offset + i) with
         | Some b => if decide (locate_data d path ((offset + i) / cs) ∈ ts) then Some b else client !! Z.to_nat i
         | None => client !! Z.to_nat i
         end) /\
      zsum out_io_size outs =
        zsum (fun t => zsum (fun id => Z.of_nat (length (held n t id))) (ids_at t)) ts).
Proof using All.
  intros Hts Hnd. revert n client. induction Hnd as [|t ts Hni Hnd IH]; intros n client Hl Hmem Hc.
  { exists [], n, client. do 5 (split; [done|]). intros _. split; [intros o H; by apply not_elem_of_nil in H|].
    split; [|done]. intros i Hi. by case_match. }
  assert (t ∈ targets groups) as Ht by (apply Hts; constructor).
  pose proof (target_range t Ht) as Hr.
  destruct (lookup_lt_is_Some_2 (daemons n) (Z.to_nat t)) as [s Hsd]; [lia|].
  destruct (read_post t mem client n s Ht Hsd Hmem Hc) as (out & s' & c1 & Epost & Hfs & Hlc & _ & Hok).
  cbn [post_all]. rewrite (m_bind_ok _ _ n t n).
  2:{ unfold host_at. rewrite (proj2 (Z.leb_le _ _)), (proj2 (Z.ltb_lt _ _)) by lia. done. }
  unfold m_bind at 1, net_post. rewrite Epost.
  set (n1 := MkCluster (<[Z.to_nat t := s']> (daemons n)) (<[mem := c1]> (regions n))).
  assert (same_files n n1) as Hsf.
  { intros h q. cbn. destruct (decide (h = Z.to_nat t)) as [->|].
    - rewrite list_lookup_insert_eq, Hsd by lia. csimpl. by rewrite Hfs.
    - by rewrite list_lookup_insert_ne by done. }
  destruct (IH ltac:(intros x Hx; apply Hts; by constructor) n1 c1)
    as (outs & n' & c' & E & L1 & Hsf' & Hreg & Hlc' & Hall).
  { cbn. by rewrite length_insert. }
  { cbn. apply list_lookup_insert_eq. by apply lookup_lt_Some in Hmem. }
  { lia. }
  exists (out :: outs), n', c'. unfold m_bind. rewrite E. split; [done|].
  split; [cbn in L1; by rewrite length_insert in L1|].
  split; [intros h q; by rewrite Hsf', Hsf|]. split; [done|]. split; [lia|].
  intros He. destruct (Hok (He out ltac:(constructor))) as [E1 E2].
  destruct Hall as (Hnn & Hbytes & Hsum); [intros o Ho'; apply He; by constructor|].
  split; [|split].
  - intros o [->|Ho']%elem_of_cons; [|by apply Hnn]. rewrite E2. apply zsum_nonneg. intros. lia.
  - intros i Hi. rewrite Hbytes, (same_files_flat n n1) by done.
    rewrite E1, (target_byte t s client n) by done.
    destruct (flat cfg st d n path (offset + i)); [|by destruct (decide _)].
    destruct (decide (locate_data d path ((offset + i) / cs) = t)) as [Et|Et].
    + rewrite decide_False by (by rewrite Et). by rewrite decide_True by (rewrite Et; constructor).
    + rewrite (decide_ext _ (locate_data d path ((offset + i) / cs) ∈ t :: ts)); [done|].
      rewrite elem_of_cons. naive_solver.
  - cbn [zsum]. rewrite E2, Hsum. f_equal. apply zsum_ext. intros x _. apply zsum_ext. intros id _.
    unfold held, chunk_on. by rewrite Hsf.
Qed.

(** A range whose bytes are all stored is held completely. *)
Lemma held_target (n : cluster D F) t :
  (forall o, offset <= o < offset + size -> is_Some (flat cfg st d n path o)) ->
  zsum (fun id => Z.of_nat (length (held n t id))) (ids_at t) = zsum (psize cs offset size) (ids_at t).
Proof using Hk Hcs Ho Hs.
  intros Hf. apply zsum_ext. intros id Hid.
  pose proof (ids_at_range t id Hid) as Hr. apply list_elem_of_filter in Hid as [Et _].
  pose proof (cs_pos k _ Hk Hcs) as Hpos.
  pose proof (lo_hi cs offset size Hpos Ho Hs id Hr) as LH.
  pose proof (chunk_off_bounds cs offset size Hpos Ho Hs id Hr) as CB.
  assert (offset <= hi cs offset size id - 1 < offset + size) as Hor by lia.
  pose proof (proj1 (in_piece cs offset size Hpos Ho Hs id (hi cs offset size id - 1) Hr Hor) ltac:(lia)) as Eid.
  destruct (Hf _ Hor) as [b Hb']. unfold flat in Hb'. rewrite Eid, Et in Hb'.
  apply lookup_lt_Some in Hb'. unfold held. rewrite length_read_at.
  pose proof (Z.div_mod (hi cs offset size id - 1) cs ltac:(lia)) as DM. rewrite Eid in DM.
  unfold psize, chunk_off in *. lia.
Qed.

Lemma held_complete (n : cluster D F) :
  (forall o, offset <= o < offset + size -> is_Some (flat cfg st d n path o)) ->
  zsum (fun t => zsum (fun id => Z.of_nat (length (held n t id))) (ids_at t)) (targets groups) = size.
Proof using Hk Hcs Ho Hs. intros Hf. rewrite <- shares_total at 2. apply zsum_ext. intros t _. by apply held_target. Qed.

(** A read without error of a range that is stored returns its bytes. *)
Lemma forward_read_flat buf (n n' : cluster D F) r e buf' :
  Z.of_nat (length (daemons n)) = hosts_size -> size <= Z.of_nat (length buf) ->
  (forall o, offset <= o < offset + size -> is_Some (flat cfg st d n path o)) ->
  forward_read (W := net) cfg d hosts_size path buf offset size n = (Ok ((r, e), buf'), n') -> 0 <= r ->
  r = size /\ same_files n n' /\ length buf' = length buf /\
  (forall i, 0 <= i < size -> buf' !! Z.to_nat i = flat cfg st d n path (offset + i)).
Proof using All.
  intros Hl Hbuf Hf. unfold forward_read.
  destruct (client_ids cfg offset size k Hk Hcs Ho Hs Hb) as [-> ->]. fold groups.
  set (client := take (Z.to_nat size) buf).
  assert (Z.of_nat (length client) = size) as Hc by (unfold client; rewrite length_take; lia).
  set (n1 := MkCluster (daemons n) (regions n ++ [client])).
  rewrite (m_bind_ok _ _ n (Some (length (regions n))) n1) by done.
  destruct (post_reads (targets groups) (length (regions n)) client n1)
    as (outs & n2 & c' & E & L1 & Hsf & Hreg & Hlc & Hall); [done| |done| |done|].
  { apply (gi_nodup _ _ _ _ _ _ (range_groups_inv cfg d path offset size)). }
  { cbn. by rewrite list_lookup_middle. }
  rewrite (m_bind_ok _ _ n1 _ n2 E). unfold m_bind at 1.
  destruct (wait_all (replied <$> outs) false None 0 n2) as [[[r1 e1]| |] n3] eqn:Ew; [|done|done].
  unfold m_bind, m_gets, m_ret. intros Eq Hr. injection Eq as -> -> Eb <-.
  apply wait_all_ok in Ew as (-> & _ & Hz & Hsum); [|done].
  destruct (Hall Hz) as (Hnn & Hbytes & Etot).
  assert (forall o, flat cfg st d n1 path o = flat cfg st d n path o) as Hfl by done.
  change (zsum (fun t => zsum (fun id => Z.of_nat (length (held n1 t id))) (ids_at t)) (targets groups))
    with (zsum (fun t => zsum (fun id => Z.of_nat (length (held n t id))) (ids_at t)) (targets groups)) in Etot.
  rewrite held_complete in Etot by done.
  rewrite Etot in Hsum. rewrite Hsum by (done || lia). split; [lia|].
  cbn [region ClusterNet] in Eb. rewrite Hreg in Eb. cbn in Eb. subst buf'.
  split; [by intros h q; rewrite (Hsf h q)|].
  assert (Z.to_nat size <= length buf)%nat by lia.
  split; [rewrite length_app, length_drop; unfold client in *; rewrite length_take in *; lia|].
  intros i Hi. rewrite lookup_app_l by lia. rewrite Hbytes by done.
  destruct (Hf (offset + i) ltac:(lia)) as [b Hb']. rewrite Hfl, Hb'.
  rewrite decide_True; [done|]. by apply byte_target; lia.
Qed.
End data_path.

(** ** Properties *)

(** The setting of the data path: chunks of a power of two, the same on the
    daemons, a range whose ids fit, and daemons that get their requests. *)
Record data_ok (cfg : config) (st : ChunkStorage) (env : margo_env) (hosts_size offset size : Z) (path : str)
    : Prop := {
  do_forwarding : enable_forwarding cfg = false;
  do_chunksize : exists k, 0 <= k < 63 /\ chunksize cfg = 2 ^ k;
  do_storage : cs_chunksize st = chunksize cfg;
  do_env : env_ok env;
  do_hosts : 0 < hosts_size < 2 ^ 32;
  do_offset : 0 <= offset;
  do_size : 0 < size;
  do_end : offset + size < 2 ^ 63;
  do_ids : last_id (chunksize cfg) offset size < 2 ^ 32;
  do_path : file_path_ok path
}.

Lemma wait_all_returns {N} outs error errno acc (n : N) :
  exists r e, wait_all (replied <$> outs) error errno acc n = (Ok (r, e), n).
Proof.
  revert error errno acc. induction outs as [|o outs IH]; intros error errno acc; [by eexists _, _|].
  csimpl. unfold m_bind, net_get, replied at 1. apply IH.
Qed.

Section properties.
Context {D F : Type} (R : RocksDB D) (P : PosixFS F) (L : PosixFSLaws P).
Context (cfg : config) (junk : Metadata) (st : ChunkStorage) (str_hash : str -> Z) (env : margo_env).
Context (time localhost_ hosts_size offset size : Z) (path : str).
Local Abbreviation d := (SimpleHashDistributor str_hash localhost_ hosts_size).
Local Abbreviation net := (ClusterNet cfg junk st str_hash env time).

(** C3. [forward_write] is a write of the distributed flat file: when it
    returns the full size, every byte of the range is the caller's on the
    host that byte is located at, bytes of the file outside the range are
    kept, and no file other than the chunks of the range changed on any
    host. *)
Theorem cluster_write_is_flat_write (buf : list byte) (in_offset : Z) (n n' : cluster D F) (e : option Z) :
  data_ok cfg st env hosts_size offset size path ->
  Z.of_nat (length (daemons n)) = hosts_size -> size <= Z.of_nat (length buf) ->
  forward_write (W := net) cfg d hosts_size path buf false in_offset size (offset + size) n =
    (Ok (size, e), n') ->
  (forall o, offset <= o < offset + size -> flat cfg st d n' path o = buf !! Z.to_nat (o - offset)) /\
  (forall o b, 0 <= o -> ~ (offset <= o < offset + size) -> o / chunksize cfg < 2 ^ 32 ->
     flat cfg st d n path o = Some b -> flat cfg st d n' path o = Some b) /\
  (forall q h, (forall id, id ∈ ids (chunksize cfg) offset size -> q <> chunk_file st path id) -> 0 <= h ->
     (s ← daemons n' !! Z.to_nat h; fs_file (storage s) q) =
     (s ← daemons n !! Z.to_nat h; fs_file (storage s) q)).
Proof using L.
  intros [Hf (k & Hk & Hcs) Hst He Hh Ho Hs Hb H32 Hp] Hl Hbuf E.
  by apply (forward_write_flat cfg junk st str_hash env time localhost_ hosts_size k offset size path
    Hf Hk Hcs Hst He Hh Ho Hs Hb H32 Hp) in E as (_ & _ & E).
Qed.

(** [forward_write] always returns over the cluster, whatever the
    local file systems answer: with -1, or with a size between 0 and the
    size asked for. *)
Theorem cluster_write_returns (buf : list byte) (in_offset : Z) (n : cluster D F) :
  data_ok cfg st env hosts_size offset size path ->
  Z.of_nat (length (daemons n)) = hosts_size -> size <= Z.of_nat (length buf) ->
  exists r e n', forward_write (W := net) cfg d hosts_size path buf false in_offset size (offset + size) n =
    (Ok (r, e), n') /\ (r < 0 \/ 0 <= r <= size).
Proof using L.
  intros [Hf (k & Hk & Hcs) Hst He Hh Ho Hs Hb H32 Hp] Hl Hbuf.
  destruct (forward_write_posts cfg junk st str_hash env time localhost_ hosts_size k offset size path
    Hf Hk Hcs Hst He Hh Ho Hs Hb H32 Hp buf in_offset n Hl Hbuf) as (outs & n1 & -> & _ & _ & Hall).
  destruct (wait_all_returns outs false None 0 n1) as (r & e & E). exists r, e, n1. split; [done|].
  destruct (decide (0 <= r)) as [Hr|]; [|lia]. right.
  apply wait_all_ok in E as (_ & _ & Hz & Hsum); [|done].
  destruct (replies_complete cfg st str_hash localhost_ hosts_size k offset size path Hk _ _ _ _ _ Hall)
    as [Hb1 _].
  rewrite (shares_total cfg str_hash localhost_ hosts_size k offset size path) in Hb1 by done.
  rewrite Hsum; [lia|done| |lia]. intros o Ho'.
  clear -Hall Ho'. induction Hall as [|t x ts outs (s & s' & _ & _ & kf & _ & Hx & _) H IH];
    [by apply not_elem_of_nil in Ho'|]. apply elem_of_cons in Ho' as [->|Ho']; [lia|auto].
Qed.

(** Reading back a range that was written completely returns what was
    written: the size and the bytes, unless the read reports an error. *)
Theorem cluster_write_then_read (buf buf0 buf' : list byte) (in_offset : Z) (n n1 n2 : cluster D F)
    (e e' : option Z) (r : Z) :
  data_ok cfg st env hosts_size offset size path ->
  Z.of_nat (length (daemons n)) = hosts_size -> size <= Z.of_nat (length buf) ->
  size <= Z.of_nat (length buf0) ->
  forward_write (W := net) cfg d hosts_size path buf false in_offset size (offset + size) n =
    (Ok (size, e), n1) ->
  forward_read (W := net) cfg d hosts_size path buf0 offset size n1 = (Ok ((r, e'), buf'), n2) ->
  0 <= r ->
  r = size /\ take (Z.to_nat size) buf' = take (Z.to_nat size) buf.
Proof using L.
  intros [Hf (k & Hk & Hcs) Hst He Hh Ho Hs Hb H32 Hp] Hl Hbuf Hbuf0 Ew Er Hr.
  apply (forward_write_flat cfg junk st str_hash env time localhost_ hosts_size k offset size path
    Hf Hk Hcs Hst He Hh Ho Hs Hb H32 Hp) in Ew as (Hl1 & _ & Hw & _); [|done..].
  assert (forall o, offset <= o < offset + size -> is_Some (flat cfg st d n1 path o)) as Hall.
  { intros o Hor. rewrite Hw by done. apply lookup_lt_is_Some. lia. }
  apply (forward_read_flat cfg junk st str_hash env time localhost_ hosts_size k offset size path
    Hf Hk Hcs Hst He Hh Ho Hs Hb H32 Hp) in Er as (-> & _ & Hlen & Hbytes); [|lia|done|done|done].
  split; [done|]. apply list_eq. intros i. destruct (decide (i < Z.to_nat size)%nat).
  - rewrite !lookup_take_lt by done. specialize (Hbytes (Z.of_nat i) ltac:(lia)).
    rewrite Nat2Z.id in Hbytes. rewrite Hbytes, Hw by lia. f_equal. lia.
  - rewrite !lookup_take_ge by lia. done.
Qed.
End properties.

Definition example_cluster : cluster (gmap str db_entry) memfs :=
  MkCluster [MkDaemon ∅ empty_fs; MkDaemon ∅ empty_fs] [].

Lemma small_data_ok : data_ok small_config small_store good_env 2 3 10 (s_ "/f").
Proof.
  split; try done; try lia.
  - exists 2. split; [lia|done].
  - apply good_env_ok.
  - by eexists _, _.
Qed.

Local Abbreviation small_net :=
  (ClusterNet (R := MemDB (FullMergeV2 small_config example_md)) (P := MemFS)
     small_config example_md small_store last_char_hash good_env 0).
Local Abbreviation small_d := (SimpleHashDistributor last_char_hash 0 2).

(** The write and the read of the witnesses. *)
Local Abbreviation small_write :=
  (forward_write (W := small_net) small_config small_d 2 (s_ "/f") (s_ "abcdefghij") false 0 10 (3 + 10)
     example_cluster).

Lemma small_write_ok : small_write.1 = Ok (10, None).
Proof. vm_compute. reflexivity. Qed.

Lemma small_read_ok :
  (forward_read (W := small_net) small_config small_d 2 (s_ "/f") (s_ "..........") 3 10 small_write.2).1 =
  Ok ((10, None), s_ "abcdefghij").
Proof. vm_compute. reflexivity. Qed.

Lemma cluster_write_is_flat_write_witness :
  flat small_config small_store small_d small_write.2 (s_ "/f") 12 = s_ "abcdefghij" !! Z.to_nat (12 - 3).
Proof.
  refine (proj1 (cluster_write_is_flat_write (MemDB (FullMergeV2 small_config example_md)) MemFS _
    small_config example_md small_store last_char_hash good_env 0 0 2 3 10 (s_ "/f") (s_ "abcdefghij") 0
    example_cluster small_write.2 None small_data_ok eq_refl _ _) 12 _).
  - simpl. lia.
  - by rewrite <- small_write_ok, <- surjective_pairing.
  - lia.
Defined.

Lemma cluster_write_returns_witness :
  exists r e n', small_write = (Ok (r, e), n') /\ (r < 0 \/ 0 <= r <= 10).
Proof.
  apply (cluster_write_returns (MemDB (FullMergeV2 small_config example_md)) MemFS _
    small_config example_md small_store last_char_hash good_env 0 0 2 3 10 (s_ "/f") (s_ "abcdefghij") 0
    example_cluster small_data_ok eq_refl).
  simpl. lia.
Defined.

Lemma cluster_write_then_read_witness :
  10 = 10 /\ take (Z.to_nat 10) (s_ "abcdefghij") = take (Z.to_nat 10) (s_ "abcdefghij").
Proof.
  refine (cluster_write_then_read (MemDB (FullMergeV2 small_config example_md)) MemFS _
    small_config example_md small_store last_char_hash good_env 0 0 2 3 10 (s_ "/f")
    (s_ "abcdefghij") (s_ "..........") (s_ "abcdefghij") 0 example_cluster small_write.2
    (forward_read (W := small_net) small_config small_d 2 (s_ "/f") (s_ "..........") 3 10 small_write.2).2
    None None 10 small_data_ok eq_refl _ _ _ _ _).
  - simpl. lia.
  - simpl. lia.
  - by rewrite <- small_write_ok, <- surjective_pairing.
  - by rewrite <- small_read_ok, <- surjective_pairing.
  - lia.
Defined.
