(* ===== verification/Wire.v ===== *)
(** * Requests on the wire ([include/client/rpc/rpc_types.hpp],
    [include/global/rpc/rpc_types.hpp], [register_server_rpcs] of
    [src/daemon/daemon.cpp])

    A request class of the client converts its input to a Mercury structure
    and its output from one; the daemon registers, for each tag, a handler
    with the structures it reads and answers with.  Mercury transports the
    fields of a structure in order, each at its width; strings are C
    strings, and a null pointer is a value of its own.  [Cluster] passes
    requests to the daemons directly: the theorems here say that this is
    what travelling through the structures amounts to. *)

From S2P Require Import Prelude Config Distributor Metadata Merge MetadataDB ChunkStorage ChunkPlan SrvData SrvMetadata.
From S2P Require Import ChunkCalc Rpc ForwardData Cluster.

(** ** Mercury structures *)

Inductive hg_type := hg_string | hg_int32 | hg_uint32 | hg_int64 | hg_uint64 | hg_bool | hg_bulk.

Inductive hg_value :=
| VString (s : option str)
| VInt32 (v : Z)
| VUint32 (v : Z)
| VInt64 (v : Z)
| VUint64 (v : Z)
| VBool (b : bool)
| VBulk (b : nat).

#[export] Instance hg_type_eq_dec : EqDecision hg_type.
Proof. solve_decision. Defined.

(** A value of a type: what the field of a structure can hold. *)
Definition has_type (v : hg_value) (t : hg_type) : Prop :=
  match v, t with
  | VString s, hg_string => match s with Some s => NUL ∉ s | None => True end
  | VInt32 v, hg_int32 => in_s 32 v
  | VUint32 v, hg_uint32 => in_u 32 v
  | VInt64 v, hg_int64 => in_s 64 v
  | VUint64 v, hg_uint64 => in_u 64 v
  | VBool _, hg_bool | VBulk _, hg_bulk => True
  | _, _ => False
  end.

(** A structure: its name and the types of its fields ([MERCURY_GEN_PROC]);
    [hg_size_t] is [hg_uint64_t]. *)
Record hg_struct := MkStruct { struct_name : str; fields : list hg_type }.
#[export] Instance hg_struct_eq_dec : EqDecision hg_struct.
Proof. solve_decision. Defined.

Definition hg_void_t := MkStruct (s_ "hg_void_t") [].
Definition rpc_err_out_t := MkStruct (s_ "rpc_err_out_t") [hg_int32].
Definition rpc_mk_node_in_t := MkStruct (s_ "rpc_mk_node_in_t") [hg_string; hg_uint32].
Definition rpc_path_only_in_t := MkStruct (s_ "rpc_path_only_in_t") [hg_string].
Definition rpc_stat_out_t := MkStruct (s_ "rpc_stat_out_t") [hg_int32; hg_string].
Definition rpc_rm_node_in_t := MkStruct (s_ "rpc_rm_node_in_t") [hg_string].
Definition rpc_trunc_in_t := MkStruct (s_ "rpc_trunc_in_t") [hg_string; hg_uint64].
Definition rpc_update_metadentry_in_t := MkStruct (s_ "rpc_update_metadentry_in_t")
  ([hg_string; hg_uint64; hg_uint32; hg_uint32; hg_uint32; hg_int64; hg_int64; hg_int64; hg_int64; hg_int64] ++
   replicate 7 hg_bool).
Definition rpc_update_metadentry_size_in_t := MkStruct (s_ "rpc_update_metadentry_size_in_t")
  [hg_string; hg_uint64; hg_int64; hg_bool].
Definition rpc_update_metadentry_size_out_t := MkStruct (s_ "rpc_update_metadentry_size_out_t") [hg_int32; hg_int64].
Definition rpc_get_metadentry_size_out_t := MkStruct (s_ "rpc_get_metadentry_size_out_t") [hg_int32; hg_int64].
Definition rpc_mk_symlink_in_t := MkStruct (s_ "rpc_mk_symlink_in_t") [hg_string; hg_string].
Definition data_fields : list hg_type := [hg_string; hg_int64] ++ replicate 6 hg_uint64 ++ [hg_bulk].
Definition rpc_read_data_in_t := MkStruct (s_ "rpc_read_data_in_t") data_fields.
Definition rpc_write_data_in_t := MkStruct (s_ "rpc_write_data_in_t") data_fields.
Definition rpc_data_out_t := MkStruct (s_ "rpc_data_out_t") [hg_int32; hg_uint64].
Definition rpc_get_dirents_in_t := MkStruct (s_ "rpc_get_dirents_in_t") [hg_string; hg_bulk].
Definition rpc_get_dirents_out_t := MkStruct (s_ "rpc_get_dirents_out_t") [hg_int32; hg_uint64].
Definition rpc_config_out_t := MkStruct (s_ "rpc_config_out_t")
  ([hg_string; hg_string] ++ replicate 5 hg_bool ++ [hg_uint32; hg_uint32]).
Definition rpc_chunk_stat_in_t := MkStruct (s_ "rpc_chunk_stat_in_t") [hg_int32].
Definition rpc_chunk_stat_out_t := MkStruct (s_ "rpc_chunk_stat_out_t") [hg_uint64; hg_uint64; hg_uint64].

(** [gkfs::rpc::tag]. *)
Module tag.
Definition fs_config : str := s_ "rpc_srv_fs_config".
Definition create : str := s_ "rpc_srv_mk_node".
Definition stat : str := s_ "rpc_srv_stat".
Definition remove : str := s_ "rpc_srv_rm_node".
Definition decr_size : str := s_ "rpc_srv_decr_size".
Definition update_metadentry : str := s_ "rpc_srv_update_metadentry".
Definition get_metadentry_size : str := s_ "rpc_srv_get_metadentry_size".
Definition update_metadentry_size : str := s_ "rpc_srv_update_metadentry_size".
Definition get_dirents : str := s_ "rpc_srv_get_dirents".
Definition mk_symlink : str := s_ "rpc_srv_mk_symlink".
Definition write : str := s_ "rpc_srv_write_data".
Definition read : str := s_ "rpc_srv_read_data".
Definition truncate : str := s_ "rpc_srv_trunc_data".
Definition get_chunk_stat : str := s_ "rpc_srv_chunk_stat".
End tag.

(** ** The daemon's registrations *)

Definition register_server_rpcs (cfg : config) : list (str * (hg_struct * hg_struct)) :=
  [(tag.fs_config, (hg_void_t, rpc_config_out_t));
   (tag.create, (rpc_mk_node_in_t, rpc_err_out_t));
   (tag.stat, (rpc_path_only_in_t, rpc_stat_out_t));
   (tag.decr_size, (rpc_trunc_in_t, rpc_err_out_t));
   (tag.remove, (rpc_rm_node_in_t, rpc_err_out_t));
   (tag.update_metadentry, (rpc_update_metadentry_in_t, rpc_err_out_t));
   (tag.get_metadentry_size, (rpc_path_only_in_t, rpc_get_metadentry_size_out_t));
   (tag.update_metadentry_size, (rpc_update_metadentry_size_in_t, rpc_update_metadentry_size_out_t));
   (tag.get_dirents, (rpc_get_dirents_in_t, rpc_get_dirents_out_t))] ++
  (if has_symlinks cfg then [(tag.mk_symlink, (rpc_mk_symlink_in_t, rpc_err_out_t))] else []) ++
  [(tag.write, (rpc_write_data_in_t, rpc_data_out_t));
   (tag.read, (rpc_read_data_in_t, rpc_data_out_t));
   (tag.truncate, (rpc_trunc_in_t, rpc_err_out_t));
   (tag.get_chunk_stat, (rpc_chunk_stat_in_t, rpc_chunk_stat_out_t))].

(** ** The client's request classes *)

(** The traits of a request class: its name, its public identifier and its
    structures. *)
Record traits := MkTraits { rpc_name : str; public_id : Z; mercury_in : hg_struct; mercury_out : hg_struct }.

(** [m_path.c_str()]. *)
Definition c_str (s : str) : hg_value := VString (Some (cstr s)).

(** For each class its traits; the structure its input is converted to
    ([operator rpc_.._in_t()]), the constructor's parameters having their
    widths; and the output it builds from a structure
    ([output(const rpc_.._out_t&)]), [None] when that is another one. *)

Definition err_output (vs : list hg_value) : option Z := match vs with [VInt32 e] => Some e | _ => None end.

Definition fs_config_rpc := MkTraits tag.fs_config 3033006080 hg_void_t rpc_config_out_t.

Definition create_rpc := MkTraits tag.create 796590080 rpc_mk_node_in_t rpc_err_out_t.
Definition create_input (path : str) (mode : Z) : list hg_value := [c_str path; VUint32 (u32 mode)].
Definition create_output := err_output.

Definition stat_rpc := MkTraits tag.stat 1396244480 rpc_path_only_in_t rpc_stat_out_t.
Definition stat_input (path : str) : list hg_value := [c_str path].
Definition stat_output (vs : list hg_value) : option (Z * str) :=
  match vs with [VInt32 e; VString s] => Some (e, default [] s) | _ => None end.

Definition remove_rpc := MkTraits tag.remove 2549415936 rpc_rm_node_in_t rpc_err_out_t.
Definition remove_input (path : str) : list hg_value := [c_str path].
Definition remove_output := err_output.

Definition decr_size_rpc := MkTraits tag.decr_size 1291649024 rpc_trunc_in_t rpc_err_out_t.
Definition decr_size_input (path : str) (length_ : Z) : list hg_value := [c_str path; VUint64 (u64 length_)].
Definition decr_size_output := err_output.

Definition update_metadentry_rpc :=
  MkTraits tag.update_metadentry 99483648 rpc_update_metadentry_in_t rpc_err_out_t.
(** [forward_update_metadentry] gives 0 for the mode, the user and the group,
    and [false] for [mode_flag]. *)
Definition update_metadentry_input (path : str) (u : md_update) : list hg_value :=
  [c_str path; VUint64 (u64 (up_nlink u)); VUint32 0; VUint32 0; VUint32 0; VInt64 (i64 (up_size u));
   VInt64 (i64 (up_blocks u)); VInt64 (i64 (up_atime u)); VInt64 (i64 (up_mtime u)); VInt64 (i64 (up_ctime u));
   VBool (up_nlink_flag u); VBool false; VBool (up_size_flag u); VBool (up_block_flag u);
   VBool (up_atime_flag u); VBool (up_mtime_flag u); VBool (up_ctime_flag u)].
Definition update_metadentry_output := err_output.

Definition get_metadentry_size_rpc :=
  MkTraits tag.get_metadentry_size 3426484224 rpc_path_only_in_t rpc_get_metadentry_size_out_t.
Definition get_metadentry_size_input (path : str) : list hg_value := [c_str path].
Definition get_metadentry_size_output (vs : list hg_value) : option (Z * Z) :=
  match vs with [VInt32 e; VInt64 n] => Some (e, n) | _ => None end.

Definition update_metadentry_size_rpc :=
  MkTraits tag.update_metadentry_size 2760900608 rpc_update_metadentry_size_in_t rpc_update_metadentry_size_out_t.
Definition update_metadentry_size_input (path : str) (size offset : Z) (append : bool) : list hg_value :=
  [c_str path; VUint64 (u64 size); VInt64 (i64 offset); VBool append].
Definition update_metadentry_size_output (vs : list hg_value) : option (Z * Z) :=
  match vs with [VInt32 e; VInt64 n] => Some (e, n) | _ => None end.

Definition mk_symlink_rpc := MkTraits tag.mk_symlink 3207004160 rpc_mk_symlink_in_t rpc_err_out_t.
Definition mk_symlink_input (path target : str) : list hg_value := [c_str path; c_str target].
Definition mk_symlink_output := err_output.

(** [io_size] is a [size_t] that is returned as an [int64_t]. *)
Definition write_data_rpc := MkTraits tag.write 3716481024 rpc_write_data_in_t rpc_data_out_t.
Definition write_data_input (in_ : rpc_data_in) (bulk : nat) : list hg_value :=
  [c_str (in_path in_); VInt64 (i64 (in_offset in_)); VUint64 (u64 (in_host_id in_)); VUint64 (u64 (in_host_size in_));
   VUint64 (u64 (in_chunk_n in_)); VUint64 (u64 (in_chunk_start in_)); VUint64 (u64 (in_chunk_end in_));
   VUint64 (u64 (in_total_chunk_size in_)); VBulk bulk].
Definition write_data_output (vs : list hg_value) : option rpc_data_out :=
  match vs with [VInt32 e; VUint64 n] => Some (MkDataOut e (i64 n)) | _ => None end.

Definition read_data_rpc := MkTraits tag.read 892207104 rpc_read_data_in_t rpc_data_out_t.
Definition read_data_input (in_ : rpc_data_in) (bulk : nat) : list hg_value :=
  [c_str (in_path in_); VInt64 (i64 (in_offset in_)); VUint64 (u64 (in_host_id in_)); VUint64 (u64 (in_host_size in_));
   VUint64 (u64 (in_chunk_n in_)); VUint64 (u64 (in_chunk_start in_)); VUint64 (u64 (in_chunk_end in_));
   VUint64 (u64 (in_total_chunk_size in_)); VBulk bulk].
Definition read_data_output (vs : list hg_value) : option rpc_data_out :=
  match vs with [VInt32 e; VUint64 n] => Some (MkDataOut e (i64 n)) | _ => None end.

Definition trunc_data_rpc := MkTraits tag.truncate 1850933248 rpc_trunc_in_t rpc_err_out_t.
Definition trunc_data_input (path : str) (length_ : Z) : list hg_value := [c_str path; VUint64 (u64 length_)].
Definition trunc_data_output := err_output.

Definition get_dirents_rpc := MkTraits tag.get_dirents 4121034752 rpc_get_dirents_in_t rpc_get_dirents_out_t.
Definition get_dirents_input (path : str) (bulk : nat) : list hg_value := [c_str path; VBulk bulk].
Definition get_dirents_output (vs : list hg_value) : option (Z * Z) :=
  match vs with [VInt32 e; VUint64 n] => Some (e, n) | _ => None end.

Definition chunk_stat_rpc := MkTraits tag.get_chunk_stat 532742144 rpc_chunk_stat_in_t rpc_chunk_stat_out_t.
Definition chunk_stat_input (dummy : Z) : list hg_value := [VInt32 (i32 dummy)].
Definition chunk_stat_output (vs : list hg_value) : option ChunkStat :=
  match vs with [VUint64 s; VUint64 t; VUint64 f] => Some (MkChunkStat s t f) | _ => None end.

(** [register_user_request_types] of [src/client/rpc/rpc_types.cpp]. *)
Definition register_user_request_types (cfg : config) : list traits :=
  [fs_config_rpc; create_rpc; stat_rpc; remove_rpc; decr_size_rpc; update_metadentry_rpc; get_metadentry_size_rpc;
   update_metadentry_size_rpc] ++
  (if has_symlinks cfg then [mk_symlink_rpc] else []) ++
  [write_data_rpc; read_data_rpc; trunc_data_rpc; get_dirents_rpc; chunk_stat_rpc].

(** The class of each request. *)
Definition request_traits {R} (q : rpc R) : traits :=
  match q with
  | RpcCreate _ _ => create_rpc
  | RpcStat _ => stat_rpc
  | RpcRemove _ => remove_rpc
  | RpcDecrSize _ _ => decr_size_rpc
  | RpcUpdateMetadentry _ _ => update_metadentry_rpc
  | RpcUpdateMetadentrySize _ _ _ _ => update_metadentry_size_rpc
  | RpcGetMetadentrySize _ => get_metadentry_size_rpc
  | RpcGetDirents _ _ => get_dirents_rpc
  | RpcMkSymlink _ _ => mk_symlink_rpc
  | RpcWriteData _ _ => write_data_rpc
  | RpcReadData _ _ => read_data_rpc
  | RpcTruncData _ _ => trunc_data_rpc
  | RpcChunkStat => chunk_stat_rpc
  end.

Definition to_mercury {R} (q : rpc R) : list hg_value :=
  match q with
  | RpcCreate path mode => create_input path mode
  | RpcStat path => stat_input path
  | RpcRemove path => remove_input path
  | RpcDecrSize path length_ => decr_size_input path length_
  | RpcUpdateMetadentry path u => update_metadentry_input path u
  | RpcUpdateMetadentrySize path size offset append => update_metadentry_size_input path size offset append
  | RpcGetMetadentrySize path => get_metadentry_size_input path
  | RpcGetDirents path bulk => get_dirents_input path bulk
  | RpcMkSymlink path target => mk_symlink_input path target
  | RpcWriteData in_ bulk => write_data_input in_ bulk
  | RpcReadData in_ bulk => read_data_input in_ bulk
  | RpcTruncData path length_ => trunc_data_input path length_
  | RpcChunkStat => chunk_stat_input 0
  end.

Definition of_mercury {R} (q : rpc R) (vs : list hg_value) : option R :=
  match q in rpc R return option R with
  | RpcCreate _ _ => create_output vs
  | RpcStat _ => stat_output vs
  | RpcRemove _ => remove_output vs
  | RpcDecrSize _ _ => decr_size_output vs
  | RpcUpdateMetadentry _ _ => update_metadentry_output vs
  | RpcUpdateMetadentrySize _ _ _ _ => update_metadentry_size_output vs
  | RpcGetMetadentrySize _ => get_metadentry_size_output vs
  | RpcGetDirents _ _ => get_dirents_output vs
  | RpcMkSymlink _ _ => mk_symlink_output vs
  | RpcWriteData _ _ => write_data_output vs
  | RpcReadData _ _ => read_data_output vs
  | RpcTruncData _ _ => trunc_data_output vs
  | RpcChunkStat => chunk_stat_output vs
  end.

(** ** The daemon's handlers *)

(** The request a handler reads from its input structure: the handlers
    assign [in.path] to a [std::string] and use the other fields. *)
Definition data_of (vs : list hg_value) : option (rpc_data_in * nat) :=
  match vs with
  | [VString (Some path); VInt64 offset; VUint64 host_id; VUint64 host_size; VUint64 chunk_n; VUint64 chunk_start;
     VUint64 chunk_end; VUint64 total; VBulk bulk] =>
      Some (MkDataIn path offset host_id host_size chunk_n chunk_start chunk_end total, bulk)
  | _ => None
  end.

Definition handler_request (t : str) (vs : list hg_value) : option {R & rpc R} :=
  if decide (t = tag.create) then
    match vs with [VString (Some p); VUint32 m] => Some (existT _ (RpcCreate p m)) | _ => None end
  else if decide (t = tag.stat) then
    match vs with [VString (Some p)] => Some (existT _ (RpcStat p)) | _ => None end
  else if decide (t = tag.decr_size) then
    match vs with [VString (Some p); VUint64 n] => Some (existT _ (RpcDecrSize p n)) | _ => None end
  else if decide (t = tag.remove) then
    match vs with [VString (Some p)] => Some (existT _ (RpcRemove p)) | _ => None end
  else if decide (t = tag.update_metadentry) then
    match vs with
    | [VString (Some p); VUint64 nlink; VUint32 _; VUint32 _; VUint32 _; VInt64 size; VInt64 blocks; VInt64 atime;
       VInt64 mtime; VInt64 ctime; VBool nlink_flag; VBool _; VBool size_flag; VBool block_flag; VBool atime_flag;
       VBool mtime_flag; VBool ctime_flag] =>
        Some (existT _ (RpcUpdateMetadentry p (MkUpdate nlink size blocks atime mtime ctime nlink_flag size_flag
          block_flag atime_flag mtime_flag ctime_flag)))
    | _ => None
    end
  else if decide (t = tag.get_metadentry_size) then
    match vs with [VString (Some p)] => Some (existT _ (RpcGetMetadentrySize p)) | _ => None end
  else if decide (t = tag.update_metadentry_size) then
    match vs with
    | [VString (Some p); VUint64 size; VInt64 offset; VBool append] =>
        Some (existT _ (RpcUpdateMetadentrySize p size offset append))
    | _ => None
    end
  else if decide (t = tag.get_dirents) then
    match vs with [VString (Some p); VBulk b] => Some (existT _ (RpcGetDirents p b)) | _ => None end
  else if decide (t = tag.mk_symlink) then
    match vs with
    | [VString (Some p); VString (Some target)] => Some (existT _ (RpcMkSymlink p target))
    | _ => None
    end
  else if decide (t = tag.write) then (fun x => existT _ (RpcWriteData x.1 x.2)) <$> data_of vs
  else if decide (t = tag.read) then (fun x => existT _ (RpcReadData x.1 x.2)) <$> data_of vs
  else if decide (t = tag.truncate) then
    match vs with [VString (Some p); VUint64 n] => Some (existT _ (RpcTruncData p n)) | _ => None end
  else if decide (t = tag.get_chunk_stat) then
    match vs with [VInt32 _] => Some (existT _ RpcChunkStat) | _ => None end
  else None.

(** The output structure a handler answers with.  [rpc_srv_stat] leaves
    [db_val] null when it reports an error. *)
Definition reply {R} (q : rpc R) : R -> list hg_value :=
  match q in rpc R return R -> list hg_value with
  | RpcCreate _ _ => fun e => [VInt32 (i32 e)]
  | RpcStat _ => fun o => [VInt32 (i32 o.1); VString (if o.1 =? 0 then Some (cstr o.2) else None)]
  | RpcRemove _ => fun e => [VInt32 (i32 e)]
  | RpcDecrSize _ _ => fun e => [VInt32 (i32 e)]
  | RpcUpdateMetadentry _ _ => fun e => [VInt32 (i32 e)]
  | RpcUpdateMetadentrySize _ _ _ _ => fun o => [VInt32 (i32 o.1); VInt64 (i64 o.2)]
  | RpcGetMetadentrySize _ => fun o => [VInt32 (i32 o.1); VInt64 (i64 o.2)]
  | RpcGetDirents _ _ => fun o => [VInt32 (i32 o.1); VUint64 (u64 o.2)]
  | RpcMkSymlink _ _ => fun e => [VInt32 (i32 e)]
  | RpcWriteData _ _ => fun o => [VInt32 (i32 (out_err o)); VUint64 (u64 (out_io_size o))]
  | RpcReadData _ _ => fun o => [VInt32 (i32 (out_err o)); VUint64 (u64 (out_io_size o))]
  | RpcTruncData _ _ => fun e => [VInt32 (i32 e)]
  | RpcChunkStat => fun o => [VUint64 (u64 (chunk_size o)); VUint64 (u64 (chunk_total o)); VUint64 (u64 (chunk_free o))]
  end.

(** ** Typing *)

Lemma cstr_no_nul s : NUL ∉ cstr s.
Proof.
  induction s as [|c s IH]; cbn; [set_solver|]. case_decide; [set_solver|].
  by apply not_elem_of_cons.
Qed.

(** Whether the build serves the request. *)
Definition supported (cfg : config) {R} (q : rpc R) : Prop :=
  match q with RpcMkSymlink _ _ => has_symlinks cfg = true | _ => True end.

Ltac typed :=
  repeat match goal with
  | |- Forall2 _ _ _ => constructor
  | |- has_type _ _ => cbn
  | |- in_s _ (wraps _ _) => by apply wraps_range
  | |- in_u _ (wrapu _ _) => by apply wrapu_range
  | |- _ ∉ cstr _ => apply cstr_no_nul
  | |- True => exact I
  end; try int_solve.

Lemma to_mercury_typed {R} (q : rpc R) : Forall2 has_type (to_mercury q) (fields (mercury_in (request_traits q))).
Proof. destruct q; typed. Qed.

Lemma reply_typed {R} (q : rpc R) (r : R) : Forall2 has_type (reply q r) (fields (mercury_out (request_traits q))).
Proof. destruct q; typed. destruct (r.1 =? 0); [apply cstr_no_nul|done]. Qed.

Lemma registered_tags cfg : NoDup (register_server_rpcs cfg).*1.
Proof. unfold register_server_rpcs. apply (bool_decide_eq_true_1 _). destruct (has_symlinks cfg); by vm_compute. Qed.

Lemma request_registered cfg {R} (q : rpc R) : supported cfg q ->
  request_traits q ∈ register_user_request_types cfg.
Proof.
  intros Hs. unfold register_user_request_types. destruct q; cbn in Hs; rewrite ?Hs; rewrite !elem_of_app;
    cbn [request_traits]; first [left; by repeat constructor|right; right; by repeat constructor|right; left; by repeat constructor].
Qed.

Lemma requests_served cfg :
  Forall (fun t => (rpc_name t, (mercury_in t, mercury_out t)) ∈ register_server_rpcs cfg) (register_user_request_types cfg).
Proof.
  unfold register_server_rpcs, register_user_request_types.
  apply (bool_decide_eq_true_1 _). destruct (has_symlinks cfg); by vm_compute.
Qed.

Lemma public_ids_distinct cfg : NoDup (public_id <$> register_user_request_types cfg).
Proof. unfold register_user_request_types. apply (bool_decide_eq_true_1 _). destruct (has_symlinks cfg); by vm_compute. Qed.

(** ** Transport *)

Definition text (s : str) : Prop := NUL ∉ s.

Definition data_wf (in_ : rpc_data_in) : Prop :=
  text (in_path in_) /\ in_s 64 (in_offset in_) /\ in_u 64 (in_host_id in_) /\ in_u 64 (in_host_size in_) /\
  in_u 64 (in_chunk_n in_) /\ in_u 64 (in_chunk_start in_) /\ in_u 64 (in_chunk_end in_) /\
  in_u 64 (in_total_chunk_size in_).

(** Requests and replies whose values fit the fields. *)
Definition request_wf {R} (q : rpc R) : Prop :=
  match q with
  | RpcCreate path mode => text path /\ in_u 32 mode
  | RpcStat path | RpcRemove path | RpcGetMetadentrySize path | RpcGetDirents path _ => text path
  | RpcDecrSize path n | RpcTruncData path n => text path /\ in_u 64 n
  | RpcUpdateMetadentry path u =>
      text path /\ in_u 64 (up_nlink u) /\ in_s 64 (up_size u) /\ in_s 64 (up_blocks u) /\ in_s 64 (up_atime u) /\
      in_s 64 (up_mtime u) /\ in_s 64 (up_ctime u)
  | RpcUpdateMetadentrySize path size offset _ => text path /\ in_u 64 size /\ in_s 64 offset
  | RpcMkSymlink path target => text path /\ text target
  | RpcWriteData in_ _ | RpcReadData in_ _ => data_wf in_
  | RpcChunkStat => True
  end.

Definition reply_wf {R} (q : rpc R) : R -> Prop :=
  match q in rpc R return R -> Prop with
  | RpcCreate _ _ | RpcRemove _ | RpcDecrSize _ _ | RpcUpdateMetadentry _ _ | RpcMkSymlink _ _ | RpcTruncData _ _ =>
      fun e => in_s 32 e
  | RpcStat _ => fun o => in_s 32 o.1 /\ text o.2 /\ (o.1 <> 0 -> o.2 = [])
  | RpcUpdateMetadentrySize _ _ _ _ | RpcGetMetadentrySize _ => fun o => in_s 32 o.1 /\ in_s 64 o.2
  | RpcGetDirents _ _ => fun o => in_s 32 o.1 /\ in_u 64 o.2
  | RpcWriteData _ _ | RpcReadData _ _ => fun o => in_s 32 (out_err o) /\ 0 <= out_io_size o < 2 ^ 63
  | RpcChunkStat => fun o => in_u 64 (chunk_size o) /\ in_u 64 (chunk_total o) /\ in_u 64 (chunk_free o)
  end.

Ltac unwrap :=
  repeat match goal with
  | H : _ /\ _ |- _ => destruct H
  | H : text ?s |- context [cstr ?s] => rewrite (cstr_id s H)
  | H : in_u ?w ?x |- context [wrapu ?w ?x] => rewrite (wrapu_small w x H)
  | H : in_s ?w ?x |- context [wraps ?w ?x] => rewrite (wraps_small w x) by (lia || exact H)
  end.

Lemma request_arrives {R} (q : rpc R) : request_wf q ->
  handler_request (rpc_name (request_traits q)) (to_mercury q) = Some (existT R q).
Proof.
  intros Hwf. destruct q; cbn [request_wf] in Hwf; unfold data_wf in Hwf; cbn [request_traits to_mercury];
    unfold create_input, stat_input, remove_input, decr_size_input, update_metadentry_input, get_metadentry_size_input,
      update_metadentry_size_input, mk_symlink_input, write_data_input, read_data_input, trunc_data_input,
      get_dirents_input, chunk_stat_input, c_str; unwrap; try done.
  - by destruct u.
  - by destruct in_.
  - by destruct in_.
Qed.

Lemma reply_arrives {R} (q : rpc R) (r : R) : reply_wf q r -> of_mercury q (reply q r) = Some r.
Proof.
  intros Hwf. destruct q; cbn [reply_wf] in Hwf; cbn [of_mercury reply];
    unfold create_output, stat_output, remove_output, decr_size_output, update_metadentry_output,
      get_metadentry_size_output, update_metadentry_size_output, mk_symlink_output, write_data_output, read_data_output,
      trunc_data_output, get_dirents_output, chunk_stat_output, err_output; unwrap; try done.
  1: destruct r as [e s]; cbn in *; destruct (Z.eqb_spec e 0) as [->|Hne]; cbn; [done|by rewrite (H1 Hne)].
  all: destruct r as [e n]; try destruct n; cbn in *; repeat f_equal.
  all: try (rewrite wrapu_small by int_solve; rewrite wraps_small by int_solve; done).
  all: done.
Qed.

(** ** Properties *)


(** C27. The data requests fit their fields: for any byte range below
    [2^63], every request [forward_write] and [forward_read] post has its
    offset, host, chunk numbers, chunk count and announced size within the
    widths of the structure, so it arrives at the daemon unchanged. *)
Theorem data_requests_fit (cfg : config) (d : Distributor) (hosts_size k offset size : Z) (path : str) (t : Z) (b : nat) :
  0 <= k < 63 -> chunksize cfg = 2 ^ k -> 0 <= offset -> 0 < size -> offset + size < 2 ^ 63 ->
  0 < hosts_size < 2 ^ 32 -> DistributorOk hosts_size d -> text path ->
  let first := chnk_id_for_offset offset (chunksize cfg) in
  let last := chnk_id_for_offset (i64 (u64 (u64 (offset + size) - 1))) (chunksize cfg) in
  let g := group_chunks d path first last in
  let in_ := data_input cfg hosts_size path g first last offset size t in
  t ∈ targets g ->
  handler_request tag.write (to_mercury (RpcWriteData in_ b)) = Some (existT _ (RpcWriteData in_ b)) /\
  handler_request tag.read (to_mercury (RpcReadData in_ b)) = Some (existT _ (RpcReadData in_ b)).
Proof.
  intros Hk Hcs Ho Hs Hb Hh Hd Hp first last g in_ Ht.
  cut (data_wf in_). { intros H. split; [apply (request_arrives (RpcWriteData in_ b))|apply (request_arrives (RpcReadData in_ b))]; exact H. }
  assert (in_u 64 first /\ in_u 64 last) as [H1 H2] by (split; apply wrapu_range; lia).
  destruct (client_ids cfg offset size k Hk Hcs Ho Hs Hb) as [Ef El].
  assert (g = range_groups cfg d path offset size) as Eg.
  { unfold g, first, last. by rewrite Ef, El. }
  pose proof (cs_range cfg k Hk Hcs) as Hc.
  rewrite Eg in Ht. pose proof (range_groups_inv cfg d path offset size) as I.
  assert (0 <= t < hosts_size) as Ht'.
  { apply (gi_targets _ _ _ _ _ _ I) in Ht as (id & _ & <-). apply locate_data_range. }
  unfold data_wf, in_, data_input. cbn [in_path in_offset in_host_id in_host_size in_chunk_n in_chunk_start in_chunk_end in_total_chunk_size].
  split; [done|]. split.
  { pose proof (Z.mod_pos_bound (u64 offset) (chunksize cfg) ltac:(lia)). unfold chnk_lpad. int_solve. }
  split; [int_solve|]. split; [int_solve|]. split.
  { rewrite Eg, (target_chnks_ids cfg d path offset size t Ht).
    assert (length (filter (fun id => locate_data d path id = t) (ids (chunksize cfg) offset size))
      <= length (ids (chunksize cfg) offset size))%nat as Hlen by apply length_filter.
    unfold ids, ids_from in *. rewrite length_seqZ in Hlen. unfold first_id, last_id in *.
    pose proof (Z.div_pos offset (chunksize cfg) Ho ltac:(lia)).
    pose proof (Z.div_le_upper_bound (offset + size - 1) (chunksize cfg) (offset + size - 1) ltac:(lia) ltac:(nia)).
    int_solve. }
  split; [done|]. split; [done|].
  unfold total_chunk_size. repeat case_match; apply wrapu_range; lia.
Qed.

Section wire.
Context {D F : Type} {DB : RocksDB D} {P : PosixFS F}.
Context (cfg : config) (junk : Metadata) (st : ChunkStorage) (str_hash : str -> Z) (env : margo_env) (time : Z).

(** Posting over the wire: the daemon's handler is chosen by the name, reads
    its structure, and the client reads the structure it answers with. *)
Definition wire_post {A} (host : Z) (q : rpc A) (n : cluster D F) : option (handle (cluster D F) A) * cluster D F :=
  match daemons n !! Z.to_nat host, handler_request (rpc_name (request_traits q)) (to_mercury q) with
  | Some s, Some (existT _ q') =>
      match run_rpc cfg junk st str_hash env time q' (regions n) s with
      | (Ok (out, regs), s') =>
          (Some (fun n' => (of_mercury q (reply q' out), n')), MkCluster (<[Z.to_nat host := s']> (daemons n)) regs)
      | (_, s') =>
          (Some (fun n' => (None, n')), MkCluster (<[Z.to_nat host := s']> (daemons n)) (regions n))
      end
  | _, _ => (None, n)
  end.

(** C26. The cluster's network is the wire: posting a request whose values
    fit their fields has the same effect on the daemons and yields the same
    output as calling the handler with the request itself, when the reply
    fits as well. *)
Theorem wire_is_cluster_network {A : Type} (host : Z) (q : rpc A) (n : cluster D F) :
  request_wf q ->
  (forall s out regs s', run_rpc cfg junk st str_hash env time q (regions n) s = (Ok (out, regs), s') ->
     daemons n !! Z.to_nat host = Some s -> reply_wf q out) ->
  wire_post host q n = cluster_post cfg junk st str_hash env time host q n.
Proof.
  intros Hwf Hrep. unfold wire_post, cluster_post. rewrite (request_arrives q Hwf).
  destruct (daemons n !! Z.to_nat host) as [s|]; [|done].
  destruct (run_rpc cfg junk st str_hash env time q (regions n) s) as [[[out regs]|e|] s'] eqn:E; [|done..].
  by rewrite (reply_arrives q out (Hrep _ _ _ _ E eq_refl)).
Qed.
End wire.

(** ** Witnesses *)


Local Abbreviation small_post f :=
  (f (gmap str db_entry) memfs (MemDB (FullMergeV2 small_config example_md)) MemFS small_config example_md small_store
     last_char_hash good_env 0 Z 0 (RpcCreate (s_ "/new") 33188) example_cluster).

Lemma wire_is_cluster_network_witness : small_post (@wire_post) = small_post (@cluster_post).
Proof.
  apply (wire_is_cluster_network (DB := MemDB (FullMergeV2 small_config example_md)) (P := MemFS) small_config example_md
    small_store last_char_hash good_env 0 0 (RpcCreate (s_ "/new") 33188) example_cluster).
  - split; [|int_solve]. unfold text, s_. cbn. by apply (bool_decide_eq_true_1 (NUL ∉ _)).
  - intros s out regs s' E Hs. injection Hs as <-.
    apply (f_equal (fun x => match x.1 with Ok o => Some o.1 | _ => None end)) in E. vm_compute in E.
    injection E as <-. cbn [reply_wf]. int_solve.
Defined.

Local Abbreviation hash_d := (SimpleHashDistributor last_char_hash 0 2).
Local Abbreviation small_groups := (group_chunks hash_d (s_ "/f") (chnk_id_for_offset 3 524288)
  (chnk_id_for_offset (i64 (u64 (u64 (3 + 10) - 1))) 524288)).

Lemma data_requests_fit_witness :
  let in_ := data_input default_config 2 (s_ "/f") small_groups (chnk_id_for_offset 3 524288)
    (chnk_id_for_offset (i64 (u64 (u64 (3 + 10) - 1))) 524288) 3 10 (locate_data hash_d (s_ "/f") 0) in
  handler_request tag.write (to_mercury (RpcWriteData in_ 0)) = Some (existT _ (RpcWriteData in_ 0)).
Proof.
  refine (proj1 (data_requests_fit default_config hash_d 2 19 3 10 (s_ "/f") (locate_data hash_d (s_ "/f") 0) 0
    _ _ _ _ _ _ _ _ _)).
  - lia.
  - reflexivity.
  - lia.
  - lia.
  - lia.
  - lia.
  - apply SimpleHashDistributor_ok. lia.
  - unfold text. by apply (bool_decide_eq_true_1 (NUL ∉ _)).
  - apply (bool_decide_eq_true_1 (_ ∈ targets small_groups)). vm_compute. reflexivity.
Defined.
