(* ===== verification/Namespace.v ===== *)
(** * The namespace of a cluster

    Every entry of the file system is kept by the metadata host of its path;
    each daemon also has its own entry for the root directory.  [ns_rel]
    relates the stores of all daemons to one map from paths to entries, and
    the client's metadata requests over the network of [Cluster] are shown to
    be operations of that map; listings collect the entries of a directory
    from all hosts. *)

From S2P Require Import Prelude Config Distributor PathUtil Metadata Merge MetadataDB ChunkStorage SrvData SrvMetadata.
From S2P Require Import Rpc ForwardData ForwardMetadata Cluster.

Definition root_dir : str := [sep].

(** ** Requests that change one entry *)

Inductive ns_request :=
| NsCreate (path : str) (mode : Z)
| NsSymlink (path target : str)
| NsRemoveEntry (path : str)
| NsUpdate (path : str) (md : Metadata) (flags : MetadentryUpdateFlags)
| NsUpdateSize (path : str) (size offset : Z) (append : bool)
| NsDecrSize (path : str) (len : Z).

Definition ns_path (q : ns_request) : str :=
  match q with
  | NsCreate p _ | NsSymlink p _ | NsRemoveEntry p | NsUpdate p _ _ | NsUpdateSize p _ _ _ | NsDecrSize p _ => p
  end.

(** What the daemon is asked to do. *)
Definition ns_md_request (time : Z) (q : ns_request) : md_request :=
  match q with
  | NsCreate p mode => ReqCreate time p mode
  | NsSymlink p target => ReqSymlink time p target
  | NsRemoveEntry p => ReqRemove p
  | NsUpdate p md f => ReqUpdate p (sent_update md f)
  | NsUpdateSize p size offset append => ReqUpdateSize p size offset append
  | NsDecrSize p len => ReqDecrSize p len
  end.

(** Changes touch the entry of their path only. *)
Definition op_path (op : db_op) : str :=
  match op with
  | OpCreate k _ | OpRemove k | OpUpdate k _ | OpIncrease k _ _ | OpDecrease k _ => k
  end.

Lemma abs_op_other op m p : p <> op_path op -> abs_op op m !! p = m !! p.
Proof. destruct op; simpl; intros; repeat case_match; by simplify_map_eq. Qed.

Lemma abs_op_same op m v :
  v !! op_path op = m !! op_path op -> abs_op op v !! op_path op = abs_op op m !! op_path op.
Proof.
  destruct op as [k md|k|k md|k size append|k size]; simpl; intros E.
  - rewrite E. destruct (m !! k) eqn:Em; [by rewrite E, Em|by rewrite !lookup_insert_eq].
  - by rewrite !lookup_delete_eq.
  - by rewrite !lookup_insert_eq.
  - by rewrite !lookup_alter_eq, E.
  - by rewrite !lookup_alter_eq, E.
Qed.

Lemma request_op_path cfg junk m req : op_path (request_op cfg junk m req) =
  match req with
  | ReqCreate _ p _ | ReqSymlink _ p _ | ReqRemove p | ReqUpdate p _ | ReqUpdateSize p _ _ _ | ReqDecrSize p _ => p
  end.
Proof. by destruct req. Qed.

(** The change and its precondition look at the entry of the path only. *)
Lemma request_local cfg junk time q m v : v !! ns_path q = m !! ns_path q ->
  request_op cfg junk v (ns_md_request time q) = request_op cfg junk m (ns_md_request time q) /\
  (request_pre cfg junk m (ns_md_request time q) -> request_pre cfg junk v (ns_md_request time q)).
Proof. destruct q; simpl; intros E; rewrite ?E; done. Qed.

(** ** Directories *)

(** The first-level entries of a directory in the namespace. *)
Definition children (m : gmap str Metadata) (dir : str) : list (str * bool) :=
  omap (dirent_of m (dir_prefix dir)) (map_to_list m).*1.

(** Paths come from C strings. *)
Definition paths_ok (m : gmap str Metadata) : Prop := forall p, is_Some (m !! p) -> NUL ∉ p.

Lemma elem_of_children m dir name b :
  (name, b) ∈ children m dir <->
  component name /\ exists md, m !! (dir_prefix dir ++ name) = Some md /\ b = S_ISDIR (mode_ md).
Proof.
  unfold children, dirent_of. rewrite list_elem_of_omap. split.
  - intros (k & _ & E). apply bind_Some in E as (nm & En & (md & Em & [= <- <-])%bind_Some).
    apply child_name_Some in En as [-> Hc]. split; [done|]. by exists md.
  - intros (Hc & md & Em & ->). exists (dir_prefix dir ++ name). split.
    + apply list_elem_of_fmap. exists (dir_prefix dir ++ name, md). split; [done|]. by apply elem_of_map_to_list.
    + rewrite (proj2 (child_name_Some _ _ name)) by done. csimpl. by rewrite Em.
Qed.

Lemma children_nodup m dir : NoDup (children m dir).*1.
Proof. apply dirent_names_nodup, NoDup_fst_map_to_list. Qed.

Lemma children_no_nul m dir name b : paths_ok m -> (name, b) ∈ children m dir -> NUL ∉ name.
Proof.
  intros Hp (_ & md & Em & _)%elem_of_children Hin. apply (Hp (dir_prefix dir ++ name)); [by eexists|]. set_solver.
Qed.

Lemma dirents_out_size_submseteq es1 es2 : es1 ⊆+ es2 -> dirents_out_size es1 <= dirents_out_size es2.
Proof.
  unfold dirents_out_size. induction 1; cbn [foldr length] in *; lia.
Qed.

Section namespace.
Context {D F : Type} {R : RocksDB D} {P : PosixFS F} (cfg : config) (junk : Metadata) (st : ChunkStorage).
Context (str_hash : str -> Z) (env : margo_env) (time : Z) (d : Distributor) (hosts_size : Z).
Local Abbreviation net := (ClusterNet cfg junk st str_hash env time).
Local Abbreviation host path := (Z.to_nat (locate_file_metadata d path)).

(** The client functions of the requests. *)
Definition ns_forward (q : ns_request) : M (cluster D F) result :=
  match q with
  | NsCreate p mode => forward_create (W := net) d hosts_size p mode
  | NsSymlink p target => forward_mk_symlink (W := net) d hosts_size p target
  | NsRemoveEntry p => forward_remove (W := net) cfg d hosts_size p true 0
  | NsUpdate p md f => forward_update_metadentry (W := net) d hosts_size p md f
  | NsUpdateSize p size offset append =>
      let* r := forward_update_metadentry_size (W := net) d hosts_size p size offset append 0 in m_ret r.1
  | NsDecrSize p len => forward_decr_size (W := net) d hosts_size p len
  end.

(** The entries daemon [h] keeps of the namespace [m]: those it is the
    metadata host of, and a root directory of its own. *)
Definition view_of (h : nat) (m v : gmap str Metadata) : Prop :=
  (forall p, host p = h -> v !! p = m !! p) /\
  (forall p, host p <> h -> p <> root_dir -> v !! p = None).

Record ns_rel (n : cluster D F) (m : gmap str Metadata) : Prop := {
  ns_hosts : Z.of_nat (length (daemons n)) = hosts_size;
  ns_view h s : daemons n !! h = Some s -> exists v, db_rel cfg (mdb s) v /\ view_of h m v
}.

(** The regions a client exposed do not matter. *)
Lemma ns_rel_regions n m regs : ns_rel n m -> ns_rel (MkCluster (daemons n) regs) m.
Proof using. by intros []. Qed.

Context {Hd : DistributorOk hosts_size d} {L : RocksDBLaws R (FullMergeV2 cfg junk)}.

Lemma ns_host n m p : ns_rel n m -> exists s, daemons n !! host p = Some s.
Proof using Hd.
  intros [Hl _]. pose proof (locate_metadata_range p). apply lookup_lt_is_Some_2. lia.
Qed.

Lemma ns_entry_view n m p s : ns_rel n m -> daemons n !! host p = Some s ->
  exists v, db_rel cfg (mdb s) v /\ view_of (host p) m v /\ v !! p = m !! p.
Proof using.
  intros [_ Hv] Hs. destruct (Hv _ _ Hs) as (v & Hr & Hw). exists v. split; [done|]. split; [done|]. by apply Hw.
Qed.

(** Running a request on the metadata host. *)
Lemma metadata_call_run {A} path (q : rpc A) (n : cluster D F) s :
  Z.of_nat (length (daemons n)) = hosts_size -> daemons n !! host path = Some s ->
  metadata_call (W := net) d hosts_size path q n =
    match run_rpc cfg junk st str_hash env time q (regions n) s with
    | (Ok (out, regs), s') => (Ok (Some out), MkCluster (<[host path := s']> (daemons n)) regs)
    | (_, s') => (Ok None, MkCluster (<[host path := s']> (daemons n)) (regions n))
    end.
Proof using Hd.
  intros Hl Hs. unfold metadata_call. pose proof (locate_metadata_range path) as Hr.
  rewrite (m_bind_ok _ _ n (locate_file_metadata d path) n).
  2:{ unfold host_at. by rewrite (proj2 (Z.leb_le _ _)), (proj2 (Z.ltb_lt _ _)) by lia. }
  unfold call, m_bind, net_post. cbn [post ClusterNet]. unfold cluster_post. rewrite Hs.
  by destruct (run_rpc cfg junk st str_hash env time q (regions n) s) as [[[out regs]|e|] s'].
Qed.

(** A change keeps the views: on the host of its path, and elsewhere. *)
Lemma view_of_op_here m v op h : h = host (op_path op) -> view_of h m v -> view_of h (abs_op op m) (abs_op op v).
Proof using.
  intros -> [Hw Ho]. split; intros p Hp.
  - destruct (decide (p = op_path op)) as [->|]; [by apply abs_op_same, Hw|].
    rewrite !abs_op_other by done. by apply Hw.
  - intros Hroot. rewrite abs_op_other by (by intros ->). by apply Ho.
Qed.

Lemma view_of_op_other m v op h : h <> host (op_path op) -> view_of h m v -> view_of h (abs_op op m) v.
Proof using.
  intros Hne [Hw Ho]. split; [|done]. intros p Hp. rewrite abs_op_other by (by intros ->). by apply Hw.
Qed.

(** Replacing the store of one host by a changed one. *)
Lemma ns_rel_op n m s s' op regs :
  ns_rel n m -> daemons n !! host (op_path op) = Some s ->
  (forall v, db_rel cfg (mdb s) v -> v !! op_path op = m !! op_path op -> db_rel cfg (mdb s') (abs_op op v)) ->
  ns_rel (MkCluster (<[host (op_path op) := s']> (daemons n)) regs) (abs_op op m).
Proof using.
  intros [Hl Hv] Hs Hop. split; cbn; [by rewrite length_insert|]. intros h t.
  destruct (decide (h = host (op_path op))) as [->|Hne].
  - rewrite list_lookup_insert_eq by (by eapply lookup_lt_Some). intros [= <-].
    destruct (Hv _ _ Hs) as (v & Hr & Hw). exists (abs_op op v).
    split; [by apply Hop; [|apply Hw]|by apply view_of_op_here].
  - rewrite list_lookup_insert_ne by done. intros Ht. destruct (Hv _ _ Ht) as (v & Hr & Hw).
    exists v. split; [done|]. by apply view_of_op_other.
Qed.

(** A call that got a reply ran the handler. *)
Lemma metadata_call_inv {A} path (q : rpc A) (c : M (daemon D F) A) (n n' : cluster D F) s o :
  Z.of_nat (length (daemons n)) = hosts_size -> daemons n !! host path = Some s ->
  (forall regs, run_rpc cfg junk st str_hash env time q regs s = (let* o := c in m_ret (o, regs)) s) ->
  metadata_call (W := net) d hosts_size path q n = (Ok (Some o), n') ->
  exists s', c s = (Ok o, s') /\ n' = MkCluster (<[host path := s']> (daemons n)) (regions n).
Proof using Hd.
  intros Hl Hs Hq. rewrite (metadata_call_run _ _ n s), Hq by done. unfold m_bind, m_ret.
  destruct (c s) as [[x|e|] s']; intros [= <- <-]. by exists s'.
Qed.

Lemma err_reply_zero o e : err_reply o = (0, e) -> o = Some 0.
Proof using. destruct o as [x|]; [|done]. unfold err_reply. by destruct (Z.eqb_spec x 0) as [->|]. Qed.

(** A request that is answered with 0 was handled without error. *)
Lemma ns_forward_handled q (n n' : cluster D F) e s :
  Z.of_nat (length (daemons n)) = hosts_size -> get_input_ok env = true ->
  daemons n !! host (ns_path q) = Some s -> ns_forward q n = (Ok (0, e), n') ->
  exists s', handle_md cfg junk st (ns_md_request time q) s = (Ok 0, s') /\
    n' = MkCluster (<[host (ns_path q) := s']> (daemons n)) (regions n).
Proof using Hd.
  intros Hl Hin Hs E.
  destruct q as [p mode|p target|p|p md f|p size offset append|p len]; cbn [ns_forward ns_path] in *.
  5:{ apply m_bind_inv in E as (r & n1 & E & [= Er <-]).
      apply m_bind_inv in E as (out & n2 & Ec & [= <- <-]).
      destruct out as [[err sz]|]; [|done]. destruct (Z.eqb_spec err 0) as [->|]; [|done].
      eapply metadata_call_inv in Ec as (s' & Ec & ->); [|done..|intros; cbn [run_rpc]; by rewrite Hin].
      exists s'. split; [|done]. cbn [handle_md ns_md_request]. unfold m_bind. by rewrite Ec. }
  all: apply m_bind_inv in E as (out & n1 & Ec & [= E%err_reply_zero <-]); subst out;
    eapply metadata_call_inv in Ec as (s' & Ec & ->); [|done..|intros; cbn [run_rpc]; by rewrite ?Hin];
    exists s'; done.
Qed.

Lemma ns_forward_sim q (n n' : cluster D F) m e :
  ns_rel n m -> get_input_ok env = true -> request_pre cfg junk m (ns_md_request time q) ->
  ns_forward q n = (Ok (0, e), n') ->
  ns_rel n' (abs_op (request_op cfg junk m (ns_md_request time q)) m).
Proof using Hd L.
  intros Hr Hin Hpre E. destruct (ns_host n m (ns_path q) Hr) as [s Hs].
  destruct (ns_forward_handled q n n' e s (ns_hosts n m Hr) Hin Hs E) as (s' & E' & ->).
  assert (op_path (request_op cfg junk m (ns_md_request time q)) = ns_path q) as Ep by (by destruct q).
  rewrite <- Ep. apply (ns_rel_op n m s); [done|by rewrite Ep|]. rewrite Ep. intros v Hv Ev.
  destruct (request_local cfg junk time q m v Ev) as [Eop Hp]. rewrite <- Eop.
  eapply (handle_md_sim cfg junk st); eauto.
Qed.

(** The network after a request, whatever it answers. *)
Lemma metadata_call_any {A} path (q : rpc A) (c : M (daemon D F) A) (n n' : cluster D F) s r :
  Z.of_nat (length (daemons n)) = hosts_size -> daemons n !! host path = Some s ->
  (forall regs, run_rpc cfg junk st str_hash env time q regs s = (let* o := c in m_ret (o, regs)) s) ->
  metadata_call (W := net) d hosts_size path q n = (r, n') ->
  exists r' s', c s = (r', s') /\ n' = MkCluster (<[host path := s']> (daemons n)) (regions n).
Proof using Hd.
  intros Hl Hs Hq. rewrite (metadata_call_run _ _ n s), Hq by done. unfold m_bind, m_ret.
  destruct (c s) as [[x|e|] s']; intros [= <- <-]; by eexists _, s'.
Qed.

Lemma ns_forward_ran q (n n' : cluster D F) r s :
  Z.of_nat (length (daemons n)) = hosts_size -> get_input_ok env = true ->
  daemons n !! host (ns_path q) = Some s -> ns_forward q n = (Ok r, n') ->
  exists r' s', handle_md cfg junk st (ns_md_request time q) s = (r', s') /\
    n' = MkCluster (<[host (ns_path q) := s']> (daemons n)) (regions n).
Proof using Hd.
  intros Hl Hin Hs E.
  destruct q as [p mode|p target|p|p md f|p size offset append|p len]; cbn [ns_forward ns_path] in *.
  5:{ apply m_bind_inv in E as (x & n1 & E & [= Er <-]).
      apply m_bind_inv in E as (out & n2 & Ec & [= <- <-]).
      eapply metadata_call_any in Ec as (r' & s' & Ec & ->); [|done..|intros; cbn [run_rpc]; by rewrite Hin].
      cbn [handle_md ns_md_request]. unfold m_bind. rewrite Ec. destruct r'; by eexists _, s'. }
  all: apply m_bind_inv in E as (out & n1 & Ec & [= <- <-]);
    eapply metadata_call_any in Ec as (r' & s' & Ec & ->); [|done..|intros; cbn [run_rpc]; by rewrite ?Hin];
    by exists r', s'.
Qed.

(** A request that is not answered with 0 may or may not have been carried
    out; nothing else can have happened. *)
Lemma ns_forward_any q (n n' : cluster D F) m r :
  ns_rel n m -> get_input_ok env = true -> request_pre cfg junk m (ns_md_request time q) ->
  ns_forward q n = (Ok r, n') ->
  ns_rel n' m \/ ns_rel n' (abs_op (request_op cfg junk m (ns_md_request time q)) m).
Proof using Hd L.
  intros Hr Hin Hpre E. destruct (ns_host n m (ns_path q) Hr) as [s Hs].
  destruct (ns_forward_ran q n n' r s (ns_hosts n m Hr) Hin Hs E) as (r' & s' & E' & ->).
  destruct (ns_entry_view n m _ s Hr Hs) as (v & Hv & Hview & Ev).
  destruct (request_local cfg junk time q m v Ev) as [Eop Hp].
  destruct (handle_md_any cfg junk st _ s s' r' v Hv (Hp Hpre) E') as [Hsame|Hdone].
  - left. destruct Hr as [Hl Hviews]. split; cbn; [by rewrite length_insert|]. intros h t.
    destruct (decide (h = host (ns_path q))) as [->|Hne].
    + rewrite list_lookup_insert_eq by (by eapply lookup_lt_Some). intros [= <-]. by exists v.
    + rewrite list_lookup_insert_ne by done. apply Hviews.
  - right. rewrite Eop in Hdone. assert (op_path (request_op cfg junk m (ns_md_request time q)) = ns_path q) as Ep
      by (by destruct q).
    destruct Hr as [Hl Hviews]. split; cbn; [by rewrite length_insert|]. intros h t.
    destruct (decide (h = host (ns_path q))) as [->|Hne].
    + rewrite list_lookup_insert_eq by (by eapply lookup_lt_Some). intros [= <-]. eexists. split; [exact Hdone|].
      by apply view_of_op_here; rewrite ?Ep.
    + rewrite list_lookup_insert_ne by done. intros Ht. destruct (Hviews h t Ht) as (v' & Hv' & Hview').
      exists v'. split; [done|]. by apply view_of_op_other; rewrite ?Ep.
Qed.

(** ** Looking at an entry *)

Definition cluster_reads_ok (n : cluster D F) : Prop := forall h s, daemons n !! h = Some s -> reads_ok (mdb s).

Lemma ns_unchanged (n : cluster D F) h s : daemons n !! h = Some s ->
  MkCluster (<[h := s]> (daemons n)) (regions n) = n.
Proof using. intros Hs. rewrite list_insert_id by done. by destruct n. Qed.

Lemma ns_stat_sim (n : cluster D F) m path attr :
  ns_rel n m -> get_input_ok env = true -> cluster_reads_ok n ->
  forward_stat (W := net) d hosts_size path attr n =
    (Ok (match m !! path with Some md => ((0, None), serialize cfg md) | None => (fail_with ENOENT, attr) end), n).
Proof using Hd L.
  intros Hr Hin Hio. destruct (ns_host n m path Hr) as [s Hs].
  destruct (ns_entry_view n m path s Hr Hs) as (v & Hv & _ & Ev).
  unfold forward_stat, m_bind. rewrite (metadata_call_run _ _ n s) by (done || apply Hr).
  cbn [run_rpc]. rewrite Hin. unfold m_bind.
  rewrite (stat_handler_sim cfg junk path s v Hv) by (by eapply Hio). rewrite Ev.
  unfold m_ret. rewrite (ns_unchanged n _ s) by done. by destruct (m !! path).
Qed.

Lemma ns_size_sim (n : cluster D F) m path :
  ns_rel n m -> get_input_ok env = true -> cluster_reads_ok n ->
  forward_get_metadentry_size (W := net) d hosts_size path n =
    (Ok (match m !! path with Some md => ((0, None), size_ md) | None => ((ENOENT, None), 0) end), n).
Proof using Hd L.
  intros Hr Hin Hio. destruct (ns_host n m path Hr) as [s Hs].
  destruct (ns_entry_view n m path s Hr Hs) as (v & Hv & _ & Ev).
  unfold forward_get_metadentry_size, m_bind. rewrite (metadata_call_run _ _ n s) by (done || apply Hr).
  cbn [run_rpc]. rewrite Hin. unfold m_bind.
  rewrite (get_size_handler_sim cfg junk path s v Hv) by (by eapply Hio). rewrite Ev.
  unfold m_ret. rewrite (ns_unchanged n _ s) by done. by destruct (m !! path).
Qed.

(** ** Listing over the hosts *)

(** What host [t] answers for its part of the directory. *)
Definition host_entries (n : cluster D F) (dir : str) (t : Z) (es : list (str * bool)) : Prop :=
  exists s, daemons n !! Z.to_nat t = Some s /\ get_dirents cfg junk dir s = (Ok es, s).

Lemma host_entries_spec n m dir t :
  ns_rel n m -> is_absolute dir = true -> 0 <= t < hosts_size ->
  exists es, host_entries n dir t es /\ NoDup es.*1 /\
    forall e, e ∈ es <-> e ∈ children m dir /\ host (dir_prefix dir ++ e.1) = Z.to_nat t.
Proof using L.
  clear Hd str_hash. intros [Hl Hv] Ha Ht.
  destruct (lookup_lt_is_Some_2 (daemons n) (Z.to_nat t)) as [s Hs]; [lia|].
  destruct (Hv _ _ Hs) as (v & Hr & Hw & Ho).
  destruct (db_get_dirents_sim cfg junk dir (mdb s) v Hr Ha) as (es & E & Hnd & Hes).
  exists es. split; [|split; [done|]].
  { exists s. split; [done|]. unfold get_dirents, on_mdb. rewrite E. by destruct s. }
  intros [name b]. cbn. rewrite Hes, elem_of_children.
  set (p := dir_prefix dir ++ name).
  assert (component name -> p <> root_dir) as Hroot.
  { intros [Hne _] Hp. apply (f_equal length) in Hp. unfold p in Hp. rewrite length_app in Hp.
    destruct name; [done|]. assert (dir_prefix dir <> []) as Hd0.
    { unfold dir_prefix. destruct dir; [done|]. by destruct (_ && _). }
    destruct (dir_prefix dir); [done|]. simpl in Hp. lia. }
  destruct (decide (host p = Z.to_nat t)) as [Eh|Eh].
  - rewrite (Hw p Eh). naive_solver.
  - split; [|naive_solver]. intros (Hc & md & Em & _). rewrite (Ho p Eh (Hroot Hc)) in Em. done.
Qed.

(** The pieces of the receive buffer, one per host. *)
Fixpoint pieces (per k : nat) (buffer : list byte) : list (list byte) :=
  match k with
  | O => []
  | S k' => take per buffer :: pieces per k' (drop per buffer)
  end.

Lemma pieces_length per k buffer : (per * k <= length buffer)%nat ->
  length (pieces per k buffer) = k /\ Forall (fun b => length b = per) (pieces per k buffer).
Proof using.
  clear. revert buffer. induction k as [|k IH]; intros buffer Hb; [by split|].
  destruct (IH (drop per buffer)) as [H1 H2]; [rewrite length_drop; lia|].
  cbn. rewrite H1. split; [done|]. constructor; [rewrite length_take; lia|done].
Qed.

Lemma expose_all_run per ts buffer (n : cluster D F) :
  expose_all (W := net) per ts buffer n =
    (Ok (seq (length (regions n)) (length ts)), MkCluster (daemons n) (regions n ++ pieces per (length ts) buffer)).
Proof using.
  clear. revert buffer n. induction ts as [|t ts IH]; intros buffer n; cbn [expose_all length pieces seq].
  { rewrite app_nil_r. by destruct n. }
  unfold m_bind, net_expose. cbn. rewrite IH. cbn. rewrite <- app_assoc, length_app, Nat.add_1_r. done.
Qed.

Lemma dirents_handler_run n dir t es client :
  env_ok env -> host_entries n dir t es -> Forall (fun e : str * bool => NUL ∉ e.1) es ->
  dirents_out_size es <= Z.of_nat (length client) ->
  exists s client', daemons n !! Z.to_nat t = Some s /\
    rpc_srv_get_dirents cfg junk env dir client s = (Ok (Some (0, Z.of_nat (length es), client')), s) /\
    forall acc, parse_dirents (length es) client' 0 (length es) acc = Ok (acc ++ es).
Proof using.
  clear Hd. intros He (s & Hs & E) Hn Hsz. exists s.
  destruct (dirents_push es env client Hn Hsz (eo_transfer _ He 0)) as (client' & Et & Hp).
  exists (if es is [] then client else client'). split; [done|].
  unfold rpc_srv_get_dirents. rewrite (eo_input _ He). cbn [negb]. unfold m_bind. rewrite E.
  destruct es as [|e es]; [by split|]. rewrite (proj2 (Z.ltb_ge _ _)), (eo_create _ He), Et by done. done.
Qed.

Lemma post_dirents_run dir ts mems ess (n : cluster D F) :
  env_ok env -> Forall (fun t => 0 <= t < hosts_size) ts -> NoDup mems -> length mems = length ts ->
  Forall2 (host_entries n dir) ts ess ->
  Forall (Forall (fun e : str * bool => NUL ∉ e.1)) ess ->
  Forall2 (fun mem es => exists client, regions n !! mem = Some client /\
    dirents_out_size es <= Z.of_nat (length client)) mems ess ->
  exists n', post_dirents (W := net) hosts_size dir ts mems n =
      (Ok ((fun es => replied (0, Z.of_nat (length es))) <$> ess), n') /\ daemons n' = daemons n /\
    (forall b, b ∉ mems -> regions n' !! b = regions n !! b) /\
    Forall2 (fun mem es => exists base, regions n' !! mem = Some base /\
      forall acc, parse_dirents (length es) base 0 (length es) acc = Ok (acc ++ es)) mems ess.
Proof using.
  clear Hd. intros He Hts Hnd Hlen Hes. revert mems n Hts Hnd Hlen Hes.
  intros mems n Hts Hnd Hlen Hes Hn. revert n Hes Hn. revert ess ts Hts Hlen.
  induction Hnd as [|mem mems Hni Hnd IH]; intros ess ts Hts Hlen n Hes Hn Hreg.
  { destruct ts; [|done]. apply Forall2_nil_inv_l in Hes as ->. exists n. by repeat constructor. }
  destruct ts as [|t ts]; [done|]. injection Hlen as Hlen.
  apply Forall2_cons_inv_l in Hes as (es & ess' & Het & Hes & ->).
  apply Forall2_cons in Hreg as [(client & Hc & Hsz) Hreg].
  apply Forall_cons in Hn as [Hn1 Hn]. apply Forall_cons in Hts as [Ht Hts].
  destruct (dirents_handler_run n dir t es client He Het Hn1 Hsz) as (s & client' & Hs & E & Hp).
  cbn [post_dirents]. unfold m_bind at 1, host_at.
  rewrite (proj2 (Z.leb_le _ _)), (proj2 (Z.ltb_lt _ _)) by lia. cbn [andb].
  unfold m_ret at 1, m_bind at 1, net_post. cbn [post ClusterNet]. unfold cluster_post. rewrite Hs.
  cbn [run_rpc]. unfold m_bind at 1. rewrite Hc. cbn [default from_option id]. rewrite E. cbn.
  rewrite list_insert_id by done. set (n1 := MkCluster (daemons n) (<[mem := client']> (regions n))).
  assert (forall b, b ≠ mem -> regions n1 !! b = regions n !! b) as Hoth.
  { intros b Hb. cbn. by apply list_lookup_insert_ne. }
  destruct (IH ess' ts Hts Hlen n1) as (n' & E' & Hd' & Hr' & Hall).
  { done. } { done. }
  { eapply Forall2_elem_impl; [exact Hreg|]. intros b x Hb. cbn. rewrite list_lookup_insert_ne; [done|].
    by intros ->. }
  exists n'. unfold m_bind. rewrite E'. split; [done|]. split; [done|]. split.
  - intros b [Hb1 Hb2]%not_elem_of_cons. rewrite Hr' by done. by apply Hoth.
  - constructor; [|done]. exists client'. split; [|done]. rewrite Hr' by done. cbn.
    apply list_lookup_insert_eq. by eapply lookup_lt_Some.
Qed.

Lemma collect_dirents_run mems ess acc (n : cluster D F) :
  Forall2 (fun mem es => exists base, regions n !! mem = Some base /\
    forall acc, parse_dirents (length es) base 0 (length es) acc = Ok (acc ++ es)) mems ess ->
  collect_dirents (W := net) ((fun es => replied (0, Z.of_nat (length es))) <$> ess) mems acc n =
    (Ok (acc ++ concat ess), n).
Proof using.
  clear Hd. intros H. revert acc. induction H as [|mem es mems ess (base & Hb & Hp) H IH]; intros acc; csimpl.
  { by rewrite app_nil_r. }
  unfold m_bind at 1, net_get, replied. cbn [negb Z.eqb]. unfold m_bind at 1, m_gets. cbn [region ClusterNet].
  rewrite Hb, Nat2Z.id. cbn [default from_option id]. unfold m_bind, m_lift. rewrite Hp.
  etransitivity; [apply IH|]. by rewrite <- app_assoc.
Qed.

(** Putting the hosts together: each child is listed by its one host. *)
Lemma host_entries_all n m dir :
  ns_rel n m -> is_absolute dir = true ->
  exists ess, Forall2 (host_entries n dir) (locate_directory_metadata d dir) ess /\
    concat ess ≡ₚ children m dir /\
    Forall (fun es => es ⊆+ children m dir) ess.
Proof using Hd L.
  clear str_hash. intros Hr Ha. set (ts := locate_directory_metadata d dir).
  assert (forall ts', (forall t, t ∈ ts' -> 0 <= t < hosts_size) -> NoDup ts' ->
    exists ess, Forall2 (host_entries n dir) ts' ess /\ NoDup (concat ess) /\
      (forall e, e ∈ concat ess <-> e ∈ children m dir /\ locate_file_metadata d (dir_prefix dir ++ e.1) ∈ ts') /\
      Forall (fun es => es ⊆+ children m dir) ess) as Hall.
  { intros ts' Hrange Hnd. induction Hnd as [|t ts' Hni Hnd IH].
    { exists []. repeat split; try constructor; set_solver. }
    destruct IH as (ess & H1 & H2 & H3 & H4); [set_solver|].
    assert (0 <= t < hosts_size) as Ht by (apply Hrange; constructor).
    destruct (host_entries_spec n m dir t Hr Ha Ht) as (es & He & Hn & Hes).
    assert (NoDup es) as Hn' by (by eapply NoDup_fmap_1).
    assert (forall e, host (dir_prefix dir ++ e) = Z.to_nat t <->
      locate_file_metadata d (dir_prefix dir ++ e) = t) as Eh.
    { intros e. pose proof (locate_metadata_range (dir_prefix dir ++ e)). lia. }
    exists (es :: ess). split; [by constructor|]. split; [|split; [|constructor; [|done]]].
    - cbn. apply NoDup_app. split; [done|]. split; [|done]. intros e [_ E1%Eh]%Hes [_ E2]%H3. congruence.
    - intros e. cbn. rewrite elem_of_app, Hes, H3, elem_of_cons, Eh. naive_solver.
    - apply NoDup_submseteq; [done|]. intros e He'. by apply Hes in He' as [? _]. }
  destruct (Hall ts) as (ess & H1 & H2 & H3 & H4).
  { intros t Ht. by eapply locate_directory_range. }
  { apply locate_directory_nodup. }
  exists ess. split; [done|]. split; [|done]. apply NoDup_Permutation; [done|by eapply NoDup_fmap_1, children_nodup|].
  intros e. rewrite H3. split; [by intros []|]. intros He. split; [done|]. apply locate_directory_complete.
Qed.

(** The size of each host's part of the receive buffer. *)
Definition per_host (dir : str) : Z := dirents_buff_size cfg / Z.of_nat (length (locate_directory_metadata d dir)).

Lemma ns_dirents_sim (n : cluster D F) m dir buffer :
  ns_rel n m -> env_ok env -> is_absolute dir = true -> paths_ok m ->
  0 <= dirents_buff_size cfg <= Z.of_nat (length buffer) -> dirents_out_size (children m dir) <= per_host dir ->
  exists es n', forward_get_dirents (W := net) cfg d hosts_size dir buffer n = (Ok es, n') /\
    es ≡ₚ children m dir /\ daemons n' = daemons n.
Proof using Hd L.
  intros Hr He Ha Hp Hbuf Hsz. destruct (host_entries_all n m dir Hr Ha) as (ess & H1 & H2 & H3).
  pose proof (locate_directory_complete dir dir) as Hne.
  unfold forward_get_dirents. fold (per_host dir). set (ts := locate_directory_metadata d dir) in *.
  assert (0 < Z.of_nat (length ts)) as Hpos by (destruct ts; [by apply not_elem_of_nil in Hne|simpl; lia]).
  set (per := Z.to_nat (per_host dir)).
  assert (Z.of_nat per = per_host dir) as Eper.
  { unfold per. rewrite Z2Nat.id; [done|]. unfold per_host. fold ts. apply Z.div_pos; lia. }
  destruct (pieces_length per (length ts) buffer) as [Hl1 Hl2].
  { unfold per_host in Eper. fold ts in Eper. pose proof (Z.mul_div_le (dirents_buff_size cfg) (Z.of_nat (length ts)) Hpos). nia. }
  rewrite (m_bind_ok _ _ n _ _ (expose_all_run per ts buffer n)).
  set (mems := seq (length (regions n)) (length ts)).
  set (n1 := MkCluster (daemons n) (regions n ++ pieces per (length ts) buffer)).
  destruct (post_dirents_run dir ts mems ess n1) as (n' & E & Hd' & _ & Hall).
  - done.
  - apply Forall_forall. intros t Ht. by eapply locate_directory_range.
  - apply NoDup_seq.
  - apply length_seq.
  - done.
  - eapply Forall_impl; [exact H3|]. intros es Hes. apply Forall_forall. intros [name b] Hin.
    eapply children_no_nul; [done|]. eapply elem_of_submseteq; [exact Hin|exact Hes].
  - apply Forall2_same_length_lookup_2; [unfold mems; rewrite length_seq; by eapply Forall2_length|].
    intros i mem es Hi Hes. unfold mems in Hi. apply lookup_seq in Hi as [-> Hi].
    destruct (lookup_lt_is_Some_2 (pieces per (length ts) buffer) i) as [piece Hpc]; [lia|].
    exists piece. split.
    + cbn. rewrite lookup_app_r by lia. by replace (length (regions n) + i - length (regions n))%nat with i by lia.
    + rewrite (proj1 (Forall_lookup _ _) Hl2 _ _ Hpc), Eper.
      etransitivity; [|exact Hsz]. apply dirents_out_size_submseteq. apply (proj1 (Forall_lookup _ _) H3 _ _ Hes).
  - rewrite (m_bind_ok _ _ n1 _ _ E). rewrite (collect_dirents_run mems ess [] n' Hall).
    exists (concat ess), n'. done.
Qed.

(** ** Removing a file with its data *)

(** RocksDB's [Delete] does not fail on a missing key, and the local file
    system removes directories ([destroy_chunk_space] only logs a failure). *)
Record removal_works : Prop := {
  rw_delete k (db : D) : (Delete k db).1 <> RdbNotFound;
  rw_remove_all p (f : F) : (px_remove_all p f).1 = true
}.

(** The effect of a handled removal on a daemon. *)
Definition removed_on (path : str) (s s' : daemon D F) : Prop :=
  (forall v, db_rel cfg (mdb s) v -> db_rel cfg (mdb s') (delete path v)) /\
  (forall id, fs_file (storage s') (chunk_file st path id) = None) /\
  (forall q, ~ (exists t, q = root_path st ++ sep :: replace_sep (drop 1 path) ++ sep :: t) ->
     q <> root_path st ++ sep :: replace_sep (drop 1 path) -> fs_file (storage s') q = fs_file (storage s) q).

Lemma removed_on_trans path s1 s2 s3 : removed_on path s1 s2 -> removed_on path s2 s3 -> removed_on path s1 s3.
Proof using.
  intros (A1 & A2 & A3) (B1 & B2 & B3). split; [|split; [done|]].
  - intros v Hv. rewrite <- (delete_delete_eq v path). auto.
  - intros q H1 H2. by rewrite B3, A3.
Qed.

Lemma remove_handler_removes {LP : PosixFSLaws P} path (s s' : daemon D F) :
  removal_works -> file_path_ok path -> rpc_srv_remove st true path s = (Ok 0, s') -> removed_on path s s'.
Proof using L.
  clear Hd. intros Hw Hp E.
  assert (forall v, db_rel cfg (mdb s) v -> db_rel cfg (mdb s') (delete path v)) as Hdb.
  { intros v Hv. by apply (handle_md_sim cfg junk st (ReqRemove path) s s' v). }
  split; [done|].
  unfold rpc_srv_remove, m_bind at 1, m_assert, m_ret at 1, m_try, remove_node, m_bind in E.
  destruct (on_mdb (db_remove path) s) as [r1 s1] eqn:E1.
  assert (storage s1 = storage s) as Es.
  { unfold on_mdb in E1. destruct (db_remove path (mdb s)) as [? ?]. by injection E1 as _ <-. }
  destruct r1 as [[]|e|]; [| |done].
  - destruct (destroy_chunk_space_spec st path 0 Hp (storage s1)) as (f' & Ed & Hout & _).
    assert (forall id, fs_file f' (chunk_file st path id) = None) as Hin.
    { intros id. destruct (destroy_chunk_space_spec st path id Hp (storage s1)) as (f2 & Ed2 & _ & Hid).
      rewrite Ed in Ed2. injection Ed2 as <-. apply Hid, Hw. }
    unfold on_storage in E. rewrite Ed in E. injection E as <-. cbn. split; [done|].
    intros q H1 H2. by rewrite Hout, Es.
  - exfalso. unfold on_mdb, db_remove, check_write in E1. pose proof (rw_delete Hw path (mdb s)) as Hnf.
    destruct (Delete path (mdb s)) as [[] d1]; try done; injection E1 as <- <-; done.
Qed.

(** The replies of the hosts are there when [post] returns. *)
Definition settled {A} (o : option A) : handle (cluster D F) A := fun n => (o, n).

Lemma post_removes_run {LP : PosixFSLaws P} path hs (n n' : cluster D F) handles :
  removal_works -> file_path_ok path -> get_input_ok env = true ->
  post_removes (W := net) hosts_size path hs n = (Ok handles, n') ->
  exists outs, handles = settled <$> outs /\ length (daemons n') = length (daemons n) /\
    (Forall (fun o => o = Some 0) outs ->
     forall h s, daemons n !! h = Some s -> exists s', daemons n' !! h = Some s' /\
       (if decide (Z.of_nat h ∈ hs) then removed_on path s s' else s' = s)).
Proof using L.
  clear Hd. intros Hw Hp Hin. revert n handles. induction hs as [|t hs IH]; intros n handles E; cbn [post_removes] in E.
  { injection E as <- <-. exists []. split; [done|]. split; [done|]. intros _ h s Hs. exists s. split; [done|].
    by rewrite decide_False by apply not_elem_of_nil. }
  apply m_bind_inv in E as (endp & n1 & E1 & E). unfold m_try, host_at in E1.
  destruct ((0 <=? t) && (t <? hosts_size)) eqn:Hb; [|done]. injection E1 as <- <-.
  apply andb_true_iff in Hb as [Hb1%Z.leb_le Hb2%Z.ltb_lt].
  apply m_bind_inv in E as (hd & n1 & E1 & E). unfold net_post in E1. cbn [post ClusterNet] in E1.
  unfold cluster_post in E1. destruct (daemons n !! Z.to_nat t) as [s|] eqn:Hs; [|by injection E1 as <- <-].
  assert (exists o s', hd = Some (settled o) /\ n1 = MkCluster (<[Z.to_nat t := s']> (daemons n)) (regions n) /\
    (o = Some 0 -> rpc_srv_remove st true path s = (Ok 0, s'))) as (o & s' & -> & -> & Ho).
  { cbn [run_rpc] in E1. rewrite Hin in E1. unfold m_bind in E1.
    destruct (rpc_srv_remove st true path s) as [[x|x|] s'].
    - injection E1 as <- <-. exists (Some x), s'. split; [done|]. split; [done|]. by intros [= ->].
    - injection E1 as <- <-. by exists None, s'.
    - injection E1 as <- <-. by exists None, s'. }
  apply m_bind_inv in E as (handles' & n2 & E2 & [= <- <-]).
  apply IH in E2 as (outs & -> & Hl & Hall). exists (o :: outs). split; [done|]. cbn in Hl. rewrite length_insert in Hl.
  split; [done|]. intros [-> Ho']%Forall_cons. specialize (Ho eq_refl).
  apply remove_handler_removes in Ho; [|done..]. intros h sh Hsh.
  destruct (decide (h = Z.to_nat t)) as [->|Hne].
  - rewrite Hs in Hsh. injection Hsh as <-.
    destruct (Hall Ho' (Z.to_nat t) s') as (s2 & Hs2 & H2).
    { cbn. apply list_lookup_insert_eq. by eapply lookup_lt_Some. }
    exists s2. split; [done|]. rewrite Z2Nat.id in * by done. rewrite (decide_True (P := t ∈ t :: hs)) by constructor.
    case_decide; [by eapply removed_on_trans|by subst].
  - destruct (Hall Ho' h sh) as (s2 & Hs2 & H2); [cbn; by rewrite list_lookup_insert_ne|].
    exists s2. split; [done|]. rewrite (decide_ext _ (Z.of_nat h ∈ hs)); [done|].
    rewrite elem_of_cons. split; [|by right]. intros [Et|]; [lia|done].
Qed.

Lemma wait_removes_run (outs : list (option Z)) r (n n' : cluster D F) e :
  wait_removes (settled <$> outs) r n = (Ok (0, e), n') -> n' = n /\ r.1 = 0 /\ Forall (fun o => o = Some 0) outs.
Proof using.
  clear. revert r. induction outs as [|o outs IH]; intros r; csimpl.
  { intros [= -> <-]. by repeat constructor. }
  unfold m_bind, net_get, settled at 1. intros E. apply IH in E as (-> & Hr & Ho). split; [done|].
  destruct o as [x|]; [|done]. destruct (Z.eqb_spec x 0) as [->|]; [|done]. by repeat constructor.
Qed.

Lemma metadata_in_remove_hosts path size : locate_file_metadata d path ∈ remove_hosts cfg d hosts_size path size.
Proof using Hd.
  unfold remove_hosts. destruct (_ <? _); [by left|]. apply elem_of_all_hosts, locate_metadata_range.
Qed.

Lemma chunk_in_remove_hosts path size o :
  0 < chunksize cfg -> 0 <= size < 2 ^ 63 -> 0 <= o < size ->
  locate_data d path (o / chunksize cfg) ∈ remove_hosts cfg d hosts_size path size.
Proof using Hd.
  intros Hcs Hs Ho. unfold remove_hosts. destruct (_ <? _); [|apply elem_of_all_hosts, locate_data_range].
  right. apply list_elem_of_fmap. exists (o / chunksize cfg). split; [done|]. apply elem_of_seqZ.
  rewrite Z.quot_div_nonneg by lia.
  assert (0 <= o / chunksize cfg <= size / chunksize cfg) by (split; [apply Z.div_pos|apply Z.div_le_mono]; lia).
  assert (size / chunksize cfg <= size) by (apply Z.div_le_upper_bound; nia).
  rewrite wrapu_small by int_solve. lia.
Qed.

Lemma forward_remove_sim {LP : PosixFSLaws P} path size (n n' : cluster D F) m e :
  ns_rel n m -> get_input_ok env = true -> removal_works -> file_path_ok path ->
  forward_remove (W := net) cfg d hosts_size path false size n = (Ok (0, e), n') ->
  ns_rel n' (delete path m) /\
  forall h s, daemons n !! h = Some s -> exists s', daemons n' !! h = Some s' /\
    (if decide (Z.of_nat h ∈ remove_hosts cfg d hosts_size path size) then removed_on path s s' else s' = s).
Proof using Hd L.
  intros Hr Hin Hw Hp E. unfold forward_remove in E.
  apply m_bind_inv in E as (x & n0 & E0 & E).
  assert (n0 = n) as ->.
  { revert E0. destruct (_ <? _); [|by intros [= _ ->]]. unfold host_at. destruct (_ && _); [by intros [= _ ->]|done]. }
  apply m_bind_inv in E as (hs & n1 & Ep & Ew).
  destruct (post_removes_run path _ n n1 hs Hw Hp Hin Ep) as (outs & -> & Hl & Hall).
  apply wait_removes_run in Ew as (-> & _ & Hz). specialize (Hall Hz). split; [|done].
  destruct Hr as [Hlen Hv]. split; [by rewrite Hl|]. intros h s' Hs'.
  destruct (lookup_lt_is_Some_2 (daemons n) h) as [s Hs]; [rewrite <- Hl; by eapply lookup_lt_Some|].
  destruct (Hall h s Hs) as (s2 & Hs2 & H2). rewrite Hs' in Hs2. injection Hs2 as <-.
  destruct (Hv h s Hs) as (v & Hdb & Hw1 & Hw2).
  pose proof (metadata_in_remove_hosts path size) as Hm. pose proof (locate_metadata_range path) as Hrange.
  case_decide as Hh.
  - exists (delete path v). split; [by apply H2|]. split; intros p.
    + intros Hp'. destruct (decide (p = path)) as [->|]; [by rewrite !lookup_delete_eq|].
      rewrite !lookup_delete_ne by done. by apply Hw1.
    + intros Hp' Hroot. rewrite lookup_delete_None. right. by apply Hw2.
  - subst s'. exists v. split; [done|]. split; [|done]. intros p Hp'. rewrite lookup_delete_ne; [by apply Hw1|].
    intros <-. apply Hh. rewrite <- Hp', Z2Nat.id by lia. done.
Qed.

Lemma forward_remove_flat {LP : PosixFSLaws P} path size (n n' : cluster D F) m e o :
  ns_rel n m -> get_input_ok env = true -> removal_works -> file_path_ok path ->
  0 < chunksize cfg -> 0 <= size < 2 ^ 63 -> 0 <= o < size ->
  forward_remove (W := net) cfg d hosts_size path false size n = (Ok (0, e), n') ->
  flat cfg st d n' path o = None.
Proof using Hd L.
  intros Hr Hin Hw Hp Hcs Hs Ho E.
  destruct (forward_remove_sim path size n n' m e Hr Hin Hw Hp E) as [_ Hall].
  pose proof (chunk_in_remove_hosts path size o Hcs Hs Ho) as Ht.
  pose proof (locate_data_range path (o / chunksize cfg)) as Hrange.
  set (t := locate_data d path (o / chunksize cfg)) in *.
  destruct (lookup_lt_is_Some_2 (daemons n) (Z.to_nat t)) as [s Hst]; [pose proof (ns_hosts _ _ Hr); lia|].
  destruct (Hall _ s Hst) as (s' & Hs' & Hrem). rewrite Z2Nat.id, decide_True in Hrem by (done || lia).
  unfold flat, chunk_on. fold t. rewrite Hs'. csimpl. by rewrite (proj1 (proj2 Hrem)).
Qed.

(** *** Removals that fail *)

Definition kept_or_removed (path : str) (s s' : daemon D F) : Prop :=
  (forall v, db_rel cfg (mdb s) v -> db_rel cfg (mdb s') v) \/
  (forall v, db_rel cfg (mdb s) v -> db_rel cfg (mdb s') (delete path v)).

Lemma kept_or_removed_trans path s1 s2 s3 :
  kept_or_removed path s1 s2 -> kept_or_removed path s2 s3 -> kept_or_removed path s1 s3.
Proof using.
  intros [A|A] [B|B]; [left|right..]; intros v Hv; auto.
  rewrite <- (delete_delete_eq v path). auto.
Qed.

Lemma remove_handler_any path (s s' : daemon D F) r :
  rpc_srv_remove st true path s = (r, s') -> kept_or_removed path s s'.
Proof using L.
  clear Hd. unfold rpc_srv_remove, m_bind at 1, m_assert, m_ret at 1, m_try, remove_node, m_bind.
  unfold on_mdb. destruct (db_remove path (mdb s)) as [r1 d1] eqn:E1. intros E.
  assert (mdb s' = d1) as Es.
  { unfold on_storage in E. destruct r1 as [[]|e|]; cbn -[destroy_chunk_space] in E;
      [destruct (destroy_chunk_space _ _ _) as [[[]|e|] f]|..]; cbn in E; by injection E as _ <-. }
  unfold kept_or_removed. rewrite Es. destruct r1 as [[]|e|].
  - right. intros v Hv. by apply (run_op_sim cfg junk (OpRemove path) (mdb s)).
  - left. intros v Hv. eapply db_rel_ext; [|exact Hv]. by eapply (run_op_fails cfg junk (OpRemove path)).
  - left. intros v Hv. eapply db_rel_ext; [|exact Hv]. by eapply (run_op_fails cfg junk (OpRemove path)).
Qed.

Lemma post_removes_any path hs (n n' : cluster D F) handles :
  get_input_ok env = true -> post_removes (W := net) hosts_size path hs n = (Ok handles, n') ->
  exists outs, handles = settled <$> outs /\
  length (daemons n') = length (daemons n) /\
  forall h s, daemons n !! h = Some s -> exists s', daemons n' !! h = Some s' /\ kept_or_removed path s s'.
Proof using L.
  clear Hd. intros Hin. revert n handles. induction hs as [|t hs IH]; intros n handles E; cbn [post_removes] in E.
  { injection E as <- <-. exists []. split; [done|]. split; [done|]. intros h s Hs. exists s. split; [done|]. by left. }
  apply m_bind_inv in E as (endp & n1 & E1 & E). unfold m_try, host_at in E1.
  destruct ((0 <=? t) && (t <? hosts_size)); [|done]. injection E1 as <- <-.
  apply m_bind_inv in E as (hd & n1 & E1 & E). unfold net_post in E1. cbn [post ClusterNet] in E1.
  unfold cluster_post in E1. destruct (daemons n !! Z.to_nat t) as [s|] eqn:Hs; [|by injection E1 as <- <-].
  assert (exists o s', hd = Some (settled o) /\ n1 = MkCluster (<[Z.to_nat t := s']> (daemons n)) (regions n) /\
    kept_or_removed path s s') as (o & s' & -> & -> & Ho).
  { cbn [run_rpc] in E1. rewrite Hin in E1. unfold m_bind in E1.
    destruct (rpc_srv_remove st true path s) as [r s'] eqn:Er. apply remove_handler_any in Er.
    destruct r as [x|x|]; injection E1 as <- <-; [exists (Some x)|exists None..]; by exists s'. }
  apply m_bind_inv in E as (handles' & n2 & E2 & [= <- <-]).
  apply IH in E2 as (outs & -> & Hl & Hall). exists (o :: outs). split; [done|].
  cbn in Hl. rewrite length_insert in Hl. split; [done|]. intros h sh Hsh.
  destruct (decide (h = Z.to_nat t)) as [->|Hne].
  - rewrite Hs in Hsh. injection Hsh as <-. destruct (Hall (Z.to_nat t) s') as (s2 & Hs2 & H2).
    { cbn. apply list_lookup_insert_eq. by eapply lookup_lt_Some. }
    exists s2. split; [done|]. by eapply kept_or_removed_trans.
  - apply Hall. cbn. by rewrite list_lookup_insert_ne.
Qed.

Lemma wait_removes_any (outs : list (option Z)) r (n : cluster D F) :
  exists r', wait_removes (settled <$> outs) r n = (Ok r', n).
Proof using.
  clear. revert r. induction outs as [|o outs IH]; intros r; [by eexists|]. csimpl. apply IH.
Qed.

Lemma forward_remove_any path only size (n n' : cluster D F) m r :
  ns_rel n m -> get_input_ok env = true ->
  forward_remove (W := net) cfg d hosts_size path only size n = (Ok r, n') ->
  ns_rel n' m \/ ns_rel n' (delete path m).
Proof using Hd L.
  intros Hr Hin E. destruct only.
  { by apply (ns_forward_any (NsRemoveEntry path) n n' m r). }
  unfold forward_remove in E. apply m_bind_inv in E as (x & n0 & E0 & E).
  assert (n0 = n) as ->.
  { revert E0. destruct (_ <? _); [|by intros [= _ ->]]. unfold host_at. destruct (_ && _); [by intros [= _ ->]|done]. }
  apply m_bind_inv in E as (hs & n1 & Ep & Ew).
  destruct (post_removes_any path _ n n1 hs Hin Ep) as (outs & -> & Hl & Hall).
  destruct (wait_removes_any outs (0, None) n1) as [r' Ew']. rewrite Ew' in Ew. injection Ew as _ <-.
  destruct Hr as [Hlen Hv].
  assert (forall h s', daemons n1 !! h = Some s' -> h <> host path ->
    exists v, db_rel cfg (mdb s') v /\ view_of h m v /\ view_of h (delete path m) v) as Hother.
  { intros h s' Hs' Hne. destruct (lookup_lt_is_Some_2 (daemons n) h) as [s Hs]; [rewrite <- Hl; by eapply lookup_lt_Some|].
    destruct (Hall h s Hs) as (s2 & Hs2 & H2). rewrite Hs' in Hs2. injection Hs2 as <-.
    destruct (Hv h s Hs) as (v & Hdb & Hw1 & Hw2).
    assert (forall w, view_of h m w -> view_of h (delete path m) w) as Hdel.
    { intros w. by apply (view_of_op_other m w (OpRemove path)). }
    destruct H2 as [Hk|Hk].
    - exists v. split; [auto|]. split; [done|]. by apply Hdel.
    - exists (delete path v). split; [auto|].
      assert (view_of h m (delete path v)) as Hvw; [|split; [done|by apply Hdel]].
      split; intros p Hp.
      + rewrite lookup_delete_ne; [by apply Hw1|]. by intros <-.
      + intros Hroot. rewrite lookup_delete_None. right. by apply Hw2. }
  destruct (ns_host n m path {| ns_hosts := Hlen; ns_view := Hv |}) as [s Hs].
  destruct (Hall _ s Hs) as (s' & Hs' & Hk). destruct (Hv _ s Hs) as (v & Hdb & Hview).
  destruct Hk as [Hk|Hk]; [left|right]; (split; [by rewrite Hl|]); intros h t Ht;
    (destruct (decide (h = host path)) as [->|Hne]; [|destruct (Hother h t Ht Hne) as (w & ? & ? & ?); by exists w]);
    rewrite Hs' in Ht; injection Ht as <-.
  - exists v. split; [auto|done].
  - exists (delete path v). split; [auto|]. by apply (view_of_op_here m v (OpRemove path)).
Qed.
End namespace.

(** ** A cluster for any namespace

    Daemons with in-memory stores that hold the parts of a given map: the
    relation can hold for every map of well-formed entries. *)

Section example.
Context (cfg : config) (junk : Metadata) (d : Distributor) (hosts_size : Z).
Local Abbreviation R := (MemDB (FullMergeV2 cfg junk)).

Definition store_of (m : gmap str Metadata) : gmap str db_entry := (fun md => (Some (serialize cfg md), [])) <$> m.

Lemma store_of_rel m : map_Forall (fun _ => md_wf) m -> db_rel (R := R) cfg (store_of m) m.
Proof.
  intros Hw k. change (entry_of cfg (m !! k) (default no_entry (store_of m !! k))). unfold store_of.
  rewrite lookup_fmap. destruct (m !! k) as [md|] eqn:E; cbn; [|constructor].
  apply entry_of_put. by eapply Hw.
Qed.

Definition part_of (h : nat) (m : gmap str Metadata) : gmap str Metadata :=
  filter (fun e : str * Metadata => Z.to_nat (locate_file_metadata d e.1) = h \/ e.1 = root_dir) m.

Definition cluster_of (m : gmap str Metadata) : cluster (gmap str db_entry) memfs :=
  MkCluster ((fun h => MkDaemon (store_of (part_of h m)) empty_fs) <$> seq 0 (Z.to_nat hosts_size)) [].

Lemma cluster_of_ns m : 0 <= hosts_size -> map_Forall (fun _ => md_wf) m ->
  ns_rel (R := R) cfg d hosts_size (cluster_of m) m.
Proof.
  intros Hh Hw. split.
  - cbn. rewrite length_fmap, length_seq. lia.
  - intros h s. cbn. rewrite list_lookup_fmap. intros (h' & Hs & ->)%fmap_Some.
    apply lookup_seq in Hs as [-> _]. cbn [Nat.add]. exists (part_of h m). split; [|split].
    + cbn. apply store_of_rel. intros k md Hk. apply map_lookup_filter_Some in Hk as [Hk _]. by eapply Hw.
    + intros p Hp. unfold part_of. destruct (m !! p) as [md|] eqn:E.
      * apply map_lookup_filter_Some. split; [done|]. by left.
      * apply map_lookup_filter_None. by left.
    + intros p Hp Hroot. unfold part_of. apply map_lookup_filter_None. right. intros md _ [Hx|Hx]; done.
Qed.

Lemma mem_reads_ok (db : gmap str db_entry) : reads_ok (R := R) db.
Proof. intros k v. simpl. case_decide; [done|]. by destruct (mem_resolve _ _). Qed.

Lemma mem_removal_works : removal_works (R := R) (P := MemFS).
Proof. split; done. Qed.
End example.

(** A directory with a file of 6 bytes in it. *)
Definition dir_md : Metadata := MkMetadata 0 0 0 (Z.lor S_IFDIR 511) 0 0 0 [].
Definition file_md : Metadata := MkMetadata 0 0 0 (Z.lor S_IFREG 420) 0 6 0 [].
Definition small_map : gmap str Metadata :=
  {[ root_dir := dir_md; s_ "/d" := dir_md; s_ "/d/x" := file_md; s_ "/e" := dir_md ]}.

Lemma dir_md_wf : md_wf dir_md.
Proof. constructor; (by left) || (by apply not_elem_of_nil) || (split; by vm_compute). Qed.
Lemma file_md_wf : md_wf file_md.
Proof. constructor; (by left) || (by apply not_elem_of_nil) || (split; by vm_compute). Qed.

Lemma small_map_wf : map_Forall (fun _ => md_wf) small_map.
Proof. unfold small_map. repeat apply map_Forall_insert_2; try apply map_Forall_empty; auto using dir_md_wf, file_md_wf. Qed.

Local Abbreviation small_d := (SimpleHashDistributor last_char_hash 0 2).
#[export] Instance small_d_ok : DistributorOk 2 small_d := SimpleHashDistributor_ok last_char_hash 2 0 ltac:(lia).

Definition small_cluster : cluster (gmap str db_entry) memfs := cluster_of small_config small_d 2 small_map.

Lemma small_cluster_ns :
  ns_rel (R := MemDB (FullMergeV2 small_config example_md)) small_config small_d 2 small_cluster small_map.
Proof. apply cluster_of_ns; [done|apply small_map_wf]. Qed.

(** ** Properties *)



(** Listing a directory over the cluster returns each of its entries
    once, whichever daemon keeps it, with its kind; the daemons keep their
    state.  The listing has to fit the parts of the receive buffer. *)
Theorem namespace_listing_complete {D F : Type} (R : RocksDB D) (P : PosixFS F) (cfg : config) (junk : Metadata)
    (st : ChunkStorage) (str_hash : str -> Z) (env : margo_env) (time : Z) (d : Distributor) (hosts_size : Z)
    (Hd : DistributorOk hosts_size d) (L : RocksDBLaws R (FullMergeV2 cfg junk))
    (n : cluster D F) (m : gmap str Metadata) (dir : str) (buffer : list byte) :
  ns_rel cfg d hosts_size n m -> env_ok env -> is_absolute dir = true -> paths_ok m ->
  0 <= dirents_buff_size cfg <= Z.of_nat (length buffer) -> dirents_out_size (children m dir) <= per_host cfg d dir ->
  exists es n', forward_get_dirents (W := ClusterNet cfg junk st str_hash env time) cfg d hosts_size dir buffer n =
      (Ok es, n') /\ daemons n' = daemons n /\ NoDup es.*1 /\
    forall name b, (name, b) ∈ es <->
      component name /\ exists md, m !! (dir_prefix dir ++ name) = Some md /\ b = S_ISDIR (mode_ md).
Proof.
  intros Hr He Ha Hp Hb Hs.
  destruct (ns_dirents_sim cfg junk st str_hash env time d hosts_size n m dir buffer Hr He Ha Hp Hb Hs)
    as (es & n' & E & Hperm & Hdm).
  exists es, n'. split; [done|]. split; [done|]. split; [rewrite Hperm; apply children_nodup|].
  intros name b. rewrite Hperm. apply elem_of_children.
Qed.

Lemma small_paths_ok : paths_ok small_map.
Proof.
  assert (map_Forall (fun p (_ : Metadata) => NUL ∉ p) small_map) as H.
  { unfold small_map. repeat apply map_Forall_insert_2; try apply map_Forall_empty; by apply (bool_decide_unpack _). }
  intros p [md Hp]. by apply H in Hp.
Qed.

Lemma namespace_listing_complete_witness :
  exists es n', forward_get_dirents (W := ClusterNet (R := MemDB (FullMergeV2 small_config example_md)) (P := MemFS)
      small_config example_md small_store last_char_hash good_env 0) small_config small_d 2
      root_dir (replicate 1024 NUL) small_cluster = (Ok es, n') /\
    daemons n' = daemons small_cluster /\ NoDup es.*1 /\
    forall name b, (name, b) ∈ es <->
      component name /\ exists md, small_map !! (dir_prefix root_dir ++ name) = Some md /\ b = S_ISDIR (mode_ md).
Proof.
  apply (namespace_listing_complete (MemDB (FullMergeV2 small_config example_md)) MemFS small_config example_md
    small_store last_char_hash good_env 0 small_d 2 small_d_ok (MemDB_laws _) small_cluster small_map).
  - apply small_cluster_ns.
  - apply good_env_ok.
  - reflexivity.
  - apply small_paths_ok.
  - by vm_compute.
  - by vm_compute.
Defined.
