(* ===== verification/OpenFileMap.v ===== *)
(** * Open files of the client ([src/client/open_file_map.cpp], [open_dir.cpp])

    Descriptors map to shared [OpenFile] objects, so that a duplicated
    descriptor shares its position.  The objects live in a store and the map
    holds their addresses.  Each method runs under its mutex and is one
    step. *)

From S2P Require Import Prelude Config.

(** ** Data *)

Inductive FileType := regular | directory.
#[global] Instance FileType_eq : EqDecision FileType.
Proof. solve_decision. Defined.

Module OpenFile_flags.
Inductive t := append | creat | trunc | rdonly | wronly | rdwr | cloexec.
End OpenFile_flags.

Definition to_underlying (f : OpenFile_flags.t) : nat :=
  match f with
  | OpenFile_flags.append => 0
  | OpenFile_flags.creat => 1
  | OpenFile_flags.trunc => 2
  | OpenFile_flags.rdonly => 3
  | OpenFile_flags.wronly => 4
  | OpenFile_flags.rdwr => 5
  | OpenFile_flags.cloexec => 6
  end.

Record DirEntry := MkDirEntry { de_name : str; de_type : FileType }.

(** [OpenFile] and its subclass [OpenDir], which adds [entries]. *)
Record OpenFile := MkOpenFile {
  type_ : FileType;
  path_ : str;
  flags_ : list bool;
  pos_ : Z;               (* unsigned long *)
  entries : list DirEntry
}.

(** [O_RDONLY] is zero: the flag [rdonly] is never set. *)
Definition new_OpenFile (path : str) (flags : Z) (type : FileType) : OpenFile :=
  MkOpenFile type path
    [has_flag flags O_APPEND; has_flag flags O_CREAT; has_flag flags O_TRUNC;
     has_flag flags O_RDONLY; has_flag flags O_WRONLY; has_flag flags O_RDWR; false] 0 [].

Definition new_OpenDir (path : str) : OpenFile := new_OpenFile path 0 directory.

Definition get_flag (o : OpenFile) (f : OpenFile_flags.t) : bool := nth (to_underlying f) (flags_ o) false.
Definition set_flag (f : OpenFile_flags.t) (value : bool) (o : OpenFile) : OpenFile :=
  MkOpenFile (type_ o) (path_ o) (<[to_underlying f := value]> (flags_ o)) (pos_ o) (entries o).
Definition set_path (path : str) (o : OpenFile) : OpenFile :=
  MkOpenFile (type_ o) path (flags_ o) (pos_ o) (entries o).
Definition set_pos (pos : Z) (o : OpenFile) : OpenFile :=
  MkOpenFile (type_ o) (path_ o) (flags_ o) (u64 pos) (entries o).

(** [OpenDir::add], [getdent] and [size]. *)
Definition dir_add (name : str) (type : FileType) (o : OpenFile) : OpenFile :=
  MkOpenFile (type_ o) (path_ o) (flags_ o) (pos_ o) (entries o ++ [MkDirEntry name type]).
Definition getdent (o : OpenFile) (pos : nat) : res DirEntry :=
  match entries o !! pos with Some e => Ok e | None => Throw OutOfRange end.
Definition dir_size (o : OpenFile) : nat := length (entries o).

Definition INT_MAX : Z := 2 ^ 31 - 1.

Record OpenFileMap := MkFileMap {
  objects : list OpenFile;        (* the shared objects, by address *)
  files_ : gmap Z nat;
  fd_idx : Z;
  fd_validation_needed : bool
}.

Definition new_OpenFileMap : OpenFileMap := MkFileMap [] ∅ 10000 false.

(** ** Operations *)

Module FileMap.

(** [std::make_shared]. *)
Definition alloc (o : OpenFile) (m : OpenFileMap) : nat * OpenFileMap :=
  (length (objects m), MkFileMap (objects m ++ [o]) (files_ m) (fd_idx m) (fd_validation_needed m)).

(** A setter called through a pointer. *)
Definition update_object (p : nat) (f : OpenFile -> OpenFile) (m : OpenFileMap) : OpenFileMap :=
  MkFileMap (alter f p (objects m)) (files_ m) (fd_idx m) (fd_validation_needed m).

Definition get (m : OpenFileMap) (fd : Z) : option nat := files_ m !! fd.
Definition get_file (m : OpenFileMap) (fd : Z) : option OpenFile := get m fd ≫= (objects m !!.).
Definition exist (m : OpenFileMap) (fd : Z) : bool := bool_decide (is_Some (files_ m !! fd)).

Definition get_dir (m : OpenFileMap) (dirfd : Z) : option nat :=
  match get m dirfd with
  | None => None
  | Some p =>
      match objects m !! p with
      | Some o => if decide (type_ o = directory) then Some p else None
      | None => None
      end
  end.

Definition generate_fd_idx (m : OpenFileMap) : Z * OpenFileMap :=
  let m := if fd_idx m =? INT_MAX then MkFileMap (objects m) (files_ m) 100000 true else m in
  (fd_idx m, MkFileMap (objects m) (files_ m) (fd_idx m + 1) (fd_validation_needed m)).

(** [while (exist(fd)) fd = generate_fd_idx();], [None] when out of fuel. *)
Fixpoint next_free (fuel : nat) (fd : Z) (m : OpenFileMap) : option (Z * OpenFileMap) :=
  if exist m fd then
    match fuel with
    | O => None
    | S n => let '(fd', m') := generate_fd_idx m in next_free n fd' m'
    end
  else Some (fd, m).

(** As many turns as there are open files are enough, see
    [safe_generate_total]. *)
Definition safe_generate_fd_idx_ (m : OpenFileMap) : option (Z * OpenFileMap) :=
  let '(fd, m) := generate_fd_idx m in
  if fd_validation_needed m then next_free (size (files_ m)) fd m else Some (fd, m).

(** [std::map::insert] keeps an existing binding. *)
Definition map_insert (fd : Z) (p : nat) (m : OpenFileMap) : OpenFileMap :=
  MkFileMap (objects m) (if exist m fd then files_ m else <[fd := p]> (files_ m))
    (fd_idx m) (fd_validation_needed m).

Definition add (p : nat) (m : OpenFileMap) : option (Z * OpenFileMap) :=
  '(fd, m) ← safe_generate_fd_idx_ m; Some (fd, map_insert fd p m).

Definition remove (fd : Z) (m : OpenFileMap) : bool * OpenFileMap :=
  if negb (exist m fd) then (false, m) else
  let files := delete fd (files_ m) in
  (true, MkFileMap (objects m) files (fd_idx m)
           (if fd_validation_needed m && bool_decide (files = ∅) then false else fd_validation_needed m)).

Definition dup (oldfd : Z) (m : OpenFileMap) : option (result * OpenFileMap) :=
  match get m oldfd with
  | None => Some (fail_with EBADF, m)
  | Some p => '(newfd, m) ← safe_generate_fd_idx_ m; Some ((newfd, None), map_insert newfd p m)
  end.

Definition dup2 (oldfd newfd : Z) (m : OpenFileMap) : result * OpenFileMap :=
  match get m oldfd with
  | None => (fail_with EBADF, m)
  | Some p =>
      if oldfd =? newfd then ((newfd, None), m) else
      let m := if exist m newfd then (remove newfd m).2 else m in
      let needed := (fd_idx m <? newfd) && negb (newfd =? 0) && negb (newfd =? 1) && negb (newfd =? 2) in
      let m := MkFileMap (objects m) (files_ m) (fd_idx m) (if needed then true else fd_validation_needed m) in
      ((newfd, None), map_insert newfd p m)
  end.
End FileMap.

(** ** Descriptors are given out once *)

(** The [i]-th descriptor generated from index [idx]. *)
Definition nth_fd (idx i : Z) : Z :=
  if idx + i <? INT_MAX then idx + i else idx + i - (INT_MAX - 100000).

Lemma nth_fd_inj idx i j n :
  idx <= INT_MAX -> n < INT_MAX - 100000 -> 0 <= i <= n -> 0 <= j <= n ->
  nth_fd idx i = nth_fd idx j -> i = j.
Proof. unfold nth_fd. intros. repeat case_match; lia. Qed.

(** Generating: the next of the sequence, nothing but the index and the flag
    change, and the flag is never cleared. *)
Lemma generate_first m : fd_idx m <= INT_MAX ->
  let '(fd, m') := FileMap.generate_fd_idx m in
  fd = nth_fd (fd_idx m) 0 /\ fd_idx m' = fd + 1 /\ objects m' = objects m /\ files_ m' = files_ m /\
  (fd_validation_needed m' = false -> fd_validation_needed m = false /\ fd = fd_idx m).
Proof.
  intros H. unfold FileMap.generate_fd_idx, nth_fd, INT_MAX in *.
  destruct (Z.eqb_spec (fd_idx m) (2 ^ 31 - 1)) as [E|E]; cbn;
    repeat case_match; (split_and!; [lia|lia|done|done|intros; split; lia || done]).
Qed.

Lemma generate_next m idx i n :
  fd_idx m = nth_fd idx i + 1 -> idx <= INT_MAX -> 0 <= i < n -> n < INT_MAX - 100000 ->
  let '(fd, m') := FileMap.generate_fd_idx m in
  fd = nth_fd idx (i + 1) /\ fd_idx m' = fd + 1 /\ objects m' = objects m /\ files_ m' = files_ m /\
  (fd_validation_needed m' = false -> fd_validation_needed m = false).
Proof.
  intros H ? ? ?. unfold FileMap.generate_fd_idx. unfold nth_fd, INT_MAX in *.
  destruct (Z.eqb_spec (fd_idx m) (2 ^ 31 - 1)) as [E|E]; cbn;
    repeat case_match; (split_and!; [lia|lia|done|done|done]).
Qed.

(** More generated descriptors than open files: one of them is free. *)
Lemma some_fd_free (files : gmap Z nat) idx :
  idx <= INT_MAX -> Z.of_nat (size files) < INT_MAX - 100000 ->
  ~ (forall i, 0 <= i <= Z.of_nat (size files) -> is_Some (files !! nth_fd idx i)).
Proof.
  intros Hi Hs Hall.
  set (l := nth_fd idx <$> seqZ 0 (Z.of_nat (size files) + 1)).
  assert (NoDup l) as Hl.
  { apply NoDup_fmap_2_strong; [|apply NoDup_seqZ].
    intros i j Hi' Hj' E. rewrite elem_of_seqZ in Hi', Hj'.
    eapply (nth_fd_inj idx i j (Z.of_nat (size files))); lia || done. }
  assert (list_to_set (C := gset Z) l ⊆ dom files) as Hsub.
  { intros fd. rewrite elem_of_list_to_set, elem_of_dom. unfold l. rewrite list_elem_of_fmap.
    intros (i & -> & Hi')%id. rewrite elem_of_seqZ in Hi'. apply Hall. lia. }
  apply subseteq_size in Hsub. rewrite size_list_to_set, size_dom in Hsub by done.
  unfold l in Hsub. rewrite length_fmap, length_seqZ in Hsub. lia.
Qed.

(** What [safe_generate_fd_idx_] leaves alone. *)
Record generated (m : OpenFileMap) (fd : Z) (m' : OpenFileMap) : Prop := {
  gen_free : files_ m !! fd = None;
  gen_range : 10000 <= fd < INT_MAX;
  gen_idx : fd_idx m' = fd + 1;
  gen_objects : objects m' = objects m;
  gen_files : files_ m' = files_ m;
  gen_flag : fd_validation_needed m' = false -> fd_validation_needed m = false /\ fd = fd_idx m
}.

Lemma nth_fd_range idx i n :
  10000 <= idx <= INT_MAX -> 0 <= i <= n -> n < INT_MAX - 100000 -> 10000 <= nth_fd idx i < INT_MAX.
Proof. unfold nth_fd, INT_MAX. intros. case_match; lia. Qed.

Lemma next_free_total fuel m idx i n :
  10000 <= idx <= INT_MAX -> n = Z.of_nat (size (files_ m)) -> n < INT_MAX - 100000 ->
  0 <= i -> i + Z.of_nat fuel = n -> fd_idx m = nth_fd idx i + 1 ->
  (forall j, 0 <= j < i -> is_Some (files_ m !! nth_fd idx j)) ->
  exists fd m', FileMap.next_free fuel (nth_fd idx i) m = Some (fd, m') /\
    files_ m !! fd = None /\ 10000 <= fd < INT_MAX /\ fd_idx m' = fd + 1 /\
    objects m' = objects m /\ files_ m' = files_ m /\
    (fd_validation_needed m' = false -> fd_validation_needed m = false).
Proof.
  revert m i. induction fuel as [|fuel IH]; intros m i Hidx -> Hn Hi Hf Em Hseen;
    cbn [FileMap.next_free];
    unfold FileMap.exist; case_bool_decide as Hex.
  2,4: apply eq_None_not_Some in Hex;
       destruct (nth_fd_range idx i (Z.of_nat (size (files_ m))) Hidx) as [R1 R2]; [lia|lia|];
       eexists _, _; by split_and!.
  - exfalso. apply (some_fd_free (files_ m) idx); [lia..|].
    intros j Hj. destruct (decide (j = i)) as [->|]; [done|]. apply Hseen. lia.
  - assert (0 <= i < Z.of_nat (size (files_ m))) as Hin by lia.
    pose proof (generate_next m idx i _ Em (proj2 Hidx) Hin Hn) as G.
    destruct (FileMap.generate_fd_idx m) as [fd' m'] eqn:E. destruct G as (-> & Ei & Eo & Ef & Hv).
    destruct (IH m' (i + 1)) as (fd & m'' & En & H1 & H2 & H3 & H4 & H5 & H6);
      rewrite ?Ef; try (done || lia).
    { intros j Hj. destruct (decide (j = i)) as [->|]; [done|]. apply Hseen. lia. }
    rewrite Ef in H1. eexists _, _. split; [done|]. split_and!; [done|lia|lia|done|congruence|congruence|tauto].
Qed.

(** ** Invariant *)

(** Without validation every open descriptor is below the index. *)
Record fd_inv (m : OpenFileMap) : Prop := {
  inv_idx : 10000 <= fd_idx m <= INT_MAX;
  inv_fresh : fd_validation_needed m = false -> forall fd, is_Some (files_ m !! fd) -> fd < fd_idx m;
  inv_objects : forall fd p, files_ m !! fd = Some p -> (p < length (objects m))%nat
}.

(** Fewer open files than descriptors above 100000. *)
Definition not_exhausted (m : OpenFileMap) : Prop := Z.of_nat (size (files_ m)) < INT_MAX - 100000.

Lemma safe_generate_total m :
  fd_inv m -> not_exhausted m ->
  exists fd m', FileMap.safe_generate_fd_idx_ m = Some (fd, m') /\ generated m fd m'.
Proof.
  intros [Hidx Hfresh _] Hsz. unfold not_exhausted in Hsz. unfold FileMap.safe_generate_fd_idx_.
  pose proof (generate_first m ltac:(lia)) as G.
  destruct (FileMap.generate_fd_idx m) as [fd m1] eqn:E. destruct G as (-> & Ei & Eo & Ef & Hv).
  pose proof (nth_fd_range (fd_idx m) 0 0 Hidx ltac:(lia) ltac:(unfold INT_MAX; lia)) as Hr.
  destruct (fd_validation_needed m1) eqn:Ev.
  - destruct (next_free_total (size (files_ m1)) m1 (fd_idx m) 0 (Z.of_nat (size (files_ m1))))
      as (fd & m' & En & H1 & H2 & H3 & H4 & H5 & H6);
      rewrite ?Ef; try (done || lia).
    rewrite Ef in *. eexists _, _. split; [done|]. split; try congruence; try lia.
    intros F. apply H6 in F. congruence.
  - destruct (Hv eq_refl) as [Ev0 E0]. eexists _, _. split; [done|]. split; try done.
    apply eq_None_not_Some. intros H%Hfresh; [lia|done].
Qed.

Lemma map_insert_fresh fd p m : files_ m !! fd = None -> files_ (FileMap.map_insert fd p m) = <[fd := p]> (files_ m).
Proof.
  intros H. cbn. unfold FileMap.exist. by rewrite bool_decide_false by (rewrite H; by intros []).
Qed.

(** Binding a generated descriptor extends the map and keeps the invariant. *)
Lemma bind_generated m fd m' p :
  generated m fd m' -> fd_inv m -> (p < length (objects m))%nat ->
  let m'' := FileMap.map_insert fd p m' in
  files_ m'' = <[fd := p]> (files_ m) /\ objects m'' = objects m /\ fd_inv m''.
Proof.
  intros [Hf Hr Hi Ho Hfs Hfl] [Hidx Hfresh Hobj] Hp m''.
  assert (files_ m'' = <[fd := p]> (files_ m)) as E.
  { unfold m''. rewrite map_insert_fresh; rewrite Hfs; done. }
  split_and!; [done|done|]. split.
  - cbn. rewrite Hi. lia.
  - intros Hv fd' Hfd'. cbn in Hv. destruct (Hfl Hv) as [Hv0 Efd]. rewrite E, lookup_insert_is_Some in Hfd'.
    cbn. rewrite Hi. destruct Hfd' as [->|[_ H]]; [lia|]. specialize (Hfresh Hv0 _ H). lia.
  - intros fd' p'. rewrite E. replace (objects m'') with (objects m) by done.
    rewrite lookup_insert_Some. intros [[_ <-]|[_ H]]; [done|by eapply Hobj].
Qed.

Lemma remove_files fd m : files_ (FileMap.remove fd m).2 = delete fd (files_ m).
Proof.
  unfold FileMap.remove. destruct (FileMap.exist m fd) eqn:E; [done|]. cbn.
  unfold FileMap.exist in E. rewrite bool_decide_eq_false, <- eq_None_not_Some in E.
  by rewrite delete_id.
Qed.

Lemma remove_inv fd m : fd_inv m -> fd_inv (FileMap.remove fd m).2.
Proof.
  intros H. pose proof (remove_files fd m) as Ef. destruct H as [Hidx Hfresh Hobj].
  assert (objects (FileMap.remove fd m).2 = objects m /\ fd_idx (FileMap.remove fd m).2 = fd_idx m) as [Eo Ei].
  { unfold FileMap.remove. by case_match. }
  split.
  - by rewrite Ei.
  - intros Hv fd'. rewrite Ef, Ei, lookup_delete_is_Some. intros [Hne H].
    apply Hfresh; [|done]. revert Hv. unfold FileMap.remove. case_match; [done|]. cbn.
    case_bool_decide as Hd; [|by rewrite andb_false_r].
    exfalso. destruct H as [p H]. apply (f_equal (.!! fd')) in Hd.
    rewrite lookup_delete_ne, lookup_empty in Hd by done. congruence.
  - intros fd' p. rewrite Ef, Eo, lookup_delete_Some. intros [_ H]. by eapply Hobj.
Qed.

(** [dup2] rebinds [newfd] and nothing else. *)
Lemma dup2_spec oldfd newfd m p : files_ m !! oldfd = Some p ->
  let '(r, m') := FileMap.dup2 oldfd newfd m in
  r = (newfd, None) /\ files_ m' = <[newfd := p]> (files_ m) /\ objects m' = objects m /\
  fd_idx m' = fd_idx m.
Proof.
  intros Hp. unfold FileMap.dup2, FileMap.get. rewrite Hp.
  destruct (Z.eqb_spec oldfd newfd) as [->|Hne].
  { by rewrite insert_id. }
  destruct (FileMap.exist m newfd) eqn:E.
  - cbn [files_ objects fd_idx]. rewrite map_insert_fresh; cbn [files_]; rewrite remove_files.
    + rewrite insert_delete_eq. split_and!; try done; cbn; unfold FileMap.remove; by rewrite E.
    + by rewrite lookup_delete_eq.
  - unfold FileMap.exist in E. rewrite bool_decide_eq_false, <- eq_None_not_Some in E.
    split_and!; try done. by rewrite map_insert_fresh.
Qed.

(** The flag after [dup2]: [false] only if it was and the index is not
    passed by [newfd]. *)
Lemma dup2_flag oldfd newfd m p : files_ m !! oldfd = Some p -> oldfd <> newfd -> 10000 <= fd_idx m ->
  fd_validation_needed (FileMap.dup2 oldfd newfd m).2 = false ->
  fd_validation_needed m = false /\ newfd <= fd_idx m.
Proof.
  intros Hp Hne Hidx. unfold FileMap.dup2, FileMap.get. rewrite Hp.
  rewrite (proj2 (Z.eqb_neq oldfd newfd)) by done. cbn.
  assert (fd_idx (if FileMap.exist m newfd then (FileMap.remove newfd m).2 else m) = fd_idx m) as ->.
  { case_match; [|done]. unfold FileMap.remove. by case_match. }
  destruct (Z.ltb_spec (fd_idx m) newfd) as [Hlt|Hge]; cbn.
  { rewrite !(proj2 (Z.eqb_neq newfd _)) by lia. done. }
  case_match eqn:E; [|done]. unfold FileMap.remove. rewrite E. cbn.
  case_bool_decide as Hd; [|by rewrite andb_false_r].
  exfalso. apply (f_equal (.!! oldfd)) in Hd. rewrite lookup_delete_ne, lookup_empty in Hd by done. congruence.
Qed.

Lemma dup2_inv oldfd newfd m : fd_inv m -> newfd <> fd_idx m -> fd_inv (FileMap.dup2 oldfd newfd m).2.
Proof.
  intros Hinv Hn. destruct (files_ m !! oldfd) as [p|] eqn:Hp.
  2:{ unfold FileMap.dup2, FileMap.get. by rewrite Hp. }
  destruct (decide (oldfd = newfd)) as [->|Hne].
  { unfold FileMap.dup2, FileMap.get. by rewrite Hp, Z.eqb_refl. }
  pose proof (dup2_spec oldfd newfd m p Hp) as S. pose proof (dup2_flag oldfd newfd m p Hp Hne) as Fl.
  destruct (FileMap.dup2 oldfd newfd m) as [r m']. cbn in *. destruct S as (_ & Ef & Eo & Ei).
  destruct Hinv as [Hidx Hfresh Hobj]. split.
  - by rewrite Ei.
  - intros Hv fd. rewrite Ef, Ei, lookup_insert_is_Some. destruct (Fl (proj1 Hidx) Hv) as [Hv0 Hle].
    intros [<-|[_ H]]; [lia|by apply Hfresh].
  - intros fd q. rewrite Ef, Eo, lookup_insert_Some. intros [[_ <-]|[_ H]]; by eapply Hobj.
Qed.

Lemma update_object_inv p f m : fd_inv m -> fd_inv (FileMap.update_object p f m).
Proof. intros [? ? Hobj]. split; cbn; [done..|]. intros fd q H. rewrite length_alter. by eapply Hobj. Qed.

Lemma alloc_inv o m : fd_inv m -> fd_inv (FileMap.alloc o m).2.
Proof.
  intros [? ? Hobj]. split; cbn; [done..|]. intros fd q H%Hobj. rewrite length_app. lia.
Qed.

(** ** Reachable maps *)

(** What the client does with its map.  [dup2] onto the very next index is
    left out, see [dup2_next_index_aliases]. *)
Inductive ofm_step (m : OpenFileMap) : OpenFileMap -> Prop :=
| step_open o fd m' : not_exhausted m ->
    FileMap.add (FileMap.alloc o m).1 (FileMap.alloc o m).2 = Some (fd, m') -> ofm_step m m'
| step_close fd : ofm_step m (FileMap.remove fd m).2
| step_dup oldfd r m' : not_exhausted m -> FileMap.dup oldfd m = Some (r, m') -> ofm_step m m'
| step_dup2 oldfd newfd : newfd <> fd_idx m -> ofm_step m (FileMap.dup2 oldfd newfd m).2
| step_set p f : ofm_step m (FileMap.update_object p f m).

Definition reachable (m : OpenFileMap) : Prop := rtc ofm_step new_OpenFileMap m.

(** [add] of an allocated object. *)
Lemma add_spec m o : fd_inv m -> not_exhausted m ->
  exists fd m', FileMap.add (FileMap.alloc o m).1 (FileMap.alloc o m).2 = Some (fd, m') /\
    files_ m !! fd = None /\ 10000 <= fd < INT_MAX /\
    files_ m' = <[fd := length (objects m)]> (files_ m) /\ objects m' = objects m ++ [o] /\ fd_inv m'.
Proof.
  intros Hinv Hsz. pose proof (alloc_inv o m Hinv) as Hinv1.
  destruct (safe_generate_total (FileMap.alloc o m).2 Hinv1 Hsz) as (fd & m1 & E & G).
  destruct (bind_generated _ fd m1 (length (objects m)) G Hinv1) as (Ef & Eo & Hi).
  { cbn. rewrite length_app. cbn. lia. }
  unfold FileMap.add. rewrite E. eexists _, _. split; [done|]. by destruct G.
Qed.

Lemma dup_spec m oldfd p : fd_inv m -> not_exhausted m -> files_ m !! oldfd = Some p ->
  exists newfd m', FileMap.dup oldfd m = Some ((newfd, None), m') /\
    files_ m !! newfd = None /\ files_ m' = <[newfd := p]> (files_ m) /\ objects m' = objects m /\ fd_inv m'.
Proof.
  intros Hinv Hsz Hp. destruct (safe_generate_total m Hinv Hsz) as (fd & m1 & E & G).
  destruct (bind_generated _ fd m1 p G Hinv) as (Ef & Eo & Hi); [by eapply inv_objects|].
  unfold FileMap.dup, FileMap.get. rewrite Hp, E. eexists _, _. split; [done|]. by destruct G.
Qed.

Lemma ofm_step_inv m m' : ofm_step m m' -> fd_inv m -> fd_inv m'.
Proof.
  intros [o fd m1 Hsz E|fd|oldfd r m1 Hsz E|oldfd newfd Hne|p f] Hinv.
  - destruct (add_spec m o Hinv Hsz) as (? & ? & E' & ? & ? & ? & ? & ?). congruence.
  - by apply remove_inv.
  - destruct (files_ m !! oldfd) as [p|] eqn:Hp.
    + destruct (dup_spec m oldfd p Hinv Hsz Hp) as (? & ? & E' & ? & ? & ? & ?). congruence.
    + unfold FileMap.dup, FileMap.get in E. rewrite Hp in E. congruence.
  - by apply dup2_inv.
  - by apply update_object_inv.
Qed.

Lemma reachable_inv m : reachable m -> fd_inv m.
Proof.
  intros H. assert (fd_inv new_OpenFileMap) as Hnew.
  { split; cbn; [unfold INT_MAX; lia|intros _ fd []%lookup_empty_is_Some|done]. }
  unfold reachable in H. induction H; eauto using ofm_step_inv.
Qed.

(** ** Properties *)


(** A duplicate is a fresh descriptor of the same open file: moving the
    position through either descriptor moves it for both, and the other
    descriptors are untouched. *)
Theorem dup_shares_position (m : OpenFileMap) (oldfd : Z) (p : nat) :
  reachable m -> not_exhausted m -> FileMap.get m oldfd = Some p ->
  exists newfd m', FileMap.dup oldfd m = Some ((newfd, None), m') /\ FileMap.get m newfd = None /\
    (forall pos, let moved := FileMap.update_object p (set_pos pos) m' in
       FileMap.get_file moved newfd = FileMap.get_file moved oldfd /\
       pos_ <$> FileMap.get_file moved newfd = Some (u64 pos)) /\
    forall fd, fd <> newfd -> FileMap.get_file m' fd = FileMap.get_file m fd.
Proof.
  intros Hr%reachable_inv Hsz Hp. destruct (dup_spec m oldfd p Hr Hsz Hp) as (newfd & m' & E & Hf & Ef & Eo & _).
  exists newfd, m'. split; [done|]. split; [done|].
  assert (oldfd <> newfd) as Hne by (intros ->; unfold FileMap.get in Hp; congruence).
  destruct (lookup_lt_is_Some_2 (objects m) p) as [o Ho]; [by eapply inv_objects|].
  unfold FileMap.get_file, FileMap.get in *. cbn. rewrite Ef, Eo. split.
  - intros pos. rewrite lookup_insert_eq, lookup_insert_ne, Hp by done. cbn.
    by rewrite list_lookup_alter, decide_True, Ho by done.
  - intros fd Hfd. by rewrite lookup_insert_ne by done.
Qed.

(** Duplicating onto the next index is not noticed: [dup2] compares with
    [<], so the next file opened gets the same descriptor and
    [std::map::insert] drops it; the descriptor returned by [open] denotes
    the duplicated file. *)
Theorem dup2_next_index_aliases (m : OpenFileMap) (oldfd : Z) (p : nat) (o : OpenFile) :
  reachable m -> fd_validation_needed m = false -> fd_idx m < INT_MAX -> FileMap.get m oldfd = Some p ->
  exists m1 m2, FileMap.dup2 oldfd (fd_idx m) m = ((fd_idx m, None), m1) /\
    FileMap.add (FileMap.alloc o m1).1 (FileMap.alloc o m1).2 = Some (fd_idx m, m2) /\
    FileMap.get m2 (fd_idx m) = Some p.
Proof.
  intros Hr%reachable_inv Hv Hlt Hp. unfold FileMap.get in Hp.
  assert (oldfd <> fd_idx m) as Hne.
  { assert (oldfd < fd_idx m) by (apply Hr; [done|by eexists]). lia. }
  pose proof (dup2_spec oldfd (fd_idx m) m p Hp) as S.
  assert (fd_validation_needed (FileMap.dup2 oldfd (fd_idx m) m).2 = false) as Hv1.
  { unfold FileMap.dup2, FileMap.get. rewrite Hp, (proj2 (Z.eqb_neq _ _)) by done.
    assert (FileMap.exist m (fd_idx m) = false) as ->; [|cbn; by rewrite Z.ltb_irrefl].
    apply bool_decide_eq_false. intros H. apply (inv_fresh m Hr Hv) in H. lia. }
  destruct (FileMap.dup2 oldfd (fd_idx m) m) as [r m1]. destruct S as (-> & Ef & _ & Ei). cbn in Hv1.
  exists m1. eexists. split; [done|].
  unfold FileMap.add, FileMap.safe_generate_fd_idx_, FileMap.generate_fd_idx. cbn [FileMap.alloc fd_idx snd fst].
  rewrite (proj2 (Z.eqb_neq _ _)) by lia. cbn [fd_validation_needed]. rewrite Hv1. cbn.
  rewrite Ei. split; [done|]. unfold FileMap.get, FileMap.map_insert, FileMap.exist. cbn [files_].
  rewrite Ef, bool_decide_true by (rewrite lookup_insert_eq; by eexists). by rewrite lookup_insert_eq.
Qed.

(** ** Witnesses *)

(** One open file, descriptor 10000. *)
Definition one_file : OpenFile := new_OpenFile (s_ "/a") O_RDWR regular.
Definition one_open : OpenFileMap := MkFileMap [one_file] {[10000 := 0%nat]} 10001 false.

Lemma one_open_reachable : reachable one_open.
Proof.
  eapply rtc_l; [|reflexivity]. apply (step_open new_OpenFileMap one_file 10000); by vm_compute.
Qed.


Lemma dup_shares_position_witness : exists newfd m',
  FileMap.dup 10000 one_open = Some ((newfd, None), m') /\ FileMap.get one_open newfd = None /\
  (forall pos, let moved := FileMap.update_object 0 (set_pos pos) m' in
     FileMap.get_file moved newfd = FileMap.get_file moved 10000 /\
     pos_ <$> FileMap.get_file moved newfd = Some (u64 pos)) /\
  forall fd, fd <> newfd -> FileMap.get_file m' fd = FileMap.get_file one_open fd.
Proof.
  apply (dup_shares_position one_open 10000 0 one_open_reachable); by vm_compute.
Defined.

Lemma dup2_next_index_aliases_witness : exists m1 m2,
  FileMap.dup2 10000 (fd_idx one_open) one_open = ((fd_idx one_open, None), m1) /\
  FileMap.add (FileMap.alloc one_file m1).1 (FileMap.alloc one_file m1).2 = Some (fd_idx one_open, m2) /\
  FileMap.get m2 (fd_idx one_open) = Some 0%nat.
Proof.
  apply (dup2_next_index_aliases one_open 10000 0 one_file one_open_reachable); by vm_compute.
Defined.
