(* ===== verification/Path.v ===== *)
(** * Path resolution ([src/client/path.cpp])

    [resolve] brings a path to canonical form and decides whether it lies
    below the mount point.  [lstat] and [realpath] are calls of the C
    library on the host's file system and are parameters: the mode of a
    path and the path a link leads to, [None] being an error. *)

From S2P Require Import Prelude Config PathUtil.

(** ** Definitions *)

(** [path.compare(start, n, s) == 0]. *)
Definition compare_eq (path : str) (start n : nat) (s : str) : bool :=
  bool_decide (substr path start n = s).

(** [path.find(separator, start)] with [npos] turned into the length. *)
Definition find_end (path : str) (start : nat) : nat :=
  default (length path) (find_char sep path start).

(** The [while] loop of [match_components]: [Ok None] when out of fuel. *)
Fixpoint match_loop (fuel : nat) (path : str) (components : list str) (end_ processed matched : nat)
    : res (option (nat * nat)) :=
  match fuel with
  | O => Ok None
  | S f =>
      if (S end_ <? length path)%nat then
        let start := S end_ in
        let end_ := find_end path start in
        if (matched =? processed)%nat then
          match components !! matched with
          | None => Throw OutOfRange
          | Some c =>
              let matched := if compare_eq path start (end_ - start) c then S matched else matched in
              match_loop f path components end_ (S processed) matched
          end
        else match_loop f path components end_ (S processed) matched
      else Ok (Some (matched, processed))
  end.

(** The number of matched components and of components of [path]. *)
Definition match_components (path : str) (components : list str) : res (option (nat * nat)) :=
  match_loop (S (length path)) path components 0 0 0.

Definition excluded_paths : list str := [s_ "sys/"; s_ "proc/"].
Definition excluded (path : str) : bool :=
  existsb (fun excl => compare_eq path 1 (length excl) excl) excluded_paths.

Section resolve.
Context (lstat : str -> option Z) (realpath : str -> option str).
Context (mountdir : str) (mnt_components : list str).

Record resolve_state := MkResolve {
  resolved : str;
  matched_components : nat;
  resolved_components : nat;
  last_slash_pos : option nat    (* [None] is [npos] *)
}.

Inductive turn :=
| Continue (s : resolve_state)
| Return (r : str * bool).

(** A component [..]: roll back. *)
Definition pop_component (s : resolve_state) : res resolve_state :=
  let pop_counters (resolved' : str) (slash : option nat) :=
    if (0 <? resolved_components s)%nat then
      MkResolve resolved'
        (if (matched_components s =? resolved_components s)%nat
         then matched_components s - 1 else matched_components s)
        (resolved_components s - 1) slash
    else MkResolve resolved' (matched_components s) (resolved_components s) slash in
  if bool_decide (resolved s = []) then Ok (pop_counters [] (last_slash_pos s)) else
  match last_slash_pos s with
  | Some n =>
      if (n <=? length (resolved s))%nat then
        let r := take n (resolved s) in Ok (pop_counters r (find_last_of sep r))
      else Throw OutOfRange
  | None => Throw OutOfRange
  end.

(** Any other component, [path[start, end_)]. *)
Definition push_component (path : str) (start end_ : nat) (resolve_last_link : bool) (s : resolve_state)
    : res turn :=
  let comp := substr path start (end_ - start) in
  let slash := Some (length (resolved s)) in
  let r := resolved s ++ [sep] ++ comp in
  if (matched_components s <? length mnt_components)%nat then
    let matched :=
      if (matched_components s =? resolved_components s)%nat &&
         compare_eq path start (end_ - start) (nth (matched_components s) mnt_components [])
      then S (matched_components s) else matched_components s in
    let outside := Ok (Return (r ++ drop end_ path, false)) in
    match lstat r with
    | None => outside
    | Some mode =>
        if S_ISLNK mode then
          if negb resolve_last_link && (end_ =? length path)%nat then
            Ok (Continue (MkResolve r matched (resolved_components s) slash))
          else
            match realpath r with
            | None => outside
            | Some link =>
                match match_components link mnt_components with
                | Ok (Some (matched, total)) => Ok (Continue (MkResolve link matched total (find_last_of sep link)))
                | Ok None => Trap
                | Throw e => Throw e
                | Trap => Trap
                end
            end
        else if negb (S_ISDIR mode) && negb (end_ =? length path)%nat then outside
        else Ok (Continue (MkResolve r matched (S (resolved_components s)) slash))
    end
  else Ok (Continue (MkResolve r (S (matched_components s)) (S (resolved_components s)) slash)).

(** Skip separators from [start] on. *)
Fixpoint skip_sep (fuel : nat) (path : str) (start : nat) : nat :=
  match fuel with
  | O => start
  | S f => if decide (path !! start = Some sep) then skip_sep f path (S start) else start
  end.

(** The epilogue; [resolved.erase(1, n)] throws on an empty string. *)
Definition finish (s : resolve_state) : res (option (str * bool)) :=
  if (length mnt_components <=? matched_components s)%nat then
    if bool_decide (resolved s = []) then Throw OutOfRange
    else Ok (Some (take 1 (resolved s) ++ drop (1 + length mountdir) (resolved s), true))
  else Ok (Some (if bool_decide (resolved s = []) then [sep] else resolved s, false)).

(** The main loop; [end_] grows at each turn, so the length of the path is
    enough fuel.  [Ok None] when out of fuel. *)
Fixpoint resolve_loop (fuel : nat) (path : str) (resolve_last_link : bool) (end_ : nat) (s : resolve_state)
    : res (option (str * bool)) :=
  match fuel with
  | O => Ok None
  | S f =>
      if (S end_ <? length path)%nat then
        let start := skip_sep (length path) path (S end_) in
        let end_ := find_end path start in
        let comp := substr path start (end_ - start) in
        if bool_decide (comp = []) then finish s else
        if bool_decide (comp = s_ ".") then resolve_loop f path resolve_last_link end_ s else
        if bool_decide (comp = s_ "..") then
          match pop_component s with
          | Ok s' => resolve_loop f path resolve_last_link end_ s'
          | Throw e => Throw e
          | Trap => Trap
          end
        else
          match push_component path start end_ resolve_last_link s with
          | Ok (Continue s') => resolve_loop f path resolve_last_link end_ s'
          | Ok (Return r) => Ok (Some r)
          | Throw e => Throw e
          | Trap => Trap
          end
      else finish s
  end.

(** The canonical path and whether it is inside GekkoFS. *)
Definition resolve (path : str) (resolve_last_link : bool) : res (option (str * bool)) :=
  assert_ (is_absolute path)
  (if excluded path then Ok (Some (path, false))
   else resolve_loop (S (length path)) path resolve_last_link 0 (MkResolve [] 0 0 (Some 0%nat))).
End resolve.

(** ** Canonical form *)

(** A spelling of an absolute path: each component with the number of extra
    separators before it, and the separators at the end. *)
Definition spell (cs : list (nat * str)) (trail : nat) : str :=
  concat ((fun c => replicate (S c.1) sep ++ c.2) <$> cs) ++ replicate trail sep.

(** The stack of components after [.] and [..]. *)
Definition norm_step (st : list str) (c : str) : list str :=
  if decide (c = s_ ".") then st else if decide (c = s_ "..") then take (length st - 1) st else st ++ [c].
Definition norm (cs : list (nat * str)) : list str := foldl norm_step [] cs.*2.

(** The absolute path of a stack, ["/"] for the empty one. *)
Definition canonical (st : list str) : str := if decide (st = []) then [sep] else join_path st.

(** The length of the common prefix with the mount point; below it, all
    components count as matched. *)
Fixpoint matched_of (mnt st : list str) : nat :=
  match mnt, st with
  | [], _ => length st
  | m :: mnt', s :: st' => if decide (m = s) then S (matched_of mnt' st') else 0%nat
  | _ :: _, [] => 0%nat
  end.

Lemma matched_of_le mnt st : (matched_of mnt st <= length st)%nat.
Proof. revert st; induction mnt as [|m mnt IH]; intros [|s st]; cbn; try lia. case_decide; [|lia]. specialize (IH st). lia. Qed.

Lemma matched_of_prefix mnt st : (length mnt <= matched_of mnt st)%nat <-> mnt `prefix_of` st.
Proof.
  revert st; induction mnt as [|m mnt IH]; intros st; [cbn; split; [intros _; apply prefix_nil|lia]|].
  destruct st as [|s st]; cbn; [split; [lia|intros H; by apply prefix_nil_inv in H]|].
  case_decide as E; [subst|].
  - rewrite <- Nat.succ_le_mono, IH. split; [apply prefix_cons|apply prefix_cons_inv_2].
  - split; [lia|]. intros H. by apply prefix_cons_inv_1 in H.
Qed.

Lemma matched_of_snoc_out mnt st c : (matched_of mnt st < length mnt)%nat ->
  matched_of mnt (st ++ [c]) =
    if (matched_of mnt st =? length st)%nat && bool_decide (c = nth (matched_of mnt st) mnt [])
    then S (matched_of mnt st) else matched_of mnt st.
Proof.
  revert st; induction mnt as [|m mnt IH]; intros [|s st]; cbn; intros H; [lia|lia|..].
  - case_decide; case_bool_decide; try congruence. by destruct mnt.
  - case_decide; [|done]. rewrite IH by lia. cbn. by case_match.
Qed.

Lemma matched_of_snoc_in mnt st c : mnt `prefix_of` st -> matched_of mnt (st ++ [c]) = S (matched_of mnt st).
Proof.
  intros [k ->]. induction mnt as [|m mnt IH]; cbn; [rewrite length_app; cbn; lia|].
  rewrite decide_True by done. by rewrite IH, decide_True.
Qed.

Lemma matched_of_pop mnt st c :
  matched_of mnt st =
    if (matched_of mnt (st ++ [c]) =? length (st ++ [c]))%nat
    then (matched_of mnt (st ++ [c]) - 1)%nat else matched_of mnt (st ++ [c]).
Proof.
  destruct (decide (mnt `prefix_of` st)) as [Hp|Hp].
  - rewrite matched_of_snoc_in by done. destruct Hp as [k ->].
    assert (forall k, matched_of mnt (mnt ++ k) = length (mnt ++ k)) as Hall.
    { induction mnt as [|m mnt IH]; intros k'; cbn; [done|]. by rewrite decide_True, IH. }
    rewrite Hall, !length_app. cbn [length]. rewrite (proj2 (Nat.eqb_eq _ _)) by lia. cbn. lia.
  - rewrite <- matched_of_prefix in Hp. rewrite matched_of_snoc_out by lia.
    pose proof (matched_of_le mnt st). rewrite length_app. cbn [length].
    destruct (matched_of mnt st =? length st)%nat eqn:E; cbn [andb].
    + apply Nat.eqb_eq in E. case_bool_decide.
      * rewrite (proj2 (Nat.eqb_eq _ _)) by lia. cbn. lia.
      * rewrite (proj2 (Nat.eqb_neq _ _)) by lia. done.
    + rewrite (proj2 (Nat.eqb_neq _ _)) by lia. done.
Qed.

Lemma find_last_of_join st c : sep ∉ c -> find_last_of sep (join_path (st ++ [c])) = Some (length (join_path st)).
Proof. intros H. rewrite join_path_snoc. by apply find_last_of_app. Qed.

Lemma norm_snoc cs n c : norm (cs ++ [(n, c)]) = norm_step (norm cs) c.
Proof. unfold norm. by rewrite fmap_app, foldl_app. Qed.

(** ** The loop follows the stack *)

Lemma skip_sep_run fuel pre n rest :
  (n < fuel)%nat -> rest !! 0%nat <> Some sep ->
  skip_sep fuel (pre ++ replicate n sep ++ rest) (length pre) = (length pre + n)%nat.
Proof.
  revert pre n. induction fuel as [|fuel IH]; intros pre n Hf Hr; [lia|]. cbn.
  rewrite lookup_app_r, Nat.sub_diag by lia. destruct n as [|n]; cbn.
  - rewrite decide_False by done. lia.
  - specialize (IH (pre ++ [sep]) n ltac:(lia) Hr). rewrite length_app, <- app_assoc in IH. cbn in IH.
    rewrite decide_True by done. rewrite Nat.add_1_r in IH. rewrite IH. lia.
Qed.

Lemma find_end_run pre c rest : sep ∉ c -> (rest = [] \/ rest !! 0%nat = Some sep) ->
  find_end (pre ++ c ++ rest) (length pre) = (length pre + length c)%nat.
Proof.
  intros Hc Hr. unfold find_end, find_char. rewrite drop_app_length.
  destruct rest as [|x rest]; [|destruct Hr as [|[= ->]]; [done|]].
  - rewrite app_nil_r, (proj2 (find_from_None _ _)) by done. cbn. by rewrite length_app.
  - by rewrite find_from_app_sep.
Qed.

Section canonical.
Context (lstat : str -> option Z) (realpath : str -> option str) (mnt : list str).
Context (Hmnt : mnt <> []).
Local Abbreviation mountdir := (join_path mnt).

Record represents (st : list str) (s : resolve_state) : Prop := {
  rep_resolved : resolved s = join_path st;
  rep_matched : matched_components s = matched_of mnt st;
  rep_count : resolved_components s = length st;
  rep_slash : st <> [] -> last_slash_pos s = find_last_of sep (join_path st)
}.

Lemma pop_represents st s : Forall component st -> represents st s ->
  exists s', pop_component s = Ok s' /\ represents (take (length st - 1) st) s'.
Proof.
  intros Hst [Er Em Ec Es]. unfold pop_component. rewrite Er, Em, Ec.
  destruct st as [|c st _] using rev_ind.
  { cbn. eexists. by split. }
  apply Forall_app in Hst as [_ [[_ Hc] _]%Forall_cons].
  rewrite bool_decide_false by (rewrite join_path_nil; by destruct st).
  rewrite Es, find_last_of_join by (done || by destruct st).
  assert (length (st ++ [c]) = S (length st)) as El by (rewrite length_app; cbn; lia).
  pose proof (matched_of_pop mnt st c) as Hp. rewrite El in *.
  replace (S (length st) - 1)%nat with (length st) by lia.
  rewrite join_path_snoc, length_app. rewrite (proj2 (Nat.leb_le _ _)) by lia.
  rewrite !take_app_length. eexists. split; [done|].
  change (0 <? S (length st))%nat with true.
  split; cbn [resolved matched_components resolved_components last_slash_pos]; [done|done|lia|done].
Qed.

Lemma push_represents path start end_ b st s c :
  represents st s -> substr path start (end_ - start) = c -> sep ∉ c ->
  (~ mnt `prefix_of` st -> exists mode, lstat (join_path (st ++ [c])) = Some mode /\ S_ISLNK mode = false /\
     (S_ISDIR mode = true \/ end_ = length path)) ->
  exists s', push_component lstat realpath mnt path start end_ b s = Ok (Continue s') /\ represents (st ++ [c]) s'.
Proof.
  intros [Er Em Ec Es] <- Hc Hl. unfold push_component, compare_eq. rewrite Er, Em, Ec.
  set (c := substr path start (end_ - start)) in *.
  replace (join_path st ++ [sep] ++ c) with (join_path (st ++ [c])) by apply join_path_snoc.
  destruct (Nat.ltb_spec (matched_of mnt st) (length mnt)) as [Hlt|Hge].
  - destruct Hl as (mode & El & Ek & Hd); [rewrite <- matched_of_prefix; lia|]. rewrite El, Ek.
    assert (negb (S_ISDIR mode) && negb (end_ =? length path)%nat = false) as ->.
    { destruct Hd as [-> | ->]; [done|]. by rewrite Nat.eqb_refl, andb_false_r. }
    eexists. split; [done|]. split; cbn.
    + done.
    + by rewrite matched_of_snoc_out.
    + rewrite length_app. cbn. lia.
    + intros _. by rewrite find_last_of_join.
  - apply matched_of_prefix in Hge. eexists. split; [done|]. split; cbn.
    + done.
    + by rewrite matched_of_snoc_in.
    + rewrite length_app. cbn. lia.
    + intros _. by rewrite find_last_of_join.
Qed.

(** The result for a stack: the part below the mount point when there is
    one. *)
Definition outcome (st : list str) : str * bool :=
  if decide (mnt `prefix_of` st) then (canonical (drop (length mnt) st), true) else (canonical st, false).

Lemma finish_represents st s : represents st s -> finish mountdir mnt s = Ok (Some (outcome st)).
Proof using Hmnt.
  intros [Er Em _ _]. unfold finish, outcome, canonical. rewrite Er, Em. case_decide as Hp.
  - rewrite (proj2 (Nat.leb_le _ _)) by (by apply matched_of_prefix). destruct Hp as [k ->].
    rewrite bool_decide_false by (rewrite join_path_nil; by destruct mnt).
    rewrite drop_app_length, join_path_app. destruct mnt as [|m mnt']; [done|].
    rewrite join_path_cons. cbn [app take drop length plus]. rewrite take_0. cbn [app].
    replace (S (length (m ++ join_path mnt'))) with (length ((m ++ join_path mnt') ++ take 1 (join_path k)) + (1 - length (take 1 (join_path k))))%nat.
    2:{ rewrite length_app, length_take. lia. }
    destruct k as [|c k]; [cbn|].
    + rewrite !app_nil_r. rewrite drop_ge by lia. done.
    + rewrite decide_False by done. rewrite join_path_cons. cbn [take length].
      replace (sep :: c ++ join_path k) with ([sep] ++ c ++ join_path k) by done.
      rewrite Nat.sub_diag, Nat.add_0_r. rewrite app_assoc. rewrite drop_app_length. done.
  - rewrite (proj2 (Nat.leb_gt _ _)) by (rewrite <- matched_of_prefix in Hp; lia).
    destruct st as [|c st]; [done|]. rewrite bool_decide_false by (by rewrite join_path_nil). by rewrite decide_False.
Qed.

Lemma spell_cons n c cs trail : spell ((n, c) :: cs) trail = replicate (S n) sep ++ c ++ spell cs trail.
Proof. unfold spell. csimpl. by rewrite <- !app_assoc. Qed.

Lemma spell_snoc_0 cs n c : spell (cs ++ [(n, c)]) 0 = spell cs 0 ++ replicate (S n) sep ++ c.
Proof. unfold spell. rewrite fmap_app, concat_app. cbn. by rewrite !app_nil_r. Qed.

Lemma spell_head cs trail : spell cs trail = [] \/ spell cs trail !! 0%nat = Some sep.
Proof. destruct cs as [|[n c] cs]; [destruct trail; [by left|by right]|right; by rewrite spell_cons]. Qed.

Lemma spell_split pre post trail : spell (pre ++ post) trail = spell pre 0 ++ spell post trail.
Proof. unfold spell. rewrite fmap_app, concat_app. cbn. by rewrite app_nil_r, <- app_assoc. Qed.

(** Every path visited outside the mount point exists and is no link; all
    but the last are directories. *)
Definition plain_directories (cs : list (nat * str)) (trail : nat) : Prop :=
  forall pre post, cs = pre ++ post -> norm pre <> [] ->
    ~ (mnt `prefix_of` norm pre /\ norm pre <> mnt) ->
    exists mode, lstat (join_path (norm pre)) = Some mode /\ S_ISLNK mode = false /\
      (S_ISDIR mode = true \/ (post = [] /\ trail = 0%nat)).

Lemma norm_components cs : Forall component cs.*2 -> Forall component (norm cs).
Proof.
  induction cs as [|[n c] cs IH] using rev_ind; intros H; [constructor|].
  rewrite fmap_app in H. apply Forall_app in H as [H [Hc _]%Forall_cons]. specialize (IH H).
  rewrite norm_snoc. unfold norm_step. repeat case_decide; [done|by apply Forall_take|].
  apply Forall_app. by rewrite Forall_singleton.
Qed.

Lemma prefix_snoc_inv (c : str) st : mnt `prefix_of` st ++ [c] -> ~ mnt `prefix_of` st -> st ++ [c] = mnt.
Proof.
  intros [k E] Hn. destruct k as [|x k _] using rev_ind; [by rewrite app_nil_r in E|].
  rewrite app_assoc in E. apply app_inj_tail in E as [E _]. exfalso. apply Hn. by exists k.
Qed.

(** One turn on the next component. *)
Lemma resolve_turn b pre n c post trail fuel s path :
  path = spell (pre ++ (n, c) :: post) trail -> component c -> Forall component pre.*2 ->
  plain_directories (pre ++ (n, c) :: post) trail -> represents (norm pre) s ->
  exists s', represents (norm (pre ++ [(n, c)])) s' /\
    resolve_loop lstat realpath mountdir mnt (S fuel) path b (length (spell pre 0)) s =
    resolve_loop lstat realpath mountdir mnt fuel path b (length (spell (pre ++ [(n, c)]) 0)) s'.
Proof.
  intros Ep [Hne Hsep] Hpre Hdirs Hrep.
  set (P := spell pre 0 ++ replicate (S n) sep).
  assert (path = P ++ c ++ spell post trail) as Epath.
  { unfold P. rewrite Ep, spell_split, spell_cons, <- !app_assoc. done. }
  assert (length (spell (pre ++ [(n, c)]) 0) = length P + length c)%nat as Eend.
  { rewrite spell_snoc_0, app_assoc, length_app. done. }
  assert (length P = S (length (spell pre 0)) + n)%nat as EP.
  { unfold P. rewrite length_app, length_replicate. lia. }
  assert (length path = length P + length c + length (spell post trail))%nat as Elen.
  { rewrite Epath, !length_app. lia. }
  assert (0 < length c)%nat as Hlc by (destruct c; [done|cbn; lia]).
  cbn [resolve_loop]. rewrite (proj2 (Nat.ltb_lt _ _)) by lia.
  assert (skip_sep (length path) path (S (length (spell pre 0))) = length P) as Esk.
  { pose proof (skip_sep_run (length path) (spell pre 0 ++ [sep]) n (c ++ spell post trail) ltac:(lia)) as K.
    rewrite length_app, <- app_assoc in K. cbn [length] in K. rewrite Nat.add_1_r in K. rewrite EP, <- K.
    - f_equal. rewrite Epath. unfold P. rewrite <- !app_assoc. done.
    - destruct c as [|x c]; [done|]. cbn. intros [= ->]. set_solver. }
  rewrite Esk.
  assert (find_end path (length P) = length P + length c)%nat as Efe.
  { rewrite Epath. apply find_end_run; [done|apply spell_head]. }
  rewrite Efe.
  assert (substr path (length P) (length P + length c - length P) = c) as Esub.
  { rewrite Epath. replace (length P + length c - length P)%nat with (length c) by lia. by apply drop_substr. }
  rewrite Esub, bool_decide_false by done. rewrite Eend, norm_snoc. unfold norm_step.
  case_decide as H1; [rewrite bool_decide_true by done; by exists s|]. rewrite bool_decide_false by done.
  case_decide as H2; [rewrite bool_decide_true by done|rewrite bool_decide_false by done].
  - destruct (pop_represents (norm pre) s (norm_components pre Hpre) Hrep) as (s' & -> & Hs'). by exists s'.
  - destruct (push_represents path (length P) (length P + length c) b (norm pre) s c Hrep Esub Hsep) as (s' & -> & Hs').
    2:{ by exists s'. }
    assert (norm pre ++ [c] = norm (pre ++ [(n, c)])) as En.
    { rewrite norm_snoc. unfold norm_step. by rewrite !decide_False by done. }
    intros Hnp. rewrite En. destruct (Hdirs (pre ++ [(n, c)]) post) as (mode & Hl & Hk & Hd).
    + by rewrite <- app_assoc.
    + rewrite <- En. by destruct (norm pre).
    + rewrite <- En. intros [Hp Hneq]. by apply Hneq, prefix_snoc_inv.
    + exists mode. split; [done|]. split; [done|]. destruct Hd as [Hd|[-> ->]]; [by left|right].
      rewrite Elen. cbn. lia.
Qed.

Lemma resolve_loop_outcome b post pre trail fuel s :
  (length post < fuel)%nat -> Forall component (pre ++ post).*2 ->
  plain_directories (pre ++ post) trail -> represents (norm pre) s ->
  resolve_loop lstat realpath mountdir mnt fuel (spell (pre ++ post) trail) b (length (spell pre 0)) s =
  Ok (Some (outcome (norm (pre ++ post)))).
Proof using Hmnt.
  revert pre fuel s. induction post as [|[n c] post IH]; intros pre fuel s Hf Hc Hd Hr.
  - rewrite app_nil_r in *. destruct fuel as [|fuel]; [lia|]. cbn [resolve_loop].
    assert (spell pre trail = spell pre 0 ++ replicate trail sep) as ->.
    { unfold spell. cbn. by rewrite app_nil_r. }
    set (P := spell pre 0). rewrite length_app, length_replicate.
    case_match eqn:E; [|by apply finish_represents]. apply Nat.ltb_lt in E.
    destruct trail as [|trail]; [lia|].
    assert (skip_sep (length P + S trail) (P ++ replicate (S trail) sep) (S (length P)) = length P + S trail)%nat as ->.
    { pose proof (skip_sep_run (length P + S trail) (P ++ [sep]) trail [] ltac:(lia) ltac:(done)) as K.
      rewrite length_app, <- app_assoc, app_nil_r in K. cbn [length] in K. rewrite Nat.add_1_r in K.
      cbn [replicate app] in *. rewrite K. lia. }
    rewrite bool_decide_true; [by apply finish_represents|].
    unfold substr. rewrite drop_ge by (rewrite length_app, length_replicate; lia). by rewrite take_nil.
  - destruct fuel as [|fuel]; [cbn in Hf; lia|].
    assert (Forall component pre.*2 /\ component c) as [Hpre Hcc].
    { rewrite fmap_app in Hc. apply Forall_app in Hc as [? H]. cbn in H. apply Forall_cons in H as [? _]. done. }
    destruct (resolve_turn b pre n c post trail fuel s _ eq_refl Hcc Hpre Hd Hr) as (s' & Hr' & ->).
    replace (pre ++ (n, c) :: post) with ((pre ++ [(n, c)]) ++ post) in * by (by rewrite <- app_assoc).
    apply IH; [cbn in Hf; lia|done..].
Qed.
End canonical.

(** ** [match_components] *)

(** One component [c] of [path] between [pre] and a separator or the end. *)
Lemma match_turn fuel (mnt : list str) (pre c rest : str) processed matched :
  component c -> (rest = [] \/ rest !! 0%nat = Some sep) ->
  match_loop (S fuel) (pre ++ [sep] ++ c ++ rest) mnt (length pre) processed matched =
  if (matched =? processed)%nat then
    match mnt !! matched with
    | None => Throw OutOfRange
    | Some c' =>
        match_loop fuel (pre ++ [sep] ++ c ++ rest) mnt (length (pre ++ [sep] ++ c)) (S processed)
          (if bool_decide (c = c') then S matched else matched)
    end
  else match_loop fuel (pre ++ [sep] ++ c ++ rest) mnt (length (pre ++ [sep] ++ c)) (S processed) matched.
Proof.
  intros [Hne Hs] Hr. cbn [match_loop].
  rewrite (proj2 (Nat.ltb_lt _ _)) by (rewrite !length_app; destruct c; [done|cbn; lia]).
  replace (pre ++ [sep] ++ c ++ rest) with ((pre ++ [sep]) ++ c ++ rest) by (by rewrite <- app_assoc).
  replace (S (length pre)) with (length (pre ++ [sep])) by (rewrite length_app; cbn; lia).
  rewrite find_end_run by done. unfold compare_eq.
  replace (length (pre ++ [sep]) + length c - length (pre ++ [sep]))%nat with (length c) by lia.
  rewrite drop_substr by done.
  by replace (length (pre ++ [sep] ++ c)) with (length (pre ++ [sep]) + length c)%nat by (rewrite !length_app; lia).
Qed.

Lemma join_path_head cs : join_path cs = [] \/ join_path cs !! 0%nat = Some sep.
Proof. destruct cs; [by left|by right]. Qed.

(** A path through all the components and further runs past their end. *)
Lemma match_loop_overrun mnt1 mnt2 c rest fuel :
  Forall component (mnt1 ++ mnt2) -> component c -> (length mnt2 < fuel)%nat ->
  match_loop fuel (join_path (mnt1 ++ mnt2 ++ c :: rest)) (mnt1 ++ mnt2) (length (join_path mnt1))
    (length mnt1) (length mnt1) = Throw OutOfRange.
Proof.
  revert mnt1 fuel. induction mnt2 as [|m mnt2 IH]; intros mnt1 fuel F Hc Hf; (destruct fuel as [|fuel]; [lia|]).
  - rewrite app_nil_r in *. cbn [app]. rewrite join_path_app, join_path_cons.
    pose proof (match_turn fuel mnt1 (join_path mnt1) c (join_path rest) (length mnt1) (length mnt1) Hc
      (join_path_head rest)) as E. cbn [app] in E. rewrite E, Nat.eqb_refl.
    by rewrite lookup_ge_None_2.
  - assert (component m) as Hm by (apply Forall_app in F as [_ [? _]%Forall_cons]; done).
    pose proof (match_turn fuel (mnt1 ++ m :: mnt2) (join_path mnt1) m (join_path (mnt2 ++ c :: rest))
      (length mnt1) (length mnt1) Hm (join_path_head _)) as E.
    rewrite Nat.eqb_refl, list_lookup_middle, bool_decide_true in E by done.
    cbn [app] in *. rewrite join_path_app, join_path_cons, E.
    specialize (IH (mnt1 ++ [m]) fuel). rewrite <- !app_assoc, length_app, join_path_snoc in IH. cbn [app length] in IH.
    rewrite Nat.add_1_r in IH. rewrite <- IH; [|done|done|cbn in Hf; lia].
    f_equal. by rewrite (join_path_app mnt1), join_path_cons.
Qed.

(** ** Properties *)

(** C31. [resolve] computes the canonical path: whatever the spelling of an
    absolute path (repeated and trailing separators, [.] and [..]), the
    result is the path of its normalised components, relative to the mount
    point exactly when they lie below it, and the flag says which.  The
    paths visited outside the mount point are directories and not links. *)
Theorem resolve_canonical (lstat : str -> option Z) (realpath : str -> option str) (mnt : list str)
    (cs : list (nat * str)) (trail : nat) (resolve_last_link : bool) :
  mnt <> [] -> spell cs trail <> [] -> Forall component cs.*2 ->
  excluded (spell cs trail) = false -> plain_directories lstat mnt cs trail ->
  resolve lstat realpath (join_path mnt) mnt (spell cs trail) resolve_last_link =
    Ok (Some (if decide (mnt `prefix_of` norm cs) then (canonical (drop (length mnt) (norm cs)), true)
              else (canonical (norm cs), false))).
Proof.
  intros Hmnt Hne Hc Hx Hd. unfold resolve. rewrite Hx.
  assert (is_absolute (spell cs trail) = true) as ->.
  { unfold is_absolute. rewrite bool_decide_true by done. destruct (spell_head cs trail) as [|H]; [done|].
    destruct (spell cs trail) as [|x t]; [done|]. injection H as ->. done. }
  cbn [assert_].
  rewrite (resolve_loop_outcome lstat realpath mnt Hmnt resolve_last_link cs [] trail); try done.
  2:{ split; try done. by destruct mnt. }
  assert (length cs <= length (spell cs trail))%nat; [|lia].
  clear. induction cs as [|[n c] cs IH]; cbn [length]; [lia|]. rewrite spell_cons, !length_app. cbn. lia.
Qed.

(** [match_components] reads past the mount point's components when the
    path continues below them: [components.at] throws [std::out_of_range]
    for every link target strictly inside the mount point. *)
Theorem match_components_below_mount (mnt : list str) (c : str) (rest : list str) :
  Forall component mnt -> component c ->
  match_components (join_path (mnt ++ c :: rest)) mnt = Throw OutOfRange.
Proof.
  intros F Hc. apply (match_loop_overrun [] mnt c rest); [done|done|].
  rewrite join_path_app, length_app. pose proof (length_join_path mnt F). lia.
Qed.

(** A file system in which [/root] is a link to [/] and all other paths are
    directories. *)
Definition root_link_lstat (p : str) : option Z :=
  if decide (p = s_ "/root") then Some S_IFLNK else Some S_IFDIR.
Definition root_link_realpath (p : str) : option str :=
  if decide (p = s_ "/root") then Some (s_ "/") else Some p.

(** A link that leads to the root directory breaks the canonical form:
    the next component is appended to ["/"] after another separator, and a
    file of GekkoFS reached that way is named with two leading separators,
    which is not the key under which it is stored. *)
Theorem root_link_doubles_separator (resolve_last_link : bool) :
  resolve root_link_lstat root_link_realpath (s_ "/mnt") [s_ "mnt"] (s_ "/root/mnt/file") resolve_last_link =
    Ok (Some (s_ "//file", true)) /\
  resolve root_link_lstat root_link_realpath (s_ "/mnt") [s_ "mnt"] (s_ "/mnt/file") resolve_last_link =
    Ok (Some (s_ "/file", true)).
Proof. by destruct resolve_last_link; vm_compute. Qed.

(** ** Witnesses *)

Definition all_directories (p : str) : option Z := Some S_IFDIR.

Lemma resolve_canonical_witness :
  resolve all_directories (fun _ => None) (join_path [s_ "mnt"]) [s_ "mnt"]
    (spell [(0%nat, s_ "a"); (1%nat, s_ ".."); (0%nat, s_ "mnt"); (0%nat, s_ "."); (0%nat, s_ "f")] 1) true =
  Ok (Some (s_ "/f", true)).
Proof.
  apply (resolve_canonical all_directories (fun _ => None) [s_ "mnt"]
    [(0%nat, s_ "a"); (1%nat, s_ ".."); (0%nat, s_ "mnt"); (0%nat, s_ "."); (0%nat, s_ "f")] 1 true).
  - done.
  - done.
  - apply (bool_decide_unpack _). by vm_compute.
  - by vm_compute.
  - intros pre post _ _ _. exists S_IFDIR. by vm_compute; auto.
Defined.

Lemma match_components_below_mount_witness :
  match_components (s_ "/mnt/x") [s_ "mnt"] = Throw OutOfRange.
Proof.
  apply (match_components_below_mount [s_ "mnt"] (s_ "x") []); apply (bool_decide_unpack _); by vm_compute.
Defined.
