(* ===== verification/Kernel.v ===== *)
(** * The operating system below the client

    The client passes system calls it does not serve to the kernel
    ([syscall_no_intercept]) and calls the C library.  Neither is part of
    the sources: [Kernel] is their interface, the buffers of the calls that
    are passed on being left to it. *)

From S2P Require Import Prelude Config.

(** The system calls the client makes or passes on. *)
Inductive syscall :=
| SYS_openat (dirfd : Z) (path : str) (flags mode : Z)
| SYS_open_null
| SYS_close (fd : Z)
| SYS_stat (path : str)
| SYS_lstat (path : str)
| SYS_fstat (fd : Z)
| SYS_newfstatat (dirfd : Z) (path : str) (flags : Z)
| SYS_statx (dirfd : Z) (path : str) (flags mask : Z)
| SYS_read (fd count : Z)
| SYS_pread64 (fd count pos : Z)
| SYS_readv (fd iovcnt : Z)
| SYS_preadv (fd iovcnt pos : Z)
| SYS_write (fd count : Z)
| SYS_pwrite64 (fd count pos : Z)
| SYS_writev (fd iovcnt : Z)
| SYS_pwritev (fd iovcnt pos : Z)
| SYS_unlinkat (dirfd : Z) (path : str) (flags : Z)
| SYS_symlinkat (oldname : str) (newdfd : Z) (newname : str)
| SYS_access (path : str) (mask : Z)
| SYS_faccessat (dirfd : Z) (path : str) (mode : Z)
| SYS_lseek (fd offset whence : Z)
| SYS_truncate (path : str) (length : Z)
| SYS_ftruncate (fd length : Z)
| SYS_dup (fd : Z)
| SYS_dup2 (oldfd newfd : Z)
| SYS_dup3 (oldfd newfd flags : Z)
| SYS_getdents (fd count : Z)
| SYS_getdents64 (fd count : Z)
| SYS_mkdirat (dirfd : Z) (path : str) (mode : Z)
| SYS_fchmodat (dirfd : Z) (path : str) (mode : Z)
| SYS_fchmod (fd mode : Z)
| SYS_chdir (path : str)
| SYS_fchdir (fd : Z)
| SYS_readlinkat (dirfd : Z) (path : str) (bufsiz : Z)
| SYS_fcntl (fd cmd arg : Z)
| SYS_renameat2 (olddfd : Z) (oldpath : str) (newdfd : Z) (newpath : str) (flags : Z)
| SYS_statfs (path : str)
| SYS_fstatfs (fd : Z)
(* any other call: its number and its arguments *)
| SYS_other (number : Z) (args : list Z).

Class Kernel (K : Type) := {
  (* syscall_no_intercept: the raw result *)
  k_syscall : syscall -> K -> Z * K;
  (* syscall_error_code of libsyscall_intercept *)
  syscall_error_code : Z -> Z;
  (* SYS_getcwd: the path, or [None] for a negative result *)
  k_getcwd : K -> option str;
  (* lstat: the mode; realpath: the path; [None] is an error *)
  k_lstat : K -> str -> option Z;
  k_realpath : K -> str -> option str;
  (* the variable LIBGKFS_CWD; setting it returns 0 or an error number *)
  k_getenv : K -> option str;
  k_setenv : str -> K -> Z * K;
  k_unsetenv : K -> Z * K
}.

(** What the client relies on: a result that is not negative is no error,
    and setting or clearing the variable is seen by [getenv] and does not
    change the working directory. *)
Class KernelLaws {K} (W : Kernel K) := {
  error_code_nonneg : forall r, 0 <= r -> syscall_error_code r = 0;
  getenv_setenv : forall p k k', k_setenv p k = (0, k') -> k_getenv k' = Some p;
  getenv_unsetenv : forall k k', k_unsetenv k = (0, k') -> k_getenv k' = None;
  getcwd_unsetenv : forall k, k_getcwd (k_unsetenv k).2 = k_getcwd k
}.

(** ** A small kernel for examples *)

(** A file system of directories, with a working directory and the set of
    open descriptors. *)
Record small_kernel := MkSmallKernel {
  sk_cwd : str;
  sk_env : option str;
  sk_fds : gset Z
}.

Definition sk_syscall (c : syscall) (k : small_kernel) : Z * small_kernel :=
  match c with
  | SYS_chdir p => (0, MkSmallKernel p (sk_env k) (sk_fds k))
  | SYS_dup3 old new _ =>
      if decide (old ∈ sk_fds k) then (new, MkSmallKernel (sk_cwd k) (sk_env k) ({[new]} ∪ sk_fds k))
      else (- EBADF, k)
  | SYS_close fd =>
      if decide (fd ∈ sk_fds k) then (0, MkSmallKernel (sk_cwd k) (sk_env k) (sk_fds k ∖ {[fd]}))
      else (- EBADF, k)
  | _ => (- ENOTSUP, k)
  end.

#[export] Instance SmallKernel : Kernel small_kernel := {|
  k_syscall := sk_syscall;
  syscall_error_code r := if r <? 0 then - r else 0;
  k_getcwd k := Some (sk_cwd k);
  k_lstat _ _ := Some S_IFDIR;
  k_realpath _ _ := None;
  k_getenv := sk_env;
  k_setenv p k := (0, MkSmallKernel (sk_cwd k) (Some p) (sk_fds k));
  k_unsetenv k := (0, MkSmallKernel (sk_cwd k) None (sk_fds k))
|}.

#[export] Instance SmallKernel_laws : KernelLaws SmallKernel.
Proof.
  split; cbn.
  - intros r Hr. by rewrite (proj2 (Z.ltb_ge _ _)).
  - by intros p k k' [= <-].
  - by intros k k' [= <-].
  - done.
Qed.
