(* ===== verification/SyscallInfo.v ===== *)
(** * Descriptions of system calls ([src/client/syscalls/detail/syscall_info.c],
    [include/client/syscalls/syscall.hpp], the names of
    [include/client/syscalls/errno.hpp])

    The client's log prints system calls with their names, arguments and
    results.  The descriptions are two constant tables: one indexed by the
    number of the call, and one ordered by name, searched with [bsearch].
    The numbers are those of Linux on x86-64, with headers that define every
    call the tables name. *)

From S2P Require Import Prelude Config.

(** ** Numbers *)

(** The numbers of the system calls on x86-64. *)
Module NR.
Definition read := 0.
Definition write := 1.
Definition open := 2.
Definition close := 3.
Definition stat := 4.
Definition fstat := 5.
Definition lstat := 6.
Definition lseek := 8.
Definition pread64 := 17.
Definition pwrite64 := 18.
Definition readv := 19.
Definition writev := 20.
Definition access := 21.
Definition pipe := 22.
Definition dup := 32.
Definition dup2 := 33.
Definition socket := 41.
Definition accept := 43.
Definition recvmsg := 47.
Definition socketpair := 53.
Definition execve := 59.
Definition fcntl := 72.
Definition truncate := 76.
Definition ftruncate := 77.
Definition getdents := 78.
Definition getcwd := 79.
Definition chdir := 80.
Definition fchdir := 81.
Definition rename := 82.
Definition mkdir := 83.
Definition rmdir := 84.
Definition creat := 85.
Definition unlink := 87.
Definition symlink := 88.
Definition readlink := 89.
Definition chmod := 90.
Definition fchmod := 91.
Definition statfs := 137.
Definition fstatfs := 138.
Definition epoll_create := 213.
Definition getdents64 := 217.
Definition inotify_init := 253.
Definition openat := 257.
Definition mkdirat := 258.
Definition newfstatat := 262.
Definition unlinkat := 263.
Definition renameat := 264.
Definition symlinkat := 266.
Definition readlinkat := 267.
Definition fchmodat := 268.
Definition faccessat := 269.
Definition signalfd := 282.
Definition timerfd_create := 283.
Definition eventfd := 284.
Definition signalfd4 := 289.
Definition eventfd2 := 290.
Definition epoll_create1 := 291.
Definition dup3 := 292.
Definition pipe2 := 293.
Definition inotify_init1 := 294.
Definition preadv := 295.
Definition pwritev := 296.
Definition perf_event_open := 298.
Definition renameat2 := 316.
Definition execveat := 322.
Definition statx := 332.
End NR.

(** [gkfs::syscall::info]. *)
Module Info.
Definition unknown := 0x0.
Definition from_internal_code := 0x1.
Definition from_external_code := 0x2.
Definition to_kernel := 0x10.
Definition to_hook := 0x20.
Definition executed := 0x100.
Definition not_executed := 0x0.
Definition origin_mask := 0x3.
Definition target_mask := 0x7ffffefc.
Definition execution_mask := 0x100.

Definition origin (i : Z) : Z := Z.land i origin_mask.
Definition target (i : Z) : Z := Z.land i target_mask.
Definition is_handled_by_kernel (i : Z) : bool := Z.land i target_mask =? to_kernel.
Definition execution_is_pending (i : Z) : bool := Z.land i execution_mask =? not_executed.
End Info.

(** ** Descriptions *)

Module Arg.
Inductive arg_type_t :=
| none | fd | atfd | cstr | open_flags | octal_mode | ptr | dec | dec32 | offset | whence
| mmap_prot | mmap_flags | clone_flags | signum | sigproc_how | arg.
End Arg.

(** A name is a C string, or [NULL]. *)
Record syscall_arg_t := MkArg { a_type : Arg.arg_type_t; a_name : option str }.

Inductive ret_type_t := rnone | rptr | rdec.

Record syscall_info := MkInfo {
  s_nr : Z;
  s_name : option str;
  s_nargs : Z;
  s_return_type : ret_type_t;
  s_args : list syscall_arg_t
}.

Definition MAX_SYSCALL_ARGS : nat := 6.

(** Storage without an initialiser is zero. *)
Definition zero_arg : syscall_arg_t := MkArg Arg.none None.
Definition zero_info : syscall_info := MkInfo 0 None 0 rnone (replicate MAX_SYSCALL_ARGS zero_arg).

(** *** The macros *)

(** An array of six with the given first elements. *)
Definition init_args (args : list syscall_arg_t) : list syscall_arg_t :=
  args ++ replicate (MAX_SYSCALL_ARGS - length args) zero_arg.

Definition SYSCALL (nr : Z) (id : string) (nargs : Z) (ret : ret_type_t) (args : list syscall_arg_t) : syscall_info :=
  MkInfo nr (Some (s_ id)) nargs ret (init_args args).
Arguments SYSCALL _ _%_string _ _ _.

Definition S_NOARGS : syscall_arg_t := zero_arg.

Definition S_NARG (t : Arg.arg_type_t) (n : string) : syscall_arg_t := MkArg t (Some (s_ n)).
Arguments S_NARG _ _%_string.

(** [#t] *)
Definition type_name (t : Arg.arg_type_t) : string :=
  (match t with
  | Arg.none => "none" | Arg.fd => "fd" | Arg.atfd => "atfd" | Arg.cstr => "cstr" | Arg.open_flags => "open_flags"
  | Arg.octal_mode => "octal_mode" | Arg.ptr => "ptr" | Arg.dec => "dec" | Arg.dec32 => "dec32"
  | Arg.offset => "offset" | Arg.whence => "whence" | Arg.mmap_prot => "mmap_prot"
  | Arg.mmap_flags => "mmap_flags" | Arg.clone_flags => "clone_flags" | Arg.signum => "signum"
  | Arg.sigproc_how => "sigproc_how" | Arg.arg => "arg"
  end)%string.

Definition S_UARG (t : Arg.arg_type_t) : syscall_arg_t := S_NARG t (type_name t).

(** ** The table by number *)

Section table.
Import Arg.

(** Lines 58 to 169 of the table. *)
Definition syscall_table_0 : list syscall_info := [
  SYSCALL 0 "read" 3 rdec [S_UARG fd; S_NARG ptr "buf"; S_NARG arg "count"];
  SYSCALL 1 "write" 3 rdec [S_UARG fd; S_NARG ptr "buf"; S_NARG arg "count"];
  SYSCALL 2 "open" 2 rdec [S_NARG cstr "pathname"; S_NARG open_flags "flags"];
  SYSCALL 3 "close" 1 rdec [S_UARG fd];
  SYSCALL 4 "stat" 2 rdec [S_NARG cstr "pathname"; S_NARG ptr "statbuf"];
  SYSCALL 5 "fstat" 2 rdec [S_UARG fd; S_NARG ptr "statbuf"];
  SYSCALL 6 "lstat" 2 rdec [S_NARG cstr "pathname"; S_NARG ptr "statbuf"];
  SYSCALL 7 "poll" 3 rdec [S_NARG ptr "fds"; S_NARG dec "nfds"; S_NARG dec "timeout"];
  SYSCALL 8 "lseek" 3 rdec [S_UARG fd; S_UARG offset; S_UARG whence];
  SYSCALL 9 "mmap" 6 rptr
    [S_NARG ptr "addr"; S_NARG dec "length"; S_NARG mmap_prot "prot"; S_NARG mmap_flags "flags"; S_UARG fd;
     S_UARG offset];
  SYSCALL 10 "mprotect" 3 rdec [S_NARG ptr "addr"; S_NARG dec "length"; S_NARG mmap_prot "prot"];
  SYSCALL 11 "munmap" 2 rdec [S_NARG ptr "addr"; S_NARG dec "length"];
  SYSCALL 12 "brk" 1 rdec [S_NARG ptr "addr"];
  SYSCALL 13 "rt_sigaction" 4 rdec
    [S_NARG signum "signum"; S_NARG ptr "act"; S_NARG ptr "oldact"; S_NARG dec "sigsetsize"];
  SYSCALL 14 "rt_sigprocmask" 4 rdec
    [S_NARG sigproc_how "how"; S_NARG ptr "set"; S_NARG ptr "oldset"; S_NARG dec "sigsetsize"];
  SYSCALL 15 "rt_sigreturn" 0 rnone [S_NOARGS];
  SYSCALL 16 "ioctl" 3 rdec [S_UARG fd; S_NARG arg "cmd"; S_NARG arg "argp"];
  SYSCALL 17 "pread64" 4 rdec [S_UARG fd; S_NARG ptr "buf"; S_NARG arg "count"; S_UARG offset];
  SYSCALL 18 "pwrite64" 4 rdec [S_UARG fd; S_NARG ptr "buf"; S_NARG arg "count"; S_UARG offset];
  SYSCALL 19 "readv" 3 rdec [S_UARG fd; S_NARG ptr "iov"; S_NARG dec "iovcnt"];
  SYSCALL 20 "writev" 3 rdec [S_UARG fd; S_NARG ptr "iov"; S_NARG dec "iovcnt"];
  SYSCALL 21 "access" 2 rdec [S_NARG cstr "pathname"; S_NARG octal_mode "mode"];
  SYSCALL 22 "pipe" 1 rdec [S_NARG ptr "pipefd"];
  SYSCALL 23 "select" 5 rdec
    [S_NARG dec "nfds"; S_NARG ptr "readfds"; S_NARG ptr "writefds"; S_NARG ptr "exceptfds"; S_NARG ptr "timeout"];
  SYSCALL 24 "sched_yield" 0 rdec [S_NOARGS];
  SYSCALL 25 "mremap" 5 rdec
    [S_NARG ptr "old_address"; S_NARG dec "old_size"; S_NARG dec "new_size"; S_NARG arg "flags";
     S_NARG ptr "new_addr"];
  SYSCALL 26 "msync" 3 rdec [S_NARG ptr "addr"; S_NARG dec "length"; S_NARG arg "flags"];
  SYSCALL 27 "mincore" 3 rdec [S_NARG ptr "addr"; S_NARG dec "length"; S_NARG ptr "vec"];
  SYSCALL 28 "madvise" 3 rdec [S_NARG ptr "addr"; S_NARG dec "length"; S_NARG arg "behavior"];
  SYSCALL 29 "shmget" 3 rdec [S_NARG arg "key"; S_NARG dec "size"; S_NARG arg "flag"];
  SYSCALL 30 "shmat" 3 rdec [S_NARG arg "shmid"; S_NARG ptr "shmaddr"; S_NARG arg "shmflg"];
  SYSCALL 31 "shmctl" 3 rdec [S_NARG arg "shmid"; S_NARG arg "cmd"; S_NARG ptr "buf"];
  SYSCALL 32 "dup" 1 rdec [S_NARG fd "oldfd"];
  SYSCALL 33 "dup2" 2 rdec [S_NARG fd "oldfd"; S_NARG fd "newfd"];
  SYSCALL 34 "pause" 0 rdec [S_NOARGS];
  SYSCALL 35 "nanosleep" 2 rdec [S_NARG ptr "rqtp"; S_NARG ptr "rmtp"];
  SYSCALL 36 "getitimer" 2 rdec [S_NARG arg "which"; S_NARG ptr "value"];
  SYSCALL 37 "alarm" 1 rdec [S_NARG dec "seconds"];
  SYSCALL 38 "setitimer" 3 rdec [S_NARG arg "which"; S_NARG ptr "value"; S_NARG ptr "ovalue"];
  SYSCALL 39 "getpid" 0 rdec [S_NOARGS];
  SYSCALL 40 "sendfile" 4 rdec
    [S_NARG fd "out_fd"; S_NARG fd "in_fd"; S_NARG ptr "offset"; S_NARG arg "count"];
  SYSCALL 41 "socket" 3 rdec [S_NARG arg "domain"; S_NARG arg "type"; S_NARG arg "protocol"];
  SYSCALL 42 "connect" 3 rdec [S_NARG fd "sockfd"; S_NARG ptr "addr"; S_NARG arg "addrlen"];
  SYSCALL 43 "accept" 3 rdec [S_NARG fd "sockfd"; S_NARG ptr "addr"; S_NARG ptr "addrlen"];
  SYSCALL 44 "sendto" 5 rdec
    [S_NARG fd "sockfd"; S_NARG ptr "dest_addr"; S_NARG arg "len"; S_NARG ptr "addr"; S_NARG arg "addrlen"];
  SYSCALL 45 "recvfrom" 5 rdec
    [S_NARG fd "sockfd"; S_NARG ptr "src_addr"; S_NARG arg "len"; S_NARG ptr "addr"; S_NARG ptr "addrlen"];
  SYSCALL 46 "sendmsg" 3 rdec [S_NARG fd "sockfd"; S_NARG ptr "msg"; S_NARG arg "flags"];
  SYSCALL 47 "recvmsg" 3 rdec [S_NARG fd "sockfd"; S_NARG ptr "msg"; S_NARG arg "flags"];
  SYSCALL 48 "shutdown" 2 rdec [S_NARG fd "sockfd"; S_NARG arg "how"];
  SYSCALL 49 "bind" 3 rdec [S_NARG fd "sockfd"; S_NARG ptr "addr"; S_NARG arg "addrlen"];
  SYSCALL 50 "listen" 2 rdec [S_NARG fd "sockfd"; S_NARG arg "backlog"];
  SYSCALL 51 "getsockname" 3 rdec [S_NARG fd "sockfd"; S_NARG ptr "addr"; S_NARG ptr "addrlen"];
  SYSCALL 52 "getpeername" 3 rdec [S_NARG fd "sockfd"; S_NARG ptr "addr"; S_NARG ptr "addrlen"];
  SYSCALL 53 "socketpair" 4 rdec
    [S_NARG arg "domain"; S_NARG arg "type"; S_NARG arg "protocol"; S_NARG ptr "sv"];
  SYSCALL 54 "setsockopt" 5 rdec
    [S_UARG fd; S_NARG arg "level"; S_NARG arg "optname"; S_NARG ptr "optval"; S_NARG arg "optlen"];
  SYSCALL 55 "getsockopt" 5 rdec
    [S_UARG fd; S_NARG arg "level"; S_NARG arg "optname"; S_NARG ptr "optval"; S_NARG ptr "optlen"];
  SYSCALL 56 "clone" 5 rdec
    [S_NARG clone_flags "flags"; S_NARG ptr "child_stack"; S_NARG ptr "ptid"; S_NARG ptr "ctid";
     S_NARG ptr "newtls"];
  SYSCALL 57 "fork" 0 rdec [S_NOARGS];
  SYSCALL 58 "vfork" 0 rdec [S_NOARGS];
  SYSCALL 59 "execve" 3 rdec [S_NARG cstr "pathname"; S_NARG ptr "argv"; S_NARG ptr "envp"];
  SYSCALL 60 "exit" 1 rnone [S_NARG dec "status"];
  SYSCALL 61 "wait4" 4 rdec
    [S_NARG dec "pid"; S_NARG ptr "stat_addr"; S_NARG arg "options"; S_NARG ptr "rusage"];
  SYSCALL 62 "kill" 2 rdec [S_NARG dec "pid"; S_NARG signum "sig"];
  SYSCALL 63 "uname" 1 rdec [S_NARG ptr "buf"];
  SYSCALL 64 "semget" 3 rdec [S_NARG arg "key"; S_NARG dec "nsems"; S_NARG arg "semflg"];
  SYSCALL 65 "semop" 3 rdec [S_NARG dec "semid"; S_NARG ptr "sops"; S_NARG arg "nsops"];
  SYSCALL 66 "semctl" 4 rdec [S_NARG dec "semid"; S_NARG dec "semnum"; S_NARG arg "cmd"; S_NARG arg "arg"];
  SYSCALL 67 "shmdt" 1 rdec [S_NARG ptr "shmaddr"];
  SYSCALL 68 "msgget" 2 rdec [S_NARG arg "key"; S_NARG arg "msflg"];
  SYSCALL 69 "msgsnd" 4 rdec
    [S_NARG arg "msqid"; S_NARG ptr "msgp"; S_NARG dec "msgsz"; S_NARG arg "msflg"];
  SYSCALL 70 "msgrcv" 5 rdec
    [S_NARG arg "msqid"; S_NARG ptr "msgp"; S_NARG dec "msgsz"; S_NARG arg "msgtyp"; S_NARG arg "msflg"];
  SYSCALL 71 "msgctl" 3 rdec [S_NARG arg "msqid"; S_NARG arg "cmd"; S_NARG ptr "buf"];
  SYSCALL 72 "fcntl" 3 rdec [S_UARG fd; S_NARG arg "cmd"; S_NARG arg "arg"];
  SYSCALL 73 "flock" 2 rdec [S_UARG fd; S_NARG arg "cmd"];
  SYSCALL 74 "fsync" 1 rdec [S_UARG fd];
  SYSCALL 75 "fdatasync" 2 rdec [S_UARG fd];
  SYSCALL 76 "truncate" 2 rdec [S_NARG cstr "pathname"; S_NARG arg "length"];
  SYSCALL 77 "ftruncate" 2 rdec [S_UARG fd; S_NARG offset "length"];
  SYSCALL 78 "getdents" 3 rdec [S_UARG fd; S_NARG ptr "dirent"; S_NARG arg "count"];
  SYSCALL 79 "getcwd" 2 rdec [S_NARG ptr "buf"; S_NARG dec "size"];
  SYSCALL 80 "chdir" 1 rdec [S_NARG cstr "pathname"];
  SYSCALL 81 "fchdir" 1 rdec [S_UARG fd];
  SYSCALL 82 "rename" 2 rdec [S_NARG cstr "oldpath"; S_NARG cstr "newpath"];
  SYSCALL 83 "mkdir" 2 rdec [S_NARG cstr "pathname"; S_NARG octal_mode "mode"];
  SYSCALL 84 "rmdir" 1 rdec [S_NARG cstr "pathname"];
  SYSCALL 85 "creat" 2 rdec [S_NARG cstr "pathname"; S_NARG octal_mode "mode"];
  SYSCALL 86 "link" 2 rdec [S_NARG cstr "oldpath"; S_NARG cstr "newpath"];
  SYSCALL 87 "unlink" 1 rdec [S_NARG cstr "pathname"];
  SYSCALL 88 "symlink" 2 rdec [S_NARG cstr "target"; S_NARG cstr "linkpath"];
  SYSCALL 89 "readlink" 2 rdec [S_NARG cstr "pathname"; S_NARG ptr "buf"; S_NARG arg "bufsiz"];
  SYSCALL 90 "chmod" 2 rdec [S_NARG cstr "pathname"; S_NARG octal_mode "mode"];
  SYSCALL 91 "fchmod" 2 rdec [S_UARG fd; S_NARG octal_mode "mode"];
  SYSCALL 92 "chown" 3 rdec [S_NARG cstr "pathname"; S_NARG dec "user"; S_NARG dec "group"];
  SYSCALL 93 "fchown" 3 rdec [S_UARG fd; S_NARG dec "user"; S_NARG dec "group"];
  SYSCALL 94 "lchown" 3 rdec [S_NARG cstr "pathname"; S_NARG dec "user"; S_NARG dec "group"];
  SYSCALL 95 "umask" 1 rdec [S_NARG arg "mask"];
  SYSCALL 96 "gettimeofday" 2 rdec [S_NARG ptr "tv"; S_NARG ptr "tz"];
  SYSCALL 97 "getrlimit" 2 rdec [S_NARG arg "resource"; S_NARG ptr "rlim"];
  SYSCALL 98 "getrusage" 2 rdec [S_NARG arg "who"; S_NARG ptr "ru"];
  SYSCALL 99 "sysinfo" 1 rdec [S_NARG ptr "info"];
  SYSCALL 100 "times" 1 rdec [S_NARG ptr "tbuf"];
  SYSCALL 101 "ptrace" 4 rdec
    [S_NARG arg "request"; S_NARG dec "pid"; S_NARG ptr "addr"; S_NARG ptr "data"];
  SYSCALL 102 "getuid" 0 rdec [S_NOARGS];
  SYSCALL 103 "syslog" 3 rdec [S_NARG arg "type"; S_NARG ptr "buf"; S_NARG arg "length"];
  SYSCALL 104 "getgid" 0 rdec [S_NOARGS];
  SYSCALL 105 "setuid" 1 rdec [S_NARG dec "uid"];
  SYSCALL 106 "setgid" 1 rdec [S_NARG dec "gid"];
  SYSCALL 107 "geteuid" 0 rdec [S_NOARGS];
  SYSCALL 108 "getegid" 0 rdec [S_NOARGS];
  SYSCALL 109 "setpgid" 2 rdec [S_NARG dec "pid"; S_NARG dec "pgid"];
  SYSCALL 110 "getppid" 0 rdec [S_NOARGS];
  SYSCALL 111 "getpgrp" 0 rdec [S_NOARGS]].

(** Lines 170 to 281 of the table. *)
Definition syscall_table_1 : list syscall_info := [
  SYSCALL 112 "setsid" 0 rdec [S_NOARGS];
  SYSCALL 113 "setreuid" 2 rdec [S_NARG dec "ruid"; S_NARG dec "euid"];
  SYSCALL 114 "setregid" 2 rdec [S_NARG dec "rgid"; S_NARG dec "egid"];
  SYSCALL 115 "getgroups" 2 rdec [S_NARG arg "gidsetsize"; S_NARG ptr "grouplist"];
  SYSCALL 116 "setgroups" 2 rdec [S_NARG arg "gidsetsize"; S_NARG ptr "grouplist"];
  SYSCALL 117 "setresuid" 3 rdec [S_NARG dec "ruid"; S_NARG dec "euid"; S_NARG dec "suid"];
  SYSCALL 118 "getresuid" 3 rdec [S_NARG ptr "ruid"; S_NARG ptr "euid"; S_NARG ptr "suid"];
  SYSCALL 119 "setresgid" 3 rdec [S_NARG dec "rgid"; S_NARG dec "egid"; S_NARG dec "sgid"];
  SYSCALL 120 "getresgid" 3 rdec [S_NARG ptr "rgid"; S_NARG ptr "egid"; S_NARG ptr "sgid"];
  SYSCALL 121 "getpgid" 1 rdec [S_NARG dec "pid"];
  SYSCALL 122 "setfsuid" 1 rdec [S_NARG dec "uid"];
  SYSCALL 123 "setfsgid" 1 rdec [S_NARG dec "gid"];
  SYSCALL 124 "getsid" 1 rdec [S_NARG dec "pid"];
  SYSCALL 125 "capget" 2 rdec [S_NARG ptr "header"; S_NARG ptr "datap"];
  SYSCALL 126 "capset" 2 rdec [S_NARG ptr "header"; S_NARG ptr "datap"];
  SYSCALL 127 "rt_sigpending" 2 rdec [S_NARG ptr "set"; S_NARG dec "sigsetsize"];
  SYSCALL 128 "rt_sigtimedwait" 4 rdec
    [S_NARG ptr "uthese"; S_NARG ptr "uinfo"; S_NARG ptr "uts"; S_NARG dec "sigsetsize"];
  SYSCALL 129 "rt_sigqueueinfo" 4 rdec [S_NARG dec "pid"; S_NARG signum "sig"; S_NARG ptr "uinfo"];
  SYSCALL 130 "rt_sigsuspend" 2 rdec [S_NARG ptr "unewset"; S_NARG dec "sigsetsize"];
  SYSCALL 131 "sigaltstack" 2 rdec [S_NARG ptr "ss"; S_NARG ptr "old_ss"];
  SYSCALL 132 "utime" 2 rdec [S_NARG cstr "filename"; S_NARG ptr "times"];
  SYSCALL 133 "mknod" 3 rdec [S_NARG cstr "pathname"; S_NARG octal_mode "mode"; S_NARG arg "dev"];
  SYSCALL 134 "uselib" 1 rdec [S_NARG cstr "library"];
  SYSCALL 135 "personality" 1 rdec [S_NARG arg "personality"];
  SYSCALL 136 "ustat" 2 rdec [S_NARG arg "dev"; S_NARG ptr "ubuf"];
  SYSCALL 137 "statfs" 2 rdec [S_NARG cstr "path"; S_NARG ptr "buf"];
  SYSCALL 138 "fstatfs" 2 rdec [S_UARG fd; S_NARG ptr "buf"];
  SYSCALL 139 "sysfs" 3 rdec [S_NARG arg "option"; S_NARG ptr "arg1"; S_NARG ptr "arg2"];
  SYSCALL 140 "getpriority" 2 rdec [S_NARG arg "which"; S_NARG arg "who"];
  SYSCALL 141 "setpriority" 3 rdec [S_NARG arg "which"; S_NARG arg "who"; S_NARG arg "prio"];
  SYSCALL 142 "sched_setparam" 2 rdec [S_NARG dec "pid"; S_NARG ptr "param"];
  SYSCALL 143 "sched_getparam" 2 rdec [S_NARG dec "pid"; S_NARG ptr "param"];
  SYSCALL 144 "sched_setscheduler" 3 rdec [S_NARG dec "pid"; S_NARG arg "policy"; S_NARG ptr "param"];
  SYSCALL 145 "sched_getscheduler" 1 rdec [S_NARG dec "pid"];
  SYSCALL 146 "sched_get_priority_max" 1 rdec [S_NARG arg "policy"];
  SYSCALL 147 "sched_get_priority_min" 1 rdec [S_NARG arg "policy"];
  SYSCALL 148 "sched_rr_get_interval" 2 rdec [S_NARG dec "pid"; S_NARG ptr "interval"];
  SYSCALL 149 "mlock" 2 rdec [S_NARG ptr "addr"; S_NARG dec "length"];
  SYSCALL 150 "munlock" 2 rdec [S_NARG ptr "addr"; S_NARG dec "length"];
  SYSCALL 151 "mlockall" 1 rdec [S_NARG arg "flags"];
  SYSCALL 152 "munlockall" 0 rdec [S_NOARGS];
  SYSCALL 153 "vhangup" 0 rdec [S_NOARGS];
  SYSCALL 154 "modify_ldt" 3 rdec [S_NARG arg "func"; S_NARG ptr "ptr"; S_NARG arg "bytecount"];
  SYSCALL 155 "pivot_root" 2 rdec [S_NARG cstr "new_root"; S_NARG cstr "put_old"];
  SYSCALL 156 "_sysctl" 1 rdec [S_NARG ptr "args"];
  SYSCALL 157 "prctl" 5 rdec
    [S_NARG arg "option"; S_NARG arg "arg2"; S_NARG arg "arg3"; S_NARG arg "arg4"; S_NARG arg "arg5"];
  SYSCALL 158 "arch_prctl" 2 rdec [S_NARG arg "code"; S_NARG arg "addr"];
  SYSCALL 159 "adjtimex" 1 rdec [S_NARG ptr "txc_p"];
  SYSCALL 160 "setrlimit" 2 rdec [S_NARG arg "resource"; S_NARG ptr "rlim"];
  SYSCALL 161 "chroot" 1 rdec [S_NARG cstr "pathname"];
  SYSCALL 162 "sync" 0 rdec [S_NOARGS];
  SYSCALL 163 "acct" 1 rdec [S_NARG cstr "pathname"];
  SYSCALL 164 "settimeofday" 2 rdec [S_NARG ptr "tv"; S_NARG ptr "tz"];
  SYSCALL 165 "mount" 5 rdec
    [S_NARG cstr "dev_name"; S_NARG cstr "dir_name"; S_NARG cstr "type"; S_NARG arg "flags"; S_NARG ptr "data"];
  SYSCALL 166 "umount2" 2 rdec [S_NARG cstr "target"; S_NARG arg "flags"];
  SYSCALL 167 "swapon" 2 rdec [S_NARG cstr "pathname"; S_NARG arg "swap_flags"];
  SYSCALL 168 "swapoff" 1 rdec [S_NARG cstr "pathname"];
  SYSCALL 169 "reboot" 4 rdec
    [S_NARG arg "magic1"; S_NARG arg "magic2"; S_NARG arg "cmd"; S_NARG ptr "arg"];
  SYSCALL 170 "sethostname" 2 rdec [S_NARG cstr "name"; S_NARG arg "length"];
  SYSCALL 171 "setdomainname" 2 rdec [S_NARG cstr "name"; S_NARG arg "length"];
  SYSCALL 172 "iopl" 1 rdec [S_NARG arg "level"];
  SYSCALL 173 "ioperm" 3 rdec [S_NARG arg "from"; S_NARG arg "num"; S_NARG arg "on"];
  SYSCALL 174 "create_module" 2 rdec [S_NARG cstr "name"; S_NARG arg "size"];
  SYSCALL 175 "init_module" 3 rdec
    [S_NARG ptr "module_image"; S_NARG dec "length"; S_NARG cstr "param_values"];
  SYSCALL 176 "delete_module" 2 rdec [S_NARG cstr "name"; S_NARG arg "flags"];
  SYSCALL 177 "get_kernel_syms" 1 rdec [S_NARG ptr "table"];
  SYSCALL 178 "query_module" 5 rdec
    [S_NARG cstr "name"; S_NARG arg "which"; S_NARG ptr "buf"; S_NARG arg "bufsize"; S_NARG ptr "ret"];
  SYSCALL 179 "quotactl" 4 rdec
    [S_NARG arg "cmd"; S_NARG cstr "special"; S_NARG arg "id"; S_NARG ptr "addr"];
  SYSCALL 180 "nfsservctl" 3 rdec [S_NARG arg "cmd"; S_NARG ptr "argp"; S_NARG ptr "resp"];
  SYSCALL 181 "getpmsg" 5 rdec
    [S_NARG arg "arg0"; S_NARG arg "arg1"; S_NARG arg "arg2"; S_NARG arg "arg3"; S_NARG arg "arg4"];
  SYSCALL 182 "putpmsg" 5 rdec
    [S_NARG arg "arg0"; S_NARG arg "arg1"; S_NARG arg "arg2"; S_NARG arg "arg3"; S_NARG arg "arg4"];
  SYSCALL 183 "afs_syscall" 5 rdec
    [S_NARG arg "arg0"; S_NARG arg "arg1"; S_NARG arg "arg2"; S_NARG arg "arg3"; S_NARG arg "arg4"];
  SYSCALL 184 "tuxcall" 3 rdec [S_NARG arg "arg0"; S_NARG arg "arg1"; S_NARG arg "arg2"];
  SYSCALL 185 "security" 3 rdec [S_NARG arg "arg0"; S_NARG arg "arg1"; S_NARG arg "arg2"];
  SYSCALL 186 "gettid" 0 rdec [S_NOARGS];
  SYSCALL 187 "readahead" 3 rdec [S_UARG fd; S_UARG offset; S_NARG arg "count"];
  SYSCALL 188 "setxattr" 5 rdec
    [S_NARG cstr "pathname"; S_NARG cstr "pathname"; S_NARG ptr "value"; S_NARG dec "size"; S_NARG arg "flags"];
  SYSCALL 189 "lsetxattr" 5 rdec
    [S_NARG cstr "pathname"; S_NARG cstr "pathname"; S_NARG ptr "value"; S_NARG dec "size"; S_NARG arg "flags"];
  SYSCALL 190 "fsetxattr" 5 rdec
    [S_UARG fd; S_NARG cstr "pathname"; S_NARG ptr "value"; S_NARG dec "size"; S_NARG arg "flags"];
  SYSCALL 191 "getxattr" 4 rdec
    [S_NARG cstr "pathname"; S_NARG cstr "pathname"; S_NARG ptr "value"; S_NARG dec "size"];
  SYSCALL 192 "lgetxattr" 4 rdec
    [S_NARG cstr "pathname"; S_NARG cstr "pathname"; S_NARG ptr "value"; S_NARG dec "size"];
  SYSCALL 193 "fgetxattr" 4 rdec [S_UARG fd; S_NARG cstr "pathname"; S_NARG ptr "value"; S_NARG dec "size"];
  SYSCALL 194 "listxattr" 3 rdec [S_NARG cstr "pathname"; S_NARG ptr "list"; S_NARG dec "size"];
  SYSCALL 195 "llistxattr" 3 rdec [S_NARG cstr "pathname"; S_NARG ptr "list"; S_NARG dec "size"];
  SYSCALL 196 "flistxattr" 3 rdec [S_UARG fd; S_NARG ptr "list"; S_NARG dec "size"];
  SYSCALL 197 "removexattr" 2 rdec [S_NARG cstr "pathname"; S_NARG cstr "pathname"];
  SYSCALL 198 "lremovexattr" 2 rdec [S_NARG cstr "pathname"; S_NARG cstr "pathname"];
  SYSCALL 199 "fremovexattr" 2 rdec [S_UARG fd; S_NARG cstr "pathname"];
  SYSCALL 200 "tkill" 2 rdec [S_NARG dec "pid"; S_NARG signum "sig"];
  SYSCALL 201 "time" 1 rdec [S_NARG ptr "tloc"];
  SYSCALL 202 "futex" 6 rdec
    [S_NARG ptr "uaddr"; S_NARG arg "op"; S_NARG arg "val"; S_NARG ptr "utime"; S_NARG ptr "uaddr2";
     S_NARG arg "val3"];
  SYSCALL 203 "sched_setaffinity" 3 rdec [S_NARG dec "pid"; S_NARG arg "length"; S_NARG ptr "mask"];
  SYSCALL 204 "sched_getaffinity" 3 rdec [S_NARG dec "pid"; S_NARG arg "length"; S_NARG ptr "mask"];
  SYSCALL 205 "set_thread_area" 1 rdec [S_NARG ptr "u_info"];
  SYSCALL 206 "io_setup" 2 rdec [S_NARG dec "nr_reqs"; S_NARG ptr "ctx"];
  SYSCALL 207 "io_destroy" 1 rdec [S_NARG ptr "ctx"];
  SYSCALL 208 "io_getevents" 5 rdec
    [S_NARG ptr "ctx_id"; S_NARG dec "min_nr"; S_NARG dec "nr"; S_NARG ptr "events"; S_NARG ptr "timeout"];
  SYSCALL 209 "io_submit" 3 rdec [S_NARG ptr "ctx_id"; S_NARG dec "nr"; S_NARG ptr "iocbpp"];
  SYSCALL 210 "io_cancel" 3 rdec [S_NARG ptr "ctx_id"; S_NARG ptr "iocb"; S_NARG ptr "result"];
  SYSCALL 211 "get_thread_area" 1 rdec [S_NARG ptr "u_info"];
  SYSCALL 212 "lookup_dcookie" 3 rdec [S_NARG arg "cookie64"; S_NARG ptr "buf"; S_NARG dec "length"];
  SYSCALL 213 "epoll_create" 3 rdec [S_NARG arg "size"];
  SYSCALL 214 "epoll_ctl_old" 4 rdec
    [S_NARG arg "arg0"; S_NARG arg "arg1"; S_NARG arg "arg2"; S_NARG arg "arg3"];
  SYSCALL 215 "epoll_wait_old" 4 rdec
    [S_NARG arg "arg0"; S_NARG arg "arg1"; S_NARG arg "arg2"; S_NARG arg "arg3"];
  SYSCALL 216 "remap_file_pages" 5 rdec
    [S_NARG ptr "addr"; S_NARG dec "size"; S_NARG mmap_prot "prot"; S_NARG dec "pgoff"; S_NARG arg "flags"];
  SYSCALL 217 "getdents64" 3 rdec [S_UARG fd; S_NARG ptr "dirent"; S_NARG arg "count"];
  SYSCALL 218 "set_tid_address" 1 rdec [S_NARG ptr "tidptr"];
  SYSCALL 219 "restart_syscall" 0 rdec [S_NOARGS];
  SYSCALL 220 "semtimedop" 4 rdec
    [S_NARG dec "semid"; S_NARG ptr "sops"; S_NARG arg "nsops"; S_NARG ptr "timeout"];
  SYSCALL 221 "fadvise64" 4 rdec [S_UARG fd; S_UARG offset; S_NARG dec "length"; S_NARG arg "advice"];
  SYSCALL 222 "timer_create" 3 rdec
    [S_NARG arg "which_clock"; S_NARG ptr "timer_event_spec"; S_NARG ptr "created_timer_id"];
  SYSCALL 223 "timer_settime" 4 rdec
    [S_NARG arg "timer_id"; S_NARG arg "flags"; S_NARG ptr "new_setting"; S_NARG ptr "old_setting"]].

(** Lines 282 to 421 of the table. *)
Definition syscall_table_2 : list syscall_info := [
  SYSCALL 224 "timer_gettime" 2 rdec [S_NARG arg "timer_id"; S_NARG ptr "setting"];
  SYSCALL 225 "timer_getoverrun" 1 rdec [S_NARG arg "timer_id"];
  SYSCALL 226 "timer_delete" 1 rdec [S_NARG arg "timer_id"];
  SYSCALL 227 "clock_settime" 2 rdec [S_NARG arg "which_clock"; S_NARG ptr "tp"];
  SYSCALL 228 "clock_gettime" 2 rdec [S_NARG arg "which_clock"; S_NARG ptr "tp"];
  SYSCALL 229 "clock_getres" 2 rdec [S_NARG arg "which_clock"; S_NARG ptr "tp"];
  SYSCALL 230 "clock_nanosleep" 4 rdec
    [S_NARG arg "which_clock"; S_NARG arg "flags"; S_NARG ptr "rqtp"; S_NARG ptr "rmtp"];
  SYSCALL 231 "exit_group" 1 rnone [S_NARG dec "status"];
  SYSCALL 232 "epoll_wait" 4 rdec
    [S_NARG dec "epfd"; S_NARG ptr "events"; S_NARG dec "maxevents"; S_NARG dec32 "timeout"];
  SYSCALL 233 "epoll_ctl" 4 rdec [S_NARG dec "epfd"; S_NARG arg "op"; S_UARG fd; S_NARG ptr "event"];
  SYSCALL 234 "tgkill" 3 rdec [S_NARG arg "tgid"; S_NARG dec "pid"; S_NARG signum "sig"];
  SYSCALL 235 "utimes" 2 rdec [S_NARG cstr "filename"; S_NARG ptr "utimes"];
  SYSCALL 236 "vserver" 5 rdec
    [S_NARG arg "arg0"; S_NARG arg "arg1"; S_NARG arg "arg2"; S_NARG arg "arg3"; S_NARG arg "arg4"];
  SYSCALL 237 "mbind" 6 rdec
    [S_NARG ptr "addr"; S_NARG dec "length"; S_NARG octal_mode "mode"; S_NARG ptr "nmask"; S_NARG arg "maxnode";
     S_NARG arg "flags"];
  SYSCALL 238 "set_mempolicy" 3 rdec [S_NARG octal_mode "mode"; S_NARG ptr "nmask"; S_NARG arg "maxnode"];
  SYSCALL 239 "get_mempolicy" 5 rdec
    [S_NARG ptr "policy"; S_NARG ptr "nmask"; S_NARG arg "maxnode"; S_NARG ptr "addr"; S_NARG arg "flags"];
  SYSCALL 240 "mq_open" 4 rdec
    [S_NARG cstr "pathname"; S_NARG open_flags "oflag"; S_NARG octal_mode "mode"; S_NARG ptr "attr"];
  SYSCALL 241 "mq_unlink" 1 rdec [S_NARG cstr "pathname"];
  SYSCALL 242 "mq_timedsend" 5 rdec
    [S_NARG arg "mqdes"; S_NARG cstr "msg_ptr"; S_NARG dec "msg_len"; S_NARG arg "msg_prio";
     S_NARG ptr "abs_timeout"];
  SYSCALL 243 "mq_timedreceive" 5 rdec
    [S_NARG arg "mqdes"; S_NARG ptr "msg_ptr"; S_NARG dec "msg_len"; S_NARG ptr "msg_prio";
     S_NARG ptr "abs_timeout"];
  SYSCALL 244 "mq_notify" 2 rdec [S_NARG arg "mqdes"; S_NARG ptr "notification"];
  SYSCALL 245 "mq_getsetattr" 3 rdec [S_NARG arg "mqdes"; S_NARG ptr "mqstat"; S_NARG ptr "omqstat"];
  SYSCALL 246 "kexec_load" 4 rdec
    [S_NARG arg "entry"; S_NARG arg "nr_segments"; S_NARG ptr "segments"; S_NARG arg "flags"];
  SYSCALL 247 "waitid" 5 rdec
    [S_NARG arg "which"; S_NARG dec "pid"; S_NARG ptr "infop"; S_NARG arg "options"; S_NARG ptr "ru"];
  SYSCALL 248 "add_key" 5 rdec
    [S_NARG cstr "type"; S_NARG cstr "description"; S_NARG ptr "payload"; S_NARG dec "plen";
     S_NARG arg "destringid"];
  SYSCALL 249 "request_key" 4 rdec
    [S_NARG cstr "type"; S_NARG cstr "description"; S_NARG cstr "callout_info"; S_NARG arg "destringid"];
  SYSCALL 250 "keyctl" 5 rdec
    [S_NARG arg "cmd"; S_NARG arg "arg2"; S_NARG arg "arg3"; S_NARG arg "arg4"; S_NARG arg "arg5"];
  SYSCALL 251 "ioprio_set" 3 rdec [S_NARG arg "which"; S_NARG arg "who"; S_NARG dec "ioprio"];
  SYSCALL 252 "ioprio_get" 2 rdec [S_NARG arg "which"; S_NARG arg "who"];
  SYSCALL 253 "inotify_init" 0 rdec [S_NOARGS];
  SYSCALL 254 "inotify_add_watch" 3 rdec [S_UARG fd; S_NARG cstr "pathname"; S_NARG arg "mask"];
  SYSCALL 255 "inotify_rm_watch" 2 rdec [S_UARG fd; S_NARG dec "wd"];
  SYSCALL 256 "migrate_pages" 4 rdec
    [S_NARG dec "pid"; S_NARG arg "maxnode"; S_NARG ptr "from"; S_NARG ptr "to"];
  SYSCALL 257 "openat" 3 rdec [S_NARG atfd "dfd"; S_NARG cstr "pathname"; S_NARG open_flags "flags"];
  SYSCALL 258 "mkdirat" 3 rdec [S_NARG atfd "dfd"; S_NARG cstr "pathname"; S_NARG octal_mode "mode"];
  SYSCALL 259 "mknodat" 4 rdec
    [S_NARG atfd "dfd"; S_NARG cstr "filename"; S_NARG octal_mode "mode"; S_NARG arg "dev"];
  SYSCALL 260 "fchownat" 5 rdec
    [S_NARG atfd "dfd"; S_NARG cstr "pathname"; S_NARG dec "user"; S_NARG dec "group"; S_NARG arg "flag"];
  SYSCALL 261 "futimesat" 3 rdec [S_NARG atfd "dfd"; S_NARG cstr "pathname"; S_NARG ptr "utimes"];
  SYSCALL 262 "newfstatat" 4 rdec
    [S_NARG atfd "dfd"; S_NARG cstr "pathname"; S_NARG ptr "statbuf"; S_NARG arg "flag"];
  SYSCALL 263 "unlinkat" 3 rdec [S_NARG atfd "dfd"; S_NARG cstr "pathname"; S_NARG arg "flag"];
  SYSCALL 264 "renameat" 4 rdec
    [S_NARG atfd "olddfd"; S_NARG cstr "oldname"; S_NARG atfd "newdfd"; S_NARG cstr "newname"];
  SYSCALL 265 "linkat" 5 rdec
    [S_NARG atfd "olddfd"; S_NARG cstr "oldpath"; S_NARG atfd "newdfd"; S_NARG cstr "newpath"; S_NARG arg "flags"];
  SYSCALL 266 "symlinkat" 3 rdec [S_NARG cstr "oldname"; S_NARG atfd "newdfd"; S_NARG cstr "newname"];
  SYSCALL 267 "readlinkat" 4 rdec
    [S_NARG atfd "dfd"; S_NARG cstr "pathname"; S_NARG ptr "buf"; S_NARG arg "bufsiz"];
  SYSCALL 268 "fchmodat" 3 rdec [S_NARG atfd "dfd"; S_NARG cstr "filename"; S_NARG octal_mode "mode"];
  SYSCALL 269 "faccessat" 3 rdec [S_NARG atfd "dfd"; S_NARG cstr "pathname"; S_NARG octal_mode "mode"];
  SYSCALL 270 "pselect6" 6 rdec
    [S_NARG dec "nfds"; S_NARG ptr "readfds"; S_NARG ptr "writefds"; S_NARG ptr "exceptfds";
     S_NARG ptr "timeval"; S_NARG ptr "sigmask"];
  SYSCALL 271 "ppoll" 5 rdec
    [S_NARG ptr "fds"; S_NARG dec "nfds"; S_NARG ptr "tmo_p"; S_NARG ptr "sigmask"; S_NARG dec "sigsetsize"];
  SYSCALL 272 "unshare" 1 rdec [S_NARG arg "unshare_flags"];
  SYSCALL 273 "set_robust_list" 2 rdec [S_NARG ptr "head"; S_NARG dec "length"];
  SYSCALL 274 "get_robust_list" 3 rdec [S_NARG dec "pid"; S_NARG ptr "head_ptr"; S_NARG ptr "len_ptr"];
  SYSCALL 275 "splice" 6 rdec
    [S_NARG dec "fd_in"; S_NARG ptr "off_in"; S_NARG dec "fd_out"; S_NARG ptr "off_out"; S_NARG dec "length";
     S_NARG arg "flags"];
  SYSCALL 276 "tee" 4 rdec
    [S_NARG dec "fd_in"; S_NARG dec "fd_out"; S_NARG dec "length"; S_NARG arg "flags"];
  SYSCALL 277 "sync_file_range" 4 rdec
    [S_UARG fd; S_UARG offset; S_NARG offset "nbytes"; S_NARG arg "flags"];
  SYSCALL 278 "vmsplice" 4 rdec [S_UARG fd; S_NARG ptr "iov"; S_NARG arg "nr_segs"; S_NARG arg "flags"];
  SYSCALL 279 "move_pages" 6 rdec
    [S_NARG dec "pid"; S_NARG arg "nr_pages"; S_NARG ptr "pages"; S_NARG ptr "nodes"; S_NARG ptr "status";
     S_NARG arg "flags"];
  SYSCALL 280 "utimensat" 4 rdec
    [S_NARG atfd "dfd"; S_NARG cstr "pathname"; S_NARG ptr "utimes"; S_NARG arg "flags"];
  SYSCALL 281 "epoll_pwait" 6 rdec
    [S_NARG fd "epfd"; S_NARG ptr "events"; S_NARG dec "maxevents"; S_NARG dec "timeout"; S_NARG ptr "sigmask";
     S_NARG dec "sigsetsize"];
  SYSCALL 282 "signalfd" 3 rdec [S_NARG dec "ufd"; S_NARG ptr "user_mask"; S_NARG dec "sizemask"];
  SYSCALL 283 "timerfd_create" 2 rdec [S_NARG dec "clockid"; S_NARG arg "flags"];
  SYSCALL 284 "eventfd" 1 rdec [S_NARG arg "count"];
  SYSCALL 285 "fallocate" 4 rdec
    [S_UARG fd; S_NARG octal_mode "mode"; S_UARG offset; S_NARG offset "length"];
  SYSCALL 286 "timerfd_settime" 4 rdec
    [S_NARG fd "ufd"; S_NARG arg "flags"; S_NARG ptr "utmr"; S_NARG ptr "otmr"];
  SYSCALL 287 "timerfd_gettime" 2 rdec [S_NARG fd "ufd"; S_NARG ptr "otmr"];
  SYSCALL 288 "accept4" 4 rdec
    [S_NARG fd "sockfd"; S_NARG ptr "addr"; S_NARG ptr "addrlen"; S_NARG arg "flags"];
  SYSCALL 289 "signalfd4" 4 rdec
    [S_NARG fd "ufd"; S_NARG ptr "user_mask"; S_NARG dec "sizemask"; S_NARG arg "flags"];
  SYSCALL 290 "eventfd2" 2 rdec [S_NARG arg "count"; S_NARG arg "flags"];
  SYSCALL 291 "epoll_create1" 1 rdec [S_NARG arg "flags"];
  SYSCALL 292 "dup3" 3 rdec [S_NARG fd "oldfd"; S_NARG fd "newfd"; S_NARG arg "flags"];
  SYSCALL 293 "pipe2" 2 rdec [S_NARG ptr "fildes"; S_NARG arg "flags"];
  SYSCALL 294 "inotify_init1" 1 rdec [S_NARG arg "flags"];
  SYSCALL 295 "preadv" 5 rdec
    [S_UARG fd; S_NARG ptr "iov"; S_NARG dec "iovcnt"; S_NARG arg "pos_l"; S_NARG arg "pos_h"];
  SYSCALL 296 "pwritev" 5 rdec
    [S_UARG fd; S_NARG ptr "iov"; S_NARG dec "iovcnt"; S_NARG arg "pos_l"; S_NARG arg "pos_h"];
  SYSCALL 297 "rt_tgsigqueueinfo" 4 rdec
    [S_NARG arg "tgid"; S_NARG arg "pid"; S_NARG signum "sig"; S_NARG ptr "uinfo"];
  SYSCALL 298 "perf_event_open" 5 rdec
    [S_NARG ptr "attr_uptr"; S_NARG dec "pid"; S_NARG dec "cpu"; S_NARG fd "group_fd"; S_NARG arg "flags"];
  SYSCALL 299 "recvmmsg" 5 rdec
    [S_UARG fd; S_NARG ptr "msg"; S_NARG dec "vlen"; S_NARG arg "flags"; S_NARG ptr "timeout"];
  SYSCALL 300 "fanotify_init" 2 rdec [S_NARG arg "flags"; S_NARG arg "event_f_flags"];
  SYSCALL 301 "fanotify_mark" 5 rdec
    [S_NARG fd "fanotify_fd"; S_NARG arg "flags"; S_NARG arg "mask"; S_UARG fd; S_NARG cstr "pathname"];
  SYSCALL 302 "prlimit64" 4 rdec
    [S_NARG dec "pid"; S_NARG arg "resource"; S_NARG ptr "new_rlim"; S_NARG ptr "old_rlim"];
  SYSCALL 303 "name_to_handle_at" 5 rdec
    [S_NARG atfd "dfd"; S_NARG cstr "pathname"; S_NARG ptr "handle"; S_NARG ptr "mnt_id"; S_NARG arg "flag"];
  SYSCALL 304 "open_by_handle_at" 3 rdec [S_NARG fd "mountdirfd"; S_NARG ptr "handle"; S_NARG arg "flags"];
  SYSCALL 305 "clock_adjtime" 2 rdec [S_NARG arg "which_clock"; S_NARG ptr "tx"];
  SYSCALL 306 "syncfs" 2 rdec [S_UARG fd];
  SYSCALL 307 "sendmmsg" 4 rdec [S_UARG fd; S_NARG ptr "msg"; S_NARG dec "vlen"; S_NARG arg "flags"];
  SYSCALL 308 "setns" 2 rdec [S_UARG fd; S_NARG arg "nstype"];
  SYSCALL 309 "getcpu" 3 rdec [S_NARG ptr "cpu"; S_NARG ptr "node"; S_NARG ptr "cache"];
  SYSCALL 310 "process_vm_readv" 6 rdec
    [S_NARG dec "pid"; S_NARG ptr "local_iov"; S_NARG dec "liovcnt"; S_NARG ptr "remote_iov";
     S_NARG dec "riovcnt"; S_NARG arg "flags"];
  SYSCALL 311 "process_vm_writev" 6 rdec
    [S_NARG dec "pid"; S_NARG ptr "local_iov"; S_NARG dec "liovcnt"; S_NARG ptr "remote_iov";
     S_NARG dec "riovcnt"; S_NARG arg "flags"];
  SYSCALL 312 "kcmp" 5 rdec
    [S_NARG arg "pid1"; S_NARG arg "pid2"; S_NARG arg "type"; S_NARG arg "idx1"; S_NARG arg "idx2"];
  SYSCALL 313 "finit_module" 3 rdec [S_UARG fd; S_NARG cstr "param_values"; S_NARG arg "flags"];
  SYSCALL 314 "sched_setattr" 3 rdec [S_NARG dec "pid"; S_NARG ptr "attr"; S_NARG arg "flags"];
  SYSCALL 315 "sched_getattr" 4 rdec
    [S_NARG dec "pid"; S_NARG ptr "attr"; S_NARG dec "size"; S_NARG arg "flags"];
  SYSCALL 316 "renameat2" 5 rdec
    [S_NARG atfd "olddfd"; S_NARG cstr "oldpath"; S_NARG atfd "newdfd"; S_NARG cstr "newpath"; S_NARG arg "flags"];
  SYSCALL 317 "seccomp" 3 rdec [S_NARG arg "op"; S_NARG arg "flags"; S_NARG ptr "uargs"];
  SYSCALL 318 "getrandom" 3 rdec [S_NARG ptr "buf"; S_NARG arg "count"; S_NARG arg "flags"];
  SYSCALL 319 "memfd_create" 2 rdec [S_NARG cstr "pathname"; S_NARG arg "flags"];
  SYSCALL 320 "kexec_file_load" 5 rdec
    [S_NARG fd "kernel_fd"; S_NARG fd "initrd_fd"; S_NARG arg "cmdline_len"; S_NARG cstr "cmdline";
     S_NARG arg "flags"];
  SYSCALL 321 "bpf" 2 rdec [S_NARG arg "cmd"; S_NARG ptr "attr"; S_NARG arg "size"];
  SYSCALL 322 "execveat" 5 rdec
    [S_NARG atfd "dfd"; S_NARG cstr "pathname"; S_NARG ptr "argv"; S_NARG ptr "envp"; S_NARG arg "flags"];
  SYSCALL 323 "userfaultfd" 2 rdec [S_NARG arg "flags"];
  SYSCALL 324 "membarrier" 2 rdec [S_NARG arg "cmd"; S_NARG arg "flags"];
  SYSCALL 325 "mlock2" 3 rdec [S_NARG ptr "addr"; S_NARG dec "length"; S_NARG arg "flags"];
  SYSCALL 326 "copy_file_range" 6 rdec
    [S_NARG fd "fd_in"; S_NARG ptr "off_in"; S_NARG fd "fd_out"; S_NARG ptr "off_out"; S_NARG dec "length";
     S_NARG arg "flags"];
  SYSCALL 327 "preadv2" 6 rdec
    [S_UARG fd; S_NARG ptr "iov"; S_NARG arg "vlen"; S_NARG arg "pos_l"; S_NARG arg "pos_h"; S_NARG arg "flags"];
  SYSCALL 328 "pwritev2" 6 rdec
    [S_UARG fd; S_NARG ptr "iov"; S_NARG arg "vlen"; S_NARG arg "pos_l"; S_NARG arg "pos_h"; S_NARG arg "flags"];
  SYSCALL 329 "pkey_mprotect" 4 rdec
    [S_NARG ptr "addr"; S_NARG dec "length"; S_NARG mmap_prot "prot"; S_NARG dec "pkey"];
  SYSCALL 330 "pkey_alloc" 2 rdec [S_NARG arg "flags"; S_NARG arg "init_val"];
  SYSCALL 331 "pkey_free" 1 rdec [S_NARG dec "pkey"];
  SYSCALL 332 "statx" 5 rdec
    [S_NARG atfd "dfd"; S_NARG cstr "pathname"; S_NARG arg "flags"; S_NARG arg "mask"; S_NARG ptr "buffer"];
  SYSCALL 333 "io_pgetevents" 6 rdec
    [S_NARG ptr "ctx_id"; S_NARG dec "min_nr"; S_NARG dec "nr"; S_NARG ptr "events"; S_NARG ptr "timeout";
     S_NARG ptr "sig"];
  SYSCALL 334 "rseq" 4 rdec
    [S_NARG ptr "rseq"; S_NARG dec "rseq_len"; S_NARG arg "flags"; S_NARG signum "sig"]].

End table.

(** The size of an array with designated initialisers is one more than the
    largest index; elements without an initialiser are zero. *)
Definition init_array (rows : list syscall_info) : list syscall_info :=
  foldl (fun t e => <[Z.to_nat (s_nr e) := e]> t)
    (replicate (S (foldr (fun e m => Nat.max (Z.to_nat (s_nr e)) m) 0%nat rows)) zero_info) rows.

Definition syscall_table : list syscall_info :=
  init_array (syscall_table_0 ++ syscall_table_1 ++ syscall_table_2).

Definition unknown_syscall : syscall_info :=
  MkInfo 0 (Some (s_ "unknown_syscall")) 6 rdec
    (init_args [S_NARG Arg.arg "arg0"; S_NARG Arg.arg "arg1"; S_NARG Arg.arg "arg2"; S_NARG Arg.arg "arg3";
                S_NARG Arg.arg "arg4"; S_NARG Arg.arg "arg5"]).

Definition open_with_o_creat : syscall_info :=
  MkInfo 0 (Some (s_ "open")) 3 rdec
    (init_args [S_NARG Arg.cstr "pathname"; S_NARG Arg.open_flags "flags"; S_NARG Arg.octal_mode "mode"]).

Definition openat_with_o_creat : syscall_info :=
  MkInfo 0 (Some (s_ "openat")) 4 rdec
    (init_args [S_NARG Arg.atfd "dfd"; S_NARG Arg.cstr "pathname"; S_NARG Arg.open_flags "flags";
                S_NARG Arg.octal_mode "mode"]).

Definition O_TMPFILE : Z := 0x410000.

(** The parameter is an [int]. *)
Definition requires_mode_arg (flags : Z) : bool :=
  let flags := i32 flags in
  if Z.land flags O_CREAT =? O_CREAT then true else Z.land flags O_TMPFILE =? O_TMPFILE.

(** [argv[i]] *)
Definition argv_at (argv : list Z) (i : nat) : Z := default 0 (argv !! i).

Definition get_syscall_info (syscall_number : Z) (argv : option (list Z)) : syscall_info :=
  if (syscall_number <? 0) || (Z.of_nat (length syscall_table) <=? syscall_number) then unknown_syscall else
  let e := default zero_info (syscall_table !! Z.to_nat syscall_number) in
  match s_name e with
  | None => unknown_syscall
  | Some _ =>
      match argv with
      | None => e
      | Some argv =>
          if (syscall_number =? NR.open) && requires_mode_arg (argv_at argv 1) then open_with_o_creat
          else if (syscall_number =? NR.openat) && requires_mode_arg (argv_at argv 2) then openat_with_o_creat
          else e
      end
  end.

(** ** The table by name *)

(** The pointer to an element of [syscall_table] is its index. *)
Record named_syscall_entry := SYSCALL_BY_NAME_ { n_info : Z; n_name : str }.
Definition SYSCALL_BY_NAME (nr : Z) (id : string) : named_syscall_entry := SYSCALL_BY_NAME_ nr (s_ id).
Arguments SYSCALL_BY_NAME _ _%_string.

(** Lines 527 to 644 of the table. *)
Definition syscalls_by_name_0 : list named_syscall_entry := [
   SYSCALL_BY_NAME 156 "_sysctl"; SYSCALL_BY_NAME 43 "accept"; SYSCALL_BY_NAME 288 "accept4";
   SYSCALL_BY_NAME 21 "access"; SYSCALL_BY_NAME 163 "acct"; SYSCALL_BY_NAME 248 "add_key";
   SYSCALL_BY_NAME 159 "adjtimex"; SYSCALL_BY_NAME 183 "afs_syscall"; SYSCALL_BY_NAME 37 "alarm";
   SYSCALL_BY_NAME 158 "arch_prctl"; SYSCALL_BY_NAME 49 "bind"; SYSCALL_BY_NAME 321 "bpf";
   SYSCALL_BY_NAME 12 "brk"; SYSCALL_BY_NAME 125 "capget"; SYSCALL_BY_NAME 126 "capset";
   SYSCALL_BY_NAME 80 "chdir"; SYSCALL_BY_NAME 90 "chmod"; SYSCALL_BY_NAME 92 "chown";
   SYSCALL_BY_NAME 161 "chroot"; SYSCALL_BY_NAME 305 "clock_adjtime"; SYSCALL_BY_NAME 229 "clock_getres";
   SYSCALL_BY_NAME 228 "clock_gettime"; SYSCALL_BY_NAME 230 "clock_nanosleep";
   SYSCALL_BY_NAME 227 "clock_settime"; SYSCALL_BY_NAME 56 "clone"; SYSCALL_BY_NAME 3 "close";
   SYSCALL_BY_NAME 42 "connect"; SYSCALL_BY_NAME 326 "copy_file_range"; SYSCALL_BY_NAME 85 "creat";
   SYSCALL_BY_NAME 174 "create_module"; SYSCALL_BY_NAME 176 "delete_module"; SYSCALL_BY_NAME 32 "dup";
   SYSCALL_BY_NAME 33 "dup2"; SYSCALL_BY_NAME 292 "dup3"; SYSCALL_BY_NAME 213 "epoll_create";
   SYSCALL_BY_NAME 291 "epoll_create1"; SYSCALL_BY_NAME 233 "epoll_ctl"; SYSCALL_BY_NAME 214 "epoll_ctl_old";
   SYSCALL_BY_NAME 281 "epoll_pwait"; SYSCALL_BY_NAME 232 "epoll_wait"; SYSCALL_BY_NAME 215 "epoll_wait_old";
   SYSCALL_BY_NAME 284 "eventfd"; SYSCALL_BY_NAME 290 "eventfd2"; SYSCALL_BY_NAME 59 "execve";
   SYSCALL_BY_NAME 322 "execveat"; SYSCALL_BY_NAME 60 "exit"; SYSCALL_BY_NAME 231 "exit_group";
   SYSCALL_BY_NAME 269 "faccessat"; SYSCALL_BY_NAME 221 "fadvise64"; SYSCALL_BY_NAME 285 "fallocate";
   SYSCALL_BY_NAME 300 "fanotify_init"; SYSCALL_BY_NAME 301 "fanotify_mark"; SYSCALL_BY_NAME 81 "fchdir";
   SYSCALL_BY_NAME 91 "fchmod"; SYSCALL_BY_NAME 268 "fchmodat"; SYSCALL_BY_NAME 93 "fchown";
   SYSCALL_BY_NAME 260 "fchownat"; SYSCALL_BY_NAME 72 "fcntl"; SYSCALL_BY_NAME 75 "fdatasync";
   SYSCALL_BY_NAME 193 "fgetxattr"; SYSCALL_BY_NAME 313 "finit_module"; SYSCALL_BY_NAME 196 "flistxattr";
   SYSCALL_BY_NAME 73 "flock"; SYSCALL_BY_NAME 57 "fork"; SYSCALL_BY_NAME 199 "fremovexattr";
   SYSCALL_BY_NAME 190 "fsetxattr"; SYSCALL_BY_NAME 5 "fstat"; SYSCALL_BY_NAME 138 "fstatfs";
   SYSCALL_BY_NAME 74 "fsync"; SYSCALL_BY_NAME 77 "ftruncate"; SYSCALL_BY_NAME 202 "futex";
   SYSCALL_BY_NAME 261 "futimesat"; SYSCALL_BY_NAME 177 "get_kernel_syms"; SYSCALL_BY_NAME 239 "get_mempolicy";
   SYSCALL_BY_NAME 274 "get_robust_list"; SYSCALL_BY_NAME 211 "get_thread_area"; SYSCALL_BY_NAME 309 "getcpu";
   SYSCALL_BY_NAME 79 "getcwd"; SYSCALL_BY_NAME 78 "getdents"; SYSCALL_BY_NAME 217 "getdents64";
   SYSCALL_BY_NAME 108 "getegid"; SYSCALL_BY_NAME 107 "geteuid"; SYSCALL_BY_NAME 104 "getgid";
   SYSCALL_BY_NAME 115 "getgroups"; SYSCALL_BY_NAME 36 "getitimer"; SYSCALL_BY_NAME 52 "getpeername";
   SYSCALL_BY_NAME 121 "getpgid"; SYSCALL_BY_NAME 111 "getpgrp"; SYSCALL_BY_NAME 39 "getpid";
   SYSCALL_BY_NAME 181 "getpmsg"; SYSCALL_BY_NAME 110 "getppid"; SYSCALL_BY_NAME 140 "getpriority";
   SYSCALL_BY_NAME 318 "getrandom"; SYSCALL_BY_NAME 120 "getresgid"; SYSCALL_BY_NAME 118 "getresuid";
   SYSCALL_BY_NAME 97 "getrlimit"; SYSCALL_BY_NAME 98 "getrusage"; SYSCALL_BY_NAME 124 "getsid";
   SYSCALL_BY_NAME 51 "getsockname"; SYSCALL_BY_NAME 55 "getsockopt"; SYSCALL_BY_NAME 186 "gettid";
   SYSCALL_BY_NAME 96 "gettimeofday"; SYSCALL_BY_NAME 102 "getuid"; SYSCALL_BY_NAME 191 "getxattr";
   SYSCALL_BY_NAME 175 "init_module"; SYSCALL_BY_NAME 254 "inotify_add_watch";
   SYSCALL_BY_NAME 253 "inotify_init"; SYSCALL_BY_NAME 294 "inotify_init1";
   SYSCALL_BY_NAME 255 "inotify_rm_watch"; SYSCALL_BY_NAME 210 "io_cancel"; SYSCALL_BY_NAME 207 "io_destroy";
   SYSCALL_BY_NAME 208 "io_getevents"].

(** Lines 646 to 774 of the table. *)
Definition syscalls_by_name_1 : list named_syscall_entry := [
   SYSCALL_BY_NAME 333 "io_pgetevents"; SYSCALL_BY_NAME 206 "io_setup"; SYSCALL_BY_NAME 209 "io_submit";
   SYSCALL_BY_NAME 16 "ioctl"; SYSCALL_BY_NAME 173 "ioperm"; SYSCALL_BY_NAME 172 "iopl";
   SYSCALL_BY_NAME 252 "ioprio_get"; SYSCALL_BY_NAME 251 "ioprio_set"; SYSCALL_BY_NAME 312 "kcmp";
   SYSCALL_BY_NAME 320 "kexec_file_load"; SYSCALL_BY_NAME 246 "kexec_load"; SYSCALL_BY_NAME 250 "keyctl";
   SYSCALL_BY_NAME 62 "kill"; SYSCALL_BY_NAME 94 "lchown"; SYSCALL_BY_NAME 192 "lgetxattr";
   SYSCALL_BY_NAME 86 "link"; SYSCALL_BY_NAME 265 "linkat"; SYSCALL_BY_NAME 50 "listen";
   SYSCALL_BY_NAME 194 "listxattr"; SYSCALL_BY_NAME 195 "llistxattr"; SYSCALL_BY_NAME 212 "lookup_dcookie";
   SYSCALL_BY_NAME 198 "lremovexattr"; SYSCALL_BY_NAME 8 "lseek"; SYSCALL_BY_NAME 189 "lsetxattr";
   SYSCALL_BY_NAME 6 "lstat"; SYSCALL_BY_NAME 28 "madvise"; SYSCALL_BY_NAME 237 "mbind";
   SYSCALL_BY_NAME 324 "membarrier"; SYSCALL_BY_NAME 319 "memfd_create"; SYSCALL_BY_NAME 256 "migrate_pages";
   SYSCALL_BY_NAME 27 "mincore"; SYSCALL_BY_NAME 83 "mkdir"; SYSCALL_BY_NAME 258 "mkdirat";
   SYSCALL_BY_NAME 133 "mknod"; SYSCALL_BY_NAME 259 "mknodat"; SYSCALL_BY_NAME 149 "mlock";
   SYSCALL_BY_NAME 325 "mlock2"; SYSCALL_BY_NAME 151 "mlockall"; SYSCALL_BY_NAME 9 "mmap";
   SYSCALL_BY_NAME 154 "modify_ldt"; SYSCALL_BY_NAME 165 "mount"; SYSCALL_BY_NAME 279 "move_pages";
   SYSCALL_BY_NAME 10 "mprotect"; SYSCALL_BY_NAME 245 "mq_getsetattr"; SYSCALL_BY_NAME 244 "mq_notify";
   SYSCALL_BY_NAME 240 "mq_open"; SYSCALL_BY_NAME 243 "mq_timedreceive"; SYSCALL_BY_NAME 242 "mq_timedsend";
   SYSCALL_BY_NAME 241 "mq_unlink"; SYSCALL_BY_NAME 25 "mremap"; SYSCALL_BY_NAME 71 "msgctl";
   SYSCALL_BY_NAME 68 "msgget"; SYSCALL_BY_NAME 70 "msgrcv"; SYSCALL_BY_NAME 69 "msgsnd";
   SYSCALL_BY_NAME 26 "msync"; SYSCALL_BY_NAME 150 "munlock"; SYSCALL_BY_NAME 152 "munlockall";
   SYSCALL_BY_NAME 11 "munmap"; SYSCALL_BY_NAME 303 "name_to_handle_at"; SYSCALL_BY_NAME 35 "nanosleep";
   SYSCALL_BY_NAME 262 "newfstatat"; SYSCALL_BY_NAME 180 "nfsservctl"; SYSCALL_BY_NAME 2 "open";
   SYSCALL_BY_NAME 304 "open_by_handle_at"; SYSCALL_BY_NAME 257 "openat"; SYSCALL_BY_NAME 34 "pause";
   SYSCALL_BY_NAME 298 "perf_event_open"; SYSCALL_BY_NAME 135 "personality"; SYSCALL_BY_NAME 22 "pipe";
   SYSCALL_BY_NAME 293 "pipe2"; SYSCALL_BY_NAME 155 "pivot_root"; SYSCALL_BY_NAME 7 "poll";
   SYSCALL_BY_NAME 271 "ppoll"; SYSCALL_BY_NAME 157 "prctl"; SYSCALL_BY_NAME 17 "pread64";
   SYSCALL_BY_NAME 295 "preadv"; SYSCALL_BY_NAME 327 "preadv2"; SYSCALL_BY_NAME 329 "pkey_mprotect";
   SYSCALL_BY_NAME 330 "pkey_alloc"; SYSCALL_BY_NAME 331 "pkey_free"; SYSCALL_BY_NAME 302 "prlimit64";
   SYSCALL_BY_NAME 310 "process_vm_readv"; SYSCALL_BY_NAME 311 "process_vm_writev";
   SYSCALL_BY_NAME 270 "pselect6"; SYSCALL_BY_NAME 101 "ptrace"; SYSCALL_BY_NAME 182 "putpmsg";
   SYSCALL_BY_NAME 18 "pwrite64"; SYSCALL_BY_NAME 296 "pwritev"; SYSCALL_BY_NAME 328 "pwritev2";
   SYSCALL_BY_NAME 178 "query_module"; SYSCALL_BY_NAME 179 "quotactl"; SYSCALL_BY_NAME 0 "read";
   SYSCALL_BY_NAME 187 "readahead"; SYSCALL_BY_NAME 89 "readlink"; SYSCALL_BY_NAME 267 "readlinkat";
   SYSCALL_BY_NAME 19 "readv"; SYSCALL_BY_NAME 169 "reboot"; SYSCALL_BY_NAME 45 "recvfrom";
   SYSCALL_BY_NAME 299 "recvmmsg"; SYSCALL_BY_NAME 47 "recvmsg"; SYSCALL_BY_NAME 216 "remap_file_pages";
   SYSCALL_BY_NAME 197 "removexattr"; SYSCALL_BY_NAME 82 "rename"; SYSCALL_BY_NAME 264 "renameat";
   SYSCALL_BY_NAME 316 "renameat2"; SYSCALL_BY_NAME 249 "request_key"; SYSCALL_BY_NAME 219 "restart_syscall";
   SYSCALL_BY_NAME 84 "rmdir"; SYSCALL_BY_NAME 334 "rseq"; SYSCALL_BY_NAME 13 "rt_sigaction";
   SYSCALL_BY_NAME 127 "rt_sigpending"; SYSCALL_BY_NAME 14 "rt_sigprocmask"].

(** Lines 775 to 887 of the table. *)
Definition syscalls_by_name_2 : list named_syscall_entry := [
   SYSCALL_BY_NAME 129 "rt_sigqueueinfo"; SYSCALL_BY_NAME 15 "rt_sigreturn";
   SYSCALL_BY_NAME 130 "rt_sigsuspend"; SYSCALL_BY_NAME 128 "rt_sigtimedwait";
   SYSCALL_BY_NAME 297 "rt_tgsigqueueinfo"; SYSCALL_BY_NAME 146 "sched_get_priority_max";
   SYSCALL_BY_NAME 147 "sched_get_priority_min"; SYSCALL_BY_NAME 204 "sched_getaffinity";
   SYSCALL_BY_NAME 315 "sched_getattr"; SYSCALL_BY_NAME 143 "sched_getparam";
   SYSCALL_BY_NAME 145 "sched_getscheduler"; SYSCALL_BY_NAME 148 "sched_rr_get_interval";
   SYSCALL_BY_NAME 203 "sched_setaffinity"; SYSCALL_BY_NAME 314 "sched_setattr";
   SYSCALL_BY_NAME 142 "sched_setparam"; SYSCALL_BY_NAME 144 "sched_setscheduler";
   SYSCALL_BY_NAME 24 "sched_yield"; SYSCALL_BY_NAME 317 "seccomp"; SYSCALL_BY_NAME 185 "security";
   SYSCALL_BY_NAME 23 "select"; SYSCALL_BY_NAME 66 "semctl"; SYSCALL_BY_NAME 64 "semget";
   SYSCALL_BY_NAME 65 "semop"; SYSCALL_BY_NAME 220 "semtimedop"; SYSCALL_BY_NAME 40 "sendfile";
   SYSCALL_BY_NAME 307 "sendmmsg"; SYSCALL_BY_NAME 46 "sendmsg"; SYSCALL_BY_NAME 44 "sendto";
   SYSCALL_BY_NAME 238 "set_mempolicy"; SYSCALL_BY_NAME 273 "set_robust_list";
   SYSCALL_BY_NAME 205 "set_thread_area"; SYSCALL_BY_NAME 218 "set_tid_address";
   SYSCALL_BY_NAME 171 "setdomainname"; SYSCALL_BY_NAME 123 "setfsgid"; SYSCALL_BY_NAME 122 "setfsuid";
   SYSCALL_BY_NAME 106 "setgid"; SYSCALL_BY_NAME 116 "setgroups"; SYSCALL_BY_NAME 170 "sethostname";
   SYSCALL_BY_NAME 38 "setitimer"; SYSCALL_BY_NAME 308 "setns"; SYSCALL_BY_NAME 109 "setpgid";
   SYSCALL_BY_NAME 141 "setpriority"; SYSCALL_BY_NAME 114 "setregid"; SYSCALL_BY_NAME 119 "setresgid";
   SYSCALL_BY_NAME 117 "setresuid"; SYSCALL_BY_NAME 113 "setreuid"; SYSCALL_BY_NAME 160 "setrlimit";
   SYSCALL_BY_NAME 112 "setsid"; SYSCALL_BY_NAME 54 "setsockopt"; SYSCALL_BY_NAME 164 "settimeofday";
   SYSCALL_BY_NAME 105 "setuid"; SYSCALL_BY_NAME 188 "setxattr"; SYSCALL_BY_NAME 30 "shmat";
   SYSCALL_BY_NAME 31 "shmctl"; SYSCALL_BY_NAME 67 "shmdt"; SYSCALL_BY_NAME 29 "shmget";
   SYSCALL_BY_NAME 48 "shutdown"; SYSCALL_BY_NAME 131 "sigaltstack"; SYSCALL_BY_NAME 282 "signalfd";
   SYSCALL_BY_NAME 289 "signalfd4"; SYSCALL_BY_NAME 41 "socket"; SYSCALL_BY_NAME 53 "socketpair";
   SYSCALL_BY_NAME 275 "splice"; SYSCALL_BY_NAME 4 "stat"; SYSCALL_BY_NAME 137 "statfs";
   SYSCALL_BY_NAME 332 "statx"; SYSCALL_BY_NAME 168 "swapoff"; SYSCALL_BY_NAME 167 "swapon";
   SYSCALL_BY_NAME 88 "symlink"; SYSCALL_BY_NAME 266 "symlinkat"; SYSCALL_BY_NAME 162 "sync";
   SYSCALL_BY_NAME 277 "sync_file_range"; SYSCALL_BY_NAME 306 "syncfs"; SYSCALL_BY_NAME 139 "sysfs";
   SYSCALL_BY_NAME 99 "sysinfo"; SYSCALL_BY_NAME 103 "syslog"; SYSCALL_BY_NAME 276 "tee";
   SYSCALL_BY_NAME 234 "tgkill"; SYSCALL_BY_NAME 201 "time"; SYSCALL_BY_NAME 222 "timer_create";
   SYSCALL_BY_NAME 226 "timer_delete"; SYSCALL_BY_NAME 225 "timer_getoverrun";
   SYSCALL_BY_NAME 224 "timer_gettime"; SYSCALL_BY_NAME 223 "timer_settime";
   SYSCALL_BY_NAME 283 "timerfd_create"; SYSCALL_BY_NAME 287 "timerfd_gettime";
   SYSCALL_BY_NAME 286 "timerfd_settime"; SYSCALL_BY_NAME 100 "times"; SYSCALL_BY_NAME 200 "tkill";
   SYSCALL_BY_NAME 76 "truncate"; SYSCALL_BY_NAME 184 "tuxcall"; SYSCALL_BY_NAME 95 "umask";
   SYSCALL_BY_NAME 166 "umount2"; SYSCALL_BY_NAME 63 "uname"; SYSCALL_BY_NAME 87 "unlink";
   SYSCALL_BY_NAME 263 "unlinkat"; SYSCALL_BY_NAME 272 "unshare"; SYSCALL_BY_NAME 134 "uselib";
   SYSCALL_BY_NAME 323 "userfaultfd"; SYSCALL_BY_NAME 136 "ustat"; SYSCALL_BY_NAME 132 "utime";
   SYSCALL_BY_NAME 280 "utimensat"; SYSCALL_BY_NAME 235 "utimes"; SYSCALL_BY_NAME 58 "vfork";
   SYSCALL_BY_NAME 153 "vhangup"; SYSCALL_BY_NAME 278 "vmsplice"; SYSCALL_BY_NAME 236 "vserver";
   SYSCALL_BY_NAME 61 "wait4"; SYSCALL_BY_NAME 247 "waitid"; SYSCALL_BY_NAME 1 "write";
   SYSCALL_BY_NAME 20 "writev"].

Definition syscalls_by_name : list named_syscall_entry :=
  syscalls_by_name_0 ++ syscalls_by_name_1 ++ syscalls_by_name_2.

(** [strcmp]: bytes are compared as unsigned numbers. *)
Fixpoint strcmp (a b : str) : comparison :=
  match a, b with
  | [], [] => Eq
  | [], _ :: _ => Lt
  | _ :: _, [] => Gt
  | x :: a', y :: b' =>
      match Nat.compare (nat_of_ascii x) (nat_of_ascii y) with Eq => strcmp a' b' | c => c end
  end.

Definition compare_named_entries (k : str) (e : named_syscall_entry) : comparison := strcmp k (n_name e).

(** [bsearch] of the C library halves the range [l, u) until the element in
    the middle compares equal; [None] is a null pointer. *)
Fixpoint bsearch_loop {A} (fuel : nat) (compar : A -> comparison) (base : list A) (l u : nat) : res (option A) :=
  match fuel with
  | O => Trap
  | S fuel =>
      if (l <? u)%nat then
        let idx := ((l + u) / 2)%nat in
        match base !! idx with
        | None => Trap
        | Some e =>
            match compar e with
            | Lt => bsearch_loop fuel compar base l idx
            | Gt => bsearch_loop fuel compar base (S idx) u
            | Eq => Ok (Some e)
            end
        end
      else Ok None
  end.

Definition bsearch {A} (compar : A -> comparison) (base : list A) : res (option A) :=
  bsearch_loop (S (length base)) compar base 0 (length base).

Definition get_syscall_info_by_name (syscall_name : str) : res syscall_info :=
  r ← bsearch (compare_named_entries syscall_name) syscalls_by_name;
  Ok match r with
     | None => unknown_syscall
     | Some e => default zero_info (syscall_table !! Z.to_nat (n_info e))
     end.

Definition ret_is_none (r : ret_type_t) : bool := match r with rnone => true | _ => false end.

Definition syscall_never_returns (n : Z) : bool := ret_is_none (s_return_type (get_syscall_info n None)).

(** ** Lookups of [syscall.hpp] *)

Definition lookup_by_number (syscall_number : Z) (argv : option (list Z)) : syscall_info :=
  get_syscall_info syscall_number argv.

(** The name is passed as a C string. *)
Definition lookup_by_name (syscall_name : str) : res syscall_info :=
  get_syscall_info_by_name (cstr syscall_name).

Definition never_returns (syscall_number : Z) : bool :=
  ret_is_none (s_return_type (lookup_by_number syscall_number None)).

Definition always_returns (syscall_number : Z) : bool := negb (never_returns syscall_number).

Definition may_not_return (syscall_number : Z) : bool :=
  (syscall_number =? NR.execve) || (syscall_number =? NR.execveat).

Definition error_code (result : Z) : Z :=
  if (result <? 0) && (- 0x1000 <=? result) then i32 (- result) else 0.

(** ** Names of errors *)

Definition named (s : string) : option str := Some (s_ s).
Arguments named _%_string.

(** Error numbers 0 to 133, those of the C library. *)
Definition errno_names_low : list (option str) :=
   [None; named "EPERM"; named "ENOENT"; named "ESRCH"; named "EINTR"; named "EIO"; named "ENXIO";
    named "E2BIG"; named "ENOEXEC"; named "EBADF"; named "ECHILD"; named "EAGAIN"; named "ENOMEM";
    named "EACCES"; named "EFAULT"; named "ENOTBLK"; named "EBUSY"; named "EEXIST"; named "EXDEV";
    named "ENODEV"; named "ENOTDIR"; named "EISDIR"; named "EINVAL"; named "ENFILE"; named "EMFILE";
    named "ENOTTY"; named "ETXTBSY"; named "EFBIG"; named "ENOSPC"; named "ESPIPE"; named "EROFS";
    named "EMLINK"; named "EPIPE"; named "EDOM"; named "ERANGE"; named "EDEADLK"; named "ENAMETOOLONG";
    named "ENOLCK"; named "ENOSYS"; named "ENOTEMPTY"; named "ELOOP"; None; named "ENOMSG"; named "EIDRM";
    named "ECHRNG"; named "EL2NSYNC"; named "EL3HLT"; named "EL3RST"; named "ELNRNG"; named "EUNATCH";
    named "ENOCSI"; named "EL2HLT"; named "EBADE"; named "EBADR"; named "EXFULL"; named "ENOANO";
    named "EBADRQC"; named "EBADSLT"; None; named "EBFONT"; named "ENOSTR"; named "ENODATA"; named "ETIME";
    named "ENOSR"; named "ENONET"; named "ENOPKG"; named "EREMOTE"; named "ENOLINK"; named "EADV";
    named "ESRMNT"; named "ECOMM"; named "EPROTO"; named "EMULTIHOP"; named "EDOTDOT"; named "EBADMSG";
    named "EOVERFLOW"; named "ENOTUNIQ"; named "EBADFD"; named "EREMCHG"; named "ELIBACC"; named "ELIBBAD";
    named "ELIBSCN"; named "ELIBMAX"; named "ELIBEXEC"; named "EILSEQ"; named "ERESTART"; named "ESTRPIPE";
    named "EUSERS"; named "ENOTSOCK"; named "EDESTADDRREQ"; named "EMSGSIZE"; named "EPROTOTYPE";
    named "ENOPROTOOPT"; named "EPROTONOSUPPORT"; named "ESOCKTNOSUPPORT"; named "EOPNOTSUPP";
    named "EPFNOSUPPORT"; named "EAFNOSUPPORT"; named "EADDRINUSE"; named "EADDRNOTAVAIL"; named "ENETDOWN";
    named "ENETUNREACH"; named "ENETRESET"; named "ECONNABORTED"; named "ECONNRESET"; named "ENOBUFS";
    named "EISCONN"; named "ENOTCONN"; named "ESHUTDOWN"; named "ETOOMANYREFS"; named "ETIMEDOUT";
    named "ECONNREFUSED"; named "EHOSTDOWN"; named "EHOSTUNREACH"; named "EALREADY"; named "EINPROGRESS";
    named "ESTALE"; named "EUCLEAN"; named "ENOTNAM"; named "ENAVAIL"; named "EISNAM"; named "EREMOTEIO";
    named "EDQUOT"; named "ENOMEDIUM"; named "EMEDIUMTYPE"; named "ECANCELED"; named "ENOKEY";
    named "EKEYEXPIRED"; named "EKEYREVOKED"; named "EKEYREJECTED"; named "EOWNERDEAD"; named "ENOTRECOVERABLE";
    named "ERFKILL"; named "EHWPOISON"].

(** Error numbers 134 to 530, of which the kernel uses the last ones internally. *)
Definition errno_names_high : list (option str) :=
   replicate 378 None ++
   [named "ERESTARTSYS"; named "ERESTARTNOINTR"; named "ERESTARTNOHAND"; named "ENOIOCTLCMD";
    named "ERESTART_RESTARTBLOCK"; named "EPROBE_DEFER"; named "EOPENSTALE"; None; None; named "EBADHANDLE";
    named "ENOTSYNC"; named "EBADCOOKIE"; named "ENOTSUPP"; named "ETOOSMALL"; named "ESERVERFAULT";
    named "EBADTYPE"; named "EJUKEBOX"; named "EIOCBQUEUED"; named "ERECALLCONFLICT"].

Definition errno_names : list (option str) := errno_names_low ++ errno_names_high.

(** [errno_names.at] throws out of range; the parameter is an [int]. *)
Definition errno_name (errno_value : Z) : res str :=
  let v := i32 errno_value in
  if v <? 0 then Throw OutOfRange else
  match errno_names !! Z.to_nat v with
  | None => Throw OutOfRange
  | Some None => Ok (s_ "EUNKNOWN")
  | Some (Some name) => Ok name
  end.

(** ** Searching *)

Lemma strcmp_eq a b : strcmp a b = Eq <-> a = b.
Proof.
  revert b. induction a as [|x a IH]; intros [|y b]; simpl; [done..|].
  destruct (Nat.compare_spec (nat_of_ascii x) (nat_of_ascii y)) as [E|E|E].
  - rewrite IH. apply (f_equal ascii_of_nat) in E. rewrite !ascii_nat_embedding in E. naive_solver.
  - split; [done|]. intros [= -> ->]. lia.
  - split; [done|]. intros [= -> ->]. lia.
Qed.

(** The loop returns once its fuel exceeds the width of the range: every
    turn narrows it. *)
Lemma bsearch_loop_returns {A} fuel (compar : A -> comparison) base l u :
  (u - l < fuel)%nat -> (u <= length base)%nat -> exists r, bsearch_loop fuel compar base l u = Ok r.
Proof.
  revert l u. induction fuel as [|fuel IH]; intros l u Hf Hu; [lia|]. simpl.
  destruct (Nat.ltb_spec l u); [|by eauto].
  assert (l <= (l + u) / 2 < u)%nat as Hm.
  { split; [apply Nat.div_le_lower_bound|apply Nat.div_lt_upper_bound]; lia. }
  change (fst (Nat.divmod (l + u) 1 0 1)) with ((l + u) / 2)%nat.
  destruct (lookup_lt_is_Some_2 base ((l + u) / 2)) as [e ->]; [lia|].
  destruct (compar e); [by eauto|apply IH; lia|apply IH; lia].
Qed.

Lemma bsearch_loop_sound {A} fuel (compar : A -> comparison) base l u e :
  bsearch_loop fuel compar base l u = Ok (Some e) -> e ∈ base /\ compar e = Eq.
Proof.
  revert l u. induction fuel as [|fuel IH]; intros l u; simpl; [done|].
  destruct (l <? u)%nat; [|done]. destruct (base !! _) as [x|] eqn:Ex; [|done].
  destruct (compar x) eqn:Ec; [|by apply IH..].
  intros [= <-]. split; [by eapply list_elem_of_lookup_2|done].
Qed.

(** A search ends, and what it finds compares equal. *)
Lemma bsearch_spec {A} (compar : A -> comparison) base :
  exists r, bsearch compar base = Ok r /\ forall e, r = Some e -> e ∈ base /\ compar e = Eq.
Proof.
  destruct (bsearch_loop_returns (S (length base)) compar base 0 (length base)) as [r Hr]; [lia..|].
  exists r. split; [done|]. intros e ->. by eapply bsearch_loop_sound.
Qed.

(** ** The tables *)

Definition table_size : Z := 335.

(** Statements about all numbers of the table are decided by evaluation. *)
Lemma table_forall (P : Z -> Prop) {HP : forall n, Decision (P n)} :
  forallb (fun i => bool_decide (P (Z.of_nat i))) (seq 0 335) = true ->
  forall n, 0 <= n < table_size -> P n.
Proof.
  intros H n Hn. rewrite forallb_forall in H.
  specialize (H (Z.to_nat n)). rewrite Z2Nat.id in H by lia.
  apply bool_decide_eq_true in H; [done|]. apply in_seq. unfold table_size in Hn. lia.
Qed.

#[export] Instance arg_type_t_eq_dec : EqDecision Arg.arg_type_t.
Proof. solve_decision. Defined.
#[export] Instance syscall_arg_t_eq_dec : EqDecision syscall_arg_t.
Proof. solve_decision. Defined.
#[export] Instance ret_type_t_eq_dec : EqDecision ret_type_t.
Proof. solve_decision. Defined.
#[export] Instance syscall_info_eq_dec : EqDecision syscall_info.
Proof. solve_decision. Defined.

(** Every number below [table_size] has a description with a name, under its
    own number. *)
Lemma table_dense n : 0 <= n < table_size ->
  s_nr (lookup_by_number n None) = n /\ is_Some (s_name (lookup_by_number n None)).
Proof. revert n. apply (table_forall _). by vm_compute. Qed.

(** The names [bsearch] does not reach: the table is not ordered there. *)
Definition misplaced : list str := [s_ "pkey_mprotect"; s_ "pkey_alloc"; s_ "pkey_free"].

Definition name_of (e : syscall_info) : str := default [] (s_name e).

#[export] Instance res_eq_dec {A} `{EqDecision A} : EqDecision (res A).
Proof.
  intros [a|e|] [b|e'|]; try (right; congruence).
  - destruct (decide (a = b)); [left|right]; congruence.
  - assert (EqDecision exn) as D by solve_decision. destruct (D e e'); [left|right]; congruence.
  - by left.
Defined.

Lemma names_reached n : 0 <= n < table_size ->
  lookup_by_name (name_of (lookup_by_number n None)) =
  Ok (if decide (name_of (lookup_by_number n None) ∈ misplaced) then unknown_syscall
      else lookup_by_number n None).
Proof. revert n. apply (table_forall _). by vm_compute. Qed.

Lemma names_by_number : Forall (fun e => exists n, 0 <= n < table_size /\ name_of (lookup_by_number n None) = n_name e)
  syscalls_by_name.
Proof.
  assert (forallb (fun e => bool_decide (0 <= n_info e < table_size) &&
    bool_decide (name_of (lookup_by_number (n_info e) None) = n_name e)) syscalls_by_name = true) as H by by vm_compute.
  rewrite forallb_forall in H. apply List.Forall_forall. intros e He. specialize (H e He).
  apply andb_true_iff in H as [H1 H2]. apply bool_decide_eq_true in H1, H2. eauto.
Qed.

Lemma names_unknown name : NUL ∉ name ->
  (forall n, 0 <= n < table_size -> name_of (lookup_by_number n None) <> name) ->
  lookup_by_name name = Ok unknown_syscall.
Proof.
  intros Hn Hname. unfold lookup_by_name, get_syscall_info_by_name. rewrite cstr_id by done.
  destruct (bsearch_spec (compare_named_entries name) syscalls_by_name) as (r & -> & Hr).
  destruct r as [e|]; [exfalso|done]. destruct (Hr e eq_refl) as [He Hc]. apply strcmp_eq in Hc.
  pose proof names_by_number as HF. rewrite Forall_forall in HF. destruct (HF e He) as (n & Hn1 & Hn2).
  apply (Hname n Hn1). congruence.
Qed.

(** Number and name of a system call lead to each other: a number of the
    table has a description with that number and a name, looking this name
    up returns the description, and any other name the unknown call.  The
    exceptions are the three calls on protection keys, which stand out of
    order in the table by name and are never found. *)
Theorem lookup_round_trip :
  (forall n, 0 <= n < table_size ->
     s_nr (lookup_by_number n None) = n /\ is_Some (s_name (lookup_by_number n None)) /\
     lookup_by_name (name_of (lookup_by_number n None)) =
       Ok (if decide (name_of (lookup_by_number n None) ∈ misplaced) then unknown_syscall
           else lookup_by_number n None)) /\
  (forall n argv, n < 0 \/ table_size <= n -> lookup_by_number n argv = unknown_syscall) /\
  (forall name, NUL ∉ name ->
     (forall n, 0 <= n < table_size -> name_of (lookup_by_number n None) <> name) ->
     lookup_by_name name = Ok unknown_syscall).
Proof.
  split; [|split].
  - intros n Hn. destruct (table_dense n Hn) as [H1 H2]. auto using names_reached.
  - intros n argv Hn. unfold lookup_by_number, get_syscall_info.
    change (Z.of_nat (length syscall_table)) with table_size.
    destruct (Z.ltb_spec n 0), (Z.leb_spec table_size n); try done. lia.
  - apply names_unknown.
Qed.

Example lookup_write : lookup_by_name (s_ "write") = Ok (lookup_by_number 1 None).
Proof. by vm_compute. Qed.

(** Calls whose number of arguments in the table is not the number of
    arguments the table describes. *)
Definition given_args (e : syscall_info) : Z :=
  Z.of_nat (length (filter (fun a => is_Some (a_name a)) (s_args e))).

Definition miscounted : list str :=
  [s_ "fdatasync"; s_ "readlink"; s_ "rt_sigqueueinfo"; s_ "epoll_create"; s_ "syncfs"; s_ "bpf"; s_ "userfaultfd"].

Lemma argument_counts n : 0 <= n < table_size ->
  (s_nargs (lookup_by_number n None) = given_args (lookup_by_number n None) <->
   name_of (lookup_by_number n None) ∉ miscounted).
Proof.
  intros Hn. assert (bool_decide (s_nargs (lookup_by_number n None) = given_args (lookup_by_number n None)) =
    negb (bool_decide (name_of (lookup_by_number n None) ∈ miscounted))) as E.
  { revert n Hn. apply (table_forall _). by vm_compute. }
  destruct (decide (name_of (lookup_by_number n None) ∈ miscounted)) as [H|H].
  - rewrite (bool_decide_true (_ ∈ _)) in E by done. apply bool_decide_eq_false in E. tauto.
  - rewrite (bool_decide_false (_ ∈ _)) in E by done. apply bool_decide_eq_true in E. tauto.
Qed.

Lemma lookup_round_trip_witness :
  lookup_by_name (name_of (lookup_by_number 257 None)) = Ok (lookup_by_number 257 None).
Proof.
  destruct lookup_round_trip as (H & _ & _). destruct (H 257) as (_ & _ & E).
  - split; by vm_compute.
  - rewrite E. by vm_compute.
Defined.
