(* ===== verification/Decoder.v ===== *)
(** * Printing system calls ([include/client/syscalls/args.hpp], [rets.hpp],
    [decoder.hpp])

    A formatter appends to a buffer of fixed size; a message that does not
    fit stops the process ([static_buffer::grow] of [logging.hpp] calls
    [abort]).  [fmt] is a library: of its replacement fields the formatters
    use [{}] on strings, integers and pointers, and the integer formats
    [{:#x}] and [{:#04o}].  The errno that [decode] saves and restores is not
    read by it. *)

From S2P Require Import Prelude Config SyscallInfo.

(** ** Integers as text *)

Definition digit_lc (d : Z) : ascii :=
  ascii_of_nat (Z.to_nat (if d <? 10 then 48 + d else 87 + d)).

Fixpoint radix (base : Z) (fuel : nat) (n : Z) : str :=
  match fuel with
  | O => []
  | S f => if n <? base then [digit_lc n] else radix base f (n / base) ++ [digit_lc (n mod base)]
  end.
Definition radix_u (base n : Z) : str := radix base (S (Z.to_nat (Z.log2 n))) n.

Definition sign_of (n : Z) : str := if n <? 0 then s_ "-" else [].

(** [{:#x}] *)
Definition hex_text (n : Z) : str := sign_of n ++ s_ "0x" ++ radix_u 16 (Z.abs n).

(** [{:#04o}]: the prefix is a zero, and so is the padding. *)
Definition octal_text (n : Z) : str :=
  let t := s_ "0" ++ radix_u 8 (Z.abs n) in
  sign_of n ++ replicate (4 - (length (sign_of n) + length t)) "0"%char ++ t.

(** [{}] of a pointer. *)
Definition pointer_text (p : Z) : str := s_ "0x" ++ radix_u 16 (u64 p).

(** ** The buffer *)

(** A formatter takes the buffer to the buffer with its text appended. *)
Definition fmtr : Type := str -> res str.
Definition then_ (f g : fmtr) : fmtr := fun b => b' ← f b; g b'.
Infix ">->" := then_ (at level 60, right associativity) : gkfs_scope.
Definition nothing : fmtr := fun b => Ok b.

(** ** Flags *)

Record flag_desc := FLAG { flag_ : Z; name_ : option str }.
Definition FLAG_ENTRY (f : Z) (n : string) : flag_desc := FLAG f (Some (s_ n)).
Arguments FLAG_ENTRY _ _%_string.

Module Flags.
Definition whence : list flag_desc :=
  [FLAG_ENTRY SEEK_SET "SEEK_SET"; FLAG_ENTRY SEEK_CUR "SEEK_CUR"; FLAG_ENTRY SEEK_END "SEEK_END"].

Definition mmap_prot : list flag_desc :=
  [FLAG_ENTRY 0 "PROT_NONE"; FLAG_ENTRY 1 "PROT_READ"; FLAG_ENTRY 2 "PROT_WRITE"; FLAG_ENTRY 4 "PROT_EXEC"].

Definition mmap_flags : list flag_desc :=
  [FLAG_ENTRY 0x1 "MAP_SHARED"; FLAG_ENTRY 0x2 "MAP_PRIVATE"; FLAG_ENTRY 0x3 "MAP_SHARED_VALIDATE";
   FLAG_ENTRY 0x10 "MAP_FIXED"; FLAG_ENTRY 0x20 "MAP_ANONYMOUS"; FLAG_ENTRY 0x100 "MAP_GROWSDOWN";
   FLAG_ENTRY 0x800 "MAP_DENYWRITE"; FLAG_ENTRY 0x1000 "MAP_EXECUTABLE"; FLAG_ENTRY 0x2000 "MAP_LOCKED";
   FLAG_ENTRY 0x4000 "MAP_NORESERVE"; FLAG_ENTRY 0x8000 "MAP_POPULATE"; FLAG_ENTRY 0x10000 "MAP_NONBLOCK";
   FLAG_ENTRY 0x20000 "MAP_STACK"; FLAG_ENTRY 0x40000 "MAP_HUGETLB"; FLAG_ENTRY 0x80000 "MAP_SYNC"].

Definition clone_flags : list flag_desc :=
  [FLAG_ENTRY 0x100 "CLONE_VM"; FLAG_ENTRY 0x200 "CLONE_FS"; FLAG_ENTRY 0x400 "CLONE_FILES";
   FLAG_ENTRY 0x800 "CLONE_SIGHAND"; FLAG_ENTRY 0x2000 "CLONE_PTRACE"; FLAG_ENTRY 0x4000 "CLONE_VFORK";
   FLAG_ENTRY 0x8000 "CLONE_PARENT"; FLAG_ENTRY 0x10000 "CLONE_THREAD"; FLAG_ENTRY 0x20000 "CLONE_NEWNS";
   FLAG_ENTRY 0x40000 "CLONE_SYSVSEM"; FLAG_ENTRY 0x80000 "CLONE_SETTLS";
   FLAG_ENTRY 0x100000 "CLONE_PARENT_SETTID"; FLAG_ENTRY 0x200000 "CLONE_CHILD_CLEARTID";
   FLAG_ENTRY 0x400000 "CLONE_DETACHED"; FLAG_ENTRY 0x800000 "CLONE_UNTRACED";
   FLAG_ENTRY 0x1000000 "CLONE_CHILD_SETTID"; FLAG_ENTRY 0x2000000 "CLONE_NEWCGROUP";
   FLAG_ENTRY 0x4000000 "CLONE_NEWUTS"; FLAG_ENTRY 0x8000000 "CLONE_NEWIPC";
   FLAG_ENTRY 0x10000000 "CLONE_NEWUSER"; FLAG_ENTRY 0x20000000 "CLONE_NEWPID";
   FLAG_ENTRY 0x40000000 "CLONE_NEWNET"; FLAG_ENTRY 0x80000000 "CLONE_IO"].

Definition signum : list flag_desc :=
  [FLAG_ENTRY 1 "SIGHUP"; FLAG_ENTRY 2 "SIGINT"; FLAG_ENTRY 3 "SIGQUIT"; FLAG_ENTRY 4 "SIGILL";
   FLAG_ENTRY 5 "SIGTRAP"; FLAG_ENTRY 6 "SIGABRT"; FLAG_ENTRY 7 "SIGBUS"; FLAG_ENTRY 8 "SIGFPE";
   FLAG_ENTRY 9 "SIGKILL"; FLAG_ENTRY 10 "SIGUSR1"; FLAG_ENTRY 11 "SIGSEGV"; FLAG_ENTRY 12 "SIGUSR2";
   FLAG_ENTRY 13 "SIGPIPE"; FLAG_ENTRY 14 "SIGALRM"; FLAG_ENTRY 15 "SIGTERM"; FLAG_ENTRY 16 "SIGSTKFLT";
   FLAG_ENTRY 17 "SIGCHLD"; FLAG_ENTRY 18 "SIGCONT"; FLAG_ENTRY 19 "SIGSTOP"; FLAG_ENTRY 20 "SIGTSTP";
   FLAG_ENTRY 21 "SIGTTIN"; FLAG_ENTRY 22 "SIGTTOU"; FLAG_ENTRY 23 "SIGURG"; FLAG_ENTRY 24 "SIGXCPU";
   FLAG_ENTRY 25 "SIGXFSZ"; FLAG_ENTRY 26 "SIGVTALRM"; FLAG_ENTRY 27 "SIGPROF"; FLAG_ENTRY 28 "SIGWINCH";
   FLAG_ENTRY 29 "SIGIO"; FLAG_ENTRY 30 "SIGPWR"; FLAG_ENTRY 31 "SIGSYS"].

Definition sigproc_how : list flag_desc :=
  [FLAG_ENTRY 0 "SIG_BLOCK"; FLAG_ENTRY 1 "SIG_UNBLOCK"; FLAG_ENTRY 2 "SIG_SETMASK"].

Definition open_modes : list flag_desc :=
  [FLAG_ENTRY O_RDONLY "O_RDONLY"; FLAG_ENTRY O_WRONLY "O_WRONLY"; FLAG_ENTRY O_RDWR "O_RDWR"].

Definition O_SYNC : Z := 0x101000.

Definition open_extra : list flag_desc :=
  [FLAG_ENTRY O_APPEND "O_APPEND"; FLAG_ENTRY O_CLOEXEC "O_CLOEXEC"; FLAG_ENTRY O_CREAT "O_CREAT";
   FLAG_ENTRY O_DIRECTORY "O_DIRECTORY"; FLAG_ENTRY 0x1000 "O_DSYNC"; FLAG_ENTRY O_EXCL "O_EXCL";
   FLAG_ENTRY 0x100 "O_NOCTTY"; FLAG_ENTRY O_NOFOLLOW "O_NOFOLLOW"; FLAG_ENTRY 0x800 "O_NONBLOCK";
   FLAG_ENTRY O_SYNC "O_RSYNC"; FLAG_ENTRY O_SYNC "O_SYNC"; FLAG_ENTRY O_TRUNC "O_TRUNC"].
End Flags.

Definition O_ACCMODE : Z := 3.

Record printable_arg := MkPrintable { p_name : option str; p_value : Z }.

Section formatters.
(** The size of the buffer, the C strings in memory and [strerror_r]. *)
Context (max_buffer_size : nat) (string_at : Z -> str) (errno_message : Z -> str).

(** [fmt::format_to(buffer, ...)] with the text it produces. *)
Definition put (t : str) : fmtr := fun b =>
  if (length b + length t <=? max_buffer_size)%nat then Ok (b ++ t) else Trap.

(** A null [const char*] makes [fmt] throw [format_error], a
    [std::runtime_error]. *)
Definition put_name (n : option str) : fmtr :=
  match n with Some t => put t | None => fun _ => Throw RuntimeError end.

(** "{}=" *)
Definition put_field (p : printable_arg) (t : str) : fmtr :=
  match p_name p with Some n => put (n ++ s_ "=" ++ t) | None => fun _ => Throw RuntimeError end.

Fixpoint format_flag_loop (flag : Z) (desc : list flag_desc) : fmtr :=
  match desc with
  | [] => put (hex_text flag)
  | d :: desc' =>
      match name_ d with
      | None => format_flag_loop flag desc'
      | Some n => if flag =? flag_ d then put n else format_flag_loop flag desc'
      end
  end.

(** [desc[0]] *)
Definition zero_named (flag : Z) (desc : list flag_desc) : option flag_desc :=
  match desc with
  | d :: _ => if (flag =? 0) && (flag_ d =? 0) then Some d else None
  | [] => None
  end.

Definition format_flag (flag : Z) (desc : list flag_desc) : fmtr :=
  match zero_named flag desc with
  | Some d => put_name (name_ d)
  | None => format_flag_loop flag desc
  end.

(** The loop, with the flags that are left; [start] is [buffer_start]. *)
Fixpoint flag_set_loop (start : nat) (flags : Z) (desc : list flag_desc) (b : str) : res (Z * str) :=
  match desc with
  | [] => Ok (flags, b)
  | d :: desc' =>
      if flags =? 0 then Ok (flags, b) else
      match name_ d with
      | None => flag_set_loop start flags desc' b
      | Some n =>
          if negb (Z.land flags (flag_ d) =? 0) then
            b ← put ((if (length b =? start)%nat then [] else s_ "|") ++ n) b;
            flag_set_loop start (Z.land flags (Z.lnot (flag_ d))) desc' b
          else flag_set_loop start flags desc' b
      end
  end.

Definition format_flag_set (flags : Z) (desc : list flag_desc) : fmtr := fun b =>
  match zero_named flags desc with
  | Some d => put_name (name_ d) b
  | None =>
      let start := length b in
      '(flags, b) ← flag_set_loop start flags desc b;
      if negb (flags =? 0) then
        b ← (if (length b =? start)%nat then nothing b else put (s_ "|") b);
        put (hex_text flags) b
      else if (length b =? start)%nat then put (s_ "0x0") b else Ok b
  end.

Definition format_whence_arg_to (p : printable_arg) : fmtr :=
  put_field p [] >-> format_flag_set (p_value p) Flags.whence.

Definition format_mmap_prot_arg_to (p : printable_arg) : fmtr :=
  put_field p [] >-> format_flag_set (p_value p) Flags.mmap_prot.

Definition format_mmap_flags_arg_to (p : printable_arg) : fmtr :=
  put_field p [] >-> format_flag_set (p_value p) Flags.mmap_flags.

(** An empty name is not printed; [strcmp] of a null name is undefined. *)
Definition format_signum_arg_to (p : printable_arg) : fmtr :=
  match p_name p with
  | None => fun _ => Trap
  | Some [] => format_flag (p_value p) Flags.signum
  | Some _ => put_field p [] >-> format_flag (p_value p) Flags.signum
  end.

Definition format_clone_flags_arg_to (p : printable_arg) : fmtr :=
  put_field p [] >->
  format_flag_set (Z.land (p_value p) (Z.lnot 0x11)) Flags.clone_flags >->
  if negb (Z.land (p_value p) 0x11 =? 0) then
    put (s_ "|") >-> format_signum_arg_to (MkPrintable (Some []) (Z.land (p_value p) 0x11))
  else nothing.

Definition format_sigproc_how_arg_to (p : printable_arg) : fmtr :=
  put_field p [] >-> format_flag (p_value p) Flags.sigproc_how.

Definition format_none_arg_to (p : printable_arg) : fmtr := put (s_ "void").

Definition format_fd_arg_to (p : printable_arg) : fmtr := put_field p (to_string_s (i32 (p_value p))).

Definition format_atfd_arg_to (p : printable_arg) : fmtr :=
  if i32 (p_value p) =? AT_FDCWD then put_field p (s_ "AT_FDCWD")
  else put_field p (to_string_s (i32 (p_value p))).

Definition DQUOTE : ascii := "034"%char.

Definition format_cstr_arg_to (p : printable_arg) : fmtr :=
  if negb (p_value p =? 0) then put_field p (DQUOTE :: string_at (p_value p) ++ [DQUOTE])
  else put_field p (s_ "NULL").

Definition format_open_flags_to (p : printable_arg) : fmtr :=
  let flags := p_value p in
  put_field p [] >->
  format_flag (Z.land flags O_ACCMODE) Flags.open_modes >->
  let flags := Z.land flags (Z.lnot O_ACCMODE) in
  let tmp := Z.land flags O_TMPFILE =? O_TMPFILE in
  (if tmp then format_flag O_TMPFILE Flags.open_modes else nothing) >->
  let flags := if tmp then Z.land flags (Z.lnot O_TMPFILE) else flags in
  if negb (flags =? 0) then put (s_ "|") >-> format_flag_set flags Flags.open_extra else nothing.

Definition format_octal_mode_to (p : printable_arg) : fmtr := put_field p (octal_text (p_value p)).

Definition format_ptr_arg_to (p : printable_arg) : fmtr :=
  if negb (p_value p =? 0) then put_field p (pointer_text (p_value p)) else put_field p (s_ "NULL").

Definition format_dec_arg_to (p : printable_arg) : fmtr := put_field p (to_string_s (p_value p)).

Definition format_dec32_arg_to (p : printable_arg) : fmtr := put_field p (to_string_s (i32 (p_value p))).

Definition format_arg_to (p : printable_arg) : fmtr := put_field p (hex_text (p_value p)).

(** [formatters] and [desc::formatter]. *)
Definition arg_formatter (t : Arg.arg_type_t) : printable_arg -> fmtr :=
  match t with
  | Arg.none => format_none_arg_to
  | Arg.fd => format_fd_arg_to
  | Arg.atfd => format_atfd_arg_to
  | Arg.cstr => format_cstr_arg_to
  | Arg.open_flags => format_open_flags_to
  | Arg.octal_mode => format_octal_mode_to
  | Arg.ptr => format_ptr_arg_to
  | Arg.dec => format_dec_arg_to
  | Arg.dec32 => format_dec32_arg_to
  | Arg.offset => format_dec_arg_to
  | Arg.whence => format_whence_arg_to
  | Arg.mmap_prot => format_mmap_prot_arg_to
  | Arg.mmap_flags => format_mmap_flags_arg_to
  | Arg.clone_flags => format_clone_flags_arg_to
  | Arg.signum => format_signum_arg_to
  | Arg.sigproc_how => format_sigproc_how_arg_to
  | Arg.arg => format_arg_to
  end.

(** ** Results *)

Definition format_none_ret_to (val : Z) : fmtr := put (s_ "void").

Definition format_ptr_ret_to (val : Z) : fmtr :=
  if negb (val =? 0) then put (pointer_text val) else put (s_ "NULL").

Definition format_dec_ret_to (val : Z) : fmtr := put (to_string_s val).

Definition ret_formatter (t : ret_type_t) : Z -> fmtr :=
  match t with rnone => format_none_ret_to | rptr => format_ptr_ret_to | rdec => format_dec_ret_to end.

(** ** Decoding a call *)

(** The loop over the arguments from [i]; [n] are left. *)
Fixpoint decode_args (sc : syscall_info) (argv : list Z) (i n : nat) : fmtr :=
  match n with
  | O => nothing
  | S n' => fun b =>
      match s_args sc !! i with
      | None => Throw OutOfRange
      | Some a =>
          (arg_formatter (a_type a) (MkPrintable (a_name a) (argv_at argv i)) >->
           (if Z.of_nat i <? s_nargs sc - 1 then put (s_ ", ") else nothing) >->
           decode_args sc argv (S i) n') b
      end
  end.

Definition decode_call (syscall_number : Z) (argv : list Z) : fmtr :=
  let sc := lookup_by_number syscall_number (Some argv) in
  put_name ((fun n => n ++ s_ "(") <$> s_name sc) >-> decode_args sc argv 0 (Z.to_nat (s_nargs sc)).

(** [decode] without a result. *)
Definition decode_entry (syscall_number : Z) (argv : list Z) : fmtr :=
  decode_call syscall_number argv >-> put (s_ ") = ?").

(** [decode] with a result. *)
Definition decode_result (syscall_number : Z) (argv : list Z) (result : Z) : fmtr :=
  decode_call syscall_number argv >->
  if never_returns syscall_number then put (s_ ") = ?")
  else if negb (error_code result =? 0) then fun b =>
    n ← errno_name (- result);
    put (s_ ") = " ++ to_string_s (-1) ++ s_ " " ++ n ++ s_ " (" ++ errno_message (- result) ++ s_ ")") b
  else put (s_ ") = ") >-> ret_formatter (s_return_type (lookup_by_number syscall_number (Some argv))) result.
End formatters.

Example decode_openat :
  decode_result 1024 (fun _ => s_ "/tmp/x") (fun _ => s_ "No such file or directory") 257
    [-100; 4096; 0x241; 420; 0; 0] (-2) [] =
  Ok (s_ "openat(dfd=AT_FDCWD, pathname=" ++ [DQUOTE] ++ s_ "/tmp/x" ++ [DQUOTE] ++
      s_ ", flags=O_WRONLY|O_CREAT|O_TRUNC, mode=0644) = -1 ENOENT (No such file or directory)").
Proof. by vm_compute. Qed.

(** ** What formatters append *)

(** Texts separated by [sp]. *)
Fixpoint join (sp : str) (ts : list str) : str :=
  match ts with
  | [] => []
  | [t] => t
  | t :: ts' => t ++ sp ++ join sp ts'
  end.

Lemma join_cons sp t ts : join sp (t :: ts) = t ++ (match ts with [] => [] | _ => sp ++ join sp ts end).
Proof. destruct ts; simpl; by rewrite ?app_nil_r. Qed.

Lemma join_snoc sp ts t : ts <> [] -> join sp (ts ++ [t]) = join sp ts ++ sp ++ t.
Proof.
  induction ts as [|x ts IH]; intros H; [done|]. destruct ts as [|y ts]; [done|].
  change (x ++ sp ++ join sp ((y :: ts) ++ [t]) = (x ++ sp ++ join sp (y :: ts)) ++ sp ++ t).
  rewrite IH by done. by rewrite <- !(assoc_L (++)).
Qed.

Lemma join_prefix sp ts us : prefix (join sp ts) (join sp (ts ++ us)).
Proof.
  induction us as [|u us IH] using rev_ind; [by rewrite app_nil_r|]. etrans; [exact IH|].
  rewrite (assoc_L (++)). destruct (decide (ts ++ us = [])) as [->|Hne]; [apply prefix_nil|].
  rewrite join_snoc by done. by eexists.
Qed.

Section appending.
Context (max_buffer_size : nat).
Local Abbreviation put := (put max_buffer_size).

(** [f] appends [t], or stops the process when [t] does not fit. *)
Definition appends (f : fmtr) (t : str) : Prop :=
  forall b, (length b <= max_buffer_size)%nat -> f b = put t b.

Lemma appends_put t : appends (put t) t.
Proof. by intros b _. Qed.

Lemma appends_nothing : appends nothing [].
Proof.
  intros b Hb. unfold put, nothing. simpl. rewrite app_nil_r.
  by rewrite (proj2 (Nat.leb_le _ _)) by lia.
Qed.

Lemma appends_then f g t u : appends f t -> appends g u -> appends (f >-> g) (t ++ u).
Proof.
  intros Hf Hg b Hb. unfold then_. rewrite Hf by done. unfold put.
  destruct (Nat.leb_spec (length b + length t) max_buffer_size); cbn [mbind res_bind].
  - rewrite Hg by (rewrite length_app; lia). unfold put. rewrite !length_app, Nat.add_assoc, (assoc_L (++)). done.
  - rewrite length_app, (proj2 (Nat.leb_gt _ _)) by lia. done.
Qed.

Lemma appends_eq f t u : appends f t -> t = u -> appends f u.
Proof. by intros H <-. Qed.

Lemma appends_name n : appends (put_name max_buffer_size (Some n)) n.
Proof. apply appends_put. Qed.

Lemma appends_field n v t : appends (put_field max_buffer_size (MkPrintable (Some n) v) t) (n ++ s_ "=" ++ t).
Proof. apply appends_put. Qed.

(** *** Flags *)

Definition flag_text (flag : Z) (desc : list flag_desc) : str :=
  match list_find (fun d => flag = flag_ d /\ is_Some (name_ d)) desc with
  | Some (_, d) => default [] (name_ d)
  | None => hex_text flag
  end.

(** The names the loop prints and the flags it leaves. *)
Fixpoint printed (flags : Z) (desc : list flag_desc) : list flag_desc :=
  match desc with
  | [] => []
  | d :: desc' =>
      if bool_decide (is_Some (name_ d)) && negb (Z.land flags (flag_ d) =? 0)
      then d :: printed (Z.land flags (Z.lnot (flag_ d))) desc' else printed flags desc'
  end.

Fixpoint left_over (flags : Z) (desc : list flag_desc) : Z :=
  match desc with
  | [] => flags
  | d :: desc' =>
      if bool_decide (is_Some (name_ d)) && negb (Z.land flags (flag_ d) =? 0)
      then left_over (Z.land flags (Z.lnot (flag_ d))) desc' else left_over flags desc'
  end.

Definition desc_name (d : flag_desc) : str := default [] (name_ d).

Definition flag_tokens (flags : Z) (desc : list flag_desc) : list str :=
  (desc_name <$> printed flags desc) ++
  (if left_over flags desc =? 0 then [] else [hex_text (left_over flags desc)]).

Definition BAR : str := s_ "|".

Definition flag_set_text (flags : Z) (desc : list flag_desc) : str :=
  match zero_named flags desc with
  | Some d => desc_name d
  | None => match flag_tokens flags desc with [] => s_ "0x0" | ts => join BAR ts end
  end.

(** The arrays have a name for every flag, and no name is empty. *)
Definition named_desc (desc : list flag_desc) : Prop := Forall (fun d => exists c n, name_ d = Some (c :: n)) desc.

Lemma format_flag_appends flag desc : named_desc desc -> appends (format_flag max_buffer_size flag desc) (flag_text flag desc).
Proof.
  intros Hd. unfold format_flag, flag_text, zero_named.
  assert (appends (format_flag_loop max_buffer_size flag desc) (flag_text flag desc)) as HL.
  { unfold flag_text. induction Hd as [|d desc (c & n & Hn) Hd IH]; simpl; [apply appends_put|]. rewrite Hn.
    destruct (Z.eqb_spec flag (flag_ d)) as [E|E].
    - rewrite decide_True by (split; [done|by eexists]). rewrite Hn. apply appends_put.
    - rewrite decide_False by tauto. eapply appends_eq; [exact IH|].
      by destruct (list_find _ desc) as [[? ?]|]. }
  destruct desc as [|d desc]; [exact HL|].
  destruct (Z.eqb_spec flag 0) as [->|]; [|exact HL]. destruct (Z.eqb_spec (flag_ d) 0) as [E|]; [|exact HL].
  simpl. apply Forall_cons in Hd as [(c & n & Hn) _]. rewrite decide_True by (split; [done|by rewrite Hn; eexists]).
  rewrite Hn. apply appends_put.
Qed.

Lemma printed_zero desc : printed 0 desc = [] /\ left_over 0 desc = 0.
Proof. induction desc as [|d desc IH]; simpl; [done|]. rewrite Z.land_0_l, andb_false_r. done. Qed.

Lemma join_nonempty (ts : list str) : Forall (fun t => t <> []) ts -> ts <> [] -> join BAR ts <> [].
Proof.
  intros H Hne. destruct H as [|t ts Ht _]; [done|]. rewrite join_cons. by destruct t.
Qed.

(** The loop continues a list of names. *)
Lemma flag_set_loop_run b0 desc : named_desc desc -> forall flags ts,
  Forall (fun t => t <> []) ts -> (length (b0 ++ join BAR ts) <= max_buffer_size)%nat ->
  let out := b0 ++ join BAR (ts ++ (desc_name <$> printed flags desc)) in
  flag_set_loop max_buffer_size (length b0) flags desc (b0 ++ join BAR ts) =
  if (length out <=? max_buffer_size)%nat then Ok (left_over flags desc, out) else Trap.
Proof.
  induction 1 as [|d desc (c & n & Hn) Hd IH]; intros flags ts Hts Hfit; cbv zeta; cbn [flag_set_loop printed left_over].
  { rewrite app_nil_r. by rewrite (proj2 (Nat.leb_le _ _)). }
  destruct (Z.eqb_spec flags 0) as [->|Hf].
  { rewrite Z.land_0_l, andb_false_r. destruct (printed_zero desc) as [-> ->].
    rewrite app_nil_r. by rewrite (proj2 (Nat.leb_le _ _)). }
  rewrite Hn. rewrite bool_decide_true by by eexists. cbn [andb].
  destruct (negb (Z.land flags (flag_ d) =? 0)) eqn:El; [|by apply IH].
  assert (b0 ++ join BAR (ts ++ [c :: n]) =
    (b0 ++ join BAR ts) ++ (if (length (b0 ++ join BAR ts) =? length b0)%nat then [] else s_ "|") ++ c :: n) as E.
  { destruct (decide (ts = [])) as [->|Hne].
    - simpl. rewrite app_nil_r, Nat.eqb_refl. done.
    - rewrite join_snoc by done. rewrite length_app, (proj2 (Nat.eqb_neq _ _)); [by rewrite <- (assoc_L (++))|].
      pose proof (join_nonempty ts Hts Hne). destruct (join BAR ts); simpl in *; [done|lia]. }
  unfold put at 1. rewrite <- length_app, <- E, fmap_cons.
  set (X := desc_name <$> printed _ desc).
  replace (ts ++ desc_name d :: X) with ((ts ++ [c :: n]) ++ X)
    by (unfold desc_name; rewrite Hn; by rewrite <- (assoc_L (++))).
  destruct (Nat.leb_spec (length (b0 ++ join BAR (ts ++ [c :: n]))) max_buffer_size) as [Hl|Hl]; cbn [mbind res_bind].
  - apply IH; [|done]. apply Forall_app. split; [done|]. by repeat constructor.
  - assert (prefix (join BAR (ts ++ [c :: n])) (join BAR ((ts ++ [c :: n]) ++ (desc_name <$> printed (Z.land flags (Z.lnot (flag_ d))) desc)))) as Hp
      by apply join_prefix.
    fold X in Hp. apply prefix_length in Hp. rewrite (proj2 (Nat.leb_gt _ _)); [done|]. rewrite !length_app in *. lia.
Qed.

Lemma format_flag_set_appends flags desc :
  named_desc desc -> appends (format_flag_set max_buffer_size flags desc) (flag_set_text flags desc).
Proof.
  intros Hd b Hb. unfold format_flag_set, flag_set_text.
  destruct (zero_named flags desc) as [d|] eqn:Ez.
  { destruct desc as [|d' desc]; [done|]. unfold zero_named in Ez. destruct (_ && _); simplify_eq.
    apply Forall_cons in Hd as [(c & n & Hn) _]. unfold desc_name. by rewrite Hn. }
  pose proof (flag_set_loop_run b desc Hd flags [] (List.Forall_nil _)) as R. cbn [join app] in R.
  rewrite app_nil_r in R. rewrite (R Hb). clear R. unfold flag_tokens.
  assert (Forall (fun t => t <> []) (desc_name <$> printed flags desc)) as Hne.
  { apply Forall_fmap, Forall_forall. intros d Hin. clear -Hd Hin. revert flags Hin.
    induction Hd as [|x desc (c & n & Hn) _ IH]; intros flags Hin; cbn in Hin; [by apply not_elem_of_nil in Hin|].
    destruct (_ && _); [|by eapply IH]. apply elem_of_cons in Hin as [->|Hin]; [|by eapply IH].
    unfold desc_name. simpl. by rewrite Hn. }
  set (ts := desc_name <$> printed flags desc) in *. set (r := left_over flags desc). clearbody ts r.
  unfold put. destruct (Nat.leb_spec (length (b ++ join BAR ts)) max_buffer_size) as [Hl|Hl]; cbn [mbind res_bind].
  - rewrite length_app in Hl. destruct (decide (ts = [])) as [->|Hts].
    + cbn [join app]. rewrite app_nil_r, Nat.eqb_refl. by destruct (r =? 0).
    + pose proof (join_nonempty ts Hne Hts) as Hj.
      assert ((length (b ++ join BAR ts) =? length b)%nat = false) as ->.
      { apply Nat.eqb_neq. rewrite length_app. destruct (join BAR ts); simpl in *; [done|lia]. }
      destruct (r =? 0); cbn [negb].
      * rewrite app_nil_r. destruct ts as [|t ts]; [done|]. rewrite (proj2 (Nat.leb_le _ _)); [done|exact Hl].
      * destruct (ts ++ [hex_text r]) as [|t ts'] eqn:Et; [by destruct ts|]. rewrite <- Et. clear t ts' Et.
        rewrite join_snoc by done.
        assert (length (b ++ join BAR ts) <= max_buffer_size)%nat as Hl' by (rewrite length_app; lia).
        pose proof (appends_then _ _ _ _ (appends_put BAR) (appends_put (hex_text r)) _ Hl') as E.
        unfold then_, put in E. change (s_ "|") with BAR. rewrite E, length_app, (length_app (join BAR ts)), Nat.add_assoc.
        by rewrite (assoc_L (++) b).
  - symmetry. rewrite (proj2 (Nat.leb_gt _ _)); [done|]. rewrite length_app in Hl.
    destruct (decide (ts = [])) as [E|Hts]; [rewrite E in Hl; cbn [join length] in Hl; lia|].
    destruct (ts ++ _) as [|t ts'] eqn:Et; [by destruct ts|]. rewrite <- Et.
    eapply Nat.lt_le_trans; [exact Hl|]. apply Nat.add_le_mono_l, prefix_length, join_prefix.
Qed.
End appending.

(** ** Calls as text *)

Lemma error_code_range result : - 4096 <= result < 0 -> negb (error_code result =? 0) = true.
Proof.
  intros H. unfold error_code.
  rewrite (proj2 (Z.ltb_lt _ _)), (proj2 (Z.leb_le _ _)) by lia. cbn [andb].
  rewrite wraps_small by (unfold in_s; lia). rewrite (proj2 (Z.eqb_neq _ _)); [done|lia].
Qed.

Lemma errno_named result : - 531 < result < 0 ->
  negb (error_code result =? 0) = true /\ exists e, errno_name (- result) = Ok e.
Proof.
  intros H. split; [apply error_code_range; lia|]. unfold errno_name. rewrite wraps_small by (unfold in_s; lia).
  rewrite (proj2 (Z.ltb_ge _ _)) by lia.
  destruct (lookup_lt_is_Some_2 errno_names (Z.to_nat (- result))) as [e ->].
  - change (length errno_names) with 531%nat. lia.
  - destruct e; by eexists.
Qed.

Lemma errno_unnamed result : - 4096 <= result <= - 531 ->
  negb (error_code result =? 0) = true /\ errno_name (- result) = Throw OutOfRange.
Proof.
  intros H. split; [apply error_code_range; lia|]. unfold errno_name. rewrite wraps_small by (unfold in_s; lia).
  rewrite (proj2 (Z.ltb_ge _ _)) by lia. rewrite lookup_ge_None_2; [done|].
  change (length errno_names) with 531%nat. lia.
Qed.

Section calls.
Context (max_buffer_size : nat) (string_at : Z -> str).

(** The value of an argument as text. *)
Definition value_text (t : Arg.arg_type_t) (v : Z) : str :=
  match t with
  | Arg.none => s_ "void"
  | Arg.fd | Arg.dec32 => to_string_s (i32 v)
  | Arg.atfd => if i32 v =? AT_FDCWD then s_ "AT_FDCWD" else to_string_s (i32 v)
  | Arg.cstr => if v =? 0 then s_ "NULL" else DQUOTE :: string_at v ++ [DQUOTE]
  | Arg.open_flags =>
      let flags := Z.land v (Z.lnot O_ACCMODE) in
      let tmp := Z.land flags O_TMPFILE =? O_TMPFILE in
      let flags := if tmp then Z.land flags (Z.lnot O_TMPFILE) else flags in
      flag_text (Z.land v O_ACCMODE) Flags.open_modes ++ (if tmp then hex_text O_TMPFILE else []) ++
      (if flags =? 0 then [] else BAR ++ flag_set_text flags Flags.open_extra)
  | Arg.octal_mode => octal_text v
  | Arg.ptr => if v =? 0 then s_ "NULL" else pointer_text v
  | Arg.dec | Arg.offset => to_string_s v
  | Arg.whence => flag_set_text v Flags.whence
  | Arg.mmap_prot => flag_set_text v Flags.mmap_prot
  | Arg.mmap_flags => flag_set_text v Flags.mmap_flags
  | Arg.clone_flags =>
      flag_set_text (Z.land v (Z.lnot 0x11)) Flags.clone_flags ++
      (if Z.land v 0x11 =? 0 then [] else BAR ++ flag_text (Z.land v 0x11) Flags.signum)
  | Arg.signum => flag_text v Flags.signum
  | Arg.sigproc_how => flag_text v Flags.sigproc_how
  | Arg.arg => hex_text v
  end.

(** "name=value", or only the value where nothing has a name. *)
Definition arg_text (a : syscall_arg_t) (v : Z) : str :=
  match a_type a with
  | Arg.none => s_ "void"
  | t => default [] (a_name a) ++ s_ "=" ++ value_text t v
  end.

Definition call_text (sc : syscall_info) (argv : list Z) : str :=
  name_of sc ++ s_ "(" ++
  join (s_ ", ") ((fun i => arg_text (default zero_arg (s_args sc !! i)) (argv_at argv i)) <$> seq 0 (Z.to_nat (s_nargs sc))).

Lemma named_flags desc :
  desc ∈ [Flags.whence; Flags.mmap_prot; Flags.mmap_flags; Flags.clone_flags; Flags.signum;
          Flags.sigproc_how; Flags.open_modes; Flags.open_extra] -> named_desc desc.
Proof. revert desc. apply Forall_forall. repeat constructor; by repeat eexists. Qed.

(** An argument of the tables has a name unless it is no argument. *)
Definition arg_ok (a : syscall_arg_t) : Prop :=
  a_type a = Arg.none \/ exists c n, a_name a = Some (c :: n).

Ltac appends_solve :=
  lazymatch goal with
  | |- appends _ (_ >-> _) _ => apply appends_then; appends_solve
  | |- appends _ (put_field _ _ _) _ => apply appends_field
  | |- appends _ (put _ _) _ => apply appends_put
  | |- appends _ nothing _ => apply appends_nothing
  | |- appends _ (format_flag _ _ _) _ => apply format_flag_appends, named_flags; rewrite !elem_of_cons; tauto
  | |- appends _ (format_flag_set _ _ _) _ =>
      apply format_flag_set_appends, named_flags; rewrite !elem_of_cons; tauto
  end.

Lemma arg_appends a v : arg_ok a ->
  appends max_buffer_size (arg_formatter max_buffer_size string_at (a_type a) (MkPrintable (a_name a) v)) (arg_text a v).
Proof.
  intros [Hn|(c & n & Hn)]; unfold arg_text; [rewrite Hn; apply appends_put|].
  rewrite Hn. destruct (a_type a); cbn [arg_formatter value_text];
    unfold format_none_arg_to, format_fd_arg_to, format_atfd_arg_to, format_cstr_arg_to, format_octal_mode_to, format_ptr_arg_to,
      format_dec_arg_to, format_dec32_arg_to, format_arg_to, format_whence_arg_to, format_mmap_prot_arg_to,
      format_mmap_flags_arg_to, format_sigproc_how_arg_to, format_open_flags_to, format_clone_flags_arg_to,
      format_signum_arg_to; cbn [p_value p_name default from_option id]; cbv zeta;
    repeat match goal with
           | |- context [if negb ?b then _ else _] => destruct b; cbn [negb]
           | |- context [if ?b then _ else _] => destruct b
           end; (eapply appends_eq; [appends_solve|]);
    cbn [app]; rewrite ?app_nil_r, <- ?(assoc_L (++)); done.
Qed.

(** What decoding relies on: at most six arguments, each with a name. *)
Definition info_ok (e : syscall_info) : Prop :=
  is_Some (s_name e) /\ 0 <= s_nargs e <= 6 /\ length (s_args e) = 6%nat /\ Forall arg_ok (s_args e).

#[local] Instance arg_ok_dec a : Decision (arg_ok a).
Proof.
  unfold arg_ok. destruct (decide (a_type a = Arg.none)); [left; by left|].
  destruct (a_name a) as [[|c nm]|]; [right; naive_solver|left; right; by exists c, nm|right; naive_solver].
Defined.
#[local] Instance info_ok_dec e : Decision (info_ok e).
Proof. unfold info_ok. apply _. Defined.

Lemma lookup_ok n argv : info_ok (lookup_by_number n argv).
Proof.
  assert (info_ok unknown_syscall) as Hu by by apply (bool_decide_unpack _); vm_compute.
  unfold lookup_by_number, get_syscall_info.
  destruct (_ || _) eqn:Eb; [done|]. apply orb_false_iff in Eb as [E1 E2].
  apply Z.ltb_ge in E1. apply Z.leb_gt in E2.
  assert (forall n, 0 <= n < table_size -> info_ok (default zero_info (syscall_table !! Z.to_nat n))) as HT.
  { apply (table_forall _). by vm_compute. }
  specialize (HT n). destruct (s_name _); [|done].
  assert (info_ok (default zero_info (syscall_table !! Z.to_nat n))) as He by (apply HT; split; [lia|exact E2]).
  destruct argv as [argv|]; [|done].
  destruct (_ && _); [by apply (bool_decide_unpack _); vm_compute|].
  destruct (_ && _); [by apply (bool_decide_unpack _); vm_compute|done].
Qed.

Lemma decode_args_appends sc argv n : info_ok sc -> forall i, (i + n)%nat = Z.to_nat (s_nargs sc) ->
  appends max_buffer_size (decode_args max_buffer_size string_at sc argv i n)
    (join (s_ ", ") ((fun i => arg_text (default zero_arg (s_args sc !! i)) (argv_at argv i)) <$> seq i n)).
Proof.
  intros (Hnm & Hn & Hl & Ha). induction n as [|n IH]; intros i Hi; [apply appends_nothing|].
  cbn [decode_args seq]. rewrite fmap_cons, join_cons.
  destruct (lookup_lt_is_Some_2 (s_args sc) i) as [a Ea]; [lia|].
  assert (arg_ok a) as Hok by (by eapply Forall_lookup_1).
  intros b Hb. rewrite Ea. cbn [default from_option id]. revert b Hb.
  apply appends_then; [by apply arg_appends|]. specialize (IH (S i)).
  destruct (Z.ltb_spec (Z.of_nat i) (s_nargs sc - 1)).
  - destruct n as [|n]; [lia|]. cbn [seq]. rewrite fmap_cons.
    apply appends_then; [apply appends_put|]. apply IH; lia.
  - destruct n as [|n]; [|lia]. eapply appends_eq; [by apply appends_then; [apply appends_nothing|apply IH; lia]|done].
Qed.

Lemma decode_call_appends n argv :
  appends max_buffer_size (decode_call max_buffer_size string_at n argv) (call_text (lookup_by_number n (Some argv)) argv).
Proof.
  pose proof (lookup_ok n (Some argv)) as Hok. unfold decode_call, call_text, name_of.
  destruct (s_name _) as [nm|] eqn:Enm; [|by destruct Hok as ([? ?] & _); congruence].
  cbn [default from_option id fmap option_fmap option_map]. rewrite (assoc_L (++)).
  apply appends_then; [apply appends_put|]. by apply decode_args_appends.
Qed.

Definition outcome_text (t : ret_type_t) (result : Z) : str :=
  match t with
  | rnone => s_ "void"
  | rptr => if result =? 0 then s_ "NULL" else pointer_text result
  | rdec => to_string_s result
  end.

(** The two cases the log of a call that returns without an error needs. *)
Lemma decode_entry_appends n argv :
  appends max_buffer_size (decode_entry max_buffer_size string_at n argv)
    (call_text (lookup_by_number n (Some argv)) argv ++ s_ ") = ?").
Proof. apply appends_then; [apply decode_call_appends|apply appends_put]. Qed.

Context (errno_message : Z -> str).

Lemma decode_success_appends n argv result : never_returns n = false -> ~ - 4096 <= result < 0 ->
  let sc := lookup_by_number n (Some argv) in
  appends max_buffer_size (decode_result max_buffer_size string_at errno_message n argv result)
    (call_text sc argv ++ s_ ") = " ++ outcome_text (s_return_type sc) result).
Proof.
  intros Hn Hr sc. unfold decode_result. rewrite Hn. assert (error_code result = 0) as ->.
  { unfold error_code. destruct (Z.ltb_spec result 0), (Z.leb_spec (- 0x1000) result); try done. lia. }
  apply appends_then; [apply decode_call_appends|]. apply appends_then; [apply appends_put|].
  unfold outcome_text. fold sc. destruct (s_return_type sc); cbn [ret_formatter]; unfold format_ptr_ret_to;
    try destruct (result =? 0); apply appends_put.
Qed.

(** C39. A traced call is printed as its name, its arguments in order between
    parentheses, separated by commas, each with its name and its value in
    the format of its type, and then its outcome: a question mark for a call
    that has not returned or never does, the name and the message of an
    error, or the result.  Whatever the number and the arguments, the text is
    appended to the buffer, unless it does not fit (then the process stops)
    or the error number has no entry (then [errno_names.at] throws). *)
Theorem decode_prints_call n argv :
  let sc := lookup_by_number n (Some argv) in
  appends max_buffer_size (decode_entry max_buffer_size string_at n argv) (call_text sc argv ++ s_ ") = ?") /\
  forall result,
    (never_returns n = true ->
       appends max_buffer_size (decode_result max_buffer_size string_at errno_message n argv result) (call_text sc argv ++ s_ ") = ?")) /\
    (never_returns n = false -> ~ - 4096 <= result < 0 ->
       appends max_buffer_size (decode_result max_buffer_size string_at errno_message n argv result)
         (call_text sc argv ++ s_ ") = " ++ outcome_text (s_return_type sc) result)) /\
    (never_returns n = false -> - 531 < result < 0 ->
       exists e, errno_name (- result) = Ok e /\
         appends max_buffer_size (decode_result max_buffer_size string_at errno_message n argv result)
           (call_text sc argv ++ s_ ") = -1 " ++ e ++ s_ " (" ++ errno_message (- result) ++ s_ ")")) /\
    (never_returns n = false -> - 4096 <= result <= - 531 -> forall b,
       (length (b ++ call_text sc argv) <= max_buffer_size)%nat ->
       decode_result max_buffer_size string_at errno_message n argv result b = Throw OutOfRange).
Proof.
  intros sc. split; [apply decode_entry_appends|]. intros result.
  split; [|split; [by apply decode_success_appends|split]]; unfold decode_result.
  - intros ->. apply appends_then; [apply decode_call_appends|apply appends_put].
  - intros -> Hr. destruct (errno_named result Hr) as [E1 [e E2]]. exists e. split; [done|].
    rewrite E1. apply appends_then; [apply decode_call_appends|]. intros b Hb. rewrite E2. done.
  - intros -> Hr b Hb. rewrite length_app in Hb. unfold then_. rewrite (decode_call_appends n argv) by lia.
    fold sc. unfold put. rewrite (proj2 (Nat.leb_le _ _)) by lia. cbn [mbind res_bind].
    destruct (errno_unnamed result Hr) as [-> ->]. done.
Qed.
End calls.

(** ** Reading flags back *)

Lemma digit_lc_inj d : 0 <= d < 16 ->
  exists c, digit_lc d = c /\ c <> "|"%char /\
    (if is_digit c then digit_val c else Z.of_nat (nat_of_ascii c) - 87) = d.
Proof.
  intros H. assert (d ∈ [0;1;2;3;4;5;6;7;8;9;10;11;12;13;14;15]) as E by (rewrite !elem_of_cons; lia).
  eexists. split; [done|].
  repeat (apply elem_of_cons in E as [->|E]; [by vm_compute|]). by apply not_elem_of_nil in E.
Qed.

(** The value of a text of hexadecimal digits. *)
Definition hex_digit_val (c : ascii) : Z :=
  if is_digit c then digit_val c else Z.of_nat (nat_of_ascii c) - 87.
Definition hex_val (s : str) : Z := foldl (fun v c => 16 * v + hex_digit_val c) 0 s.

Lemma radix_hex fuel n : 0 <= n < 2 ^ Z.of_nat fuel ->
  hex_val (radix 16 fuel n) = n /\ Forall (fun c => c <> "|"%char) (radix 16 fuel n).
Proof.
  revert n. induction fuel as [|fuel IH]; intros n Hn; [change (2 ^ Z.of_nat 0) with 1 in Hn; split; [change (0 = n); lia|done]|].
  cbn [radix]. destruct (Z.ltb_spec n 16).
  - destruct (digit_lc_inj n) as (c & -> & Hc & Hv); [lia|]. split; [|by repeat constructor].
    unfold hex_val, hex_digit_val. simpl. lia.
  - destruct (digit_lc_inj (n mod 16)) as (c & -> & Hc & Hv); [apply Z.mod_pos_bound; lia|].
    destruct (IH (n / 16)) as [I1 I2].
    { rewrite Nat2Z.inj_succ, Z.pow_succ_r in Hn by lia. split; [apply Z.div_pos; lia|].
      apply Z.div_lt_upper_bound; lia. }
    split; [|apply Forall_app; split; [done|by repeat constructor]].
    unfold hex_val in *. rewrite foldl_snoc, I1. unfold hex_digit_val. rewrite Hv. pose proof (Z.div_mod n 16). lia.
Qed.

(** A token is a name of the array, or a number. *)
Definition read_token (desc : list flag_desc) (t : str) : Z :=
  match list_find (fun d => name_ d = Some t) desc with
  | Some (_, d) => flag_ d
  | None => match t with
            | "-"%char :: t' => - hex_val (drop 2 t')
            | _ => hex_val (drop 2 t)
            end
  end.

Fixpoint split_bar (acc : str) (s : str) : list str :=
  match s with
  | [] => [acc]
  | c :: s' => if decide (c = "|"%char) then acc :: split_bar [] s' else split_bar (acc ++ [c]) s'
  end.

Definition read_flags (desc : list flag_desc) (s : str) : Z :=
  foldr (fun t v => Z.lor (read_token desc t) v) 0 (split_bar [] s).

Definition bar_free (t : str) : Prop := Forall (fun c => c <> "|"%char) t.

Lemma split_bar_app acc t s : bar_free t -> split_bar acc (t ++ s) = split_bar (acc ++ t) s.
Proof.
  intros Ht. revert acc. induction Ht as [|c t Hc _ IH]; intros acc; [by rewrite app_nil_r|].
  cbn [app split_bar]. rewrite decide_False by done. rewrite IH. by rewrite <- (assoc_L (++)).
Qed.

Lemma split_join t ts : bar_free t -> Forall bar_free ts -> split_bar [] (join BAR (t :: ts)) = t :: ts.
Proof.
  intros Ht Hts. revert t Ht. induction Hts as [|u ts Hu Hts IH]; intros t Ht.
  - simpl. rewrite <- (app_nil_r t) at 1. by rewrite split_bar_app.
  - rewrite join_cons, split_bar_app by done. change (BAR ++ join BAR (u :: ts)) with ("|"%char :: join BAR (u :: ts)).
    cbn [app split_bar]. rewrite decide_True by done. by rewrite IH.
Qed.

Lemma split_single t : bar_free t -> split_bar [] t = [t].
Proof. intros Ht. apply (split_join t []); [done|constructor]. Qed.

(** Flags that print exactly: a flag is one bit, or all its bits have names
    before it (such a flag is never printed). *)
Fixpoint exact_flags (seen : Z) (desc : list flag_desc) : bool :=
  match desc with
  | [] => true
  | d :: desc' =>
      ((0 <=? flag_ d) && ((Z.ldiff (flag_ d) seen =? 0) || (flag_ d =? 2 ^ Z.log2 (flag_ d)))) &&
      exact_flags (Z.lor seen (flag_ d)) desc'
  end.

Lemma land_pow2 flags k : 0 <= k -> Z.land flags (2 ^ k) <> 0 -> Z.lor (2 ^ k) (Z.land flags (Z.lnot (2 ^ k))) = flags.
Proof.
  intros Hk H. assert (Z.testbit flags k = true) as Hb.
  { destruct (Z.testbit flags k) eqn:E; [done|]. exfalso. apply H. apply Z.bits_inj'. intros i Hi.
    rewrite Z.land_spec, Z.pow2_bits_eqb, Z.bits_0 by lia. destruct (Z.eqb_spec k i) as [->|]; [by rewrite E|apply andb_false_r]. }
  apply Z.bits_inj'. intros i Hi. rewrite Z.lor_spec, Z.land_spec, Z.lnot_spec, Z.pow2_bits_eqb by lia.
  destruct (Z.eqb_spec k i) as [->|]; [by rewrite Hb|]. by rewrite andb_true_r.
Qed.

Lemma printed_exact desc : forall seen flags,
  named_desc desc -> exact_flags seen desc = true -> Z.land flags seen = 0 ->
  foldr (fun d v => Z.lor (flag_ d) v) (left_over flags desc) (printed flags desc) = flags.
Proof.
  induction desc as [|d desc IH]; intros seen flags Hn He Hs; [done|]. cbn [exact_flags printed left_over] in *.
  apply Forall_cons in Hn as [(c & n & Hn) Hd]. apply andb_true_iff in He as [He1 He2].
  apply andb_true_iff in He1 as [Hp He1]. apply Z.leb_le in Hp.
  rewrite bool_decide_true by (rewrite Hn; by eexists). cbn [andb].
  destruct (Z.eqb_spec (Z.land flags (flag_ d)) 0) as [E|E]; cbn [negb].
  - apply (IH _ _ Hd He2). by rewrite Z.land_lor_distr_r, Hs, E.
  - cbn [foldr]. rewrite (IH _ _ Hd He2).
    + apply orb_true_iff in He1 as [He1|He1]; apply Z.eqb_eq in He1.
      * exfalso. apply E. apply Z.bits_inj'. intros i Hi. rewrite Z.land_spec, Z.bits_0.
        apply (f_equal (fun z => Z.testbit z i)) in He1, Hs. rewrite Z.ldiff_spec, Z.bits_0 in He1.
        rewrite Z.land_spec, Z.bits_0 in Hs. by destruct (Z.testbit flags i), (Z.testbit (flag_ d) i), (Z.testbit seen i).
      * rewrite He1 in *. apply land_pow2; [apply Z.log2_nonneg|done].
    + apply Z.bits_inj'. intros i Hi. apply (f_equal (fun z => Z.testbit z i)) in Hs.
      rewrite !Z.land_spec, Z.lnot_spec, Z.lor_spec, Z.bits_0 by lia. rewrite Z.land_spec, Z.bits_0 in Hs.
      by destruct (Z.testbit flags i), (Z.testbit (flag_ d) i), (Z.testbit seen i).
Qed.

(** Names that can be told apart from each other and from numbers. *)
Definition readable (desc : list flag_desc) : Prop :=
  NoDup (name_ <$> desc) /\
  Forall (fun d => bar_free (desc_name d) /\ front (desc_name d) <> "0"%char /\ front (desc_name d) <> "-"%char) desc.

Lemma printed_elem d flags desc : d ∈ printed flags desc -> d ∈ desc.
Proof.
  revert flags. induction desc as [|x desc IH]; intros flags; cbn [printed]; [done|].
  destruct (_ && _); [|by intros H%IH; apply list_elem_of_further].
  intros [->|H]%elem_of_cons; [apply list_elem_of_here|]. by apply list_elem_of_further, (IH _ H).
Qed.

Lemma read_name d desc : named_desc desc -> readable desc -> d ∈ desc -> read_token desc (desc_name d) = flag_ d.
Proof.
  intros Hn [Hnd _] Hin. unfold read_token.
  assert (name_ d = Some (desc_name d)) as Hd.
  { destruct (proj1 (Forall_forall _ _) Hn d Hin) as (c & n & E). unfold desc_name. by rewrite E. }
  destruct (list_find _ desc) as [[i d']|] eqn:E.
  - apply list_find_Some in E as (Ei & Ed' & _). apply list_elem_of_lookup in Hin as [j Ej].
    assert (i = j) as ->; [|congruence].
    eapply (NoDup_lookup _ _ _ (Some (desc_name d)) Hnd); rewrite list_lookup_fmap; [by rewrite Ei; simpl; f_equal|].
    rewrite Ej. simpl. by f_equal.
  - apply list_find_None in E. rewrite Forall_forall in E. by destruct (E d Hin).
Qed.

Lemma hex_text_read r : exists c t, hex_text r = c :: t /\ (c = "0"%char \/ c = "-"%char) /\ bar_free (c :: t) /\
  (match hex_text r with "-"%char :: t' => - hex_val (drop 2 t') | t => hex_val (drop 2 t) end) = r.
Proof.
  assert (0 <= Z.abs r < 2 ^ Z.of_nat (S (Z.to_nat (Z.log2 (Z.abs r))))) as Hr.
  { split; [lia|]. rewrite Nat2Z.inj_succ, Z2Nat.id by apply Z.log2_nonneg.
    destruct (decide (Z.abs r = 0)) as [E|E]; [by rewrite E|]. apply Z.log2_spec. lia. }
  destruct (radix_hex _ _ Hr) as [Hv Hb]. unfold hex_text, sign_of, radix_u.
  destruct (Z.ltb_spec r 0); cbn [s_ list_ascii_of_string app drop]; (eexists _, _; split; [done|]);
    (split; [tauto|]); (split; [by repeat constructor|]); cbn [drop]; rewrite ?drop_0; lia.
Qed.

Lemma read_hex desc r : readable desc -> bar_free (hex_text r) /\ read_token desc (hex_text r) = r.
Proof.
  intros [_ Hd]. destruct (hex_text_read r) as (c & t & E & Hc & Hb & Hr). rewrite E in *. split; [done|].
  unfold read_token. destruct (list_find _ desc) as [[i d]|] eqn:Ef; [exfalso|done].
  apply list_find_Some in Ef as (Ei & En & _). eapply Forall_lookup_1 in Hd; [|exact Ei].
  unfold desc_name in Hd. rewrite En in Hd. cbn in Hd. naive_solver.
Qed.

Lemma read_flag_set_text flags desc :
  named_desc desc -> readable desc -> exact_flags 0 desc = true -> read_flags desc (flag_set_text flags desc) = flags.
Proof.
  intros Hn Hr He. unfold flag_set_text.
  assert (forall d, d ∈ desc -> bar_free (desc_name d)) as Hfree.
  { intros d Hin. destruct Hr as [_ Hr]. rewrite Forall_forall in Hr. by destruct (Hr d Hin). }
  destruct (zero_named flags desc) as [d|] eqn:Ez.
  { assert (d ∈ desc /\ flag_ d = 0 /\ flags = 0) as (Hin & Hd & ->).
    { destruct desc as [|d' desc]; [done|]. unfold zero_named in Ez. destruct (flags =? 0) eqn:E1, (flag_ d' =? 0) eqn:E2; cbn [andb] in Ez; simplify_eq.
      apply Z.eqb_eq in E1, E2. split; [apply list_elem_of_here|done]. }
    unfold read_flags. rewrite split_single by auto. simpl. by rewrite read_name, Hd by done. }
  pose proof (printed_exact desc 0 flags Hn He (Z.land_0_r _)) as HX.
  assert (foldr (fun t v => Z.lor (read_token desc t) v) 0 (flag_tokens flags desc) = flags) as HT.
  { unfold flag_tokens. rewrite foldr_app, foldr_fmap. etrans; [|exact HX].
    assert (foldr (fun t v => Z.lor (read_token desc t) v) 0
      (if left_over flags desc =? 0 then [] else [hex_text (left_over flags desc)]) = left_over flags desc) as ->.
    { destruct (Z.eqb_spec (left_over flags desc) 0) as [->|]; [done|]. cbn [foldr].
      destruct (read_hex desc (left_over flags desc) Hr) as [_ ->]. apply Z.lor_0_r. }
    assert (forall ds v, (forall d, d ∈ ds -> d ∈ desc) ->
      foldr (fun d v => Z.lor (read_token desc (desc_name d)) v) v ds = foldr (fun d v => Z.lor (flag_ d) v) v ds) as HE.
    { induction ds as [|d ds IH]; intros v Hds; [done|]. cbn [foldr].
      rewrite IH, read_name by (done || (intros; apply Hds; set_solver)). done. }
    apply HE. intros d. apply printed_elem. }
  destruct (flag_tokens flags desc) as [|t ts] eqn:Et.
  { simpl in HT. subst flags. unfold read_flags. change (s_ "0x0") with (hex_text 0).
    destruct (read_hex desc 0 Hr) as [H0 E0]. rewrite split_single by done. simpl. by rewrite E0. }
  unfold read_flags. rewrite split_join; [done|..].
  all: assert (Forall bar_free (t :: ts)) as HF; [|by apply Forall_cons in HF as [? ?]].
  all: rewrite <- Et; unfold flag_tokens; apply Forall_app; split;
    [apply Forall_fmap, Forall_forall; intros d Hin%printed_elem; by apply Hfree|].
  all: case_match; [done|]; repeat constructor; by apply (read_hex desc).
Qed.

#[local] Instance readable_dec desc : Decision (readable desc).
Proof. unfold readable, bar_free. apply _. Defined.

Lemma exact_desc desc :
  desc ∈ [Flags.whence; Flags.mmap_prot; Flags.mmap_flags; Flags.clone_flags] ->
  named_desc desc /\ readable desc /\ exact_flags 0 desc = true.
Proof.
  intros H. split; [apply named_flags; set_solver|]. revert desc H. apply Forall_forall.
  repeat constructor; apply (bool_decide_unpack _); by vm_compute.
Qed.

(** A set of flags can be read back from the log: for [lseek]'s whence,
    the protections and flags of [mmap] and the flags of [clone], whatever
    the value, [format_flag_set] prints names and numbers separated by bars
    whose union is the value. *)
Theorem flag_sets_read_back (max_buffer_size : nat) (flags : Z) (desc : list flag_desc) (b : str) :
  desc ∈ [Flags.whence; Flags.mmap_prot; Flags.mmap_flags; Flags.clone_flags] ->
  (length b + length (flag_set_text flags desc) <= max_buffer_size)%nat ->
  exists t, format_flag_set max_buffer_size flags desc b = Ok (b ++ t) /\ read_flags desc t = flags.
Proof.
  intros H Hfit. destruct (exact_desc desc H) as (Hn & Hr & He). exists (flag_set_text flags desc).
  split; [|by apply read_flag_set_text]. rewrite format_flag_set_appends by (done || lia).
  unfold put. by rewrite (proj2 (Nat.leb_le _ _)).
Qed.

Lemma flag_sets_read_back_witness :
  exists t, format_flag_set 64 0x200022 Flags.mmap_flags [] = Ok t /\ read_flags Flags.mmap_flags t = 0x200022.
Proof.
  apply (flag_sets_read_back 64 0x200022 Flags.mmap_flags []); [set_solver|by vm_compute; lia].
Defined.

(** The flags of [open] do not have this property: [O_SYNC] is printed as two
    other flags, and [O_TMPFILE] as a number without a bar before it. *)
Example open_flags_printed :
  format_open_flags_to 64 (MkPrintable (Some (s_ "flags")) (Z.lor O_WRONLY Flags.O_SYNC)) [] =
    Ok (s_ "flags=O_WRONLY|O_DSYNC|O_RSYNC") /\
  format_open_flags_to 64 (MkPrintable (Some (s_ "flags")) (Z.lor O_RDWR O_TMPFILE)) [] =
    Ok (s_ "flags=O_RDWR0x410000").
Proof. split; by vm_compute. Qed.

(** Only the bits of [SIGCHLD] are taken for the signal of [clone]. *)
Example clone_signal_printed :
  format_clone_flags_arg_to 64 (MkPrintable (Some (s_ "flags")) 0x111) [] = Ok (s_ "flags=CLONE_VM|SIGCHLD") /\
  format_clone_flags_arg_to 64 (MkPrintable (Some (s_ "flags")) 0x10a) [] = Ok (s_ "flags=CLONE_VM|0xa").
Proof. split; by vm_compute. Qed.

Lemma decode_prints_call_witness :
  decode_result 256 (fun _ => []) (fun _ => s_ "?") 3 [7; 0; 0; 0; 0; 0] (-600) [] = Throw OutOfRange /\
  decode_result 256 (fun _ => []) (fun _ => s_ "Bad file descriptor") 3 [7; 0; 0; 0; 0; 0] (-9) [] =
    Ok (s_ "close(fd=7) = -1 EBADF (Bad file descriptor)").
Proof.
  split.
  - destruct (decode_prints_call 256 (fun _ => []) (fun _ => s_ "?") 3 [7; 0; 0; 0; 0; 0]) as [_ H].
    destruct (H (-600)) as (_ & _ & _ & H4). apply H4; [by vm_compute|lia|vm_compute; lia].
  - by vm_compute.
Defined.
