(* ===== verification/PreloadContext.v ===== *)
(** * Client context ([src/client/preload_context.cpp], the working directory
    functions of [path.cpp])

    The singleton that holds the state of the client library: the open
    files, the mount point, the working directory and the descriptors the
    library keeps for itself. *)

From S2P Require Import Prelude Config PathUtil OpenFileMap Path Kernel.

(** ** State *)

Record FsConfig := MkFsConfig {
  atime_state : bool;
  mtime_state : bool;
  ctime_state : bool;
  link_cnt_state : bool;
  blocks_state : bool;
  uid : Z;
  gid : Z;
  rootdir : str
}.

Inductive RelativizeStatus := internal | external | fd_unknown | fd_not_a_dir.

(** The endpoints are represented by their number. *)
Record PreloadContext := MkContext {
  ofm_ : OpenFileMap;
  fs_conf_ : FsConfig;
  cwd_ : str;
  mountdir_components_ : list str;
  mountdir_ : str;
  hosts_size_ : Z;
  local_host_id_ : Z;
  fwd_host_id_ : Z;
  interception_enabled_ : bool;
  internal_fds_ : list bool;            (* true: free *)
  internal_fds_must_relocate_ : bool;
  protected_fds_ : list bool
}.

Definition MAX_INTERNAL_FDS : nat := 256.

Definition set_ofm (m : OpenFileMap) (c : PreloadContext) : PreloadContext :=
  MkContext m (fs_conf_ c) (cwd_ c) (mountdir_components_ c) (mountdir_ c) (hosts_size_ c) (local_host_id_ c)
    (fwd_host_id_ c) (interception_enabled_ c) (internal_fds_ c) (internal_fds_must_relocate_ c) (protected_fds_ c).

Definition set_internal_fds (fds : list bool) (c : PreloadContext) : PreloadContext :=
  MkContext (ofm_ c) (fs_conf_ c) (cwd_ c) (mountdir_components_ c) (mountdir_ c) (hosts_size_ c) (local_host_id_ c)
    (fwd_host_id_ c) (interception_enabled_ c) fds (internal_fds_must_relocate_ c) (protected_fds_ c).

Definition set_protected (fds : list bool) (must_relocate : bool) (c : PreloadContext) : PreloadContext :=
  MkContext (ofm_ c) (fs_conf_ c) (cwd_ c) (mountdir_components_ c) (mountdir_ c) (hosts_size_ c) (local_host_id_ c)
    (fwd_host_id_ c) (interception_enabled_ c) (internal_fds_ c) must_relocate fds.

(** The setters [mountdir], [cwd], [hosts], [local_host_id], [fwd_host_id],
    [enable_interception] and [disable_interception]. *)
Definition set_mountdir (path : str) (c : PreloadContext) : res PreloadContext :=
  assert_ (is_absolute path)
  (assert_ (negb (has_trailing_slash path))
  (Ok (MkContext (ofm_ c) (fs_conf_ c) (cwd_ c) (split_path path) path (hosts_size_ c) (local_host_id_ c)
    (fwd_host_id_ c) (interception_enabled_ c) (internal_fds_ c) (internal_fds_must_relocate_ c) (protected_fds_ c)))).

Definition cwd (path : str) (c : PreloadContext) : PreloadContext :=
  MkContext (ofm_ c) (fs_conf_ c) path (mountdir_components_ c) (mountdir_ c) (hosts_size_ c) (local_host_id_ c)
    (fwd_host_id_ c) (interception_enabled_ c) (internal_fds_ c) (internal_fds_must_relocate_ c) (protected_fds_ c).

Definition hosts (n : Z) (c : PreloadContext) : PreloadContext :=
  MkContext (ofm_ c) (fs_conf_ c) (cwd_ c) (mountdir_components_ c) (mountdir_ c) n (local_host_id_ c)
    (fwd_host_id_ c) (interception_enabled_ c) (internal_fds_ c) (internal_fds_must_relocate_ c) (protected_fds_ c).

Definition local_host_id (id : Z) (c : PreloadContext) : PreloadContext :=
  MkContext (ofm_ c) (fs_conf_ c) (cwd_ c) (mountdir_components_ c) (mountdir_ c) (hosts_size_ c) id
    (fwd_host_id_ c) (interception_enabled_ c) (internal_fds_ c) (internal_fds_must_relocate_ c) (protected_fds_ c).

Definition fwd_host_id (id : Z) (c : PreloadContext) : PreloadContext :=
  MkContext (ofm_ c) (fs_conf_ c) (cwd_ c) (mountdir_components_ c) (mountdir_ c) (hosts_size_ c) (local_host_id_ c)
    id (interception_enabled_ c) (internal_fds_ c) (internal_fds_must_relocate_ c) (protected_fds_ c).

Definition set_interception (b : bool) (c : PreloadContext) : PreloadContext :=
  MkContext (ofm_ c) (fs_conf_ c) (cwd_ c) (mountdir_components_ c) (mountdir_ c) (hosts_size_ c) (local_host_id_ c)
    (fwd_host_id_ c) b (internal_fds_ c) (internal_fds_must_relocate_ c) (protected_fds_ c).

(** The process: the context and the kernel. *)
Record process (K : Type) := MkProcess { ctx : PreloadContext; os : K }.
Arguments MkProcess {K} ctx os.
Arguments ctx {K} p.
Arguments os {K} p.

Section context.
Context {K : Type} {W : Kernel K} (MAX_OPEN_FDS : Z).

Definition with_ctx (f : PreloadContext -> PreloadContext) : M (process K) () :=
  m_modify (fun p => MkProcess (f (ctx p)) (os p)).

Definition sys (c : syscall) : M (process K) Z := fun p =>
  let '(r, k) := k_syscall c (os p) in (Ok r, MkProcess (ctx p) k).

(** ** Relative paths *)

(** [resolve] on the current mount point and file system. *)
Definition resolve_here (p : process K) (path : str) (resolve_last_link : bool) : res (option (str * bool)) :=
  resolve (k_lstat (os p)) (k_realpath (os p)) (mountdir_ (ctx p)) (mountdir_components_ (ctx p)) path resolve_last_link.

(** The status and [relative_path]; [raw_path] is a C string. *)
Definition relativize_fd_path (dirfd : Z) (raw_path : str) (resolve_last_link : bool) (p : process K)
    : res (RelativizeStatus * str) :=
  let c := ctx p in
  let raw_path := cstr raw_path in
  assert_ (interception_enabled_ c)
  (assert_ (bool_decide (mountdir_ c <> []))
  (let finish_path (path : str) :=
     match resolve_here p path resolve_last_link with
     | Ok (Some (r, true)) => Ok (internal, r)
     | Ok (Some (r, false)) => Ok (external, r)
     | Ok None => Trap
     | Throw e => Throw e
     | Trap => Trap
     end in
   if decide (front raw_path <> sep) then
     if dirfd =? AT_FDCWD then prepend_path (cwd_ c) raw_path ≫= finish_path
     else if negb (FileMap.exist (ofm_ c) dirfd) then Ok (fd_unknown, [])
     else
       match FileMap.get_dir (ofm_ c) dirfd ≫= (objects (ofm_ c) !!.) with
       | None => Ok (fd_not_a_dir, [])
       | Some dir => finish_path (mountdir_ c ++ path_ dir ++ [sep] ++ raw_path)
       end
   else finish_path raw_path)).

(** Whether the path is internal, and [relative_path]. *)
Definition relativize_path (raw_path : str) (resolve_last_link : bool) (p : process K) : res (bool * str) :=
  let c := ctx p in
  let raw_path := cstr raw_path in
  assert_ (interception_enabled_ c)
  (assert_ (bool_decide (mountdir_ c <> []))
  (path ← (if decide (front raw_path <> sep) then prepend_path (cwd_ c) raw_path else Ok raw_path);
   match resolve_here p path resolve_last_link with
   | Ok (Some (r, b)) => Ok (b, r)
   | Ok None => Trap
   | Throw e => Throw e
   | Trap => Trap
   end)).

(** ** Internal descriptors *)

Definition MIN_INTERNAL_FD : Z := MAX_OPEN_FDS - Z.of_nat MAX_INTERNAL_FDS.

(** [bitset::_Find_first]. *)
Definition find_first (b : list bool) : option nat := fst <$> list_find (fun x => x = true) b.

(** [bitset::set(pos, v)] throws outside the bitset. *)
Definition bit_set (b : list bool) (pos : Z) (v : bool) : res (list bool) :=
  if (0 <=? pos) && (pos <? Z.of_nat (length b)) then Ok (<[Z.to_nat pos := v]> b) else Throw OutOfRange.

Definition register_internal_fd (fd : Z) : M (process K) Z :=
  m_assert (0 <=? fd) ;;;
  let* c := m_gets ctx in
  if negb (internal_fds_must_relocate_ c) then
    m_assert (MIN_INTERNAL_FD <=? fd) ;;;
    let* fds := m_lift (bit_set (internal_fds_ c) (fd - MIN_INTERNAL_FD) false) in
    with_ctx (set_internal_fds fds) ;;;
    m_ret fd
  else
    match find_first (internal_fds_ c) with
    | None => m_throw RuntimeError
    | Some pos =>
        with_ctx (set_internal_fds (<[pos := false]> (internal_fds_ c))) ;;;
        let* ifd := sys (SYS_dup3 fd (Z.of_nat pos + MIN_INTERNAL_FD) O_CLOEXEC) in
        m_assert (syscall_error_code ifd =? 0) ;;;
        sys (SYS_close fd) ;;;
        m_ret ifd
    end.

Definition unregister_internal_fd (fd : Z) : M (process K) () :=
  m_assert (MIN_INTERNAL_FD <=? fd) ;;;
  let* c := m_gets ctx in
  let* fds := m_lift (bit_set (internal_fds_ c) (fd - MIN_INTERNAL_FD) true) in
  with_ctx (set_internal_fds fds).

(** [bitset::test] throws outside the bitset. *)
Definition is_internal_fd (c : PreloadContext) (fd : Z) : res bool :=
  if fd <? MIN_INTERNAL_FD then Ok false else
  match internal_fds_ c !! Z.to_nat (fd - MIN_INTERNAL_FD) with
  | Some b => Ok (negb b)
  | None => Throw OutOfRange
  end.

(** The [for] loop of [protect_user_fds] over the descriptors [fds]. *)
Fixpoint protect_loop (nullfd : Z) (fds : list Z) : M (process K) () :=
  match fds with
  | [] => m_ret tt
  | fd :: fds' =>
      let* ret := sys (SYS_fcntl fd F_GETFD 0) in
      if (syscall_error_code ret =? 0) || negb (syscall_error_code ret =? EBADF)
      then protect_loop nullfd fds'
      else
        let* ret := sys (SYS_dup3 nullfd fd O_CLOEXEC) in
        m_assert (syscall_error_code ret =? 0) ;;;
        let* c := m_gets ctx in
        let* b := m_lift (bit_set (protected_fds_ c) fd true) in
        with_ctx (set_protected b (internal_fds_must_relocate_ c)) ;;;
        protect_loop nullfd fds'
  end.

Definition protect_user_fds : M (process K) () :=
  let* nullfd := sys SYS_open_null in
  m_assert (syscall_error_code nullfd =? 0) ;;;
  let* c := m_gets ctx in
  let* b := m_lift (bit_set (protected_fds_ c) nullfd true) in
  with_ctx (set_protected b (internal_fds_must_relocate_ c)) ;;;
  protect_loop nullfd (seqZ 0 MIN_INTERNAL_FD) ;;;
  with_ctx (fun c => set_protected (protected_fds_ c) false c).

Fixpoint unprotect_loop (fds : list Z) : M (process K) () :=
  match fds with
  | [] => m_ret tt
  | fd :: fds' =>
      let* c := m_gets ctx in
      (if nth (Z.to_nat fd) (protected_fds_ c) false then sys (SYS_close fd) else m_ret 0) ;;;
      unprotect_loop fds'
  end.

Definition unprotect_user_fds : M (process K) () :=
  let* c := m_gets ctx in
  unprotect_loop (seqZ 0 (Z.of_nat (length (protected_fds_ c)))) ;;;
  with_ctx (fun c => set_protected (protected_fds_ c) true c).

(** ** Working directory *)

(** [ret] is the value of the comparison [... < 0]: the error code thrown is
    that of the result 1. *)
Definition get_sys_cwd : M (process K) str :=
  let* k := m_gets os in
  match k_getcwd k with
  | None => m_throw (SystemError (syscall_error_code 1))
  | Some temp => if decide (front temp <> sep) then m_throw RuntimeError else m_ret temp
  end.

Definition set_sys_cwd (path : str) : M (process K) () :=
  let* ret := sys (SYS_chdir path) in
  if negb (ret =? 0) then m_throw (SystemError (syscall_error_code ret)) else m_ret tt.

Definition set_env_cwd (path : str) : M (process K) () := fun p =>
  let '(err, k) := k_setenv path (os p) in
  (if negb (err =? 0) then Throw (SystemError err) else Ok tt, MkProcess (ctx p) k).

Definition unset_env_cwd : M (process K) () := fun p =>
  let '(err, k) := k_unsetenv (os p) in
  (if negb (err =? 0) then Throw (SystemError err) else Ok tt, MkProcess (ctx p) k).

Definition init_cwd : M (process K) () :=
  let* k := m_gets os in
  match k_getenv k with
  | Some env_cwd => with_ctx (cwd env_cwd)
  | None => let* path := get_sys_cwd in with_ctx (cwd path)
  end.

Definition set_cwd (path : str) (internal : bool) : M (process K) () :=
  let* c := m_gets ctx in
  (if internal then set_sys_cwd (mountdir_ c) ;;; set_env_cwd path
   else set_sys_cwd path ;;; unset_env_cwd) ;;;
  with_ctx (cwd path).
End context.

(** ** Lemmas *)

Lemma find_first_Some b pos : find_first b = Some pos ->
  b !! pos = Some true.
Proof.
  unfold find_first. intros H. apply fmap_Some in H as ([i x] & H & ->).
  apply list_find_Some in H as (Hi & -> & _). done.
Qed.

Lemma find_first_None b : find_first b = None -> Forall (fun x => x = false) b.
Proof.
  unfold find_first. intros H%fmap_None%list_find_None. eapply Forall_impl; [done|].
  by intros [] ?.
Qed.

Section internal_fds.
Context {K : Type} {W : Kernel K} (MAX_OPEN_FDS : Z).
Local Abbreviation MIN := (MIN_INTERNAL_FD MAX_OPEN_FDS).

Lemma is_internal_set c fds x pos v :
  length fds = MAX_INTERNAL_FDS -> (pos < MAX_INTERNAL_FDS)%nat -> MIN <= x < MAX_OPEN_FDS ->
  is_internal_fd MAX_OPEN_FDS (set_internal_fds (<[pos := v]> fds) c) x =
    if decide (x = Z.of_nat pos + MIN) then Ok (negb v)
    else is_internal_fd MAX_OPEN_FDS (set_internal_fds fds c) x.
Proof.
  intros Hl Hpos Hx. unfold is_internal_fd. rewrite (proj2 (Z.ltb_ge x _)) by lia. cbn [internal_fds_ set_internal_fds].
  case_decide as E.
  - subst x. replace (Z.to_nat (Z.of_nat pos + MIN - MIN)) with pos by lia.
    by rewrite list_lookup_insert_eq by lia.
  - by rewrite list_lookup_insert_ne by lia.
Qed.

Lemma set_internal_fds_id c : set_internal_fds (internal_fds_ c) c = c.
Proof. by destruct c. Qed.

Lemma set_internal_fds_twice a b c : set_internal_fds a (set_internal_fds b c) = set_internal_fds a c.
Proof. done. Qed.

(** The way through [register_internal_fd] when it relocates. *)
Lemma register_relocates fd p :
  0 <= fd -> internal_fds_must_relocate_ (ctx p) = true ->
  register_internal_fd MAX_OPEN_FDS fd p =
    match find_first (internal_fds_ (ctx p)) with
    | None => (Throw RuntimeError, p)
    | Some pos =>
        let c := set_internal_fds (<[pos := false]> (internal_fds_ (ctx p))) (ctx p) in
        let '(ifd, k1) := k_syscall (SYS_dup3 fd (Z.of_nat pos + MIN) O_CLOEXEC) (os p) in
        if syscall_error_code ifd =? 0 then (Ok ifd, MkProcess c (k_syscall (SYS_close fd) k1).2)
        else (Trap, MkProcess c k1)
    end.
Proof.
  intros Hfd Hr. unfold register_internal_fd, m_bind, m_assert, m_gets, with_ctx, m_modify, sys, m_ret, m_throw.
  rewrite (proj2 (Z.leb_le 0 fd)), Hr by done. cbn [negb].
  destruct (find_first _) as [pos|]; [|done]. cbn [os ctx].
  destruct (k_syscall (SYS_dup3 _ _ _) _) as [ifd k1]. destruct (syscall_error_code ifd =? 0); [|done].
  cbn [os ctx]. by destruct (k_syscall (SYS_close fd) k1).
Qed.
End internal_fds.

Lemma k_syscall_pair {K} {W : Kernel K} c k : k_syscall c k = ((k_syscall c k).1, (k_syscall c k).2).
Proof. by destruct (k_syscall c k). Qed.

(** ** Properties *)

(** The descriptors the library keeps for itself: registering gives a
    descriptor of the reserved range that was not internal and now is, and
    changes no other one; unregistering it restores the table.  It throws
    only when all of them are in use, and the assertion fails only when the
    kernel refuses [dup3]. *)
Theorem internal_fd_lifecycle {K} {W : Kernel K} (MAX_OPEN_FDS fd : Z) (p : process K) :
  let dup3 target := (k_syscall (SYS_dup3 fd target O_CLOEXEC) (os p)).1 in
  let MIN := MIN_INTERNAL_FD MAX_OPEN_FDS in
  0 <= fd -> 256 <= MAX_OPEN_FDS -> internal_fds_must_relocate_ (ctx p) = true ->
  length (internal_fds_ (ctx p)) = MAX_INTERNAL_FDS ->
  (forall target, syscall_error_code (dup3 target) = 0 -> dup3 target = target) ->
  match register_internal_fd MAX_OPEN_FDS fd p with
  | (Ok ifd, p') =>
      MIN <= ifd < MAX_OPEN_FDS /\ is_internal_fd MAX_OPEN_FDS (ctx p) ifd = Ok false /\
      is_internal_fd MAX_OPEN_FDS (ctx p') ifd = Ok true /\
      (forall x, MIN <= x < MAX_OPEN_FDS -> x <> ifd ->
         is_internal_fd MAX_OPEN_FDS (ctx p') x = is_internal_fd MAX_OPEN_FDS (ctx p) x) /\
      unregister_internal_fd MAX_OPEN_FDS ifd p' = (Ok tt, MkProcess (ctx p) (os p'))
  | (Throw e, _) =>
      e = RuntimeError /\ forall x, MIN <= x < MAX_OPEN_FDS -> is_internal_fd MAX_OPEN_FDS (ctx p) x = Ok true
  | (Trap, _) => exists target, MIN <= target < MAX_OPEN_FDS /\ syscall_error_code (dup3 target) <> 0
  end.
Proof.
  intros dup3 MIN Hfd Hmax Hr Hl Hdup. rewrite register_relocates by done.
  destruct (find_first _) as [pos|] eqn:Ef.
  2:{ split; [done|]. intros x Hx. unfold is_internal_fd. rewrite (proj2 (Z.ltb_ge _ _)) by lia.
      destruct (lookup_lt_is_Some_2 (internal_fds_ (ctx p)) (Z.to_nat (x - MIN_INTERNAL_FD MAX_OPEN_FDS))) as [b Hb].
      { rewrite Hl. unfold MIN, MIN_INTERNAL_FD, MAX_INTERNAL_FDS in *. lia. }
      rewrite Hb. by rewrite (proj1 (Forall_lookup _ _) (find_first_None _ Ef) _ _ Hb). }
  apply find_first_Some in Ef. pose proof (lookup_lt_Some _ _ _ Ef) as Hpos. rewrite Hl in Hpos.
  assert (MIN <= Z.of_nat pos + MIN < MAX_OPEN_FDS) as Hrange.
  { unfold MIN, MIN_INTERNAL_FD, MAX_INTERNAL_FDS in *. lia. }
  fold MIN. rewrite k_syscall_pair. fold (dup3 (Z.of_nat pos + MIN)).
  destruct (Z.eqb_spec (syscall_error_code (dup3 (Z.of_nat pos + MIN))) 0) as [E|E]; [|by eexists].
  rewrite (Hdup _ E). cbn [ctx os].
  assert (forall x, MIN <= x < MAX_OPEN_FDS -> is_internal_fd MAX_OPEN_FDS
    (set_internal_fds (<[pos := false]> (internal_fds_ (ctx p))) (ctx p)) x =
    if decide (x = Z.of_nat pos + MIN) then Ok true else is_internal_fd MAX_OPEN_FDS (ctx p) x) as Hset.
  { intros x Hx. rewrite is_internal_set by done. by rewrite set_internal_fds_id. }
  split; [done|]. split.
  { unfold is_internal_fd. rewrite (proj2 (Z.ltb_ge _ _)) by (fold MIN; lia). fold MIN.
    replace (Z.to_nat (Z.of_nat pos + MIN - MIN)) with pos by lia. by rewrite Ef. }
  split; [by rewrite Hset, decide_True by done|].
  split; [intros x Hx Hne; by rewrite Hset, decide_False by done|].
  unfold unregister_internal_fd, m_bind, m_assert, m_gets, with_ctx, m_modify, m_lift, m_ret. fold MIN.
  rewrite (proj2 (Z.leb_le _ _)) by lia. cbn [ctx internal_fds_ set_internal_fds]. unfold bit_set.
  rewrite length_insert, Hl, (proj2 (Z.leb_le _ _)), (proj2 (Z.ltb_lt _ _)) by lia. cbn [andb].
  replace (Z.to_nat (Z.of_nat pos + MIN - MIN)) with pos by lia.
  rewrite set_internal_fds_twice, list_insert_insert_eq, list_insert_id by done.
  by rewrite set_internal_fds_id.
Qed.

(** Changing the working directory survives [exec]: a context that is
    initialised afterwards, on the same kernel state, finds the same working
    directory, inside GekkoFS through the environment and outside through
    the kernel.  A change that fails leaves the context as it was. *)
Theorem cwd_survives_exec {K} {W : Kernel K} {L : KernelLaws W} (path : str) (inside : bool)
    (fresh : PreloadContext) (p : process K) :
  (inside = false -> is_absolute path = true /\ k_getcwd (k_syscall (SYS_chdir path) (os p)).2 = Some path) ->
  match set_cwd path inside p with
  | (Ok _, p') =>
      cwd_ (ctx p') = path /\
      exists p'', init_cwd (MkProcess fresh (os p')) = (Ok tt, p'') /\ cwd_ (ctx p'') = path
  | (_, p') => ctx p' = ctx p
  end.
Proof.
  intros Hout. unfold set_cwd, set_sys_cwd, set_env_cwd, unset_env_cwd, m_bind, m_gets, with_ctx, m_modify, sys, m_ret, m_throw.
  destruct inside; cbn [os ctx].
  - clear Hout. destruct (k_syscall _ _) as [r k1]. destruct (Z.eqb_spec r 0); cbn [negb os ctx]; [|done].
    destruct (k_setenv path k1) as [err k2] eqn:Es. destruct (Z.eqb_spec err 0) as [->|]; cbn [negb os ctx]; [|done].
    split; [done|]. unfold init_cwd, m_bind, m_gets, with_ctx, m_modify. cbn [os ctx].
    rewrite (getenv_setenv path k1 k2 Es). by eexists.
  - destruct (Hout eq_refl) as [Habs Hcwd]. clear Hout.
    destruct (k_syscall _ _) as [r k1]. cbn [snd] in Hcwd.
    destruct (Z.eqb_spec r 0); cbn [negb os ctx]; [|done].
    pose proof (getcwd_unsetenv k1) as Hg.
    destruct (k_unsetenv k1) as [err k2] eqn:Es. destruct (Z.eqb_spec err 0) as [->|]; cbn [negb os ctx]; [|done].
    split; [done|]. unfold init_cwd, get_sys_cwd, m_bind, m_gets, with_ctx, m_modify, m_ret. cbn [os ctx].
    rewrite (getenv_unsetenv k1 k2 Es). cbn [snd os ctx] in *. rewrite Hg, Hcwd.
    unfold is_absolute in Habs. apply andb_true_iff in Habs as [_ Hs%bool_decide_eq_true].
    rewrite decide_False by auto. by eexists.
Qed.

(** ** Names below an open directory *)

Lemma spell_join cs : spell ((fun c => (0%nat, c)) <$> cs) 0 = join_path cs.
Proof. induction cs as [|c cs IH]; [done|]. csimpl. by rewrite spell_cons, IH, join_path_cons. Qed.

Definition plain (c : str) : Prop := component c /\ c <> s_ "." /\ c <> s_ "..".

Lemma norm_step_plain st c : plain c -> norm_step st c = st ++ [c].
Proof. intros (_ & H1 & H2). unfold norm_step. by rewrite !decide_False by done. Qed.

Lemma norm_plain cs : Forall plain cs.*2 -> norm cs = cs.*2.
Proof.
  induction cs as [|[n c] cs IH] using rev_ind; intros H; [done|].
  rewrite fmap_app in *. apply Forall_app in H as [H [Hc _]%Forall_cons].
  by rewrite norm_snoc, norm_step_plain, IH.
Qed.

(** The spelling [relativize_fd_path] builds: a directory other than the
    root is followed by one separator, the root by two. *)
Definition below (mnt dir : list str) (name : str) : list (nat * str) :=
  ((fun c => (0%nat, c)) <$> mnt ++ dir) ++ [(if decide (dir = []) then 1%nat else 0%nat, name)].

Lemma spell_below mnt dir name :
  join_path mnt ++ canonical dir ++ [sep] ++ name = spell (below mnt dir name) 0.
Proof.
  unfold below, canonical. rewrite spell_snoc_0, spell_join, join_path_app, <- app_assoc.
  case_decide; [subst; cbn|]; done.
Qed.

Lemma below_snd mnt dir name : (below mnt dir name).*2 = mnt ++ dir ++ [name].
Proof.
  unfold below. rewrite fmap_app, <- list_fmap_compose. csimpl. rewrite app_assoc. f_equal.
  apply list_fmap_id.
Qed.

(** Naming a file relative to an open directory: for a plain name the
    status is internal and the path is the directory's path followed by the
    name, provided the components of the mount point are directories. *)
Theorem relativize_below_directory {K} {W : Kernel K} (p : process K) (mnt dir : list str) (name : str)
    (dirfd : Z) (o : OpenFile) (resolve_last_link : bool) :
  interception_enabled_ (ctx p) = true -> mountdir_ (ctx p) = join_path mnt -> mountdir_components_ (ctx p) = mnt ->
  mnt <> [] -> Forall plain mnt -> Forall plain dir -> plain name -> NUL ∉ name ->
  dirfd <> AT_FDCWD -> FileMap.get_file (ofm_ (ctx p)) dirfd = Some o ->
  type_ o = directory -> path_ o = canonical dir ->
  excluded (join_path mnt ++ canonical dir ++ [sep] ++ name) = false ->
  (forall pre, pre `prefix_of` mnt -> pre <> [] -> exists mode, k_lstat (os p) (join_path pre) = Some mode /\
     S_ISDIR mode = true) ->
  relativize_fd_path dirfd name resolve_last_link p = Ok (internal, join_path (dir ++ [name])).
Proof.
  intros Hi Hm Hmc Hne Pm Pd Pn Hnul Hfd Ho Ht Hp Hx Hdirs.
  unfold relativize_fd_path. rewrite cstr_id, Hi, Hm by done. cbn [assert_].
  rewrite bool_decide_true by (by rewrite join_path_nil). cbn [assert_].
  destruct Pn as [[Hnne Hns] Hdots] eqn:EPn.
  rewrite decide_True by (destruct name; [done|]; cbn; set_solver).
  rewrite (proj2 (Z.eqb_neq _ _)) by done.
  unfold FileMap.get_file, FileMap.get in Ho. apply bind_Some in Ho as (q & Hq & Ho).
  unfold FileMap.exist, FileMap.get_dir, FileMap.get. rewrite bool_decide_true by (by eexists).
  cbn [negb]. rewrite Hq, Ho, decide_True by done. cbn [mbind option_bind]. rewrite Ho, Hp, spell_below.
  unfold resolve_here. rewrite Hm, Hmc.
  assert (Forall plain (below mnt dir name).*2) as Pall.
  { rewrite below_snd, !Forall_app, Forall_singleton. done. }
  rewrite resolve_canonical; try done.
  - rewrite norm_plain, below_snd by done. rewrite decide_True by apply prefix_app_r, reflexivity.
    rewrite drop_app_length. unfold canonical. by rewrite decide_False by (by destruct dir).
  - rewrite <- spell_below. by destruct mnt.
  - eapply Forall_impl; [done|]. by intros c [].
  - by rewrite <- spell_below.
  - intros pre post E Hpre Hnot.
    assert (Forall plain pre.*2) as Ppre.
    { rewrite E, fmap_app in Pall. by apply Forall_app in Pall as [? _]. }
    rewrite norm_plain in * by done.
    assert (pre.*2 `prefix_of` mnt) as Hpm.
    { apply (f_equal (fmap snd)) in E. rewrite below_snd, fmap_app in E.
      destruct (prefix_weak_total pre.*2 mnt (mnt ++ dir ++ [name])) as [H|H]; [by eexists|by eexists|done|].
      destruct (decide (pre.*2 = mnt)) as [->|Hd]; [done|]. exfalso. by apply Hnot. }
    destruct (Hdirs _ Hpm Hpre) as (mode & Hl & Hd). exists mode. split; [done|].
    split; [|by left]. apply mode_kinds_disjoint in Hd. tauto.
Qed.

(** ** Witnesses *)

(** A client mounted at [/mnt] with the directory [/d] open as 10000 and
    one internal descriptor in use. *)
Definition small_context : PreloadContext :=
  MkContext (MkFileMap [new_OpenDir (s_ "/d")] {[10000 := 0%nat]} 10001 false)
    (MkFsConfig false false false false false 0 0 (s_ "/tmp")) (s_ "/home") [s_ "mnt"] (s_ "/mnt") 2 0 0 true
    (false :: replicate 255 true) true (replicate 768 false).
Definition small_process : process small_kernel :=
  MkProcess small_context (MkSmallKernel (s_ "/home") None {[0; 1; 2; 5]}).

Lemma internal_fd_lifecycle_witness :
  match register_internal_fd 1024 5 small_process with
  | (Ok ifd, p') =>
      768 <= ifd < 1024 /\ is_internal_fd 1024 (ctx small_process) ifd = Ok false /\
      is_internal_fd 1024 (ctx p') ifd = Ok true /\
      (forall x, 768 <= x < 1024 -> x <> ifd ->
         is_internal_fd 1024 (ctx p') x = is_internal_fd 1024 (ctx small_process) x) /\
      unregister_internal_fd 1024 ifd p' = (Ok tt, MkProcess (ctx small_process) (os p'))
  | (Throw e, _) =>
      e = RuntimeError /\ forall x, 768 <= x < 1024 -> is_internal_fd 1024 (ctx small_process) x = Ok true
  | (Trap, _) => exists target, 768 <= target < 1024 /\
      syscall_error_code (k_syscall (SYS_dup3 5 target O_CLOEXEC) (os small_process)).1 <> 0
  end.
Proof.
  apply (internal_fd_lifecycle 1024 5 small_process).
  - lia.
  - lia.
  - done.
  - by vm_compute.
  - intros target _. done.
Defined.

Lemma cwd_survives_exec_witness :
  match set_cwd (s_ "/mnt/d") true small_process with
  | (Ok _, p') =>
      cwd_ (ctx p') = s_ "/mnt/d" /\
      exists p'', init_cwd (MkProcess small_context (os p')) = (Ok tt, p'') /\ cwd_ (ctx p'') = s_ "/mnt/d"
  | (_, p') => ctx p' = ctx small_process
  end.
Proof. apply (cwd_survives_exec (s_ "/mnt/d") true small_context small_process). done. Defined.

Lemma relativize_below_directory_witness :
  relativize_fd_path 10000 (s_ "f") true small_process = Ok (internal, s_ "/d/f").
Proof.
  apply (relativize_below_directory small_process [s_ "mnt"] [s_ "d"] (s_ "f") 10000 (new_OpenDir (s_ "/d")) true).
  - done.
  - done.
  - done.
  - done.
  - apply (bool_decide_unpack _). by vm_compute.
  - apply (bool_decide_unpack _). by vm_compute.
  - apply (bool_decide_unpack _). by vm_compute.
  - apply (bool_decide_unpack _). by vm_compute.
  - done.
  - by vm_compute.
  - done.
  - by vm_compute.
  - by vm_compute.
  - intros pre _ _. by exists S_IFDIR.
Defined.
