(* ===== verification/GkfsFunctions.v ===== *)
(** * File operations of the client ([src/client/gkfs_functions.cpp], with
    [get_metadata] and [metadata_to_stat] of [preload_util.cpp])

    What the system call hooks call for paths and descriptors of GekkoFS.
    The state is the client's context, the network and [errno]; user
    buffers are passed in and returned.  Dereferencing a null [OpenFile]
    pointer stops the process, as a failed assertion does.  Following links
    is not bounded in the code: [link_fuel] bounds it here, and running out
    of it is [Trap] as well. *)

From S2P Require Import Prelude Config PathUtil Distributor Metadata ChunkStorage Rpc ForwardData ForwardMetadata.
From S2P Require Import OpenFileMap Kernel PreloadContext.

(** ** State *)

Record client (N K : Type) := MkClient {
  proc : process K;
  net : N;
  errno : Z
}.
Arguments MkClient {N K} proc net errno.
Arguments proc {N K} c.
Arguments net {N K} c.
Arguments errno {N K} c.

(** [struct stat] and [struct statx]: the fields the code sets. *)
Record stat := MkStat {
  st_ino : Z; st_nlink : Z; st_mode : Z; st_uid : Z; st_gid : Z; st_size : Z;
  st_blksize : Z; st_blocks : Z; st_atim : Z; st_mtim : Z; st_ctim : Z
}.

(** [struct statfs] and [struct statvfs]: the fields set from the daemons. *)
Record statfs := MkStatfs { f_bsize : Z; f_blocks : Z; f_bfree : Z; f_bavail : Z; f_namelen : Z }.

Section functions.
Context {N : Type} {W : Network N} {K : Type}.
Context (cfg : config) (d : Distributor) (hosts_size : Z).
Context (str_hash : str -> Z) (junk : Metadata) (link_fuel : nat).
Local Abbreviation C := (client N K).

Definition file_map (c : C) : OpenFileMap := ofm_ (ctx (proc c)).
Definition set_file_map (m : OpenFileMap) (c : C) : C :=
  MkClient (MkProcess (set_ofm m (ctx (proc c))) (os (proc c))) (net c) (errno c).

Definition on_net {A} (f : M N A) : M C A := fun c =>
  let '(r, n) := f (net c) in (r, MkClient (proc c) n (errno c)).

Definition set_errno (e : Z) : M C () := m_modify (fun c => MkClient (proc c) (net c) e).

(** Return a value after the assignment to [errno]. *)
Definition finish_with (r : result) : M C Z :=
  match r with
  | (v, None) => m_ret v
  | (v, Some e) => set_errno e ;;; m_ret v
  end.
Definition fail (e : Z) : M C Z := finish_with (fail_with e).

(** ** Metadata *)

(** The [while] loop over links; returns [attr], [None] after an error. *)
Fixpoint follow (fuel : nat) (attr : str) : M C (option str) :=
  let* md := m_lift (Metadata_parse cfg junk attr) in
  if is_link md then
    match fuel with
    | O => m_trap
    | S f =>
        let* target := m_lift (target_path md) in
        let* out := on_net (forward_stat d hosts_size target attr) in
        let* err := finish_with out.1 in
        if negb (err =? 0) then m_ret None else follow f out.2
    end
  else m_ret (Some attr).

Definition get_metadata (path : str) (follow_links : bool) : M C (option Metadata) :=
  let* out := on_net (forward_stat d hosts_size path []) in
  let* err := finish_with out.1 in
  if negb (err =? 0) then m_ret None else
  let* attr := if has_symlinks cfg && follow_links then follow link_fuel out.2 else m_ret (Some out.2) in
  match attr with
  | None => m_ret None
  | Some attr => let* md := m_lift (Metadata_parse cfg junk attr) in m_ret (Some md)
  end.

Definition metadata_to_stat (c : PreloadContext) (path : str) (md : Metadata) : res stat :=
  size ← (if has_symlinks cfg && is_link md
          then t ← target_path md; Ok (Z.of_nat (length t + length (mountdir_ c)))
          else Ok (size_ md));
  let conf := fs_conf_ c in
  Ok (MkStat (str_hash path) (if link_cnt_state conf then link_count_ md else 1) (mode_ md) (uid conf) (gid conf)
        (i64 size) (chunksize cfg) (if blocks_state conf then blocks_ md else 0)
        (if atime_state conf then atime_ md else 0) (if mtime_state conf then mtime_ md else 0)
        (if ctime_state conf then ctime_ md else 0)).

Definition check_parent_dir (path : str) : M C Z :=
  if create_check_parents cfg then
    let* p_comp := m_lift (dirname path) in
    let* md := get_metadata p_comp false in
    match md with
    | None => m_ret (-1)
    | Some md => if negb (S_ISDIR (mode_ md)) then fail ENOTDIR else m_ret 0
    end
  else m_ret 0.

(** ** Creating and opening *)

Definition gkfs_create (path : str) (mode : Z) : M C Z :=
  let kind := Z.land mode S_IFMT in
  let create mode :=
    let* r := check_parent_dir path in
    if negb (r =? 0) then m_ret (-1) else
    let* out := on_net (forward_create d hosts_size path mode) in finish_with out in
  if kind =? 0 then create (Z.lor mode S_IFREG)
  else if (kind =? S_IFREG) || (kind =? S_IFDIR) then create mode
  else if (kind =? S_IFCHR) || (kind =? S_IFBLK) || (kind =? S_IFIFO) || (kind =? S_IFSOCK) then fail ENOTSUP
  else fail EINVAL.

(** [CTX->file_map()->add(std::make_shared<..>(..))]. *)
Definition add_file (o : OpenFile) : M C Z := fun c =>
  let '(p, m) := FileMap.alloc o (file_map c) in
  match FileMap.add p m with
  | Some (fd, m') => (Ok fd, set_file_map m' c)
  | None => (Trap, set_file_map m c)
  end.

(** The entries of all hosts; [buffer] is the receive buffer. *)
Definition fetch_dirents (path : str) (buffer : list byte) : M C OpenFile :=
  let* es := on_net (forward_get_dirents cfg d hosts_size path buffer) in
  m_ret (foldl (fun o e => dir_add e.1 (if (e.2 : bool) then directory else regular) o) (new_OpenDir path) es).

Definition gkfs_opendir (path : str) (buffer : list byte) : M C Z :=
  let* md := get_metadata path false in
  match md with
  | None => m_ret (-1)
  | Some md =>
      if negb (S_ISDIR (mode_ md)) then fail ENOTDIR else
      let* o := fetch_dirents path buffer in add_file o
  end.

(** [gkfs_truncate(path, old_size, new_size)]. *)
Definition gkfs_truncate_to (path : str) (old_size new_size : Z) : M C Z :=
  m_assert (0 <=? new_size) ;;;
  m_assert (new_size <=? old_size) ;;;
  if new_size =? old_size then m_ret 0 else
  let* out := on_net (forward_decr_size d hosts_size path new_size) in
  let* r := finish_with out in
  if negb (r =? 0) then m_ret (-1) else
  let* out := on_net (forward_truncate cfg d hosts_size path old_size new_size) in
  let* r := finish_with out in
  m_ret (if negb (r =? 0) then -1 else 0).

(** Opening an existing regular file. *)
Definition open_regular (path : str) (flags : Z) (md : Metadata) : M C Z :=
  m_assert (S_ISREG (mode_ md)) ;;;
  let* r := if has_flag flags O_TRUNC && (has_flag flags O_RDWR || has_flag flags O_WRONLY)
            then gkfs_truncate_to path (i64 (size_ md)) 0 else m_ret 0 in
  if negb (r =? 0) then m_ret (-1) else add_file (new_OpenFile path flags regular).

Fixpoint gkfs_open (fuel : nat) (path : str) (mode flags : Z) (buffer : list byte) : M C Z :=
  if has_flag flags O_PATH then fail ENOTSUP else
  if has_flag flags O_APPEND then fail ENOTSUP else
  let* md := get_metadata path false in
  let* e := m_gets errno in
  match md with
  | None =>
      if negb (e =? ENOENT) then m_ret (-1) else
      if negb (has_flag flags O_CREAT) then fail ENOENT else
      if has_flag flags O_DIRECTORY then fail ENOTSUP else
      let* r := gkfs_create path (Z.lor mode S_IFREG) in
      if negb (r =? 0) then m_ret (-1) else add_file (new_OpenFile path flags regular)
  | Some md =>
      if has_flag flags O_EXCL then fail EEXIST else
      if has_symlinks cfg && is_link md then
        if has_flag flags O_NOFOLLOW then fail ELOOP else
        let* target := m_lift (target_path md) in
        match fuel with
        | O => m_trap
        | S f => gkfs_open f target mode flags buffer
        end
      else if S_ISDIR (mode_ md) then gkfs_opendir path buffer
      else open_regular path flags md
  end.

(** ** Removing and inspecting *)

Definition gkfs_remove (path : str) : M C Z :=
  let* md := get_metadata path false in
  match md with
  | None => m_ret (-1)
  | Some md =>
      let has_data := S_ISREG (mode_ md) && negb (size_ md =? 0) in
      let* out := on_net (forward_remove cfg d hosts_size path (negb has_data) (i64 (size_ md))) in finish_with out
  end.

Definition gkfs_rmdir (path : str) (buffer : list byte) : M C Z :=
  let* md := get_metadata path false in
  match md with
  | None => fail ENOENT
  | Some md =>
      if negb (S_ISDIR (mode_ md)) then fail ENOTDIR else
      let* o := fetch_dirents path buffer in
      if negb (dir_size o =? 0)%nat then fail ENOTEMPTY else
      let* out := on_net (forward_remove cfg d hosts_size path true 0) in finish_with out
  end.

Definition gkfs_access (path : str) (mask : Z) (follow_links : bool) : M C Z :=
  let* md := get_metadata path follow_links in
  match md with None => fail ENOENT | Some _ => m_ret 0 end.

(** The result and, on success, the structure. *)
Definition gkfs_stat (path : str) (follow_links : bool) : M C (Z * option stat) :=
  let* md := get_metadata path follow_links in
  match md with
  | None => m_ret (-1, None)
  | Some md =>
      let* c := m_get in
      let* st := m_lift (metadata_to_stat (ctx (proc c)) path md) in m_ret (0, Some st)
  end.

(** The fields of [statx] are copied from those of [stat]. *)
Definition gkfs_statx (path : str) (follow_links : bool) : M C (Z * option stat) := gkfs_stat path follow_links.

Definition gkfs_statfs : M C (Z * statfs) :=
  let* s := on_net (forward_get_chunk_stat cfg hosts_size) in
  m_ret (0, MkStatfs (chunk_size s) (chunk_total s) (chunk_free s) (chunk_free s) path_max_length).

Definition gkfs_statvfs : M C (Z * statfs) := gkfs_statfs.

Definition gkfs_truncate (path : str) (length_ : Z) : M C Z :=
  if length_ <? 0 then fail EINVAL else
  let* md := get_metadata path true in
  match md with
  | None => m_ret (-1)
  | Some md =>
      if size_ md <? u64 length_ then fail EINVAL else gkfs_truncate_to path (i64 (size_ md)) length_
  end.

(** ** Open files *)

(** [CTX->file_map()->get(fd)], dereferenced: the address and the object. *)
Definition file_at (p : nat) : M C OpenFile := fun c =>
  match objects (file_map c) !! p with Some o => (Ok o, c) | None => (Trap, c) end.
Definition get_open (fd : Z) : M C nat := fun c =>
  match FileMap.get (file_map c) fd with Some p => (Ok p, c) | None => (Trap, c) end.
Definition pos (p : nat) (v : Z) : M C () :=
  m_modify (fun c => set_file_map (FileMap.update_object p (set_pos v) (file_map c)) c).

(** [gkfs_lseek(gkfs_fd, offset, whence)]. *)
Definition gkfs_lseek_file (p : nat) (offset whence : Z) : M C Z :=
  let* o := file_at p in
  let done_ := let* o := file_at p in m_ret (i64 (pos_ o)) in
  if whence =? SEEK_SET then pos p offset ;;; done_
  else if whence =? SEEK_CUR then pos p (pos_ o + offset) ;;; done_
  else if whence =? SEEK_END then
    let* out := on_net (forward_get_metadentry_size d hosts_size (path_ o)) in
    let* err := finish_with out.1 in
    if err <? 0 then fail err else
    if (offset <? 0) && (out.2 <? - offset) then fail EINVAL else
    pos p (out.2 + offset) ;;; done_
  else fail EINVAL.

Definition gkfs_lseek (fd offset whence : Z) : M C Z :=
  let* p := get_open fd in gkfs_lseek_file p offset whence.

Definition gkfs_dup (oldfd : Z) : M C Z := fun c =>
  match FileMap.dup oldfd (file_map c) with
  | Some (r, m) => finish_with r (set_file_map m c)
  | None => (Trap, c)
  end.

Definition gkfs_dup2 (oldfd newfd : Z) : M C Z := fun c =>
  let '(r, m) := FileMap.dup2 oldfd newfd (file_map c) in finish_with r (set_file_map m c).

(** ** Writing *)

Definition gkfs_pwrite (p : nat) (buf : list byte) (count offset : Z) : M C Z :=
  let* o := file_at p in
  if decide (type_ o <> regular) then fail EISDIR else
  let append_flag := get_flag o OpenFile_flags.append in
  let* out := on_net (forward_update_metadentry_size d hosts_size (path_ o) count offset append_flag 0) in
  let* ret := finish_with out.1 in
  if negb (ret =? 0) then m_ret ret else
  let* out := on_net (forward_write cfg d hosts_size (path_ o) buf append_flag offset count out.2) in
  finish_with out.

Definition gkfs_pwrite_ws (fd : Z) (buf : list byte) (count offset : Z) : M C Z :=
  let* p := get_open fd in gkfs_pwrite p buf count offset.

Definition gkfs_write (fd : Z) (buf : list byte) (count : Z) : M C Z :=
  let* p := get_open fd in
  let* o := file_at p in
  (if get_flag o OpenFile_flags.append then gkfs_lseek_file p 0 SEEK_END else m_ret 0) ;;;
  let* ret := gkfs_pwrite p buf count (i64 (pos_ o)) in
  (if 0 <? ret then pos p (pos_ o + count) else m_ret tt) ;;;
  m_ret ret.

(** The loop over the vector; each element is a buffer of [iov_len] bytes. *)
Fixpoint pwritev_loop (p : nat) (iov : list (list byte)) (at_ written : Z) : M C Z :=
  match iov with
  | [] => m_ret written
  | buf :: iov' =>
      let count := Z.of_nat (length buf) in
      if count =? 0 then pwritev_loop p iov' at_ written else
      let* ret := gkfs_pwrite p buf count at_ in
      if ret =? -1 then m_ret written else
      if u64 ret <? count then m_ret (written + ret) else pwritev_loop p iov' (at_ + ret) (written + ret)
  end.

Definition gkfs_pwritev (fd : Z) (iov : list (list byte)) (offset : Z) : M C Z :=
  let* p := get_open fd in
  let* written := pwritev_loop p iov offset 0 in
  m_ret (if written =? 0 then -1 else written).

Definition gkfs_writev (fd : Z) (iov : list (list byte)) : M C Z :=
  let* p := get_open fd in
  let* o := file_at p in
  let* ret := gkfs_pwritev fd iov (i64 (pos_ o)) in
  m_assert (negb (ret =? 0)) ;;;
  if ret <? 0 then m_ret (-1) else pos p (pos_ o + ret) ;;; m_ret ret.

(** ** Reading *)

(** The result and the buffer of [count] bytes afterwards. *)
Definition gkfs_pread (p : nat) (buf : list byte) (count offset : Z) : M C (Z * list byte) :=
  let* o := file_at p in
  if decide (type_ o <> regular) then let* r := fail EISDIR in m_ret (r, buf) else
  let buf := if zero_buffer_before_read cfg then replicate (Z.to_nat count) NUL ++ drop (Z.to_nat count) buf else buf in
  let* out := on_net (forward_read cfg d hosts_size (path_ o) buf offset count) in
  let* ret := finish_with out.1 in
  m_ret (ret, out.2).

Definition gkfs_pread_ws (fd : Z) (buf : list byte) (count offset : Z) : M C (Z * list byte) :=
  let* p := get_open fd in gkfs_pread p buf count offset.

Definition gkfs_read (fd : Z) (buf : list byte) (count : Z) : M C (Z * list byte) :=
  let* p := get_open fd in
  let* o := file_at p in
  let* out := gkfs_pread p buf count (i64 (pos_ o)) in
  (if 0 <? out.1 then pos p (pos_ o + out.1) else m_ret tt) ;;;
  m_ret out.

(** The loop over the vector returns the bytes read and the buffers. *)
Fixpoint preadv_loop (p : nat) (iov : list (list byte)) (at_ read : Z) : M C (Z * list (list byte)) :=
  match iov with
  | [] => m_ret (read, [])
  | buf :: iov' =>
      let count := Z.of_nat (length buf) in
      if count =? 0 then
        let* r := preadv_loop p iov' at_ read in m_ret (r.1, buf :: r.2)
      else
      let* out := gkfs_pread p buf count at_ in
      let ret := out.1 in
      if ret =? -1 then m_ret (read, out.2 :: iov') else
      if u64 ret <? count then m_ret (read + ret, out.2 :: iov')
      else let* r := preadv_loop p iov' (at_ + ret) (read + ret) in m_ret (r.1, out.2 :: r.2)
  end.

Definition gkfs_preadv (fd : Z) (iov : list (list byte)) (offset : Z) : M C (Z * list (list byte)) :=
  let* p := get_open fd in
  let* r := preadv_loop p iov offset 0 in
  m_ret (if r.1 =? 0 then -1 else r.1, r.2).

Definition gkfs_readv (fd : Z) (iov : list (list byte)) : M C (Z * list (list byte)) :=
  let* p := get_open fd in
  let* o := file_at p in
  let* r := gkfs_preadv fd iov (i64 (pos_ o)) in
  m_assert (negb (r.1 =? 0)) ;;;
  if r.1 <? 0 then m_ret (-1, r.2) else pos p (pos_ o + r.1) ;;; m_ret r.

(** ** Directory entries *)

(** [ALIGN(x, 8)]. *)
Definition align8 (x : Z) : Z := Z.land (x + 7) (Z.lnot 7).

(** The layouts of [struct linux_dirent] and [struct linux_dirent64]: the
    offset of the name, the bytes added to its length and the place of the
    type in a record of a given size. *)
Record layout := MkLayout { name_off : nat; name_extra : Z; type_off : nat -> nat }.
Definition linux_dirent : layout := MkLayout 18 3 (fun total => total - 1)%nat.
Definition linux_dirent64 : layout := MkLayout 19 1 (fun _ => 18%nat).

Definition reclen (l : layout) (name : str) : Z := align8 (Z.of_nat (name_off l) + Z.of_nat (length name) + name_extra l).

Definition dt (t : FileType) : Z := match t with regular => DT_REG | directory => DT_DIR end.

(** The stores of one record at [at_]; [d_ino], [d_off] and [d_reclen] are
    little endian at 0, 8 and 16. *)
Definition put_dirent (l : layout) (dir_path : str) (e : DirEntry) (next : Z) (at_ : nat) (buf : list byte) : list byte :=
  let total := reclen l (de_name e) in
  let put off bytes b := write_at b (at_ + off) bytes in
  put 8%nat (le_bytes 8 next)
    (put (name_off l) (cstr (de_name e) ++ [NUL])
      (put (type_off l (Z.to_nat total))
           [ascii_of_nat (Z.to_nat (dt (de_type e)))]
        (put 16%nat (le_bytes 2 total)
          (put 0%nat (le_bytes 8 (str_hash (dir_path ++ [sep] ++ de_name e))) buf)))).

(** The [while] loop; [fuel] entries are left. *)
Fixpoint getdents_loop (l : layout) (fuel : nat) (o : OpenFile) (at_pos : nat) (count written : Z) (buf : list byte)
    : nat * Z * list byte :=
  match fuel, entries o !! at_pos with
  | S f, Some e =>
      let total := reclen l (de_name e) in
      if count - written <? total then (at_pos, written, buf)
      else getdents_loop l f o (S at_pos) count (written + total)
             (put_dirent l (path_ o) e (Z.of_nat (S at_pos)) (Z.to_nat written) buf)
  | _, _ => (at_pos, written, buf)
  end.

(** [gkfs_getdents] and [gkfs_getdents64]. *)
Definition getdents (l : layout) (fd : Z) (dirp : list byte) (count : Z) : M C (Z * list byte) :=
  let* c := m_get in
  match FileMap.get_dir (file_map c) fd with
  | None => let* r := fail EBADF in m_ret (r, dirp)
  | Some p =>
      let* o := file_at p in
      if Z.of_nat (dir_size o) <=? pos_ o then m_ret (0, dirp) else
      let '(at_pos, written, buf) := getdents_loop l (dir_size o) o (Z.to_nat (pos_ o)) count 0 dirp in
      if written =? 0 then let* r := fail EINVAL in m_ret (r, buf)
      else pos p (Z.of_nat at_pos) ;;; m_ret (written, buf)
  end.
Definition gkfs_getdents := getdents linux_dirent.
Definition gkfs_getdents64 := getdents linux_dirent64.

(** ** Links *)

Definition gkfs_mk_symlink (path target : str) : M C Z :=
  let make :=
    let* r := check_parent_dir path in
    if negb (r =? 0) then m_ret (-1) else
    let* link_md := get_metadata path false in
    match link_md with
    | Some _ => fail EEXIST
    | None => let* out := on_net (forward_mk_symlink d hosts_size path target) in finish_with out
    end in
  let* target_md := get_metadata target false in
  match target_md with
  | Some md =>
      if negb (S_ISREG (mode_ md) || S_ISLNK (mode_ md))
      then m_assert (S_ISDIR (mode_ md)) ;;; fail ENOTSUP
      else make
  | None => make
  end.

(** The result and the user's buffer. *)
Definition gkfs_readlink (path : str) (buf : list byte) (bufsize : Z) : M C (Z * list byte) :=
  let* md := get_metadata path false in
  match md with
  | None => m_ret (-1, buf)
  | Some md =>
      if negb (is_link md) then let* r := fail EINVAL in m_ret (r, buf) else
      let* target := m_lift (target_path md) in
      let* c := m_get in
      let mount := mountdir_ (ctx (proc c)) in
      let path_size := Z.of_nat (length target + length mount) in
      if bufsize <=? path_size then let* r := fail ENAMETOOLONG in m_ret (r, buf)
      else m_ret (path_size, write_at (write_at buf 0 mount) (length mount) (cstr target ++ [NUL]))
  end.
End functions.

(** ** Two consequences of the error handling *)

Section remarks.
Context {N : Type} {W : Network N} {K : Type}.
Context (cfg : config) (d : Distributor) (hosts_size : Z) (junk : Metadata).
Local Abbreviation C := (client N K).

(** A link that leads to itself: following it never ends, whatever the
    fuel.  The code has no bound and no [ELOOP]. *)
Theorem link_cycle_never_ends (attr path : str) (md : Metadata) (n : N) (p : process K) (e : Z) (fuel : nat) :
  Metadata_parse cfg junk attr = Ok md -> is_link md = true -> target_path md = Ok path ->
  (forall a, forward_stat d hosts_size path a n = (Ok ((0, None), attr), n)) ->
  follow cfg d hosts_size junk fuel attr (MkClient p n e) = (Trap, MkClient p n e).
Proof.
  intros Hp Hl Ht Hs. induction fuel as [|fuel IH]; cbn [follow]; unfold m_bind, m_lift at 1; rewrite Hp, Hl; [done|].
  unfold m_lift. rewrite Ht. unfold on_net. cbn [net proc errno]. rewrite Hs. cbn. exact IH.
Qed.

(** [SEEK_END] tests the error with [< 0], but the daemon's error numbers
    are positive: on an error the position is set from the size 0 of the
    reply and the call succeeds. *)
Theorem seek_end_ignores_error (c : C) (q : nat) (o : OpenFile) (offset err : Z) (n' : N) :
  objects (file_map c) !! q = Some o -> 0 < err -> 0 <= offset < 2 ^ 63 ->
  forward_get_metadentry_size d hosts_size (path_ o) (net c) = (Ok ((err, None), 0), n') ->
  exists c', gkfs_lseek_file d hosts_size q offset SEEK_END c = (Ok offset, c') /\
    objects (file_map c') !! q = Some (set_pos offset o).
Proof.
  intros Ho He Hoff Hf. unfold gkfs_lseek_file.
  rewrite (m_bind_ok _ _ c o c) by (unfold file_at; by rewrite Ho).
  change (SEEK_END =? SEEK_SET) with false. change (SEEK_END =? SEEK_CUR) with false.
  change (SEEK_END =? SEEK_END) with true. cbv beta iota zeta.
  rewrite (m_bind_ok _ _ c ((err, None) : result, 0) (MkClient (proc c) n' (errno c))) by (unfold on_net; by rewrite Hf).
  rewrite (m_bind_ok _ _ _ err (MkClient (proc c) n' (errno c))) by done. cbn [snd].
  rewrite (proj2 (Z.ltb_ge err 0)), (proj2 (Z.ltb_ge offset 0)) by lia. cbn [andb].
  unfold m_bind, pos, m_modify, file_at, set_file_map, file_map in *. cbn.
  rewrite list_lookup_alter, decide_True, Ho by done. cbn. unfold m_ret.
  eexists. split; [by rewrite wrapu_small, wraps_small by int_solve|].
  cbn. by rewrite list_lookup_alter, decide_True, Ho by done.
Qed.
End remarks.
