(* ===== verification/Dirents.v ===== *)
(** * Reading a directory through the system call interface

    [getdents] and [getdents64] fill the user's buffer with records.  The C
    library reads them back by their lengths; [decode] does the same, and
    reading until the end yields the entries of the open directory. *)

From S2P Require Import Prelude Config ChunkCalc Metadata Rpc OpenFileMap Kernel PreloadContext GkfsFunctions.

(** ** The reader's view *)

(** What a program sees of an entry. *)
Definition view (e : DirEntry) : str * Z := (de_name e, dt (de_type e)).

(** The records of a buffer, each found at the end of the one before. *)
Fixpoint decode (l : layout) (fuel : nat) (b : list byte) : list (str * Z) :=
  match fuel, b with
  | S f, _ :: _ =>
      let total := Z.to_nat (le_value (read_at b 16 2)) in
      (cstr (drop (name_off l) b), Z.of_nat (nat_of_ascii (nth (type_off l total) b NUL)))
        :: decode l f (drop total b)
  | _, _ => []
  end.

Lemma decode_nonempty l fuel b : b <> [] ->
  decode l (S fuel) b =
    let total := Z.to_nat (le_value (read_at b 16 2)) in
    (cstr (drop (name_off l) b), Z.of_nat (nat_of_ascii (nth (type_off l total) b NUL)))
      :: decode l fuel (drop total b).
Proof. by destruct b. Qed.

Record layout_ok (l : layout) : Prop := {
  lo_name : (18 <= name_off l)%nat;
  lo_type name : let total := Z.to_nat (reclen l name) in
    (18 <= type_off l total < total)%nat /\
    (type_off l total < name_off l \/ name_off l + length name < type_off l total)%nat;
  lo_fits name : (name_off l + length name < Z.to_nat (reclen l name))%nat
}.

Lemma align8_bounds x : 0 <= x -> x <= align8 x < x + 8.
Proof.
  intros H. pose proof (land_lnot_mask (x + 7) 3 ltac:(lia) ltac:(lia)) as E.
  unfold align8. change (Z.lnot 7) with (Z.lnot (2 ^ 3 - 1)). rewrite E.
  pose proof (Z.mod_pos_bound (x + 7) (2 ^ 3) ltac:(lia)). lia.
Qed.

Lemma linux_dirent_ok : layout_ok linux_dirent.
Proof.
  split; cbn [name_off type_off linux_dirent]; [lia| |]; intros name; unfold reclen;
    cbn [name_off name_extra linux_dirent];
    pose proof (align8_bounds (Z.of_nat 18 + Z.of_nat (length name) + 3)); cbv zeta; lia.
Qed.

Lemma linux_dirent64_ok : layout_ok linux_dirent64.
Proof.
  split; cbn [name_off type_off linux_dirent64]; [lia| |]; intros name; unfold reclen;
    cbn [name_off name_extra linux_dirent64];
    pose proof (align8_bounds (Z.of_nat 19 + Z.of_nat (length name) + 1)); cbv zeta; lia.
Qed.

(** A name that fits a record: no terminator inside, a length of 16 bits. *)
Definition name_ok (l : layout) (e : DirEntry) : Prop := NUL ∉ de_name e /\ reclen l (de_name e) < 2 ^ 16.

Section records.
Context (str_hash : str -> Z) (l : layout) (Hl : layout_ok l).

(** ** One record *)

Section one.
Context (dir_path : str) (e : DirEntry) (next : Z) (Hn : name_ok l e).
Local Abbreviation total := (Z.to_nat (reclen l (de_name e))).

(** The five stores of a record lie inside it; the ranges they touch. *)
Lemma stores_inside : (16 + 2 <= name_off l /\ name_off l + length (de_name e) + 1 <= total /\
  18 <= type_off l total < total /\ 18 <= total /\
  (type_off l total < name_off l \/ name_off l + length (de_name e) < type_off l total))%nat.
Proof using Hl Hn.
  pose proof (lo_name l Hl). pose proof (lo_type l Hl (de_name e)). pose proof (lo_fits l Hl (de_name e)).
  cbv zeta in *. lia.
Qed.

Lemma put_dirent_inside A B C : length B = total ->
  put_dirent str_hash l dir_path e next (length A) (A ++ B ++ C) =
    A ++ put_dirent str_hash l dir_path e next 0 B ++ C /\
  length (put_dirent str_hash l dir_path e next 0 B) = total.
Proof using Hl Hn.
  intros HB. pose proof stores_inside as S.
  assert (forall k d b, length b = total -> (k + length d <= total)%nat ->
    write_at (A ++ b ++ C) (length A + k) d = A ++ write_at b k d ++ C /\ length (write_at b k d) = total) as W.
  { intros k d b Hb Hk. split; [apply write_at_inside; lia|rewrite length_write_inside; lia]. }
  unfold put_dirent. destruct Hn as [Hnul _]. rewrite cstr_id by done. cbn [Nat.add].
  destruct (W 0%nat (le_bytes 8 (str_hash (dir_path ++ [sep] ++ de_name e))) B) as [-> L0];
    [done|rewrite length_le_bytes; lia|].
  destruct (W 16%nat (le_bytes 2 (reclen l (de_name e))) _ L0) as [-> L1]; [rewrite length_le_bytes; lia|].
  destruct (W (type_off l total) [ascii_of_nat (Z.to_nat (dt (de_type e)))] _ L1) as [-> L2]; [cbn [length]; lia|].
  destruct (W (name_off l) (de_name e ++ [NUL]) _ L2) as [-> L3]; [rewrite length_app; cbn [length]; lia|].
  destruct (W 8%nat (le_bytes 8 next) _ L3) as [-> L4]; [rewrite length_le_bytes; lia|].
  done.
Qed.

(** The fields of a record, whatever the memory held before. *)
Lemma put_dirent_fields B : length B = total ->
  let R := put_dirent str_hash l dir_path e next 0 B in
  read_at R 16 2 = le_bytes 2 (reclen l (de_name e)) /\
  read_at R (name_off l) (length (de_name e) + 1) = de_name e ++ [NUL] /\
  read_at R (type_off l total) 1 = [ascii_of_nat (Z.to_nat (dt (de_type e)))].
Proof using Hl Hn.
  intros HB. pose proof stores_inside as S. unfold put_dirent. destruct Hn as [Hnul _].
  rewrite cstr_id by done. cbn [Nat.add].
  assert (forall k d b, length b = total -> (k + length d <= total)%nat -> length (write_at b k d) = total) as W.
  { intros k d b Hb Hk. rewrite length_write_inside; lia. }
  set (b0 := write_at B 0 _). assert (length b0 = total) as L0 by (apply W; rewrite ?length_le_bytes; lia).
  set (b1 := write_at b0 16 _). assert (length b1 = total) as L1 by (apply W; rewrite ?length_le_bytes; lia).
  set (b2 := write_at b1 _ _). assert (length b2 = total) as L2 by (apply W; cbn [length]; lia).
  set (b3 := write_at b2 _ _). assert (length b3 = total) as L3 by (apply W; rewrite ?length_app; cbn [length]; lia).
  repeat split.
  - rewrite read_write_other by (rewrite ?length_le_bytes; lia). unfold b3.
    rewrite read_write_other by (rewrite ?length_app; cbn [length]; lia). unfold b2.
    rewrite read_write_other by (cbn [length]; lia). unfold b1.
    rewrite <- (length_le_bytes 2 (reclen l (de_name e))) at 2. apply read_write_same. rewrite length_le_bytes. lia.
  - rewrite read_write_other by (rewrite ?length_le_bytes; lia). unfold b3.
    replace (length (de_name e) + 1)%nat with (length (de_name e ++ [NUL])) by (rewrite length_app; done).
    apply read_write_same. rewrite length_app. cbn [length]. lia.
  - rewrite read_write_other by (rewrite ?length_le_bytes; lia). unfold b3.
    rewrite read_write_other by (rewrite ?length_app; cbn [length]; lia). unfold b2.
    apply (read_write_same b1 _ [_]). cbn [length]. lia.
Qed.

(** Decoding a buffer that starts with a record. *)
Lemma decode_record fuel B rest : length B = total ->
  decode l (S fuel) (put_dirent str_hash l dir_path e next 0 B ++ rest) = view e :: decode l fuel rest.
Proof using Hl Hn.
  intros HB. pose proof stores_inside as S. destruct (put_dirent_inside [] B [] HB) as [_ HL].
  destruct (put_dirent_fields B HB) as (F1 & F2 & F3). destruct Hn as [Hnul Hlen].
  set (R := put_dirent str_hash l dir_path e next 0 B) in *. clearbody R.
  assert (forall off n, (off + n <= total)%nat -> read_at (R ++ rest) off n = read_at R off n) as Hin.
  { intros off n Hon. unfold read_at. rewrite drop_app_le, take_app_le by (rewrite ?length_drop; lia). done. }
  rewrite decode_nonempty by (destruct R; [cbn in HL; lia|done]).
  assert (read_at (R ++ rest) 16 2 = le_bytes 2 (reclen l (de_name e))) as -> by (rewrite Hin; [done|lia]).
  rewrite le_bytes_value by (change (256 ^ Z.of_nat 2) with (2 ^ 16); lia).
  f_equal; [|by rewrite <- HL, drop_app_length].
  unfold view. f_equal.
  - rewrite <- (take_drop (length (de_name e) + 1) (drop (name_off l) (R ++ rest))).
    fold (read_at (R ++ rest) (name_off l) (length (de_name e) + 1)). rewrite Hin, F2, <- app_assoc by lia.
    by apply cstr_app_nul.
  - assert (R !! type_off l total = Some (ascii_of_nat (Z.to_nat (dt (de_type e))))) as Ht.
    { apply (f_equal (.!! 0%nat)) in F3. rewrite lookup_read_at, decide_True, Nat.add_0_r in F3 by lia. done. }
    rewrite (nth_lookup_Some _ _ _ (ascii_of_nat (Z.to_nat (dt (de_type e))))) by (by apply lookup_app_l_Some).
    by destruct (de_type e).
Qed.
End one.

(** ** The loop *)

Lemma put_dirent_put o e next written total buf :
  name_ok l e -> total = reclen l (de_name e) -> 0 <= written -> 0 <= total ->
  written + total <= Z.of_nat (length buf) ->
  exists R, length R = Z.to_nat total /\
    put_dirent str_hash l (path_ o) e next (Z.to_nat written) buf =
      take (Z.to_nat written) buf ++ R ++ drop (Z.to_nat (written + total)) buf /\
    forall fuel rest, decode l (S fuel) (R ++ rest) = view e :: decode l fuel rest.
Proof using Hl.
  intros Hn -> Hw Ht Hfit. set (A := take (Z.to_nat written) buf).
  set (B := take (Z.to_nat (reclen l (de_name e))) (drop (Z.to_nat written) buf)).
  set (T := drop (Z.to_nat (written + reclen l (de_name e))) buf).
  assert (buf = A ++ B ++ T) as Eb.
  { unfold A, B, T. rewrite <- (take_drop (Z.to_nat written) buf) at 1. f_equal.
    rewrite <- (take_drop (Z.to_nat (reclen l (de_name e))) (drop (Z.to_nat written) buf)) at 1.
    f_equal. rewrite drop_drop. f_equal. lia. }
  assert (length A = Z.to_nat written) as LA by (unfold A; rewrite length_take; lia).
  assert (length B = Z.to_nat (reclen l (de_name e))) as LB by (unfold B; rewrite length_take, length_drop; lia).
  destruct (put_dirent_inside (path_ o) e next Hn A B T LB) as [E LR].
  exists (put_dirent str_hash l (path_ o) e next 0 B). split; [done|]. split.
  - rewrite <- E, LA, <- Eb. done.
  - intros fuel rest. by apply decode_record.
Qed.

Lemma reclen_pos name : 18 < reclen l name.
Proof using Hl. pose proof (lo_name l Hl). pose proof (lo_fits l Hl name). lia. Qed.

(** What a run of the loop has written: the records of the next [n]
    entries, and it stops at the end or at an entry that does not fit. *)
Lemma getdents_loop_records fuel o at_pos count written buf :
  Forall (name_ok l) (entries o) -> count <= Z.of_nat (length buf) -> 0 <= written <= count ->
  (at_pos <= length (entries o) <= at_pos + fuel)%nat ->
  exists n R, let '(at', w', buf') := getdents_loop str_hash l fuel o at_pos count written buf in
    at' = (at_pos + n)%nat /\ (at' <= length (entries o))%nat /\ w' = written + Z.of_nat (length R) /\ w' <= count /\
    buf' = take (Z.to_nat written) buf ++ R ++ drop (Z.to_nat w') buf /\
    (forall f, decode l (n + f) R = view <$> take n (drop at_pos (entries o))) /\ (n = 0%nat -> R = []) /\ (n <= length R)%nat /\
    (forall e, entries o !! at' = Some e -> count - w' < reclen l (de_name e)).
Proof using Hl.
  intros Hnames Hcount. revert at_pos written buf Hcount.
  induction fuel as [|fuel IH]; intros at_pos written buf Hcount Hw Hf; cbn [getdents_loop].
  { exists 0%nat, []. cbn. rewrite Z.add_0_r, take_drop. split_and!; try done; try lia.
    - by intros [].
    - intros e He%lookup_lt_Some. lia. }
  destruct (entries o !! at_pos) as [e|] eqn:He.
  2:{ exists 0%nat, []. cbn. rewrite Z.add_0_r, take_drop, Nat.add_0_r. split_and!; try done; try lia.
      - by intros [].
      - intros e He'. congruence. }
  pose proof (lookup_lt_Some _ _ _ He) as Hlt0.
  destruct (Z.ltb_spec (count - written) (reclen l (de_name e))) as [Hlt|Hge].
  { exists 0%nat, []. cbn. rewrite Z.add_0_r, take_drop, Nat.add_0_r. split_and!; try done; try lia.
    - by intros [].
    - intros e' He'. congruence. }
  pose proof (reclen_pos (de_name e)).
  assert (name_ok l e) as Hn by (rewrite Forall_lookup in Hnames; by eapply Hnames).
  destruct (put_dirent_put o e (Z.of_nat (S at_pos)) written (reclen l (de_name e)) buf Hn eq_refl)
    as (R1 & L1 & E1 & D1); [lia..|].
  rewrite E1. set (buf1 := take _ buf ++ R1 ++ drop _ buf).
  assert (length buf1 = length buf) as Lb.
  { unfold buf1. rewrite !length_app, length_take, length_drop, L1. lia. }
  destruct (IH (S at_pos) (written + reclen l (de_name e)) buf1) as (n & R & S); [lia|lia|lia|].
  destruct (getdents_loop _ _ _ _ _ _ _ _) as [[at' w'] buf'].
  destruct S as (-> & Ha & -> & Hle & -> & Hd & Hnil & Hlen & Hnext).
  assert (take (Z.to_nat (written + reclen l (de_name e))) buf1 = take (Z.to_nat written) buf ++ R1) as Et.
  { unfold buf1. rewrite app_assoc, take_app_length'; [done|].
    rewrite length_app, length_take, L1. lia. }
  exists (S n), (R1 ++ R). split_and!; try done; try lia.
  - rewrite length_app, L1. lia.
  - rewrite Et, <- !app_assoc. f_equal. f_equal. f_equal. unfold buf1.
    rewrite app_assoc, drop_app_ge by (rewrite length_app, length_take, L1; lia). rewrite drop_drop. f_equal.
    rewrite !length_app, length_take, L1. lia.
  - intros f. cbn [Nat.add]. rewrite D1, Hd. rewrite (drop_S _ e at_pos) by done. done.
  - rewrite length_app, L1. lia.
Qed.
End records.

(** ** Reading to the end *)

Section reading.
Context {N K : Type} (str_hash : str -> Z) (l : layout) (Hl : layout_ok l).
Local Abbreviation C := (client N K).

(** A program that calls [getdents] with fresh buffers until it returns 0
    and decodes what it gets. *)
Fixpoint read_directory (fuel : nat) (fd count : Z) (buffers : nat -> list byte) (acc : list (str * Z))
    : M C (option (list (str * Z))) :=
  match fuel with
  | O => m_ret None
  | S f =>
      let* out := getdents str_hash l fd (buffers f) count in
      if out.1 <=? 0 then m_ret (Some acc)
      else read_directory f fd count buffers
             (acc ++ decode l (length out.2) (take (Z.to_nat out.1) out.2))
  end.

(** An open directory whose records fit the buffers of [count] bytes. *)
Record open_directory (c : C) (fd : Z) (q : nat) (o : OpenFile) (count : Z) : Prop := {
  od_fd : FileMap.get (file_map c) fd = Some q;
  od_object : objects (file_map c) !! q = Some o;
  od_type : type_ o = directory;
  od_names : Forall (name_ok l) (entries o);
  od_fit : Forall (fun e => reclen l (de_name e) <= count) (entries o);
  od_size : Z.of_nat (length (entries o)) < 2 ^ 64;
  od_pos : 0 <= pos_ o <= Z.of_nat (length (entries o))
}.

(** One call on an open directory: it returns 0 at the end, and otherwise
    the records of at least one entry. *)
Lemma getdents_step c fd q o buf count :
  open_directory c fd q o count -> 0 <= count -> count <= Z.of_nat (length buf) ->
  let start := Z.to_nat (pos_ o) in
  if decide (start = length (entries o)) then getdents str_hash l fd buf count c = (Ok (0, buf), c)
  else exists n w buf', getdents str_hash l fd buf count c =
      (Ok (w, buf'), set_file_map (FileMap.update_object q (set_pos (Z.of_nat (start + n))) (file_map c)) c) /\
    (0 < n)%nat /\ (start + n <= length (entries o))%nat /\ 0 < w /\
    decode l (length buf') (take (Z.to_nat w) buf') = view <$> take n (drop start (entries o)).
Proof using Hl.
  intros [Hg Ho Ht Hn Hfit Hsz Hpos] Hc0 Hbuf start. unfold getdents, m_bind, m_get.
  unfold FileMap.get_dir. rewrite Hg, Ho. destruct (decide (type_ o = directory)) as [_|]; [|done]. unfold file_at. rewrite Ho. unfold dir_size.
  case_decide as Hend.
  { rewrite (proj2 (Z.leb_le _ _)) by (unfold start in *; lia). done. }
  rewrite (proj2 (Z.leb_gt _ _)) by (unfold start in *; lia). fold start.
  destruct (getdents_loop_records str_hash l Hl (length (entries o)) o start count 0 buf Hn Hbuf) as (n & R & S);
    [lia|unfold start; lia|].
  destruct (getdents_loop _ _ _ _ _ _ _ _) as [[at' w] buf']. destruct S as (-> & Ha & -> & Hw & -> & Hd & Hnil & Hlen & Hnext).
  rewrite Z.add_0_l in *. cbn [take app].
  destruct n as [|n].
  { exfalso. rewrite (Hnil eq_refl) in *. cbn in Hnext. rewrite Nat.add_0_r in *.
    destruct (lookup_lt_is_Some_2 (entries o) start) as [e He]; [lia|].
    specialize (Hnext e He). rewrite Forall_lookup in Hfit. specialize (Hfit _ _ He). cbn in Hfit. lia. }
  rewrite (proj2 (Z.eqb_neq _ _)) by lia. rewrite Nat2Z.id, take_0. cbn [app].
  exists (S n), (Z.of_nat (length R)). eexists. split; [reflexivity|]. split_and!; [lia|lia|lia|].
  rewrite Nat2Z.id, take_app_length. rewrite <- (Hd (length (R ++ drop (length R) buf) - S n)%nat).
  f_equal. rewrite length_app. lia.
Qed.

Lemma open_directory_moved c fd q o count n :
  open_directory c fd q o count -> (n <= length (entries o))%nat ->
  open_directory (set_file_map (FileMap.update_object q (set_pos (Z.of_nat n)) (file_map c)) c) fd q
    (set_pos (Z.of_nat n) o) count.
Proof using All.
  intros [Hg Ho Ht Hn Hfit Hsz Hpos] Hle. split; cbn; try done.
  - by rewrite list_lookup_alter, decide_True, Ho by done.
  - rewrite wrapu_small_lt by lia. lia.
Qed.

Lemma read_directory_from fuel c fd q o count buffers acc :
  open_directory c fd q o count -> 0 <= count -> (forall i, count <= Z.of_nat (length (buffers i))) ->
  (length (entries o) < fuel + Z.to_nat (pos_ o))%nat ->
  exists c', read_directory fuel fd count buffers acc c =
    (Ok (Some (acc ++ (view <$> drop (Z.to_nat (pos_ o)) (entries o)))), c').
Proof using Hl.
  intros Hod Hc Hbuf. revert c o acc Hod. induction fuel as [|fuel IH]; intros c o acc Hod Hf.
  { pose proof (od_pos _ _ _ _ _ Hod). lia. }
  cbn [read_directory]. pose proof (getdents_step c fd q o (buffers fuel) count Hod Hc (Hbuf fuel)) as S.
  cbv zeta in S. case_decide as Hend.
  - unfold m_bind. rewrite S. cbn. exists c. by rewrite drop_ge, app_nil_r by lia.
  - destruct S as (n & w & buf' & E & Hn & Hle & Hw & Hd).
    pose proof (open_directory_moved c fd q o count (Z.to_nat (pos_ o) + n) Hod Hle) as Hod'.
    unfold m_bind. rewrite E. cbn [fst snd]. rewrite (proj2 (Z.leb_gt _ _)) by lia. rewrite Hd.
    pose proof (od_size _ _ _ _ _ Hod) as Hsz.
    destruct (IH _ _ (acc ++ (view <$> take n (drop (Z.to_nat (pos_ o)) (entries o)))) Hod') as [c' E'].
    { cbn. rewrite wrapu_small_lt by lia. lia. }
    exists c'. rewrite E'. cbn [entries pos_ set_pos]. rewrite wrapu_small_lt by lia. rewrite Nat2Z.id.
    rewrite <- app_assoc, <- fmap_app, <- drop_drop, take_drop. done.
Qed.
End reading.

(** ** Properties *)

(** C32. Reading a directory to the end: a program that calls [getdents] or
    [getdents64] from the start, with any buffers that hold the longest
    record, and decodes the records it is given, sees every entry of the
    open directory exactly once, in order, with its name and type, and then
    the end of the directory. *)
Theorem getdents_enumerates {N K : Type} (str_hash : str -> Z) (l : layout) (c : client N K)
    (fd : Z) (q : nat) (o : OpenFile) (count : Z) (buffers : nat -> list byte) :
  l = linux_dirent \/ l = linux_dirent64 ->
  FileMap.get (file_map c) fd = Some q -> objects (file_map c) !! q = Some o -> type_ o = directory -> pos_ o = 0 ->
  Forall (fun e => NUL ∉ de_name e /\ reclen l (de_name e) <= Z.min count (2 ^ 16 - 1)) (entries o) ->
  Z.of_nat (length (entries o)) < 2 ^ 64 -> 0 <= count -> (forall i, count <= Z.of_nat (length (buffers i))) ->
  exists c', read_directory str_hash l (S (length (entries o))) fd count buffers [] c =
    (Ok (Some (view <$> entries o)), c').
Proof.
  intros Hl Hg Ho Ht Hp Hn Hsz Hc Hb.
  assert (layout_ok l) as Hlo by (destruct Hl as [-> | ->]; [apply linux_dirent_ok|apply linux_dirent64_ok]).
  destruct (read_directory_from str_hash l Hlo (S (length (entries o))) c fd q o count buffers []) as [c' E]; try done.
  - split; try done; [..|rewrite Hp; lia]; eapply Forall_impl; try done; intros e [He Hr]; [|lia].
    split; [done|]. lia.
  - lia.
  - exists c'. rewrite E, Hp. done.
Qed.

(** ** Witnesses *)

Definition listing : OpenFile :=
  dir_add (s_ "sub") directory (dir_add (s_ "file.txt") regular (new_OpenDir (s_ "/d"))).
Definition listing_client : client () () :=
  MkClient (MkProcess (set_ofm (MkFileMap [listing] {[10000 := 0%nat]} 10001 false) small_context) ()) () 0.

Lemma getdents_enumerates_witness : exists c',
  read_directory (fun _ => 7) linux_dirent64 3 10000 40 (fun _ => replicate 40 "x"%char) [] listing_client =
    (Ok (Some [(s_ "file.txt", 8); (s_ "sub", 4)]), c').
Proof.
  apply (getdents_enumerates (fun _ => 7) linux_dirent64 listing_client 10000 0 listing 40
    (fun _ => replicate 40 "x"%char)).
  - by right.
  - by vm_compute.
  - by vm_compute.
  - done.
  - done.
  - apply (bool_decide_unpack _). by vm_compute.
  - by vm_compute.
  - lia.
  - intros _. by vm_compute.
Defined.
