(* ===== verification/FileSystem.v ===== *)
(** * The whole stack: client operations over a cluster

    [GkfsFunctions] on the network of [Cluster]: a write through a
    descriptor changes the distributed file, the size in the metadata store
    of the file's metadata host and the position of the open file, and what
    was written is read back. *)

From S2P Require Import Prelude Config Distributor Metadata Merge MetadataDB ChunkStorage ChunkPlan SrvData SrvMetadata.
From S2P Require Import Rpc ForwardData ForwardMetadata Cluster OpenFileMap Kernel PreloadContext GkfsFunctions.

Section stack.
Context {D F K : Type} (R : RocksDB D) (P : PosixFS F) (L : PosixFSLaws P).
Context (cfg : config) (junk : Metadata) (st : ChunkStorage) (str_hash : str -> Z) (env : margo_env).
Context (time localhost_ hosts_size : Z).
Local Abbreviation d := (SimpleHashDistributor str_hash localhost_ hosts_size).
Local Abbreviation cluster_net := (ClusterNet (R := R) (P := P) cfg junk st str_hash env time).
Local Abbreviation client := (client (cluster D F) K).
#[local] Existing Instance ClusterNet.

(** The operations on this network. *)
Definition fs_write : Z -> list byte -> Z -> M client Z :=
  gkfs_write (W := cluster_net) cfg d hosts_size.
Definition fs_read : Z -> list byte -> Z -> M client (Z * list byte) :=
  gkfs_read (W := cluster_net) cfg d hosts_size.
Definition fs_lseek : Z -> Z -> Z -> M client Z :=
  gkfs_lseek (W := cluster_net) d hosts_size.

(** ** Updating the size *)

(** The handler always answers, and only the metadata store may change. *)
Lemma update_size_handler path size offset append (s : daemon D F) :
  exists err sz s', rpc_srv_update_metadentry_size true path size offset append s = (Ok (err, sz), s') /\
    storage s' = storage s /\ (err = 0 -> sz = i64 (size + offset)).
Proof.
  unfold rpc_srv_update_metadentry_size, update_size, m_bind at 1, m_assert, m_ret at 1, m_try, m_bind, on_mdb.
  destruct (db_increase_size path (u64 (size + offset)) append (mdb s)) as [[[]|e|] m'] eqn:E; cbn.
  - by eexists _, _, _.
  - exists (match e with NotFoundException => ENOENT | _ => EBUSY end), 0. eexists. split; [done|].
    split; [done|]. by destruct e.
  - exfalso. revert E. unfold db_increase_size, check_write.
    destruct (MergeOp _ _ _) as [[] ?]; done.
Qed.

Lemma forward_update_size path size offset append (n : cluster D F) :
  get_input_ok env = true -> 0 < hosts_size < 2 ^ 32 -> Z.of_nat (length (daemons n)) = hosts_size ->
  let h := locate_file_metadata d path in
  exists s s' err sz, 0 <= h /\ daemons n !! Z.to_nat h = Some s /\
    rpc_srv_update_metadentry_size true path size offset append s = (Ok (err, sz), s') /\ storage s' = storage s /\
    (err = 0 -> sz = i64 (size + offset)) /\
    forward_update_metadentry_size (W := cluster_net) d hosts_size path size offset append 0 n =
      (Ok (if negb (err =? 0) then (fail_with err, 0) else ((0, None), sz)),
       MkCluster (<[Z.to_nat h := s']> (daemons n)) (regions n)).
Proof using.
  intros Hin Hh Hl h.
  assert (0 <= h < hosts_size) as Hr.
  { apply (locate_metadata_range (DistributorOk := SimpleHashDistributor_ok str_hash hosts_size localhost_ Hh)). }
  destruct (lookup_lt_is_Some_2 (daemons n) (Z.to_nat h)) as [s Hs]; [lia|].
  destruct (update_size_handler path size offset append s) as (err & sz & s' & E & Est & Hsz).
  exists s, s', err, sz. split; [lia|]. split; [done|]. split; [done|]. split; [done|]. split; [done|].
  unfold forward_update_metadentry_size, metadata_call.
  assert (host_at hosts_size h n = (Ok h, n)) as Eh.
  { unfold host_at. by rewrite (proj2 (Z.leb_le _ _)), (proj2 (Z.ltb_lt _ _)) by lia. }
  assert (call (W := cluster_net) h (RpcUpdateMetadentrySize path size offset append) n =
    (Ok (Some (err, sz)), MkCluster (<[Z.to_nat h := s']> (daemons n)) (regions n))) as Ec.
  { unfold call, m_bind at 1, net_post. cbn [post ClusterNet]. unfold cluster_post. rewrite Hs. cbn [run_rpc].
    rewrite Hin. unfold m_bind at 1. rewrite E. done. }
  fold h. unfold m_bind. rewrite Eh, Ec. cbn. by destruct (err =? 0).
Qed.

(** Replacing a daemon by one with the same files. *)
Lemma same_files_insert h s s' (n : cluster D F) :
  daemons n !! Z.to_nat h = Some s -> storage s' = storage s ->
  same_files n (MkCluster (<[Z.to_nat h := s']> (daemons n)) (regions n)).
Proof using.
  intros Hs Est x q. cbn. destruct (decide (x = Z.to_nat h)) as [->|].
  - rewrite list_lookup_insert_eq, Hs by (by eapply lookup_lt_Some). csimpl. by rewrite Est.
  - by rewrite list_lookup_insert_ne by done.
Qed.

(** ** Running client code *)

Lemma on_net_inv {A} (f : M (cluster D F) A) (c c' : client) a :
  on_net f c = (Ok a, c') -> f (net c) = (Ok a, net c') /\ proc c' = proc c.
Proof using. unfold on_net. destruct (f (net c)) as [r n]. by intros [= -> <-]. Qed.

Lemma finish_with_inv (r : result) (c c' : client) v :
  finish_with r c = (Ok v, c') -> v = r.1 /\ proc c' = proc c /\ net c' = net c.
Proof using. destruct r as [x [e|]]; unfold finish_with, set_errno, m_bind, m_modify, m_ret; by intros [= <- <-]. Qed.

(** ** Writing at a position *)

(** A complete [gkfs_pwrite] on a regular file: the size was updated on the
    metadata host, and then the data written. *)
Lemma pwrite_complete (c c' : client) q o buf offset size :
  data_ok cfg st env hosts_size offset size (path_ o) -> Z.of_nat (length (daemons (net c))) = hosts_size ->
  objects (file_map c) !! q = Some o -> type_ o = regular -> get_flag o OpenFile_flags.append = false ->
  gkfs_pwrite (W := cluster_net) cfg d hosts_size q buf size offset c = (Ok size, c') ->
  proc c' = proc c /\
  exists s s' e, let h := locate_file_metadata d (path_ o) in
    let n1 := MkCluster (<[Z.to_nat h := s']> (daemons (net c))) (regions (net c)) in
    0 <= h /\ daemons (net c) !! Z.to_nat h = Some s /\
    handle_md cfg junk st (ReqUpdateSize (path_ o) size offset false) s = (Ok 0, s') /\ storage s' = storage s /\
    forward_write (W := cluster_net) cfg d hosts_size (path_ o) buf false offset size (offset + size) n1 =
      (Ok (size, e), net c').
Proof using.
  intros Hd Hl Ho Ht Ha. pose proof (do_size _ _ _ _ _ _ _ Hd) as Hsz. pose proof (do_end _ _ _ _ _ _ _ Hd) as Hend.
  pose proof (do_offset _ _ _ _ _ _ _ Hd) as Hoff.
  destruct (forward_update_size (path_ o) size offset false (net c) (eo_input _ (do_env _ _ _ _ _ _ _ Hd))
    (do_hosts _ _ _ _ _ _ _ Hd) Hl) as (s & s' & err & sz & Hh & Hs & E & Est & Hr & Ef).
  intros E0. unfold gkfs_pwrite in E0. apply m_bind_inv in E0 as (o' & c0 & Eo & E0).
  unfold file_at in Eo. rewrite Ho in Eo. injection Eo as <- <-.
  destruct (decide (type_ o <> regular)) as [|_]; [done|]. rewrite Ha in E0.
  apply m_bind_inv in E0 as (out & c1 & [E1 P1]%on_net_inv & E0). rewrite Ef in E1. injection E1 as <- N1.
  apply m_bind_inv in E0 as (v & c2 & (-> & P2 & N2)%finish_with_inv & E0).
  destruct (Z.eqb_spec err 0) as [->|Hne]; cbn in E0.
  2:{ injection E0 as E0 _. lia. }
  apply m_bind_inv in E0 as (out & c3 & [E3 P3]%on_net_inv & (Esz & P4 & N4)%finish_with_inv).
  rewrite (Hr eq_refl), wraps_small, (Z.add_comm size offset), N2, <- N1 in E3 by (lia || int_solve).
  split; [congruence|]. exists s, s'. destruct out as [r e]. cbn in Esz. subst r. exists e.
  split; [done|]. split; [done|].
  split; [|by rewrite N4]. cbn [handle_md]. unfold m_bind. by rewrite E.
Qed.

(** An open regular file at position [offset]. *)
Record open_regular_at (c : client) (fd : Z) (q : nat) (o : OpenFile) (offset : Z) : Prop := {
  or_fd : FileMap.get (file_map c) fd = Some q;
  or_object : objects (file_map c) !! q = Some o;
  or_type : type_ o = regular;
  or_append : get_flag o OpenFile_flags.append = false;
  or_pos : pos_ o = offset
}.

(** The client after [pos(v)] on object [q]. *)
Definition moved (q : nat) (v : Z) (p : process K) : process K :=
  MkProcess (set_ofm (FileMap.update_object q (set_pos v) (ofm_ (ctx p))) (ctx p)) (os p).

Lemma open_regular_moved (c c' : client) fd q o offset v :
  open_regular_at c fd q o offset -> proc c' = moved q v (proc c) ->
  open_regular_at c' fd q (set_pos v o) (u64 v).
Proof using.
  intros [Hg Ho Ht Ha Hp] E.
  split; unfold file_map in *; rewrite ?E; cbn; try done. by rewrite list_lookup_alter, decide_True, Ho by done.
Qed.

Lemma get_open_inv (c c' : client) fd q p : FileMap.get (file_map c) fd = Some q ->
  get_open fd c = (Ok p, c') -> p = q /\ c' = c.
Proof using. intros H. unfold get_open. rewrite H. by intros [= <- <-]. Qed.

Lemma file_at_inv (c c' : client) q o o' : objects (file_map c) !! q = Some o ->
  file_at q c = (Ok o', c') -> o' = o /\ c' = c.
Proof using. intros H. unfold file_at. rewrite H. by intros [= <- <-]. Qed.

Lemma write_complete (c c' : client) fd q o buf offset size :
  open_regular_at c fd q o offset -> 0 < size -> in_s 64 offset ->
  fs_write fd buf size c = (Ok size, c') ->
  exists c1, gkfs_pwrite (W := cluster_net) cfg d hosts_size q buf size offset c = (Ok size, c1) /\
    proc c' = moved q (offset + size) (proc c1) /\ net c' = net c1.
Proof using.
  intros [Hg Ho Ht Ha Hp] Hs Hoff E. unfold fs_write, gkfs_write in E.
  m_inv E. apply (get_open_inv _ _ _ _ _ Hg) in E0 as [-> ->].
  m_inv E. apply (file_at_inv _ _ _ _ _ Ho) in E0 as [-> ->]. rewrite Ha in E.
  m_inv E. injection E0 as <- <-. rewrite Hp, wraps_small in E by (lia || done).
  m_inv E. rename a into ret, s into c1. m_inv E. injection E as -> ->.
  exists c1. split; [done|]. rewrite (proj2 (Z.ltb_lt 0 size)) in E1 by done.
  unfold pos, m_modify in E1. injection E1 as <- <-. done.
Qed.

(** The data, the metadata and the position after a complete write. *)
Lemma write_effect (LD : RocksDBLaws R (FullMergeV2 cfg junk)) (c c' : client) fd q o buf offset size :
  data_ok cfg st env hosts_size offset size (path_ o) -> Z.of_nat (length (daemons (net c))) = hosts_size ->
  size <= Z.of_nat (length buf) -> open_regular_at c fd q o offset ->
  fs_write fd buf size c = (Ok size, c') ->
  let path := path_ o in
  let h := Z.to_nat (locate_file_metadata d path) in
  length (daemons (net c')) = length (daemons (net c)) /\
  (forall x, offset <= x < offset + size -> flat cfg st d (net c') path x = buf !! Z.to_nat (x - offset)) /\
  (forall x b, 0 <= x -> ~ (offset <= x < offset + size) -> x / chunksize cfg < 2 ^ 32 ->
     flat cfg st d (net c) path x = Some b -> flat cfg st d (net c') path x = Some b) /\
  (forall s m md, daemons (net c) !! h = Some s -> db_rel cfg (mdb s) m -> m !! path = Some md ->
     0 <= size_ md < 2 ^ 63 -> exists s', daemons (net c') !! h = Some s' /\
       db_rel cfg (mdb s') (<[path := set_size (Z.max (offset + size) (size_ md)) md]> m)) /\
  proc c' = moved q (offset + size) (proc c).
Proof using L.
  intros Hd Hl Hbuf Hor E path h. destruct (Hd) as [Hf (k & Hk & Hcs) Hst He Hh Ho Hs Hb H32 Hp].
  destruct (write_complete c c' fd q o buf offset size Hor Hs ltac:(int_solve) E) as (c1 & Ep & Hproc & Hnet).
  destruct (pwrite_complete c c1 q o buf offset size Hd Hl (or_object _ _ _ _ _ Hor) (or_type _ _ _ _ _ Hor)
    (or_append _ _ _ _ _ Hor) Ep) as (P1 & s & s' & e & Hh0 & Hsd & Emd & Est & Ew).
  set (n1 := MkCluster (<[Z.to_nat (locate_file_metadata d (path_ o)) := s']> (daemons (net c))) (regions (net c))) in *.
  apply (forward_write_flat cfg junk st str_hash env time localhost_ hosts_size k offset size (path_ o)
    Hf Hk Hcs Hst He Hh Ho Hs Hb H32 Hp) in Ew as (L1 & Hmdb & Hin & Hout & _); [|cbn; by rewrite length_insert|done].
  cbn in L1. rewrite length_insert in L1. rewrite Hnet.
  pose proof (same_files_insert _ s s' (net c) Hsd Est) as Hsame. fold n1 in Hsame.
  split; [done|]. split; [done|]. split; [|split; [|by rewrite Hproc, P1]].
  - intros x b H0 Hx Hid Hold. apply Hout; [done..|].
    by rewrite (same_files_flat cfg st str_hash localhost_ hosts_size path (net c)).
  - intros s0 m md Hs0 Hr Hm Hsz. unfold h, path in *. rewrite Hsd in Hs0. injection Hs0 as <-.
    specialize (Hmdb _ Hh0). unfold n1 in Hmdb. cbn in Hmdb.
    rewrite list_lookup_insert_eq in Hmdb by (by eapply lookup_lt_Some).
    destruct (daemons (net c1) !! _) as [s2|] eqn:Es2; [|done]. injection Hmdb as Hmdb.
    exists s2. split; [done|]. rewrite Hmdb.
    assert (u64 (size + offset) = offset + size) as Eu by (rewrite wrapu_small by int_solve; lia).
    apply (handle_md_sim cfg junk st (ReqUpdateSize (path_ o) size offset false) s s' m) in Emd; [|done|].
    + cbn [request_op abs_op] in Emd. rewrite Eu in Emd.
      by rewrite (alter_partial _ _ _ _ Hm) in Emd.
    + cbn [request_pre request_op op_pre]. rewrite Eu. split; [int_solve|]. exists md. split; [done|]. lia.
Qed.

(** Seeking to an absolute position always works. *)
Lemma lseek_set (c : client) fd q o offset v :
  open_regular_at c fd q o offset -> 0 <= v < 2 ^ 63 ->
  exists c', fs_lseek fd v SEEK_SET c = (Ok v, c') /\ net c' = net c /\ proc c' = moved q v (proc c).
Proof using.
  intros [Hg Ho Ht Ha Hp] Hv.
  exists (MkClient (moved q v (proc c)) (net c) (errno c)). split; [|done].
  unfold fs_lseek, gkfs_lseek, gkfs_lseek_file, m_bind, get_open. rewrite Hg. unfold file_at at 1. rewrite Ho.
  cbn [Z.eqb SEEK_SET]. unfold pos, m_modify, file_at, file_map, set_file_map in *. cbn.
  rewrite list_lookup_alter, decide_True, Ho by done. cbn. unfold m_ret.
  by rewrite wrapu_small, wraps_small by int_solve.
Qed.

Lemma read_complete (c c' : client) fd q o buf offset size r buf' :
  open_regular_at c fd q o offset -> in_s 64 offset -> zero_buffer_before_read cfg = false ->
  fs_read fd buf size c = (Ok (r, buf'), c') ->
  exists e n', forward_read (W := cluster_net) cfg d hosts_size (path_ o) buf offset size (net c) = (Ok ((r, e), buf'), n') /\
    (0 < r -> proc c' = moved q (offset + r) (proc c)).
Proof using.
  intros [Hg Ho Ht Ha Hp] Hoff Hz E. unfold fs_read, gkfs_read in E.
  m_inv E. apply (get_open_inv _ _ _ _ _ Hg) in E0 as [-> ->].
  m_inv E. apply (file_at_inv _ _ _ _ _ Ho) in E0 as [-> ->].
  rewrite Hp, wraps_small in E by (lia || done).
  apply m_bind_inv in E as (out & c1 & Er & E). m_inv E. injection E as -> ->.
  unfold gkfs_pread in Er. m_inv Er. apply (file_at_inv _ _ _ _ _ Ho) in E as [-> ->].
  destruct (decide (type_ o <> regular)) as [|_]; [done|]. rewrite Hz in Er.
  apply m_bind_inv in Er as (out & c2 & [E2 P2]%on_net_inv & Er).
  apply m_bind_inv in Er as (v & c3 & (-> & P3 & N3)%finish_with_inv & Er). injection Er as <- <- <-.
  destruct out as [[r e] b]. exists e, (net c2). split; [done|]. intros Hr.
  rewrite (proj2 (Z.ltb_lt _ _)) in E0 by done.
  unfold pos, m_modify in E0. injection E0 as <- <-. unfold moved. by rewrite <- P2, <- P3.
Qed.

(** Reading what the distributed file holds. *)
Lemma read_back (c c' : client) fd q o buf buf0 buf' offset size r :
  data_ok cfg st env hosts_size offset size (path_ o) -> Z.of_nat (length (daemons (net c))) = hosts_size ->
  size <= Z.of_nat (length buf) -> size <= Z.of_nat (length buf0) -> zero_buffer_before_read cfg = false ->
  open_regular_at c fd q o offset ->
  (forall x, offset <= x < offset + size -> flat cfg st d (net c) (path_ o) x = buf !! Z.to_nat (x - offset)) ->
  fs_read fd buf0 size c = (Ok (r, buf'), c') -> 0 < r ->
  r = size /\ take (Z.to_nat size) buf' = take (Z.to_nat size) buf /\ proc c' = moved q (offset + size) (proc c).
Proof using L.
  intros Hd Hl Hbuf Hbuf0 Hz Hor H1 E Hr. pose proof Hd as [Hf (k & Hk & Hcs) Hst He Hh Ho Hs Hb H32 Hp].
  destruct (read_complete c c' fd q o buf0 offset size r buf' Hor ltac:(int_solve) Hz E) as (e & n' & Er & P3).
  apply (forward_read_flat cfg junk st str_hash env time localhost_ hosts_size k offset size (path_ o)
    Hf Hk Hcs Hst He Hh Ho Hs Hb H32 Hp) in Er as (-> & _ & _ & Hbytes); [|lia|done| |lia].
  2:{ intros y Hy. rewrite H1 by done. apply lookup_lt_is_Some. lia. }
  split; [done|]. split; [|by apply P3]. apply list_eq. intros i.
  destruct (decide (i < Z.to_nat size)%nat); [|by rewrite !lookup_take_ge by lia].
  rewrite !lookup_take_lt by done. specialize (Hbytes (Z.of_nat i) ltac:(lia)).
  rewrite Nat2Z.id in Hbytes. rewrite Hbytes, H1 by lia. f_equal. lia.
Qed.

(** C2. Writing through a descriptor, end to end: when [gkfs_write] returns
    the full size, the distributed file holds the bytes at the position the
    descriptor had and keeps its other bytes, the metadata host's store maps
    the path to the same entry with the size extended to the end of the
    write, and the position of the open file moved by the size. *)
Theorem write_extends_file (LD : RocksDBLaws R (FullMergeV2 cfg junk)) (c c' : client) (fd : Z) (q : nat)
    (o : OpenFile) (buf : list byte) (offset size : Z) :
  data_ok cfg st env hosts_size offset size (path_ o) -> Z.of_nat (length (daemons (net c))) = hosts_size ->
  size <= Z.of_nat (length buf) -> open_regular_at c fd q o offset ->
  fs_write fd buf size c = (Ok size, c') ->
  (forall x, offset <= x < offset + size -> flat cfg st d (net c') (path_ o) x = buf !! Z.to_nat (x - offset)) /\
  (forall x b, 0 <= x -> ~ (offset <= x < offset + size) -> x / chunksize cfg < 2 ^ 32 ->
     flat cfg st d (net c) (path_ o) x = Some b -> flat cfg st d (net c') (path_ o) x = Some b) /\
  (forall s m md, daemons (net c) !! Z.to_nat (locate_file_metadata d (path_ o)) = Some s ->
     db_rel cfg (mdb s) m -> m !! path_ o = Some md -> 0 <= size_ md < 2 ^ 63 ->
     exists s', daemons (net c') !! Z.to_nat (locate_file_metadata d (path_ o)) = Some s' /\
       db_rel cfg (mdb s') (<[path_ o := set_size (Z.max (offset + size) (size_ md)) md]> m)) /\
  FileMap.get_file (file_map c') fd = Some (set_pos (offset + size) o).
Proof using L.
  intros Hd Hl Hbuf Hor E.
  destruct (write_effect LD c c' fd q o buf offset size Hd Hl Hbuf Hor E) as (_ & H1 & H2 & H3 & Hp).
  split; [done|]. split; [done|]. split; [done|].
  destruct (open_regular_moved c c' fd q o offset _ Hor Hp) as [Hg Ho _ _ _].
  unfold FileMap.get_file. by rewrite Hg.
Qed.

(** Writing, seeking back and reading: the read returns the bytes that
    were written and leaves the position at their end, unless it reports an
    error. *)
Theorem write_seek_read (LD : RocksDBLaws R (FullMergeV2 cfg junk)) (c c' : client) (fd : Z) (q : nat)
    (o : OpenFile) (buf buf0 buf' : list byte) (offset size at_ r : Z) :
  data_ok cfg st env hosts_size offset size (path_ o) -> Z.of_nat (length (daemons (net c))) = hosts_size ->
  size <= Z.of_nat (length buf) -> size <= Z.of_nat (length buf0) -> zero_buffer_before_read cfg = false ->
  open_regular_at c fd q o offset ->
  (let* w := fs_write fd buf size in
   let* x := fs_lseek fd offset SEEK_SET in
   let* y := fs_read fd buf0 size in m_ret (w, x, y)) c = (Ok (size, at_, (r, buf')), c') -> 0 < r ->
  at_ = offset /\ r = size /\ take (Z.to_nat size) buf' = take (Z.to_nat size) buf /\
  FileMap.get_file (file_map c') fd = Some (set_pos (offset + size) o).
Proof using L.
  intros Hd Hl Hbuf Hbuf0 Hz Hor E Hr. pose proof Hd as [Hf (k & Hk & Hcs) Hst He Hh Ho Hs Hb H32 Hp].
  apply m_bind_inv in E as (w & c1 & Ew & E). apply m_bind_inv in E as (x & c2 & Ex & E).
  apply m_bind_inv in E as (y & c3 & Ey & E). injection E as -> -> -> ->.
  destruct (write_effect LD c c1 fd q o buf offset size Hd Hl Hbuf Hor Ew) as (L1 & H1 & _ & _ & P1).
  pose proof (open_regular_moved c c1 fd q o offset _ Hor P1) as Hor1.
  destruct (lseek_set c1 fd q _ _ offset Hor1 ltac:(lia)) as (c2' & Ex' & N2 & P2).
  rewrite Ex' in Ex. injection Ex as <- <-. split; [done|].
  pose proof (open_regular_moved c1 c2' fd q _ _ _ Hor1 P2) as Hor2.
  rewrite wrapu_small in Hor2 by int_solve.
  destruct (read_back c2' c' fd q (set_pos offset (set_pos (offset + size) o)) buf buf0 buf' offset size r Hd
    ltac:(rewrite N2; lia) Hbuf Hbuf0 Hz Hor2) as (-> & Hb' & P3);
    [by rewrite N2|done|done|].
  split; [done|]. split; [done|].
  destruct (open_regular_moved c2' c' fd q _ _ _ Hor2 P3) as [Hg Hob _ _ _].
  unfold FileMap.get_file. rewrite Hg. cbn. rewrite Hob. done.
Qed.
End stack.

(** ** Witnesses *)

Local Abbreviation small_net :=
  (ClusterNet (R := MemDB (FullMergeV2 small_config example_md)) (P := MemFS)
     small_config example_md small_store last_char_hash good_env 0).
Local Abbreviation small_d := (SimpleHashDistributor last_char_hash 0 2).

(** The file [/f] open as 10000 at position 3. *)
Definition small_file : OpenFile := set_pos 3 (new_OpenFile (s_ "/f") O_RDWR regular).
Definition small_client : client (cluster (gmap str db_entry) memfs) () :=
  MkClient (MkProcess (set_ofm (MkFileMap [small_file] {[10000 := 0%nat]} 10001 false) small_context) ())
    example_cluster 0.

Local Abbreviation small_fs f :=
  (f (gmap str db_entry) memfs unit (MemDB (FullMergeV2 small_config example_md)) MemFS
     small_config example_md small_store last_char_hash good_env 0 0 2).
Local Abbreviation small_fs_write := (small_fs (@fs_write) 10000 (s_ "abcdefghij") 10 small_client).
Local Abbreviation small_program :=
  ((let* w := small_fs (@fs_write) 10000 (s_ "abcdefghij") 10 in
    let* x := small_fs (@fs_lseek) 10000 3 SEEK_SET in
    let* y := small_fs (@fs_read) 10000 (s_ "..........") 10 in m_ret (w, x, y)) small_client).

Lemma small_fs_write_ok : small_fs_write.1 = Ok 10.
Proof. vm_compute. reflexivity. Qed.

Lemma small_program_ok : small_program.1 = Ok (10, 3, (10, s_ "abcdefghij")).
Proof. vm_compute. reflexivity. Qed.

Lemma small_open : open_regular_at small_client 10000 0 small_file 3.
Proof. split; by vm_compute. Qed.

Lemma write_extends_file_witness :
  flat small_config small_store small_d (net small_fs_write.2) (s_ "/f") 12 = s_ "abcdefghij" !! Z.to_nat (12 - 3).
Proof.
  refine (proj1 (write_extends_file (MemDB (FullMergeV2 small_config example_md)) MemFS _
    small_config example_md small_store last_char_hash good_env 0 0 2 (MemDB_laws _) small_client small_fs_write.2
    10000 0 small_file (s_ "abcdefghij") 3 10 small_data_ok eq_refl _ small_open _) 12 _).
  - simpl. lia.
  - by rewrite <- small_fs_write_ok, <- surjective_pairing.
  - lia.
Defined.

Lemma write_seek_read_witness :
  FileMap.get_file (file_map small_program.2) 10000 = Some (set_pos (3 + 10) small_file).
Proof.
  refine (proj2 (proj2 (proj2 (write_seek_read (MemDB (FullMergeV2 small_config example_md)) MemFS _
    small_config example_md small_store last_char_hash good_env 0 0 2 (MemDB_laws _) small_client small_program.2
    10000 0 small_file (s_ "abcdefghij") (s_ "..........") (s_ "abcdefghij") 3 10 3 10
    small_data_ok eq_refl _ _ eq_refl small_open _ _)))).
  - simpl. lia.
  - simpl. lia.
  - by rewrite <- small_program_ok, <- surjective_pairing.
  - lia.
Defined.
