(* ===== verification/FileNamespace.v ===== *)
(** * Files and directories over a cluster

    The path operations of [GkfsFunctions] on the namespace of a cluster:
    what [get_metadata], [gkfs_stat], [gkfs_create], [gkfs_open],
    [gkfs_opendir], [gkfs_remove] and [gkfs_rmdir] return and how they change
    the map of [Namespace]. *)

From S2P Require Import Prelude Config Distributor PathUtil Metadata Merge MetadataDB ChunkStorage SrvData SrvMetadata.
From S2P Require Import Rpc ForwardData ForwardMetadata Cluster Namespace OpenFileMap Kernel PreloadContext GkfsFunctions.

Section files.
Context {D F K : Type} {R : RocksDB D} {P : PosixFS F} (cfg : config) (junk : Metadata) (st : ChunkStorage).
Context (str_hash : str -> Z) (env : margo_env) (time : Z) (d : Distributor) (hosts_size : Z) (link_fuel : nat).
Context {Hd : DistributorOk hosts_size d} {L : RocksDBLaws R (FullMergeV2 cfg junk)}.
(** The daemons get their requests and can read their stores. *)
Context (Henv : env_ok env) (Hio : forall db : D, reads_ok db).
Local Abbreviation cnet := (ClusterNet (R := R) (P := P) cfg junk st str_hash env time).
Local Abbreviation client := (client (cluster D F) K).
Local Abbreviation ns c m := (ns_rel (R := R) cfg d hosts_size (net c) m).

(** The client with another [errno] or network. *)
Definition with_errno_ (e : Z) (c : client) : client := MkClient (proc c) (net c) e.
Definition with_net (n : cluster D F) (c : client) : client := MkClient (proc c) n (errno c).

Lemma on_net_run {A} (f : M (cluster D F) A) (c : client) r n :
  f (net c) = (r, n) -> on_net f c = (r, with_net n c).
Proof using. clear. unfold on_net. by intros ->. Qed.

Lemma with_net_id (c : client) : with_net (net c) c = c.
Proof using. clear. by destruct c. Qed.

Lemma finish_with_run (r : result) (c : client) :
  finish_with r c = (Ok r.1, match r.2 with None => c | Some e => with_errno_ e c end).
Proof using. clear. by destruct r as [v [e|]]. Qed.

Lemma ns_wf (c : client) m p md : ns c m -> m !! p = Some md -> md_wf md.
Proof using Hd.
  intros Hr Hm. destruct (ns_host cfg d hosts_size (net c) m p Hr) as [s Hs].
  destruct (ns_entry_view cfg d hosts_size (net c) m p s Hr Hs) as (v & Hv & _ & Ev).
  pose proof (Hv p) as He. rewrite Ev, Hm in He. by eapply entry_of_wf.
Qed.

(** ** Looking up a path *)

Lemma get_metadata_run (c : client) m path :
  ns c m ->
  get_metadata (W := cnet) cfg d hosts_size junk link_fuel path false c =
    (Ok (restrict cfg junk <$> m !! path), if m !! path is Some _ then c else with_errno_ ENOENT c).
Proof using Hd L Henv Hio.
  intros Hr. unfold get_metadata, m_bind at 1.
  rewrite (on_net_run _ c _ _ (ns_stat_sim cfg junk st str_hash env time d hosts_size (net c) m path []
    Hr (eo_input _ Henv) ltac:(intros ???; apply Hio))).
  rewrite with_net_id, andb_false_r.
  destruct (m !! path) as [md|] eqn:Hm; cbn [fst snd]; unfold m_bind; rewrite finish_with_run; cbn [fst snd]; [|done].
  cbn -[Metadata_parse serialize]. unfold m_lift. rewrite parse_serialize by (by eapply ns_wf). done.
Qed.

(** A chain of at most [k] links from [md] to an entry that is no link. *)
Inductive leads_to (m : gmap str Metadata) : nat -> Metadata -> Metadata -> Prop :=
| leads_here k md : is_link md = false -> leads_to m k md md
| leads_on k md t md1 md2 : is_link md = true -> target_path_ md = t -> t <> [] ->
    m !! t = Some md1 -> leads_to m k md1 md2 -> leads_to m (S k) md md2.

Lemma follow_run (c : client) m k md1 md2 :
  ns c m -> has_symlinks cfg = true -> md_wf md1 -> leads_to m k md1 md2 -> forall fuel, (k <= fuel)%nat ->
  follow (W := cnet) cfg d hosts_size junk fuel (serialize cfg md1) c = (Ok (Some (serialize cfg md2)), c).
Proof using Hd L Henv Hio.
  intros Hr Hs Hw Hl. revert Hw. induction Hl as [k md Hk|k md t md1 md2 Hk Ht Hne Hm Hl IH]; intros Hw fuel Hf.
  - destruct fuel; cbn [follow]; unfold m_bind, m_lift; rewrite parse_serialize by done;
      unfold is_link in *; cbn; by rewrite Hk.
  - destruct fuel as [|fuel]; [lia|]. cbn [follow]. unfold m_bind at 1, m_lift at 1. rewrite parse_serialize by done.
    unfold is_link in *. cbn [restrict mode_]. rewrite Hk. unfold m_bind at 1, m_lift, target_path.
    cbn [restrict target_path_]. rewrite Hs, Ht, bool_decide_eq_true_2 by done. cbn [assert_].
    unfold m_bind at 1.
    rewrite (on_net_run _ c _ _ (ns_stat_sim cfg junk st str_hash env time d hosts_size (net c) m t _
      Hr (eo_input _ Henv) ltac:(intros ???; apply Hio))).
    rewrite with_net_id, Hm. unfold m_bind. cbn [fst snd]. rewrite finish_with_run. cbn [fst snd negb Z.eqb].
    apply IH; [by eapply ns_wf|lia].
Qed.

(** Following links finds the entry at the end of the chain. *)
Lemma get_metadata_follow (c : client) m path md1 md2 k :
  ns c m -> has_symlinks cfg = true -> m !! path = Some md1 -> leads_to m k md1 md2 -> (k <= link_fuel)%nat ->
  get_metadata (W := cnet) cfg d hosts_size junk link_fuel path true c = (Ok (Some (restrict cfg junk md2)), c).
Proof using Hd L Henv Hio.
  intros Hr Hs Hm Hl Hk. unfold get_metadata, m_bind at 1.
  rewrite (on_net_run _ c _ _ (ns_stat_sim cfg junk st str_hash env time d hosts_size (net c) m path []
    Hr (eo_input _ Henv) ltac:(intros ???; apply Hio))).
  rewrite with_net_id, Hm, Hs. cbn [fst snd andb]. unfold m_bind at 1. rewrite finish_with_run. cbn [fst snd negb Z.eqb].
  unfold m_bind at 1. assert (md_wf md1) as W1 by (by eapply ns_wf).
  rewrite (follow_run c m k md1 md2) by done. unfold m_bind, m_lift. rewrite parse_serialize; [done|].
  clear Hm. revert W1. induction Hl as [|k md t md1' md2 ? ? ? Hm' Hl IH]; intros W1; [done|].
  apply IH; [lia|by eapply ns_wf].
Qed.

(** On a path that is no link, following links makes no difference. *)
Lemma get_metadata_plain (c : client) m path follow_links :
  ns c m -> (forall md, m !! path = Some md -> is_link md = false) ->
  get_metadata (W := cnet) cfg d hosts_size junk link_fuel path follow_links c =
    (Ok (restrict cfg junk <$> m !! path), if m !! path is Some _ then c else with_errno_ ENOENT c).
Proof using Hd L Henv Hio.
  intros Hr Hl. destruct follow_links; [|by apply get_metadata_run].
  destruct (has_symlinks cfg) eqn:Hs.
  2:{ rewrite <- get_metadata_run by done. unfold get_metadata. by rewrite Hs. }
  destruct (m !! path) as [md|] eqn:Hm.
  - apply (get_metadata_follow c m path md md 0); [done..| |lia]. constructor. by apply Hl.
  - unfold get_metadata, m_bind at 1.
    rewrite (on_net_run _ c _ _ (ns_stat_sim cfg junk st str_hash env time d hosts_size (net c) m path []
      Hr (eo_input _ Henv) ltac:(intros ???; apply Hio))).
    rewrite with_net_id, Hm. unfold m_bind. cbn [fst snd]. by rewrite finish_with_run.
Qed.

(** The fields [metadata_to_stat] takes from the entry. *)
Definition stat_of (c : client) (path : str) (md : Metadata) : res stat :=
  metadata_to_stat cfg str_hash (ctx (proc c)) path (restrict cfg junk md).

Lemma gkfs_stat_run (c : client) m path :
  ns c m ->
  gkfs_stat (W := cnet) cfg d hosts_size str_hash junk link_fuel path false c =
    match m !! path with
    | None => (Ok (-1, None), with_errno_ ENOENT c)
    | Some md => match stat_of c path md with
                 | Ok s => (Ok (0, Some s), c)
                 | Throw e => (Throw e, c)
                 | Trap => (Trap, c)
                 end
    end.
Proof using Hd L Henv Hio.
  intros Hr. unfold gkfs_stat, m_bind at 1. rewrite (get_metadata_run c m path Hr).
  destruct (m !! path) as [md|]; [|done]. unfold m_bind, m_get, m_lift, stat_of.
  cbn [fmap option_fmap option_map]. by destruct (metadata_to_stat _ _ _ _ _).
Qed.

(** ** Creating *)

(** The mode [gkfs_create] sends. *)
Definition create_mode (mode : Z) : Z := if Z.land mode S_IFMT =? 0 then Z.lor mode S_IFREG else mode.

Definition parent_ok (m : gmap str Metadata) (path : str) : Prop :=
  create_check_parents cfg = true ->
  exists parent md, dirname path = Ok parent /\ m !! parent = Some md /\ S_ISDIR (mode_ md) = true.

Lemma check_parent_dir_run (c c' : client) m path r :
  ns c m -> check_parent_dir (W := cnet) cfg d hosts_size junk link_fuel path c = (Ok r, c') ->
  proc c' = proc c /\ net c' = net c /\ (r = 0 /\ c' = c /\ parent_ok m path \/ r = -1).
Proof using Hd L Henv Hio.
  intros Hr. unfold check_parent_dir, parent_ok. destruct (create_check_parents cfg); [|intros [= <- <-]; split; [done|]; split; [done|]; by left].
  unfold m_bind at 1, m_lift. destruct (dirname path) as [parent| |]; [|done..].
  unfold m_bind at 1. rewrite (get_metadata_run c m parent Hr).
  destruct (m !! parent) as [md|] eqn:Hm; cbn [fmap option_fmap option_map].
  2:{ intros [= <- <-]. auto. }
  cbn [restrict mode_]. destruct (S_ISDIR (mode_ md)) eqn:Hdir; cbn [negb].
  - intros [= <- <-]. split; [done|]. split; [done|]. left. split; [done|]. split; [done|]. intros _. eauto.
  - unfold fail. rewrite finish_with_run. intros [= <- <-]. auto.
Qed.

Lemma gkfs_create_run (c c' : client) m path mode r :
  ns c m -> gkfs_create (W := cnet) cfg d hosts_size junk link_fuel path mode c = (Ok r, c') ->
  proc c' = proc c /\
  (net c' = net c /\ r = -1 \/
   parent_ok m path /\ (S_ISREG (create_mode mode) = true \/ S_ISDIR (create_mode mode) = true) /\
   exists e, ns_forward cfg junk st str_hash env time d hosts_size (NsCreate path (create_mode mode)) (net c) =
     (Ok (r, e), net c')).
Proof using Hd L Henv Hio.
  intros Hr E. unfold gkfs_create in E. unfold create_mode.
  set (kind := Z.land mode S_IFMT) in *.
  assert (forall md, (let* r := check_parent_dir (W := cnet) cfg d hosts_size junk link_fuel path in
      if negb (r =? 0) then m_ret (-1) else
      let* out := on_net (forward_create (W := cnet) d hosts_size path md) in finish_with out) c = (Ok r, c') ->
    (S_ISREG md = true \/ S_ISDIR md = true) ->
    proc c' = proc c /\ (net c' = net c /\ r = -1 \/
      parent_ok m path /\ (S_ISREG md = true \/ S_ISDIR md = true) /\
      exists e, ns_forward cfg junk st str_hash env time d hosts_size (NsCreate path md) (net c) =
        (Ok (r, e), net c'))) as Hmk.
  { intros md E' Hmd. apply m_bind_inv in E' as (x & c1 & E1 & E').
    destruct (check_parent_dir_run c c1 m path x Hr E1) as (P1 & N1 & [(-> & -> & Hp)| ->]).
    2:{ cbn in E'. injection E' as <- <-. auto. }
    cbn [negb Z.eqb] in E'. apply m_bind_inv in E' as (out & c2 & E2 & E').
    unfold on_net in E2. destruct (forward_create d hosts_size path md (net c)) as [r2 n2] eqn:Ef.
    injection E2 as -> <-. rewrite finish_with_run in E'.
    destruct out as [v e]. injection E' as <- <-. cbn [fst snd]. split; [by destruct e|]. right. split; [done|].
    split; [done|]. exists e. cbn [ns_forward]. rewrite Ef. by destruct e. }
  destruct (Z.eqb_spec kind 0) as [Hk|Hk].
  { apply Hmk; [done|]. left. unfold S_ISREG, S_IFREG. rewrite Z.land_lor_distr_l. unfold kind in Hk. rewrite Hk. done. }
  destruct ((kind =? S_IFREG) || (kind =? S_IFDIR)) eqn:Hkind.
  { apply Hmk; [done|]. apply orb_true_iff in Hkind as [Hk'|Hk']; [by left|by right]. }
  split.
  - repeat destruct (_ || _); unfold fail in E; rewrite finish_with_run in E; by injection E as _ <-.
  - left. repeat destruct (_ || _); unfold fail in E; rewrite finish_with_run in E; by injection E as <- <-.
Qed.

Lemma create_mode_range mode : in_u 32 mode -> in_u 32 (create_mode mode).
Proof using.
  clear. intros H. unfold create_mode. destruct (_ =? _); [|done]. by apply lor_range.
Qed.

(** A creation that returned 0 put the entry there, or found one. *)
Lemma gkfs_create_effect (c c' : client) m path mode :
  ns c m -> in_s 64 time -> in_u 32 mode ->
  gkfs_create (W := cnet) cfg d hosts_size junk link_fuel path mode c = (Ok 0, c') ->
  proc c' = proc c /\ parent_ok m path /\
  ns c' (abs_op (OpCreate path (stamped cfg time (fresh_md (create_mode mode) []))) m).
Proof using Hd L Henv Hio.
  intros Hr Ht Hmode E. destruct (gkfs_create_run c c' m path mode 0 Hr E) as (Pc & [[_ ?]|(Hp & _ & e & Ef)]); [done|].
  split; [done|]. split; [done|].
  apply (ns_forward_sim cfg junk st str_hash env time d hosts_size _ (net c) (net c') m e Hr (eo_input _ Henv)) in Ef;
    [done|]. split; [done|]. by apply create_mode_range.
Qed.

(** ** Removing *)

Definition has_data (md : Metadata) : bool := S_ISREG (mode_ md) && negb (size_ md =? 0).

Lemma gkfs_remove_run (c c' : client) m path r :
  ns c m -> gkfs_remove (W := cnet) cfg d hosts_size junk link_fuel path c = (Ok r, c') ->
  proc c' = proc c /\
  match m !! path with
  | None => r = -1 /\ errno c' = ENOENT /\ net c' = net c
  | Some md => exists e, forward_remove (W := cnet) cfg d hosts_size path (negb (has_data md)) (size_ md) (net c) =
      (Ok (r, e), net c')
  end.
Proof using Hd L Henv Hio.
  intros Hr. unfold gkfs_remove, m_bind at 1. rewrite (get_metadata_run c m path Hr).
  destruct (m !! path) as [md|] eqn:Hm; cbn [fmap option_fmap option_map].
  2:{ intros [= <- <-]. auto. }
  cbn [restrict mode_ size_]. fold (has_data md). pose proof (wf_size _ (ns_wf c m path md Hr Hm)).
  rewrite wraps_small by int_solve. intros E. apply m_bind_inv in E as (out & c1 & E1 & E).
  unfold on_net in E1. destruct (forward_remove _ _ _ _ _ _ _) as [r2 n2] eqn:Ef.
  injection E1 as -> <-. rewrite finish_with_run in E. destruct out as [v e]. injection E as <- <-.
  split; [by destruct e|]. exists e. by destruct e.
Qed.

(** ** Directories *)

(** A listing of [dir] fits the receive buffer. *)
Record listable (m : gmap str Metadata) (dir : str) (buffer : list byte) : Prop := {
  ls_absolute : is_absolute dir = true;
  ls_paths : paths_ok m;
  ls_buffer : 0 <= dirents_buff_size cfg <= Z.of_nat (length buffer);
  ls_fits : dirents_out_size (children m dir) <= per_host cfg d dir
}.

Definition dir_entry (e : str * bool) : DirEntry :=
  MkDirEntry e.1 (if (e.2 : bool) then directory else regular).

Lemma dir_add_all es o :
  foldl (fun o (e : str * bool) => dir_add e.1 (if (e.2 : bool) then directory else regular) o) o es =
  MkOpenFile (type_ o) (path_ o) (flags_ o) (pos_ o) (entries o ++ (dir_entry <$> es)).
Proof using.
  clear. revert o. induction es as [|e es IH]; intros o; csimpl; [rewrite app_nil_r; by destruct o|].
  rewrite IH. cbn. by rewrite <- app_assoc.
Qed.

Lemma fetch_dirents_run (c : client) m path buffer :
  ns c m -> listable m path buffer ->
  exists es n', fetch_dirents (W := cnet) cfg d hosts_size path buffer c =
      (Ok (MkOpenFile directory path (flags_ (new_OpenDir path)) 0 (dir_entry <$> es)), with_net n' c) /\
    es ≡ₚ children m path /\ daemons n' = daemons (net c).
Proof using Hd L Henv Hio.
  intros Hr [H1 H2 H3 H4].
  destruct (ns_dirents_sim cfg junk st str_hash env time d hosts_size (net c) m path buffer Hr Henv H1 H2 H3 H4)
    as (es & n' & E & Hp & Hdm).
  exists es, n'. split; [|done]. unfold fetch_dirents, m_bind. rewrite (on_net_run _ c _ _ E), dir_add_all. done.
Qed.

Lemma ns_same_daemons (c : client) n' m : ns c m -> daemons n' = daemons (net c) -> ns (with_net n' c) m.
Proof using.
  clear. intros Hr E. apply (ns_rel_regions cfg d hosts_size _ _ (regions n')) in Hr. rewrite <- E in Hr.
  by destruct n'.
Qed.

(** Every outcome of [gkfs_rmdir]. *)
Lemma gkfs_rmdir_run (c : client) m path buffer :
  ns c m -> listable m path buffer ->
  exists r c', gkfs_rmdir (W := cnet) cfg d hosts_size junk link_fuel path buffer c = (Ok r, c') /\ proc c' = proc c /\
    match m !! path with
    | None => r = -1 /\ errno c' = ENOENT /\ ns c' m
    | Some md =>
        if negb (S_ISDIR (mode_ md)) then r = -1 /\ errno c' = ENOTDIR /\ ns c' m
        else if decide (children m path = []) then
          (r = 0 /\ ns c' (delete path m)) \/ (r <> 0 /\ (ns c' m \/ ns c' (delete path m)))
        else r = -1 /\ errno c' = ENOTEMPTY /\ ns c' m
    end.
Proof using Hd L Henv Hio.
  intros Hr Hls. unfold gkfs_rmdir, m_bind at 1. rewrite (get_metadata_run c m path Hr).
  destruct (m !! path) as [md|] eqn:Hm; cbn [fmap option_fmap option_map].
  2:{ unfold fail. rewrite finish_with_run. by eexists _, _. }
  cbn [restrict mode_]. destruct (S_ISDIR (mode_ md)) eqn:Hdir; cbn [negb].
  2:{ unfold fail. rewrite finish_with_run. by eexists _, _. }
  unfold m_bind at 1. destruct (fetch_dirents_run c m path buffer Hr Hls) as (es & n' & -> & Hp & Hdm).
  unfold dir_size. cbn [entries]. rewrite length_fmap.
  pose proof (ns_same_daemons c n' m Hr Hdm) as Hr'.
  destruct (decide (children m path = [])) as [Hc|Hc].
  - rewrite Hc in Hp. apply Permutation_nil_r in Hp as ->. cbn [length Nat.eqb negb].
    destruct (ns_host cfg d hosts_size _ m path Hr') as [s Hs]. cbn in Hs.
    assert (exists r e n2, forward_remove (W := cnet) cfg d hosts_size path true 0 n' = (Ok (r, e), n2)) as (r & e & n2 & Ef).
    { unfold forward_remove, m_bind. rewrite (metadata_call_run cfg junk st str_hash env time d hosts_size path _ n' s)
        by (done || apply Hr').
      destruct (run_rpc _ _ _ _ _ _ _ _ _) as [[[o regs]|x|] s']; destruct (err_reply _) as [a b] eqn:Ea; cbn; rewrite ?Ea; by eexists _, _, _. }
    exists r. unfold m_bind. rewrite (on_net_run _ (with_net n' c) _ _ Ef), finish_with_run. cbn [fst snd]. eexists. split; [done|].
    split; [by destruct e|].
    destruct (decide (r = 0)) as [->|Hne].
    + left. split; [done|].
      pose proof (ns_forward_sim cfg junk st str_hash env time d hosts_size (NsRemoveEntry path) n' n2 m e Hr'
        (eo_input _ Henv) I Ef). by destruct e.
    + right. split; [done|].
      pose proof (ns_forward_any cfg junk st str_hash env time d hosts_size (NsRemoveEntry path) n' n2 m (r, e) Hr'
        (eo_input _ Henv) I Ef). by destruct e.
  - rewrite (proj2 (Nat.eqb_neq _ _)).
    2:{ intros Hl. apply Hc. apply nil_length_inv in Hl as ->. by apply Permutation_nil_l in Hp. }
    cbn [negb]. unfold fail. rewrite finish_with_run. by eexists _, _.
Qed.

(** ** Opening *)

(** [CTX->file_map()->add] on a file map that satisfies its invariant. *)
Lemma add_file_run (c : client) o :
  fd_inv (file_map c) -> not_exhausted (file_map c) ->
  exists fd c', add_file o c = (Ok fd, c') /\ 0 <= fd /\ net c' = net c /\
    FileMap.get (file_map c) fd = None /\ FileMap.get_file (file_map c') fd = Some o /\
    (forall fd', fd' <> fd -> FileMap.get_file (file_map c') fd' = FileMap.get_file (file_map c) fd') /\
    fd_inv (file_map c').
Proof using.
  clear. intros Hi Hx. destruct (add_spec (file_map c) o Hi Hx) as (fd & m' & E & Hf & Hrange & Ef & Eo & Hi').
  exists fd, (set_file_map m' c). unfold add_file. destruct (FileMap.alloc o (file_map c)) as [p m1]. cbn [fst snd] in E.
  rewrite E. split; [done|]. split; [lia|]. split; [done|]. split; [done|].
  change (file_map (set_file_map m' c)) with m'. unfold FileMap.get_file, FileMap.get. rewrite Ef, Eo.
  split; [|split; [|done]].
  - rewrite lookup_insert_eq. cbn. by apply list_lookup_middle.
  - intros fd' Hne. rewrite lookup_insert_ne by done. destruct (files_ (file_map c) !! fd') as [q|] eqn:Hq; [|done].
    cbn. by rewrite lookup_app_l by (by eapply inv_objects).
Qed.

Lemma gkfs_opendir_run (c : client) m path buffer md :
  ns c m -> listable m path buffer -> m !! path = Some md -> S_ISDIR (mode_ md) = true ->
  fd_inv (file_map c) -> not_exhausted (file_map c) ->
  exists fd c' es, gkfs_opendir (W := cnet) cfg d hosts_size junk link_fuel path buffer c = (Ok fd, c') /\ 0 <= fd /\
    ns c' m /\ es ≡ₚ children m path /\ FileMap.get (file_map c) fd = None /\
    FileMap.get_file (file_map c') fd =
      Some (MkOpenFile directory path (flags_ (new_OpenDir path)) 0 (dir_entry <$> es)).
Proof using Hd L Henv Hio.
  intros Hr Hls Hm Hdir Hi Hx. unfold gkfs_opendir, m_bind at 1. rewrite (get_metadata_run c m path Hr), Hm.
  cbn [fmap option_fmap option_map restrict mode_]. rewrite Hdir. cbn [negb].
  destruct (fetch_dirents_run c m path buffer Hr Hls) as (es & n' & E & Hp & Hdm).
  rewrite (m_bind_ok _ _ c _ _ E).
  destruct (add_file_run (with_net n' c) (MkOpenFile directory path (flags_ (new_OpenDir path)) 0 (dir_entry <$> es)))
    as (fd & c' & E' & Hfd & Hn & Hf & Hg & _); [done..|].
  exists fd, c', es. split; [done|]. split; [done|]. split; [|done]. rewrite Hn. by apply ns_same_daemons.
Qed.

(** Opening a path that does not exist with [O_CREAT]. *)
Lemma gkfs_open_create (c : client) m path mode flags buffer fuel :
  ns c m -> m !! path = None -> in_s 64 time -> in_u 32 mode ->
  has_flag flags O_PATH = false -> has_flag flags O_APPEND = false -> has_flag flags O_CREAT = true ->
  has_flag flags O_DIRECTORY = false -> fd_inv (file_map c) -> not_exhausted (file_map c) ->
  forall r c', gkfs_open (W := cnet) cfg d hosts_size junk link_fuel fuel path mode flags buffer c = (Ok r, c') ->
  (r = -1 /\ file_map c' = file_map c) \/
  (0 <= r /\ parent_ok m path /\ FileMap.get (file_map c) r = None /\
   FileMap.get_file (file_map c') r = Some (new_OpenFile path flags regular) /\
   ns c' (<[path := stamped cfg time (fresh_md (create_mode (Z.lor mode S_IFREG)) [])]> m)).
Proof using Hd L Henv Hio.
  intros Hr Hm Ht Hmode H1 H2 H3 H4 Hi Hx r c' E.
  assert (in_u 32 (Z.lor mode S_IFREG)) as Hmode'.
  { by apply lor_range. }
  assert (gkfs_open (W := cnet) cfg d hosts_size junk link_fuel fuel path mode flags buffer c =
    (let* r := gkfs_create (W := cnet) cfg d hosts_size junk link_fuel path (Z.lor mode S_IFREG) in
     if negb (r =? 0) then m_ret (-1) else add_file (new_OpenFile path flags regular)) (with_errno_ ENOENT c)) as Eo.
  { destruct fuel; cbn [gkfs_open]; rewrite H1, H2; unfold m_bind at 1; rewrite (get_metadata_run c m path Hr), Hm;
      cbn [fmap option_fmap option_map]; unfold m_bind at 1, m_gets; cbn [errno with_errno_];
      rewrite Z.eqb_refl, H3, H4; done. }
  rewrite Eo in E. apply m_bind_inv in E as (x & c1 & Ec & E).
  destruct (Z.eqb_spec x 0) as [->|Hx0]; cbn [negb] in E.
  - destruct (gkfs_create_effect (with_errno_ ENOENT c) c1 m path _ Hr Ht Hmode' Ec) as (Pc & Hp & Hns).
    assert (file_map c1 = file_map c) as Efm by (unfold file_map; by rewrite Pc).
    destruct (add_file_run c1 (new_OpenFile path flags regular)) as (fd & c2 & E' & Hfd & Hn & Hf & Hg & _);
      [by rewrite Efm..|].
    rewrite E' in E. injection E as <- <-. right. split; [done|]. split; [done|].
    split; [by rewrite <- Efm|]. split; [done|]. rewrite Hn. cbn [abs_op] in Hns. by rewrite Hm in Hns.
  - injection E as <- <-. left. split; [done|].
    destruct (gkfs_create_run (with_errno_ ENOENT c) c1 m path _ x Hr Ec) as [Pc _]. unfold file_map. by rewrite Pc.
Qed.

(** Opening an entry that exists with [O_EXCL]. *)
Lemma gkfs_open_excl (c : client) m path mode flags buffer fuel md :
  ns c m -> m !! path = Some md -> has_flag flags O_PATH = false -> has_flag flags O_APPEND = false ->
  has_flag flags O_EXCL = true ->
  gkfs_open (W := cnet) cfg d hosts_size junk link_fuel fuel path mode flags buffer c = (Ok (-1), with_errno_ EEXIST c).
Proof using Hd L Henv Hio.
  intros Hr Hm H1 H2 H3.
  destruct fuel; cbn [gkfs_open]; rewrite H1, H2; unfold m_bind at 1; rewrite (get_metadata_run c m path Hr), Hm;
    cbn [fmap option_fmap option_map]; unfold m_bind at 1, m_gets; rewrite H3; unfold fail; by rewrite finish_with_run.
Qed.
End files.

(** ** Properties *)

Section properties.
Context {D F K : Type} (R : RocksDB D) (P : PosixFS F) (LP : PosixFSLaws P) (cfg : config) (junk : Metadata).
Context (st : ChunkStorage) (str_hash : str -> Z) (env : margo_env) (time : Z) (d : Distributor) (hosts_size : Z).
Context (link_fuel : nat) (Hd : DistributorOk hosts_size d) (L : RocksDBLaws R (FullMergeV2 cfg junk)).
Context (Henv : env_ok env) (Hio : forall db : D, reads_ok db).
Local Abbreviation cnet := (ClusterNet (R := R) (P := P) cfg junk st str_hash env time).
Local Abbreviation client := (client (cluster D F) K).
Local Abbreviation ns c m := (ns_rel (R := R) cfg d hosts_size (net c) m).

(** A file or directory that [gkfs_create] made is there for [gkfs_stat]:
    with the mode asked for (a regular file if no type was given), empty, and
    its parent is a directory when parents are checked. *)
Theorem create_then_stat (c c' : client) (m : gmap str Metadata) (path : str) (mode s : Z) (out : option stat) :
  ns c m -> m !! path = None -> in_s 64 time -> in_u 32 mode ->
  (let* r := gkfs_create (W := cnet) cfg d hosts_size junk link_fuel path mode in
   m_assert (r =? 0) ;;; gkfs_stat (W := cnet) cfg d hosts_size str_hash junk link_fuel path false) c = (Ok (s, out), c') ->
  parent_ok cfg m path /\ s = 0 /\
  exists a, out = Some a /\ st_mode a = create_mode mode /\ st_size a = 0 /\ st_ino a = str_hash path.
Proof using Hd L Henv Hio.
  intros Hr Hm Ht Hmode E. apply m_bind_inv in E as (r & c1 & Ec & E). apply m_bind_inv in E as ([] & c2 & Ea & E).
  destruct (Z.eqb_spec r 0) as [->|]; [|done]. injection Ea as <-.
  destruct (gkfs_create_run cfg junk st str_hash env time d hosts_size link_fuel Henv Hio c c1 m path mode 0 Hr Ec)
    as (_ & [[_ ?]|(_ & Hk & _)]); [done|].
  destruct (gkfs_create_effect cfg junk st str_hash env time d hosts_size link_fuel Henv Hio c c1 m path mode
    Hr Ht Hmode Ec) as (_ & Hp & Hns).
  split; [done|]. cbn [abs_op] in Hns. rewrite Hm in Hns.
  rewrite (gkfs_stat_run cfg junk st str_hash env time d hosts_size link_fuel Henv Hio _ _ path Hns), lookup_insert_eq in E.
  unfold stat_of, metadata_to_stat, is_link in E.
  assert (mode_ (stamped cfg time (fresh_md (create_mode mode) [])) = create_mode mode) as Em.
  { unfold stamped. by destruct (use_atime cfg), (use_mtime cfg), (use_ctime cfg). }
  assert (size_ (stamped cfg time (fresh_md (create_mode mode) [])) = 0) as Es.
  { unfold stamped. by destruct (use_atime cfg), (use_mtime cfg), (use_ctime cfg). }
  cbn [restrict mode_ size_] in E. rewrite Em, Es in E.
  assert (S_ISLNK (create_mode mode) = false) as Hl.
  { destruct (mode_kinds_disjoint (create_mode mode)) as (H1 & H2 & _). destruct Hk as [Hk|Hk]; [by apply H1|by apply H2]. }
  rewrite Hl, andb_false_r in E. cbn [mbind res_bind] in E. injection E as <- <- _. by split; [|eexists].
Qed.


(** C12. [gkfs_rmdir] removes empty directories only: it always returns; for
    a path that is missing, not a directory or not empty (an entry on any
    daemon counts) it fails with [ENOENT], [ENOTDIR] or [ENOTEMPTY] and the
    namespace is unchanged; when it returns 0 the directory was empty and its
    entry, and only that, is gone. *)
Theorem rmdir_only_empty (c : client) (m : gmap str Metadata) (path : str) (buffer : list byte) :
  ns c m -> listable cfg d m path buffer ->
  exists r c', gkfs_rmdir (W := cnet) cfg d hosts_size junk link_fuel path buffer c = (Ok r, c') /\
    (m !! path = None -> r = -1 /\ errno c' = ENOENT /\ ns c' m) /\
    (forall md, m !! path = Some md -> S_ISDIR (mode_ md) = false -> r = -1 /\ errno c' = ENOTDIR /\ ns c' m) /\
    (forall md, m !! path = Some md -> S_ISDIR (mode_ md) = true -> children m path <> [] ->
       r = -1 /\ errno c' = ENOTEMPTY /\ ns c' m) /\
    (r = 0 -> (exists md, m !! path = Some md /\ S_ISDIR (mode_ md) = true) /\ children m path = [] /\
       ns c' (delete path m)).
Proof using Hd L Henv Hio.
  intros Hr Hl.
  destruct (gkfs_rmdir_run cfg junk st str_hash env time d hosts_size link_fuel Henv Hio c m path buffer Hr Hl)
    as (r & c' & E & _ & H).
  exists r, c'. split; [done|].
  destruct (m !! path) as [md|]; [|split; [done|]; split; [done|]; split; [done|]; intros ->; exfalso; lia].
  split; [done|]. destruct (S_ISDIR (mode_ md)) eqn:Hdir; cbn [negb] in H; [|split; [naive_solver|]; split; [congruence|]; intros ->; exfalso; lia].
  split; [congruence|]. case_decide as Hc.
  - split; [done|]. intros ->. split; [by exists md|]. split; [done|]. naive_solver.
  - split; [done|]. intros ->. exfalso. lia.
Qed.

(** C16. Opening a directory gives a fresh descriptor whose entries are the
    first-level entries of the directory in the namespace, each once, with
    its kind. *)
Theorem opendir_lists_namespace (c : client) (m : gmap str Metadata) (path : str) (buffer : list byte) (md : Metadata) :
  ns c m -> listable cfg d m path buffer -> m !! path = Some md -> S_ISDIR (mode_ md) = true ->
  fd_inv (file_map c) -> not_exhausted (file_map c) ->
  exists fd c' o, gkfs_opendir (W := cnet) cfg d hosts_size junk link_fuel path buffer c = (Ok fd, c') /\ 0 <= fd /\
    ns c' m /\ FileMap.get (file_map c) fd = None /\ FileMap.get_file (file_map c') fd = Some o /\
    type_ o = directory /\ path_ o = path /\ pos_ o = 0 /\ NoDup (de_name <$> entries o) /\
    forall name k, MkDirEntry name k ∈ entries o <->
      component name /\ exists md', m !! (dir_prefix path ++ name) = Some md' /\
        k = if S_ISDIR (mode_ md') then directory else regular.
Proof using Hd L Henv Hio.
  intros Hr Hl Hm Hdir Hi Hx.
  destruct (gkfs_opendir_run cfg junk st str_hash env time d hosts_size link_fuel Henv Hio c m path buffer md
    Hr Hl Hm Hdir Hi Hx) as (fd & c' & es & E & Hfd & Hns & Hp & Hf & Hg).
  exists fd, c'. eexists. split; [done|]. split; [done|]. split; [done|]. split; [done|]. split; [done|].
  cbn [type_ path_ pos_ entries]. split; [done|]. split; [done|]. split; [done|]. split.
  - rewrite <- list_fmap_compose. change (de_name ∘ dir_entry) with (fst : str * bool -> str).
    rewrite Hp. apply children_nodup.
  - intros name k. rewrite list_elem_of_fmap. setoid_rewrite Hp. split.
    + intros ([n b] & [= -> ->] & (Hc & md' & Hm' & ->)%elem_of_children). split; [done|]. by exists md'.
    + intros (Hc & md' & Hm' & ->). exists (name, S_ISDIR (mode_ md')). split; [done|].
      apply elem_of_children. split; [done|]. by exists md'.
Qed.

(** Removing a file erases it: when [gkfs_remove] returns 0 the entry,
    and only that, is gone from the namespace, [gkfs_stat] reports [ENOENT],
    and no byte of a regular file's size is left on any daemon that held one. *)
Theorem remove_erases_file (c c' : client) (m : gmap str Metadata) (path : str) (md : Metadata) :
  ns c m -> m !! path = Some md -> file_path_ok path -> 0 < chunksize cfg ->
  removal_works (R := R) (P := P) ->
  gkfs_remove (W := cnet) cfg d hosts_size junk link_fuel path c = (Ok 0, c') ->
  ns c' (delete path m) /\
  gkfs_stat (W := cnet) cfg d hosts_size str_hash junk link_fuel path false c' = (Ok (-1, None), with_errno_ ENOENT c') /\
  (S_ISREG (mode_ md) = true -> forall o, 0 <= o < size_ md -> flat cfg st d (net c') path o = None).
Proof using Hd L Henv Hio LP.
  intros Hr Hm Hp Hcs Hw E.
  destruct (gkfs_remove_run cfg junk st str_hash env time d hosts_size link_fuel Henv Hio c c' m path 0 Hr E) as [_ H].
  rewrite Hm in H. destruct H as [e Ef].
  assert (ns c' (delete path m)) as Hns.
  { destruct (has_data md); cbn [negb] in Ef.
    - by apply (forward_remove_sim cfg junk st str_hash env time d hosts_size path _ (net c) (net c') m e Hr
        (eo_input _ Henv) Hw Hp Ef).
    - apply (ns_forward_sim cfg junk st str_hash env time d hosts_size (NsRemoveEntry path) (net c) (net c') m e Hr
        (eo_input _ Henv) I Ef). }
  split; [done|]. split.
  - rewrite (gkfs_stat_run cfg junk st str_hash env time d hosts_size link_fuel Henv Hio _ _ path Hns).
    by rewrite lookup_delete_eq.
  - intros Hreg o Ho. unfold has_data in Ef. rewrite Hreg, (proj2 (Z.eqb_neq _ _)) in Ef by lia. cbn [andb negb] in Ef.
    eapply (forward_remove_flat cfg junk st str_hash env time d hosts_size path (size_ md) (net c) (net c') m e o); [exact Hr|apply Henv|done|done|done| |done|exact Ef].
    pose proof (wf_size _ (ns_wf cfg d hosts_size c m path md Hr Hm)). lia.
Qed.
End properties.

(** ** Witnesses *)

Local Abbreviation memdb := (MemDB (FullMergeV2 small_config example_md)).
Local Abbreviation small_d := (SimpleHashDistributor last_char_hash 0 2).
Local Abbreviation small_net :=
  (ClusterNet (R := memdb) (P := MemFS) small_config example_md small_store last_char_hash good_env 0).

(** A client without open files on the cluster of [small_map]. *)
Definition ns_client : client (cluster (gmap str db_entry) memfs) () :=
  MkClient (MkProcess (set_ofm new_OpenFileMap small_context) ()) small_cluster 0.

Lemma ns_client_fds : fd_inv (file_map ns_client) /\ not_exhausted (file_map ns_client).
Proof. split; [apply reachable_inv, rtc_refl|by vm_compute]. Qed.

Local Abbreviation small_create_stat :=
  ((let* r := gkfs_create (W := small_net) small_config small_d 2 example_md 0 (s_ "/d/y") 420 in
    m_assert (r =? 0) ;;; gkfs_stat (W := small_net) small_config small_d 2 last_char_hash example_md 0 (s_ "/d/y") false)
   ns_client).

Lemma small_create_stat_ok :
  small_create_stat.1 = Ok (0, Some (MkStat 121 1 33188 0 0 0 4 0 0 0 0)).
Proof. vm_compute. reflexivity. Qed.

Lemma create_then_stat_witness :
  exists a, Some (MkStat 121 1 33188 0 0 0 4 0 0 0 0) = Some a /\ st_mode a = 33188 /\ st_size a = 0 /\ st_ino a = 121.
Proof.
  refine (proj2 (proj2 (create_then_stat memdb MemFS small_config example_md small_store last_char_hash good_env 0
    small_d 2 0 small_d_ok (MemDB_laws _) good_env_ok (mem_reads_ok _ _) ns_client small_create_stat.2 small_map
    (s_ "/d/y") 420 0 (Some (MkStat 121 1 33188 0 0 0 4 0 0 0 0)) small_cluster_ns _ _ _ _))).
  - reflexivity.
  - by vm_compute.
  - by vm_compute.
  - by rewrite <- small_create_stat_ok, <- surjective_pairing.
Defined.


Lemma small_listable : listable small_config small_d small_map (s_ "/d") (replicate 1024 NUL).
Proof. split; [done|apply small_paths_ok|by vm_compute|by vm_compute]. Qed.

Lemma small_not_empty : children small_map (s_ "/d") <> [].
Proof. by vm_compute. Qed.

Lemma rmdir_only_empty_witness :
  exists r c', gkfs_rmdir (W := small_net) small_config small_d 2 example_md 0 (s_ "/d") (replicate 1024 NUL) ns_client =
      (Ok r, c') /\ r = -1 /\ errno c' = ENOTEMPTY.
Proof.
  destruct (rmdir_only_empty memdb MemFS small_config example_md small_store last_char_hash good_env 0
    small_d 2 0 small_d_ok (MemDB_laws _) good_env_ok (mem_reads_ok _ _) ns_client small_map (s_ "/d") (replicate 1024 NUL)
    small_cluster_ns small_listable) as (r & c' & E & _ & _ & H & _).
  exists r, c'. split; [exact E|]. destruct (H dir_md eq_refl eq_refl small_not_empty) as (H1 & H2 & _).
  split; [exact H1|exact H2].
Defined.

Lemma opendir_lists_namespace_witness :
  exists fd c' o, gkfs_opendir (W := small_net) small_config small_d 2 example_md 0 (s_ "/d") (replicate 1024 NUL) ns_client =
      (Ok fd, c') /\ FileMap.get_file (file_map c') fd = Some o /\ MkDirEntry (s_ "x") regular ∈ entries o.
Proof.
  destruct (opendir_lists_namespace memdb MemFS small_config example_md small_store last_char_hash good_env 0
    small_d 2 0 small_d_ok (MemDB_laws _) good_env_ok (mem_reads_ok _ _) ns_client small_map (s_ "/d") (replicate 1024 NUL)
    dir_md small_cluster_ns small_listable eq_refl eq_refl
    (proj1 ns_client_fds) (proj2 ns_client_fds))
    as (fd & c' & o & E & _ & _ & _ & Hg & _ & _ & _ & _ & Hin).
  exists fd, c', o. split; [exact E|]. split; [exact Hg|]. apply Hin. split.
  - split; [discriminate|]. by apply (bool_decide_unpack _).
  - exists file_md. split; vm_compute; reflexivity.
Defined.

Local Abbreviation small_remove :=
  (gkfs_remove (W := small_net) small_config small_d 2 example_md 0 (s_ "/d/x") ns_client).

Lemma small_remove_ok : small_remove.1 = Ok 0.
Proof. vm_compute. reflexivity. Qed.

Lemma remove_erases_file_witness :
  gkfs_stat (W := small_net) small_config small_d 2 last_char_hash example_md 0 (s_ "/d/x") false small_remove.2 =
    (Ok (-1, None), with_errno_ ENOENT small_remove.2).
Proof.
  refine (proj1 (proj2 (remove_erases_file memdb MemFS MemFS_laws small_config example_md small_store last_char_hash
    good_env 0 small_d 2 0 small_d_ok (MemDB_laws _) good_env_ok (mem_reads_ok _ _) ns_client small_remove.2 small_map
    (s_ "/d/x") file_md small_cluster_ns eq_refl _ _ (mem_removal_works _ _) _))).
  - by eexists _, _.
  - by vm_compute.
  - by rewrite <- small_remove_ok, <- surjective_pairing.
Defined.

(** ** Appending

    [gkfs_open] refuses [O_APPEND], but the code below it handles the flag. *)

Local Abbreviation append_program :=
  ((let* fd := gkfs_open (W := small_net) small_config small_d 2 example_md 0 0 (s_ "/d/y") 420 (O_CREAT + O_RDWR) [] in
    let* w1 := gkfs_write (W := small_net) small_config small_d 2 fd (s_ "hello") 5 in
    let* at_ := gkfs_lseek (W := small_net) small_d 2 fd 0 SEEK_SET in
    m_modify (fun c => set_file_map (FileMap.update_object 0 (set_flag OpenFile_flags.append true) (file_map c)) c) ;;;
    let* w2 := gkfs_write (W := small_net) small_config small_d 2 fd (s_ "XY") 2 in
    let* s := gkfs_stat (W := small_net) small_config small_d 2 last_char_hash example_md 0 (s_ "/d/y") false in
    m_ret (fd, w1, at_, w2, st_size <$> s.2)) ns_client).

(** With the append flag [gkfs_write] goes to the position the descriptor had
    before it seeks to the end: it overwrites the first bytes, and the size
    grows by the count and that position. *)
Theorem append_write_overwrites :
  append_program.1 = Ok (10000, 5, 0, 2, Some 7) /\
  ((fun o => flat small_config small_store small_d (net append_program.2) (s_ "/d/y") o) <$> seqZ 0 7) =
    (Some <$> s_ "XYllo") ++ [None; None].
Proof. vm_compute. done. Qed.
