(* ===== verification/Tree.v ===== *)
(** * The directory tree

    With parent checks on, the entries of the namespace form a tree: the
    parent of every entry is there and is a directory.  The client operations
    that change the namespace are the steps of a transition system; the tree
    is an invariant of all of them but one, [gkfs_remove] of a directory. *)

From S2P Require Import Prelude Config Distributor PathUtil Metadata Merge MetadataDB ChunkStorage SrvData SrvMetadata.
From S2P Require Import Rpc ForwardData ForwardMetadata Cluster Namespace OpenFileMap Path Kernel PreloadContext GkfsFunctions.
From S2P Require Import FileNamespace.

(** ** Trees *)

(** The entry's path is canonical and its parent is a directory. *)
Definition tree_ok (m : gmap str Metadata) : Prop := forall p md, m !! p = Some md ->
  NUL ∉ p /\ exists cs, Forall component cs /\ p = canonical cs /\
    forall cs' c, cs = cs' ++ [c] -> exists pmd, m !! canonical cs' = Some pmd /\ S_ISDIR (mode_ pmd) = true.

Lemma tree_paths_ok m : tree_ok m -> paths_ok m.
Proof. intros Ht p [md Hp]. by apply (Ht p md). Qed.

Lemma canonical_absolute cs : is_absolute (canonical cs) = true.
Proof. unfold canonical. case_decide; [done|]. by destruct cs. Qed.

Lemma dir_prefix_canonical cs c : Forall component cs -> dir_prefix (canonical cs) ++ c = canonical (cs ++ [c]).
Proof.
  intros F. unfold canonical, dir_prefix. rewrite (decide_False (P := cs ++ [c] = [])) by (by destruct cs).
  case_decide as Hc; [subst; unfold join_path; csimpl; by rewrite app_nil_r|].
  rewrite (join_path_no_trailing cs F). cbn [negb andb].
  rewrite join_path_snoc. destruct cs as [|c1 cs]; [done|]. apply Forall_cons in F as [[Hne _] _].
  rewrite (proj2 (Nat.eqb_neq _ _)); [cbn [negb]; by rewrite <- app_assoc|].
  rewrite join_path_cons. destruct c1; [done|]. simpl. lia.
Qed.

Lemma dirname_canonical cs c : Forall component cs -> component c -> dirname (canonical (cs ++ [c])) = Ok (canonical cs).
Proof.
  intros F Hc. unfold canonical at 1. rewrite decide_False by (by destruct cs). by apply dirname_join.
Qed.

(** Changing an entry without changing its mode. *)
Lemma tree_alter m k f : (forall md, mode_ (f md) = mode_ md) -> tree_ok m -> tree_ok (alter f k m).
Proof.
  intros Hf Ht p md Hp. assert (exists md0, m !! p = Some md0) as [md0 Hm0].
  { destruct (decide (p = k)) as [->|Hne].
    - rewrite lookup_alter_eq in Hp. by apply fmap_Some in Hp as (x & ? & _); exists x.
    - rewrite lookup_alter_ne in Hp by done. by exists md. }
  destruct (Ht p md0 Hm0) as (Hn & cs & F & E & Hpar). split; [done|]. exists cs. split; [done|]. split; [done|].
  intros cs' c Ecs. destruct (Hpar cs' c Ecs) as (pmd & Hpm & Hdir). destruct (decide (canonical cs' = k)) as [<-|Hne].
  - exists (f pmd). rewrite lookup_alter_eq, Hpm, Hf. done.
  - exists pmd. by rewrite lookup_alter_ne.
Qed.

Lemma tree_create m cs md :
  tree_ok m -> Forall component cs -> NUL ∉ canonical cs ->
  (exists parent pmd, dirname (canonical cs) = Ok parent /\ m !! parent = Some pmd /\ S_ISDIR (mode_ pmd) = true) ->
  tree_ok (abs_op (OpCreate (canonical cs) md) m).
Proof.
  intros Ht F Hn (parent & pmd & Ed & Hp & Hdir). cbn [abs_op]. destruct (m !! canonical cs) as [md0|] eqn:Hm; [done|].
  intros p md' Hp'. destruct (decide (p = canonical cs)) as [->|Hne].
  - split; [done|]. exists cs. split; [done|]. split; [done|]. intros cs' c ->.
    apply Forall_app in F as [F1 [F2 _]%Forall_cons]. rewrite dirname_canonical in Ed by done. injection Ed as <-.
    exists pmd. rewrite lookup_insert_ne; [done|]. intros E. rewrite E in Hm. congruence.
  - rewrite lookup_insert_ne in Hp' by done. destruct (Ht p md' Hp') as (Hn' & cs1 & F1 & -> & Hpar).
    split; [done|]. exists cs1. split; [done|]. split; [done|]. intros cs' c E.
    destruct (Hpar cs' c E) as (pm & Hpm & Hd). exists pm. rewrite lookup_insert_ne; [done|].
    intros E'. rewrite E' in Hm. congruence.
Qed.

(** Nothing is below an entry that is empty or not a directory. *)
Lemma tree_remove m path :
  tree_ok m -> (forall md, m !! path = Some md -> S_ISDIR (mode_ md) = true -> children m path = []) ->
  tree_ok (delete path m).
Proof.
  intros Ht Hc p md Hp. apply lookup_delete_Some in Hp as [Hne Hp].
  destruct (Ht p md Hp) as (Hn & cs & F & -> & Hpar). split; [done|]. exists cs. split; [done|]. split; [done|].
  intros cs' c ->. destruct (Hpar cs' c eq_refl) as (pmd & Hpm & Hd). exists pmd.
  rewrite lookup_delete_ne; [done|]. intros ->. specialize (Hc pmd Hpm Hd).
  apply Forall_app in F as [F1 [F2 _]%Forall_cons].
  assert ((c, S_ISDIR (mode_ md)) ∈ children m (canonical cs')) as Hin.
  { apply elem_of_children. split; [done|]. exists md. by rewrite dir_prefix_canonical. }
  rewrite Hc in Hin. by apply not_elem_of_nil in Hin.
Qed.

(** ** Data requests leave the namespace alone *)

Section data.
Context {D F : Type} {R : RocksDB D} {P : PosixFS F} (cfg : config) (junk : Metadata) (st : ChunkStorage).
Context (str_hash : str -> Z) (env : margo_env) (time : Z) (d : Distributor) (hosts_size : Z).
Local Abbreviation net := (ClusterNet cfg junk st str_hash env time).

Definition stores (n : cluster D F) : list D := mdb <$> daemons n.

Definition data_rpc {A} (q : rpc A) : bool :=
  match q with RpcWriteData _ _ | RpcReadData _ _ | RpcTruncData _ _ | RpcChunkStat => true | _ => false end.

Lemma on_storage_mdb {A} (c : M F A) (s : daemon D F) r s' : on_storage c s = (r, s') -> mdb s' = mdb s.
Proof. unfold on_storage. destruct (c (storage s)). by intros [= _ <-]. Qed.

Lemma data_rpc_mdb {A} (q : rpc A) regs s r s' : data_rpc q = true ->
  run_rpc cfg junk st str_hash env time q regs s = (r, s') -> mdb s' = mdb s.
Proof.
  assert (forall B C (c : M F B) (k : B -> C), preserves (S := daemon D F) mdb (let* o := on_storage c in m_ret (k o))) as Hs.
  { intros B C c k. apply preserves_bind; [intros ??? H; by eapply on_storage_mdb|intros; preserve]. }
  destruct q; try done; intros _; cbn [run_rpc]; intros E; by apply Hs in E.
Qed.

Lemma stores_insert (n : cluster D F) h s s' regs : daemons n !! h = Some s -> mdb s' = mdb s ->
  stores (MkCluster (<[h := s']> (daemons n)) regs) = stores n.
Proof.
  intros Hs Hm. unfold stores. cbn. rewrite list_fmap_insert, Hm. apply list_insert_id.
  by rewrite list_lookup_fmap, Hs.
Qed.

Lemma data_post {A} h (q : rpc A) (n n' : cluster D F) r : data_rpc q = true ->
  net_post (W := net) h q n = (r, n') ->
  stores n' = stores n /\ (r = Ok None \/ exists o, r = Ok (Some (settled o))).
Proof.
  intros Hq. unfold net_post. cbn [post ClusterNet]. unfold cluster_post.
  destruct (daemons n !! Z.to_nat h) as [s|] eqn:Hs; [|intros [= <- <-]; auto].
  destruct (run_rpc cfg junk st str_hash env time q (regions n) s) as [x s'] eqn:E.
  apply data_rpc_mdb in E; [|done].
  destruct x as [[out regs]|e|]; intros [= <- <-]; (split; [by eapply stores_insert|]); right.
  - by exists (Some out).
  - by exists None.
  - by exists None.
Qed.

Lemma host_at_state h (n n' : cluster D F) r : host_at hosts_size h n = (r, n') -> n' = n.
Proof. unfold host_at. destruct (_ && _); by intros [= _ <-]. Qed.

Lemma post_all_stores (mk : Z -> rpc rpc_data_out) ts (n n' : cluster D F) r :
  (forall t, data_rpc (mk t) = true) -> post_all (W := net) hosts_size mk ts n = (r, n') ->
  stores n' = stores n /\ forall hs, r = Ok (Some hs) -> exists outs, hs = settled <$> outs.
Proof.
  intros Hmk. revert n n' r. induction ts as [|t ts IH]; intros n n' r; cbn [post_all].
  { intros [= <- <-]. split; [done|]. intros hs [= <-]. by exists []. }
  unfold m_bind at 1. destruct (host_at hosts_size t n) as [x n1] eqn:E1. apply host_at_state in E1 as ->.
  destruct x as [h|e|]; [|by intros [= <- <-]..].
  unfold m_bind at 1. destruct (net_post _ _ n) as [x n2] eqn:E2. apply data_post in E2 as [Hst Ho]; [|done].
  destruct Ho as [->|[o ->]]; [by intros [= <- <-]|].
  unfold m_bind at 1. destruct (post_all _ _ _ n2) as [y n3] eqn:E3. apply IH in E3 as [Hst3 Hh].
  destruct y as [[hs|]|e|]; intros [= <- <-]; rewrite <- Hst; (split; [done|]); try done.
  intros hs' [= <-]. destruct (Hh hs eq_refl) as [outs ->]. by exists (o :: outs).
Qed.

Lemma wait_all_settled outs b e acc (n : cluster D F) : exists r, wait_all (settled <$> outs) b e acc n = (Ok r, n).
Proof.
  revert b e acc. induction outs as [|o outs IH]; intros b e acc; [by eexists|]. csimpl.
  unfold m_bind, net_get, settled at 1. destruct o; apply IH.
Qed.

Lemma forward_write_stores path buf append off size upd (n n' : cluster D F) r :
  forward_write (W := net) cfg d hosts_size path buf append off size upd n = (r, n') -> stores n' = stores n.
Proof.
  unfold forward_write, m_bind at 1, m_assert. destruct (0 <? size); [|by intros [= _ <-]].
  unfold m_ret at 1, m_bind at 1, net_expose. cbn [expose ClusterNet].
  unfold m_bind at 1. destruct (post_all _ _ _ _) as [x n1] eqn:E1.
  apply post_all_stores in E1 as [Hst Hh]; [|done].
  destruct x as [[hs|]|e|]; [|by intros [= _ <-]..].
  destruct (Hh hs eq_refl) as [outs ->]. destruct (wait_all_settled outs false None 0 n1) as [r' ->].
  by intros [= _ <-].
Qed.

Lemma forward_read_stores path buf off size (n n' : cluster D F) r :
  forward_read (W := net) cfg d hosts_size path buf off size n = (r, n') -> stores n' = stores n.
Proof.
  unfold forward_read, m_bind at 1, net_expose. cbn [expose ClusterNet].
  unfold m_bind at 1. destruct (post_all _ _ _ _) as [x n1] eqn:E1.
  apply post_all_stores in E1 as [Hst Hh]; [|done].
  destruct x as [[hs|]|e|]; [|by intros [= _ <-]..].
  destruct (Hh hs eq_refl) as [outs ->]. unfold m_bind at 1.
  destruct (wait_all_settled outs false None 0 n1) as [r' ->]. by intros [= _ <-].
Qed.

Lemma post_trunc_stores path len hs (n n' : cluster D F) r :
  post_trunc (W := net) hosts_size path len hs n = (r, n') ->
  stores n' = stores n /\ forall hs, r = Ok (Some hs) -> exists outs, hs = settled <$> outs.
Proof.
  revert n n' r. induction hs as [|t hs IH]; intros n n' r; cbn [post_trunc].
  { intros [= <- <-]. split; [done|]. intros hs [= <-]. by exists []. }
  unfold m_bind at 1. destruct (host_at hosts_size t n) as [x n1] eqn:E1. apply host_at_state in E1 as ->.
  destruct x as [h|e|]; [|by intros [= <- <-]..].
  unfold m_bind at 1. destruct (net_post _ _ n) as [x n2] eqn:E2. apply data_post in E2 as [Hst Ho]; [|done].
  destruct Ho as [->|[o ->]]; [by intros [= <- <-]|].
  unfold m_bind at 1. destruct (post_trunc _ _ _ _ n2) as [y n3] eqn:E3. apply IH in E3 as [Hst3 Hh].
  destruct y as [[hs'|]|e|]; intros [= <- <-]; rewrite <- Hst; (split; [done|]); try done.
  intros hs2 [= <-]. destruct (Hh hs' eq_refl) as [outs ->]. by exists (o :: outs).
Qed.

Lemma wait_trunc_settled outs b (n : cluster D F) : exists r, wait_trunc (settled <$> outs) b n = (Ok r, n).
Proof.
  revert b. induction outs as [|o outs IH]; intros b; [by eexists|]. csimpl.
  unfold m_bind, net_get, settled at 1. apply IH.
Qed.

Lemma forward_truncate_stores path old new (n n' : cluster D F) r :
  forward_truncate (W := net) cfg d hosts_size path old new n = (r, n') -> stores n' = stores n.
Proof.
  unfold forward_truncate, m_bind at 1, m_assert. destruct (new <? old); [|by intros [= _ <-]].
  unfold m_ret at 1, m_bind at 1. destruct (post_trunc _ _ _ _ _) as [x n1] eqn:E1.
  apply post_trunc_stores in E1 as [Hst Hh].
  destruct x as [[hs|]|e|]; [|by intros [= _ <-]..].
  destruct (Hh hs eq_refl) as [outs ->]. destruct (wait_trunc_settled outs false n1) as [r' ->].
  by intros [= _ <-].
Qed.

Lemma ns_rel_stores (n n' : cluster D F) m : stores n' = stores n ->
  ns_rel cfg d hosts_size n m -> ns_rel cfg d hosts_size n' m.
Proof.
  intros E [Hl Hv]. split.
  - rewrite <- Hl. apply (f_equal length) in E. unfold stores in E. rewrite !length_fmap in E. by rewrite E.
  - intros h s Hs. assert (stores n !! h = Some (mdb s)) as Hst by (rewrite <- E; unfold stores; by rewrite list_lookup_fmap, Hs).
    unfold stores in Hst. rewrite list_lookup_fmap in Hst. apply fmap_Some in Hst as (s0 & Hs0 & Em).
    destruct (Hv h s0 Hs0) as (v & Hdb & Hw). exists v. by rewrite Em.
Qed.
End data.

(** ** Steps *)

Section steps.
Context {D F K : Type} (R : RocksDB D) (P : PosixFS F) (cfg : config) (junk : Metadata) (st : ChunkStorage).
Context (str_hash : str -> Z) (env : margo_env) (time : Z) (d : Distributor) (hosts_size : Z) (link_fuel : nat).
Local Abbreviation cnet := (ClusterNet (R := R) (P := P) cfg junk st str_hash env time).
Local Abbreviation client := (client (cluster D F) K).
Local Abbreviation ns c m := (ns_rel (R := R) cfg d hosts_size (net c) m).

(** A path as [resolve] computes it from a C string. *)
Definition proper_path (path : str) : Prop :=
  NUL ∉ path /\ exists cs, Forall component cs /\ path = canonical cs.

(** The calls of an application, one at a time.  The side conditions: a
    listing fits its buffer, a file that is written is still there and its
    size stays below [2^63], [truncate] is not called on a link, and
    [gkfs_remove] is not called on a directory. *)
Inductive fs_step (c c' : client) : Prop :=
| step_create path mode r :
    proper_path path -> in_u 32 mode ->
    gkfs_create (W := cnet) cfg d hosts_size junk link_fuel path mode c = (Ok r, c') -> fs_step c c'
| step_symlink path target r :
    proper_path path -> NUL ∉ target ->
    gkfs_mk_symlink (W := cnet) cfg d hosts_size junk link_fuel path target c = (Ok r, c') -> fs_step c c'
| step_remove path r :
    (forall m md, ns c m -> m !! path = Some md -> S_ISDIR (mode_ md) = false) ->
    gkfs_remove (W := cnet) cfg d hosts_size junk link_fuel path c = (Ok r, c') -> fs_step c c'
| step_rmdir path buffer r :
    (forall m, ns c m -> tree_ok m -> listable cfg d m path buffer) ->
    gkfs_rmdir (W := cnet) cfg d hosts_size junk link_fuel path buffer c = (Ok r, c') -> fs_step c c'
| step_pwrite q o buf count offset r :
    objects (file_map c) !! q = Some o ->
    (forall m, ns c m -> op_pre (OpIncrease (path_ o) (u64 (count + offset)) (get_flag o OpenFile_flags.append)) m) ->
    gkfs_pwrite (W := cnet) cfg d hosts_size q buf count offset c = (Ok r, c') -> fs_step c c'
| step_pread q buf count offset r :
    gkfs_pread (W := cnet) cfg d hosts_size q buf count offset c = (Ok r, c') -> fs_step c c'
| step_truncate path len r :
    (forall m md, ns c m -> m !! path = Some md -> is_link md = false) -> 0 <= len < 2 ^ 63 ->
    gkfs_truncate (W := cnet) cfg d hosts_size junk link_fuel path len c = (Ok r, c') -> fs_step c c'
| step_stat path r :
    gkfs_stat (W := cnet) cfg d hosts_size str_hash junk link_fuel path false c = (Ok r, c') -> fs_step c c'
| step_lseek fd offset whence r :
    gkfs_lseek (W := cnet) d hosts_size fd offset whence c = (Ok r, c') -> fs_step c c'.

Definition tree_inv (c : client) : Prop := exists m, ns c m /\ tree_ok m.

Context {Hd : DistributorOk hosts_size d} {L : RocksDBLaws R (FullMergeV2 cfg junk)}.
Context (Henv : env_ok env) (Hio : forall db : D, reads_ok db).
Context (Hcheck : create_check_parents cfg = true) (Htime : in_s 64 time).

Lemma tree_after_create (m : gmap str Metadata) path md :
  tree_ok m -> proper_path path -> parent_ok cfg m path -> tree_ok (abs_op (OpCreate path md) m).
Proof using Hcheck.
  intros Ht (Hn & cs & F' & ->) Hp. apply tree_create; [done..|]. by apply Hp.
Qed.

Lemma create_keeps_tree (c c' : client) path mode r :
  tree_inv c -> proper_path path -> in_u 32 mode ->
  gkfs_create (W := cnet) cfg d hosts_size junk link_fuel path mode c = (Ok r, c') -> tree_inv c'.
Proof using Hd L Henv Hio Hcheck Htime.
  intros (m & Hr & Ht) Hpath Hmode E.
  destruct (gkfs_create_run cfg junk st str_hash env time d hosts_size link_fuel Henv Hio c c' m path mode r Hr E)
    as (_ & [[En _]|(Hp & _ & e & Ef)]); [exists m; by rewrite En|].
  apply (ns_forward_any cfg junk st str_hash env time d hosts_size _ (net c) (net c') m (r, e) Hr (eo_input _ Henv)) in Ef
    as [Hns|Hns]; [by exists m| |split; [done|by apply create_mode_range]].
  eexists. split; [exact Hns|]. by apply tree_after_create.
Qed.

Lemma symlink_keeps_tree (c c' : client) path target r :
  tree_inv c -> proper_path path -> NUL ∉ target ->
  gkfs_mk_symlink (W := cnet) cfg d hosts_size junk link_fuel path target c = (Ok r, c') -> tree_inv c'.
Proof using Hd L Henv Hio Hcheck Htime.
  intros (m & Hr & Ht) Hpath Htgt E. unfold gkfs_mk_symlink, m_bind at 1 in E.
  rewrite (get_metadata_run cfg junk st str_hash env time d hosts_size link_fuel Henv Hio c m target Hr) in E.
  set (c0 := if m !! target is Some _ then c else with_errno_ ENOENT c) in E.
  assert (net c0 = net c) as En0 by (unfold c0; by destruct (m !! target)).
  assert (ns c0 m) as Hr0 by (by rewrite En0).
  assert (forall c1, (let* r := check_parent_dir (W := cnet) cfg d hosts_size junk link_fuel path in
      if negb (r =? 0) then m_ret (-1) else
      let* link_md := get_metadata (W := cnet) cfg d hosts_size junk link_fuel path false in
      match link_md with
      | Some _ => fail EEXIST
      | None => let* out := on_net (forward_mk_symlink (W := cnet) d hosts_size path target) in finish_with out
      end) c0 = (Ok r, c1) -> tree_inv c1) as Hmake.
  { intros c1 E1. apply m_bind_inv in E1 as (x & c2 & E2 & E1).
    destruct (check_parent_dir_run cfg junk st str_hash env time d hosts_size link_fuel Henv Hio c0 c2 m path x Hr0 E2)
      as (_ & N2 & [(-> & -> & Hp)| ->]); [|injection E1 as _ <-; exists m; by rewrite N2].
    cbn [negb Z.eqb] in E1. unfold m_bind at 1 in E1.
    rewrite (get_metadata_run cfg junk st str_hash env time d hosts_size link_fuel Henv Hio c0 m path Hr0) in E1.
    destruct (m !! path) as [md|] eqn:Hm; cbn [fmap option_fmap option_map] in E1.
    { unfold fail in E1. rewrite finish_with_run in E1. injection E1 as _ <-. by exists m. }
    apply m_bind_inv in E1 as (out & c3 & E3 & E1). unfold on_net in E3. cbn [net with_errno_] in E3.
    destruct (forward_mk_symlink d hosts_size path target (net c0)) as [r3 n3] eqn:Ef. injection E3 as -> <-.
    rewrite finish_with_run in E1. injection E1 as _ <-.
    apply (ns_forward_any cfg junk st str_hash env time d hosts_size (NsSymlink path target) (net c0) n3 m out Hr0
      (eo_input _ Henv)) in Ef as [Hns|Hns]; [| |by split].
    - exists m. by destruct out as [? [?|]].
    - eexists. split; [destruct out as [? [?|]]; exact Hns|]. by apply tree_after_create. }
  assert (tree_inv c0) as Hc0 by (by exists m).
  destruct (m !! target) as [md|]; cbn [fmap option_fmap option_map] in E; [|by apply Hmake].
  destruct (negb _); [|by apply Hmake].
  apply m_bind_inv in E as ([] & c1 & E1 & E). unfold m_assert in E1.
  destruct (S_ISDIR _); [|done]. injection E1 as <-. unfold fail in E. rewrite finish_with_run in E.
  injection E as _ <-. by exists m.
Qed.

Lemma remove_keeps_tree (c c' : client) path r :
  tree_inv c -> (forall m md, ns c m -> m !! path = Some md -> S_ISDIR (mode_ md) = false) ->
  gkfs_remove (W := cnet) cfg d hosts_size junk link_fuel path c = (Ok r, c') -> tree_inv c'.
Proof using Hd L Henv Hio.
  intros (m & Hr & Ht) Hdir E.
  destruct (gkfs_remove_run cfg junk st str_hash env time d hosts_size link_fuel Henv Hio c c' m path r Hr E) as [_ H].
  destruct (m !! path) as [md|] eqn:Hm; [|destruct H as (_ & _ & En); exists m; by rewrite En].
  destruct H as [e Ef].
  destruct (forward_remove_any cfg junk st str_hash env time d hosts_size path _ _ (net c) (net c') m (r, e) Hr
    (eo_input _ Henv) Ef) as [Hns|Hns]; [by exists m|].
  eexists. split; [exact Hns|]. apply tree_remove; [done|]. intros md' Hm' Hd'. rewrite (Hdir m md') in Hd'; done.
Qed.

Lemma rmdir_keeps_tree (c c' : client) path buffer r :
  tree_inv c -> (forall m, ns c m -> tree_ok m -> listable cfg d m path buffer) ->
  gkfs_rmdir (W := cnet) cfg d hosts_size junk link_fuel path buffer c = (Ok r, c') -> tree_inv c'.
Proof using Hd L Henv Hio.
  intros (m & Hr & Ht) Hl E.
  destruct (gkfs_rmdir_run cfg junk st str_hash env time d hosts_size link_fuel Henv Hio c m path buffer Hr (Hl m Hr Ht))
    as (r' & c1 & E' & _ & H).
  rewrite E in E'. injection E' as <- <-.
  destruct (m !! path) as [md|] eqn:Hm; [|exists m; tauto].
  destruct (negb (S_ISDIR (mode_ md))); [exists m; tauto|]. case_decide as Hc; [|exists m; tauto].
  assert (tree_ok (delete path m)) by (apply tree_remove; [done|]; by intros).
  destruct H as [[_ H]|[_ [H|H]]]; [exists (delete path m)|exists m|exists (delete path m)]; done.
Qed.

Lemma tree_inv_net (c c' : client) m n : ns c m -> tree_ok m -> stores n = stores (net c) -> net c' = n -> tree_inv c'.
Proof using.
  intros Hr Ht Hs E. exists m. split; [|done]. rewrite E. by eapply ns_rel_stores.
Qed.

Lemma finish_with_net (r : result) (c c' : client) v : finish_with r c = (Ok v, c') -> net c' = net c /\ v = r.1.
Proof using. rewrite finish_with_run. intros [= <- <-]. by destruct r as [? [?|]]. Qed.

Lemma pwrite_keeps_tree (c c' : client) q o buf count offset r :
  tree_inv c -> objects (file_map c) !! q = Some o ->
  (forall m, ns c m -> op_pre (OpIncrease (path_ o) (u64 (count + offset)) (get_flag o OpenFile_flags.append)) m) ->
  gkfs_pwrite (W := cnet) cfg d hosts_size q buf count offset c = (Ok r, c') -> tree_inv c'.
Proof using Hd L Henv.
  intros (m & Hr & Ht) Ho Hpre E. unfold gkfs_pwrite, m_bind at 1 in E. unfold file_at in E. rewrite Ho in E.
  destruct (decide (type_ o <> regular)).
  { apply finish_with_net in E as [En _]. exists m. by rewrite En. }
  set (app := get_flag o OpenFile_flags.append) in *.
  apply m_bind_inv in E as (out & c1 & E1 & E). unfold on_net in E1.
  destruct (forward_update_metadentry_size _ _ _ _ _ _ _ (net c)) as [r1 n1] eqn:Ef. injection E1 as -> <-.
  assert (ns_forward cfg junk st str_hash env time d hosts_size (NsUpdateSize (path_ o) count offset app) (net c) =
    (Ok out.1, n1)) as Ef' by (cbn [ns_forward]; unfold m_bind; by rewrite Ef).
  apply (ns_forward_any cfg junk st str_hash env time d hosts_size _ (net c) n1 m out.1 Hr (eo_input _ Henv)) in Ef';
    [|by apply Hpre].
  assert (exists m1, ns_rel (R := R) cfg d hosts_size n1 m1 /\ tree_ok m1) as (m1 & Hn1 & Ht1).
  { destruct Ef' as [H|H]; [by exists m|]. eexists. split; [exact H|]. cbn [ns_md_request request_op abs_op].
    apply tree_alter; [by intros []|done]. }
  apply m_bind_inv in E as (v & c2 & [N2 _]%finish_with_net & E). cbn [net] in N2.
  destruct (negb (v =? 0)); [injection E as _ <-; exists m1; by rewrite N2|].
  apply m_bind_inv in E as (out2 & c3 & E3 & [N4 _]%finish_with_net). unfold on_net in E3. rewrite N2 in E3.
  destruct (forward_write _ _ _ _ _ _ _ _ _ n1) as [r3 n3] eqn:Ew. injection E3 as -> <-. cbn [net] in N4.
  apply forward_write_stores in Ew. exists m1. split; [|done]. rewrite N4. by eapply ns_rel_stores.
Qed.

Lemma pread_keeps_tree (c c' : client) q buf count offset r :
  tree_inv c -> gkfs_pread (W := cnet) cfg d hosts_size q buf count offset c = (Ok r, c') -> tree_inv c'.
Proof using.
  intros (m & Hr & Ht) E. unfold gkfs_pread in E. apply m_bind_inv in E as (o & c1 & E1 & E).
  unfold file_at in E1. destruct (objects (file_map c) !! q); [|done]. injection E1 as <- <-.
  destruct (decide _).
  { apply m_bind_inv in E as (v & c2 & [N2 _]%finish_with_net & [= _ <-]). exists m. by rewrite N2. }
  apply m_bind_inv in E as (out & c2 & E2 & E). unfold on_net in E2.
  destruct (forward_read _ _ _ _ _ _ _ (net c)) as [r2 n2] eqn:Er. injection E2 as -> <-.
  apply m_bind_inv in E as (v & c3 & [N3 _]%finish_with_net & [= _ <-]). cbn [net] in N3.
  apply forward_read_stores in Er. eapply tree_inv_net; eauto.
Qed.

Lemma truncate_keeps_tree (c c' : client) path len r :
  tree_inv c -> (forall m md, ns c m -> m !! path = Some md -> is_link md = false) -> 0 <= len < 2 ^ 63 ->
  gkfs_truncate (W := cnet) cfg d hosts_size junk link_fuel path len c = (Ok r, c') -> tree_inv c'.
Proof using Hd L Henv Hio.
  intros (m & Hr & Ht) Hl Hlen E. unfold gkfs_truncate in E. rewrite (proj2 (Z.ltb_ge len 0)) in E by lia.
  unfold m_bind at 1 in E.
  rewrite (get_metadata_plain cfg junk st str_hash env time d hosts_size link_fuel Henv Hio c m path true Hr) in E
    by (intros; by eapply Hl).
  destruct (m !! path) as [md|] eqn:Hm; cbn [fmap option_fmap option_map] in E; [|injection E as _ <-; by exists m].
  pose proof (wf_size _ (ns_wf cfg d hosts_size c m path md Hr Hm)) as Hsz.
  cbn [restrict size_] in E. rewrite wrapu_small, wraps_small in E by int_solve.
  destruct (size_ md <? len) eqn:Hlt; [apply finish_with_net in E as [En _]; exists m; by rewrite En|].
  apply Z.ltb_ge in Hlt. unfold gkfs_truncate_to in E.
  rewrite (proj2 (Z.leb_le 0 len)), (proj2 (Z.leb_le len _)) in E by lia. unfold m_bind at 1, m_assert, m_ret at 1 in E.
  unfold m_bind at 1, m_ret at 1 in E. destruct (Z.eqb_spec len (size_ md)) as [|Hne]; [injection E as _ <-; by exists m|].
  apply m_bind_inv in E as (out & c1 & E1 & E). unfold on_net in E1.
  destruct (forward_decr_size _ _ _ _ (net c)) as [r1 n1] eqn:Ef. injection E1 as -> <-.
  apply (ns_forward_any cfg junk st str_hash env time d hosts_size (NsDecrSize path len) (net c) n1 m out Hr
    (eo_input _ Henv)) in Ef.
  2:{ split; [done|]. exists md. split; [done|]. lia. }
  assert (exists m1, ns_rel (R := R) cfg d hosts_size n1 m1 /\ tree_ok m1) as (m1 & Hn1 & Ht1).
  { destruct Ef as [H|H]; [by exists m|]. eexists. split; [exact H|]. cbn [ns_md_request request_op abs_op].
    apply tree_alter; [by intros []|done]. }
  apply m_bind_inv in E as (v & c2 & [N2 _]%finish_with_net & E). cbn [net] in N2.
  destruct (negb (v =? 0)); [injection E as _ <-; exists m1; by rewrite N2|].
  apply m_bind_inv in E as (out2 & c3 & E3 & E). unfold on_net in E3. rewrite N2 in E3.
  destruct (forward_truncate _ _ _ _ _ _ n1) as [r3 n3] eqn:Ew. injection E3 as -> <-.
  apply m_bind_inv in E as (v2 & c4 & [N4 _]%finish_with_net & [= _ <-]). cbn [net] in N4.
  apply forward_truncate_stores in Ew. exists m1. split; [|done]. rewrite N4. by eapply ns_rel_stores.
Qed.

Lemma lseek_keeps_tree (c c' : client) fd offset whence r :
  tree_inv c -> gkfs_lseek (W := cnet) d hosts_size fd offset whence c = (Ok r, c') -> tree_inv c'.
Proof using Hd L Henv Hio.
  intros (m & Hr & Ht) E. exists m. split; [|done]. enough (net c' = net c) as -> by done.
  unfold gkfs_lseek in E. apply m_bind_inv in E as (q & c1 & E1 & E).
  assert (c1 = c) as -> by (unfold get_open in E1; destruct (FileMap.get _ _); congruence).
  unfold gkfs_lseek_file in E. apply m_bind_inv in E as (o & c1 & E2 & E).
  assert (forall (c1 c2 : client) x, file_at q c1 = (Ok x, c2) -> c2 = c1) as Hfile.
  { intros c2 c3 x. unfold file_at. destruct (_ !! q); congruence. }
  apply Hfile in E2 as ->.
  assert (forall (c0 : client) v, net c0 = net c -> (pos q v ;;; (let* o := file_at q in m_ret (i64 (pos_ o)))) c0 = (Ok r, c') ->
    net c' = net c) as Hpos.
  { intros c0 v E0 E3. apply m_bind_inv in E3 as (x & c2 & [= <- <-] & E3).
    apply m_bind_inv in E3 as (y & c3 & ->%Hfile & [= _ <-]). done. }
  destruct (whence =? SEEK_SET); [by eapply Hpos|]. destruct (whence =? SEEK_CUR); [by eapply Hpos|].
  destruct (whence =? SEEK_END); [|by apply finish_with_net in E as [-> _]].
  unfold m_bind at 1 in E.
  rewrite (on_net_run _ c _ _ (ns_size_sim cfg junk st str_hash env time d hosts_size (net c) m (path_ o)
    Hr (eo_input _ Henv) ltac:(intros ???; apply Hio))), with_net_id in E.
  apply m_bind_inv in E as (v & c2 & [N2 _]%finish_with_net & E).
  destruct (v <? 0); [by apply finish_with_net in E as [-> _]|].
  destruct (_ && _); [by apply finish_with_net in E as [-> _]|]. by eapply Hpos.
Qed.

Lemma stat_keeps_tree (c c' : client) path r :
  tree_inv c -> gkfs_stat (W := cnet) cfg d hosts_size str_hash junk link_fuel path false c = (Ok r, c') -> tree_inv c'.
Proof using Hd L Henv Hio.
  intros (m & Hr & Ht).
  rewrite (gkfs_stat_run cfg junk st str_hash env time d hosts_size link_fuel Henv Hio c m path Hr).
  intros E. exists m. split; [|done]. enough (net c' = net c) as -> by done.
  destruct (m !! path) as [md|]; [|by injection E as _ <-].
  destruct (stat_of _ _ _ _ _); [by injection E as _ <-|done|done].
Qed.

Lemma fs_step_tree (c c' : client) : fs_step c c' -> tree_inv c -> tree_inv c'.
Proof using Hd L Henv Hio Hcheck Htime.
  intros [] Hi; [eapply create_keeps_tree|eapply symlink_keeps_tree|eapply remove_keeps_tree|eapply rmdir_keeps_tree
    |eapply pwrite_keeps_tree|eapply pread_keeps_tree|eapply truncate_keeps_tree|eapply stat_keeps_tree
    |eapply lseek_keeps_tree]; eassumption.
Qed.

Lemma fs_steps_tree (c c' : client) : rtc fs_step c c' -> tree_inv c -> tree_inv c'.
Proof using Hd L Henv Hio Hcheck Htime. induction 1; eauto using fs_step_tree. Qed.
End steps.

(** ** Properties *)

(** C5. The entries form a tree in every state an application can reach:
    starting from a tree, after any sequence of creations, links, removals of
    files and directories, writes, reads, truncations, seeks and stats,
    successful or not, every entry's path is canonical and its parent exists
    and is a directory. *)
Theorem tree_invariant {D F K : Type} (R : RocksDB D) (P : PosixFS F) (cfg : config) (junk : Metadata)
    (st : ChunkStorage) (str_hash : str -> Z) (env : margo_env) (time : Z) (d : Distributor) (hosts_size : Z)
    (link_fuel : nat) (Hd : DistributorOk hosts_size d) (L : RocksDBLaws R (FullMergeV2 cfg junk))
    (c c' : client (cluster D F) K) :
  env_ok env -> (forall db : D, reads_ok db) -> create_check_parents cfg = true -> in_s 64 time ->
  rtc (fs_step R P cfg junk st str_hash env time d hosts_size link_fuel) c c' ->
  tree_inv R cfg d hosts_size c -> tree_inv R cfg d hosts_size c'.
Proof. intros. by eapply fs_steps_tree. Qed.


(** *** Witnesses *)

Local Abbreviation memdb := (MemDB (FullMergeV2 small_config example_md)).
Local Abbreviation small_d := (SimpleHashDistributor last_char_hash 0 2).
Local Abbreviation small_net :=
  (ClusterNet (R := memdb) (P := MemFS) small_config example_md small_store last_char_hash good_env 0).

Lemma small_map_tree : tree_ok small_map.
Proof.
  assert (forall p cs, NUL ∉ p -> Forall component cs -> p = canonical cs ->
    (forall cs' c, cs = cs' ++ [c] -> exists pmd, small_map !! canonical cs' = Some pmd /\ S_ISDIR (mode_ pmd) = true) ->
    NUL ∉ p /\ exists cs, Forall component cs /\ p = canonical cs /\
    forall cs' c, cs = cs' ++ [c] -> exists pmd, small_map !! canonical cs' = Some pmd /\ S_ISDIR (mode_ pmd) = true) as Hmk.
  { intros p cs Hn Hc -> Hp. split; [done|]. by exists cs. }
  assert (map_Forall (fun p (_ : Metadata) => NUL ∉ p /\ exists cs, Forall component cs /\ p = canonical cs /\
    forall cs' c, cs = cs' ++ [c] -> exists pmd, small_map !! canonical cs' = Some pmd /\ S_ISDIR (mode_ pmd) = true) small_map) as H.
  { unfold small_map at 1. repeat apply map_Forall_insert_2; [| | | |apply map_Forall_empty].
    - apply (Hmk _ []); [by apply (bool_decide_unpack _)|constructor|done|]. by intros [] ?.
    - apply (Hmk _ [s_ "d"]); [by apply (bool_decide_unpack _)| |done|].
      { repeat constructor; [done|by apply (bool_decide_unpack _)]. }
      intros [|x [|y cs']] c [=]; subst. by exists dir_md.
    - apply (Hmk _ [s_ "d"; s_ "x"]); [by apply (bool_decide_unpack _)| |done|].
      { repeat constructor; (done || by apply (bool_decide_unpack _)). }
      intros [|x [|y [|z cs']]] c [=]; subst. by exists dir_md.
    - apply (Hmk _ [s_ "e"]); [by apply (bool_decide_unpack _)| |done|].
      { repeat constructor; [done|by apply (bool_decide_unpack _)]. }
      intros [|x [|y cs']] c [=]; subst. by exists dir_md. }
  intros p md Hp. exact (H p md Hp).
Qed.

Local Abbreviation small_create := (gkfs_create (W := small_net) small_config small_d 2 example_md 0 (s_ "/d/y") 420 ns_client).

Lemma small_create_ok : small_create.1 = Ok 0.
Proof. vm_compute. reflexivity. Qed.

Lemma small_proper : proper_path (s_ "/d/y").
Proof.
  split; [by apply (bool_decide_unpack _)|]. exists [s_ "d"; s_ "y"]. split; [|done].
  repeat constructor; (done || by apply (bool_decide_unpack _)).
Qed.

Lemma tree_invariant_witness : tree_inv memdb small_config small_d 2 small_create.2.
Proof.
  apply (tree_invariant memdb MemFS small_config example_md small_store last_char_hash good_env 0 small_d 2 0
    small_d_ok (MemDB_laws _) ns_client).
  - apply good_env_ok.
  - apply mem_reads_ok.
  - reflexivity.
  - split; by vm_compute.
  - apply rtc_once. apply (step_create _ _ _ _ _ _ _ _ _ _ _ _ _ (s_ "/d/y") 420 0); [exact small_proper|split; by vm_compute|].
    by rewrite <- small_create_ok, <- surjective_pairing.
  - exists small_map. split; [apply small_cluster_ns|apply small_map_tree].
Defined.

Local Abbreviation small_unlink := (gkfs_remove (W := small_net) small_config small_d 2 example_md 0 (s_ "/d") ns_client).

Lemma small_unlink_ok : small_unlink.1 = Ok 0.
Proof. vm_compute. reflexivity. Qed.

