(* ===== verification/Frame.v ===== *)
(** * What a request leaves alone

    A handler touches the chunk files of the path it is called with and no
    others, whatever the request holds and however it ends; metadata
    requests and reads touch none.  These are the frame lemmas that
    [Interference] builds on. *)

From S2P Require Import Prelude Config ChunkCalc Distributor PathUtil Metadata Merge MetadataDB ChunkStorage.
From S2P Require Import ChunkPlan SrvData SrvMetadata Rpc ForwardData Cluster.

(** ** Paths of chunk files *)

(** [q] is neither the chunk directory of [path] nor below it. *)
Definition outside (st : ChunkStorage) (path q : str) : Prop :=
  let dir := root_path st ++ sep :: replace_sep (drop 1 path) in
  q <> dir /\ forall t, q <> dir ++ sep :: t.

(** Paths with chunk directories of their own. *)
Definition apart (p1 p2 : str) : Prop := replace_sep (drop 1 p1) <> replace_sep (drop 1 p2).

Lemma first_sep_inj (a1 a2 b1 b2 : str) :
  sep ∉ a1 -> sep ∉ a2 -> a1 ++ sep :: b1 = a2 ++ sep :: b2 -> a1 = a2.
Proof.
  revert a2. induction a1 as [|x a1 IH]; intros [|y a2] H1 H2 E; try done.
  - injection E as <- _. by apply not_elem_of_cons in H2 as [[] _].
  - injection E as -> _. by apply not_elem_of_cons in H1 as [[] _].
  - injection E as -> E. apply not_elem_of_cons in H1 as [_ H1], H2 as [_ H2]. f_equal. eauto.
Qed.

Lemma chunk_file_outside st path p2 id : apart path p2 -> outside st p2 (chunk_file st path id).
Proof.
  intros Ha. pose proof (replace_sep_no_sep (drop 1 path)) as N1. pose proof (replace_sep_no_sep (drop 1 p2)) as N2.
  unfold outside, chunk_file. split.
  - intros E. apply app_inv_head in E. injection E as E. apply N2. rewrite <- E.
    apply elem_of_app. right. constructor.
  - intros t. rewrite <- app_assoc. intros E. apply app_inv_head in E. injection E as E.
    by apply first_sep_inj in E.
Qed.

Lemma chunk_dir_inv st path dir :
  chunk_dir st path = Ok dir -> dir = root_path st ++ sep :: replace_sep (drop 1 path).
Proof.
  unfold chunk_dir, get_chunks_dir, absolute. destruct (is_absolute path); [|done].
  cbn. destruct (is_relative _); [|done]. by intros [= <-].
Qed.

Lemma chunk_path_inv st path id p : chunk_path st path id = Ok p -> p = chunk_file st path id.
Proof.
  unfold chunk_path, get_chunk_path, get_chunks_dir, absolute. destruct (is_absolute path); [|done].
  cbn. destruct (is_relative _); [|done]. by intros [= <-].
Qed.

Lemma outside_chunk st path id q : outside st path q -> q <> chunk_file st path id.
Proof.
  intros [_ H]. specialize (H (to_string_u (u32 id))). rewrite <- app_assoc in H. exact H.
Qed.

(** ** Storage operations *)

Section storage_frame.
Context {F : Type} {P : PosixFS F} {L : PosixFSLaws P} (st : ChunkStorage) (path q : str).
Local Abbreviation at_q := (fun f : F => fs_file f q).

Lemma init_chunk_space_frame : preserves (S := F) fs_file (init_chunk_space st path).
Proof using L.
  apply preserves_bind; [preserve|intros dir]. apply preserves_bind; [|preserve].
  intros f r f'. destruct (px_mkdir dir f) as [e f1] eqn:E. intros [= _ <-]. by apply mkdir_files in E as [E _].
Qed.

Lemma write_chunk_frame id buff size offset :
  q <> chunk_file st path id -> preserves at_q (write_chunk st path id buff size offset).
Proof using L.
  intros Hq. apply preserves_bind; [preserve|intros _].
  apply preserves_bind; [intros f r f' E; by rewrite (init_chunk_space_frame _ _ _ E)|intros _].
  intros f r f'. unfold m_bind at 1, m_lift. destruct (chunk_path st path id) as [p| |] eqn:Ep; [|by intros [= _ <-]..].
  apply chunk_path_inv in Ep as ->. unfold m_bind.
  destruct (px_open_w _ f) as [[fd|e] f1] eqn:Eo.
  2:{ apply open_w_fail in Eo as [Eo _]. intros [= _ <-]. by rewrite Eo. }
  apply open_w_ok in Eo as [Hfd Ho].
  destruct (px_pwrite fd _ offset f1) as [[n|e] f2] eqn:Ew.
  - destruct (pwrite_ok _ _ _ _ _ _ _ Hfd Ew) as [_ Hw]. intros [= _ <-].
    by rewrite close_files, Hw, decide_False, Ho, decide_False.
  - apply pwrite_fail in Ew as [Ew _]. intros [= _ <-]. by rewrite Ew, Ho, decide_False.
Qed.

Lemma read_chunk_frame id size offset : preserves (S := F) fs_file (read_chunk st path id size offset).
Proof using L.
  apply preserves_bind; [preserve|intros _]. apply preserves_bind; [preserve|intros p].
  apply preserves_bind.
  - intros f r f'. destruct (px_open_r p f) as [[fd|e] f1] eqn:E; intros [= _ <-].
    + by apply open_r_ok in E as (_ & _ & E).
    + by apply open_r_fail in E as [E _].
  - intros [fd|e]; [|preserve]. apply preserves_bind; [preserve|intros [[bs|e]|]]; [|preserve..].
    apply preserves_bind; [|preserve]. apply preserves_modify. intros f. apply close_files.
Qed.

Lemma destroy_chunk_space_frame : outside st path q -> preserves at_q (destroy_chunk_space st path).
Proof using L.
  intros [H1 H2] f r f'. unfold destroy_chunk_space, m_bind, m_lift.
  destruct (chunk_dir st path) as [dir| |] eqn:Ed; [|by intros [= _ <-]..]. apply chunk_dir_inv in Ed as ->.
  intros [= _ <-]. apply remove_all_outside; [|done]. intros [t Ht]. by apply (H2 t).
Qed.

(** Of a directory, a loop removes entries whose number is in the interval. *)
Lemma trim_loop_frame dir names s e :
  (forall n, n ∈ names -> trimmed n s e -> q <> dir ++ [sep] ++ n) -> preserves at_q (trim_loop dir names s e).
Proof using L.
  induction names as [|n names IH]; intros Hq; [apply preserves_ret|]. cbn [trim_loop].
  assert (preserves at_q (trim_loop dir names s e)) as IH' by (apply IH; intros m Hm; apply Hq; by constructor).
  intros f r f'. unfold m_bind at 1, m_lift. destruct (stoul n) as [[v k]| |] eqn:Ev; [|by intros [= _ <-]..]. cbn [fst].
  destruct ((s <=? v) && (v <=? e)) eqn:Er; [|apply IH'].
  revert f r f'. apply preserves_bind; [|intros c; destruct (c =? 0); [done|preserve]].
  intros f r f'. destruct (px_unlink (dir ++ [sep] ++ n) f) as [c f1] eqn:Eu. intros [= _ <-].
  destruct (decide (c = 0)) as [->|Hc]; [|by rewrite (unlink_fail _ _ _ _ Eu Hc)].
  rewrite (unlink_ok _ _ _ Eu), decide_False; [done|]. apply Hq; [constructor|]. exists v, k. split; [done|lia].
Qed.

Lemma trim_chunk_space_frame s e : outside st path q -> preserves at_q (trim_chunk_space st path s e).
Proof using L.
  intros [_ H]. intros f r f'. unfold trim_chunk_space, m_bind at 1, m_lift.
  destruct (chunk_dir st path) as [dir| |] eqn:Ed; [|by intros [= _ <-]..]. apply chunk_dir_inv in Ed as ->.
  revert f r f'. apply preserves_bind; [preserve|intros [names|]; [|preserve]].
  apply trim_loop_frame. intros n _ _. apply H.
Qed.

Lemma check_sys_frame (c : F -> Z * F) : (forall f e f', c f = (e, f') -> fs_file f' q = fs_file f q) ->
  preserves at_q (check_sys c).
Proof using.
  intros H f r f'. unfold check_sys. destruct (c f) as [e f1] eqn:E. apply H in E.
  destruct (e =? 0); by intros [= _ <-].
Qed.

Lemma truncate_chunk_frame id len : q <> chunk_file st path id -> preserves at_q (truncate_chunk st path id len).
Proof using L.
  intros Hq f r f'. unfold truncate_chunk, m_bind at 1, m_lift.
  destruct (chunk_path st path id) as [p| |] eqn:Ep; [|by intros [= _ <-]..]. apply chunk_path_inv in Ep as ->.
  revert f r f'. apply preserves_bind; [preserve|intros _]. apply check_sys_frame. intros f e f' E.
  destruct (decide (e = 0)) as [->|He]; [|by rewrite (truncate_fail _ _ _ _ _ E He)].
  apply truncate_ok in E as [_ ->]. by rewrite decide_False.
Qed.

End storage_frame.

(** ** Handlers *)

Section handler_frame.
Context {F : Type} {P : PosixFS F} {L : PosixFSLaws P} (cfg : config) (st : ChunkStorage).
Context (str_hash : str -> Z) (env : margo_env).

Lemma run_tasks_frame {A B} (g : F -> B) (task : piece -> M F A) ps :
  (forall p, preserves g (task p)) -> preserves g (run_tasks task ps).
Proof using.
  intros H. induction ps as [|p ps IH]; [apply preserves_ret|]. cbn [run_tasks].
  apply preserves_bind; [apply H|intros r]. apply preserves_bind; [done|preserve].
Qed.

Lemma rpc_srv_write_frame q in_ client junk : outside st (in_path in_) q ->
  preserves (fun f : F => fs_file f q) (rpc_srv_write cfg str_hash st env in_ client junk).
Proof using L.
  intros Hq.
  assert (forall bulk ps, preserves (fun f => fs_file f q) (run_tasks (write_file_abt st (in_path in_) bulk) ps)) as Ht.
  { intros bulk ps. apply run_tasks_frame. intros p. apply preserves_try; [|intros []; preserve].
    apply write_chunk_frame. by apply outside_chunk. }
  unfold rpc_srv_write. do 3 (case_match; [preserve|]). cbv zeta.
  apply preserves_bind; [preserve|intros [s|]; [|preserve]].
  case_match; [case_match|]; apply preserves_bind; [apply Ht|preserve|apply Ht|preserve].
Qed.

Lemma rpc_srv_read_frame in_ client junk :
  preserves (S := F) fs_file (rpc_srv_read cfg str_hash st env in_ client junk).
Proof using L.
  assert (forall path ps, preserves (S := F) fs_file (run_tasks (read_file_abt st path) ps)) as Ht.
  { intros path ps. apply run_tasks_frame. intros p. apply preserves_try; [|intros []; preserve].
    apply preserves_bind; [apply read_chunk_frame|preserve]. }
  unfold rpc_srv_read. do 3 (case_match; [preserve|]). cbv zeta.
  apply preserves_bind; [preserve|intros [s|]; [|preserve]].
  case_match; apply preserves_bind; [apply Ht|preserve|apply Ht|preserve].
Qed.

Lemma rpc_srv_truncate_frame q path len : outside st path q ->
  preserves (fun f : F => fs_file f q) (rpc_srv_truncate cfg st env path len).
Proof using L.
  intros Hq. unfold rpc_srv_truncate. case_match; [preserve|]. cbv zeta.
  apply preserves_bind; [case_match; [|preserve]|intros _].
  - apply truncate_chunk_frame. by apply outside_chunk.
  - apply preserves_bind; [by apply trim_chunk_space_frame|preserve].
Qed.
End handler_frame.

(** A truncation keeps the bytes below the new length, also when it stops
    half way. *)
Section truncate_keeps.
Context {F : Type} {P : PosixFS F} {L : PosixFSLaws P} (cfg : config) (st : ChunkStorage).
Context (path : str) (id : Z) (Hid : in_u 32 id).

Lemma trim_chunk_space_keeps s e : id < s ->
  preserves (fun f : F => fs_file f (chunk_file st path id)) (trim_chunk_space st path s e).
Proof using L Hid.
  intros Hs f r f'. unfold trim_chunk_space, m_bind at 1, m_lift.
  destruct (chunk_dir st path) as [dir| |] eqn:Ed; [|by intros [= _ <-]..]. apply chunk_dir_inv in Ed as ->.
  unfold m_bind, m_gets. destruct (px_readdir _ f) as [names|] eqn:En; [|by intros [= _ <-]].
  apply trim_loop_frame. intros n Hn Ht. apply (readdir_names _ _ _ _ En) in Hn as [Hns _].
  unfold chunk_file. rewrite <- app_assoc. intros Eq. apply app_inv_head in Eq. injection Eq as Eq.
  apply app_inv_head in Eq. injection Eq as <-. apply chunk_name_trimmed in Ht; [lia|done].
Qed.

Context (i : nat) (b : byte).
Local Abbreviation byte_there := (fun f : F => default [] (fs_file f (chunk_file st path id)) !! i = Some b).

Lemma truncate_chunk_keeps len : (i < Z.to_nat len)%nat -> upholds byte_there (truncate_chunk st path id len).
Proof using L.
  intros Hlen f r f'. unfold truncate_chunk, m_bind at 1, m_lift.
  destruct (chunk_path st path id) as [p| |] eqn:Ep; [|by intros [= _ <-]..]. apply chunk_path_inv in Ep as ->.
  revert f r f'. apply upholds_bind; [apply upholds_pure; intros f; unfold m_assert; by case_match|intros _].
  intros f r f'. unfold check_sys. destruct (px_truncate _ len f) as [e f1] eqn:E.
  destruct (Z.eqb_spec e 0) as [->|He]; intros [= _ <-] Hb; [|by rewrite (truncate_fail _ _ _ _ _ E He)].
  apply truncate_ok in E as [[c Hc] ->]. rewrite decide_True, Hc by done. rewrite Hc in Hb. cbn in *.
  unfold resize. rewrite lookup_app_l; [by rewrite lookup_take_lt|].
  apply lookup_lt_Some in Hb. rewrite length_take. lia.
Qed.

Context (k : Z) (Hk : 0 <= k < 63) (Hcs : chunksize cfg = 2 ^ k).

Lemma rpc_srv_truncate_keeps env len :
  0 <= len < 2 ^ 63 -> len / chunksize cfg + 1 < 2 ^ 32 -> (i < Z.to_nat (chunksize cfg))%nat ->
  id * chunksize cfg + Z.of_nat i < len -> upholds byte_there (rpc_srv_truncate cfg st env path len).
Proof using All.
  intros Hl H32 Hi Hlt. pose proof (cs_pos k _ Hk Hcs) as Hpos. set (cs := chunksize cfg) in *.
  pose proof (Z.div_mod len cs ltac:(lia)) as DM. pose proof (Z.mod_pos_bound len cs ltac:(lia)) as MB.
  assert (0 <= len / cs) by (apply Z.div_pos; lia). assert (0 <= id) by (apply Hid).
  unfold rpc_srv_truncate. fold cs. rewrite (chnk_id_pow2 k cs Hk Hcs) by lia. rewrite (chnk_lpad_pow2 k cs Hk Hcs).
  rewrite (wrapu_small 32 (len / cs)) by (unfold in_u; lia). cbv zeta.
  destruct (negb (get_input_ok env)); [by apply upholds_pure|].
  assert (forall s, id < s -> upholds byte_there (trim_chunk_space st path s (2 ^ 32 - 1) ;;; m_ret 0)) as Htrim.
  { intros s Hs. apply upholds_bind; [|intros _; by apply upholds_pure].
    apply (preserves_upholds _ (fun x => default [] x !! i = Some b)). by apply trim_chunk_space_keeps. }
  apply upholds_bind.
  - destruct (Z.eqb_spec (len mod cs) 0) as [E0|E0]; cbn [negb]; [by apply upholds_pure|].
    destruct (decide (id = len / cs)) as [Eid|Hne]; [rewrite <- Eid; apply truncate_chunk_keeps; nia|].
    apply (preserves_upholds _ (fun x => default [] x !! i = Some b)). apply truncate_chunk_frame.
    intros E. apply chunk_file_inj in E as [_ E]; [done|done|unfold in_u; lia].
  - intros _. apply Htrim. destruct (Z.eqb_spec (len mod cs) 0) as [E0|E0]; cbn [negb]; [nia|].
    rewrite wrapu_small by (unfold in_u; lia). nia.
Qed.
End truncate_keeps.

(** ** Requests *)

(** The path whose chunk files a request may change. *)
Definition touches {A} (q : rpc A) : option str :=
  match q with
  | RpcWriteData in_ _ => Some (in_path in_)
  | RpcRemove path | RpcTruncData path _ => Some path
  | _ => None
  end.

Section request_frame.
Context {D F : Type} {R : RocksDB D} {P : PosixFS F} {L : PosixFSLaws P}.
Context (cfg : config) (junk : Metadata) (st : ChunkStorage) (str_hash : str -> Z) (env : margo_env) (time : Z).
Local Abbreviation on_daemon g := (fun s : daemon D F => g (storage s)).

Lemma on_mdb_frame {A} (c : M D A) : preserves (S := daemon D F) storage (on_mdb c).
Proof using. intros s r s'. unfold on_mdb. destruct (c (mdb s)). by intros [= _ <-]. Qed.

Lemma on_storage_frame {A B} (g : F -> B) (c : M F A) : preserves g c -> preserves (on_daemon g) (on_storage c).
Proof using. intros H s r s'. unfold on_storage. destruct (c (storage s)) eqn:E. intros [= _ <-]. by eapply H. Qed.

#[local] Hint Resolve on_mdb_frame : preserves.

Lemma chunk_stat_frame {B} (g : F -> B) : preserves g (rpc_srv_get_chunk_stat st).
Proof using. unfold rpc_srv_get_chunk_stat, chunk_stat. preserve. Qed.

Lemma create_frame t path md : preserves (S := daemon D F) storage (create cfg t path md).
Proof using. unfold create. preserve. Qed.

Lemma metadentry_get_frame path : preserves (S := daemon D F) storage (metadentry_get cfg junk path).
Proof using. unfold metadentry_get, get_str. preserve. Qed.

#[local] Hint Resolve create_frame metadentry_get_frame : preserves.

(** The metadata requests do not get to the storage; a removal does. *)
Definition metadata_rpc {A} (q : rpc A) : bool :=
  match q with
  | RpcRemove _ | RpcWriteData _ _ | RpcReadData _ _ | RpcTruncData _ _ | RpcChunkStat => false
  | _ => true
  end.

Lemma metadata_rpc_frame {A} (q : rpc A) regs : metadata_rpc q = true ->
  preserves storage (run_rpc cfg junk st str_hash env time q regs).
Proof using.
  destruct q; try done; intros _; cbn [run_rpc]; apply preserves_bind; try solve [preserve].
  all: unfold rpc_srv_create, rpc_srv_stat, rpc_srv_decr_size, rpc_srv_update_metadentry, rpc_srv_update_metadentry_size,
    rpc_srv_get_metadentry_size, rpc_srv_get_dirents, rpc_srv_mk_symlink, update, update_size, get_size, get_str, get_dirents.
  all: preserve.
Qed.

Lemma run_rpc_frame {A} (q : rpc A) regs x :
  (forall p, touches q = Some p -> outside st p x) ->
  preserves (on_daemon (fun f => fs_file f x)) (run_rpc cfg junk st str_hash env time q regs).
Proof using L.
  intros Hx. destruct (metadata_rpc q) eqn:Hq.
  { intros s r s' E. by rewrite (metadata_rpc_frame q regs Hq _ _ _ E). }
  destruct q; try done; cbn [run_rpc touches] in *; try specialize (Hx _ eq_refl);
    (apply preserves_bind; [|intros ?; apply preserves_ret]).
  - apply preserves_bind; [apply preserves_assert|intros _].
    apply preserves_try; [|intros ?; apply preserves_ret]. apply preserves_bind; [|intros ?; apply preserves_ret].
    apply preserves_bind; [intros s r s' E; by rewrite (on_mdb_frame _ _ _ _ E)|intros _].
    by apply (on_storage_frame (fun f => fs_file f x)), destroy_chunk_space_frame.
  - by apply (on_storage_frame (fun f => fs_file f x)), rpc_srv_write_frame.
  - apply (on_storage_frame (fun f => fs_file f x)). intros f r f' E. by rewrite (rpc_srv_read_frame _ _ _ _ _ _ _ _ _ _ E).
  - by apply (on_storage_frame (fun f => fs_file f x)), rpc_srv_truncate_frame.
  - apply (on_storage_frame (fun f => fs_file f x)), chunk_stat_frame.
Qed.

(** The chunk files of a path are left alone by requests for paths apart
    from it. *)
Lemma run_rpc_apart {A} (q : rpc A) regs path id :
  (forall p, touches q = Some p -> apart path p) ->
  preserves (on_daemon (fun f => fs_file f (chunk_file st path id))) (run_rpc cfg junk st str_hash env time q regs).
Proof using L. intros H. apply run_rpc_frame. intros p Hp. by apply chunk_file_outside, H. Qed.
End request_frame.

(** Different paths without [':'] are apart. *)
Lemma apart_paths p1 p2 :
  file_path_ok p1 -> file_path_ok p2 -> ":"%char ∉ p1 -> ":"%char ∉ p2 -> p1 <> p2 -> apart p1 p2.
Proof.
  intros (c1 & t1 & ->) (c2 & t2 & ->) [_ H1]%not_elem_of_cons [_ H2]%not_elem_of_cons Hne E. cbn [drop] in E.
  apply replace_sep_inj in E; [|done..]. congruence.
Qed.

(** ** Properties *)

(** C11. Requests are isolated: whatever a request holds and however its
    handler ends, the chunk files of every path it does not name are
    unchanged on every daemon.  Reads and metadata requests name none; paths
    with [':'] are excluded since they share chunk directories. *)
Theorem requests_isolated {D F : Type} (R : RocksDB D) (P : PosixFS F) (L : PosixFSLaws P) (cfg : config)
    (junk : Metadata) (st : ChunkStorage) (str_hash : str -> Z) (env : margo_env) (time host id : Z) (A : Type)
    (q : rpc A) (n : cluster D F) (path : str) (h : nat) :
  file_path_ok path -> ":"%char ∉ path ->
  (forall p, touches q = Some p -> file_path_ok p /\ ":"%char ∉ p /\ p <> path) ->
  (s ← daemons (cluster_post cfg junk st str_hash env time host q n).2 !! h; fs_file (storage s) (chunk_file st path id)) =
  (s ← daemons n !! h; fs_file (storage s) (chunk_file st path id)).
Proof.
  intros Hp Hc Hq. unfold cluster_post. destruct (daemons n !! Z.to_nat host) as [s|] eqn:Es; [|done].
  destruct (run_rpc cfg junk st str_hash env time q (regions n) s) as [r s'] eqn:E.
  apply (run_rpc_apart cfg junk st str_hash env time q (regions n) path id) in E.
  2:{ intros p Ht. destruct (Hq p Ht) as (H1 & H2 & H3). by apply apart_paths. }
  assert (forall regs, (s ← daemons (MkCluster (<[Z.to_nat host := s']> (daemons n)) regs) !! h;
    fs_file (storage s) (chunk_file st path id)) = (s ← daemons n !! h; fs_file (storage s) (chunk_file st path id))) as H.
  { intros regs. cbn [daemons]. destruct (decide (h = Z.to_nat host)) as [->|]; [|by rewrite list_lookup_insert_ne].
    rewrite list_lookup_insert_eq, Es by (by eapply lookup_lt_Some). csimpl. done. }
  destruct r as [[out regs]|e|]; apply H.
Qed.

(** Removing [/g] on daemon 1 leaves the chunks of [/f]. *)
Lemma requests_isolated_witness :
  let n := example_cluster in
  (s ← daemons (cluster_post (R := MemDB (FullMergeV2 small_config example_md)) (P := MemFS) small_config example_md
     small_store last_char_hash good_env 0 1 (RpcRemove (s_ "/g")) n).2 !! 1%nat;
   fs_file (storage s) (chunk_file small_store (s_ "/f") 3)) =
  (s ← daemons n !! 1%nat; fs_file (storage s) (chunk_file small_store (s_ "/f") 3)).
Proof.
  refine (requests_isolated (MemDB (FullMergeV2 small_config example_md)) MemFS MemFS_laws small_config example_md
    small_store last_char_hash good_env 0 1 3 Z (RpcRemove (s_ "/g")) example_cluster (s_ "/f") 1 _ _ _).
  - by eexists _, _.
  - by apply (bool_decide_unpack _).
  - intros p [= <-]. split; [by eexists _, _|]. split; [by apply (bool_decide_unpack _)|done].
Defined.
