(* ===== verification/SharedDaemon.v ===== *)
(** * Requests at the same time on one daemon

    [Tasks] runs the tasks of one request beside its handler.  Here the
    handlers and tasks of other requests change the node-local file system
    in between.  A run among such changes is replayed as a run on its own, so
    what [Tasks] shows of the handler (where it is, what it replies, when the
    buffer is freed) carries over; what the tasks have written is kept as
    long as the other requests leave the bytes of the range alone. *)

From S2P Require Import Prelude Config ChunkCalc Distributor ChunkStorage ChunkPlan SrvData Tasks Rpc Cluster Frame.

(** ** A machine whose store others change *)

Section shared_machine.
Context {St A Acc R : Type} (h : handler A Acc R) (calls : margo_end).
Context (ps : list piece) (task : piece -> M St A) (store0 : St) (others : St -> St -> Prop).
Local Abbreviation run := (run St A Acc R).

(** The run with another store. *)
Definition with_store {S'} (s : S') (r : run) : Tasks.run S' A Acc R :=
  MkRun (at_ r) (status r) (acc r) s (ended r) (buffer_live r) (response r) (use_after_free r).

Inductive shared_step : run -> run -> Prop :=
| own_step r r' : step h calls ps task r r' -> shared_step r r'
| others_step r s : others (store r) s -> shared_step r (with_store s r).

Definition shared_reachable (r : run) : Prop := rtc shared_step (init h ps store0) r.

(** The same with the number of steps of the request itself. *)
Inductive shared_run : nat -> run -> Prop :=
| sr_init : shared_run 0 (init h ps store0)
| sr_own n r r' : shared_run n r -> step h calls ps task r r' -> shared_run (S n) r'
| sr_others n r s : shared_run n r -> others (store r) s -> shared_run n (with_store s r).

Lemma shared_run_reachable n r : shared_run n r -> shared_reachable r.
Proof using.
  induction 1 as [|n r r' _ IH Hs|n r s _ IH Ho]; [apply rtc_refl|eapply rtc_r; [exact IH|by apply own_step]|].
  eapply rtc_r; [exact IH|by apply others_step].
Qed.

(** Others do not add to the work that is left. *)
Lemma shared_run_work n r : shared_run n r -> (n + work ps r <= 4 * length ps + 3)%nat.
Proof using.
  induction 1 as [|n r r' _ IH Hs|n r s _ IH Ho]; [by rewrite init_work| |exact IH].
  destruct Hs as [c x y E]. apply next_work in E. lia.
Qed.

Lemma own_schedule cs n (r r' : run) : shared_run n r -> run_schedule h calls ps task cs r = Some r' ->
  shared_run (length cs + n) r'.
Proof using.
  revert n r. induction cs as [|c cs IH]; intros n r Hr H; cbn in H; [by simplify_eq|].
  destruct (step_fn h calls ps task c r) as [r1|] eqn:E; [|done]. cbn [length]. rewrite Nat.add_succ_comm.
  eapply IH; [|done]. eapply sr_own; [done|by econstructor].
Qed.

(** *** Replay *)

(** A task that sets the next of the recorded results. *)
Definition replay (p : piece) : M (list A) A := fun os =>
  match os with o :: os' => (Ok o, os') | [] => (Trap, []) end.

Context (Htask : forall p s, p ∈ ps -> exists o s', task p s = (Ok o, s')).

Lemma main_step_store {S'} (s : S') (r r' : run) :
  main_step h calls ps r = Some r' -> main_step h calls ps (with_store s r) = Some (with_store s r').
Proof using.
  unfold main_step. cbn [at_ with_store]. destruct (at_ r) as [i|out|i| |]; [| | |done..].
  - destruct (length ps <=? i)%nat; [by intros [= <-]|]. destruct (wait_ok h i); cbn [negb]; [|by intros [= <-]].
    cbn [status with_store]. destruct (status r !! i) as [[| |[o|]]|]; try done. intros [= <-].
    unfold take_turn. cbn [acc with_store]. by destruct (turn h i o (acc r)).
  - by intros [= <-].
  - cbn [status with_store]. destruct (status r !! i) as [[| |o]|]; try done; [|by intros [= <-]..].
    destruct (cancel h); [|done]. by intros [= <-].
Qed.

Lemma main_step_any {S'} (r : run) (s : S') : is_Some (main_step h calls ps (with_store s r)) -> is_Some (main_step h calls ps r).
Proof using.
  unfold main_step. cbn [at_ status acc with_store]. destruct (at_ r) as [i|out|i| |]; [|by eauto| |done..].
  - destruct (length ps <=? i)%nat; [by eauto|]. destruct (wait_ok h i); cbn [negb]; [|by eauto].
    destruct (status r !! i) as [[| |[o|]]|]; by eauto.
  - destruct (status r !! i) as [[| |o]|]; try by eauto. destruct (cancel h); by eauto.
Qed.

Lemma step_live {S'} (task' : piece -> M S' A) c (r : Tasks.run S' A Acc R) : at_ r <> Crashed ->
  step_fn h calls ps task' c r =
    match c with
    | Start i => if is_ready (status r !! i) then Some (set_status i Running r) else None
    | End_ i => if is_running (status r !! i) then p ← ps !! i; Some (end_task task' i p r) else None
    | Main => main_step h calls ps r
    end.
Proof using. intros Hc. unfold step_fn. by destruct (at_ r). Qed.

(** A step, with the results it used up. *)
Lemma step_replay (r r' : run) : step h calls ps task r r' ->
  exists os, forall extra, step h calls ps replay (with_store (os ++ extra) r) (with_store extra r').
Proof using Htask.
  intros [c r1 r2 [Hc E]%next_live].
  destruct c as [i|i|].
  - destruct E as [Hi ->]. exists []. intros extra. apply (step_choice _ _ _ _ (Start i)).
    rewrite step_live by done. cbn [status with_store]. by rewrite Hi.
  - destruct E as (Hi & p & Hp & ->). destruct (Htask p (store r1)) as (o & s' & Et); [by eapply list_elem_of_lookup_2|].
    exists [o]. intros extra. apply (step_choice _ _ _ _ (End_ i)).
    rewrite step_live by done. cbn [status with_store]. rewrite Hi, Hp. unfold end_task. by rewrite Et.
  - exists []. intros extra. apply (step_choice _ _ _ _ Main). rewrite step_live by done. by apply main_step_store.
Qed.

Lemma shared_replay (r : run) : shared_reachable r ->
  exists os, forall extra, reachable h calls ps replay (os ++ extra) (with_store extra r).
Proof using Htask.
  unfold shared_reachable. revert r. refine (rtc_ind_r _ _ _ _); [exists []; intros extra; apply rtc_refl|].
  intros y z _ [y' r' Hs|y' s _] [os IH]; [|by exists os].
  destruct (step_replay y' r' Hs) as [os' H'].
  exists (os ++ os'). intros extra. rewrite <- app_assoc. eapply rtc_r; [apply IH|apply H'].
Qed.

Lemma shared_live (r : run) : shared_reachable r -> at_ r <> Crashed.
Proof using Htask.
  unfold shared_reachable. revert r. refine (rtc_ind_r _ _ _ _); [done|].
  intros y z _ [y' r' [c y1 z1 [Hc E]%next_live]|y' s _] IH; [|done]. destruct c as [i|i|].
  - by destruct E as [_ ->].
  - destruct E as (_ & p & Hp & ->). destruct (Htask p (store y1)) as (o & s' & Et); [by eapply list_elem_of_lookup_2|].
    unfold end_task. by rewrite Et.
  - unfold main_step in E. destruct (at_ y1) as [i|out|i| |] eqn:Ea; [| | |done..].
    + destruct (length ps <=? i)%nat; [by injection E as <-|]. destruct (wait_ok h i); cbn in E; [|by injection E as <-].
      destruct (status y1 !! i) as [[| |[x|]]|]; try done. injection E as <-. unfold take_turn. by destruct (turn h i x (acc y1)).
    + by injection E as <-.
    + destruct (status y1 !! i) as [[| |x]|]; try done; [|by injection E as <-..].
      destruct (cancel h); [|done]. by injection E as <-.
Qed.

(** What [Tasks] shows of a machine on its own holds here. *)
Lemma shared_inv (r : run) : shared_reachable r ->
  exists os, Tasks.inv h calls ps replay os (with_store [] r).
Proof using Htask. intros [os H]%shared_replay. exists (os ++ []). apply run_inv, H. Qed.

(** Before the end the request can always go on, whatever others did. *)
Lemma shared_progress (r : run) : shared_reachable r -> at_ r <> Finished -> exists r', step h calls ps task r r'.
Proof using Htask.
  intros Hr Hf. pose proof (shared_live r Hr) as Hc. destruct (shared_inv r Hr) as [os I].
  destruct (progress h calls ps replay os (with_store [] r) I Hf Hc) as (c & r' & E).
  rewrite step_live in E by done. cbn [status with_store] in E.
  assert (is_Some (step_fn h calls ps task c r)) as [r2 E2]; [|by exists r2; econstructor].
  rewrite step_live by done. destruct c as [i|i|].
  - by destruct (is_ready _).
  - destruct (is_running _); [|done]. by destruct (ps !! i).
  - destruct (main_step h calls ps (with_store [] r)) as [r1|] eqn:Em; [|done].
    apply (main_step_any r (@nil A)). by rewrite Em.
Qed.

(** *** What the tasks have done *)

(** [Q p o s]: the task of [p] ended with [o] and its work is in [s]. *)
Context (Q : piece -> A -> St -> Prop) (Hnd : NoDup ps).
Context (Hown : forall p s o s', p ∈ ps -> task p s = (Ok o, s') ->
  Q p o s' /\ forall p' o', p' ∈ ps -> p' <> p -> Q p' o' s -> Q p' o' s').
Context (Hothers : forall p o s s', p ∈ ps -> others s s' -> Q p o s -> Q p o s').

(** The handler's steps do not touch the store or the results. *)
Lemma main_step_keeps (r r' : run) j o : main_step h calls ps r = Some r' ->
  store r' = store r /\ (status r' !! j = Some (Done (Some o)) -> status r !! j = Some (Done (Some o))).
Proof using.
  unfold main_step. destruct (at_ r) as [i|out|i| |]; [| | |done..].
  - destruct (length ps <=? i)%nat; [by intros [= <-]|]. destruct (wait_ok h i); cbn [negb]; [|by intros [= <-]].
    destruct (status r !! i) as [[| |[x|]]|]; try done. intros [= <-]. unfold take_turn. by destruct (turn h i x (acc r)).
  - by intros [= <-].
  - destruct (status r !! i) as [[| |x]|] eqn:Ei; try done; [|by intros [= <-]..].
    destruct (cancel h); [|done]. intros [= <-]. cbn. split; [done|]. destruct (decide (j = i)) as [->|].
    + rewrite list_lookup_insert_eq; [done|by eapply lookup_lt_Some].
    + by rewrite list_lookup_insert_ne.
Qed.

Definition worked (r : run) : Prop := forall i p o,
  ps !! i = Some p -> status r !! i = Some (Done (Some o)) -> Q p o (store r).

Lemma own_worked (r r' : run) : step h calls ps task r r' -> worked r -> worked r'.
Proof using Htask Hnd Hown.
  intros [c y z [Hc E]%next_live] IH j p o Hp Hst. destruct c as [i|i|].
  - destruct E as [Hi ->]. cbn in Hst. destruct (not_ran y i (or_intror Hi)) as [_ Hl]. destruct (decide (j = i)) as [->|].
    + by rewrite list_lookup_insert_eq in Hst.
    + rewrite list_lookup_insert_ne in Hst by done. by eapply IH.
  - destruct E as (Hi & p' & Hp' & ->). destruct (not_ran y i (or_introl Hi)) as [_ Hl].
    destruct (Htask p' (store y)) as (o' & s' & Et); [by eapply list_elem_of_lookup_2|].
    unfold end_task in *. rewrite Et in *. cbn in Hst |- *.
    destruct (Hown p' (store y) o' s') as [H1 H2]; [by eapply list_elem_of_lookup_2|done|].
    destruct (decide (j = i)) as [->|Hne].
    + rewrite list_lookup_insert_eq in Hst by done. congruence.
    + rewrite list_lookup_insert_ne in Hst by done. apply H2; [by eapply list_elem_of_lookup_2| |by eapply IH].
      intros ->. apply Hne. by eapply NoDup_lookup.
  - destruct (main_step_keeps y z j o E) as [-> Hst']. eapply IH; [done|by apply Hst'].
Qed.

Lemma shared_work (r : run) : shared_reachable r -> worked r.
Proof using Htask Hnd Hown Hothers.
  unfold shared_reachable. revert r. refine (rtc_ind_r _ _ _ _).
  - intros j p o Hp Hst. cbn in Hst. by apply lookup_replicate in Hst as [Hst _].
  - intros y z _ [y' r' Hs|y' s Ho] IH; [by eapply own_worked|].
    intros j p o Hp Hst. cbn in *. eapply Hothers; [by eapply list_elem_of_lookup_2|done|by eapply IH].
Qed.
End shared_machine.

(** ** A write request among others *)

(** The sizes the tasks report, by chunk. *)
Lemma reported_sizes (l ws : list Z) : NoDup l -> length ws = length l ->
  exists k, Forall2 (result_of k) l ws /\ Forall2 (fun id w => k id = Z.max 0 w) l ws.
Proof.
  intros Hl. revert ws. induction Hl as [|id l Hni Hl IH]; intros [|w ws] Hlen; try done; [by exists (fun _ => 0)|].
  destruct (IH ws ltac:(cbn in Hlen; lia)) as (k & H1 & H2).
  exists (fun x => if decide (x = id) then Z.max 0 w else k x). split; constructor.
  - unfold result_of. rewrite decide_True by done. lia.
  - eapply Forall2_elem_impl; [exact H1|]. intros x y Hx. unfold result_of. rewrite decide_False; [done|]. by intros ->.
  - by rewrite decide_True.
  - eapply Forall2_elem_impl; [exact H2|]. intros x y Hx. rewrite decide_False; [done|]. by intros ->.
Qed.


Section shared_write.
Context {F : Type} {P : PosixFS F} {L : PosixFSLaws P} (st : ChunkStorage).
Context (cs offset size : Z) (path : str).

(** Byte [o] of the file as this daemon stores it. *)
Definition byte_of (f : F) (o : Z) : option byte :=
  default [] (fs_file f (chunk_file st path (o / cs))) !! Z.to_nat (o mod cs).

(** The bytes of the range that are there stay. *)
Definition keeps_range (f f' : F) : Prop := forall o b, offset <= o < offset + size ->
  byte_of f o = Some b -> byte_of f' o = Some b.

Context (client : list byte).
Context (Hcs : 0 < cs < 2 ^ 63) (Hst : cs_chunksize st = cs) (Ho : 0 <= offset) (Hs : 0 < size).
Context (H32 : last_id cs offset size < 2 ^ 32) (Hp : file_path_ok path).
Context (Hclient : Z.of_nat (length client) = size).
Context (env : margo_env) (calls : margo_end) (bulk : list byte) (ps : list piece) (f : F).
Context (Hld : Forall (loaded cs offset size client bulk) ps) (Hnd : NoDup (pc_id <$> ps)).
Local Abbreviation task := (write_file_abt st path bulk).
Local Abbreviation h := (write_handler env).
Local Abbreviation psz := (psize cs offset size).

(** A task that wrote all its bytes: they are in the store. *)
Definition piece_stored (p : piece) (w : Z) (s : F) : Prop :=
  w <= psz (pc_id p) /\
  (w = psz (pc_id p) -> forall o, offset <= o < offset + size -> o / cs = pc_id p ->
     byte_of s o = client !! Z.to_nat (o - offset)).

Lemma piece_range p : p ∈ ps -> first_id cs offset <= pc_id p <= last_id cs offset size.
Proof using Hld. intros Hin. rewrite Forall_forall in Hld. by destruct (Hld p Hin) as (id & ptr & -> & Hid & _). Qed.

Lemma piece_own p s w s' : p ∈ ps -> task p s = (Ok w, s') ->
  piece_stored p w s' /\ forall p' w', p' ∈ ps -> p' <> p -> piece_stored p' w' s -> piece_stored p' w' s'.
Proof using All.
  intros Hin E. pose proof Hld as Hld'. rewrite Forall_forall in Hld'. destruct (Hld' p Hin) as (id & ptr & Ep & Hid & Hsl).
  pose proof E as E'. rewrite Ep in E'.
  eapply (write_file_abt_spec st cs offset size path client) in E' as (w' & [= <-] & Hw & Hwr); try done.
  assert (pc_id p = id) as Eid by (by rewrite Ep). unfold piece_stored. rewrite Eid. split.
  - split; [done|]. intros Hfull o Hor Eo. unfold byte_of.
    apply (wrote_all_lookup st cs offset size path client Hcs Ho Hs Hclient _ _ _ _ Hwr); [done|rewrite Eo; set_solver|].
    pose proof (psize_bounds cs offset size ltac:(lia) Ho Hs id Hid). rewrite Eo. lia.
  - intros p' w2 Hin' Hne [H1 H2]. split; [done|]. intros Hfull o Hor Eo. rewrite <- (H2 Hfull o Hor Eo). unfold byte_of.
    rewrite (proj2 Hwr); [done|]. intros id' ->%list_elem_of_singleton Eq.
    pose proof (piece_range p' Hin') as Hid'. rewrite Eo in Eq.
    pose proof (first_le_last cs offset size ltac:(lia) Ho Hs).
    assert (0 <= first_id cs offset) by (apply Z.div_pos; lia).
    apply chunk_file_inj in Eq as [_ Eq]; [|unfold in_u; lia..]. apply Hne.
    apply list_elem_of_lookup in Hin as [i Hi], Hin' as [j Hj].
    assert (j = i) as ->; [|congruence]. eapply NoDup_lookup; [exact Hnd| |]; rewrite list_lookup_fmap.
    + by rewrite Hj.
    + rewrite Hi. cbn. congruence.
Qed.

Lemma piece_kept p w s s' : p ∈ ps -> keeps_range s s' -> piece_stored p w s -> piece_stored p w s'.
Proof using All.
  intros _ Hk [H1 H2]. split; [done|]. intros Hfull o Hor Eo. specialize (H2 Hfull o Hor Eo).
  destruct (client !! Z.to_nat (o - offset)) as [b|] eqn:Eb; [by apply Hk|]. apply lookup_ge_None in Eb. lia.
Qed.

Context (Hwait : forall n, eventual_wait_ok env n = true) (Hsum : zsum psz (pc_id <$> ps) < 2 ^ 64).
Context (others : F -> F -> Prop) (Hothers : forall s s', others s s' -> keeps_range s s').

Local Abbreviation shared r := (shared_reachable h calls ps task f others r).

Lemma write_task_total p s : p ∈ ps -> exists o s', task p s = (Ok o, s').
Proof using All.
  by apply (write_tasks_ok st cs offset size path client Hcs Hst Ho Hs H32 Hp Hclient env calls bulk ps f Hld Hnd).
Qed.

(** What the tasks have reported when the handler ends, and what it means. *)
Lemma shared_results (r : run F Z Z rpc_data_out) : shared r -> at_ r = Finished ->
  exists ws k, status r = (fun w => Done (Some w)) <$> ws /\ Forall2 (result_of k) (pc_id <$> ps) ws /\
    (forall id, id ∈ pc_id <$> ps -> 0 <= k id <= psz id /\
       (k id = psz id -> forall o, offset <= o < offset + size -> o / cs = id ->
          byte_of (store r) o = client !! Z.to_nat (o - offset))).
Proof using All.
  intros Hr Ea. destruct (shared_inv h calls ps task f others write_task_total r Hr) as [os [I1 I2 _ _ _ _ I7]].
  unfold point_ok in I2. cbn [at_ status with_store] in I1, I2, I7. rewrite Ea in I2. destruct I2 as [_ Hdone].
  destruct (all_ran (status r)) as [ws Hws].
  { intros i Hi. rewrite I1 in Hi. specialize (Hdone i Hi). specialize (I7 (or_introl eq_refl) i). cbn [status with_store] in Hdone.
    by destruct (status r !! i) as [[| |[]]|]. }
  assert (length ws = length (pc_id <$> ps)) as Hlen by (rewrite length_fmap, <- I1, Hws; by rewrite length_fmap).
  destruct (reported_sizes _ ws Hnd Hlen) as (k & Hres & Hk).
  exists ws, k. split; [done|]. split; [done|]. intros id [i Hi]%list_elem_of_lookup.
  destruct (Forall2_lookup_l _ _ _ _ _ Hk Hi) as (w & Hw & ->). rewrite list_lookup_fmap in Hi.
  apply fmap_Some in Hi as (p & Hpi & ->). pose proof (list_elem_of_lookup_2 _ _ _ Hpi) as Hin.
  assert (piece_stored p w (store r)) as [Hle Hq].
  { eapply (shared_work h calls ps task f others write_task_total piece_stored); try done.
    - by eapply NoDup_fmap_1.
    - apply piece_own.
    - intros p' o s s' Hin' Ho'. apply piece_kept; [done|by apply Hothers].
    - by rewrite Hws, list_lookup_fmap, Hw. }
  pose proof (psize_bounds cs offset size ltac:(lia) Ho Hs _ (piece_range p Hin)). split; [lia|].
  intros Hfull. apply Hq. lia.
Qed.

Lemma shared_write_reply (r : run F Z Z rpc_data_out) : shared r ->
  at_ r <> Crashed /\
  (at_ r = Finished -> exists out, (response r = if sent calls then Some out else None) /\
     (out_err out = 0 -> use_after_free r = false /\ out_io_size out <= zsum psz (pc_id <$> ps) /\
       (out_io_size out = zsum psz (pc_id <$> ps) -> forall o, offset <= o < offset + size -> o / cs ∈ pc_id <$> ps ->
          byte_of (store r) o = client !! Z.to_nat (o - offset)))).
Proof using All.
  intros Hr. split; [by apply (shared_live h calls ps task f others write_task_total)|]. intros Ea.
  destruct (shared_results r Hr Ea) as (ws & k & Hws & Hres & Hkb).
  destruct (shared_inv h calls ps task f others write_task_total r Hr) as [os [I1 I2 _ I4 _ _ _]].
  unfold point_ok in I2. cbn [at_ with_store] in I2. rewrite Ea in I2. destruct I2 as ((out & k0 & Hd & Hrs) & _).
  pose proof (zsum_le k psz (pc_id <$> ps) (fun x Hx => proj2 (proj1 (Hkb x Hx)))) as Hle.
  pose proof Hd as Hd'. unfold decided in Hd'. cbn [status with_store] in Hd'. rewrite Hws in Hd'.
  destruct (collect_write env ws 0 0) as [m' Hm]. change (start_acc h) with 0 in Hd'. rewrite Hm in Hd'. injection Hd' as Eout _.
  exists out. split; [exact Hrs|]. intros He.
  assert (out_io_size out = zsum k (pc_id <$> ps)) as Hio.
  { rewrite <- Eout in He |- *. apply (collect_written_spec client env k _ ws 0 0 Hwait Hres); [|done|lia|done].
    intros x Hx. by apply Hkb. }
  split; [|split; [lia|]].
  - destruct (use_after_free r) eqn:Eu; [|done]. destruct (I4 Eu) as (out2 & k2 & Hd2 & Hk2).
    unfold decided in Hd, Hd2. rewrite Hd in Hd2. injection Hd2 as <- <-.
    destruct (collect_early h (status r) (write_stops env) 0 _ _ _ Hd); [|done]. cbn [status with_store] in I1. rewrite I1. lia.
  - intros Hfull o Hor Hin. apply (Hkb _ Hin); [|done|done].
    eapply zsum_eq_pointwise; [|rewrite <- Hio; exact Hfull|done]. intros x Hx. by apply Hkb.
Qed.
End shared_write.

(** ** The work of other requests *)

Section other_work.
Context {F : Type} {P : PosixFS F} {L : PosixFSLaws P} (st : ChunkStorage).
Context (cs offset size : Z) (path : str).

(** A step of another request on the node-local file system: its tasks and
    storage operations, for other paths or, when it writes the same file, for
    other bytes. *)
Inductive other_work : F -> F -> Prop :=
| ow_write path2 bulk2 p2 f : apart path path2 -> other_work f (write_file_abt st path2 bulk2 p2 f).2
| ow_same_file offset2 size2 client2 bulk2 p2 f :
    0 <= offset2 -> 0 < size2 -> last_id cs offset2 size2 < 2 ^ 32 -> Z.of_nat (length client2) = size2 ->
    offset2 + size2 <= offset \/ offset + size <= offset2 -> loaded cs offset2 size2 client2 bulk2 p2 ->
    other_work f (write_file_abt st path bulk2 p2 f).2
| ow_read path2 p2 f : other_work f (read_file_abt st path2 p2 f).2
| ow_remove path2 f : apart path path2 -> other_work f (destroy_chunk_space st path2 f).2
| ow_truncate cfg env path2 len f : apart path path2 -> other_work f (rpc_srv_truncate cfg st env path2 len f).2.

Context (Hcs : 0 < cs < 2 ^ 63) (Hst : cs_chunksize st = cs) (Ho : 0 <= offset) (Hs : 0 < size).
Context (H32 : last_id cs offset size < 2 ^ 32) (Hp : file_path_ok path).

Lemma preserves_keeps {A} (c : M F A) f :
  (forall id, preserves (fun f => fs_file f (chunk_file st path id)) c) ->
  keeps_range st cs offset size path f (c f).2.
Proof using. intros H o b _ Hb. unfold byte_of in *. destruct (c f) as [r f'] eqn:E. cbn. by rewrite (H _ _ _ _ E). Qed.

Lemma same_file_keeps offset2 size2 client2 bulk2 p2 f :
  0 <= offset2 -> 0 < size2 -> last_id cs offset2 size2 < 2 ^ 32 -> Z.of_nat (length client2) = size2 ->
  offset2 + size2 <= offset \/ offset + size <= offset2 -> loaded cs offset2 size2 client2 bulk2 p2 ->
  keeps_range st cs offset size path f (write_file_abt st path bulk2 p2 f).2.
Proof using All.
  intros Ho2 Hs2 H322 Hc2 Hdis (id & ptr & -> & Hid & Hsl) o b Hor Hb.
  destruct (write_file_abt _ _ _ _ f) as [r f'] eqn:E. cbn [snd].
  apply (write_file_abt_spec st cs offset2 size2 path client2) in E as (w & _ & _ & Hw); [|done..]. unfold byte_of in *.
  pose proof (Z.div_mod o cs ltac:(lia)) as DM. pose proof (Z.mod_pos_bound o cs ltac:(lia)) as MB.
  destruct (decide (o / cs = id)) as [<-|Hne].
  - eapply (wrote_keeps st cs offset2 size2 path client2 Hcs Ho2 Hs2 Hc2 _ _ _ _ Hw); [set_solver|done| |done]. lia.
  - rewrite (proj2 Hw); [done|]. intros x ->%list_elem_of_singleton Eq.
    pose proof (byte_chunk_range cs offset size ltac:(lia) Ho Hs o Hor).
    assert (0 <= first_id cs offset2) by (apply Z.div_pos; lia). assert (0 <= o / cs) by (apply Z.div_pos; lia).
    apply chunk_file_inj in Eq as [_ Eq]; [done|unfold in_u; lia..].
Qed.

Lemma other_work_keeps f f' : other_work f f' -> keeps_range st cs offset size path f f'.
Proof using All.
  intros [path2 bulk2 p2 g Ha|o2 s2 c2 b2 p2 g H1 H2 H3 H4 H5 H6|path2 p2 g|path2 g Ha|cfg env path2 len g Ha].
  - apply preserves_keeps. intros id. apply preserves_try; [|intros []; preserve].
    by apply write_chunk_frame, outside_chunk, chunk_file_outside.
  - by eapply same_file_keeps.
  - apply preserves_keeps. intros id. apply preserves_try; [|intros []; preserve].
    apply preserves_bind; [|preserve]. intros s r s' E. by rewrite (read_chunk_frame st path2 _ _ _ _ _ _ E).
  - apply preserves_keeps. intros id. by apply destroy_chunk_space_frame, chunk_file_outside.
  - apply preserves_keeps. intros id. by apply rpc_srv_truncate_frame, chunk_file_outside.
Qed.
End other_work.

(** ** Properties *)

(** C21. A write request served at the same time as others, whose tasks and
    storage operations, for other paths or other bytes of the file, are
    interleaved with its own tasks and its handler in any way: it can always
    go on until the handler ends, which takes at most [4 n + 3] steps of its
    own for [n] chunks; a reply without error means no task used a freed
    buffer, and if it counts the whole share of this daemon, every byte of the
    share is the client's in the store the handler leaves. *)
Theorem concurrent_requests_store {F : Type} (P : PosixFS F) (L : PosixFSLaws P) (st : ChunkStorage)
    (cfg : config) (str_hash : str -> Z) (env : margo_env) (calls : margo_end) (in_ : rpc_data_in)
    (client junk : list byte) (offset size : Z) (f : F) (s : loop_state) (bulk : list byte) (n : nat)
    (r : run F Z Z rpc_data_out) :
  range_ok (chunksize cfg) offset size -> cs_chunksize st = chunksize cfg ->
  request_for cfg str_hash in_ offset size -> file_path_ok (in_path in_) ->
  Z.of_nat (length client) = size -> env_ok env ->
  assign_chunks cfg str_hash in_ (Z.of_nat (length client)) = Ok (Some s) ->
  pull_pieces env 0 client (pieces s) (resize (Z.to_nat (in_total_chunk_size in_)) junk) = inr bulk ->
  shared_run (write_handler env) calls (pieces s) (write_file_abt st (in_path in_) bulk) f
    (other_work st (chunksize cfg) offset size (in_path in_)) n r ->
  (n <= 4 * length (host_ids cfg str_hash in_ offset size) + 3)%nat /\
  (at_ r <> Finished -> exists r', step (write_handler env) calls (pieces s) (write_file_abt st (in_path in_) bulk) r r') /\
  (at_ r = Finished -> exists out, (response r = if sent calls then Some out else None) /\
     (out_err out = 0 -> use_after_free r = false /\ out_io_size out <= in_total_chunk_size in_ /\
       (out_io_size out = in_total_chunk_size in_ -> forall o, offset <= o < offset + size ->
          serves cfg str_hash in_ (o / chunksize cfg) = true ->
          default [] (fs_file (store r) (chunk_file st (in_path in_) (o / chunksize cfg))) !! Z.to_nat (o mod chunksize cfg) =
          client !! Z.to_nat (o - offset)))).
Proof.
  intros Hrg Hst Rq Hp Hc He Ea Epl Hn.
  destruct (planned_write st cfg str_hash env in_ client junk offset size s bulk Hrg Hst Rq Hp Hc He Ea Epl)
    as (Hld & Eids & Hnd & HL). destruct Hrg as (Hcs & Ho & Hs & Hb & H32).
  pose proof (shared_run_reachable _ _ _ _ _ _ n r Hn) as Hr. split; [|split].
  - apply shared_run_work in Hn. rewrite <- Eids, length_fmap. lia.
  - intros Hf. apply shared_progress in Hr; [done| |done]. intros p x.
    apply (write_tasks_ok st (chunksize cfg) offset size (in_path in_) client Hcs Hst Ho Hs H32 Hp Hc env calls bulk _ f Hld Hnd).
  - destruct (shared_write_reply st (chunksize cfg) offset size (in_path in_) client Hcs Hst Ho Hs H32 Hp Hc env calls bulk
      (pieces s) f Hld Hnd ltac:(apply He) ltac:(lia) _
      (other_work_keeps st (chunksize cfg) offset size (in_path in_) Hcs Hst Ho Hs H32 Hp) r Hr) as [_ H].
    rewrite Eids, <- (rf_total _ _ _ _ _ Rq) in H. intros Ef. destruct (H Ef) as (out & Hrs & Hz).
    exists out. split; [done|]. intros Herr. destruct (Hz Herr) as (Hu & Hle & Hfull). split; [done|]. split; [done|].
    intros Hio o Hor Hserve. apply (Hfull Hio o Hor). apply list_elem_of_filter. split; [done|].
    apply elem_of_ids; [lia..|]. by apply byte_chunk_range; [lia..|].
Qed.

(** Between the two tasks of the request another one writes a chunk of
    [/g]. *)
Definition other_piece : piece := MkPiece 0 0 0 0 2 0.
Definition first_part : list choice := [Start 1; Start 0; End_ 1].
Definition second_part : list choice := [End_ 0; Main; Main; Main; Main; Main; Main; Main].

Lemma concurrent_requests_store_witness : exists r : run memfs Z Z rpc_data_out,
  at_ r = Finished /\ response r = Some (MkDataOut 0 5) /\ use_after_free r = false /\
  default [] (fs_file (store r) (chunk_file small_store (s_ "/f") (12 / 4))) !! Z.to_nat (12 mod 4) =
    s_ "abcdefghij" !! Z.to_nat (12 - 3).
Proof.
  destruct (assign_chunks small_config last_char_hash small_in 10) as [[s|]| |] eqn:Ea; try discriminate.
  destruct (pull_pieces good_env 0 (s_ "abcdefghij") (pieces s) (resize 5 [])) as [|bulk] eqn:Ep.
  { vm_compute in Ea. injection Ea as <-. discriminate. }
  destruct (run_schedule (write_handler good_env) calls_ok (pieces s) (write_file_abt small_store (s_ "/f") bulk)
    first_part (init (write_handler good_env) (pieces s) empty_fs)) as [r1|] eqn:E1.
  2:{ vm_compute in Ea. injection Ea as <-. vm_compute in Ep. injection Ep as <-. discriminate. }
  set (r2 := with_store (write_file_abt small_store (s_ "/g") (s_ "zz") other_piece (store r1)).2 r1).
  destruct (run_schedule (write_handler good_env) calls_ok (pieces s) (write_file_abt small_store (s_ "/f") bulk)
    second_part r2) as [r|] eqn:E2.
  2:{ vm_compute in Ea. injection Ea as <-. vm_compute in Ep. injection Ep as <-. vm_compute in E1. injection E1 as <-. discriminate. }
  exists r. assert (at_ r = Finished /\ response r = Some (MkDataOut 0 5)) as [H1 H2].
  { vm_compute in Ea. injection Ea as <-. vm_compute in Ep. injection Ep as <-. vm_compute in E1. injection E1 as <-.
    vm_compute in E2. by injection E2 as <-. }
  destruct (concurrent_requests_store MemFS MemFS_laws small_store small_config last_char_hash good_env calls_ok small_in
    (s_ "abcdefghij") [] 3 10 empty_fs s bulk 11 r small_range eq_refl small_request) as (_ & _ & H).
  - by eexists _, _.
  - reflexivity.
  - apply good_env_ok.
  - exact Ea.
  - exact Ep.
  - eapply (own_schedule _ _ _ _ _ _ second_part 3); [|exact E2]. apply sr_others.
    + eapply (own_schedule _ _ _ _ _ _ first_part 0); [apply sr_init|exact E1].
    + apply (ow_write small_store 4 3 10 (s_ "/f") (s_ "/g") (s_ "zz") other_piece). by vm_compute.
  - destruct (H H1) as (out & Hr & Hz). rewrite H2 in Hr. injection Hr as <-. destruct (Hz eq_refl) as (Hu & _ & Hfull).
    split; [exact H1|]. split; [exact H2|]. split; [exact Hu|]. apply (Hfull eq_refl 12); [lia|reflexivity].
Defined.
