(* ===== verification/Interference.v ===== *)
(** * Several clients at once

    The requests of one client are served between those of others.  The
    [Network] of this file runs, before every request of the client and
    every reply it waits for, any list of requests other clients have sent,
    and may serve a request of the client late, when its reply is waited
    for.  [spares] says which requests of others leave a byte range alone;
    among such requests a client's [forward_write] and [forward_read] do
    what they do on their own.  A daemon that serves size updates of several
    clients loses none of them.  Other interleavings are races: the checks of
    [gkfs_open] and of [gkfs_create] are not atomic with their effects, and
    writes are atomic per request only. *)

From S2P Require Import Prelude Config ChunkCalc Distributor PathUtil Metadata Merge MetadataDB ChunkStorage.
From S2P Require Import ChunkPlan SrvData SrvMetadata Rpc ForwardData ForwardMetadata Cluster Namespace.
From S2P Require Import OpenFileMap Path Kernel PreloadContext GkfsFunctions FileNamespace Frame.

(** ** Posting to all targets and waiting for all of them

    On any network: [done t] is what the request to target [t] is for, [ok]
    an invariant, and the size a reply without error announces is at least
    [least t] and, when it is complete, [share t]. *)

Section gather.
Context {N : Type} {W : Network N} (hosts_size : Z) (mk : Z -> rpc rpc_data_out).
Context (ok : N -> Prop) (done_ : Z -> N -> Prop) (least share : Z -> Z).

(** Waiting for a handle gives a reply; a reply that is complete means the
    work of [t] is done, and the work of the other targets is kept. *)
Definition answers (t : Z) (h : handle N rpc_data_out) (n : N) : Prop :=
  forall n1, ok n1 -> (done_ t n -> done_ t n1) ->
  exists out n2, h n1 = (Some out, n2) /\ ok n2 /\ (forall t', t' <> t -> done_ t' n1 -> done_ t' n2) /\
    (out_err out = 0 -> least t <= out_io_size out <= share t /\ (out_io_size out = share t -> done_ t n2)).

Definition posts (t : Z) : Prop := forall n, ok n ->
  exists h n1, post t (mk t) n = (Some h, n1) /\ ok n1 /\
    (forall t', t' <> t -> done_ t' n -> done_ t' n1) /\ answers t h n1.

Lemma answers_mono t h n n' : (done_ t n -> done_ t n') -> answers t h n -> answers t h n'.
Proof using. intros H Ha n1 Hok Hd. apply Ha; auto. Qed.

Lemma post_all_posts ts n : NoDup ts -> (forall t, t ∈ ts -> 0 <= t < hosts_size /\ posts t) -> ok n ->
  exists hs n', post_all (W := W) hosts_size mk ts n = (Ok (Some hs), n') /\ ok n' /\
    (forall t', t' ∉ ts -> done_ t' n -> done_ t' n') /\ Forall2 (fun t h => answers t h n') ts hs.
Proof using.
  intros Hnd. revert n. induction Hnd as [|t ts Hni Hnd IH]; intros n Hts Hok.
  { exists [], n. by repeat split. }
  destruct (Hts t ltac:(constructor)) as [Hr Hp]. destruct (Hp n Hok) as (h & n1 & Ep & Hok1 & Hk1 & Ha).
  cbn [post_all]. rewrite (m_bind_ok _ _ n t n).
  2:{ unfold host_at. rewrite (proj2 (Z.leb_le _ _)), (proj2 (Z.ltb_lt _ _)) by lia. done. }
  unfold m_bind at 1, net_post. rewrite Ep.
  destruct (IH n1) as (hs & n' & E & Hok' & Hk & Hall); [|done|].
  { intros x Hx. apply Hts. by constructor. }
  exists (h :: hs), n'. unfold m_bind. rewrite E. split; [done|]. split; [done|]. split.
  - intros t' [H1 H2]%not_elem_of_cons Hd. by apply Hk, Hk1.
  - constructor; [|done]. eapply answers_mono; [|exact Ha]. by apply Hk.
Qed.

Lemma wait_all_answers ts hs error errno acc n :
  NoDup ts -> Forall2 (fun t h => answers t h n) ts hs -> ok n -> (forall t, t ∈ ts -> 0 <= least t <= share t) ->
  exists r e n', wait_all hs error errno acc n = (Ok (r, e), n') /\ ok n' /\
    (forall t', t' ∉ ts -> done_ t' n -> done_ t' n') /\
    (r = -1 \/ error = false /\ (0 <= acc -> acc + zsum share ts < 2 ^ 63 ->
      acc + zsum least ts <= r <= acc + zsum share ts /\ (r = acc + zsum share ts -> forall t, t ∈ ts -> done_ t n'))).
Proof using.
  intros Hnd Hall. revert error errno acc n Hall. revert hs.
  induction Hnd as [|t ts Hni Hnd IH]; intros hs error errno acc n Hall Hok Hsh.
  { apply Forall2_nil_inv_l in Hall as ->. eexists _, errno, n. split; [done|]. split; [done|]. split; [done|].
    destruct error; [by left|right]. split; [done|]. intros _ _. cbn. split; [lia|].
    intros _ t Ht. by apply not_elem_of_nil in Ht. }
  apply Forall2_cons_inv_l in Hall as (h & hs' & Ha & Hall & ->).
  destruct (Ha n Hok (fun x => x)) as (out & n2 & Eh & Hok2 & Hk2 & Hz).
  cbn [wait_all]. unfold m_bind at 1, net_get. rewrite Eh.
  destruct (IH hs' (error || negb (out_err out =? 0)) (if negb (out_err out =? 0) then Some (out_err out) else errno)
    (i64 (acc + out_io_size out)) n2) as (r & e & n' & E & Hok' & Hk & Hres).
  { eapply Forall2_elem_impl; [exact Hall|]. intros x o Hx Hans. eapply answers_mono; [|exact Hans].
    apply Hk2. intros ->. by apply Hni. }
  { done. } { intros x Hx. apply Hsh. by constructor. }
  exists r, e, n'. split; [done|]. split; [done|]. split.
  { intros t' [H1 H2]%not_elem_of_cons Hd. by apply Hk, Hk2. }
  destruct Hres as [->|[He Hres]]; [by left|right].
  apply orb_false_iff in He as [-> Ho]. apply negb_false_iff, Z.eqb_eq in Ho. split; [done|].
  intros Hacc Hb. destruct (Hz Ho) as [Hio Hd]. cbn [zsum] in *.
  pose proof (Hsh t ltac:(constructor)) as Ht.
  assert (0 <= zsum share ts)
    by (apply zsum_nonneg; intros x Hx; pose proof (Hsh x ltac:(by constructor)); lia).
  rewrite wraps_small in Hres by int_solve. destruct Hres as [Hr Hres]; [lia|lia|]. split; [lia|].
  intros Eq x [->|Hx]%elem_of_cons; [apply Hk; [done|]; apply Hd; lia|]. apply Hres; [lia|done].
Qed.

(** The two loops together. *)
Lemma scatter_gather ts n :
  NoDup ts -> (forall t, t ∈ ts -> 0 <= t < hosts_size /\ 0 <= least t <= share t /\ posts t) -> ok n -> zsum share ts < 2 ^ 63 ->
  exists hs n1 r e n', post_all (W := W) hosts_size mk ts n = (Ok (Some hs), n1) /\
    wait_all hs false None 0 n1 = (Ok (r, e), n') /\ ok n' /\
    (r = -1 \/ zsum least ts <= r <= zsum share ts /\ (r = zsum share ts -> forall t, t ∈ ts -> done_ t n')).
Proof using.
  intros Hnd Hts Hok Hb. destruct (post_all_posts ts n Hnd) as (hs & n1 & E & Hok1 & _ & Hall); [|done|].
  { intros t Ht. destruct (Hts t Ht) as (H1 & _ & H2). done. }
  destruct (wait_all_answers ts hs false None 0 n1 Hnd Hall Hok1) as (r & e & n' & E' & Hok' & _ & Hr).
  { intros t Ht. apply (Hts t Ht). }
  exists hs, n1, r, e, n'. split; [done|]. split; [done|]. split; [done|].
  destruct Hr as [->|[_ Hr]]; [by left|right]. rewrite !Z.add_0_l in Hr. by apply Hr.
Qed.
End gather.

(** ** The network of a client among others *)

(** A request of another client: when and where it is served, and the
    memory its client exposed. *)
Record other_request := Other {
  oq_time : Z;
  oq_host : Z;
  oq_out : Type;
  oq_rpc : rpc oq_out;
  oq_regions : list (list byte)
}.
Arguments Other oq_time oq_host {oq_out} oq_rpc oq_regions.

(** What happens before a request of the client is served or a reply is
    fetched: requests of others, and whether the request is put off. *)
Record slot := Slot { before : list other_request; late : bool }.

Record shared (D F : Type) := MkShared { here : cluster D F; slots : list slot }.
Arguments MkShared {D F} here slots.
Arguments here {D F} s.
Arguments slots {D F} s.

Section shared_network.
Context {D F : Type} {R : RocksDB D} {P : PosixFS F}.
Context (cfg : config) (junk : Metadata) (st : ChunkStorage) (str_hash : str -> Z).
Context (env : margo_env) (time : Z).
Local Abbreviation serve := (cluster_post cfg junk st str_hash env time).

Definition serve_other (n : cluster D F) (q : other_request) : cluster D F :=
  MkCluster (daemons (cluster_post cfg junk st str_hash env (oq_time q) (oq_host q) (oq_rpc q)
    (MkCluster (daemons n) (oq_regions q))).2) (regions n).

Definition serve_others (l : list other_request) (n : cluster D F) : cluster D F := foldl serve_other n l.

Definition next_slot (s : shared D F) : bool * shared D F :=
  match slots s with
  | [] => (false, s)
  | t :: ts => (late t, MkShared (serve_others (before t) (here s)) ts)
  end.

Definition on_here {A} (f : cluster D F -> A * cluster D F) (s : shared D F) : A * shared D F :=
  let '(a, n) := f (here s) in (a, MkShared n (slots s)).

(** The reply of a request that has been served, and of one that is served
    only now. *)
Definition get_reply {A} (h : handle (cluster D F) A) : handle (shared D F) A := fun s =>
  on_here h (next_slot s).2.

Definition serve_late {A} (host : Z) (q : rpc A) : handle (shared D F) A := fun s =>
  on_here (fun n =>
    let '(h, n') := serve host q n in
    match h with None => (None, n') | Some h => h n' end) (next_slot s).2.

Definition shared_post {A} (host : Z) (q : rpc A) (s : shared D F) : option (handle (shared D F) A) * shared D F :=
  let '(late, s1) := next_slot s in
  if late then (Some (serve_late host q), s1)
  else let '(h, s2) := on_here (serve host q) s1 in (get_reply <$> h, s2).

#[local] Instance SharedNet : Network (shared D F) := {|
  expose buf := on_here (expose (Network := ClusterNet cfg junk st str_hash env time) buf);
  region b s := default [] (regions (here s) !! b);
  post A := shared_post
|}.

(** *** From steps of the cluster to the loops of the client

    [rely] is what is known of the others' requests. *)

Context (rely : other_request -> Prop) (mk : Z -> rpc rpc_data_out).
Context (ok : cluster D F -> Prop) (done_ : Z -> cluster D F -> Prop) (least share : Z -> Z).
Context (Hrely : forall q n, rely q -> ok n ->
  ok (serve_other n q) /\ forall t, done_ t n -> done_ t (serve_other n q)).

(** Serving the request to [t] on its own. *)
Definition steps (t : Z) : Prop := forall n, ok n ->
  exists out n', serve t (mk t) n = (Some (replied out), n') /\ ok n' /\
    (forall t', t' <> t -> done_ t' n -> done_ t' n') /\
    (out_err out = 0 -> least t <= out_io_size out <= share t /\ (out_io_size out = share t -> done_ t n')).

Definition relied (s : shared D F) : Prop := Forall (fun t => Forall rely (before t)) (slots s).
Definition ok_here (s : shared D F) : Prop := ok (here s) /\ relied s.
Definition done_here (t : Z) (s : shared D F) : Prop := done_ t (here s).

Lemma serve_others_rely l n : Forall rely l -> ok n ->
  ok (serve_others l n) /\ forall t, done_ t n -> done_ t (serve_others l n).
Proof using Hrely.
  intros Hl. revert n. induction Hl as [|q l Hq Hl IH]; intros n Hok; [done|].
  destruct (Hrely q n Hq Hok) as [H1 H2]. destruct (IH _ H1) as [H3 H4]. split; [done|]. intros t Ht. by apply H4, H2.
Qed.

Lemma next_slot_rely s : ok_here s ->
  ok_here (next_slot s).2 /\ forall t, done_here t s -> done_here t (next_slot s).2.
Proof using Hrely.
  intros [Hok Hr]. unfold next_slot. unfold relied in Hr. destruct (slots s) as [|t ts] eqn:Et.
  { split; [|done]. split; [done|]. unfold relied. cbn. by rewrite Et. }
  apply Forall_cons in Hr as [H1 H2]. destruct (serve_others_rely _ _ H1 Hok) as [H3 H4]. by split.
Qed.

Lemma shared_posts t : steps t -> posts (W := SharedNet) mk ok_here done_here least share t.
Proof using Hrely.
  intros Hst s Hok. destruct (next_slot_rely s Hok) as [[Hok1 Hr1] Hk1].
  cbn [post SharedNet]. unfold shared_post. destruct (next_slot s) as [[] s1] eqn:Et; cbn [snd] in *.
  - exists (serve_late t (mk t)), s1. split; [done|]. split; [done|]. split; [intros t' _; apply Hk1|].
    intros s2 Hok2 _. destruct (next_slot_rely s2 Hok2) as [[Hok3 Hr3] Hk3].
    destruct (Hst (here (next_slot s2).2) Hok3) as (out & n' & E & Hok' & Hk & Hz).
    exists out, (MkShared n' (slots (next_slot s2).2)). unfold serve_late, on_here. rewrite E.
    split; [done|]. split; [done|]. split; [|done]. intros t' Ht' Hd. by apply (Hk t' Ht'), Hk3.
  - destruct (Hst (here s1) Hok1) as (out & n' & E & Hok' & Hk & Hz).
    exists (get_reply (replied out)), (MkShared n' (slots s1)). unfold on_here. rewrite E.
    split; [done|]. split; [done|]. split; [intros t' Ht' Hd; by apply (Hk t' Ht'), Hk1|].
    intros s2 Hok2 Hd2. destruct (next_slot_rely s2 Hok2) as [[Hok3 Hr3] Hk3].
    exists out, (next_slot s2).2. split; [unfold get_reply, on_here; cbn; by destruct (next_slot s2).2|].
    split; [done|]. split; [intros t' _; apply Hk3|].
    intros He. destruct (Hz He) as [H1 H2]. split; [done|]. intros Eq. apply Hk3, Hd2. by apply H2.
Qed.
End shared_network.

(** ** Requests that leave a byte range alone *)

Section sparing.
Context {D F : Type} {R : RocksDB D} {P : PosixFS F} {L : PosixFSLaws P}.
Context (cfg : config) (junk : Metadata) (st : ChunkStorage) (str_hash : str -> Z) (env : margo_env).
Context (hosts_size : Z) (path : str) (offset size : Z).

(** Requests that do not touch the chunks of the path: for other paths, and
    all that only read or concern metadata.  Of the same file, writes of
    other bytes, by any client, and truncations above the range. *)
Inductive spares : other_request -> Prop :=
| spares_apart tm host A (q : rpc A) regs :
    (forall p, touches q = Some p -> apart path p) -> spares (Other tm host q regs)
| spares_write tm localhost' offset2 size2 buf2 t regs b :
    let groups := range_groups cfg (SimpleHashDistributor str_hash localhost' hosts_size) path offset2 size2 in
    data_ok cfg st env hosts_size offset2 size2 path -> offset2 + size2 <= offset \/ offset + size <= offset2 ->
    regs !! b = Some buf2 -> Z.of_nat (length buf2) = size2 -> t ∈ targets groups ->
    spares (Other tm t (RpcWriteData (data_input cfg hosts_size path groups (first_id (chunksize cfg) offset2)
      (last_id (chunksize cfg) offset2 size2) offset2 size2 t) b) regs)
| spares_truncate tm host len regs :
    offset + size <= len < 2 ^ 63 -> len / chunksize cfg + 1 < 2 ^ 32 ->
    spares (Other tm host (RpcTruncData path len) regs).

Context (k localhost_ : Z) (Hk : 0 <= k < 63) (Hcs : chunksize cfg = 2 ^ k).
Context (Ho : 0 <= offset) (H32 : last_id (chunksize cfg) offset size < 2 ^ 32).
Local Abbreviation d := (SimpleHashDistributor str_hash localhost_ hosts_size).
Local Abbreviation byte_at o b :=
  (fun s : daemon D F => default [] (fs_file (storage s) (chunk_file st path (o / chunksize cfg)))
     !! Z.to_nat (o mod chunksize cfg) = Some b).

Lemma post_keeps_byte {A} tm host (q : rpc A) (n : cluster D F) o b :
  upholds (byte_at o b) (run_rpc cfg junk st str_hash env tm q (regions n)) ->
  flat cfg st d n path o = Some b -> flat cfg st d (cluster_post cfg junk st str_hash env tm host q n).2 path o = Some b.
Proof using.
  intros Hs. unfold cluster_post. destruct (daemons n !! Z.to_nat host) as [s|] eqn:Es; [|done].
  destruct (run_rpc cfg junk st str_hash env tm q (regions n) s) as [r s'] eqn:E.
  assert (forall regs, flat cfg st d n path o = Some b ->
    flat cfg st d (MkCluster (<[Z.to_nat host := s']> (daemons n)) regs) path o = Some b) as H.
  { intros regs. unfold flat, chunk_on. cbn [daemons].
    destruct (decide (Z.to_nat (locate_data d path (o / chunksize cfg)) = Z.to_nat host)) as [->|Hne].
    - rewrite Es, list_lookup_insert_eq by (by eapply lookup_lt_Some). by apply Hs in E.
    - by rewrite list_lookup_insert_ne. }
  destruct r as [[out regs]|e|]; apply H.
Qed.

Lemma post_length {A} tm host (q : rpc A) (n : cluster D F) :
  length (daemons (cluster_post cfg junk st str_hash env tm host q n).2) = length (daemons n).
Proof using.
  unfold cluster_post. destruct (daemons n !! _) as [s|]; [|done].
  destruct (run_rpc _ _ _ _ _ _ _ _ s) as [[[out regs]|e|] s']; apply length_insert.
Qed.

Lemma range_chunk o : offset <= o < offset + size -> in_u 32 (o / chunksize cfg).
Proof using Hk Hcs Ho H32.
  intros Hor. pose proof (cs_pos k _ Hk Hcs) as Hpos.
  pose proof (byte_chunk_range (chunksize cfg) offset size Hpos Ho ltac:(lia) o Hor) as Hr.
  assert (0 <= o / chunksize cfg) by (apply Z.div_pos; lia). unfold in_u. lia.
Qed.

(** A write request for other bytes of the file. *)
Lemma other_write_upholds tm lh o2 s2 t buf2 regs m o b :
  let groups := range_groups cfg (SimpleHashDistributor str_hash lh hosts_size) path o2 s2 in
  data_ok cfg st env hosts_size o2 s2 path -> t ∈ targets groups -> regs !! m = Some buf2 -> Z.of_nat (length buf2) = s2 ->
  0 <= o -> ~ (o2 <= o < o2 + s2) -> o / chunksize cfg < 2 ^ 32 ->
  upholds (byte_at o b) (run_rpc cfg junk st str_hash env tm (RpcWriteData (data_input cfg hosts_size path groups
    (first_id (chunksize cfg) o2) (last_id (chunksize cfg) o2 s2) o2 s2 t) m) regs).
Proof using L.
  intros groups [Hf (k2 & Hk2 & Hcs2) Hst He Hh Ho2 Hs2 Hb2 H322 Hp] Ht Hm Hl H0 Hout Hid s r s' E Hb.
  destruct (write_rpc cfg junk st str_hash env tm lh hosts_size k2 o2 s2 path Hf Hk2 Hcs2 Hst He Hh Ho2 Hs2 Hb2 H322 Hp
    t m buf2 regs s Ht Hm Hl) as (out & s1 & E1 & kf & Hw & _).
  fold groups in E1. rewrite E in E1. injection E1 as _ ->.
  by apply (prefixes_keep cfg st str_hash lh hosts_size k2 o2 s2 path Hk2 Hcs2 Ho2 Hs2 H322
    _ _ _ _ _ _ _ Hw).
Qed.

(** The requests that [spares] allows keep every byte of the range. *)
Lemma serve_other_spares q (n : cluster D F) : spares q ->
  length (daemons (serve_other cfg junk st str_hash env n q)) = length (daemons n) /\
  regions (serve_other cfg junk st str_hash env n q) = regions n /\
  forall o b, offset <= o < offset + size -> flat cfg st d n path o = Some b ->
    flat cfg st d (serve_other cfg junk st str_hash env n q) path o = Some b.
Proof using L Hk Hcs Ho H32.
  intros Hq. split; [apply (post_length _ _ _ (MkCluster (daemons n) _))|]. split; [done|]. intros o b Hor Hold.
  pose proof (range_chunk o Hor) as Hid. pose proof (cs_pos k _ Hk Hcs) as Hpos.
  pose proof (Z.div_mod o (chunksize cfg) ltac:(lia)) as DM.
  pose proof (Z.mod_pos_bound o (chunksize cfg) Hpos) as MB.
  assert (forall A tm host (q : rpc A) regs, upholds (byte_at o b) (run_rpc cfg junk st str_hash env tm q regs) ->
    flat cfg st d (serve_other cfg junk st str_hash env n (Other tm host q regs)) path o = Some b) as Hgo.
  { intros A tm host q' regs Hst.
    apply (post_keeps_byte tm host q' (MkCluster (daemons n) regs) o b Hst Hold). }
  destruct Hq as [tm host A q regs Ha|tm lh o2 s2 buf2 t regs m groups Hd Hdis Hm Hl Ht|tm host len regs Hlen Hlid];
    apply Hgo.
  - apply (preserves_upholds (fun s => fs_file (storage s) _) (fun x => default [] x !! _ = Some b)).
    by apply run_rpc_apart.
  - apply (other_write_upholds tm lh o2 s2 t buf2); try done; [lia|lia|apply Hid].
  - cbn [run_rpc]. intros s r s'. unfold m_bind, on_storage.
    destruct (rpc_srv_truncate cfg st env path len (storage s)) as [r1 f'] eqn:E. intros E' Hb.
    pose proof (rpc_srv_truncate_keeps cfg st path (o / chunksize cfg) Hid (Z.to_nat (o mod chunksize cfg)) b k Hk Hcs
      env len ltac:(lia) Hlid ltac:(lia) ltac:(lia) _ _ _ E Hb) as Hb'.
    destruct r1; by injection E' as _ <-.
Qed.
End sparing.

(** ** Data of a client among others *)

Section among_others.
Context {D F : Type} {R : RocksDB D} {P : PosixFS F} {L : PosixFSLaws P}.
Context (cfg : config) (junk : Metadata) (st : ChunkStorage) (str_hash : str -> Z).
Context (env : margo_env) (time localhost_ hosts_size k offset size : Z) (path : str).
Context (Hfwd : enable_forwarding cfg = false) (Hk : 0 <= k < 63) (Hcs : chunksize cfg = 2 ^ k).
Context (Hst : cs_chunksize st = chunksize cfg) (Henv : env_ok env) (Hhosts : 0 < hosts_size < 2 ^ 32).
Context (Ho : 0 <= offset) (Hs : 0 < size) (Hb : offset + size < 2 ^ 63).
Context (H32 : last_id (chunksize cfg) offset size < 2 ^ 32) (Hp : file_path_ok path).

Local Abbreviation cs := (chunksize cfg).
Local Abbreviation d := (SimpleHashDistributor str_hash localhost_ hosts_size).
Local Abbreviation groups := (range_groups cfg d path offset size).
Local Abbreviation input t :=
  (data_input cfg hosts_size path groups (first_id cs offset) (last_id cs offset size) offset size t).
Local Abbreviation ids_at t := (filter (fun id => locate_data d path id = t) (ids cs offset size)).
Local Abbreviation share t := (zsum (psize cs offset size) (ids_at t)).
Local Abbreviation spares := (spares cfg st str_hash env hosts_size path offset size).
Local Abbreviation net := (SharedNet cfg junk st str_hash env time).
Local Abbreviation serve_other := (serve_other cfg junk st str_hash env).
Local Abbreviation keeps_spared := (serve_other_spares cfg junk st str_hash env hosts_size path offset size k localhost_ Hk Hcs Ho H32).

Lemma share_nonneg t : 0 <= share t.
Proof using Hk Hcs Ho Hs.
  apply zsum_nonneg. intros id Hid. pose proof (cs_pos k _ Hk Hcs).
  pose proof (psize_bounds cs offset size ltac:(lia) Ho Hs id
    (ids_at_range cfg str_hash localhost_ hosts_size k offset size path Hk Hcs Ho Hs t id Hid)). lia.
Qed.

(** A byte's host is not the target of the request just served. *)
Lemma flat_other_host (n : cluster D F) t s' regs o : 0 <= t -> locate_data d path (o / cs) <> t ->
  flat cfg st d (MkCluster (<[Z.to_nat t := s']> (daemons n)) regs) path o = flat cfg st d n path o.
Proof using Hhosts Hk.
  intros Ht Hne. unfold flat, chunk_on. cbn [daemons].
  pose proof (locate_data_range (DistributorOk := d_ok str_hash localhost_ hosts_size Hhosts) path (o / cs)) as Hr.
  by rewrite list_lookup_insert_ne by lia.
Qed.

(** *** Writing *)

Section writing.
Context (mem : nat) (client : list byte) (Hc : Z.of_nat (length client) = size).

Definition write_ok (n : cluster D F) : Prop :=
  Z.of_nat (length (daemons n)) = hosts_size /\ regions n !! mem = Some client.

(** The bytes located at [t] are the client's. *)
Definition landed (t : Z) (n : cluster D F) : Prop := forall o, offset <= o < offset + size ->
  locate_data d path (o / cs) = t -> flat cfg st d n path o = client !! Z.to_nat (o - offset).

Lemma landed_spares q (n : cluster D F) : spares q -> write_ok n ->
  write_ok (serve_other n q) /\ forall t, landed t n -> landed t (serve_other n q).
Proof using L Hk Hcs Ho Hs H32 Hc.
  intros Hq [H1 H2]. destruct (keeps_spared q n Hq) as (E1 & E2 & E3).
  split; [split; [by rewrite E1|by rewrite E2]|]. intros t Ht o Hor Et. specialize (Ht o Hor Et).
  destruct (client !! Z.to_nat (o - offset)) as [b|] eqn:Eb; [by apply E3|].
  apply lookup_ge_None_1 in Eb. lia.
Qed.

Lemma write_steps t : t ∈ targets groups ->
  steps cfg junk st str_hash env time (fun t => RpcWriteData (input t) mem) write_ok landed (fun _ => 0) (fun t => share t) t.
Proof using All.
  intros Ht n [Hl Hmem]. pose proof (target_range cfg str_hash localhost_ hosts_size offset size path Hhosts t Ht) as Hr.
  destruct (lookup_lt_is_Some_2 (daemons n) (Z.to_nat t)) as [s Hsd]; [lia|].
  destruct (write_post cfg junk st str_hash env time localhost_ hosts_size k offset size path Hfwd Hk Hcs Hst Henv Hhosts
    Ho Hs Hb H32 Hp t mem client n s Ht Hsd Hmem Hc) as (out & s' & E & kf & Hw & Hle & Hz & _).
  exists out, (MkCluster (<[Z.to_nat t := s']> (daemons n)) (regions n)). split; [exact E|].
  split; [split; [cbn; by rewrite length_insert|done]|]. split.
  - intros t' Hne Hd o Hor Et. rewrite flat_other_host by (lia || congruence). by apply Hd.
  - intros He. pose proof (prefixes_le cfg st str_hash localhost_ hosts_size offset size path client kf t _ _ Hw).
    split; [lia|]. intros Eq o Hor Et. unfold flat. rewrite Et.
    rewrite (chunk_on_host st path _ _ _ s') by (cbn; apply list_lookup_insert_eq; lia).
    pose proof (byte_target cfg str_hash localhost_ hosts_size k offset size path Hk Hcs Ho Hs o Hor) as [_ Hin].
    rewrite Et in Hin. apply (wrote_all_lookup st cs offset size path client (cs_range cfg k Hk Hcs) Ho Hs Hc kf _ _ _ Hw);
      [done|done|]. eapply zsum_eq_pointwise; [|rewrite <- Hz by done; exact Eq|done].
    intros x Hx. apply (proj1 Hw x Hx).
Qed.
End writing.

(** *** Reading *)

Section reading.
Context (mem : nat) (v : Z -> option byte) (Hv : forall o, offset <= o < offset + size -> is_Some (v o)).

Definition read_ok (n : cluster D F) : Prop :=
  Z.of_nat (length (daemons n)) = hosts_size /\
  (exists c, regions n !! mem = Some c /\ Z.of_nat (length c) = size) /\
  forall o, offset <= o < offset + size -> flat cfg st d n path o = v o.

(** The bytes located at [t] are in the client's memory. *)
Definition filled (t : Z) (n : cluster D F) : Prop := forall o, offset <= o < offset + size ->
  locate_data d path (o / cs) = t -> default [] (regions n !! mem) !! Z.to_nat (o - offset) = v o.

Lemma filled_spares q (n : cluster D F) : spares q -> read_ok n ->
  read_ok (serve_other n q) /\ forall t, filled t n -> filled t (serve_other n q).
Proof using L Hk Hcs Ho Hs H32 Hv.
  intros Hq (H1 & H2 & H3). destruct (keeps_spared q n Hq) as (E1 & E2 & E3).
  split; [|intros t Ht; unfold filled; by rewrite E2]. split; [by rewrite E1|]. split; [by rewrite E2|].
  intros o Hor. destruct (Hv o Hor) as [b Eb]. rewrite Eb. apply E3; [done|]. by rewrite H3.
Qed.

Lemma read_steps t : t ∈ targets groups ->
  steps cfg junk st str_hash env time (fun t => RpcReadData (input t) mem) read_ok filled (fun t => share t) (fun t => share t) t.
Proof using All.
  intros Ht n (Hl & (c & Hmem & Hc) & Hf).
  pose proof (target_range cfg str_hash localhost_ hosts_size offset size path Hhosts t Ht) as Hr.
  destruct (lookup_lt_is_Some_2 (daemons n) (Z.to_nat t)) as [s Hsd]; [lia|].
  destruct (read_post cfg junk st str_hash env time localhost_ hosts_size k offset size path Hfwd Hk Hcs Hst Henv Hhosts
    Ho Hs Hb H32 Hp t mem c n s Ht Hsd Hmem Hc) as (out & s' & c' & E & Hfs & Hlc & (l & Hpre & Hcl) & Hok).
  set (n' := MkCluster (<[Z.to_nat t := s']> (daemons n)) (<[mem := c']> (regions n))).
  assert (regions n' !! mem = Some c') as Hmem' by (apply list_lookup_insert_eq; by eapply lookup_lt_Some).
  exists out, n'. split; [exact E|]. split; [|split].
  - split; [cbn; by rewrite length_insert|]. split; [exists c'; split; [done|lia]|]. intros o Hor.
    rewrite <- Hf by done. apply (same_files_flat cfg st str_hash localhost_ hosts_size path n n').
    intros h q. cbn. destruct (decide (h = Z.to_nat t)) as [->|]; [|by rewrite list_lookup_insert_ne].
    rewrite list_lookup_insert_eq, Hsd by lia. csimpl. by rewrite Hfs.
  - intros t' Hne Hd o Hor Et. specialize (Hd o Hor Et). rewrite Hmem in Hd. rewrite Hmem'. cbn [from_option id] in *. rewrite <- Hd, Hcl.
    apply (other_target_byte cfg st str_hash localhost_ hosts_size k offset size path Hk Hcs Ho Hs t); [done|done|lia|].
    replace (offset + (o - offset)) with o by lia. by rewrite Et.
  - intros He. destruct (Hok He) as [Ec Eio].
    rewrite (held_target cfg st str_hash localhost_ hosts_size k offset size path) in Eio by (try done; intros o Hor; rewrite Hf by done; by apply Hv).
    split; [lia|]. intros _ o Hor Et. rewrite Hmem'. cbn [from_option id]. rewrite Ec.
    erewrite (target_byte cfg st str_hash localhost_ hosts_size k offset size path) by (try done; lia).
    replace (offset + (o - offset)) with o by lia. rewrite decide_True, Hf by done. destruct (Hv o Hor) as [b ->]. done.
Qed.
End reading.

(** *** The client's calls *)

Lemma targets_nodup : NoDup (targets groups).
Proof using. apply (gi_nodup _ _ _ _ _ _ (range_groups_inv cfg d path offset size)). Qed.

Lemma shares_size : zsum (fun t => share t) (targets groups) = size.
Proof using Hk Hcs Ho Hs. by apply (shares_total cfg str_hash localhost_ hosts_size k offset size path). Qed.

Local Abbreviation share_at := (fun t => share t).

(** The requests of a range, when each of them steps. *)
Lemma range_gather mk ok done_ least (s : shared D F) :
  (forall q n, spares q -> ok n -> ok (serve_other n q) /\ forall t, done_ t n -> done_ t (serve_other n q)) ->
  (forall t, t ∈ targets groups -> steps cfg junk st str_hash env time mk ok done_ least share_at t) ->
  (forall t, 0 <= least t <= share t) -> ok (here s) -> relied spares s ->
  exists hs s1 r e s', post_all (W := net) hosts_size mk (targets groups) s = (Ok (Some hs), s1) /\
    wait_all hs false None 0 s1 = (Ok (r, e), s') /\ ok (here s') /\ relied spares s' /\
    (r = -1 \/ zsum least (targets groups) <= r <= size /\ (r = size -> forall t, t ∈ targets groups -> done_ t (here s'))).
Proof using All.
  intros Hrely Hsteps Hleast Hok Hr.
  destruct (scatter_gather (W := net) hosts_size mk (ok_here spares ok) (done_here done_) least share_at (targets groups) s)
    as (hs & s1 & r & e & s' & E1 & E2 & [Hok' Hr'] & Hres).
  - apply targets_nodup.
  - intros t Ht. split; [by apply (target_range cfg str_hash localhost_ hosts_size offset size path)|]. split; [done|].
    apply (shared_posts cfg junk st str_hash env time spares); [done|]. by apply Hsteps.
  - done.
  - rewrite shares_size. lia.
  - rewrite shares_size in Hres. by exists hs, s1, r, e, s'.
Qed.

Lemma shared_write buf in_offset (s : shared D F) :
  Z.of_nat (length (daemons (here s))) = hosts_size -> size <= Z.of_nat (length buf) -> relied spares s ->
  exists r e s', forward_write (W := net) cfg d hosts_size path buf false in_offset size (offset + size) s = (Ok (r, e), s') /\
    Z.of_nat (length (daemons (here s'))) = hosts_size /\ relied spares s' /\
    (r = -1 \/ 0 <= r <= size /\ (r = size -> forall o, offset <= o < offset + size ->
       flat cfg st d (here s') path o = buf !! Z.to_nat (o - offset))).
Proof using All.
  intros Hl Hbuf Hr. unfold forward_write. rewrite (m_bind_ok _ _ s tt s).
  2:{ unfold m_assert. by rewrite (proj2 (Z.ltb_lt _ _)). }
  assert (i64 (u64 (offset + size - size)) = offset) as ->.
  { replace (offset + size - size) with offset by lia. rewrite wrapu_small, wraps_small by int_solve. done. }
  destruct (client_ids cfg offset size k Hk Hcs Ho Hs Hb) as [-> ->]. fold groups.
  set (mem := length (regions (here s))). set (client := take (Z.to_nat size) buf).
  set (s1 := MkShared (MkCluster (daemons (here s)) (regions (here s) ++ [client])) (slots s)).
  rewrite (m_bind_ok _ _ s (Some mem) s1) by done.
  assert (Z.of_nat (length client) = size) as Hc by (unfold client; rewrite length_take; lia).
  destruct (range_gather (fun t => RpcWriteData (input t) mem) (write_ok mem client) (landed client) (fun _ => 0) s1)
    as (hs & s2 & r & e & s' & E1 & E2 & [Hl' _] & Hr' & Hres).
  { intros q n. by apply landed_spares. } { intros t Ht. by apply write_steps. }
  { intros t. pose proof (share_nonneg t). lia. } { split; [done|]. cbn. by apply list_lookup_middle. } { done. }
  rewrite (m_bind_ok _ _ s1 _ s2 E1), E2. exists r, e, s'. split; [done|]. split; [done|]. split; [done|].
  destruct Hres as [->|[Hr1 Hres]]; [by left|right]. split.
  { rewrite zsum_const in Hr1. lia. }
  intros -> o Hor. destruct (byte_target cfg str_hash localhost_ hosts_size k offset size path Hk Hcs Ho Hs o Hor) as [Ht _].
  rewrite (Hres eq_refl _ Ht o Hor eq_refl). apply lookup_take_lt. lia.
Qed.

Lemma shared_read buf (s : shared D F) :
  Z.of_nat (length (daemons (here s))) = hosts_size -> size <= Z.of_nat (length buf) -> relied spares s ->
  (forall o, offset <= o < offset + size -> is_Some (flat cfg st d (here s) path o)) ->
  exists r e buf' s', forward_read (W := net) cfg d hosts_size path buf offset size s = (Ok ((r, e), buf'), s') /\
    length buf' = length buf /\
    (r = -1 \/ r = size /\ forall i, 0 <= i < size -> buf' !! Z.to_nat i = flat cfg st d (here s) path (offset + i)).
Proof using All.
  intros Hl Hbuf Hr Hf. unfold forward_read.
  destruct (client_ids cfg offset size k Hk Hcs Ho Hs Hb) as [-> ->]. fold groups.
  set (mem := length (regions (here s))). set (client := take (Z.to_nat size) buf).
  set (s1 := MkShared (MkCluster (daemons (here s)) (regions (here s) ++ [client])) (slots s)).
  rewrite (m_bind_ok _ _ s (Some mem) s1) by done.
  assert (Z.of_nat (length client) = size) as Hc by (unfold client; rewrite length_take; lia).
  set (v := flat cfg st d (here s) path).
  destruct (range_gather (fun t => RpcReadData (input t) mem) (read_ok mem v) (filled mem v) share_at s1)
    as (hs & s2 & r & e & s' & E1 & E2 & (_ & (c & Hmem & Hlc) & _) & _ & Hres).
  { intros q n. by apply filled_spares. } { intros t Ht. by apply read_steps. }
  { intros t. pose proof (share_nonneg t). lia. }
  { split; [done|]. split; [|done]. exists client. split; [cbn; by apply list_lookup_middle|done]. } { done. }
  rewrite (m_bind_ok _ _ s1 _ s2 E1). unfold m_bind at 1. rewrite E2.
  eexists r, e, _, s'. split; [done|]. cbn [region SharedNet]. rewrite Hmem. cbn [from_option id].
  split; [rewrite length_app, length_drop; lia|].
  destruct Hres as [->|[Hr1 Hres]]; [by left|right]. rewrite shares_size in Hr1. assert (r = size) as -> by lia.
  split; [done|]. intros i Hi. rewrite lookup_app_l by lia.
  destruct (byte_target cfg str_hash localhost_ hosts_size k offset size path Hk Hcs Ho Hs (offset + i) ltac:(lia)) as [Ht _].
  specialize (Hres eq_refl _ Ht (offset + i) ltac:(lia) eq_refl). rewrite Hmem in Hres. cbn [from_option id] in Hres.
  by replace (offset + i - offset) with i in Hres by lia.
Qed.
End among_others.

(** ** Sizes among other clients

    A daemon serves metadata requests of several clients one after the
    other; a handler that fails leaves the daemon running. *)

(** Requests that leave the entry of [path] there: size updates of it,
    creations, and removals of other paths. *)
Inductive keeps_entry (path : str) : md_request -> Prop :=
| ke_size size offset : 0 <= size -> 0 <= offset -> size + offset < 2 ^ 63 ->
    keeps_entry path (ReqUpdateSize path size offset false)
| ke_create time p mode : in_s 64 time -> in_u 32 mode -> keeps_entry path (ReqCreate time p mode)
| ke_symlink time p target : in_s 64 time -> NUL ∉ target -> keeps_entry path (ReqSymlink time p target)
| ke_remove p : p <> path -> keeps_entry path (ReqRemove p).

(** The end of the write a request announces for [path]. *)
Definition announced (path : str) (req : md_request) : option Z :=
  match req with
  | ReqUpdateSize p size offset false => if decide (p = path) then Some (size + offset) else None
  | _ => None
  end.

Section sizes.
Context {D F : Type} {R : RocksDB D} {P : PosixFS F} (cfg : config) (junk : Metadata) (st : ChunkStorage).
Context {LD : RocksDBLaws R (FullMergeV2 cfg junk)} (path : str).

(** The requests in the order they are served, with their results. *)
Fixpoint serve_md (reqs : list md_request) (s : daemon D F) : list (md_request * res Z) * daemon D F :=
  match reqs with
  | [] => ([], s)
  | req :: reqs' =>
      let '(r, s1) := handle_md cfg junk st req s in
      let '(rs, s2) := serve_md reqs' s1 in ((req, r) :: rs, s2)
  end.

(** One request: the entry keeps its other fields, and its size is what it
    was or what the request announces, if that is more. *)
Lemma serve_md_step req (s s1 : daemon D F) r m md : keeps_entry path req ->
  db_rel cfg (mdb s) m -> m !! path = Some md -> 0 <= size_ md < 2 ^ 63 -> handle_md cfg junk st req s = (r, s1) ->
  exists m1 v, db_rel cfg (mdb s1) m1 /\ m1 !! path = Some (set_size v md) /\ size_ md <= v < 2 ^ 63 /\
    (v = size_ md \/ announced path req = Some v) /\ (forall x, announced path req = Some x -> r = Ok 0 -> x <= v).
Proof using LD.
  intros Hk Hr Hm Hsz E.
  assert (request_pre cfg junk m req) as Hpre.
  { destruct Hk; cbn; try done. rewrite wrapu_small by int_solve. split; [int_solve|]. exists md. split; [done|]. lia. }
  match goal with |- ?G => assert (db_rel cfg (mdb s1) (abs_op (request_op cfg junk m req) m) -> G) as Hdone end.
  { intros Hr1. exists (abs_op (request_op cfg junk m req) m).
    destruct Hk as [size offset H1 H2 H3|time p mode H1 H2|time p target H1 H2|p Hne]; cbn in Hr1 |- *.
    - rewrite wrapu_small by int_solve. exists (Z.max (size + offset) (size_ md)).
      rewrite wrapu_small in Hr1 by int_solve. split; [done|]. rewrite lookup_alter_eq, Hm. split; [done|].
      rewrite decide_True by done. split; [lia|]. split.
      + destruct (decide (size + offset <= size_ md)); [left; lia|right; f_equal; lia].
      + intros x [= <-] _. lia.
    - exists (size_ md). split; [done|]. split; [|split; [lia|]; split; [by left|done]].
      rewrite set_size_same. case_match eqn:Ep; [done|]. rewrite lookup_insert_ne by congruence. done.
    - exists (size_ md). split; [done|]. split; [|split; [lia|]; split; [by left|done]].
      rewrite set_size_same. case_match eqn:Ep; [done|]. rewrite lookup_insert_ne by congruence. done.
    - exists (size_ md). split; [done|]. split; [|split; [lia|]; split; [by left|done]].
      by rewrite set_size_same, lookup_delete_ne by done. }
  assert (r = Ok 0 \/ r <> Ok 0) as [->|Hne]; [destruct r as [z|e|]; [destruct (decide (z = 0)) as [->|Hz]; [by left|right; by intros [= ?]]|by right..]| |].
  { by apply Hdone, (handle_md_sim cfg junk st req s). }
  destruct (handle_md_any cfg junk st req s s1 r m Hr Hpre E) as [Hr1|Hr1]; [|by apply Hdone].
  exists m, (size_ md). split; [done|]. rewrite set_size_same. split; [done|]. split; [lia|]. split; [by left|done].
Qed.

Lemma serve_md_sizes reqs (s : daemon D F) m md : Forall (keeps_entry path) reqs ->
  db_rel cfg (mdb s) m -> m !! path = Some md -> 0 <= size_ md < 2 ^ 63 ->
  let '(rs, s') := serve_md reqs s in
  exists m' v, db_rel cfg (mdb s') m' /\ m' !! path = Some (set_size v md) /\ size_ md <= v /\
    (v = size_ md \/ exists req, req ∈ reqs /\ announced path req = Some v) /\
    (forall req x, (req, Ok 0) ∈ rs -> announced path req = Some x -> x <= v).
Proof using LD.
  intros Hall. revert s m md. induction Hall as [|req reqs Hk Hall IH]; intros s m md Hr Hm Hsz.
  { exists m, (size_ md). rewrite set_size_same. do 3 (split; [done|]). split; [by left|].
    intros req x H. by apply not_elem_of_nil in H. }
  cbn [serve_md]. destruct (handle_md cfg junk st req s) as [r s1] eqn:E.
  destruct (serve_md_step req s s1 r m md Hk Hr Hm Hsz E) as (m1 & v1 & Hr1 & Hm1 & Hv1 & Ho1 & Ha1).
  specialize (IH s1 m1 (set_size v1 md) Hr1 Hm1 ltac:(cbn; lia)). destruct (serve_md reqs s1) as [rs s2].
  destruct IH as (m' & v & Hr' & Hm' & Hv & Ho & Ha). cbn [size_ set_size] in *.
  exists m', v. split; [done|]. split; [done|]. split; [lia|]. split.
  - destruct Ho as [->|(q & Hq & Hqv)]; [|right; exists q; by rewrite elem_of_cons; auto].
    destruct Ho1 as [->|Ho1]; [by left|right]. exists req. by rewrite elem_of_cons; auto.
  - intros q x [Eq|Hq]%elem_of_cons Hx; [|by eapply Ha]. injection Eq as -> <-. specialize (Ha1 x Hx eq_refl). lia.
Qed.
End sizes.

(** ** Properties *)

Section properties.
Context {D F : Type} (R : RocksDB D) (P : PosixFS F) (L : PosixFSLaws P).
Context (cfg : config) (junk : Metadata) (st : ChunkStorage) (str_hash : str -> Z) (env : margo_env).
Context (time localhost_ hosts_size offset size : Z) (path : str).
Local Abbreviation d := (SimpleHashDistributor str_hash localhost_ hosts_size).
Local Abbreviation net := (SharedNet cfg junk st str_hash env time).
Local Abbreviation spares := (spares cfg st str_hash env hosts_size path offset size).

(** C8. [forward_write] among other clients: whatever requests of others are
    served between its own, in any order, and whichever of its own are served
    late, as long as those of the others spare the range the call returns,
    and when it returns the full size every byte of the range is the
    caller's on its host, and stays so under further requests that spare the
    range. *)
Theorem write_among_others (buf : list byte) (in_offset : Z) (s : shared D F) :
  data_ok cfg st env hosts_size offset size path ->
  Z.of_nat (length (daemons (here s))) = hosts_size -> size <= Z.of_nat (length buf) -> relied spares s ->
  exists r e s', forward_write (W := net) cfg d hosts_size path buf false in_offset size (offset + size) s =
      (Ok (r, e), s') /\ (r = -1 \/ 0 <= r <= size) /\
    (r = size -> forall l, Forall spares l -> forall o, offset <= o < offset + size ->
       flat cfg st d (serve_others cfg junk st str_hash env l (here s')) path o = buf !! Z.to_nat (o - offset)).
Proof using L.
  intros [Hf (k & Hk & Hcs) Hst He Hh Ho Hs Hb H32 Hp] Hl Hbuf Hr.
  destruct (shared_write cfg junk st str_hash env time localhost_ hosts_size k offset size path Hf Hk Hcs Hst He Hh Ho Hs Hb
    H32 Hp buf in_offset s Hl Hbuf Hr) as (r & e & s' & E & Hl' & _ & Hres).
  exists r, e, s'. split; [done|]. split; [by destruct Hres as [->|[Hb1 _]]; [left|right]|]. intros -> l Hsp o Hor.
  destruct Hres as [?|[_ Hres]]; [lia|]. specialize (Hres eq_refl o Hor).
  destruct (lookup_lt_is_Some_2 buf (Z.to_nat (o - offset))) as [b Eb]; [lia|]. rewrite Eb in *. clear E.
  revert Hres. generalize (here s'). induction Hsp as [|q l Hq Hsp IH]; intros n Hn; [done|]. cbn. apply IH.
  by apply (serve_other_spares cfg junk st str_hash env hosts_size path offset size k localhost_ Hk Hcs Ho H32 q n Hq).
Qed.

(** C9. A client reads its own writes among other clients: after a
    [forward_write] that returned the full size, a [forward_read] of the
    range returns the size and the bytes that were written, unless it
    reports an error, however the others' requests are served between and
    during the two calls, as long as they spare the range. *)
Theorem reads_own_writes (buf buf0 : list byte) (in_offset : Z) (s s1 : shared D F) (e : option Z) :
  data_ok cfg st env hosts_size offset size path ->
  Z.of_nat (length (daemons (here s))) = hosts_size -> size <= Z.of_nat (length buf) ->
  size <= Z.of_nat (length buf0) -> relied spares s ->
  forward_write (W := net) cfg d hosts_size path buf false in_offset size (offset + size) s = (Ok (size, e), s1) ->
  exists r e' buf' s2, forward_read (W := net) cfg d hosts_size path buf0 offset size s1 = (Ok ((r, e'), buf'), s2) /\
    length buf' = length buf0 /\
    (r = -1 \/ r = size /\ take (Z.to_nat size) buf' = take (Z.to_nat size) buf).
Proof using L.
  intros [Hf (k & Hk & Hcs) Hst He Hh Ho Hs Hb H32 Hp] Hl Hbuf Hbuf0 Hr Ew.
  destruct (shared_write cfg junk st str_hash env time localhost_ hosts_size k offset size path Hf Hk Hcs Hst He Hh Ho Hs Hb
    H32 Hp buf in_offset s Hl Hbuf Hr) as (r0 & e0 & s' & E & Hl' & Hr' & Hres).
  rewrite Ew in E. injection E as <- <- <-. destruct Hres as [?|[_ Hres]]; [lia|]. specialize (Hres eq_refl).
  destruct (shared_read cfg junk st str_hash env time localhost_ hosts_size k offset size path Hf Hk Hcs Hst He Hh Ho Hs Hb
    H32 Hp buf0 s1 Hl' Hbuf0 Hr') as (r & e' & buf' & s2 & Er & Hlen & Hread).
  { intros o Hor. rewrite Hres by done. apply lookup_lt_is_Some. lia. }
  exists r, e', buf', s2. split; [done|]. split; [done|]. destruct Hread as [->|[-> Hread]]; [by left|right].
  split; [done|]. apply list_eq. intros i. destruct (decide (i < Z.to_nat size)%nat).
  - rewrite !lookup_take_lt by done. specialize (Hread (Z.of_nat i) ltac:(lia)).
    rewrite Nat2Z.id in Hread. rewrite Hread, Hres by lia. f_equal. lia.
  - rewrite !lookup_take_ge by lia. done.
Qed.
End properties.

(** C10. No acknowledged size is lost: a daemon serves, in any order, size
    updates of a file by several clients among creations and removals of
    other paths; in the end the entry has its other fields unchanged and a
    size that is at least the old one and every end it acknowledged, and is
    the old one or an end some request announced. *)
Theorem size_updates_not_lost {D F : Type} (R : RocksDB D) (P : PosixFS F) (cfg : config) (junk : Metadata)
    (LD : RocksDBLaws R (FullMergeV2 cfg junk)) (st : ChunkStorage) (path : str) (reqs : list md_request)
    (s s' : daemon D F) (m : gmap str Metadata) (md : Metadata) (rs : list (md_request * res Z)) :
  Forall (keeps_entry path) reqs -> db_rel cfg (mdb s) m -> m !! path = Some md -> 0 <= size_ md < 2 ^ 63 ->
  serve_md cfg junk st reqs s = (rs, s') ->
  exists m' v, db_rel cfg (mdb s') m' /\ m' !! path = Some (set_size v md) /\ size_ md <= v /\
    (v = size_ md \/ exists req, req ∈ reqs /\ announced path req = Some v) /\
    (forall req x, (req, Ok 0) ∈ rs -> announced path req = Some x -> x <= v).
Proof.
  intros Hall Hr Hm Hsz E. pose proof (serve_md_sizes cfg junk st path reqs s m md Hall Hr Hm Hsz) as H. by rewrite E in H.
Qed.

(** ** Witnesses *)

Local Abbreviation memdb := (MemDB (FullMergeV2 small_config example_md)).
Local Abbreviation small_d := (SimpleHashDistributor last_char_hash 0 2).
Local Abbreviation small_shared :=
  (SharedNet (R := memdb) (P := MemFS) small_config example_md small_store last_char_hash good_env 0).
Local Abbreviation small_spares := (spares small_config small_store last_char_hash good_env 2 (s_ "/f") 3 10).

(** Another client writes the three bytes after the range, which share a
    chunk with it, and removes another file. *)
Local Abbreviation other_groups := (range_groups small_config (SimpleHashDistributor last_char_hash 1 2) (s_ "/f") 13 3).
Definition other_write : other_request :=
  Other 0 1 (RpcWriteData (data_input small_config 2 (s_ "/f") other_groups (first_id 4 13) (last_id 4 13 3) 13 3 1) 0)
    [s_ "XYZ"].
Definition other_remove : other_request := Other 0 1 (RpcRemove (s_ "/g")) [].

Definition small_shared_state : shared (gmap str db_entry) memfs :=
  MkShared example_cluster [Slot [other_write] true; Slot [other_remove] false; Slot [] false; Slot [other_write] false].

Lemma other_write_spares : small_spares other_write.
Proof.
  apply (spares_write small_config small_store last_char_hash good_env 2 (s_ "/f") 3 10 0 1 13 3 (s_ "XYZ") 1); try done.
  - split; try done; try lia; [exists 2; split; [lia|done]|apply good_env_ok|by eexists _, _].
  - lia.
  - by vm_compute; left.
Qed.

Lemma other_remove_spares : small_spares other_remove.
Proof. apply spares_apart. intros p [= <-]. by vm_compute. Qed.

Lemma small_shared_relied : relied small_spares small_shared_state.
Proof.
  repeat first [apply other_write_spares|apply other_remove_spares|apply Forall_nil_2|apply Forall_cons_2; cbn [before]].
Qed.

Local Abbreviation small_shared_write :=
  (forward_write (W := small_shared) small_config small_d 2 (s_ "/f") (s_ "abcdefghij") false 0 10 (3 + 10)
     small_shared_state).

Lemma small_shared_write_ok : small_shared_write.1 = Ok (10, None).
Proof. vm_compute. reflexivity. Qed.

Lemma write_among_others_witness :
  exists r e s', small_shared_write = (Ok (r, e), s') /\ (r = -1 \/ 0 <= r <= 10) /\
    (r = 10 -> flat small_config small_store small_d
       (serve_others (R := memdb) (P := MemFS) small_config example_md small_store last_char_hash good_env [other_write] (here s')) (s_ "/f") 12 = Some "j"%char).
Proof.
  destruct (write_among_others memdb MemFS MemFS_laws small_config example_md small_store last_char_hash good_env 0 0 2 3 10
    (s_ "/f") (s_ "abcdefghij") 0 small_shared_state small_data_ok eq_refl ltac:(simpl; lia) small_shared_relied)
    as (r & e & s' & E & Hr & H).
  exists r, e, s'. split; [exact E|]. split; [exact Hr|]. intros Hz.
  apply (H Hz [other_write] (Forall_cons_2 _ _ _ other_write_spares (Forall_nil_2 _)) 12). lia.
Defined.

Lemma reads_own_writes_witness :
  exists r e' buf' s2, forward_read (W := small_shared) small_config small_d 2 (s_ "/f") (s_ "..........") 3 10
      small_shared_write.2 = (Ok ((r, e'), buf'), s2) /\ length buf' = 10%nat /\
    (r = -1 \/ r = 10 /\ take (Z.to_nat 10) buf' = take (Z.to_nat 10) (s_ "abcdefghij")).
Proof.
  refine (reads_own_writes memdb MemFS MemFS_laws small_config example_md small_store last_char_hash good_env 0 0 2 3 10
    (s_ "/f") (s_ "abcdefghij") (s_ "..........") 0 small_shared_state small_shared_write.2 None small_data_ok eq_refl
    _ _ small_shared_relied _).
  - simpl. lia.
  - simpl. lia.
  - by rewrite <- small_shared_write_ok, <- surjective_pairing.
Defined.

(** Two writers of a file and a client that creates it again. *)
Definition size_requests : list md_request :=
  [ReqUpdateSize (s_ "/d/x") 10 5 false; ReqCreate 0 (s_ "/d/x") (Z.lor S_IFREG 420); ReqUpdateSize (s_ "/d/x") 3 1 false].

Lemma size_updates_not_lost_witness :
  exists s' m' v, db_rel (R := MemDB (FullMergeV2 default_config example_md)) default_config
      (mdb (s' : daemon (gmap str db_entry) memfs)) m' /\
    m' !! s_ "/d/x" = Some (set_size v example_md) /\ 15 <= v.
Proof.
  destruct (serve_md (R := MemDB (FullMergeV2 default_config example_md)) (P := MemFS) default_config example_md
    small_store size_requests example_daemon) as [rs s'] eqn:E.
  destruct (size_updates_not_lost (MemDB (FullMergeV2 default_config example_md)) MemFS default_config example_md
    (MemDB_laws _) small_store (s_ "/d/x") size_requests example_daemon s' {[ s_ "/d/x" := example_md ]} example_md rs)
    as (m' & v & H1 & H2 & _ & _ & H3).
  - repeat (apply Forall_cons_2 || apply Forall_nil_2); constructor; try lia; split; by vm_compute.
  - exact example_db_rel.
  - reflexivity.
  - by vm_compute.
  - exact E.
  - exists s', m', v. split; [exact H1|]. split; [exact H2|].
    apply (H3 (ReqUpdateSize (s_ "/d/x") 10 5 false) 15); [|reflexivity].
    vm_compute in E. injection E as <- _. apply elem_of_cons. by left.
Defined.

(** ** Races

    Requests that do not spare what a client works on.  Two clients run at
    the same time; each run is shown with the other's requests in its slots,
    in one order of all requests, and both runs lead to the same stores. *)

Definition racing_client (n : cluster (gmap str db_entry) memfs) (ts : list slot)
    : client (shared (gmap str db_entry) memfs) () :=
  MkClient (MkProcess (set_ofm new_OpenFileMap small_context) ()) (MkShared n ts) 0.

Definition idle : slot := Slot [] false.

(** A metadata request of another client. *)
Definition other_md {A} (p : str) (q : rpc A) : other_request := Other 0 (locate_file_metadata small_d p) q [].

(** The daemons at the end, after the remaining requests [l]. *)
Local Abbreviation ends c l :=
  (daemons (serve_others (R := memdb) (P := MemFS) small_config example_md small_store last_char_hash good_env l (here (net c)))).

(** *** Exclusive creation *)

Local Abbreviation excl_open ts :=
  (gkfs_open (W := small_shared) small_config small_d 2 example_md 0 0 (s_ "/d/y") 420 (O_CREAT + O_EXCL) []
     (racing_client small_cluster ts)).
Definition excl_stats : list other_request :=
  [other_md (s_ "/d/y") (RpcStat (s_ "/d/y")); other_md (s_ "/d") (RpcStat (s_ "/d"))].
Definition excl_create : other_request := other_md (s_ "/d/y") (RpcCreate (s_ "/d/y") (Z.lor 420 S_IFREG)).

Local Abbreviation first_open := (excl_open [idle; idle; idle; idle; Slot (excl_stats ++ [excl_create]) false]).
Local Abbreviation second_open := (excl_open [Slot excl_stats false]).

(** Two clients open the same new path with [O_CREAT | O_EXCL] and both
    succeed: the check is a request of its own, and creating an entry that
    exists is not an error. *)
Theorem exclusive_create_race :
  first_open.1 = Ok 10000 /\ second_open.1 = Ok 10000 /\ ends first_open.2 [] = ends second_open.2 [excl_create].
Proof. vm_compute. done. Qed.

(** *** Creating in a directory that is being removed *)

Local Abbreviation with_dir :=
  (here (net (gkfs_create (W := small_shared) small_config small_d 2 example_md 0 (s_ "/e") S_IFDIR
    (racing_client small_cluster [])).2)).
Local Abbreviation create_in ts :=
  (gkfs_create (W := small_shared) small_config small_d 2 example_md 0 (s_ "/e/y") 420 (racing_client with_dir ts)).
Local Abbreviation remove_dir ts :=
  (gkfs_rmdir (W := small_shared) small_config small_d 2 example_md 0 (s_ "/e") (replicate 1024 NUL)
     (racing_client with_dir ts)).
Definition e_stat : other_request := other_md (s_ "/e") (RpcStat (s_ "/e")).
Definition e_listed : list other_request :=
  [Other 0 0 (RpcGetDirents (s_ "/e") 0) [replicate 512 NUL]; Other 0 1 (RpcGetDirents (s_ "/e") 0) [replicate 512 NUL]].
Definition e_remove : other_request := other_md (s_ "/e") (RpcRemove (s_ "/e")).
Definition y_create : other_request := other_md (s_ "/e/y") (RpcCreate (s_ "/e/y") (Z.lor 420 S_IFREG)).

Local Abbreviation creator := (create_in [idle; idle; Slot ([e_stat] ++ e_listed ++ [e_remove]) false]).
Local Abbreviation remover := (remove_dir [Slot [e_stat] false]).

(** One client creates a file in an empty directory while another removes
    the directory; both succeed, and the file is left without a parent. *)
Theorem rmdir_create_race :
  creator.1 = Ok 0 /\ remover.1 = Ok 0 /\ ends creator.2 [] = ends remover.2 [y_create] /\
  (gkfs_stat (W := small_shared) small_config small_d 2 last_char_hash example_md 0 (s_ "/e/y") false creator.2).1 <> Ok (-1, None) /\
  (gkfs_stat (W := small_shared) small_config small_d 2 last_char_hash example_md 0 (s_ "/e") false creator.2).1 = Ok (-1, None).
Proof. vm_compute. done. Qed.

(** *** Overlapping writes *)

Local Abbreviation torn_groups := (range_groups small_config small_d (s_ "/f") 0 8).
Definition torn_request (t : Z) (buf : list byte) : other_request :=
  Other 0 t (RpcWriteData (data_input small_config 2 (s_ "/f") torn_groups (first_id 4 0) (last_id 4 0 8) 0 8 t) 0) [buf].
Local Abbreviation torn_write buf ts :=
  (forward_write (W := small_shared) small_config small_d 2 (s_ "/f") buf false 0 8 (0 + 8)
     (MkShared example_cluster ts)).
Local Abbreviation torn_a := (torn_write (s_ "aaaaaaaa") [Slot [torn_request 0 (s_ "bbbbbbbb")] false]).
Local Abbreviation torn_b :=
  (torn_write (s_ "bbbbbbbb") [idle; Slot [torn_request 0 (s_ "aaaaaaaa"); torn_request 1 (s_ "aaaaaaaa")] false]).

(** Two clients write the same two chunks and both return the full size;
    the file ends with one chunk of each: a write is atomic per request, not
    as a whole. *)
Theorem overlapping_writes_tear :
  torn_a.1 = Ok (8, None) /\ torn_b.1 = Ok (8, None) /\
  ((fun o => flat small_config small_store small_d (here torn_b.2) (s_ "/f") o) <$> seqZ 0 8) = Some <$> s_ "aaaabbbb" /\
  (storage <$> daemons (serve_others (R := memdb) (P := MemFS) small_config example_md small_store last_char_hash good_env
     [torn_request 1 (s_ "bbbbbbbb")] (here torn_a.2))) = (storage <$> daemons (here torn_b.2)).
Proof. vm_compute. done. Qed.
