(* ===== verification/Hooks.v ===== *)
(** * System call hooks ([src/client/hooks.cpp])

    One function per intercepted system call: decide whether the path or
    the descriptor belongs to GekkoFS, serve it or pass it to the kernel.
    The result is what the application gets: a value or a negative error
    number.  Where a call has an output buffer, its contents are returned
    beside the result when GekkoFS served the call. *)

From S2P Require Import Prelude Config PathUtil Distributor Metadata Rpc ForwardMetadata.
From S2P Require Import OpenFileMap Path Kernel PreloadContext GkfsFunctions.

Section hooks.
Context {N : Type} {W : Network N} {K : Type} {KW : Kernel K}.
Context (cfg : config) (d : Distributor) (hosts_size MAX_OPEN_FDS : Z).
Context (str_hash : str -> Z) (junk : Metadata) (link_fuel : nat).
(** The uninitialised receive buffer of directory listings, and whether
    error messages are logged (their arguments are then evaluated). *)
Context (dirents_buffer : list byte) (log_errors : bool).
Local Abbreviation C := (client N K).

(** ** Helpers *)

Definition on_proc {A} (f : M (process K) A) : M C A := fun c =>
  let '(r, p) := f (proc c) in (r, MkClient p (net c) (errno c)).

(** [syscall_no_intercept] in a function that returns [int]. *)
Definition pass (c : syscall) : M C Z := let* r := on_proc (sys c) in m_ret (i32 r).
Definition pass_buf {B} (c : syscall) : M C (Z * option B) := let* r := pass c in m_ret (r, None).

(** The parameter of [with_errno] is an [int]. *)
Definition with_errno (f : M C Z) : M C Z :=
  let* ret := f in
  let ret := i32 ret in
  if ret <? 0 then let* e := m_gets errno in m_ret (- e) else m_ret ret.
Definition with_errno_buf {B} (f : M C (Z * B)) : M C (Z * option B) :=
  let* out := f in
  let* r := with_errno (m_ret out.1) in m_ret (r, Some out.2).

Definition rel_fd (dirfd : Z) (cpath : str) (resolve_last_link : bool) : M C (RelativizeStatus * str) :=
  let* c := m_get in m_lift (relativize_fd_path dirfd cpath resolve_last_link (proc c)).
Definition rel (path : str) (resolve_last_link : bool) : M C (bool * str) :=
  let* c := m_get in m_lift (relativize_path path resolve_last_link (proc c)).

(** [CTX->file_map()->exist(fd)]. *)
Definition is_open (fd : Z) : M C bool := m_gets (fun c => FileMap.exist (file_map c) fd).
(** [CTX->file_map()->get(fd)], dereferenced. *)
Definition open_file (fd : Z) : M C OpenFile := let* p := get_open fd in file_at p.

(** The switch on the status of the [*at] calls. *)
Definition dispatch {A} (dirfd : Z) (cpath : str) (resolve_last_link : bool)
    (to_kernel : str -> M C A) (not_a_dir : A) (serve : str -> M C A) : M C A :=
  let* st := rel_fd dirfd cpath resolve_last_link in
  match st.1 with
  | fd_unknown => to_kernel cpath
  | external => to_kernel st.2
  | fd_not_a_dir => m_ret not_a_dir
  | internal => serve st.2
  end.

(** The test on the descriptor of the other calls. *)
Definition by_fd {A} (fd : Z) (serve to_kernel : M C A) : M C A :=
  let* b := is_open fd in if (b : bool) then serve else to_kernel.

(** The test on the path of the calls without descriptor. *)
Definition by_path {A} (path : str) (resolve_last_link : bool) (serve to_kernel : str -> M C A) : M C A :=
  let* r := rel path resolve_last_link in if r.1 then serve r.2 else to_kernel r.2.

(** ** Opening and closing *)

Definition hook_openat (dirfd : Z) (cpath : str) (flags mode : Z) : M C Z :=
  dispatch dirfd cpath true (fun p => pass (SYS_openat dirfd p flags mode)) (- ENOTDIR)
    (fun p => with_errno (gkfs_open cfg d hosts_size junk link_fuel link_fuel p mode flags dirents_buffer)).

Definition hook_close (fd : Z) : M C Z :=
  by_fd fd
    (m_modify (fun c => set_file_map (FileMap.remove fd (file_map c)).2 c) ;;; m_ret 0)
    (let* c := m_get in
     let* b := m_lift (is_internal_fd MAX_OPEN_FDS (ctx (proc c)) fd) in
     if (b : bool) then m_ret 0 else pass (SYS_close fd)).

(** ** Status *)

Definition stat_of (p : str) : M C (Z * option stat) :=
  let* out := gkfs_stat cfg d hosts_size str_hash junk link_fuel p true in
  let* r := with_errno (m_ret out.1) in m_ret (r, out.2).

Definition hook_stat (path : str) : M C (Z * option stat) :=
  by_path path false stat_of (fun p => pass_buf (SYS_stat p)).

Definition hook_statx (dirfd : Z) (path : str) (flags mask : Z) : M C (Z * option stat) :=
  dispatch dirfd path true (fun p => pass_buf (SYS_statx dirfd p flags mask)) (- ENOTDIR, None)
    (fun p => let* out := gkfs_statx cfg d hosts_size str_hash junk link_fuel p true in
              let* r := with_errno (m_ret out.1) in m_ret (r, out.2)).

Definition hook_lstat (path : str) : M C (Z * option stat) :=
  by_path path true stat_of (fun p => pass_buf (SYS_lstat p)).

Definition hook_fstat (fd : Z) : M C (Z * option stat) :=
  by_fd fd (let* o := open_file fd in stat_of (path_ o)) (pass_buf (SYS_fstat fd)).

Definition hook_fstatat (dirfd : Z) (cpath : str) (flags : Z) : M C (Z * option stat) :=
  if has_flag flags AT_EMPTY_PATH then m_ret (- ENOTSUP, None) else
  dispatch dirfd cpath true (fun p => pass_buf (SYS_newfstatat dirfd p flags)) (- ENOTDIR, None) stat_of.

Definition hook_statfs (path : str) : M C (Z * option statfs) :=
  by_path path true (fun _ => with_errno_buf (gkfs_statfs cfg hosts_size)) (fun p => pass_buf (SYS_statfs p)).

Definition hook_fstatfs (fd : Z) : M C (Z * option statfs) :=
  by_fd fd (with_errno_buf (gkfs_statfs cfg hosts_size)) (pass_buf (SYS_fstatfs fd)).

(** ** Reading and writing *)

Definition hook_read (fd : Z) (buf : list byte) (count : Z) : M C (Z * option (list byte)) :=
  by_fd fd (with_errno_buf (gkfs_read cfg d hosts_size fd buf count)) (pass_buf (SYS_read fd count)).

Definition hook_pread (fd : Z) (buf : list byte) (count at_ : Z) : M C (Z * option (list byte)) :=
  by_fd fd (with_errno_buf (gkfs_pread_ws cfg d hosts_size fd buf count at_)) (pass_buf (SYS_pread64 fd count at_)).

Definition hook_readv (fd : Z) (iov : list (list byte)) : M C (Z * option (list (list byte))) :=
  by_fd fd (with_errno_buf (gkfs_readv cfg d hosts_size fd iov)) (pass_buf (SYS_readv fd (Z.of_nat (length iov)))).

Definition hook_preadv (fd : Z) (iov : list (list byte)) (pos_l pos_h : Z) : M C (Z * option (list (list byte))) :=
  by_fd fd (with_errno_buf (gkfs_preadv cfg d hosts_size fd iov (i64 pos_l)))
    (pass_buf (SYS_preadv fd (Z.of_nat (length iov)) pos_l)).

Definition hook_write (fd : Z) (buf : list byte) (count : Z) : M C Z :=
  by_fd fd (with_errno (gkfs_write cfg d hosts_size fd buf count)) (pass (SYS_write fd count)).

Definition hook_pwrite (fd : Z) (buf : list byte) (count at_ : Z) : M C Z :=
  by_fd fd (with_errno (gkfs_pwrite_ws cfg d hosts_size fd buf count at_)) (pass (SYS_pwrite64 fd count at_)).

Definition hook_writev (fd : Z) (iov : list (list byte)) : M C Z :=
  by_fd fd (with_errno (gkfs_writev cfg d hosts_size fd iov)) (pass (SYS_writev fd (Z.of_nat (length iov)))).

Definition hook_pwritev (fd : Z) (iov : list (list byte)) (pos_l pos_h : Z) : M C Z :=
  by_fd fd (with_errno (gkfs_pwritev cfg d hosts_size fd iov (i64 pos_l)))
    (pass (SYS_pwritev fd (Z.of_nat (length iov)) pos_l)).

(** The result is an [off_t]: nothing is cut off. *)
Definition hook_lseek (fd offset whence : Z) : M C Z :=
  by_fd fd
    (let* off_ret := gkfs_lseek d hosts_size fd offset whence in
     if 2 ^ 63 - 1 <? off_ret then m_ret (- EOVERFLOW)
     else if off_ret <? 0 then let* e := m_gets errno in m_ret (- e) else m_ret off_ret)
    (on_proc (sys (SYS_lseek fd offset whence))).

Definition hook_truncate (path : str) (length_ : Z) : M C Z :=
  by_path path true (fun p => with_errno (gkfs_truncate cfg d hosts_size junk link_fuel p length_))
    (fun p => pass (SYS_truncate p length_)).

Definition hook_ftruncate (fd length_ : Z) : M C Z :=
  by_fd fd (let* o := open_file fd in with_errno (gkfs_truncate cfg d hosts_size junk link_fuel (path_ o) (i64 length_)))
    (pass (SYS_ftruncate fd length_)).

(** ** Names *)

Definition hook_unlinkat (dirfd : Z) (cpath : str) (flags : Z) : M C Z :=
  if negb (Z.land flags (Z.lnot AT_REMOVEDIR) =? 0) then m_ret (- EINVAL) else
  dispatch dirfd cpath false (fun p => pass (SYS_unlinkat dirfd p flags)) (- ENOTDIR)
    (fun p => if has_flag flags AT_REMOVEDIR
              then with_errno (gkfs_rmdir cfg d hosts_size junk link_fuel p dirents_buffer)
              else with_errno (gkfs_remove cfg d hosts_size junk link_fuel p)).

Definition hook_symlinkat (oldname : str) (newdfd : Z) (newname : str) : M C Z :=
  by_path oldname true (fun _ => m_ret (- ENOTSUP))
    (fun _ => dispatch newdfd newname false (fun p => pass (SYS_symlinkat oldname newdfd p)) (- ENOTDIR)
                (fun _ => m_ret (- ENOTSUP))).

Definition hook_access (path : str) (mask : Z) : M C Z :=
  by_path path true
    (fun p => let* ret := gkfs_access cfg d hosts_size junk link_fuel p mask true in
              if ret <? 0 then let* e := m_gets errno in m_ret (- e) else m_ret ret)
    (fun p => pass (SYS_access p mask)).

Definition hook_faccessat (dirfd : Z) (cpath : str) (mode : Z) : M C Z :=
  dispatch dirfd cpath true (fun p => pass (SYS_faccessat dirfd p mode)) (- ENOTDIR)
    (fun p => with_errno (gkfs_access cfg d hosts_size junk link_fuel p mode true)).

Definition hook_mkdirat (dirfd : Z) (cpath : str) (mode : Z) : M C Z :=
  dispatch dirfd cpath true (fun p => pass (SYS_mkdirat dirfd p mode)) (- ENOTDIR)
    (fun p => with_errno (gkfs_create cfg d hosts_size junk link_fuel p (Z.lor mode S_IFDIR))).

Definition hook_fchmodat (dirfd : Z) (cpath : str) (mode : Z) : M C Z :=
  dispatch dirfd cpath true (fun p => pass (SYS_fchmodat dirfd p mode)) (- ENOTDIR) (fun _ => m_ret (- ENOTSUP)).

Definition hook_fchmod (fd mode : Z) : M C Z :=
  by_fd fd (m_ret (- ENOTSUP)) (pass (SYS_fchmod fd mode)).

Definition hook_readlinkat (dirfd : Z) (cpath : str) (bufsiz : Z) : M C Z :=
  dispatch dirfd cpath false (fun p => pass (SYS_readlinkat dirfd p bufsiz)) (- ENOTDIR) (fun _ => m_ret (- ENOTSUP)).

(** The path to pass on, or the error to return. *)
Definition rename_side (dfd : Z) (name : str) : M C (str + Z) :=
  dispatch dfd name true (fun p => m_ret (inl p)) (inr (- ENOTDIR)) (fun _ => m_ret (inr (- ENOTSUP))).

Definition hook_renameat (olddfd : Z) (oldname : str) (newdfd : Z) (newname : str) (flags : Z) : M C Z :=
  let* old := rename_side olddfd oldname in
  match old with
  | inr e => m_ret e
  | inl oldpath_pass =>
      let* new := rename_side newdfd newname in
      match new with
      | inr e => m_ret e
      | inl newpath_pass => pass (SYS_renameat2 olddfd oldpath_pass newdfd newpath_pass flags)
      end
  end.

(** ** Descriptors *)

Definition hook_dup (fd : Z) : M C Z := by_fd fd (with_errno (gkfs_dup fd)) (pass (SYS_dup fd)).

Definition hook_dup2 (oldfd newfd : Z) : M C Z :=
  by_fd oldfd (with_errno (gkfs_dup2 oldfd newfd)) (pass (SYS_dup2 oldfd newfd)).

Definition hook_dup3 (oldfd newfd flags : Z) : M C Z :=
  by_fd oldfd (m_ret (- ENOTSUP)) (pass (SYS_dup3 oldfd newfd flags)).

Definition hook_getdents (fd : Z) (dirp : list byte) (count : Z) : M C (Z * option (list byte)) :=
  by_fd fd (with_errno_buf (gkfs_getdents str_hash fd dirp count)) (pass_buf (SYS_getdents fd count)).

Definition hook_getdents64 (fd : Z) (dirp : list byte) (count : Z) : M C (Z * option (list byte)) :=
  by_fd fd (with_errno_buf (gkfs_getdents64 str_hash fd dirp count)) (pass_buf (SYS_getdents64 fd count)).

Definition set_cloexec (fd : Z) (v : bool) : M C () :=
  let* p := get_open fd in
  m_modify (fun c => set_file_map (FileMap.update_object p (set_flag OpenFile_flags.cloexec v) (file_map c)) c).

Definition hook_fcntl (fd cmd arg : Z) : M C Z :=
  by_fd fd
    (if cmd =? F_DUPFD then with_errno (gkfs_dup fd)
     else if cmd =? F_DUPFD_CLOEXEC then
       let* ret := gkfs_dup fd in
       if ret =? -1 then let* e := m_gets errno in m_ret (- e)
       else set_cloexec fd true ;;; m_ret ret
     else if cmd =? F_GETFD then
       let* o := open_file fd in m_ret (if get_flag o OpenFile_flags.cloexec then FD_CLOEXEC else 0)
     else if cmd =? F_GETFL then
       let* o := open_file fd in
       let flag f v := if get_flag o f then v else 0 in
       m_ret (Z.lor (Z.lor (flag OpenFile_flags.rdonly O_RDONLY) (flag OpenFile_flags.wronly O_WRONLY))
                (flag OpenFile_flags.rdwr O_RDWR))
     else if cmd =? F_SETFD then set_cloexec fd (has_flag arg FD_CLOEXEC) ;;; m_ret 0
     else m_ret (- ENOTSUP))
    (pass (SYS_fcntl fd cmd arg)).

(** ** Working directory *)

(** [try { set_cwd(..) } catch (system_error) { return -code; } return 0;] *)
Definition change_cwd (path : str) (inside : bool) : M C Z :=
  m_try (on_proc (set_cwd path inside) ;;; m_ret 0)
    (fun e => match e with SystemError code => m_ret (- code) | _ => m_throw e end).

(** [if (has_trailing_slash(p)) p.pop_back();] *)
Definition drop_trailing (p : str) : str := if has_trailing_slash p then take (length p - 1) p else p.

Definition hook_chdir (path : str) : M C Z :=
  by_path path true
    (fun p =>
      let* md := get_metadata cfg d hosts_size junk link_fuel p false in
      match md with
      | None => m_ret (- ENOENT)
      | Some md =>
          if negb (S_ISDIR (mode_ md)) then m_ret (- ENOTDIR) else
          let* c := m_get in change_cwd (drop_trailing (mountdir_ (ctx (proc c)) ++ p)) true
      end)
    (fun p => change_cwd p false).

(** The error message dereferences the null pointer. *)
Definition hook_fchdir (fd : Z) : M C Z :=
  by_fd fd
    (let* c := m_get in
     match FileMap.get_dir (file_map c) fd with
     | None => if log_errors then m_trap else m_ret (- EBADF)
     | Some p =>
         let* o := file_at p in change_cwd (drop_trailing (mountdir_ (ctx (proc c)) ++ path_ o)) true
     end)
    (let* ret := on_proc (sys (SYS_fchdir fd)) in
     if ret <? 0 then m_throw (SystemError (syscall_error_code ret)) else
     on_proc unset_env_cwd ;;;
     let* path := on_proc get_sys_cwd in
     on_proc (with_ctx (cwd path)) ;;;
     m_ret 0).

(** The result and the user's buffer. *)
Definition hook_getcwd (buf : list byte) (size : Z) : M C (Z * list byte) :=
  let* c := m_get in
  let path := cwd_ (ctx (proc c)) in
  if size <? Z.of_nat (length path) + 1 then m_ret (- ERANGE, buf)
  else m_ret (Z.of_nat (length path) + 1, write_at buf 0 (cstr path ++ [NUL])).
End hooks.

(** ** Served calls stay away from the kernel *)

Section separation.
Context {N : Type} {W : Network N} {K : Type} {KW : Kernel K}.
Context (cfg : config) (d : Distributor) (hosts_size MAX_OPEN_FDS : Z).
Context (str_hash : str -> Z) (junk : Metadata) (link_fuel : nat).
Local Abbreviation C := (client N K).
Local Abbreviation kernel := (fun c : C => os (proc c)).

Lemma on_net_kernel {A} (f : M N A) : preserves kernel (on_net f : M C A).
Proof. intros c r c'. unfold on_net. destruct (f (net c)). by intros [= _ <-]. Qed.

Lemma set_errno_kernel e : preserves kernel (set_errno e : M C _).
Proof. by apply preserves_modify. Qed.

Lemma finish_with_kernel r : preserves kernel (finish_with r : M C Z).
Proof. destruct r as [v [e|]]; cbn; [apply preserves_bind; [apply set_errno_kernel|]|]; auto with preserves. Qed.

Lemma pos_kernel p v : preserves kernel (pos p v : M C _).
Proof. by apply preserves_modify. Qed.

Lemma file_at_kernel p : preserves kernel (file_at p : M C _).
Proof. intros c r c'. unfold file_at. case_match; by intros [= _ <-]. Qed.

Lemma get_open_kernel fd : preserves kernel (get_open fd : M C _).
Proof. intros c r c'. unfold get_open. case_match; by intros [= _ <-]. Qed.

#[local] Hint Resolve on_net_kernel set_errno_kernel finish_with_kernel pos_kernel file_at_kernel get_open_kernel
  : preserves.

Lemma fail_kernel e : preserves kernel (fail e : M C _).
Proof. apply finish_with_kernel. Qed.
#[local] Hint Resolve fail_kernel : preserves.

Lemma follow_kernel fuel attr : preserves kernel (follow cfg d hosts_size junk fuel attr : M C _).
Proof. revert attr. induction fuel; cbn [follow]; preserve. Qed.
#[local] Hint Resolve follow_kernel : preserves.

Lemma get_metadata_kernel path b : preserves kernel (get_metadata cfg d hosts_size junk link_fuel path b : M C _).
Proof. unfold get_metadata. preserve. Qed.
#[local] Hint Resolve get_metadata_kernel : preserves.

Lemma gkfs_stat_kernel path b :
  preserves kernel (gkfs_stat cfg d hosts_size str_hash junk link_fuel path b : M C _).
Proof. unfold gkfs_stat. preserve. Qed.

Lemma gkfs_statfs_kernel : preserves kernel (gkfs_statfs cfg hosts_size : M C _).
Proof. unfold gkfs_statfs. preserve. Qed.

Lemma gkfs_truncate_to_kernel path old new :
  preserves kernel (gkfs_truncate_to cfg d hosts_size path old new : M C _).
Proof. unfold gkfs_truncate_to. preserve. Qed.
#[local] Hint Resolve gkfs_stat_kernel gkfs_statfs_kernel gkfs_truncate_to_kernel : preserves.

Lemma gkfs_truncate_kernel path len :
  preserves kernel (gkfs_truncate cfg d hosts_size junk link_fuel path len : M C _).
Proof. unfold gkfs_truncate. preserve. Qed.

Lemma gkfs_lseek_file_kernel p offset whence : preserves kernel (gkfs_lseek_file d hosts_size p offset whence : M C _).
Proof. unfold gkfs_lseek_file. preserve. Qed.

Lemma gkfs_pwrite_kernel p buf count offset :
  preserves kernel (gkfs_pwrite cfg d hosts_size p buf count offset : M C _).
Proof. unfold gkfs_pwrite. preserve. Qed.

Lemma gkfs_pread_kernel p buf count offset :
  preserves kernel (gkfs_pread cfg d hosts_size p buf count offset : M C _).
Proof. unfold gkfs_pread. preserve. Qed.
#[local] Hint Resolve gkfs_truncate_kernel gkfs_lseek_file_kernel gkfs_pwrite_kernel gkfs_pread_kernel : preserves.

Lemma pwritev_loop_kernel p iov at_ written :
  preserves kernel (pwritev_loop cfg d hosts_size p iov at_ written : M C _).
Proof. revert at_ written. induction iov; cbn [pwritev_loop]; preserve. Qed.

Lemma preadv_loop_kernel p iov at_ read :
  preserves kernel (preadv_loop cfg d hosts_size p iov at_ read : M C _).
Proof. revert at_ read. induction iov; cbn [preadv_loop]; preserve. Qed.
#[local] Hint Resolve pwritev_loop_kernel preadv_loop_kernel : preserves.

Lemma gkfs_dup_kernel fd : preserves kernel (gkfs_dup fd : M C _).
Proof.
  intros c r c'. unfold gkfs_dup. destruct (FileMap.dup fd (file_map c)) as [[x m]|]; [|by intros [= _ <-]].
  intros E. by apply finish_with_kernel in E.
Qed.

Lemma gkfs_dup2_kernel fd fd' : preserves kernel (gkfs_dup2 fd fd' : M C _).
Proof.
  intros c r c'. unfold gkfs_dup2. destruct (FileMap.dup2 fd fd' (file_map c)) as [x m].
  intros E. by apply finish_with_kernel in E.
Qed.

Lemma getdents_kernel l fd buf count : preserves kernel (getdents str_hash l fd buf count : M C _).
Proof. unfold getdents. preserve. Qed.

Lemma with_errno_kernel (f : M C Z) : preserves kernel f -> preserves kernel (with_errno f).
Proof. intros H. unfold with_errno. preserve. Qed.

Lemma with_errno_buf_kernel {B} (f : M C (Z * B)) : preserves kernel f -> preserves kernel (with_errno_buf f).
Proof. intros H. unfold with_errno_buf, with_errno. preserve. Qed.
#[local] Hint Resolve gkfs_dup_kernel gkfs_dup2_kernel getdents_kernel with_errno_kernel with_errno_buf_kernel
  : preserves.

(** The calls on a descriptor. *)
Inductive fd_call :=
| Close | Fstat | Fstatfs | Read (buf : list byte) (count : Z) | Pread (buf : list byte) (count at_ : Z)
| Readv (iov : list (list byte)) | Preadv (iov : list (list byte)) (pos_l pos_h : Z)
| Write (buf : list byte) (count : Z) | Pwrite (buf : list byte) (count at_ : Z)
| Writev (iov : list (list byte)) | Pwritev (iov : list (list byte)) (pos_l pos_h : Z)
| Lseek (offset whence : Z) | Ftruncate (length_ : Z) | Fchmod (mode : Z) | Dup | Dup2 (newfd : Z)
| Dup3 (newfd flags : Z) | Getdents (buf : list byte) (count : Z) | Getdents64 (buf : list byte) (count : Z)
| Fcntl (cmd arg : Z).

Definition value {A} (f : M C (Z * A)) : M C Z := let* r := f in m_ret r.1.

(** The hook of a call; the result without buffers. *)
Definition hook_fd (fd : Z) (call : fd_call) : M C Z :=
  match call with
  | Close => hook_close MAX_OPEN_FDS fd
  | Fstat => value (hook_fstat cfg d hosts_size str_hash junk link_fuel fd)
  | Fstatfs => value (hook_fstatfs cfg hosts_size fd)
  | Read buf count => value (hook_read cfg d hosts_size fd buf count)
  | Pread buf count at_ => value (hook_pread cfg d hosts_size fd buf count at_)
  | Readv iov => value (hook_readv cfg d hosts_size fd iov)
  | Preadv iov l h => value (hook_preadv cfg d hosts_size fd iov l h)
  | Write buf count => hook_write cfg d hosts_size fd buf count
  | Pwrite buf count at_ => hook_pwrite cfg d hosts_size fd buf count at_
  | Writev iov => hook_writev cfg d hosts_size fd iov
  | Pwritev iov l h => hook_pwritev cfg d hosts_size fd iov l h
  | Lseek offset whence => hook_lseek d hosts_size fd offset whence
  | Ftruncate len => hook_ftruncate cfg d hosts_size junk link_fuel fd len
  | Fchmod mode => hook_fchmod fd mode
  | Dup => hook_dup fd
  | Dup2 newfd => hook_dup2 fd newfd
  | Dup3 newfd flags => hook_dup3 fd newfd flags
  | Getdents buf count => value (hook_getdents str_hash fd buf count)
  | Getdents64 buf count => value (hook_getdents64 str_hash fd buf count)
  | Fcntl cmd arg => hook_fcntl fd cmd arg
  end.

(** What a call does to an open descriptor, and to any other. *)
Lemma by_fd_run {A} fd (serve to_kernel : M C A) (c : C) :
  by_fd fd serve to_kernel c = if FileMap.exist (file_map c) fd then serve c else to_kernel c.
Proof. unfold by_fd, is_open, m_bind, m_gets. by case_match. Qed.

Lemma value_run {A} (f g : M C (Z * A)) (c : C) : f c = g c -> value f c = value g c.
Proof. unfold value, m_bind. by intros ->. Qed.

Lemma set_cloexec_kernel fd v : preserves kernel (set_cloexec fd v : M C _).
Proof.
  unfold set_cloexec. apply preserves_bind; [auto with preserves|]. intros p. by apply preserves_modify.
Qed.
#[local] Hint Resolve set_cloexec_kernel : preserves.

Lemma served_kernel fd call (c : C) r c' :
  FileMap.exist (file_map c) fd = true -> hook_fd fd call c = (r, c') -> os (proc c') = os (proc c).
Proof.
  intros Hex E. destruct call; cbn [hook_fd] in E;
    unfold hook_close, hook_fstat, hook_fstatfs, hook_read, hook_pread, hook_readv, hook_preadv, hook_write,
      hook_pwrite, hook_writev, hook_pwritev, hook_lseek, hook_ftruncate, hook_fchmod, hook_dup, hook_dup2, hook_dup3,
      hook_getdents, hook_getdents64, hook_fcntl in E;
    try (erewrite value_run in E by (rewrite by_fd_run, Hex; reflexivity));
    try (rewrite by_fd_run, Hex in E);
    revert E; (match goal with |- ?m c = _ -> _ => cut (preserves kernel m); [intros H E; by apply H in E|] end);
    unfold value, open_file, stat_of, gkfs_read, gkfs_pread_ws, gkfs_readv, gkfs_preadv, gkfs_write, gkfs_pwrite_ws,
      gkfs_writev, gkfs_pwritev, gkfs_lseek, gkfs_getdents, gkfs_getdents64; preserve.
  by apply preserves_modify.
Qed.

(** *** Other calls only reach the kernel *)

Local Abbreviation ours := (fun c : C => (ctx (proc c), net c, errno c)).

Lemma sys_ours c : preserves ours (on_proc (sys c) : M C Z).
Proof.
  intros s r s'. unfold on_proc, sys. destruct (k_syscall c (os (proc s))). by intros [= _ <-].
Qed.

Lemma pass_ours c : preserves ours (pass c : M C Z).
Proof. unfold pass. apply preserves_bind; [apply sys_ours|auto with preserves]. Qed.

Lemma pass_buf_ours {B} c : preserves ours (pass_buf c : M C (Z * option B)).
Proof. unfold pass_buf. apply preserves_bind; [apply pass_ours|auto with preserves]. Qed.
#[local] Hint Resolve sys_ours pass_ours pass_buf_ours : preserves.

Lemma passed_ours fd call (c : C) r c' :
  FileMap.exist (file_map c) fd = false -> hook_fd fd call c = (r, c') -> ours c' = ours c.
Proof.
  intros Hex E. destruct call; cbn [hook_fd] in E;
    unfold hook_close, hook_fstat, hook_fstatfs, hook_read, hook_pread, hook_readv, hook_preadv, hook_write,
      hook_pwrite, hook_writev, hook_pwritev, hook_lseek, hook_ftruncate, hook_fchmod, hook_dup, hook_dup2, hook_dup3,
      hook_getdents, hook_getdents64, hook_fcntl in E;
    try (erewrite value_run in E by (rewrite by_fd_run, Hex; reflexivity));
    try (rewrite by_fd_run, Hex in E);
    revert E; (match goal with |- ?m c = _ -> _ => cut (preserves ours m); [intros H E; by apply H in E|] end);
    unfold value; preserve.
Qed.
End separation.

(** ** Properties *)

(** The calls on a descriptor are separated: a call on a descriptor of
    GekkoFS never reaches the kernel, and a call on any other descriptor
    changes neither the client's state nor the daemons nor [errno]. *)
Theorem fd_calls_separated {N : Type} {W : Network N} {K : Type} {KW : Kernel K} (cfg : config) (d : Distributor)
    (hosts_size MAX_OPEN_FDS : Z) (str_hash : str -> Z) (junk : Metadata) (link_fuel : nat)
    (fd : Z) (call : fd_call) (c c' : client N K) (r : res Z) :
  hook_fd cfg d hosts_size MAX_OPEN_FDS str_hash junk link_fuel fd call c = (r, c') ->
  if FileMap.exist (file_map c) fd then os (proc c') = os (proc c)
  else ctx (proc c') = ctx (proc c) /\ net c' = net c /\ errno c' = errno c.
Proof.
  intros E. destruct (FileMap.exist (file_map c) fd) eqn:Hex; [by eapply served_kernel|].
  apply passed_ours in E; [|done]. by injection E as -> -> ->.
Qed.

(** Closing a descriptor of GekkoFS twice is not answered with [EBADF]:
    the second close finds no open file and asks [is_internal_fd], which
    throws [std::out_of_range] for every descriptor from [MAX_OPEN_FDS] on,
    as those of GekkoFS are. *)
Theorem double_close_throws {N : Type} {K : Type} {KW : Kernel K} (MAX_OPEN_FDS fd : Z) (c : client N K) :
  FileMap.exist (file_map c) fd = true -> MAX_OPEN_FDS <= fd -> 256 <= MAX_OPEN_FDS ->
  length (internal_fds_ (ctx (proc c))) = MAX_INTERNAL_FDS ->
  exists c', hook_close MAX_OPEN_FDS fd c = (Ok 0, c') /\
    hook_close MAX_OPEN_FDS fd c' = (Throw OutOfRange, c').
Proof.
  intros Hex Hfd Hmax Hl.
  exists (set_file_map (FileMap.remove fd (file_map c)).2 c). unfold hook_close. rewrite !by_fd_run, Hex.
  split; [done|].
  assert (FileMap.exist (file_map (set_file_map (FileMap.remove fd (file_map c)).2 c)) fd = false) as ->.
  { unfold FileMap.exist. apply bool_decide_eq_false_2. unfold file_map, set_file_map. cbn.
    rewrite remove_files, lookup_delete_eq. by intros []. }
  unfold m_bind, m_get, m_lift, is_internal_fd. cbn [proc ctx set_file_map].
  unfold MIN_INTERNAL_FD, MAX_INTERNAL_FDS in *. rewrite (proj2 (Z.ltb_ge _ _)) by lia.
  rewrite lookup_ge_None_2; [done|]. cbn. lia.
Qed.

(** ** Witnesses *)

Definition hook_net : Network () :=
  {| expose _ n := (None, n); region _ _ := []; post _ _ _ n := (None, n) |}.
Definition hook_client : client () small_kernel := MkClient small_process () 0.

Lemma fd_calls_separated_witness :
  ctx (proc hook_client) = ctx (proc hook_client) /\ net hook_client = net hook_client /\ errno hook_client = 0.
Proof.
  exact (fd_calls_separated (W := hook_net) default_config (SimpleHashDistributor (fun _ => 0) 0 1) 1 1024 (fun _ => 0)
    example_md 0 5 (Read [] 0) hook_client hook_client (Ok (- ENOTSUP)) eq_refl).
Defined.

Lemma double_close_throws_witness : exists c',
  hook_close 1024 10000 hook_client = (Ok 0, c') /\ hook_close 1024 10000 c' = (Throw OutOfRange, c').
Proof. apply (double_close_throws 1024 10000 hook_client); [by vm_compute|lia|lia|by vm_compute]. Defined.
