(* ===== verification/HostFile.v ===== *)
(** * Finding the daemons: the hosts file and the forwarding map

    A daemon appends a line with its host name and address to a shared text
    file ([src/daemon/util.cpp]); a client reads the file, looks up the
    addresses and finds its own host ([load_hostfile], [load_hosts] and
    [lookup_endpoint] of [src/client/preload_util.cpp]).  In forwarding mode
    it also reads which daemon serves its host ([load_forwarding_map_file],
    [load_forwarding_map]).  Host names and environment variables are those
    of [src/global/rpc/rpc_util.cpp] and [src/global/env_util.cpp]. *)

From S2P Require Import Prelude Config.

(** ** What the code asks the system *)

(** Text files by name, whether a file can be opened for writing and
    written, the machine's name ([None]: [gethostname] fails) and the
    environment. *)
Record host_os := MkHostOS {
  text_files : gmap str str;
  can_open : str -> bool;
  can_write : str -> bool;
  host_name : option str;
  env_var : str -> option str
}.

Definition with_files (f : gmap str str) (o : host_os) : host_os :=
  MkHostOS f (can_open o) (can_write o) (host_name o) (env_var o).

Definition LF : ascii := "010"%char.

(** [gkfs::env::get_var]. *)
Definition get_var (o : host_os) (name default_value : str) : str :=
  match env_var o name with Some v => v | None => default_value end.

(** [get_my_hostname]; the buffer holds a C string. *)
Definition get_my_hostname (o : host_os) (short_hostname : bool) : str :=
  match host_name o with
  | None => []
  | Some h =>
      let h := cstr h in
      if negb short_hostname then h else
      match find_char "."%char h 0 with
      | Some pos => substr h 0 pos
      | None => h
      end
  end.

(** [bool_to_merc_bool]: [HG_TRUE] or [HG_FALSE]. *)
Definition bool_to_merc_bool (state : bool) : Z := if state then 1 else 0.

(** [get_host_by_name] over [getaddrinfo] and [getnameinfo]: the numeric
    address of the first entry. *)
Definition get_host_by_name {A} (getaddrinfo : str -> list A + Z) (getnameinfo : A -> str + Z) (hostname : str)
    : res str :=
  match getaddrinfo (cstr hostname) with
  | inr _ => Throw RuntimeError
  | inl [] => Trap
  | inl (addr :: _) => match getnameinfo addr with inl s => Ok (cstr s) | inr _ => Throw RuntimeError end
  end.

(** ** The daemon's side ([src/daemon/util.cpp]) *)

Definition hosts_line (o : host_os) (self_addr : str) : str := get_my_hostname o true ++ " "%char :: self_addr.

(** The stream is opened for appending, which creates the file. *)
Definition populate_hosts_file (hosts_file self_addr : str) : M host_os () :=
  let* o := m_get in
  if negb (can_open o hosts_file) then m_throw RuntimeError else
  m_modify (fun o => with_files (<[hosts_file := default [] (text_files o !! hosts_file)]> (text_files o)) o) ;;;
  if negb (can_write o hosts_file) then m_throw RuntimeError else
  m_modify (fun o => with_files
    (<[hosts_file := default [] (text_files o !! hosts_file) ++ hosts_line o self_addr ++ [LF]]> (text_files o)) o).

Definition destroy_hosts_file (hosts_file : str) : M host_os () :=
  m_modify (fun o => with_files (delete hosts_file (text_files o)) o).

(** ** Reading lines *)

(** The lines [getline] yields: the text after the last newline counts only
    if it is not empty. *)
Fixpoint lines_from (acc text : str) : list str :=
  match text with
  | [] => if decide (acc = []) then [] else [acc]
  | c :: text' => if decide (c = LF) then acc :: lines_from [] text' else lines_from (acc ++ [c]) text'
  end.
Definition get_lines (text : str) : list str := lines_from [] text.

Fixpoint take_while (f : ascii -> bool) (s : str) : str :=
  match s with
  | c :: s' => if f c then c :: take_while f s' else []
  | [] => []
  end.

(** [regex_match(line, match, "^(\\S+)\\s+(\\S+)$")]: the two groups. *)
Definition match_line (line : str) : option (str * str) :=
  let host := take_while (fun c => negb (is_space c)) line in
  let rest := drop (length host) line in
  let gap := take_while is_space rest in
  let uri := drop (length gap) rest in
  if bool_decide (host <> []) && bool_decide (gap <> []) && bool_decide (uri <> []) &&
     bool_decide (take_while (fun c => negb (is_space c)) uri = uri)
  then Some (host, uri) else None.

(** ** The client's side ([src/client/preload_util.cpp]) *)

(** The loop of [load_hostfile] over the lines. *)
Fixpoint parse_hosts (lines : list str) : res (list (str * str)) :=
  match lines with
  | [] => Ok []
  | line :: lines' =>
      match match_line line with
      | None => Throw RuntimeError
      | Some h => hosts ← parse_hosts lines'; Ok (h :: hosts)
      end
  end.

Definition load_hostfile (o : host_os) (lfpath : str) : res (list (str * str)) :=
  match text_files o !! lfpath with
  | None => Throw RuntimeError
  | Some text => parse_hosts (get_lines text)
  end.

(** [std::stoi]. *)
Definition stoi (s : str) : res (Z * nat) :=
  '(v, n) ← stol s; if (v <? - 2 ^ 31) || (2 ^ 31 - 1 <? v) then Throw OutOfRange else Ok (v, n).

(** [load_forwarding_map_file]: a later line for a host replaces an earlier
    one; the [int] is converted to [uint64_t]. *)
Fixpoint parse_forwarders (lines : list str) (forwarding_map : gmap str Z) : res (gmap str Z) :=
  match lines with
  | [] => Ok forwarding_map
  | line :: lines' =>
      match match_line line with
      | None => Throw RuntimeError
      | Some (host, v) => '(forwarder, _) ← stoi v; parse_forwarders lines' (<[host := u64 forwarder]> forwarding_map)
      end
  end.

Definition load_forwarding_map_file (text : option str) : res (gmap str Z) :=
  match text with
  | None => Throw RuntimeError
  | Some text => parse_forwarders (get_lines text) ∅
  end.

(** The [while (forwarding_map.size() == 0)] loop of [load_forwarding_map].
    The file may be written while the client waits: [file k] is what the
    [k]-th attempt finds.  [None]: still waiting after [fuel] attempts. *)
Fixpoint wait_forwarding_map (fuel k : nat) (file : nat -> option str) : option (res (gmap str Z)) :=
  match fuel with
  | O => None
  | S f =>
      match load_forwarding_map_file (file k) with
      | Ok m => if decide (m = ∅) then wait_forwarding_map f (S k) file else Some (Ok m)
      | Throw _ => Some (Throw RuntimeError)
      | Trap => Some Trap
      end
  end.

(** The value given to [CTX->fwd_host_id]. *)
Definition load_forwarding_map (o : host_os) (fuel : nat) (file : nat -> option str) : option (res Z) :=
  match wait_forwarding_map fuel 0 file with
  | None => None
  | Some r => Some (m ← r;
      match m !! get_my_hostname o true with
      | None => Throw RuntimeError
      | Some f => Ok f
      end)
  end.

(** [lookup_endpoint]: [lookup uri k] is what the network answers to the
    [k]-th attempt, [None] being an exception.  [retries] attempts are left. *)
Fixpoint lookup_endpoint {E} (lookup : str -> nat -> option E) (uri : str) (attempts retries : nat) : res E :=
  match retries with
  | O => Throw RuntimeError
  | S r => match lookup uri attempts with
           | Some e => Ok e
           | None => lookup_endpoint lookup uri (S attempts) r
           end
  end.
Definition max_retries : nat := 3.

(** The loop of [load_hosts] over the shuffled ids: the addresses placed so
    far and the local id if it was found. *)
Fixpoint lookup_hosts {E} (lookup : str -> nat -> option E) (hosts : list (str * str)) (local_hostname : str)
    (ids : list nat) (addrs : list (option E)) (local_id : option nat) : res (list (option E) * option nat) :=
  match ids with
  | [] => Ok (addrs, local_id)
  | id :: ids' =>
      match hosts !! id with
      | None => Throw OutOfRange
      | Some (hostname, uri) =>
          a ← lookup_endpoint lookup uri 0 max_retries;
          lookup_hosts lookup hosts local_hostname ids' (<[id := Some a]> addrs)
            (match local_id with
             | None => if decide (hostname = local_hostname) then Some id else None
             | Some _ => local_id
             end)
      end
  end.

Definition HOSTS_FILE : str := s_ "LIBGKFS_HOSTS_FILE".
Definition hostfile_path : str := s_ "./gkfs_hosts.txt".

(** [load_hosts]: the addresses given to [CTX->hosts] and the id given to
    [CTX->local_host_id].  [shuffle n] is the order of the ids. *)
Definition load_hosts {E} (o : host_os) (lookup : str -> nat -> option E) (shuffle : nat -> list nat)
    : res (list (option E) * nat) :=
  match load_hostfile o (get_var o HOSTS_FILE hostfile_path) with
  | Throw _ => Throw RuntimeError
  | Trap => Trap
  | Ok hosts =>
      if decide (hosts = []) then Throw RuntimeError else
      '(addrs, local_id) ← lookup_hosts lookup hosts (get_my_hostname o true) (shuffle (length hosts))
        (replicate (length hosts) None) None;
      Ok (addrs, default 0%nat local_id)
  end.

(** ** The line format *)

Definition solid (s : str) : Prop := s <> [] /\ Forall (fun c => is_space c = false) s.
Definition blank (s : str) : Prop := s <> [] /\ Forall (fun c => is_space c = true) s.

Lemma take_while_prefix f s : Forall (fun c => f c = true) (take_while f s).
Proof. induction s as [|c s IH]; cbn; [constructor|]. destruct (f c) eqn:E; by constructor. Qed.

Lemma take_while_drop f s : take_while f s ++ drop (length (take_while f s)) s = s.
Proof. induction s as [|c s IH]; cbn; [done|]. destruct (f c); cbn; [by rewrite IH|done]. Qed.

Lemma take_while_app f a b :
  Forall (fun c => f c = true) a -> (forall c t, b = c :: t -> f c = false) -> take_while f (a ++ b) = a.
Proof.
  intros Ha Hb. induction Ha as [|c a Hc Ha IH]; cbn.
  - destruct b as [|c t]; [done|]. cbn. by rewrite (Hb c t).
  - by rewrite Hc, IH.
Qed.

(** The groups are what the regular expression says: the line is a word,
    white space and another word. *)
Lemma match_line_spec line host uri :
  match_line line = Some (host, uri) <-> exists gap, line = host ++ gap ++ uri /\ solid host /\ blank gap /\ solid uri.
Proof.
  unfold match_line. split.
  - set (h := take_while (fun c => negb (is_space c)) line). set (rest := drop (length h) line).
    set (g := take_while is_space rest). set (u := drop (length g) rest).
    destruct (_ && _ && _ && _) eqn:E; [|done]. intros [= <- <-].
    rewrite !andb_true_iff, !bool_decide_eq_true in E. destruct E as [[[H1 H2] H3] H4].
    exists g. assert (forall s, Forall (fun c => is_space c = false) (take_while (fun c => negb (is_space c)) s)) as Hs.
    { intros s. eapply Forall_impl; [apply take_while_prefix|]. intros c Hc. by apply negb_true_iff in Hc. }
    split; [|split; [split; [done|apply Hs]|split]].
    + unfold g, u, rest, h. by rewrite !take_while_drop.
    + split; [done|apply take_while_prefix].
    + split; [done|]. rewrite <- H4. apply Hs.
  - intros (gap & -> & [Hh1 Hh2] & [Hg1 Hg2] & [Hu1 Hu2]).
    assert (forall s, Forall (fun c => is_space c = false) s -> Forall (fun c => negb (is_space c) = true) s) as Hn.
    { intros s Hs. eapply Forall_impl; [exact Hs|]. by intros c ->. }
    rewrite take_while_app; [|by apply Hn|].
    2:{ intros c t E. destruct gap as [|c' gap]; [done|]. injection E as -> _. apply Forall_cons in Hg2 as [-> _]. done. }
    rewrite drop_app_length, take_while_app; [|done|].
    2:{ intros c t E. destruct uri as [|c' uri]; [done|]. injection E as -> _. by apply Forall_cons in Hu2 as [-> _]. }
    rewrite drop_app_length.
    assert (take_while (fun c => negb (is_space c)) uri = uri) as Eu.
    { rewrite <- (app_nil_r uri) at 1. apply take_while_app; [by apply Hn|done]. }
    by rewrite Eu, !bool_decide_eq_true_2 by done.
Qed.

Lemma solid_no_lf s : Forall (fun c => is_space c = false) s -> LF ∉ s.
Proof. intros H Hin. rewrite Forall_forall in H. by apply H in Hin. Qed.

Lemma lines_line acc l rest : LF ∉ l -> lines_from acc (l ++ LF :: rest) = (acc ++ l) :: lines_from [] rest.
Proof.
  revert acc. induction l as [|c l IH]; intros acc Hl; cbn.
  - by rewrite decide_True, app_nil_r.
  - apply not_elem_of_cons in Hl as [Hc Hl]. rewrite decide_False by done. rewrite IH by done. by rewrite <- app_assoc.
Qed.

(** A file of lines that match is read back line by line. *)
Lemma get_lines_concat ls : Forall (fun l => LF ∉ l) ls -> get_lines (concat ((fun l => l ++ [LF]) <$> ls)) = ls.
Proof.
  unfold get_lines. induction 1 as [|l ls Hl _ IH]; [done|]. csimpl. rewrite <- app_assoc. cbn [app].
  rewrite lines_line by done. by rewrite IH.
Qed.

Lemma parse_hosts_lines hosts :
  Forall (fun h : str * str => solid h.1 /\ solid h.2) hosts ->
  parse_hosts ((fun h => h.1 ++ " "%char :: h.2) <$> hosts) = Ok hosts.
Proof.
  induction 1 as [|[h u] hosts [Hh Hu] _ IH]; [done|]. csimpl.
  rewrite (proj2 (match_line_spec _ h u)); [by rewrite IH|].
  exists [" "%char]. split; [done|]. split; [done|]. split; [|done]. split; [done|by repeat constructor].
Qed.

(** ** Registering *)

(** Daemons on the machines [ds] (name and address) start one after the
    other; they share the file system. *)
Fixpoint register_all (hosts_file : str) (ds : list (str * str)) (o : host_os) : res host_os :=
  match ds with
  | [] => Ok o
  | (name, addr) :: ds' =>
      match populate_hosts_file hosts_file addr (MkHostOS (text_files o) (can_open o) (can_write o) (Some name) (env_var o)) with
      | (Ok _, o') => register_all hosts_file ds' o'
      | (Throw e, _) => Throw e
      | (Trap, _) => Trap
      end
  end.

(** The name a machine registers under. *)
Definition short_name (name : str) : str := get_my_hostname (MkHostOS ∅ (fun _ => true) (fun _ => true) (Some name) (fun _ => None)) true.

Lemma populate_run hosts_file addr o :
  can_open o hosts_file = true -> can_write o hosts_file = true ->
  populate_hosts_file hosts_file addr o =
    (Ok tt, with_files (<[hosts_file := default [] (text_files o !! hosts_file) ++ hosts_line o addr ++ [LF]]> (text_files o)) o).
Proof.
  intros H1 H2. unfold populate_hosts_file, m_bind, m_get, m_modify. rewrite H1, H2. cbn [negb]. cbn.
  by rewrite lookup_insert_eq, insert_insert_eq.
Qed.

Lemma register_all_run hosts_file ds o :
  can_open o hosts_file = true -> can_write o hosts_file = true ->
  exists o', register_all hosts_file ds o = Ok o' /\ env_var o' = env_var o /\
    default [] (text_files o' !! hosts_file) =
      default [] (text_files o !! hosts_file) ++
      concat ((fun l => l ++ [LF]) <$> ((fun h => short_name h.1 ++ " "%char :: h.2) <$> ds)) /\
    (ds <> [] -> is_Some (text_files o' !! hosts_file)).
Proof.
  revert o. induction ds as [|[name addr] ds IH]; intros o H1 H2; cbn [register_all].
  { exists o. cbn. by rewrite app_nil_r. }
  rewrite populate_run by done. cbn [text_files can_open can_write host_name env_var with_files].
  destruct (IH (with_files (<[hosts_file := default [] (text_files o !! hosts_file) ++
    hosts_line (MkHostOS (text_files o) (can_open o) (can_write o) (Some name) (env_var o)) addr ++ [LF]]> (text_files o))
    (MkHostOS (text_files o) (can_open o) (can_write o) (Some name) (env_var o))) H1 H2) as (o' & E & Ev & Et & Hs).
  exists o'. split; [exact E|]. split; [by rewrite Ev|]. cbn [text_files with_files] in Et.
  rewrite lookup_insert_eq in Et. cbn [default from_option id] in Et. split.
  - rewrite Et. csimpl. unfold hosts_line, short_name. cbn [get_my_hostname host_name].
    rewrite <- !app_assoc. done.
  - intros _. destruct ds as [|x ds]; [|by apply Hs]. cbn in E. injection E as <-. cbn. by rewrite lookup_insert_eq; eexists.
Qed.

(** ** Looking up the addresses *)

Section lookups.
Context {E : Type} (lookup : str -> nat -> option E).

(** A lookup succeeds if one of the three attempts does. *)
Lemma lookup_endpoint_spec uri attempts retries e :
  lookup_endpoint lookup uri attempts retries = Ok e <->
  exists k, (k < retries)%nat /\ lookup uri (attempts + k)%nat = Some e /\
    forall j, (j < k)%nat -> lookup uri (attempts + j)%nat = None.
Proof.
  revert attempts. induction retries as [|r IH]; intros attempts; cbn.
  { split; [done|]. intros (k & Hk & _). lia. }
  destruct (lookup uri attempts) as [x|] eqn:Hx.
  - split.
    + intros [= ->]. exists 0%nat. rewrite Nat.add_0_r. split; [lia|]. split; [done|]. intros j Hj. lia.
    + intros (k & _ & Hk & Hj). destruct k as [|k].
      * rewrite Nat.add_0_r in Hk. congruence.
      * specialize (Hj 0%nat ltac:(lia)). rewrite Nat.add_0_r in Hj. congruence.
  - rewrite IH. split.
    + intros (k & Hk & Hl & Hj). exists (S k). rewrite Nat.add_succ_r. split; [lia|]. split; [done|].
      intros [|j] Hjk; [by rewrite Nat.add_0_r|]. rewrite Nat.add_succ_r. apply Hj. lia.
    + intros ([|k] & Hk & Hl & Hj); [rewrite Nat.add_0_r in Hl; congruence|].
      exists k. rewrite Nat.add_succ_r in Hl. split; [lia|]. split; [done|].
      intros j Hjk. specialize (Hj (S j) ltac:(lia)). by rewrite Nat.add_succ_r in Hj.
Qed.

Context (hosts : list (str * str)) (me : str) (addr : str -> E).
Context (Haddr : forall h u, (h, u) ∈ hosts -> lookup_endpoint lookup u 0 max_retries = Ok (addr u)).

Lemma lookup_hosts_run ids addrs local :
  Forall (fun i => i < length hosts)%nat ids -> length addrs = length hosts ->
  exists addrs' local', lookup_hosts lookup hosts me ids addrs local = Ok (addrs', local') /\
    length addrs' = length hosts /\
    (forall i h u, hosts !! i = Some (h, u) ->
       addrs' !! i = if decide (i ∈ ids) then Some (Some (addr u)) else addrs !! i) /\
    (is_Some local -> local' = local) /\
    (local = None -> forall i, local' = Some i -> i ∈ ids /\ hosts.*1 !! i = Some me) /\
    (local' = None -> forall i, i ∈ ids -> hosts.*1 !! i <> Some me).
Proof using Haddr.
  intros Hids. revert addrs local. induction Hids as [|i ids Hi Hids IH]; intros addrs local Hl; cbn [lookup_hosts].
  { exists addrs, local. split; [done|]. split; [done|]. split; [|split; [done|split; [by intros -> ?|]]].
    - intros i h u _. by rewrite decide_False by apply not_elem_of_nil.
    - intros _ i Hin. by apply not_elem_of_nil in Hin. }
  destruct (lookup_lt_is_Some_2 hosts i Hi) as [[h u] Hhu]. rewrite Hhu.
  rewrite (Haddr h u) by (by eapply list_elem_of_lookup_2). cbn [mbind res_bind].
  set (local1 := match local with None => if decide (h = me) then Some i else None | Some _ => local end).
  destruct (IH (<[i := Some (addr u)]> addrs) local1) as (addrs' & local' & E1 & L1 & Ha & Hs & Hn & Hno);
    [by rewrite length_insert|].
  exists addrs', local'. split; [done|]. split; [done|].
  assert (hosts.*1 !! i = Some h) as Hname by (by rewrite list_lookup_fmap, Hhu).
  split; [|split; [|split]].
  - intros j h' u' Hj. rewrite (Ha j h' u' Hj). destruct (decide (j = i)) as [->|Hne].
    + rewrite (decide_True (P := i ∈ i :: ids)) by constructor. rewrite Hhu in Hj. injection Hj as <- <-.
      rewrite list_lookup_insert_eq by lia. by case_decide.
    + rewrite list_lookup_insert_ne by done. rewrite (decide_ext _ (j ∈ i :: ids)); [done|].
      rewrite elem_of_cons. naive_solver.
  - intros [x ->]. apply Hs. by exists x.
  - intros -> j Hj. unfold local1 in *. destruct (decide (h = me)) as [->|].
    + rewrite Hs in Hj by (by eexists). injection Hj as <-. split; [by left|done].
    + destruct (Hn eq_refl j Hj). split; [by right|done].
  - intros Hnone j [->|Hj]%elem_of_cons; [|by apply Hno]. rewrite Hname. intros [= ->].
    unfold local1 in Hs. destruct local as [x|]; [rewrite Hs in Hnone by (by eexists); done|].
    rewrite decide_True in Hs by done. rewrite Hs in Hnone by (by eexists). done.
Qed.

Lemma load_hosts_run o shuffle :
  load_hostfile o (get_var o HOSTS_FILE hostfile_path) = Ok hosts -> hosts <> [] -> get_my_hostname o true = me ->
  (forall n, shuffle n ≡ₚ seq 0 n) ->
  exists local, load_hosts o lookup shuffle = Ok ((fun h => Some (addr h.2)) <$> hosts, local) /\
    (local < length hosts)%nat /\ (me ∈ hosts.*1 -> hosts.*1 !! local = Some me) /\ (me ∉ hosts.*1 -> local = 0%nat).
Proof using Haddr.
  intros Hf Hne Hme Hsh. unfold load_hosts. rewrite Hf, decide_False, Hme by done.
  assert (forall i, i ∈ shuffle (length hosts) <-> (i < length hosts)%nat) as Hin.
  { intros i. rewrite Hsh, elem_of_seq. lia. }
  destruct (lookup_hosts_run (shuffle (length hosts)) (replicate (length hosts) None) None)
    as (addrs & local & -> & Hl & Ha & _ & Hsome & Hnone).
  { apply Forall_forall. intros i. apply Hin. } { apply length_replicate. }
  cbn [mbind res_bind]. exists (default 0%nat local). split.
  { f_equal. f_equal. apply list_eq. intros i. rewrite list_lookup_fmap.
    destruct (hosts !! i) as [[h u]|] eqn:Ei; cbn.
    - rewrite (Ha i h u Ei), decide_True; [done|]. apply Hin. by eapply lookup_lt_Some.
    - apply lookup_ge_None_2. rewrite Hl. by apply lookup_ge_None in Ei. }
  destruct local as [i|]; cbn.
  - destruct (Hsome eq_refl i eq_refl) as [Hi Hme']. split; [by apply Hin|]. split; [done|].
    intros Hno. exfalso. apply Hno. by eapply list_elem_of_lookup_2.
  - split; [destruct hosts; [done|cbn; lia]|]. split; [|done].
    intros (i & Hi)%list_elem_of_lookup. exfalso. apply (Hnone eq_refl i); [|done].
    apply Hin. apply lookup_lt_Some in Hi. by rewrite length_fmap in Hi.
Qed.
End lookups.

(** ** Properties *)

(** Registering and looking up. *)
Lemma daemons_found {E : Type} (lookup : str -> nat -> option E) (addr : str -> E) (ds : list (str * str))
    (o : host_os) (me : str) (shuffle : nat -> list nat) :
  let file := get_var o HOSTS_FILE hostfile_path in
  can_open o file = true -> can_write o file = true -> text_files o !! file = None -> ds <> [] ->
  Forall (fun h : str * str => solid (short_name h.1) /\ solid h.2) ds ->
  (forall h u, (h, u) ∈ ds -> lookup_endpoint lookup u 0 max_retries = Ok (addr u)) ->
  (forall n, shuffle n ≡ₚ seq 0 n) ->
  exists o' local, register_all file ds o = Ok o' /\
    load_hosts (MkHostOS (text_files o') (can_open o') (can_write o') (Some me) (env_var o')) lookup shuffle =
      Ok ((fun h => Some (addr h.2)) <$> ds, local) /\
    (local < length ds)%nat /\
    (short_name me ∈ short_name <$> ds.*1 -> (short_name <$> ds.*1) !! local = Some (short_name me)) /\
    (short_name me ∉ short_name <$> ds.*1 -> local = 0%nat).
Proof.
  intros file H1 H2 Hfresh Hne Hds Haddr Hsh.
  destruct (register_all_run file ds o H1 H2) as (o' & E1 & Ev & Et & Hs).
  set (hosts := (fun h : str * str => (short_name h.1, h.2)) <$> ds).
  set (oc := MkHostOS (text_files o') (can_open o') (can_write o') (Some me) (env_var o')).
  assert (hosts.*1 = short_name <$> ds.*1) as Ehosts.
  { unfold hosts. rewrite <- !list_fmap_compose. done. }
  assert (load_hostfile oc (get_var oc HOSTS_FILE hostfile_path) = Ok hosts) as Hload.
  { unfold load_hostfile. replace (get_var oc HOSTS_FILE hostfile_path) with file
      by (unfold file, get_var, oc; cbn; by rewrite Ev).
    destruct (Hs Hne) as [text Htext]. cbn [text_files oc]. rewrite Htext. rewrite Htext, Hfresh in Et.
    cbn in Et. rewrite Et, get_lines_concat.
    - rewrite <- (parse_hosts_lines hosts).
      + unfold hosts. by rewrite <- list_fmap_compose.
      + unfold hosts. apply Forall_fmap. eapply Forall_impl; [exact Hds|]. by intros [].
    - apply Forall_fmap. eapply Forall_impl; [exact Hds|]. intros [h u] [[_ Hh] [_ Hu]]. cbn.
      intros [Hin|Hin]%elem_of_app; [by apply solid_no_lf in Hh|]. apply elem_of_cons in Hin as [Hin|Hin]; [done|].
      by apply solid_no_lf in Hu. }
  destruct (load_hosts_run lookup hosts (short_name me) addr) with (o := oc) (shuffle := shuffle)
    as (local & El & Hlt & Hl1 & Hl2); [| done| |done|done|].
  { intros h u ([h' u'] & [= -> ->] & Hin)%list_elem_of_fmap. by eapply Haddr. }
  { unfold hosts. by destruct ds. }
  rewrite Ehosts in Hl1, Hl2. unfold hosts in Hlt. rewrite length_fmap in Hlt.
  exists o', local. split; [done|]. split; [|done].
  etransitivity; [exact El|]. unfold hosts. by rewrite <- list_fmap_compose.
Qed.

(** C18. Clients find the daemons: after daemons on the machines [ds] have
    registered in a fresh hosts file, a client on a machine named [me] gets
    the address of every daemon, in the order they registered and whatever
    the order of its lookups; its local id is that of the daemon on its own
    machine, and 0 if there is none. *)
Theorem clients_find_daemons {E : Type} (lookup : str -> nat -> option E) (addr : str -> E) (ds : list (str * str))
    (o : host_os) (me : str) (shuffle : nat -> list nat) :
  let file := get_var o HOSTS_FILE hostfile_path in
  can_open o file = true -> can_write o file = true -> text_files o !! file = None -> ds <> [] ->
  Forall (fun h : str * str => solid (short_name h.1) /\ solid h.2) ds ->
  (forall h u, (h, u) ∈ ds -> lookup_endpoint lookup u 0 max_retries = Ok (addr u)) ->
  (forall n, shuffle n ≡ₚ seq 0 n) ->
  exists o' local, register_all file ds o = Ok o' /\
    load_hosts (MkHostOS (text_files o') (can_open o') (can_write o') (Some me) (env_var o')) lookup shuffle =
      Ok ((fun h => Some (addr h.2)) <$> ds, local) /\
    (short_name me ∈ short_name <$> ds.*1 -> (short_name <$> ds.*1) !! local = Some (short_name me)) /\
    (short_name me ∉ short_name <$> ds.*1 -> local = 0%nat).
Proof.
  intros file H1 H2 Hfresh Hne Hds Haddr Hsh.
  destruct (daemons_found lookup addr ds o me shuffle H1 H2 Hfresh Hne Hds Haddr Hsh) as (o' & local & E1 & E2 & _ & E3).
  by exists o', local.
Qed.

Definition fresh_os : host_os := MkHostOS ∅ (fun _ => true) (fun _ => true) None (fun _ => None).
Definition two_daemons : list (str * str) := [(s_ "n1.cluster", s_ "tcp://10.0.0.1"); (s_ "n2", s_ "tcp://10.0.0.2")].

Lemma clients_find_daemons_witness :
  exists o' local, register_all hostfile_path two_daemons fresh_os = Ok o' /\
    load_hosts (MkHostOS (text_files o') (can_open o') (can_write o') (Some (s_ "n2.cluster")) (env_var o'))
      (fun u k => if (1 <=? k)%nat then Some u else None) (fun n => reverse (seq 0 n)) =
      Ok ((fun h => Some (h.2)) <$> two_daemons, local) /\
    (short_name (s_ "n2.cluster") ∈ short_name <$> two_daemons.*1 ->
       (short_name <$> two_daemons.*1) !! local = Some (short_name (s_ "n2.cluster"))) /\
    (short_name (s_ "n2.cluster") ∉ short_name <$> two_daemons.*1 -> local = 0%nat).
Proof.
  apply (clients_find_daemons (fun u k => if (1 <=? k)%nat then Some u else None) (fun u => u) two_daemons fresh_os
    (s_ "n2.cluster") (fun n => reverse (seq 0 n))).
  - reflexivity.
  - reflexivity.
  - reflexivity.
  - discriminate.
  - repeat constructor; try discriminate; apply (bool_decide_unpack _); vm_compute; reflexivity.
  - intros h u _. reflexivity.
  - intros n. apply reverse_Permutation.
Defined.

(** The client waits for the forwarding map: while every attempt finds
    a file without entries it keeps waiting, and the first attempt that finds
    entries ends the wait with them; a file that is missing or malformed ends
    it with an exception. *)
Theorem forwarding_map_awaited (file : nat -> option str) (k fuel : nat) :
  (forall j, (j < k)%nat -> load_forwarding_map_file (file j) = Ok ∅) ->
  ((fuel <= k)%nat -> wait_forwarding_map fuel 0 file = None) /\
  ((k < fuel)%nat ->
     (forall m, load_forwarding_map_file (file k) = Ok m -> m <> ∅ -> wait_forwarding_map fuel 0 file = Some (Ok m)) /\
     (forall e, load_forwarding_map_file (file k) = Throw e -> wait_forwarding_map fuel 0 file = Some (Throw RuntimeError))).
Proof.
  assert (forall i fuel, (forall j, (j < k)%nat -> load_forwarding_map_file (file j) = Ok ∅) -> (i <= k)%nat ->
    (((fuel + i) <= k)%nat -> wait_forwarding_map fuel i file = None) /\
    ((k < fuel + i)%nat ->
     (forall m, load_forwarding_map_file (file k) = Ok m -> m <> ∅ -> wait_forwarding_map fuel i file = Some (Ok m)) /\
     (forall e, load_forwarding_map_file (file k) = Throw e -> wait_forwarding_map fuel i file = Some (Throw RuntimeError)))) as H.
  { clear fuel. intros i fuel Hempty. revert i. induction fuel as [|f IH]; intros i Hi; cbn [wait_forwarding_map].
    { split; [done|]. intros. lia. }
    destruct (decide (i = k)) as [->|Hne].
    - split; [intros; lia|]. intros _. split.
      + intros m -> Hm. by rewrite decide_False.
      + by intros e ->.
    - rewrite (Hempty i) by lia. rewrite decide_True by done. specialize (IH (S i) ltac:(lia)).
      by rewrite Nat.add_succ_r in IH. }
  intros Hempty. specialize (H 0%nat fuel Hempty ltac:(lia)). by rewrite Nat.add_0_r in H.
Qed.

Lemma forwarding_map_awaited_witness :
  wait_forwarding_map 5 0 (fun j => Some (if (j <? 2)%nat then [] else s_ "n1 3")) = Some (Ok {[ s_ "n1" := 3 ]}).
Proof.
  refine (proj1 (proj2 (forwarding_map_awaited (fun j => Some (if (j <? 2)%nat then [] else s_ "n1 3")) 2 5 _) _) _ _ _).
  - intros j Hj. destruct j as [|[|j]]; [reflexivity|reflexivity|lia].
  - lia.
  - vm_compute. reflexivity.
  - discriminate.
Defined.
