(* ===== verification/Logging.v ===== *)
(** * The client's log ([include/client/logging.hpp],
    [src/client/logging.cpp], [init_logging] of [preload_context.cpp])

    The logger keeps a mask of the kinds of messages to print, the
    descriptor to print to, and in debug builds the system calls not to
    trace.  Messages are composed in a buffer of fixed size and written with
    one system call that is not intercepted; the model keeps what is written
    in the order of the writes.  The clock, the number of the thread, the
    time zone data base and the registration of callbacks in Hermes are
    parameters or recorded. *)

From S2P Require Import Prelude Config SyscallInfo Decoder HostFile.

(** ** Levels *)

Module Level.
Definition print_syscalls := Z.shiftl 1 0.
Definition print_syscalls_entry := Z.shiftl 1 1.
Definition print_info := Z.shiftl 1 2.
Definition print_critical := Z.shiftl 1 3.
Definition print_errors := Z.shiftl 1 4.
Definition print_warnings := Z.shiftl 1 5.
Definition print_hermes := Z.shiftl 1 6.
Definition print_mercury := Z.shiftl 1 7.
Definition print_debug := Z.shiftl 1 8.
Definition print_none := 0.
Definition print_all :=
  Z.lor print_syscalls (Z.lor print_syscalls_entry (Z.lor print_info (Z.lor print_critical
    (Z.lor print_errors (Z.lor print_warnings (Z.lor print_hermes (Z.lor print_mercury print_debug))))))).
Definition print_most := Z.land print_all (Z.lnot print_syscalls_entry).
Definition print_help := Z.shiftl 1 10.
End Level.

(** [!!(l1 & l2)] *)
Definition level_in (l mask : Z) : bool := negb (Z.land l mask =? 0).

Definition level_names : list str :=
  [s_ "syscall"; s_ "syscall"; s_ "info"; s_ "critical"; s_ "error"; s_ "warning"; s_ "hermes"; s_ "mercury";
   s_ "debug"].

(** [__builtin_ctz]: the number of trailing zeros. *)
Fixpoint ctz_pos (p : positive) : nat := match p with xO p => S (ctz_pos p) | _ => 0%nat end.
Definition ctz (l : Z) : nat := match l with Zpos p => ctz_pos p | Zneg p => ctz_pos p | Z0 => 32%nat end.

Definition lookup_level_name (l : Z) : res str :=
  assert_ (negb (l =? Level.print_none) && negb (l =? Level.print_help))
  (match level_names !! ctz l with Some n => Ok n | None => Trap end).

(** ** Options *)

Record opt_info := MkOpt { o_name : str; o_help : list str; o_mask : Z }.

(** [opt_info{STR_AND_LEN(name), help, mask}]; at most 8 rows of help. *)
Definition OPT (name : string) (help : list string) (mask : Z) : opt_info := MkOpt (s_ name) (s_ <$> help) mask.
Arguments OPT _%_string _%_string _.

Definition debug_opts (debug_build : bool) : list opt_info :=
  [OPT "none" ["don't print any messages"] Level.print_none] ++
  (if debug_build then
    [OPT "syscalls"
      ["Trace system calls: print the name of each system call,";
       "its arguments, and its return value. All system calls are";
       "printed after being executed save for those that may not";
       "return, such as execve() and execve_at()"; "[ default: off ]"] Level.print_syscalls;
     OPT "syscalls_at_entry"
      ["Trace system calls: print the name of each system call";
       "and its arguments. All system calls are printed before ";
       "being executed and therefore their return values are not"; "available in the log"; "[ default: off ]"]
      Level.print_syscalls_entry] else []) ++
  [OPT "info" ["Print information messages"; "[ default: on  ]"] Level.print_info;
   OPT "critical" ["Print critical errors"; "[ default: on  ]"] Level.print_critical;
   OPT "errors" ["Print errors"; "[ default: on  ]"] Level.print_errors;
   OPT "warnings" ["Print warnings"; "[ default: on  ]"] Level.print_warnings;
   OPT "hermes" ["Print messages from Hermes (GekkoFS high-level RPC library)"; "[ default: on ]"]
     Level.print_hermes;
   OPT "mercury" ["Print messages from Mercury (GekkoFS low-level RPC library)"; "[ default: on ]"]
     Level.print_mercury] ++
  (if debug_build then
    [OPT "debug" ["Print debug messages"; "[ default: off ]"] Level.print_debug;
     OPT "most" ["All previous options except 'syscalls_at_entry' combined."] Level.print_most] else []) ++
  [OPT "all" ["All previous options combined."] Level.print_all;
   OPT "help" ["Print this help message and exit."] Level.print_help].

Definition max_debug_opt_length : nat := length (s_ "syscalls_at_entry").

(** [boost::split] without compression: a separator ends a token, also an
    empty one. *)
Fixpoint split_on (f : ascii -> bool) (acc s : str) : list str :=
  match s with
  | [] => [acc]
  | c :: s' => if f c then acc :: split_on f [] s' else split_on f (acc ++ [c]) s'
  end.
Definition blank_or_comma (c : ascii) : bool := bool_decide (c = " "%char) || bool_decide (c = ","%char).
Definition tokens_of (s : str) : list str := split_on blank_or_comma [] s.

(** With [token_compress_on] adjacent separators count as one. *)
Fixpoint split_compress (f : ascii -> bool) (acc s : str) : list str :=
  match s with
  | [] => [acc]
  | c :: s' =>
      if f c then
        match s' with
        | c' :: _ => if f c' then split_compress f acc s' else acc :: split_compress f [] s'
        | [] => [acc; []]
        end
      else split_compress f (acc ++ [c]) s'
  end.

(** Levels of [hermes::log]. *)
Inductive hermes_level := h_info | h_warning | h_error | h_fatal | h_mercury | h_debug.

Definition hermes_level_name (l : hermes_level) : str :=
  match l with
  | h_info => s_ "info" | h_warning => s_ "warning" | h_error => s_ "error" | h_fatal => s_ "fatal"
  | h_mercury => s_ "mercury" | _ => s_ "unknown"
  end.

(** The value of [LIBGKFS_LOG_OUTPUT_TRUNC], compared with the null
    character. *)
Definition log_trunc (trunc_val : str) : bool :=
  negb (negb (bool_decide (trunc_val = [])) && bool_decide (front trunc_val = NUL)).

(** ** State *)

Section logging.
Context {TZ : Type}.
(** [GKFS_ENABLE_LOGGING], [GKFS_DEBUG_BUILD], [LIBGKFS_LOG_MESSAGE_SIZE] *)
Context (enable_logging debug_build : bool) (max_buffer_size : nat).
(** [gettimeofday] in microseconds, [None] for an error; [gettid]; how a
    time zone prints a time; C strings in memory; [strerror_r]. *)
Context (now : option Z) (ttid : Z) (zoned : TZ -> Z -> str) (string_at : Z -> str) (errno_message : Z -> str).

Record logger := MkLogger {
  log_fd_ : Z;
  log_mask_ : Z;
  filtered_syscalls_ : Z;      (* bitset<512> *)
  debug_verbosity_ : Z;
  timezone_ : option TZ
}.

(** What was written, to which descriptor; the global logger; the levels of
    Hermes that call back; the descriptors that were closed. *)
Record state := MkState {
  written : list (Z * str);
  global_logger : option logger;
  callbacks : list hermes_level;
  closed_fds : list Z
}.

Local Abbreviation P := (M state).
Local Abbreviation put := (put max_buffer_size).

Definition sys_write (fd : Z) (b : str) : P () :=
  m_modify (fun s => MkState (written s ++ [(fd, b)]) (global_logger s) (callbacks s) (closed_fds s)).

Definition set_logger (l : option logger) : P () :=
  m_modify (fun s => MkState (written s) l (callbacks s) (closed_fds s)).

Definition with_mask (m : Z) (l : logger) : logger :=
  MkLogger (log_fd_ l) m (filtered_syscalls_ l) (debug_verbosity_ l) (timezone_ l).

(** [static_buffer::grow]: tracing is disabled and the process aborted. *)
Definition grow {A} : P A :=
  let* l := m_gets global_logger in
  (match l with
   | Some l => set_logger (Some (with_mask (Z.land (log_mask_ l)
       (Z.lnot (Z.lor Level.print_syscalls Level.print_syscalls_entry))) l))
   | None => m_ret tt
   end) ;;;
  sys_write 2 (s_ "FATAL: message too long for gkfs::log::static_buffer, increase the size of" ++ [LF] ++
               s_ "LIBGKFS_LOG_MESSAGE_SIZE in CMake or reduce the length of the offending " ++
               s_ "message." ++ [LF]) ;;;
  m_trap.

(** A message composed in a [static_buffer]. *)
Definition compose (f : fmtr) : P str :=
  match f [] with
  | Ok b => m_ret b
  | Throw e => m_throw e
  | Trap => grow
  end.

Definition log_buffer (fd : Z) (b : str) : P () :=
  if fd <? 0 then m_throw RuntimeError else sys_write fd b.

Definition STDOUT : Z := 1.
Definition STDERR : Z := 2.

Definition log_message (fd : Z) (t : str) : P () :=
  if fd <? 0 then m_throw RuntimeError else
  let* b := compose (put t >-> put [LF]) in log_buffer fd b.

(** ** Prefixes *)

Definition format_timestamp_to (timezone : option TZ) : fmtr :=
  match now with
  | None => nothing
  | Some us =>
      match timezone with
      | None => put (s_ "[" ++ to_string_s us ++ s_ "] ")
      | Some z => put (s_ "[" ++ zoned z us ++ s_ "] ")
      end
  end.

Definition format_syscall_info_to (info : Z) : fmtr :=
  put (s_ "[" ++ to_string_s ttid ++ s_ "] [syscall] ") >->
  let o := if Info.origin info =? Info.from_internal_code then "i"%char
           else if Info.origin info =? Info.from_external_code then "a"%char else "?"%char in
  let t := if Info.target info =? Info.to_hook then "h"%char
           else if Info.target info =? Info.to_kernel then "k"%char else "?"%char in
  put ["["%char; o; t; "]"%char; " "%char].

Definition level_prefix (name : str) : fmtr :=
  put (s_ "[" ++ to_string_s ttid ++ s_ "] [" ++ name ++ s_ "] ").

(** ** Messages *)

(** [text] is the message formatted with its arguments. *)
Definition log (lg : logger) (level : Z) (func : str) (lineno : Z) (text : str) : P () :=
  if negb (level_in level (log_mask_ lg)) then m_ret tt else
  let* name := m_lift (lookup_level_name level) in
  let* b := compose (format_timestamp_to (timezone_ lg) >-> level_prefix name >->
                     (if level_in level Level.print_debug
                      then put (s_ "<" ++ func ++ s_ "():" ++ to_string_s lineno ++ s_ "> ") else nothing) >->
                     put text >-> put [LF]) in
  log_buffer (log_fd_ lg) b.

(** The macros [LOG_INFO], ... and [LOG_DEBUG]. *)
Definition LOG (level : Z) (func : str) (lineno : Z) (text : str) : P () :=
  if negb enable_logging || (bool_decide (level = Level.print_debug) && negb debug_build) then m_ret tt else
  let* l := m_gets global_logger in
  match l with None => m_ret tt | Some l => log l level func lineno text end.

(** The views of one line, written one by one; the number of bytes. *)
Fixpoint log_buffer_views (fd : Z) (bs : list str) : P Z :=
  match bs with
  | [] => m_ret 0
  | b :: bs' => log_buffer fd b ;;; let* n := log_buffer_views fd bs' in m_ret (Z.of_nat (length b) + n)
  end.

(** The loop over the lines of the C string at [addr] of [buffer]. *)
Fixpoint log_lines (fuel : nat) (fd : Z) (prefix buffer : str) (addr : nat) (m : Z) : P (nat * Z) :=
  match fuel with
  | O => m_trap
  | S fuel =>
      match find_from LF (cstr (drop addr buffer)) with
      | None => m_ret (addr, m)
      | Some p =>
          let* n := log_buffer_views fd [prefix; substr buffer addr (S p)] in
          log_lines fuel fd prefix buffer (addr + S p) (m + n)
      end
  end.

(** [log(level, fmt, ap)]: [text] is what [vsnprintf] formats; it stores as
    much of it as fits, with a null character, and returns its length.
    [rest] is the uninitialised end of the array.  Reading [buffer[n - 1]]
    outside the array is undefined. *)
Definition vlog (lg : logger) (level : Z) (text rest : str) : P Z :=
  if negb (level_in level (log_mask_ lg)) then m_ret 0 else
  let* name := m_lift (lookup_level_name level) in
  let* prefix := compose (format_timestamp_to None >-> level_prefix name) in
  let buffer := take (max_buffer_size - 1) text ++ NUL :: rest in
  let n := length text in
  let* r := log_lines (S max_buffer_size) (log_fd_ lg) prefix buffer 0 0 in
  let '(addr, m) := r in
  if (n =? 0)%nat || (max_buffer_size <? n)%nat then m_trap else
  if decide (buffer !! (n - 1)%nat = Some LF) then m_ret m else
  let* k := log_buffer_views (log_fd_ lg) [prefix; substr buffer addr (n - addr); [LF]] in
  m_ret (m + k).

(** ** Options *)

Definition LOG_VAR : str := s_ "LIBGKFS_LOG".
Definition LOG_OUTPUT_VAR : str := s_ "LIBGKFS_LOG_OUTPUT".

Definition unknown_option (t : str) : str :=
  s_ "warning: logging option '" ++ t ++ s_ "' unknown; try " ++ LOG_VAR ++ s_ "=help".

(** The loop over the tokens; [None] is the [return log::none]. *)
Fixpoint option_loop (tokens : list str) (dm : Z) : P (option Z) :=
  match tokens with
  | [] => m_ret (Some dm)
  | t :: ts =>
      if decide (t = s_ "none") then m_ret None else
      match list_find (fun o => t = o_name o) (debug_opts debug_build) with
      | Some (_, o) => option_loop ts (Z.lor dm (o_mask o))
      | None => log_message STDOUT (unknown_option t) ;;; option_loop ts dm
      end
  end.

Definition spaces (n : nat) : str := replicate n " "%char.

Fixpoint print_rows (rows : list str) : P () :=
  match rows with
  | [] => m_ret tt
  | r :: rows => log_message STDOUT (s_ "  " ++ spaces (max_debug_opt_length + 2) ++ r) ;;; print_rows rows
  end.

Fixpoint print_opts (opts : list opt_info) : P () :=
  match opts with
  | [] => m_ret tt
  | o :: opts =>
      log_message STDOUT (s_ "  " ++ o_name o ++ spaces (max_debug_opt_length - length (o_name o) + 2) ++
                          default [] (head (o_help o))) ;;;
      print_rows (tail (o_help o)) ;;;
      log_message STDOUT [] ;;;
      print_opts opts
  end.

Definition print_usage : P () :=
  log_message STDOUT (s_ "Valid options for the " ++ LOG_VAR ++ s_ " environment variable are:" ++ [LF]) ;;;
  print_opts (debug_opts debug_build) ;;;
  log_message STDOUT ([LF] ++ s_ "To direct the logging output into a file instead of standard output" ++ [LF] ++
    s_ "a filename can be specified using the " ++ LOG_OUTPUT_VAR ++ s_ " environment variable.").

Definition process_log_options (gkfs_debug : str) : P Z :=
  if negb enable_logging then
    log_message STDOUT (s_ "warning: logging options ignored: logging support was disabled in this build") ;;;
    m_ret Level.print_none
  else
    let* dm := option_loop (tokens_of gkfs_debug) Level.print_none in
    match dm with
    | None => m_ret Level.print_none
    | Some dm =>
        if level_in dm Level.print_help then print_usage ;;; m_throw (Exit 0) else m_ret dm
    end.

(** [bitset<512>::set] throws out of range. *)
Definition bitset_set (b pos : Z) : res Z := if 512 <=? pos then Throw OutOfRange else Ok (Z.setbit b pos).

Fixpoint filter_loop (tokens : list str) (filtered : Z) : P Z :=
  match tokens with
  | [] => m_ret filtered
  | t :: ts =>
      let* sc := m_lift (lookup_by_name t) in
      if decide (s_name sc = Some (s_ "unknown_syscall")) then
        log_message STDOUT (s_ "warning: system call '" ++ t ++ s_ "' unknown; will not filter") ;;;
        filter_loop ts filtered
      else let* filtered := m_lift (bitset_set filtered (s_nr sc)) in filter_loop ts filtered
  end.

Definition process_log_filter (log_filter : str) : P Z :=
  if decide (log_filter = []) then m_ret 0 else filter_loop (tokens_of log_filter) 0.

(** ** Hermes *)

Definition log_hermes_message (msg : str) (l : hermes_level) : P () :=
  LOG Level.print_hermes [] 0 (s_ "[" ++ hermes_level_name l ++ s_ "] " ++ msg).

Definition log_hermes_debug_message (this : logger) (msg : str) (severity : Z) (func : str) (lineno : Z) : P () :=
  if debug_verbosity_ this <? severity then m_ret tt else
  LOG Level.print_hermes [] 0
    (s_ "[debug" ++ (if severity =? 0 then [] else to_string_s (severity + 1)) ++ s_ "] <" ++ func ++ s_ "():" ++
     to_string_s lineno ++ s_ "> " ++ msg).

Fixpoint log_hg_lines (ms : list str) : P () :=
  match ms with
  | [] => m_ret tt
  | m :: ms => (if decide (m = []) then m_ret tt else LOG Level.print_mercury [] 0 m) ;;; log_hg_lines ms
  end.

Definition log_hg_message (msg : str) : P () :=
  log_hg_lines (split_compress (fun c => bool_decide (c = LF)) [] msg).

Definition register_callback (l : hermes_level) : P () :=
  m_modify (fun s => MkState (written s) (global_logger s) (callbacks s ++ [l]) (closed_fds s)).

Definition register_callbacks : P () :=
  register_callback h_info ;;;
  register_callback h_warning ;;;
  register_callback h_error ;;;
  register_callback h_fatal ;;;
  (if debug_build then register_callback h_debug else m_ret tt) ;;;
  register_callback h_mercury.

(** ** The logger *)

(** [open_log path flags] is the result of [open(path, flags, 0600)];
    [zone] is the current time zone, if its initialisation does not throw. *)
Definition new_logger (open_log : str -> Z -> Z) (zone : option TZ) (opts path : str) (trunc : bool)
    (filter_ : str) (verbosity : Z) : P logger :=
  let* mask := process_log_options opts in
  let* filtered := (if debug_build then process_log_filter filter_ else m_ret 0) in
  let verb := if debug_build then verbosity else 0 in
  let opened := if decide (path = []) then Some STDERR else
    let flags := Z.lor O_CREAT (Z.lor O_RDWR (Z.lor O_APPEND O_TRUNC)) in
    let flags := if trunc then flags else Z.land flags (Z.lnot O_TRUNC) in
    let fd := open_log path flags in
    if fd =? -1 then None else Some fd in
  match opened with
  | None =>
      let this := MkLogger STDERR mask filtered verb None in
      log this Level.print_errors (s_ "logger") 0
        (s_ "Failed to open log file '" ++ path ++ s_ "'. Logging will fall back to stderr") ;;;
      m_ret this
  | Some fd =>
      (if enable_logging then register_callbacks else m_ret tt) ;;;
      m_ret (MkLogger fd mask filtered verb zone)
  end.

(** [~logger], when the shared pointer to it is dropped. *)
Definition release_logger : P () :=
  let* l := m_gets global_logger in
  match l with
  | None => m_ret tt
  | Some l => m_modify (fun s => MkState (written s) (global_logger s) (callbacks s) (closed_fds s ++ [log_fd_ l]))
  end.

Definition create_global_logger (open_log : str -> Z -> Z) (zone : option TZ) (opts path : str) (trunc : bool)
    (filter_ : str) (verbosity : Z) : P () :=
  let* l := new_logger open_log zone opts path trunc filter_ verbosity in
  release_logger ;;;
  set_logger (Some l).

Definition destroy_global_logger : P () := release_logger ;;; set_logger None.

(** [std::atoi]: 0 when there is no number. *)
Definition atoi (s : str) : Z :=
  match scan_number (cstr s) with Some (neg, v, _) => i32 (if neg then - v else v) | None => 0 end.

Definition client_log_level : str := s_ "info,errors,critical,hermes".
Definition client_log_path : str := s_ "/tmp/gkfs_client.log".

Definition init_logging (o : host_os) (open_log : str -> Z -> Z) (zone : option TZ) : P () :=
  let log_opts := get_var o LOG_VAR client_log_level in
  let log_output := get_var o LOG_OUTPUT_VAR client_log_path in
  let log_verbosity := atoi (get_var o (s_ "LIBGKFS_LOG_DEBUG_VERBOSITY") (s_ "0")) in
  let log_filter := get_var o (s_ "LIBGKFS_LOG_SYSCALL_FILTER") [] in
  let trunc_val := get_var o (s_ "LIBGKFS_LOG_OUTPUT_TRUNC") [] in
  create_global_logger open_log zone log_opts log_output (log_trunc trunc_val) log_filter log_verbosity.

(** ** Tracing system calls *)

(** [filtered_syscalls_[n]] is undefined outside the set. *)
Definition bitset_at (b n : Z) : res bool := if (n <? 0) || (512 <=? n) then Trap else Ok (Z.testbit b n).

Definition log_syscall (lg : logger) (info syscall_number : Z) (args : list Z) (result : option Z) : P () :=
  let log_syscall_entry := level_in Level.print_syscalls_entry (log_mask_ lg) in
  let log_syscall_result := level_in Level.print_syscalls (log_mask_ lg) in
  if negb log_syscall_entry && negb log_syscall_result then m_ret tt else
  let* filtered := (if debug_build then m_lift (bitset_at (filtered_syscalls_ lg) syscall_number) else m_ret false) in
  if (filtered : bool) then m_ret tt else
  let print_syscall :=
    let* b := compose (format_timestamp_to (timezone_ lg) >-> format_syscall_info_to info >->
                       match result with
                       | Some r => decode_result max_buffer_size string_at errno_message syscall_number args r
                       | None => decode_entry max_buffer_size string_at syscall_number args
                       end >-> put [LF]) in
    sys_write (log_fd_ lg) b in
  if info =? Info.unknown then print_syscall
  else if may_not_return syscall_number || never_returns syscall_number then print_syscall
  else if log_syscall_entry && Info.execution_is_pending info then print_syscall
  else if log_syscall_result && negb (Info.execution_is_pending info) then print_syscall
  else m_ret tt.

(** [LOG_SYSCALL] is empty outside debug builds. *)
Definition LOG_SYSCALL (info syscall_number : Z) (args : list Z) (result : option Z) : P () :=
  if negb enable_logging || negb debug_build then m_ret tt else
  let* l := m_gets global_logger in
  match l with None => m_ret tt | Some l => log_syscall l info syscall_number args result end.

(** The points of [intercept.cpp] that trace a call: [hook] and
    [hook_internal] before and after they serve it; when it is forwarded, the
    information they leave for [hook_forwarded_syscall], which traces its
    result. *)
Definition trace_hooked (origin syscall_number : Z) (args : list Z) (result : Z) : P () :=
  LOG_SYSCALL (Z.lor origin (Z.lor Info.to_hook Info.not_executed)) syscall_number args None ;;;
  LOG_SYSCALL (Z.lor origin (Z.lor Info.to_hook Info.executed)) syscall_number args (Some result).

Definition trace_forwarded (origin syscall_number : Z) (args : list Z) (result : Z) : P () :=
  LOG_SYSCALL (Z.lor origin (Z.lor Info.to_hook Info.not_executed)) syscall_number args None ;;;
  let saved_syscall_info := Z.lor origin (Z.lor Info.to_kernel Info.not_executed) in
  LOG_SYSCALL (Z.lor saved_syscall_info Info.executed) syscall_number args (Some result).
End logging.

(** ** What is written *)

Section behaviour.
Context {TZ : Type} (max_buffer_size : nat).
Local Abbreviation St := (state (TZ := TZ)).

(** The state after some writes. *)
Definition wrote (ms : list (Z * str)) (s : St) : St := MkState (written s ++ ms) (global_logger s) (callbacks s) (closed_fds s).

Lemma wrote_nil s : wrote [] s = s.
Proof. unfold wrote. rewrite app_nil_r. by destruct s. Qed.

Lemma wrote_wrote ms ns s : wrote ns (wrote ms s) = wrote (ms ++ ns) s.
Proof. unfold wrote. cbn. by rewrite (assoc_L (++)). Qed.

Lemma sys_write_run fd b s : sys_write fd b s = (Ok tt, wrote [(fd, b)] s).
Proof. done. Qed.

Lemma log_buffer_run fd b s : 0 <= fd -> log_buffer fd b s = (Ok tt, wrote [(fd, b)] s).
Proof. intros H. unfold log_buffer. by rewrite (proj2 (Z.ltb_ge _ _)). Qed.

(** A formatter that appends a text that fits composes it. *)
Lemma compose_run f t (s : St) :
  appends max_buffer_size f t -> (length t <= max_buffer_size)%nat -> compose f s = (Ok t, s).
Proof.
  intros Hf Hl. unfold compose. rewrite Hf by (simpl; lia). unfold put. cbn [length app].
  by rewrite (proj2 (Nat.leb_le _ _)) by (simpl; lia).
Qed.

Lemma log_message_run fd t s : 0 <= fd -> (length t < max_buffer_size)%nat ->
  log_message max_buffer_size fd t s = (Ok tt, wrote [(fd, t ++ [LF])] s).
Proof.
  intros Hfd Hl. unfold log_message. rewrite (proj2 (Z.ltb_ge _ _)) by done.
  erewrite m_bind_ok; [by apply log_buffer_run|]. apply compose_run.
  - apply appends_then; apply appends_put.
  - rewrite length_app. simpl. lia.
Qed.

(** *** Options *)

Section options.
Context (debug_build : bool).

Definition known (t : str) : option opt_info := snd <$> list_find (fun o => t = o_name o) (debug_opts debug_build).

Definition option_mask (ts : list str) : Z :=
  foldr (fun t m => Z.lor (from_option o_mask 0 (known t)) m) 0 ts.

Definition warnings (ts : list str) : list (Z * str) :=
  omap (fun t => match known t with Some _ => None | None => Some (STDOUT, unknown_option t ++ [LF]) end) ts.

Definition fits (t : str) : Prop := (length t < max_buffer_size)%nat.

Lemma option_loop_run ts : Forall (fun t => fits (unknown_option t)) ts -> s_ "none" ∉ ts ->
  forall dm s, option_loop debug_build max_buffer_size ts dm s =
    (Ok (Some (Z.lor dm (option_mask ts))), wrote (warnings ts) s).
Proof.
  induction 1 as [|t ts Ht _ IH]; intros Hn dm s; [by rewrite wrote_nil; cbn; rewrite Z.lor_0_r|].
  apply not_elem_of_cons in Hn as [Hn1 Hn2]. cbn [option_loop option_mask foldr warnings omap list_omap].
  rewrite decide_False by done. unfold known. destruct (list_find _ _) as [[i o]|]; cbn [fmap option_fmap option_map from_option snd].
  - rewrite IH by done. by rewrite Z.lor_assoc.
  - erewrite m_bind_ok by by apply log_message_run. rewrite IH, wrote_wrote, Z.lor_0_l by done. done.
Qed.

Lemma option_loop_none ts : Forall (fun t => fits (unknown_option t)) ts -> s_ "none" ∈ ts ->
  forall dm s, exists ms, option_loop debug_build max_buffer_size ts dm s = (Ok None, wrote ms s).
Proof.
  induction 1 as [|t ts Ht _ IH]; intros Hn dm s; [by apply not_elem_of_nil in Hn|]. cbn [option_loop].
  destruct (decide (t = s_ "none")) as [|Hne]; [exists []; by rewrite wrote_nil|].
  apply elem_of_cons in Hn as [?|Hn]; [done|]. destruct (list_find _ _) as [[i o]|]; [by apply IH|].
  erewrite m_bind_ok by by apply log_message_run. edestruct (IH Hn) as [ms ->]. rewrite wrote_wrote. by eexists.
Qed.

Lemma print_rows_run rows : Forall (fun r => fits (s_ "  " ++ spaces (max_debug_opt_length + 2) ++ r)) rows ->
  forall s, exists ms, print_rows max_buffer_size rows s = (Ok tt, wrote ms s).
Proof.
  induction 1 as [|r rows Hr _ IH]; intros s; cbn [print_rows]; [exists []; by rewrite wrote_nil|].
  erewrite m_bind_ok by by apply log_message_run. edestruct IH as [ms ->]. rewrite wrote_wrote. by eexists.
Qed.

Definition opt_fits (o : opt_info) : Prop :=
  fits (s_ "  " ++ o_name o ++ spaces (max_debug_opt_length - length (o_name o) + 2) ++ default [] (head (o_help o))) /\
  Forall (fun r => fits (s_ "  " ++ spaces (max_debug_opt_length + 2) ++ r)) (tail (o_help o)).

Lemma print_opts_run opts : (0 < max_buffer_size)%nat -> Forall opt_fits opts ->
  forall s, exists ms, print_opts max_buffer_size opts s = (Ok tt, wrote ms s).
Proof.
  intros Hm. induction 1 as [|o opts [Ho Hr] _ IH]; intros s; cbn [print_opts]; [exists []; by rewrite wrote_nil|].
  erewrite m_bind_ok by by apply log_message_run. edestruct (print_rows_run _ Hr) as [ms E]. erewrite m_bind_ok by exact E.
  erewrite m_bind_ok by by apply log_message_run. edestruct IH as [ms' ->]. rewrite !wrote_wrote. by eexists.
Qed.

Lemma opts_fit : (200 <= max_buffer_size)%nat -> Forall opt_fits (debug_opts debug_build).
Proof.
  intros Hm. assert (forall t, (length t <=? 199)%nat = true -> fits t) as H.
  { intros t Ht. apply Nat.leb_le in Ht. unfold fits. lia. }
  destruct debug_build; repeat constructor; apply H; by vm_compute.
Qed.

Lemma print_usage_run s : (200 <= max_buffer_size)%nat ->
  exists ms, print_usage debug_build max_buffer_size s = (Ok tt, wrote ms s).
Proof.
  intros Hm. unfold print_usage.
  erewrite m_bind_ok; [|apply log_message_run; [done|]; eapply Nat.lt_le_trans; [|exact Hm]; apply Nat.ltb_lt; by vm_compute].
  edestruct print_opts_run as [ms E]; [|by apply opts_fit|]; [lia|]. erewrite m_bind_ok by exact E.
  rewrite log_message_run; [|done|eapply Nat.lt_le_trans; [|exact Hm]; apply Nat.ltb_lt; by vm_compute].
  rewrite !wrote_wrote. by eexists.
Qed.

Lemma option_mask_in l ts : level_in l (option_mask ts) = true <->
  exists t o, t ∈ ts /\ known t = Some o /\ level_in l (o_mask o) = true.
Proof.
  unfold level_in, option_mask. induction ts as [|t ts IH]; cbn [foldr].
  { rewrite Z.land_0_r. split; [done|]. intros (t & _ & H & _). by apply not_elem_of_nil in H. }
  rewrite Z.land_lor_distr_r. setoid_rewrite elem_of_cons.
  assert (forall a b, negb (Z.lor a b =? 0) = negb (a =? 0) || negb (b =? 0)) as E.
  { intros a b. rewrite <- negb_andb. f_equal. apply Bool.eq_true_iff_eq.
    by rewrite andb_true_iff, !Z.eqb_eq, Z.lor_eq_0_iff. }
  rewrite E, orb_true_iff, IH. clear IH E. destruct (known t) as [o|] eqn:Ek; cbn [from_option].
  - split; [intros [H|(t' & o' & H)]; [by exists t, o; auto|exists t', o'; naive_solver]|].
    intros (t' & o' & [->|H] & E & Ho); [left; rewrite Ek in E; by injection E as ->|right; by exists t', o'].
  - rewrite Z.land_0_r. cbn [negb Z.eqb]. split; [intros [?|(t' & o' & H)]; [done|exists t', o'; naive_solver]|].
    intros (t' & o' & [->|H] & E & Ho); [congruence|right; by exists t', o'].
Qed.

(** Only the option [help] has the bit of [print_help]. *)
Lemma known_help t o : known t = Some o -> (level_in Level.print_help (o_mask o) = true <-> t = s_ "help").
Proof.
  unfold known. destruct (list_find _ _) as [[i o']|] eqn:E; [|done]. intros [= <-].
  apply list_find_Some in E as (Ei & -> & _). apply list_elem_of_lookup_2 in Ei.
  assert (Forall (fun o => level_in Level.print_help (o_mask o) = true <-> o_name o = s_ "help")
    (debug_opts debug_build)) as HF.
  { destruct debug_build; repeat constructor; intros; by vm_compute. }
  rewrite Forall_forall in HF. by apply HF.
Qed.

Lemma known_help_opt : exists o, known (s_ "help") = Some o.
Proof. unfold known. destruct debug_build; eexists; by vm_compute. Qed.

Lemma help_in_mask ts : level_in (option_mask ts) Level.print_help = true <-> s_ "help" ∈ ts.
Proof.
  unfold level_in. rewrite Z.land_comm. fold (level_in Level.print_help (option_mask ts)).
  rewrite option_mask_in. split.
  - intros (t & o & Ht & Ek & Ho). apply (known_help t o Ek) in Ho. by subst.
  - intros H. destruct known_help_opt as [o Ho]. exists (s_ "help"), o. split; [done|]. split; [done|].
    by apply (known_help _ _ Ho).
Qed.

(** The options in [LIBGKFS_LOG] select what is logged: without the
    option [none], the mask contains a kind of message exactly when some
    token names an option that contains it, and every token that names no
    option is reported, in order; [help] prints the usage and ends the
    process; [none] anywhere disables everything. *)
Theorem options_select_levels (opts : str) (s : St) :
  (200 <= max_buffer_size)%nat -> Forall (fun t => fits (unknown_option t)) (tokens_of opts) ->
  let ts := tokens_of opts in
  let run := process_log_options true debug_build max_buffer_size opts s in
  (s_ "none" ∈ ts -> exists ms, run = (Ok Level.print_none, wrote ms s)) /\
  (s_ "none" ∉ ts -> s_ "help" ∈ ts -> exists ms, run = (Throw (Exit 0), wrote ms s)) /\
  (s_ "none" ∉ ts -> s_ "help" ∉ ts -> exists mask, run = (Ok mask, wrote (warnings ts) s) /\
     forall level, level_in level mask = true <->
       exists t o, t ∈ ts /\ known t = Some o /\ level_in level (o_mask o) = true).
Proof.
  intros Hm Hf ts run. unfold run, process_log_options. cbn [negb]. fold ts.
  split; [|split].
  - intros Hn. destruct (option_loop_none ts Hf Hn Level.print_none s) as [ms E]. exists ms. by erewrite m_bind_ok by exact E.
  - intros Hn Hh. erewrite m_bind_ok by by apply option_loop_run. rewrite Z.lor_0_l.
    rewrite (proj2 (help_in_mask ts)) by done. destruct (print_usage_run (wrote (warnings ts) s) Hm) as [ms E].
    erewrite m_bind_ok by exact E. rewrite wrote_wrote. by eexists.
  - intros Hn Hh. erewrite m_bind_ok by by apply option_loop_run. rewrite Z.lor_0_l.
    destruct (level_in (option_mask ts) Level.print_help) eqn:Eh; [by apply help_in_mask in Eh|].
    exists (option_mask ts). split; [done|]. intros level. apply option_mask_in.
Qed.
End options.

(** *** Formatted messages of C code *)

Context (now : option Z) (ttid : Z) (zoned : TZ -> Z -> str).

Definition time_text (timezone : option TZ) : str :=
  match now with
  | None => []
  | Some us => match timezone with
               | None => s_ "[" ++ to_string_s us ++ s_ "] "
               | Some z => s_ "[" ++ zoned z us ++ s_ "] "
               end
  end.

Lemma timestamp_appends tz : appends max_buffer_size (format_timestamp_to max_buffer_size now zoned tz) (time_text tz).
Proof.
  unfold format_timestamp_to, time_text. destruct now; [destruct tz; apply appends_put|apply appends_nothing].
Qed.

Definition prefix_text (name : str) : str := time_text None ++ s_ "[" ++ to_string_s ttid ++ s_ "] [" ++ name ++ s_ "] ".

Lemma log_buffer_views_run fd bs s : 0 <= fd ->
  log_buffer_views fd bs s = (Ok (Z.of_nat (length (concat bs))), wrote ((fun b => (fd, b)) <$> bs) s).
Proof.
  intros Hfd. revert s. induction bs as [|b bs IH]; intros s; [by rewrite wrote_nil|]. cbn [log_buffer_views].
  erewrite m_bind_ok by by apply log_buffer_run. erewrite m_bind_ok by apply IH. rewrite wrote_wrote.
  unfold m_ret. cbn [concat]. rewrite length_app, Nat2Z.inj_add. done.
Qed.

Definition ended (l : str) : str := l ++ [LF].

(** Lines of a text that ends with an unfinished line [r]. *)
Lemma get_lines_rest ls r : Forall (fun l => LF ∉ l) ls -> LF ∉ r ->
  get_lines (concat (ended <$> ls) ++ r) = ls ++ (if decide (r = []) then [] else [r]).
Proof.
  assert (forall l acc t, LF ∉ l -> lines_from acc (l ++ t) = lines_from (acc ++ l) t) as Hskip.
  { induction l as [|c l IH]; intros acc t Hl; [by rewrite app_nil_r|]. apply not_elem_of_cons in Hl as [Hc Hl].
    cbn [app lines_from]. rewrite decide_False by done. rewrite IH by done. by rewrite <- (assoc_L (++)). }
  intros Hls Hr. unfold get_lines. induction Hls as [|l ls Hl _ IH].
  - cbn [fmap list_fmap concat app]. rewrite <- (app_nil_r r), Hskip by done. rewrite app_nil_r. done.
  - cbn [fmap list_fmap concat]. unfold ended at 1. rewrite <- !(assoc_L (++)), Hskip by done.
    cbn [app lines_from]. rewrite decide_True by done. by rewrite IH.
Qed.

(** The loop writes the finished lines, each after the prefix. *)
Lemma log_lines_run fd prefix text rest : 0 <= fd -> NUL ∉ text -> forall fuel t a m s,
  drop a text = t -> (a <= length text)%nat -> (length t < fuel)%nat ->
  exists ls r pieces, t = concat (ended <$> ls) ++ r /\ Forall (fun l => LF ∉ l) ls /\ LF ∉ r /\
    concat pieces = concat ((fun l => prefix ++ l ++ [LF]) <$> ls) /\
    log_lines fuel fd prefix (text ++ NUL :: rest) a m s =
      (Ok ((length text - length r)%nat, m + Z.of_nat (length (concat pieces))), wrote ((fun b => (fd, b)) <$> pieces) s).
Proof.
  intros Hfd Hnul. induction fuel as [|fuel IH]; intros t a m s Ht Ha Hf; [lia|]. cbn [log_lines].
  assert (NUL ∉ t) as Hnt by (intros H; apply Hnul; rewrite <- (take_drop a text), Ht; set_solver).
  rewrite drop_app_le, Ht, cstr_app_nul by done.
  assert (length t = length text - a)%nat as Hlen by (by rewrite <- Ht, length_drop).
  destruct (find_from LF t) as [p|] eqn:Ep.
  - apply find_from_Some in Ep as [Ep Hbefore].
    destruct (IH (drop (S p) t) (a + S p)%nat (m + Z.of_nat (length (prefix ++ take (S p) t)))
      (wrote [(fd, prefix); (fd, take (S p) t)] s)) as (ls & r & pieces & E1 & E2 & E3 & E4 & E5).
    { by rewrite <- Ht, drop_drop. }
    { apply lookup_lt_Some in Ep. lia. }
    { apply lookup_lt_Some in Ep. rewrite length_drop. lia. }
    exists (take p t :: ls), r, (prefix :: take (S p) t :: pieces).
    assert (take (S p) t = take p t ++ [LF]) as Etake by (by apply take_S_r).
    split; [|split; [|split; [done|split]]].
    + cbn [fmap list_fmap concat]. unfold ended at 1. rewrite <- Etake, <- (assoc_L (++)), <- E1. by rewrite take_drop.
    + constructor; [|done]. intros [i Hi]%list_elem_of_lookup. apply lookup_take_Some in Hi as [Hi1 Hi2].
      by eapply Hbefore.
    + rewrite fmap_cons. cbn [concat]. rewrite E4, Etake. rewrite <- !(assoc_L (++)). reflexivity.
    + erewrite m_bind_ok by by apply log_buffer_views_run. cbn [fmap list_fmap concat app]. rewrite app_nil_r.
      assert (substr (text ++ NUL :: rest) a (S p) = take (S p) t) as ->.
      { unfold substr. rewrite drop_app_le, Ht by done. rewrite take_app_le; [done|]. apply lookup_lt_Some in Ep. lia. }
      rewrite E5, wrote_wrote. f_equal. do 2 f_equal. rewrite !length_app. lia.
  - apply find_from_None in Ep. exists [], t, []. cbn [fmap list_fmap concat app]. split_and!; try done.
    rewrite wrote_nil, Z.add_0_r. unfold m_ret. repeat f_equal. lia.
Qed.

(** A message formatted by C code (Mercury's, for instance) reaches the
    log line by line: every line of the text, the last one also if it is not
    ended, is written after the prefix with the time, the thread and the
    level, and the result is the number of bytes written. *)
Theorem vlog_prefixes_lines (lg : logger) (level : Z) (name text rest : str) (s : St) :
  0 <= log_fd_ lg -> level_in level (log_mask_ lg) = true -> lookup_level_name level = Ok name ->
  (length (prefix_text name) <= max_buffer_size)%nat ->
  text <> [] -> NUL ∉ text -> (length text < max_buffer_size)%nat ->
  exists pieces,
    vlog max_buffer_size now ttid zoned lg level text rest s =
      (Ok (Z.of_nat (length (concat pieces))), wrote ((fun b => (log_fd_ lg, b)) <$> pieces) s) /\
    concat pieces = concat ((fun l => prefix_text name ++ l ++ [LF]) <$> get_lines text).
Proof.
  intros Hfd Hin Hname Hp Hne Hnul Hlen. unfold vlog. rewrite Hin. cbn [negb]. rewrite Hname.
  erewrite m_bind_ok by done. erewrite m_bind_ok by
    (apply compose_run; [apply appends_then; [apply timestamp_appends|apply appends_put]|exact Hp]).
  fold (prefix_text name). rewrite take_ge by lia.
  destruct (log_lines_run (log_fd_ lg) (prefix_text name) text rest Hfd Hnul (S max_buffer_size) text 0 0 s)
    as (ls & r & pieces & Et & Hls & Hr & Ep & E); [done|lia|lia|].
  erewrite m_bind_ok by exact E. rewrite Z.add_0_l.
  rewrite (proj2 (Nat.eqb_neq _ _)) by (by destruct text). rewrite (proj2 (Nat.ltb_ge _ _)) by lia. cbn [orb].
  rewrite lookup_app_l by (destruct text; simpl in *; [done|lia]). replace (length text - 1)%nat with (Nat.pred (length text)) by lia. rewrite <- last_lookup.
  assert (length r <= length text)%nat as Hlr by (rewrite Et, length_app; lia).
  assert (get_lines text = ls ++ (if decide (r = []) then [] else [r])) as Hg by (rewrite Et; by apply get_lines_rest).
  destruct (decide (r = [])) as [->|Hr'].
  - rewrite app_nil_r in Et. assert (last text = Some LF) as ->.
    { destruct ls as [|l ls _] using rev_ind; [by rewrite Et in Hne|]. rewrite Et, fmap_app, concat_app. cbn [fmap list_fmap concat].
      unfold ended. by rewrite app_nil_r, (assoc_L (++)), last_snoc. }
    rewrite decide_True by done. exists pieces. split; [done|]. by rewrite Hg, app_nil_r.
  - assert (last text <> Some LF) as Hl.
    { rewrite Et. destruct r as [|c r _] using rev_ind; [done|]. rewrite (assoc_L (++)), last_snoc. intros [= ->]. set_solver. }
    rewrite decide_False by done. erewrite m_bind_ok by by apply log_buffer_views_run.
    assert (substr (text ++ NUL :: rest) (length text - length r) (length text - (length text - length r)) = r) as ->.
    { unfold substr. rewrite drop_app_le by lia. rewrite take_app_le by (rewrite length_drop; lia).
      rewrite Et at 2. rewrite Et, length_app, Nat.add_sub, drop_app_length. apply take_ge. lia. }
    exists (pieces ++ [prefix_text name; r; [LF]]). rewrite wrote_wrote, <- fmap_app. unfold m_ret. split.
    + rewrite concat_app, length_app, Nat2Z.inj_add. done.
    + rewrite Hg, fmap_app, !concat_app, Ep. cbn [fmap list_fmap concat]. by rewrite !app_nil_r.
Qed.

(** *** Tracing *)

Context (string_at : Z -> str) (errno_message : Z -> str).

Definition info_text (origin target : ascii) : str :=
  s_ "[" ++ to_string_s ttid ++ s_ "] [syscall] " ++ ["["%char; origin; target; "]"%char; " "%char].

Definition trace_line (lg : logger) (origin target : ascii) (t : str) : Z * str :=
  (log_fd_ lg, time_text (timezone_ lg) ++ info_text origin target ++ t ++ [LF]).

Definition origin_char (origin : Z) : ascii := if origin =? Info.from_internal_code then "i"%char else "a"%char.

Lemma log_syscall_line lg info o t f u s :
  appends max_buffer_size (format_syscall_info_to max_buffer_size ttid info) (info_text o t) ->
  appends max_buffer_size f u -> (length (trace_line lg o t u).2 <= max_buffer_size)%nat ->
  (let* b := compose (format_timestamp_to max_buffer_size now zoned (timezone_ lg) >->
                      format_syscall_info_to max_buffer_size ttid info >-> f >-> put max_buffer_size [LF]) in
   sys_write (log_fd_ lg) b) s = (Ok tt, wrote [trace_line lg o t u] s).
Proof.
  intros Hi Hf Hl. erewrite m_bind_ok; [done|]. apply compose_run; [|exact Hl].
  repeat (apply appends_then; [first [apply timestamp_appends | exact Hi | exact Hf]|]). apply appends_put.
Qed.

Lemma info_appends info o t :
  o = (if Info.origin info =? Info.from_internal_code then "i"%char
       else if Info.origin info =? Info.from_external_code then "a"%char else "?"%char) ->
  t = (if Info.target info =? Info.to_hook then "h"%char
       else if Info.target info =? Info.to_kernel then "k"%char else "?"%char) ->
  appends max_buffer_size (format_syscall_info_to max_buffer_size ttid info) (info_text o t).
Proof.
  intros -> ->. eapply appends_eq; [apply appends_then; apply appends_put|].
  unfold info_text. by rewrite <- !(assoc_L (++)).
Qed.

Section one_call.
Context (lg : logger (TZ := TZ)) (n : Z) (args : list Z) (result : Z).
Hypothesis (Hn : 0 <= n < 512) (Hfilter : Z.testbit (filtered_syscalls_ lg) n = false).
Hypothesis (Hret : never_returns n = false) (Hmay : may_not_return n = false) (Hres : ~ - 4096 <= result < 0).

Definition entry_text : str := call_text string_at (lookup_by_number n (Some args)) args ++ s_ ") = ?".
Definition result_text : str :=
  call_text string_at (lookup_by_number n (Some args)) args ++ s_ ") = " ++
  outcome_text (s_return_type (lookup_by_number n (Some args))) result.

Local Abbreviation log_call := (log_syscall true max_buffer_size now ttid zoned string_at errno_message lg).

Lemma log_syscall_entry info o s :
  appends max_buffer_size (format_syscall_info_to max_buffer_size ttid info) (info_text o "h"%char) ->
  info <> Info.unknown -> Info.execution_is_pending info = true ->
  (length (trace_line lg o "h"%char entry_text).2 <= max_buffer_size)%nat ->
  log_call info n args None s =
    (Ok tt, wrote (if level_in Level.print_syscalls_entry (log_mask_ lg) then [trace_line lg o "h"%char entry_text] else []) s).
Proof using Hn Hfilter Hret Hmay.
  intros Hi Hu Hp Hl. unfold log_syscall. destruct (level_in Level.print_syscalls_entry (log_mask_ lg)); cbn [negb andb].
  2: destruct (level_in Level.print_syscalls (log_mask_ lg)); cbn [negb]; [|by rewrite wrote_nil].
  all: unfold bitset_at; rewrite (proj2 (Z.ltb_ge _ _)), (proj2 (Z.leb_gt _ _)) by lia; cbn [orb]; erewrite m_bind_ok by done;
    rewrite Hfilter, (proj2 (Z.eqb_neq _ _)), Hmay, Hret, Hp by done; cbn [orb andb negb].
  - apply log_syscall_line; [done|apply decode_entry_appends|done].
  - by rewrite wrote_nil.
Qed.

Lemma log_syscall_result info o t s :
  appends max_buffer_size (format_syscall_info_to max_buffer_size ttid info) (info_text o t) ->
  info <> Info.unknown -> Info.execution_is_pending info = false ->
  (length (trace_line lg o t result_text).2 <= max_buffer_size)%nat ->
  log_call info n args (Some result) s =
    (Ok tt, wrote (if level_in Level.print_syscalls (log_mask_ lg) then [trace_line lg o t result_text] else []) s).
Proof using Hn Hfilter Hret Hmay Hres.
  intros Hi Hu Hp Hl. unfold log_syscall. destruct (level_in Level.print_syscalls (log_mask_ lg)); cbn [negb andb].
  2: destruct (level_in Level.print_syscalls_entry (log_mask_ lg)); cbn [negb andb]; [|by rewrite wrote_nil].
  all: rewrite ?andb_false_r; unfold bitset_at; rewrite (proj2 (Z.ltb_ge _ _)), (proj2 (Z.leb_gt _ _)) by lia; cbn [orb];
    erewrite m_bind_ok by done;
    rewrite Hfilter, (proj2 (Z.eqb_neq _ _)), Hmay, Hret, Hp by done; cbn [orb andb negb]; rewrite ?andb_false_r.
  - apply log_syscall_line; [done|by apply decode_success_appends|done].
  - by rewrite wrote_nil.
Qed.
End one_call.

Lemma origin_infos origin : origin = Info.from_internal_code \/ origin = Info.from_external_code ->
  let pending := Z.lor origin (Z.lor Info.to_hook Info.not_executed) in
  let hooked := Z.lor origin (Z.lor Info.to_hook Info.executed) in
  let forwarded := Z.lor (Z.lor origin (Z.lor Info.to_kernel Info.not_executed)) Info.executed in
  (Info.execution_is_pending pending = true /\ Info.execution_is_pending hooked = false /\
   Info.execution_is_pending forwarded = false) /\
  (pending <> Info.unknown /\ hooked <> Info.unknown /\ forwarded <> Info.unknown) /\
  (forall i t, (i, t) ∈ [(pending, "h"%char); (hooked, "h"%char); (forwarded, "k"%char)] ->
     appends max_buffer_size (format_syscall_info_to max_buffer_size ttid i) (info_text (origin_char origin) t)).
Proof.
  intros [-> | ->]; (split; [done|]); (split; [done|]); intros i t Hit;
    repeat (apply elem_of_cons in Hit as [[= -> ->]|Hit]; [by apply info_appends|]); by apply not_elem_of_nil in Hit.
Qed.

End behaviour.

(** ** Examples *)

Definition example_logger (mask filtered : Z) : logger (TZ := unit) := MkLogger 3 mask filtered 0 None.
Definition example_state (l : option logger) : state (TZ := unit) := MkState [] l [] [].


Lemma vlog_prefixes_lines_witness :
  exists pieces, (vlog (TZ := unit) 1024 (Some 7) 42 (fun _ _ => []) (example_logger Level.print_all 0) Level.print_mercury
    (s_ "one" ++ [LF] ++ s_ "two") [] (example_state None)).1 = Ok (Z.of_nat (length (concat pieces))) /\
    concat pieces = s_ "[7] [42] [mercury] one" ++ [LF] ++ s_ "[7] [42] [mercury] two" ++ [LF].
Proof.
  destruct (vlog_prefixes_lines (TZ := unit) 1024 (Some 7) 42 (fun _ _ => []) (example_logger Level.print_all 0)
    Level.print_mercury (s_ "mercury") (s_ "one" ++ [LF] ++ s_ "two") [] (example_state None)) as (pieces & E1 & E2).
  - by vm_compute.
  - by vm_compute.
  - by vm_compute.
  - apply Nat.leb_le. by vm_compute.
  - done.
  - by apply find_from_None.
  - apply Nat.ltb_lt. by vm_compute.
  - exists pieces. rewrite E1, E2. split; [done|by vm_compute].
Defined.

Lemma options_select_levels_witness :
  exists mask, process_log_options (TZ := unit) true false 1024 (s_ "errors,,debug") (example_state None) =
    (Ok mask, wrote (warnings false (tokens_of (s_ "errors,,debug"))) (example_state None)) /\
    level_in Level.print_errors mask = true.
Proof.
  destruct (options_select_levels (TZ := unit) 1024 false (s_ "errors,,debug") (example_state None)) as (_ & _ & H).
  - apply Nat.leb_le. by vm_compute.
  - repeat constructor; apply Nat.ltb_lt; by vm_compute.
  - destruct H as (mask & E & Hm); [by apply (bool_decide_unpack _)|by apply (bool_decide_unpack _)|].
    exists mask. split; [exact E|]. apply Hm. eexists (s_ "errors"), _.
    split; [by apply (bool_decide_unpack _)|]. split; [by vm_compute|]. by vm_compute.
Defined.

(** Two separators in a row make an empty option, which is reported. *)
Example empty_option_reported :
  process_log_options (TZ := unit) true false 1024 (s_ "errors, info") (example_state None) =
  (Ok (Z.lor Level.print_errors Level.print_info),
   wrote [(STDOUT, s_ "warning: logging option '' unknown; try LIBGKFS_LOG=help" ++ [LF])] (example_state None)).
Proof. by vm_compute. Qed.

(** Whatever [LIBGKFS_LOG_OUTPUT_TRUNC] is, the log is truncated. *)
Lemma log_always_truncated (v : str) : NUL ∉ v -> log_trunc v = true.
Proof.
  intros Hn. unfold log_trunc. destruct v as [|c v]; [done|]. cbn.
  by rewrite bool_decide_false by set_solver.
Qed.

(** A logger that fell back to the standard error closes it when it is
    destroyed. *)
Example fallback_closes_stderr :
  closed_fds ((init_logging (TZ := unit) true false 1024 (Some 7) 42 (fun _ _ => [])
    (MkHostOS ∅ (fun _ => true) (fun _ => true) None (fun _ => None)) (fun _ _ => -1) None ;;;
    destroy_global_logger) (example_state None)).2 = [STDERR].
Proof. by vm_compute. Qed.
