(* ===== verification/Intercept.v ===== *)
(** * System call interception ([src/client/intercept.cpp])

    Every system call of the process reaches one of two wrappers.
    [hook_guard_wrapper] serves the calls of the application with [hook] and
    those the library makes while it serves one with [hook_internal];
    [internal_hook_guard_wrapper] is in place while the library initialises
    itself.  A call that is not served is forwarded to the kernel.

    The arguments are [long]s; what a pointer argument leads to is read and
    written through [Memory].  A descriptor is the signed value of its 32
    bits, the only ones GekkoFS and the kernel look at.  The
    trace points are in [Logging]. *)

From S2P Require Import Prelude Config Distributor Metadata Merge MetadataDB ChunkStorage ChunkPlan SrvData SrvMetadata Rpc ForwardData.
From S2P Require Import Cluster OpenFileMap Kernel SyscallInfo PreloadContext GkfsFunctions FileSystem Hooks.

(** ** The memory of the process *)

(** A control message of a [msghdr]: its type, its length and the address
    of its data. *)
Record cmsg := MkCmsg { cmsg_type : Z; cmsg_len : Z; cmsg_data : Z }.

(** What the hooks store through a pointer. *)
Inductive content :=
| Int (v : Z)
| Bytes (bs : list byte)
| Iov (bss : list (list byte))
| Stat (s : stat)
| Statfs (s : statfs).

Class Memory (K : Type) := {
  mem_int : K -> Z -> Z;
  mem_str : K -> Z -> str;                            (* a C string *)
  mem_bytes : K -> Z -> Z -> list byte;               (* address, length *)
  mem_iov : K -> Z -> Z -> list (list byte);          (* address, number of buffers *)
  mem_cmsgs : K -> Z -> list cmsg;                    (* CMSG_FIRSTHDR, CMSG_NXTHDR *)
  mem_put : Z -> content -> K -> K
}.

Definition SCM_RIGHTS : Z := 1.
(** [CMSG_LEN(0)]: the size of the header of a control message. *)
Definition CMSG_LEN_0 : Z := 16.

(** ** State *)

(** The two wrappers a hook point can be set to. *)
Inductive wrapper := internal_hook_guard | hook_guard.

(** The hook points of [libsyscall_intercept]: the wrapper, and whether the
    hooks after forwarded calls and clones are set. *)
Record hook_points := MkHooks {
  intercept_hook_point : option wrapper;
  post_kernel : bool;
  clone_child : bool;
  clone_parent : bool
}.

(** A thread of the process: the state of the client, the thread local
    variables and the hook points. *)
Record thread (N K : Type) := MkThread {
  cl : client N K;
  reentrance_guard_flag : bool;
  saved_syscall_info : Z;
  points : hook_points
}.
Arguments MkThread {N K} cl reentrance_guard_flag saved_syscall_info points.
Arguments cl {N K} t.
Arguments reentrance_guard_flag {N K} t.
Arguments saved_syscall_info {N K} t.
Arguments points {N K} t.

(** The arguments of a call. *)
Record call_args := MkArgs { arg0 : Z; arg1 : Z; arg2 : Z; arg3 : Z; arg4 : Z; arg5 : Z }.

Section intercept.
Context {N : Type} {W : Network N} {K : Type} {KW : Kernel K} {MW : Memory K}.
Context (cfg : config) (d : Distributor) (hosts_size MAX_OPEN_FDS : Z).
Context (str_hash : str -> Z) (junk : Metadata) (link_fuel : nat) (dirents_buffer : list byte) (log_errors : bool).
Local Abbreviation C := (client N K).
Local Abbreviation T := (thread N K).

Definition on_client {A} (f : M C A) : M T A := fun t =>
  let '(r, c) := f (cl t) in
  (r, MkThread c (reentrance_guard_flag t) (saved_syscall_info t) (points t)).

Definition set_guard (b : bool) : M T () :=
  m_modify (fun t => MkThread (cl t) b (saved_syscall_info t) (points t)).
Definition save_current_syscall_info (i : Z) : M T () :=
  m_modify (fun t => MkThread (cl t) (reentrance_guard_flag t) i (points t)).
Definition reset_current_syscall_info : M T () := save_current_syscall_info Info.unknown.
Definition get_errno : M T Z := m_gets (fun t => errno (cl t)).
Definition put_errno (e : Z) : M T () := on_client (set_errno e).
Definition memory : M C K := m_gets (fun c => os (proc c)).
Definition store (addr : Z) (v : content) : M C () :=
  m_modify (fun c => MkClient (MkProcess (ctx (proc c)) (mem_put addr v (os (proc c)))) (net c) (errno c)).

(** ** Calls of the library itself *)

(** The parameter of [register_internal_fd] is an [int]. *)
Definition register (fd : Z) : M C Z := on_proc (register_internal_fd MAX_OPEN_FDS (i32 fd)).

(** [p[0] = CTX->register_internal_fd(p[0]);] *)
Definition register_at (addr : Z) : M C () :=
  let* k := memory in
  let* fd := register (mem_int k addr) in
  store addr (Int fd).

(** The calls whose result is a new descriptor, as they are passed on. *)
Definition creating_call (k : K) (n : Z) (a : call_args) : option syscall :=
  if n =? NR.open then Some (SYS_other n [arg0 a; i32 (arg1 a); u32 (arg2 a)])
  else if n =? NR.creat then
    Some (SYS_other n [arg0 a; Z.lor (Z.lor O_WRONLY O_CREAT) O_TRUNC; u32 (arg1 a)])
  else if n =? NR.openat then Some (SYS_openat (i32 (arg0 a)) (mem_str k (arg1 a)) (i32 (arg2 a)) (u32 (arg3 a)))
  else if n =? NR.epoll_create then Some (SYS_other n [i32 (arg0 a)])
  else if n =? NR.epoll_create1 then Some (SYS_other n [i32 (arg0 a)])
  else if n =? NR.dup then Some (SYS_dup (i32 (arg0 a)))
  else if n =? NR.dup2 then Some (SYS_dup2 (i32 (arg0 a)) (i32 (arg1 a)))
  else if n =? NR.dup3 then Some (SYS_dup3 (i32 (arg0 a)) (i32 (arg1 a)) (i32 (arg2 a)))
  else if n =? NR.inotify_init then Some (SYS_other n [])
  else if n =? NR.inotify_init1 then Some (SYS_other n [i32 (arg0 a)])
  else if n =? NR.perf_event_open then
    Some (SYS_other n [arg0 a; i32 (arg1 a); i32 (arg2 a); i32 (arg3 a); u64 (arg4 a)])
  else if n =? NR.signalfd then Some (SYS_other n [i32 (arg0 a); arg1 a])
  else if n =? NR.signalfd4 then Some (SYS_other n [i32 (arg0 a); arg1 a; i32 (arg2 a)])
  else if n =? NR.timerfd_create then Some (SYS_other n [i32 (arg0 a); i32 (arg1 a)])
  else if n =? NR.socket then Some (SYS_other n [i32 (arg0 a); i32 (arg1 a); i32 (arg2 a)])
  else if n =? NR.eventfd then Some (SYS_other n [i32 (arg0 a)])
  else if n =? NR.eventfd2 then Some (SYS_other n [i32 (arg0 a); i32 (arg1 a)])
  else if n =? NR.accept then Some (SYS_other n [i32 (arg0 a); arg1 a; arg2 a])
  else None.

(** The calls that store a pair of new descriptors, and where. *)
Definition pair_call (n : Z) (a : call_args) : option (syscall * Z) :=
  if n =? NR.socketpair then Some (SYS_other n [i32 (arg0 a); i32 (arg1 a); i32 (arg2 a); arg3 a], arg3 a)
  else if n =? NR.pipe then Some (SYS_other n [arg0 a], arg0 a)
  else if n =? NR.pipe2 then Some (SYS_other n [arg0 a; i32 (arg1 a)], arg0 a)
  else None.

(** The descriptors of a control message, and their addresses. *)
Definition cmsg_nfd (m : cmsg) : Z :=
  if CMSG_LEN_0 <? cmsg_len m then (cmsg_len m - CMSG_LEN_0) / 4 else 0.
Definition cmsg_fds (m : cmsg) : list Z :=
  if cmsg_type m =? SCM_RIGHTS then (fun i => cmsg_data m + 4 * i) <$> seqZ 0 (cmsg_nfd m) else [].

Fixpoint register_fds (addrs : list Z) : M C () :=
  match addrs with
  | [] => m_ret tt
  | a :: addrs' => register_at a ;;; register_fds addrs'
  end.

(** [Some] is [*result] of a call that was served ([hooked]), [None] a call
    to forward. *)
Definition hook_internal_call (n : Z) (a : call_args) : M C (option Z) :=
  let* k := memory in
  match creating_call k n a with
  | Some c =>
      let* result := on_proc (sys c) in
      if 0 <=? result then let* fd := register result in m_ret (Some fd) else m_ret (Some result)
  | None =>
      match pair_call n a with
      | Some (c, addr) =>
          let* result := on_proc (sys c) in
          (if 0 <=? result then register_at addr ;;; register_at (addr + 4) else m_ret tt) ;;;
          m_ret (Some result)
      | None =>
          if n =? NR.recvmsg then
            let* result := on_proc (sys (SYS_other n [i32 (arg0 a); arg1 a; i32 (arg2 a)])) in
            let* k := memory in
            (if 0 <=? result then register_fds (mjoin (cmsg_fds <$> mem_cmsgs k (arg1 a))) else m_ret tt) ;;;
            m_ret (Some result)
          else if n =? NR.fcntl then
            let* result := on_proc (sys (SYS_fcntl (i32 (arg0 a)) (i32 (arg1 a)) (arg2 a))) in
            if (0 <=? result) && ((i32 (arg1 a) =? F_DUPFD) || (i32 (arg1 a) =? F_DUPFD_CLOEXEC))
            then let* fd := register result in m_ret (Some fd) else m_ret (Some result)
          else if n =? NR.close then
            let* result := on_proc (sys (SYS_close (i32 (arg0 a)))) in
            (if result =? 0 then on_proc (unregister_internal_fd MAX_OPEN_FDS (i32 (arg0 a))) else m_ret tt) ;;;
            m_ret (Some result)
          else m_ret None
      end
  end.

Definition hook_internal (n : Z) (a : call_args) : M T (option Z) :=
  let* r := on_client (hook_internal_call n a) in
  match r with
  | Some _ => m_ret r
  | None =>
      save_current_syscall_info (Z.lor (Z.lor Info.from_internal_code Info.to_kernel) Info.not_executed) ;;;
      m_ret None
  end.

(** ** Calls of the application *)

(** Store what a hook returned beside its result. *)
Definition put {B} (addr : Z) (f : B -> content) (m : M C (Z * option B)) : M C Z :=
  let* r := m in
  match r.2 with
  | Some b => store addr (f b) ;;; m_ret r.1
  | None => m_ret r.1
  end.

Definition passed (c : syscall) : M C Z := on_proc (sys c).

Definition open_flags : Z := Z.lor (Z.lor O_WRONLY O_CREAT) O_TRUNC.

Local Abbreviation openat_ := (hook_openat cfg d hosts_size junk link_fuel dirents_buffer).
Local Abbreviation unlinkat_ := (hook_unlinkat cfg d hosts_size junk link_fuel dirents_buffer).
Local Abbreviation mkdirat_ := (hook_mkdirat cfg d hosts_size junk link_fuel).

(** The cases of the [switch] for opening and naming files; [p] reads a C
    string. *)
Definition path_calls (k : K) (n : Z) (a : call_args) : option (M C Z) :=
  let p := mem_str k in
  if n =? NR.execve then Some (passed (SYS_other n [arg0 a; arg1 a; arg2 a]))
  else if n =? NR.execveat then Some (passed (SYS_other n [arg0 a; arg1 a; arg2 a; arg3 a; arg4 a]))
  else if n =? NR.open then Some (openat_ AT_FDCWD (p (arg0 a)) (i32 (arg1 a)) (u32 (arg2 a)))
  else if n =? NR.creat then Some (openat_ AT_FDCWD (p (arg0 a)) open_flags (u32 (arg1 a)))
  else if n =? NR.openat then Some (openat_ (i32 (arg0 a)) (p (arg1 a)) (i32 (arg2 a)) (u32 (arg3 a)))
  else if n =? NR.stat then
    Some (put (arg1 a) Stat (hook_stat cfg d hosts_size str_hash junk link_fuel (p (arg0 a))))
  else if n =? NR.statx then
    Some (put (arg4 a) Stat (hook_statx cfg d hosts_size str_hash junk link_fuel
      (i32 (arg0 a)) (p (arg1 a)) (i32 (arg2 a)) (u32 (arg3 a))))
  else if n =? NR.lstat then
    Some (put (arg1 a) Stat (hook_lstat cfg d hosts_size str_hash junk link_fuel (p (arg0 a))))
  else if n =? NR.newfstatat then
    Some (put (arg2 a) Stat (hook_fstatat cfg d hosts_size str_hash junk link_fuel
      (i32 (arg0 a)) (p (arg1 a)) (i32 (arg3 a))))
  else if n =? NR.unlink then Some (unlinkat_ AT_FDCWD (p (arg0 a)) 0)
  else if n =? NR.unlinkat then Some (unlinkat_ (i32 (arg0 a)) (p (arg1 a)) (i32 (arg2 a)))
  else if n =? NR.rmdir then Some (unlinkat_ AT_FDCWD (p (arg0 a)) AT_REMOVEDIR)
  else if n =? NR.symlink then Some (hook_symlinkat (p (arg0 a)) AT_FDCWD (p (arg1 a)))
  else if n =? NR.symlinkat then Some (hook_symlinkat (p (arg0 a)) (i32 (arg1 a)) (p (arg2 a)))
  else if n =? NR.access then Some (hook_access cfg d hosts_size junk link_fuel (p (arg0 a)) (i32 (arg1 a)))
  else if n =? NR.faccessat then
    Some (hook_faccessat cfg d hosts_size junk link_fuel (i32 (arg0 a)) (p (arg1 a)) (i32 (arg2 a)))
  else if n =? NR.truncate then
    Some (hook_truncate cfg d hosts_size junk link_fuel (p (arg0 a)) (i64 (arg1 a)))
  else if n =? NR.mkdirat then Some (mkdirat_ (i32 (u32 (arg0 a))) (p (arg1 a)) (u32 (arg2 a)))
  else if n =? NR.mkdir then Some (mkdirat_ AT_FDCWD (p (arg0 a)) (u32 (arg1 a)))
  else if n =? NR.chmod then Some (hook_fchmodat AT_FDCWD (p (arg0 a)) (u32 (arg1 a)))
  else if n =? NR.fchmodat then Some (hook_fchmodat (i32 (u32 (arg0 a))) (p (arg1 a)) (u32 (arg2 a)))
  else if n =? NR.chdir then Some (hook_chdir cfg d hosts_size junk link_fuel (p (arg0 a)))
  else if n =? NR.readlink then Some (hook_readlinkat AT_FDCWD (p (arg0 a)) (i32 (arg2 a)))
  else if n =? NR.readlinkat then Some (hook_readlinkat (i32 (arg0 a)) (p (arg1 a)) (i32 (arg3 a)))
  else if n =? NR.rename then Some (hook_renameat AT_FDCWD (p (arg0 a)) AT_FDCWD (p (arg1 a)) 0)
  else if n =? NR.renameat then
    Some (hook_renameat (i32 (arg0 a)) (p (arg1 a)) (i32 (arg2 a)) (p (arg3 a)) 0)
  else if n =? NR.renameat2 then
    Some (hook_renameat (i32 (arg0 a)) (p (arg1 a)) (i32 (arg2 a)) (p (arg3 a)) (u32 (arg4 a)))
  else if n =? NR.statfs then Some (put (arg1 a) Statfs (hook_statfs cfg hosts_size (p (arg0 a))))
  else None.

(** The cases for descriptors. *)
Definition fd_calls (k : K) (n : Z) (a : call_args) : option (M C Z) :=
  let fd := i32 (arg0 a) in
  if n =? NR.close then Some (hook_close MAX_OPEN_FDS fd)
  else if n =? NR.fstat then Some (put (arg1 a) Stat (hook_fstat cfg d hosts_size str_hash junk link_fuel fd))
  else if n =? NR.read then
    Some (put (arg1 a) Bytes (hook_read cfg d hosts_size fd (mem_bytes k (arg1 a) (u64 (arg2 a))) (u64 (arg2 a))))
  else if n =? NR.pread64 then
    Some (put (arg1 a) Bytes (hook_pread cfg d hosts_size fd (mem_bytes k (arg1 a) (u64 (arg2 a))) (u64 (arg2 a))
      (i64 (arg3 a))))
  else if n =? NR.readv then
    Some (put (arg1 a) Iov (hook_readv cfg d hosts_size fd (mem_iov k (arg1 a) (u64 (arg2 a)))))
  else if n =? NR.preadv then
    Some (put (arg1 a) Iov (hook_preadv cfg d hosts_size fd (mem_iov k (arg1 a) (u64 (arg2 a))) (u64 (arg3 a))
      (u64 (arg4 a))))
  else if n =? NR.pwrite64 then
    Some (hook_pwrite cfg d hosts_size fd (mem_bytes k (arg1 a) (u64 (arg2 a))) (u64 (arg2 a)) (i64 (arg3 a)))
  else if n =? NR.write then
    Some (hook_write cfg d hosts_size fd (mem_bytes k (arg1 a) (u64 (arg2 a))) (u64 (arg2 a)))
  else if n =? NR.writev then Some (hook_writev cfg d hosts_size fd (mem_iov k (arg1 a) (u64 (arg2 a))))
  else if n =? NR.pwritev then
    Some (hook_pwritev cfg d hosts_size fd (mem_iov k (arg1 a) (u64 (arg2 a))) (u64 (arg3 a)) (u64 (arg4 a)))
  else if n =? NR.lseek then Some (hook_lseek d hosts_size fd (i64 (arg1 a)) (u32 (arg2 a)))
  else if n =? NR.ftruncate then Some (hook_ftruncate cfg d hosts_size junk link_fuel fd (u64 (arg1 a)))
  else if n =? NR.dup then Some (hook_dup fd)
  else if n =? NR.dup2 then Some (hook_dup2 fd (i32 (arg1 a)))
  else if n =? NR.dup3 then Some (hook_dup3 fd (i32 (arg1 a)) (i32 (arg2 a)))
  else if n =? NR.getdents then
    Some (put (arg1 a) Bytes (hook_getdents str_hash fd (mem_bytes k (arg1 a) (u32 (arg2 a))) (u32 (arg2 a))))
  else if n =? NR.getdents64 then
    Some (put (arg1 a) Bytes (hook_getdents64 str_hash fd (mem_bytes k (arg1 a) (u32 (arg2 a))) (u32 (arg2 a))))
  else if n =? NR.fchmod then Some (hook_fchmod fd (u32 (arg1 a)))
  else if n =? NR.fchdir then Some (hook_fchdir log_errors fd)
  else if n =? NR.getcwd then
    Some (put (arg0 a) Bytes (let* r := hook_getcwd (mem_bytes k (arg0 a) (u64 (arg1 a))) (u64 (arg1 a)) in
                              m_ret (r.1, if r.1 <? 0 then None else Some r.2)))
  else if n =? NR.fcntl then Some (hook_fcntl fd (u32 (arg1 a)) (u64 (arg2 a)))
  else if n =? NR.fstatfs then Some (put (arg1 a) Statfs (hook_fstatfs cfg hosts_size fd))
  else None.

Definition hook_call (k : K) (n : Z) (a : call_args) : option (M C Z) :=
  match path_calls k n a with Some m => Some m | None => fd_calls k n a end.

Definition hook (n : Z) (a : call_args) : M T (option Z) :=
  let* k := on_client memory in
  match hook_call k n a with
  | Some m => let* r := on_client m in m_ret (Some r)
  | None =>
      save_current_syscall_info (Z.lor (Z.lor Info.from_external_code Info.to_kernel) Info.not_executed) ;;;
      m_ret None
  end.

(** ** After forwarded calls and clones *)

Definition hook_forwarded_syscall : M T () :=
  let* i := m_gets saved_syscall_info in
  if i =? Info.unknown then m_ret tt else reset_current_syscall_info.

(** [hook_clone_at_child] and [hook_clone_at_parent] log between the two
    assignments. *)
Definition hook_clone : M T () := set_guard true ;;; set_guard false.

(** ** The wrappers *)

Definition intercepting : M T () :=
  let* t := m_get in m_assert (interception_enabled_ (ctx (proc (cl t)))).

Definition internal_hook_guard_wrapper (n : Z) (a : call_args) : M T (option Z) :=
  intercepting ;;;
  let* flag := m_gets reentrance_guard_flag in
  if (flag : bool) then
    save_current_syscall_info (Z.lor (Z.lor Info.from_internal_code Info.to_kernel) Info.not_executed) ;;;
    m_ret None
  else
    set_guard true ;;;
    let* oerrno := get_errno in
    let* was_hooked := hook_internal n a in
    put_errno oerrno ;;;
    set_guard false ;;;
    m_ret was_hooked.

Definition hook_guard_wrapper (n : Z) (a : call_args) : M T (option Z) :=
  intercepting ;;;
  let* flag := m_gets reentrance_guard_flag in
  if (flag : bool) then
    let* oerrno := get_errno in
    let* was_hooked := hook_internal n a in
    put_errno oerrno ;;;
    m_ret was_hooked
  else
    set_guard true ;;;
    let* oerrno := get_errno in
    let* was_hooked := hook n a in
    put_errno oerrno ;;;
    set_guard false ;;;
    m_ret was_hooked.

(** ** Starting and stopping *)

Definition set_points (h : hook_points) : M T () :=
  m_modify (fun t => MkThread (cl t) (reentrance_guard_flag t) (saved_syscall_info t) h).

Definition start_self_interception : M T () :=
  set_points (MkHooks (Some internal_hook_guard) true true true).
Definition start_interception : M T () :=
  intercepting ;;; set_points (MkHooks (Some hook_guard) true true true).
Definition stop_interception : M T () :=
  intercepting ;;; set_points (MkHooks None false false false).
End intercept.

(** ** Running calls *)

Section runs.
Context {N : Type} {W : Network N} {K : Type} {KW : Kernel K} {MW : Memory K}.
Context (cfg : config) (d : Distributor) (hosts_size MAX_OPEN_FDS : Z).
Context (str_hash : str -> Z) (junk : Metadata) (link_fuel : nat) (dirents_buffer : list byte) (log_errors : bool).
Local Abbreviation C := (client N K).
Local Abbreviation T := (thread N K).
Local Abbreviation wrapped :=
  (hook_guard_wrapper cfg d hosts_size MAX_OPEN_FDS str_hash junk link_fuel dirents_buffer log_errors).

Lemma on_client_run {A} (f : M C A) (t : T) :
  on_client f t = ((f (cl t)).1, MkThread (f (cl t)).2 (reentrance_guard_flag t) (saved_syscall_info t) (points t)).
Proof. unfold on_client. by destruct (f (cl t)). Qed.

Lemma on_client_flag {A} (f : M C A) : preserves reentrance_guard_flag (on_client f : M T A).
Proof. intros t r t'. rewrite on_client_run. by intros [= _ <-]. Qed.

Lemma on_client_points {A} (f : M C A) : preserves points (on_client f : M T A).
Proof. intros t r t'. rewrite on_client_run. by intros [= _ <-]. Qed.

(** *** What the library's own calls leave alone *)

(** The open files, the network and [errno]. *)
Local Abbreviation gekko := (fun c : C => (ofm_ (ctx (proc c)), net c, errno c)).

Lemma on_proc_gekko {A} (f : M (process K) A) :
  preserves (fun p => ofm_ (ctx p)) f -> preserves gekko (on_proc f : M C A).
Proof.
  intros H c r c'. unfold on_proc. destruct (f (proc c)) as [x p] eqn:E. intros [= _ <-]. cbn.
  by rewrite (H _ _ _ E).
Qed.

Lemma sys_ofm c : preserves (fun p : process K => ofm_ (ctx p)) (sys c).
Proof. intros p r p'. unfold sys. destruct (k_syscall c (os p)). by intros [= _ <-]. Qed.

Lemma with_ctx_ofm f : (forall c, ofm_ (f c) = ofm_ c) -> preserves (fun p : process K => ofm_ (ctx p)) (with_ctx f).
Proof. intros H. apply preserves_modify. intros p. apply H. Qed.
#[local] Hint Resolve sys_ofm : preserves.
#[local] Hint Extern 1 (preserves _ (with_ctx _)) => (apply with_ctx_ofm; done) : preserves.

Lemma register_ofm fd : preserves (fun p : process K => ofm_ (ctx p)) (register_internal_fd MAX_OPEN_FDS fd).
Proof. unfold register_internal_fd. preserve. Qed.

Lemma unregister_ofm fd : preserves (fun p : process K => ofm_ (ctx p)) (unregister_internal_fd MAX_OPEN_FDS fd).
Proof. unfold unregister_internal_fd. preserve. Qed.

Lemma register_gekko fd : preserves gekko (register MAX_OPEN_FDS fd : M C Z).
Proof. apply on_proc_gekko, register_ofm. Qed.

Lemma store_gekko addr v : preserves gekko (store addr v : M C ()).
Proof. by apply preserves_modify. Qed.

Lemma call_gekko c : preserves gekko (on_proc (sys c) : M C Z).
Proof. apply on_proc_gekko, sys_ofm. Qed.

Lemma close_gekko fd : preserves gekko (on_proc (unregister_internal_fd MAX_OPEN_FDS fd) : M C ()).
Proof. apply on_proc_gekko, unregister_ofm. Qed.

Lemma memory_gekko : preserves gekko (memory : M C K).
Proof. apply preserves_gets. Qed.
#[local] Hint Resolve register_gekko store_gekko call_gekko close_gekko memory_gekko : preserves.

Lemma register_at_gekko addr : preserves gekko (register_at MAX_OPEN_FDS addr : M C ()).
Proof. unfold register_at. preserve. Qed.
#[local] Hint Resolve register_at_gekko : preserves.

Lemma register_fds_gekko addrs : preserves gekko (register_fds MAX_OPEN_FDS addrs : M C ()).
Proof. induction addrs; cbn [register_fds]; preserve. Qed.
#[local] Hint Resolve register_fds_gekko : preserves.

Lemma hook_internal_call_gekko n a : preserves gekko (hook_internal_call MAX_OPEN_FDS n a : M C _).
Proof. unfold hook_internal_call. preserve. Qed.

Lemma hook_internal_gekko n a (t t' : T) r :
  hook_internal MAX_OPEN_FDS n a t = (r, t') ->
  gekko (cl t') = gekko (cl t) /\ reentrance_guard_flag t' = reentrance_guard_flag t /\ points t' = points t.
Proof.
  unfold hook_internal, m_bind at 1. rewrite on_client_run.
  destruct (hook_internal_call MAX_OPEN_FDS n a (cl t)) as [x c] eqn:E. apply hook_internal_call_gekko in E.
  cbn [fst snd]. destruct x as [[v|]|e|]; unfold m_ret, m_bind, save_current_syscall_info, m_modify;
    intros [= _ <-]; done.
Qed.

Lemma hook_flag n a (t t' : T) r :
  hook cfg d hosts_size MAX_OPEN_FDS str_hash junk link_fuel dirents_buffer log_errors n a t = (r, t') ->
  reentrance_guard_flag t' = reentrance_guard_flag t /\ points t' = points t.
Proof.
  unfold hook, m_bind at 1. rewrite on_client_run. cbn [fst snd memory m_gets].
  destruct (hook_call _ _ _ _ _ _ _ _ _ _ _ _) as [m|]; unfold m_bind.
  - rewrite on_client_run. cbn. destruct (m (cl t)) as [[] c]; by intros [= _ <-].
  - by intros [= _ <-].
Qed.

(** The way through the wrapper. *)
Lemma wrapper_served n a (t : T) m :
  interception_enabled_ (ctx (proc (cl t))) = true -> reentrance_guard_flag t = false ->
  hook_call cfg d hosts_size MAX_OPEN_FDS str_hash junk link_fuel dirents_buffer log_errors (os (proc (cl t))) n a
    = Some m ->
  wrapped n a t =
    let after c flag e := MkThread (MkClient (proc c) (net c) e) flag (saved_syscall_info t) (points t) in
    match m (cl t) with
    | (Ok v, c) => (Ok (Some v), after c false (errno (cl t)))
    | (Throw e, c) => (Throw e, after c true (errno c))
    | (Trap, c) => (Trap, after c true (errno c))
    end.
Proof.
  intros He Hf Hm. unfold hook_guard_wrapper, intercepting, m_bind, m_get, m_gets, m_assert. rewrite He. cbn [m_ret].
  rewrite Hf. unfold set_guard, m_modify, get_errno, m_gets, hook, m_bind.
  rewrite on_client_run. cbn [fst snd memory m_gets cl]. rewrite Hm, on_client_run. cbn [cl].
  destruct (m (cl t)) as [[v|e|] c]; cbn; [done|by destruct c..].
Qed.
End runs.

(** ** Descriptors the library keeps *)

Section descriptors.
Context {N : Type} {W : Network N} {K : Type} {KW : Kernel K} {MW : Memory K}.
Context (cfg : config) (d : Distributor) (hosts_size MAX_OPEN_FDS : Z).
Context (str_hash : str -> Z) (junk : Metadata) (link_fuel : nat) (dirents_buffer : list byte) (log_errors : bool).
Local Abbreviation C := (client N K).
Local Abbreviation T := (thread N K).
Local Abbreviation MIN := (MIN_INTERNAL_FD MAX_OPEN_FDS).
Local Abbreviation context t := (ctx (proc (cl t))).
Local Abbreviation kernel t := (os (proc (cl t))).

(** [close(fd)] of the application, and one for each descriptor of a list. *)
Definition app_close (fd : Z) : M T (option Z) :=
  hook_guard_wrapper cfg d hosts_size MAX_OPEN_FDS str_hash junk link_fuel dirents_buffer log_errors
    NR.close (MkArgs fd 0 0 0 0 0).

Fixpoint close_all (fds : list Z) : M T () :=
  match fds with
  | [] => m_ret tt
  | fd :: fds' => app_close fd ;;; close_all fds'
  end.

(** The kernel after the calls [close(fd)] for [fds]. *)
Definition closed (fds : list Z) (k : K) : K := foldl (fun k fd => (k_syscall (SYS_close fd) k).2) k fds.

(** The application may make calls. *)
Record app_ready (t : T) : Prop := {
  ar_enabled : interception_enabled_ (context t) = true;
  ar_flag : reentrance_guard_flag t = false;
  ar_table : length (internal_fds_ (context t)) = MAX_INTERNAL_FDS
}.

Lemma is_internal_total c fd : length (internal_fds_ c) = MAX_INTERNAL_FDS -> fd < MAX_OPEN_FDS ->
  exists b, is_internal_fd MAX_OPEN_FDS c fd = Ok b.
Proof.
  intros Hl Hfd. unfold is_internal_fd. destruct (Z.ltb_spec fd MIN); [by eexists|].
  destruct (lookup_lt_is_Some_2 (internal_fds_ c) (Z.to_nat (fd - MIN))) as [b ->]; [|by eexists].
  rewrite Hl. unfold MIN_INTERNAL_FD, MAX_INTERNAL_FDS in *. lia.
Qed.

(** One [close]: answered, the table of internal descriptors unchanged, and
    passed to the kernel only for a descriptor that is not internal. *)
Lemma app_close_run fd (t : T) :
  app_ready t -> 0 <= fd < MAX_OPEN_FDS -> MAX_OPEN_FDS < 2 ^ 31 ->
  exists v t' l, app_close fd t = (Ok v, t') /\ app_ready t' /\
    internal_fds_ (context t') = internal_fds_ (context t) /\ kernel t' = closed l (kernel t) /\
    forall x, x ∈ l -> is_internal_fd MAX_OPEN_FDS (context t) x = Ok false.
Proof.
  intros [He Hf Hl] Hfd Hmax. unfold app_close.
  rewrite (wrapper_served _ _ _ _ _ _ _ _ _ _ _ t (hook_close MAX_OPEN_FDS fd)); [|done|done|].
  2:{ cbn. by rewrite wraps_small by int_solve. }
  cbn zeta. unfold hook_close. rewrite by_fd_run. destruct (FileMap.exist _ fd).
  { eexists _, _, []. split; [done|]. split; [by split|]. split; [done|]. split; [done|]. set_solver. }
  unfold m_bind at 1, m_get. unfold m_bind at 1, m_lift.
  destruct (is_internal_total (context t) fd Hl (proj2 Hfd)) as [b Hb]. rewrite Hb. destruct b.
  { eexists _, _, []. split; [done|]. split; [by split|]. split; [done|]. split; [done|]. set_solver. }
  unfold pass, on_proc, sys, m_bind. rewrite k_syscall_pair. cbn.
  eexists _, _, [fd]. split; [done|]. split; [by split|]. split; [done|]. split; [done|].
  by intros x ->%list_elem_of_singleton.
Qed.

Lemma closed_app l l' k : closed (l ++ l') k = closed l' (closed l k).
Proof. apply foldl_app. Qed.

Lemma close_all_run fds (t : T) :
  app_ready t -> Forall (fun fd => 0 <= fd < MAX_OPEN_FDS) fds -> MAX_OPEN_FDS < 2 ^ 31 ->
  exists t' l, close_all fds t = (Ok tt, t') /\ internal_fds_ (context t') = internal_fds_ (context t) /\
    kernel t' = closed l (kernel t) /\
    forall x, x ∈ l -> is_internal_fd MAX_OPEN_FDS (context t) x = Ok false.
Proof.
  intros Hr Hfds Hmax. revert t Hr. induction Hfds as [|fd fds Hfd _ IH]; intros t Hr.
  { exists t, []. repeat split; set_solver. }
  destruct (app_close_run fd t Hr Hfd Hmax) as (v & t1 & l1 & E1 & Hr1 & Ht1 & Hk1 & Hl1).
  destruct (IH t1 Hr1) as (t2 & l2 & E2 & Ht2 & Hk2 & Hl2).
  exists t2, (l1 ++ l2). cbn [close_all]. unfold m_bind. rewrite E1. split; [done|]. split; [congruence|].
  rewrite closed_app, <- Hk1. split; [done|]. intros x [Hx|Hx]%elem_of_app; [by apply Hl1|].
  rewrite <- (Hl2 x Hx). unfold is_internal_fd. by rewrite Ht1.
Qed.

(** A call of the library that returns a descriptor has registered it. *)
Lemma creating_call_registers n a (t t1 : T) call ifd :
  256 <= MAX_OPEN_FDS -> internal_fds_must_relocate_ (context t) = true ->
  length (internal_fds_ (context t)) = MAX_INTERNAL_FDS ->
  (forall fd target k, let r := (k_syscall (SYS_dup3 fd target O_CLOEXEC) k).1 in
     syscall_error_code r = 0 -> r = target) ->
  creating_call (kernel t) n a = Some call ->
  hook_internal MAX_OPEN_FDS n a t = (Ok (Some ifd), t1) -> 0 <= ifd ->
  MIN <= ifd < MAX_OPEN_FDS /\ is_internal_fd MAX_OPEN_FDS (context t) ifd = Ok false /\
  is_internal_fd MAX_OPEN_FDS (context t1) ifd = Ok true /\
  length (internal_fds_ (context t1)) = MAX_INTERNAL_FDS /\
  interception_enabled_ (context t1) = interception_enabled_ (context t).
Proof.
  intros Hmax Hr Hl Hdup Hc E Hifd. unfold hook_internal in E.
  apply m_bind_inv in E as (v & t2 & E & E2). unfold on_client in E.
  assert (v = Some ifd /\ t2 = t1) as [-> ->] by (destruct v; [injection E2 as <- <-; done|discriminate E2]). clear E2.
  destruct (hook_internal_call MAX_OPEN_FDS n a (cl t)) as [v c1] eqn:Ec. injection E as -> <-. rename Ec into E.
  unfold hook_internal_call in E. unfold m_bind at 1, memory at 1, m_gets in E. rewrite Hc in E.
  unfold m_bind at 1, on_proc at 1, sys in E. rewrite k_syscall_pair in E.
  destruct (Z.leb_spec 0 (k_syscall call (kernel t)).1) as [Hres|Hres].
  2:{ unfold m_ret in E. injection E as <- _. lia. }
  set (p := MkProcess (context t) (k_syscall call (kernel t)).2) in *.
  unfold m_bind, register, on_proc in E. cbn [proc] in E.
  set (fd := i32 (k_syscall call (kernel t)).1) in *.
  destruct (register_internal_fd MAX_OPEN_FDS fd p) as [[x|e|] p'] eqn:Er; cbn in E; [|done|done].
  injection E as <- <-.
  assert (0 <= fd) as Hfd.
  { unfold register_internal_fd, m_bind at 1, m_assert in Er. destruct (Z.leb_spec 0 fd); [done|discriminate Er]. }
  pose proof (internal_fd_lifecycle MAX_OPEN_FDS fd p Hfd Hmax Hr Hl (fun target => Hdup fd target (os p))) as Hs.
  rewrite Er in Hs. destruct Hs as (Hrange & Hbefore & Hafter & _ & _).
  split; [done|]. split; [done|]. split; [done|].
  rewrite register_relocates in Er by done. destruct (find_first _) as [pos|]; [|done].
  rewrite k_syscall_pair in Er. destruct (_ =? 0); [|done]. injection Er as _ <-. cbn.
  by rewrite length_insert.
Qed.
End descriptors.

(** ** Properties of the wrapper *)

(** C15. The guard: a call that is made while another one is being served
    (the library's own) changes neither the open files nor the daemons,
    whatever its outcome; and a call that is answered leaves the guard, the
    hook points and the application's [errno] as it found them, although the
    file operations report their errors through [errno]. *)
Theorem guard_separates_calls {N : Type} {W : Network N} {K : Type} {KW : Kernel K} {MW : Memory K}
    (cfg : config) (d : Distributor) (hosts_size MAX_OPEN_FDS : Z) (str_hash : str -> Z) (junk : Metadata)
    (link_fuel : nat) (dirents_buffer : list byte) (log_errors : bool) (n : Z) (a : call_args)
    (t t' : thread N K) (r : res (option Z)) :
  hook_guard_wrapper cfg d hosts_size MAX_OPEN_FDS str_hash junk link_fuel dirents_buffer log_errors n a t = (r, t') ->
  (reentrance_guard_flag t = true ->
     reentrance_guard_flag t' = true /\ file_map (cl t') = file_map (cl t) /\ net (cl t') = net (cl t)) /\
  (is_ok r = true ->
     reentrance_guard_flag t' = reentrance_guard_flag t /\ errno (cl t') = errno (cl t) /\ points t' = points t).
Proof.
  unfold hook_guard_wrapper, intercepting, m_bind, m_get, m_gets, m_assert.
  destruct (interception_enabled_ _); cbn [m_ret m_trap]; [|by intros [= <- <-]].
  destruct (reentrance_guard_flag t) eqn:Hf; unfold get_errno, m_gets, set_guard, m_modify, put_errno.
  - destruct (hook_internal MAX_OPEN_FDS n a t) as [x t1] eqn:E.
    apply hook_internal_gekko in E as (Hg & Hf1 & Hp). injection Hg as Ho Hn He. rewrite Hf in Hf1.
    destruct x; try rewrite on_client_run; cbn; unfold m_ret; intros [= <- <-]; done.
  - intros E. split; [done|].
    match type of E with context [hook ?x1 ?x2 ?x3 ?x4 ?x5 ?x6 ?x7 ?x8 ?x9 n a ?s] =>
      destruct (hook x1 x2 x3 x4 x5 x6 x7 x8 x9 n a s) as [x t1] eqn:Eh end.
    apply hook_flag in Eh as [_ Hp].
    destruct x; try rewrite on_client_run in E; cbn in E; unfold m_ret in E; injection E as <- <-; done.
Qed.


(** [dup2] does not respect the library's descriptors: for an old
    descriptor that is not GekkoFS's, the call goes to the kernel whatever
    the new descriptor is, so an application can replace a descriptor the
    library keeps; the library still takes it for its own. *)
Theorem dup2_replaces_internal {N : Type} {W : Network N} {K : Type} {KW : Kernel K} {MW : Memory K}
    (cfg : config) (d : Distributor) (hosts_size MAX_OPEN_FDS : Z) (str_hash : str -> Z) (junk : Metadata)
    (link_fuel : nat) (dirents_buffer : list byte) (log_errors : bool) (oldfd ifd : Z) (t : thread N K) :
  app_ready t -> in_s 32 oldfd -> in_s 32 ifd -> FileMap.exist (file_map (cl t)) oldfd = false ->
  is_internal_fd MAX_OPEN_FDS (ctx (proc (cl t))) ifd = Ok true ->
  exists v t', hook_guard_wrapper cfg d hosts_size MAX_OPEN_FDS str_hash junk link_fuel dirents_buffer log_errors
      NR.dup2 (MkArgs oldfd ifd 0 0 0 0) t = (Ok (Some v), t') /\
    os (proc (cl t')) = (k_syscall (SYS_dup2 oldfd ifd) (os (proc (cl t)))).2 /\
    is_internal_fd MAX_OPEN_FDS (ctx (proc (cl t'))) ifd = Ok true.
Proof.
  intros [He Hf Hl] Ho Hi Hex Hint.
  rewrite (wrapper_served _ _ _ _ _ _ _ _ _ _ _ t (hook_dup2 oldfd ifd)); [|done|done|].
  2:{ cbn. by rewrite !wraps_small. }
  cbn zeta. unfold hook_dup2. rewrite by_fd_run, Hex. unfold pass, on_proc, sys, m_bind. rewrite k_syscall_pair.
  cbn. by eexists _, _.
Qed.

(** ** Writing and reading with system calls *)

(** Storing bytes and reading them back. *)
Class MemoryLaws {K} (MW : Memory K) := {
  mem_bytes_length : forall k addr n, 0 <= n -> Z.of_nat (length (mem_bytes k addr n)) = n;
  mem_put_bytes : forall k addr bs n, 0 <= n <= Z.of_nat (length bs) ->
    mem_bytes (mem_put addr (Bytes bs) k) addr n = take (Z.to_nat n) bs
}.

Lemma get_exist (m : OpenFileMap) fd q : FileMap.get m fd = Some q -> FileMap.exist m fd = true.
Proof. unfold FileMap.get, FileMap.exist. intros H. by apply bool_decide_eq_true_2. Qed.

Section system_calls.
Context {D F K : Type} (R : RocksDB D) (P : PosixFS F) (L : PosixFSLaws P) (KW : Kernel K) (MW : Memory K).
Context (cfg : config) (junk : Metadata) (st : ChunkStorage) (str_hash : str -> Z) (env : margo_env).
Context (time localhost_ hosts_size MAX_OPEN_FDS : Z).
Context (link_fuel : nat) (dirents_buffer : list byte) (log_errors : bool).
Local Abbreviation d := (SimpleHashDistributor str_hash localhost_ hosts_size).
Local Abbreviation cluster_net := (ClusterNet (R := R) (P := P) cfg junk st str_hash env time).
Local Abbreviation T := (thread (cluster D F) K).
Local Abbreviation kernel t := (os (proc (cl t))).
Local Abbreviation write_ := (fs_write R P cfg junk st str_hash env time localhost_ hosts_size).
Local Abbreviation read_ := (fs_read R P cfg junk st str_hash env time localhost_ hosts_size).
Local Abbreviation lseek_ := (fs_lseek R P cfg junk st str_hash env time localhost_ hosts_size).

(** A system call of the application. *)
Definition app_call (n x y z : Z) : M T (option Z) :=
  hook_guard_wrapper (W := cluster_net) cfg d hosts_size MAX_OPEN_FDS str_hash junk link_fuel dirents_buffer log_errors
    n (MkArgs x y z 0 0 0).

(** The thread after a served call that ended in client state [c]. *)
Definition returned (t : T) (c : client (cluster D F) K) : T :=
  MkThread (MkClient (proc c) (net c) (errno (cl t))) false (saved_syscall_info t) (points t).

Lemma served_write (t : T) fd addr size c q :
  app_ready t -> in_s 32 fd -> 0 <= size < 2 ^ 31 -> FileMap.get (file_map (cl t)) fd = Some q ->
  write_ fd (mem_bytes (kernel t) addr size) size (cl t) = (Ok size, c) ->
  app_call NR.write fd addr size t = (Ok (Some size), returned t c).
Proof using.
  intros [He Hf _] Hfd Hs Hex E. apply get_exist in Hex. unfold app_call.
  rewrite (wrapper_served (W := cluster_net) _ _ _ _ _ _ _ _ _ _ _ t
    (hook_write (W := cluster_net) cfg d hosts_size (i32 fd) (mem_bytes (kernel t) addr (u64 size)) (u64 size)));
    [|done|done|reflexivity].
  unfold hook_write. rewrite (wraps_small 32), (wrapu_small 64), by_fd_run, Hex by (done || int_solve).
  unfold with_errno, m_bind. unfold fs_write in E. rewrite E.
  rewrite (wraps_small 32 size), (proj2 (Z.ltb_ge size 0)) by int_solve. done.
Qed.

Lemma served_lseek (t : T) fd off c q :
  app_ready t -> in_s 32 fd -> 0 <= off < 2 ^ 63 -> FileMap.get (file_map (cl t)) fd = Some q ->
  lseek_ fd off SEEK_SET (cl t) = (Ok off, c) ->
  app_call NR.lseek fd off SEEK_SET t = (Ok (Some off), returned t c).
Proof using.
  intros [He Hf _] Hfd Hs Hex E. apply get_exist in Hex. unfold app_call.
  rewrite (wrapper_served (W := cluster_net) _ _ _ _ _ _ _ _ _ _ _ t
    (hook_lseek (W := cluster_net) d hosts_size (i32 fd) (i64 off) (u32 SEEK_SET)));
    [|done|done|reflexivity].
  unfold hook_lseek.
  rewrite (wraps_small 32), (wraps_small 64), (wrapu_small 32), by_fd_run, Hex by (done || int_solve).
  unfold m_bind. unfold fs_lseek in E. rewrite E.
  rewrite (proj2 (Z.ltb_ge (2 ^ 63 - 1) off)), (proj2 (Z.ltb_ge off 0)) by lia. done.
Qed.

Lemma served_read (t : T) fd addr size c q r bs :
  app_ready t -> in_s 32 fd -> 0 <= size < 2 ^ 31 -> FileMap.get (file_map (cl t)) fd = Some q ->
  read_ fd (mem_bytes (kernel t) addr size) size (cl t) = (Ok (r, bs), c) -> 0 <= r < 2 ^ 31 ->
  app_call NR.read fd addr size t =
    (Ok (Some r), returned t (MkClient (MkProcess (ctx (proc c)) (mem_put addr (Bytes bs) (os (proc c)))) (net c) (errno c))).
Proof using.
  intros [He Hf _] Hfd Hs Hex E Hr. apply get_exist in Hex. unfold app_call.
  rewrite (wrapper_served (W := cluster_net) _ _ _ _ _ _ _ _ _ _ _ t
    (put addr Bytes (hook_read (W := cluster_net) cfg d hosts_size (i32 fd)
    (mem_bytes (kernel t) addr (u64 size)) (u64 size))));
    [|done|done|reflexivity].
  unfold put, hook_read, m_bind at 1.
  rewrite (wraps_small 32), (wrapu_small 64), by_fd_run, Hex by (done || int_solve).
  unfold with_errno_buf, with_errno, m_bind. unfold fs_read in E. rewrite E. cbn [fst snd m_ret].
  unfold m_ret. rewrite (wraps_small 32 r), (proj2 (Z.ltb_ge r 0)) by int_solve. done.
Qed.

(** Moving the position keeps the application ready and the kernel as it
    was. *)
Lemma ready_returned (t : T) c q v :
  app_ready t -> proc c = moved q v (proc (cl t)) -> app_ready (returned t c) /\ kernel (returned t c) = kernel t.
Proof using. intros [He Hf Hl] E. unfold returned. split; [split|]; cbn; by rewrite ?E. Qed.

Lemma open_returned (t : T) c fd q o offset :
  open_regular_at c fd q o offset -> open_regular_at (cl (returned t c)) fd q o offset.
Proof using. by intros []. Qed.

(** C1. Files through system calls: after a complete write of [size] bytes
    at [a] through the interception, [lseek] back and a [read] to [b] leave
    at [b] the bytes that were at [a], unless the read fails; the results
    are the sizes and the offset, and the application's [errno] and the
    guard are untouched. *)
Theorem system_calls_round_trip (LD : RocksDBLaws R (FullMergeV2 cfg junk)) (ML : MemoryLaws MW)
    (t : T) (c1 : client (cluster D F) K) (fd a b size offset : Z) (q : nat) (o : OpenFile) :
  app_ready t -> in_s 32 fd -> size < 2 ^ 31 -> zero_buffer_before_read cfg = false ->
  data_ok cfg st env hosts_size offset size (path_ o) ->
  Z.of_nat (length (daemons (net (cl t)))) = hosts_size ->
  open_regular_at (cl t) fd q o offset ->
  write_ fd (mem_bytes (kernel t) a size) size (cl t) = (Ok size, c1) ->
  exists t1 t2, app_call NR.write fd a size t = (Ok (Some size), t1) /\
    app_call NR.lseek fd offset SEEK_SET t1 = (Ok (Some offset), t2) /\ kernel t2 = kernel t /\
    forall r bs c3, read_ fd (mem_bytes (kernel t2) b size) size (cl t2) = (Ok (r, bs), c3) -> 0 < r ->
    exists t3, app_call NR.read fd b size t2 = (Ok (Some size), t3) /\
      mem_bytes (kernel t3) b size = mem_bytes (kernel t) a size /\
      errno (cl t3) = errno (cl t) /\ reentrance_guard_flag t3 = false.
Proof using L.
  intros Hr Hfd H31 Hz Hd Hl Hor Ew. pose proof Hd as [Hf _ _ _ Hh Ho Hs Hb _ _].
  pose proof (mem_bytes_length (kernel t) a size ltac:(lia)) as Hbuf.
  destruct (write_effect R P L cfg junk st str_hash env time localhost_ hosts_size LD (cl t) c1 fd q o
    (mem_bytes (kernel t) a size) offset size Hd Hl (Z.eq_le_incl _ _ (eq_sym Hbuf)) Hor Ew) as (L1 & H1 & _ & _ & P1).
  pose proof (served_write t fd a size c1 q Hr Hfd ltac:(lia) (or_fd _ _ _ _ _ Hor) Ew) as E1.
  destruct (ready_returned t c1 _ _ Hr P1) as [Hr1 Hk1].
  pose proof (open_returned t c1 _ _ _ _ (open_regular_moved (cl t) c1 fd q o offset _ Hor P1)) as Hor1.
  set (t1 := returned t c1) in *.
  destruct (lseek_set R P cfg junk st str_hash env time localhost_ hosts_size (cl t1) fd q _ _ offset Hor1
    ltac:(lia)) as (c2 & Ex & N2 & P2).
  pose proof (served_lseek t1 fd offset c2 q Hr1 Hfd ltac:(lia) (or_fd _ _ _ _ _ Hor1) Ex) as E2.
  destruct (ready_returned t1 c2 _ _ Hr1 P2) as [Hr2 Hk2].
  pose proof (open_returned t1 c2 _ _ _ _ (open_regular_moved (cl t1) c2 fd q _ _ _ Hor1 P2)) as Hor2.
  rewrite wrapu_small in Hor2 by int_solve. set (t2 := returned t1 c2) in *.
  exists t1, t2. split; [done|]. split; [done|]. split; [congruence|]. intros r bs c3 Er Hr0.
  assert (net (cl t2) = net c1) as Hn by (cbn; by rewrite N2).
  pose proof (mem_bytes_length (kernel t2) b size ltac:(lia)) as Hb2.
  destruct (read_back R P L cfg junk st str_hash env time localhost_ hosts_size (cl t2) c3 fd q
    (set_pos offset (set_pos (offset + size) o)) (mem_bytes (kernel t) a size) (mem_bytes (kernel t2) b size) bs offset size r Hd
    ltac:(rewrite Hn, L1; exact Hl) (Z.eq_le_incl _ _ (eq_sym Hbuf)) (Z.eq_le_incl _ _ (eq_sym Hb2)) Hz Hor2 ltac:(by rewrite Hn) Er Hr0) as (-> & Ebs & P3).
  pose proof (served_read t2 fd b size c3 q size bs Hr2 Hfd ltac:(lia) (or_fd _ _ _ _ _ Hor2) Er ltac:(lia)) as E3.
  eexists. split; [exact E3|]. split; [|done]. cbn [returned cl proc os ctx].
  assert (length (take (Z.to_nat size) bs) = Z.to_nat size) as Hlen by (rewrite Ebs, length_take; lia).
  rewrite length_take in Hlen. rewrite mem_put_bytes by lia. rewrite Ebs. apply take_ge. lia.
Qed.
End system_calls.

(** ** Witnesses *)

(** A machine with a small kernel and a memory of bytes. *)
Record small_machine := MkMachine { sm_kernel : small_kernel; sm_mem : gmap Z ascii }.

Definition load (m : gmap Z ascii) (addr n : Z) : list byte := (fun i => default NUL (m !! (addr + i))) <$> seqZ 0 n.
Definition save (m : gmap Z ascii) (addr : Z) (bs : list byte) : gmap Z ascii :=
  list_to_map (zip_with (fun i b => (addr + i, b)) (seqZ 0 (Z.of_nat (length bs))) bs) ∪ m.

#[export] Instance SmallMachine : Kernel small_machine := {|
  k_syscall c k := let '(r, k') := sk_syscall c (sm_kernel k) in (r, MkMachine k' (sm_mem k));
  syscall_error_code r := if r <? 0 then - r else 0;
  k_getcwd k := Some (sk_cwd (sm_kernel k));
  k_lstat _ _ := Some S_IFDIR;
  k_realpath _ _ := None;
  k_getenv k := sk_env (sm_kernel k);
  k_setenv p k := (0, MkMachine (k_setenv p (sm_kernel k)).2 (sm_mem k));
  k_unsetenv k := (0, MkMachine (k_unsetenv (sm_kernel k)).2 (sm_mem k))
|}.

#[export] Instance SmallMemory : Memory small_machine := {|
  mem_int k addr := wraps 32 (le_value (load (sm_mem k) addr 4));
  mem_str k addr := cstr (load (sm_mem k) addr 64);
  mem_bytes k addr n := load (sm_mem k) addr n;
  mem_iov k _ _ := [];
  mem_cmsgs k _ := [];
  mem_put addr v k :=
    match v with
    | Int v => MkMachine (sm_kernel k) (save (sm_mem k) addr (le_bytes 4 v))
    | Bytes bs => MkMachine (sm_kernel k) (save (sm_mem k) addr bs)
    | _ => k
    end
|}.

Lemma save_load m addr bs n : 0 <= n <= Z.of_nat (length bs) -> load (save m addr bs) addr n = take (Z.to_nat n) bs.
Proof.
  intros Hn. apply list_eq. intros i. unfold load. rewrite list_lookup_fmap.
  destruct (decide (i < Z.to_nat n)%nat) as [Hi|Hi].
  2:{ rewrite lookup_take_ge by lia. rewrite (lookup_ge_None_2 (seqZ 0 n)) by (rewrite length_seqZ; lia). done. }
  rewrite lookup_take_lt, lookup_seqZ_lt by lia. cbn.
  destruct (lookup_lt_is_Some_2 bs i ltac:(lia)) as [b Hb]. rewrite Hb. f_equal.
  unfold save. erewrite lookup_union_Some_l; [done|].
  apply elem_of_list_to_map_1.
  - assert (zip_with (fun i b => (addr + i, b)) (seqZ 0 (Z.of_nat (length bs))) bs =
      zip ((fun i => addr + i) <$> seqZ 0 (Z.of_nat (length bs))) bs) as ->.
    { by rewrite zip_with_fmap_l. }
    change (fst <$> ?l) with (l.*1). rewrite fst_zip by (rewrite length_fmap, length_seqZ; lia).
    apply NoDup_fmap_2; [intros x y; lia|]. apply NoDup_seqZ.
  - apply list_elem_of_lookup. exists i. rewrite lookup_zip_with, Hb, lookup_seqZ_lt by lia. done.
Qed.

#[export] Instance SmallMemory_laws : MemoryLaws SmallMemory.
Proof.
  split; cbn.
  - intros k addr n Hn. unfold load. rewrite length_fmap, length_seqZ. lia.
  - intros k addr bs n Hn. by apply save_load.
Qed.

(** The library makes a call that opens 5 while it serves another. *)
Definition small_machine_process : process small_machine :=
  MkProcess (ctx small_process) (MkMachine (os small_process) ∅).
Definition library_thread : thread () small_machine :=
  MkThread (MkClient small_machine_process () 7) true 0 (MkHooks (Some hook_guard) true true true).

Local Abbreviation any_d := (SimpleHashDistributor (fun _ => 0) 0 1).
Local Abbreviation any_thread := (MkThread (MkClient small_machine_process () 7) false 0
  (MkHooks (Some hook_guard) true true true)).
Local Abbreviation dup3_call := (MkArgs 5 9 0 0 0 0).
Local Abbreviation registered := (hook_internal 1024 NR.dup3 dup3_call library_thread).

Lemma guard_separates_calls_witness :
  errno (cl (hook_guard_wrapper (W := hook_net) default_config any_d 1 1024 (fun _ => 0) example_md 0 [] false
    NR.close dup3_call any_thread).2) = 7.
Proof.
  refine (proj1 (proj2 (proj2 (guard_separates_calls (W := hook_net) default_config any_d 1 1024 (fun _ => 0) example_md
    0 [] false NR.close dup3_call any_thread _ (Ok (Some 0)) _) _))).
  - vm_compute. reflexivity.
  - reflexivity.
Defined.

Lemma small_dup3 (fd target : Z) (k : small_machine) :
  let r := (k_syscall (SYS_dup3 fd target O_CLOEXEC) k).1 in syscall_error_code r = 0 -> r = target.
Proof. cbn. case_decide; cbn; [done|]. intros Hr. by vm_compute in Hr. Qed.

Lemma registered_769 : registered.1 = Ok (Some 769).
Proof. vm_compute. reflexivity. Qed.


Lemma dup2_replaces_internal_witness : exists v t',
  hook_guard_wrapper (W := hook_net) default_config any_d 1 1024 (fun _ => 0) example_md 0 [] false
    NR.dup2 (MkArgs 5 768 0 0 0 0) any_thread = (Ok (Some v), t') /\
  os (proc (cl t')) = (k_syscall (SYS_dup2 5 768) (os (proc (cl any_thread)))).2 /\
  is_internal_fd 1024 (ctx (proc (cl t'))) 768 = Ok true.
Proof.
  apply (dup2_replaces_internal (W := hook_net) default_config any_d 1 1024 (fun _ => 0) example_md 0 [] false
    5 768 any_thread).
  - by split.
  - int_solve.
  - int_solve.
  - reflexivity.
  - reflexivity.
Defined.

(** The application of [FileSystem]'s example, with its data at 100. *)
Definition app_thread : thread (cluster (gmap str db_entry) memfs) small_machine :=
  MkThread (MkClient (MkProcess (set_internal_fds (replicate 256 true) (ctx (proc small_client)))
      (MkMachine (os small_process) (save ∅ 100 (s_ "abcdefghij")))) (net small_client) 7) false 0
    (MkHooks (Some hook_guard) true true true).

Local Abbreviation app_fs f :=
  (f (gmap str db_entry) memfs small_machine (MemDB (FullMergeV2 small_config example_md)) MemFS
     small_config example_md small_store last_char_hash good_env 0 0 2).
Local Abbreviation app_write := (app_fs (@fs_write) 10000 (mem_bytes (os (proc (cl app_thread))) 100 10) 10 (cl app_thread)).

Lemma app_write_ok : app_write.1 = Ok 10.
Proof. vm_compute. reflexivity. Qed.

Lemma app_open : open_regular_at (cl app_thread) 10000 0 small_file 3.
Proof. split; by vm_compute. Qed.

Lemma system_calls_round_trip_witness : exists t1 t2,
  app_call (MemDB (FullMergeV2 small_config example_md)) MemFS SmallMachine SmallMemory small_config example_md
    small_store last_char_hash good_env 0 0 2 1024 0 [] false NR.write 10000 100 10 app_thread = (Ok (Some 10), t1) /\
  app_call (MemDB (FullMergeV2 small_config example_md)) MemFS SmallMachine SmallMemory small_config example_md
    small_store last_char_hash good_env 0 0 2 1024 0 [] false NR.lseek 10000 3 SEEK_SET t1 = (Ok (Some 3), t2).
Proof.
  destruct (system_calls_round_trip (MemDB (FullMergeV2 small_config example_md)) MemFS _ SmallMachine SmallMemory
    small_config example_md small_store last_char_hash good_env 0 0 2 1024 0 [] false (MemDB_laws _) SmallMemory_laws
    app_thread app_write.2 10000 100 200 10 3 0 small_file) as (t1 & t2 & H1 & H2 & _).
  - by split.
  - int_solve.
  - lia.
  - reflexivity.
  - exact small_data_ok.
  - reflexivity.
  - exact app_open.
  - by rewrite <- app_write_ok, <- surjective_pairing.
  - exists t1, t2. split; [exact H1|exact H2].
Defined.

(** The three calls on this machine. *)
Example app_round_trip :
  let call_ := app_call (MemDB (FullMergeV2 small_config example_md)) MemFS SmallMachine SmallMemory small_config
    example_md small_store last_char_hash good_env 0 0 2 1024 0 [] false in
  let out := (let* w := call_ NR.write 10000 100 10 in let* x := call_ NR.lseek 10000 3 SEEK_SET in
              let* y := call_ NR.read 10000 200 10 in m_ret (w, x, y)) app_thread in
  out.1 = Ok (Some 10, Some 3, Some 10) /\
  mem_bytes (os (proc (cl out.2))) 200 10 = s_ "abcdefghij" /\ errno (cl out.2) = 7.
Proof. vm_compute. done. Qed.
