(* ===== verification/Preload.v ===== *)
(** * Start and end of the client library ([src/client/preload.cpp],
    [src/client/rpc/forward_management.cpp]; the daemon's answer is
    [src/daemon/handler/srv_management.cpp])

    [init_preload] runs before the application's [main]: it protects the
    application's descriptors, finds the daemons, chooses the distributor,
    fetches the configuration from a daemon and starts the interception.
    Starting the network engine, looking up an address and the exchange of
    the configuration request are parameters; the forwarding map file is
    what successive attempts find in it. *)

From S2P Require Import Prelude Config PathUtil Distributor Metadata ChunkStorage SrvData SrvMetadata Rpc Cluster Wire.
From S2P Require Import OpenFileMap Kernel PreloadContext GkfsFunctions Hooks HostFile Intercept.

(** ** The configuration of a daemon *)

(** [FsData]: the part of the daemon's state that is configuration. *)
Module FsData.
Record data := Mk {
  rootdir : str;
  mountdir : str;
  metadir : str;
  bind_addr : str;
  hosts_file : str;
  atime_state : bool;
  mtime_state : bool;
  ctime_state : bool;
  link_cnt_state : bool;
  blocks_state : bool
}.
End FsData.

(** [rpc_srv_get_fs_config]; [uid] and [gid] are those of the daemon's
    process. *)
Definition rpc_srv_get_fs_config (fsd : FsData.data) (uid gid : Z) : list hg_value :=
  [c_str (FsData.mountdir fsd); c_str (FsData.rootdir fsd); VBool (FsData.atime_state fsd);
   VBool (FsData.mtime_state fsd); VBool (FsData.ctime_state fsd); VBool (FsData.link_cnt_state fsd);
   VBool (FsData.blocks_state fsd); VUint32 (u32 uid); VUint32 (u32 gid)].

(** [fs_config::output]: the mount point and the configuration; a null
    string leaves the member empty. *)
Definition fs_config_output (vs : list hg_value) : option (str * FsConfig) :=
  match vs with
  | [VString mountdir; VString rootdir; VBool atime; VBool mtime; VBool ctime; VBool link_cnt; VBool blocks;
     VUint32 uid; VUint32 gid] =>
      Some (default [] mountdir, MkFsConfig atime mtime ctime link_cnt blocks uid gid (default [] rootdir))
  | _ => None
  end.

(** ** State *)

(** A process that uses the library: its thread and context, the machine,
    the network engine, the distributor and the endpoints of the context,
    whether [init_ld_environment_] has run and whether the mapper thread is
    to go on. *)
Record session (N K E : Type) := MkSession {
  thr : thread N K;
  machine : host_os;
  ld_network_service : bool;
  distributor_ : option Distributor;
  endpoints : list (option E);
  init_env_thread : bool;
  forwarding_running : bool
}.
Arguments MkSession {N K E} thr machine ld_network_service distributor_ endpoints init_env_thread forwarding_running.
Arguments thr {N K E} s.
Arguments machine {N K E} s.
Arguments ld_network_service {N K E} s.
Arguments distributor_ {N K E} s.
Arguments endpoints {N K E} s.
Arguments init_env_thread {N K E} s.
Arguments forwarding_running {N K E} s.

Definition EXIT_FAILURE : Z := 1.

Section preload.
Context {N K E : Type} {KW : Kernel K}.
Context (cfg : config) (MAX_OPEN_FDS : Z) (str_hash : str -> Z).
(** The engine can be created; the network's answers to lookups; the order
    of the ids; the answer of the daemon at an endpoint to the request for
    the configuration ([None]: an exception); whether the command line can
    be read. *)
Context (engine_ok : bool) (lookup : str -> nat -> option E) (shuffle : nat -> list nat).
Context (fetch : E -> option (list hg_value)) (cmdline_ok : bool).
(** What the attempts to read the forwarding map find, and how many are
    looked at. *)
Context (forwarding_file : nat -> option str) (fuel : nat).
Local Abbreviation S := (session N K E).

Definition with_thread {A} (f : M (thread N K) A) : M S A := fun s =>
  let '(r, t) := f (thr s) in
  (r, MkSession t (machine s) (ld_network_service s) (distributor_ s) (endpoints s) (init_env_thread s)
        (forwarding_running s)).
Definition in_process {A} (f : M (process K) A) : M S A := with_thread (on_client (on_proc f)).
Definition in_ctx (f : PreloadContext -> PreloadContext) : M S () := in_process (with_ctx f).
Definition the_ctx (s : S) : PreloadContext := ctx (proc (cl (thr s))).

Definition set_service (b : bool) : M S () := m_modify (fun s =>
  MkSession (thr s) (machine s) b (distributor_ s) (endpoints s) (init_env_thread s) (forwarding_running s)).
Definition set_distributor (d : Distributor) : M S () := m_modify (fun s =>
  MkSession (thr s) (machine s) (ld_network_service s) (Some d) (endpoints s) (init_env_thread s) (forwarding_running s)).
Definition set_endpoints (es : list (option E)) : M S () := m_modify (fun s =>
  MkSession (thr s) (machine s) (ld_network_service s) (distributor_ s) es (init_env_thread s) (forwarding_running s)).
Definition set_once : M S () := m_modify (fun s =>
  MkSession (thr s) (machine s) (ld_network_service s) (distributor_ s) (endpoints s) true (forwarding_running s)).
Definition set_running (b : bool) : M S () := m_modify (fun s =>
  MkSession (thr s) (machine s) (ld_network_service s) (distributor_ s) (endpoints s) (init_env_thread s) b).

(** [CTX->hosts(..)]: the endpoints, and their number in the context. *)
Definition ctx_hosts (es : list (option E)) : M S () :=
  set_endpoints es ;;; in_ctx (hosts (Z.of_nat (length es))).

(** ** Steps *)

Definition exit_error_msg (errcode : Z) {A} : M S A :=
  with_thread stop_interception ;;;
  in_ctx (set_interception false) ;;;
  m_throw (Exit errcode).

Definition init_hermes_client : M S bool :=
  if engine_ok then set_service true ;;; m_ret true else m_ret false.

(** [load_hosts] in its [try] block. *)
Definition load_hosts_step : M S () :=
  let* s := m_get in
  match load_hosts (machine s) lookup shuffle with
  | Ok (addrs, local) => in_ctx (local_host_id (Z.of_nat local)) ;;; ctx_hosts addrs
  | Throw _ => exit_error_msg EXIT_FAILURE
  | Trap => m_trap
  end.

(** [load_forwarding_map] in its [try] block; running out of attempts is
    [Trap]. *)
Definition load_forwarding_map_step : M S () :=
  let* s := m_get in
  match load_forwarding_map (machine s) fuel forwarding_file with
  | Some (Ok f) => in_ctx (fwd_host_id f)
  | Some (Throw _) => exit_error_msg EXIT_FAILURE
  | Some Trap | None => m_trap
  end.

Definition set_fs_conf (f : FsConfig) (c : PreloadContext) : PreloadContext :=
  MkContext (ofm_ c) f (cwd_ c) (mountdir_components_ c) (mountdir_ c) (hosts_size_ c) (local_host_id_ c)
    (fwd_host_id_ c) (interception_enabled_ c) (internal_fds_ c) (internal_fds_must_relocate_ c) (protected_fds_ c).

(** [hosts().at(..)] is outside the [try] block; an endpoint that was not
    looked up cannot be used. *)
Definition forward_get_fs_config : M S bool :=
  let* s := m_get in
  match endpoints s !! Z.to_nat (local_host_id_ (the_ctx s)) with
  | None => m_throw OutOfRange
  | Some endp =>
      match (endp ≫= fetch) ≫= fs_config_output with
      | None => m_ret false
      | Some (mountdir, conf) =>
          let* c := m_gets the_ctx in
          let* c := m_lift (set_mountdir mountdir c) in
          in_ctx (fun _ => c) ;;;
          in_ctx (set_fs_conf conf) ;;;
          m_ret true
      end
  end.

Definition init_ld_environment_ : M S () :=
  let* up := init_hermes_client in
  (if (up : bool) then m_ret tt else exit_error_msg EXIT_FAILURE) ;;;
  load_hosts_step ;;;
  (if enable_forwarding cfg then
     load_forwarding_map_step ;;;
     let* c := m_gets the_ctx in
     set_distributor (ForwarderDistributor str_hash (fwd_host_id_ c) (hosts_size_ c))
   else
     let* c := m_gets the_ctx in
     set_distributor (SimpleHashDistributor str_hash (local_host_id_ c) (hosts_size_ c))) ;;;
  let* got := forward_get_fs_config in
  if (got : bool) then m_ret tt else exit_error_msg EXIT_FAILURE.

(** [pthread_once]. *)
Definition init_ld_env_if_needed : M S () :=
  let* done_ := m_gets init_env_thread in
  if (done_ : bool) then m_ret tt else set_once ;;; init_ld_environment_.

(** Throws when the file cannot be opened or read. *)
Definition log_prog_name : M S () := if cmdline_ok then m_ret tt else m_throw RuntimeError.

(** One iteration of the mapper thread. *)
Definition forwarding_mapper_step : M S () :=
  let* run := m_gets forwarding_running in
  if (run : bool) then load_forwarding_map_step else m_ret tt.

Definition init_forwarding_mapper : M S () := set_running true.
Definition destroy_forwarding_mapper : M S () := set_running false.

(** ** Start and end *)

Definition init_preload : M S () :=
  in_ctx (set_interception true) ;;;
  with_thread start_self_interception ;;;
  in_process (protect_user_fds MAX_OPEN_FDS) ;;;
  log_prog_name ;;;
  in_process init_cwd ;;;
  init_ld_env_if_needed ;;;
  in_ctx (set_interception true) ;;;
  in_process unprotect_user_fds ;;;
  (if enable_forwarding cfg then init_forwarding_mapper else m_ret tt) ;;;
  with_thread start_interception.

Definition destroy_preload : M S () :=
  (if enable_forwarding cfg then destroy_forwarding_mapper else m_ret tt) ;;;
  ctx_hosts [] ;;;
  set_service false ;;;
  with_thread stop_interception ;;;
  in_ctx (set_interception false).
End preload.

(** ** Protecting the descriptors *)

Section protection.
Context {K : Type} {KW : Kernel K} (MAX_OPEN_FDS : Z).
Local Abbreviation MIN := (MIN_INTERNAL_FD MAX_OPEN_FDS).

(** The kernel opens [/dev/null] below the private range and duplicates it. *)
Record kernel_protects : Prop := {
  kp_null : forall k, let r := (k_syscall SYS_open_null k).1 in 0 <= r < MIN /\ syscall_error_code r = 0;
  kp_dup3 : forall fd fd' k, syscall_error_code (k_syscall (SYS_dup3 fd fd' O_CLOEXEC) k).1 = 0
}.

Lemma protect_loop_run nullfd fds (p : process K) :
  kernel_protects -> Forall (fun fd => 0 <= fd < MIN) fds -> Z.of_nat (length (protected_fds_ (ctx p))) = MIN ->
  exists k b, length b = length (protected_fds_ (ctx p)) /\
    protect_loop nullfd fds p = (Ok tt, MkProcess (set_protected b (internal_fds_must_relocate_ (ctx p)) (ctx p)) k).
Proof.
  intros HK Hfds. revert p. induction Hfds as [|fd fds Hfd _ IH]; intros p Hl; cbn [protect_loop].
  { exists (os p), (protected_fds_ (ctx p)). split; [done|]. unfold m_ret, set_protected. by destruct p as [[] ?]. }
  unfold m_bind at 1, sys at 1. rewrite k_syscall_pair.
  set (k1 := (k_syscall (SYS_fcntl fd F_GETFD 0) (os p)).2). destruct (_ || _).
  { destruct (IH (MkProcess (ctx p) k1)) as (k & b & Hb & E); [done|]. by exists k, b. }
  unfold m_bind at 1, sys at 1. cbn [ctx os]. rewrite k_syscall_pair.
  set (k2 := (k_syscall (SYS_dup3 nullfd fd O_CLOEXEC) k1).2).
  pose proof (kp_dup3 HK nullfd fd k1) as Hd. cbn zeta in Hd.
  unfold m_bind at 1, m_assert. rewrite (proj2 (Z.eqb_eq _ _) Hd). cbn [m_ret].
  unfold m_bind at 1, m_gets. unfold m_bind at 1, m_lift, bit_set. cbn [ctx].
  rewrite (proj2 (Z.leb_le 0 fd)), (proj2 (Z.ltb_lt fd _)) by lia. cbn [andb].
  unfold m_bind at 1, with_ctx, m_modify. cbn [ctx os].
  destruct (IH (MkProcess (set_protected (<[Z.to_nat fd:=true]> (protected_fds_ (ctx p)))
    (internal_fds_must_relocate_ (ctx p)) (ctx p)) k2)) as (k & b & Hb & E).
  { cbn. by rewrite length_insert. }
  exists k, b. cbn in Hb. rewrite length_insert in Hb. split; [done|]. rewrite E. done.
Qed.

Lemma protect_run (p : process K) :
  kernel_protects -> 0 <= MIN -> Z.of_nat (length (protected_fds_ (ctx p))) = MIN ->
  exists k b, length b = length (protected_fds_ (ctx p)) /\
    protect_user_fds MAX_OPEN_FDS p = (Ok tt, MkProcess (set_protected b false (ctx p)) k).
Proof.
  intros HK Hmin Hl. unfold protect_user_fds. unfold m_bind at 1, sys at 1. rewrite k_syscall_pair.
  pose proof (kp_null HK (os p)) as [Hr He].
  set (nullfd := (k_syscall SYS_open_null (os p)).1) in *. set (k1 := (k_syscall SYS_open_null (os p)).2).
  unfold m_bind at 1, m_assert. rewrite (proj2 (Z.eqb_eq _ _) He). cbn [m_ret].
  unfold m_bind at 1, m_gets. unfold m_bind at 1, m_lift, bit_set. cbn [ctx].
  rewrite (proj2 (Z.leb_le 0 nullfd)), (proj2 (Z.ltb_lt nullfd _)) by lia. cbn [andb].
  unfold m_bind at 1, with_ctx at 1, m_modify at 1. cbn [ctx os]. unfold m_bind at 1.
  destruct (protect_loop_run nullfd (seqZ 0 MIN) (MkProcess (set_protected
    (<[Z.to_nat nullfd:=true]> (protected_fds_ (ctx p))) (internal_fds_must_relocate_ (ctx p)) (ctx p)) k1) HK)
    as (k & b & Hb & E).
  { apply Forall_forall. intros fd Hin%elem_of_seqZ. lia. } { cbn. by rewrite length_insert. }
  rewrite E. exists k, b. cbn in Hb. rewrite length_insert in Hb. done.
Qed.

Lemma unprotect_loop_run fds (p : process K) :
  exists k, unprotect_loop fds p = (Ok tt, MkProcess (ctx p) k).
Proof.
  revert p. induction fds as [|fd fds IH]; intros p; cbn [unprotect_loop].
  { exists (os p). by destruct p. }
  unfold m_bind at 1, m_gets. unfold m_bind at 1. destruct (nth _ _ _).
  - unfold sys. rewrite k_syscall_pair. apply (IH (MkProcess (ctx p) _)).
  - apply IH.
Qed.

Lemma unprotect_run (p : process K) :
  exists k, unprotect_user_fds p = (Ok tt, MkProcess (set_protected (protected_fds_ (ctx p)) true (ctx p)) k).
Proof.
  unfold unprotect_user_fds. unfold m_bind at 1, m_gets. unfold m_bind at 1.
  destruct (unprotect_loop_run (seqZ 0 (Z.of_nat (length (protected_fds_ (ctx p))))) p) as [k ->].
  by exists k.
Qed.

(** A working directory is found when the variable is set or the kernel has
    an absolute one. *)
Lemma init_cwd_run (p : process K) :
  is_Some (k_getenv (os p)) \/ (exists c, k_getcwd (os p) = Some c /\ front c = sep) ->
  exists path, init_cwd p = (Ok tt, MkProcess (cwd path (ctx p)) (os p)).
Proof.
  unfold init_cwd, m_bind at 1, m_gets. intros [[e ->]|(c & Hc & Hf)]; [by exists e|].
  destruct (k_getenv (os p)) as [e|]; [by exists e|].
  exists c. unfold get_sys_cwd, m_bind, m_gets. rewrite Hc. by rewrite decide_False by auto.
Qed.
End protection.

(** ** Running the start *)

Section start.
Context {N K E : Type} {KW : Kernel K}.
Context (cfg : config) (MAX_OPEN_FDS : Z) (str_hash : str -> Z).
Context (engine_ok : bool) (lookup : str -> nat -> option E) (shuffle : nat -> list nat).
Context (fetch : E -> option (list hg_value)) (cmdline_ok : bool).
Context (forwarding_file : nat -> option str) (fuel : nat).
Local Abbreviation S := (session N K E).
Local Abbreviation init_env := (init_ld_environment_ cfg str_hash engine_ok lookup shuffle fetch forwarding_file fuel).
Local Abbreviation init :=
  (init_preload cfg MAX_OPEN_FDS str_hash engine_ok lookup shuffle fetch cmdline_ok forwarding_file fuel).

(** A session with another context and kernel. *)
Definition with_process (s : S) (p : process K) : S :=
  let t := thr s in
  MkSession (MkThread (MkClient p (net (cl t)) (errno (cl t))) (reentrance_guard_flag t) (saved_syscall_info t) (points t))
    (machine s) (ld_network_service s) (distributor_ s) (endpoints s) (init_env_thread s) (forwarding_running s).
Local Abbreviation proc_of s := (proc (cl (thr s))).

Lemma in_process_run {A} (f : M (process K) A) (s : S) :
  in_process f s = ((f (proc_of s)).1, with_process s (f (proc_of s)).2).
Proof. unfold in_process, with_thread, on_client, on_proc. by destruct (f (proc_of s)). Qed.

Lemma in_ctx_run f (s : S) : in_ctx f s = (Ok tt, with_process s (MkProcess (f (the_ctx s)) (os (proc_of s)))).
Proof. unfold in_ctx. by rewrite in_process_run. Qed.

(** The context after the environment was set up. *)
Definition configured (mdir : str) (conf : FsConfig) (n local : Z) (c : PreloadContext) : PreloadContext :=
  MkContext (ofm_ c) conf (cwd_ c) (split_path mdir) mdir n local (fwd_host_id_ c) (interception_enabled_ c)
    (internal_fds_ c) (internal_fds_must_relocate_ c) (protected_fds_ c).

Definition mountable (mdir : str) : Prop := is_absolute mdir = true /\ has_trailing_slash mdir = false.

Lemma init_env_run (s : S) addrs local e mdir conf :
  engine_ok = true -> enable_forwarding cfg = false -> load_hosts (machine s) lookup shuffle = Ok (addrs, local) ->
  addrs !! local = Some (Some e) -> fetch e ≫= fs_config_output = Some (mdir, conf) -> mountable mdir ->
  let n := Z.of_nat (length addrs) in
  init_env s = (Ok tt, MkSession
    (thr (with_process s (MkProcess (configured mdir conf n (Z.of_nat local) (the_ctx s)) (os (proc_of s)))))
    (machine s) true (Some (SimpleHashDistributor str_hash (Z.of_nat local) n)) addrs (init_env_thread s)
    (forwarding_running s)).
Proof.
  intros He Hf Hload Hlocal Hfetch [Habs Htr] n. unfold init_ld_environment_, init_hermes_client. rewrite He, Hf.
  unfold m_bind at 1, set_service, m_modify at 1, m_bind at 1. cbn [m_ret]. unfold m_bind at 1. cbn [m_ret].
  unfold m_bind at 1, load_hosts_step, m_bind at 1, m_get. cbn [machine]. rewrite Hload.
  unfold m_bind at 1. rewrite in_ctx_run. unfold ctx_hosts, m_bind at 1, set_endpoints, m_modify at 1. rewrite in_ctx_run.
  unfold m_bind, m_gets, set_distributor, m_modify, forward_get_fs_config, m_get, the_ctx. cbn.
  rewrite Nat2Z.id, Hlocal. cbn. rewrite Hfetch. cbn. unfold set_mountdir, assert_, m_lift. rewrite Habs, Htr. cbn. done.
Qed.

(** The whole start: the results of the steps that ask the kernel are some
    set of protected descriptors and some working directory. *)
Lemma init_preload_run (s : S) addrs local e mdir conf :
  init_env_thread s = false -> engine_ok = true -> cmdline_ok = true -> enable_forwarding cfg = false ->
  kernel_protects MAX_OPEN_FDS -> 0 <= MIN_INTERNAL_FD MAX_OPEN_FDS ->
  Z.of_nat (length (protected_fds_ (the_ctx s))) = MIN_INTERNAL_FD MAX_OPEN_FDS ->
  (forall k : K, is_Some (k_getenv k) \/ (exists c, k_getcwd k = Some c /\ front c = sep)) ->
  load_hosts (machine s) lookup shuffle = Ok (addrs, local) ->
  addrs !! local = Some (Some e) -> fetch e ≫= fs_config_output = Some (mdir, conf) -> mountable mdir ->
  let n := Z.of_nat (length addrs) in
  exists path b k, init s = (Ok tt, MkSession
    (MkThread (MkClient (MkProcess (set_interception true (set_protected b true (configured mdir conf n (Z.of_nat local)
        (cwd path (the_ctx s))))) k) (net (cl (thr s))) (errno (cl (thr s)))) (reentrance_guard_flag (thr s))
      (saved_syscall_info (thr s)) (MkHooks (Some hook_guard) true true true))
    (machine s) true (Some (SimpleHashDistributor str_hash (Z.of_nat local) n)) addrs true (forwarding_running s)).
Proof.
  intros Ho He Hc Hf HK Hmin Hl Hcwd Hload Hlocal Hfetch Hm n. unfold init_preload.
  unfold m_bind at 1. rewrite in_ctx_run. set (s1 := with_process s _).
  unfold m_bind at 1, with_thread at 1, start_self_interception, set_points, m_modify at 1.
  set (s2 := MkSession _ _ _ _ _ _ _).
  unfold m_bind at 1. rewrite in_process_run.
  destruct (protect_run MAX_OPEN_FDS (proc_of s2) HK Hmin Hl) as (k1 & b & Hb & ->). cbn [fst snd].
  set (s3 := with_process s2 _). unfold m_bind at 1, log_prog_name. rewrite Hc. cbn [m_ret].
  unfold m_bind at 1. rewrite in_process_run.
  destruct (init_cwd_run (proc_of s3) (Hcwd _)) as [path ->]. cbn [fst snd]. set (s4 := with_process s3 _).
  unfold m_bind at 1, init_ld_env_if_needed, m_bind at 1, m_gets. change (init_env_thread s4) with (init_env_thread s).
  rewrite Ho. unfold m_bind at 1, set_once, m_modify at 1. set (s5 := MkSession _ _ _ _ _ _ _).
  rewrite (init_env_run s5 addrs local e mdir conf He Hf Hload Hlocal Hfetch Hm). cbn zeta.
  unfold m_bind at 1. rewrite in_ctx_run. set (s6 := with_process _ _).
  unfold m_bind at 1. rewrite in_process_run.
  destruct (unprotect_run (proc_of s6)) as [k2 ->]. cbn [fst snd]. set (s7 := with_process s6 _).
  rewrite Hf. unfold m_bind at 1. cbn [m_ret].
  unfold with_thread, start_interception, intercepting, m_bind, m_get, m_assert. cbn.
  by exists path, b, k2.
Qed.
End start.

(** ** Failures *)

Section failures.
Context {N K E : Type} {KW : Kernel K}.
Local Abbreviation S := (session N K E).

(** Whenever the process exits, it does so with a failure and no call is
    intercepted any more. *)
Definition exits_cleanly {A} (m : M S A) : Prop := forall s c s', m s = (Throw (Exit c), s') ->
  c = EXIT_FAILURE /\ interception_enabled_ (the_ctx s') = false /\ points (thr s') = MkHooks None false false false.

(** Code that never exits. *)
Definition stays {T A} (m : M T A) : Prop := forall s c s', m s <> (Throw (Exit c), s').

Lemma exits_bind {A B} (m : M S A) (k : A -> M S B) :
  exits_cleanly m -> (forall a, exits_cleanly (k a)) -> exits_cleanly (m_bind m k).
Proof.
  intros Hm Hk s c s'. unfold m_bind. destruct (m s) as [[a|e|] s1] eqn:E1; [apply Hk| |done].
  intros [= -> ->]. by eapply Hm.
Qed.

Lemma stays_bind {T A B} (m : M T A) (k : A -> M T B) : stays m -> (forall a, stays (k a)) -> stays (m_bind m k).
Proof.
  intros Hm Hk s c s'. unfold m_bind. destruct (m s) as [[a|e|] s1] eqn:E1; [apply Hk| |done].
  intros [= -> ->]. by apply Hm in E1.
Qed.

Lemma stays_exits {A} (m : M S A) : stays m -> exits_cleanly m.
Proof. intros H s c s' E1. by apply H in E1. Qed.

Lemma stays_on {A} (m : M (process K) A) : stays m -> stays (in_process m : M S A).
Proof.
  intros H s c s'. rewrite in_process_run. destruct (m (proc (cl (thr s)))) as [r p] eqn:Em. cbn.
  intros [= -> _]. by apply H in Em.
Qed.

Lemma exit_exits {A} code : code = EXIT_FAILURE -> exits_cleanly (exit_error_msg code : M S A).
Proof.
  intros -> s c s'. unfold exit_error_msg, m_bind at 1, with_thread, stop_interception, intercepting, m_bind, m_get, m_assert.
  destruct (interception_enabled_ _); cbn; [|done]. by intros [= <- <-].
Qed.

Lemma sys_stays c : stays (sys c : M (process K) Z).
Proof. intros s x s'. unfold sys. by destruct (k_syscall c (os s)). Qed.

Lemma bit_set_stays {T} b pos v : stays (m_lift (bit_set b pos v) : M T _).
Proof. intros s c s'. unfold m_lift, bit_set. by destruct (_ && _). Qed.

Lemma assert_stays {T} b : stays (m_assert b : M T ()).
Proof. intros s c s'. unfold m_assert. by destruct b. Qed.

Create HintDb stays.
#[local] Hint Resolve stays_bind sys_stays bit_set_stays assert_stays : stays.
#[local] Hint Extern 3 (stays _) => (by intros ? ? ?) : stays.
Ltac stay := repeat first
  [ solve [auto 2 with stays nocore]
  | apply stays_bind; [|intros ?]
  | progress case_match ].

Lemma protect_stays MAX_OPEN_FDS : stays (protect_user_fds MAX_OPEN_FDS : M (process K) ()).
Proof.
  assert (forall nullfd fds, stays (protect_loop nullfd fds : M (process K) ())) as Hloop.
  { intros nullfd fds. induction fds; cbn [protect_loop]; stay. }
  unfold protect_user_fds. stay.
Qed.

Lemma unprotect_stays : stays (unprotect_user_fds : M (process K) ()).
Proof. intros p c p'. by destruct (unprotect_run p) as [k ->]. Qed.

Lemma init_cwd_stays : stays (init_cwd : M (process K) ()).
Proof. unfold init_cwd, get_sys_cwd. stay. Qed.

Lemma modify_exits f : exits_cleanly (m_modify f : M S ()).
Proof. by intros s c s'. Qed.

Lemma in_ctx_exits f : exits_cleanly (in_ctx f : M S ()).
Proof. intros s c s'. by rewrite in_ctx_run. Qed.

Lemma get_exits {A} (f : S -> A) : exits_cleanly (m_gets f).
Proof. by intros s c s'. Qed.

Lemma the_state_exits : exits_cleanly (m_get : M S S).
Proof. by intros s c s'. Qed.

Lemma ret_exits {A} (a : A) : exits_cleanly (m_ret a : M S A).
Proof. by intros s c s'. Qed.

Lemma interception_exits m : stays m -> exits_cleanly (with_thread m : M S ()).
Proof.
  intros Hm s c s'. unfold with_thread. destruct (m (thr s)) as [r t] eqn:Em. intros [= -> _]. by apply Hm in Em.
Qed.
End failures.

(** ** Properties *)

Section properties.
Context {N K E : Type} {KW : Kernel K}.
Context (cfg : config) (MAX_OPEN_FDS : Z) (str_hash : str -> Z).
Context (engine_ok : bool) (lookup : str -> nat -> option E) (shuffle : nat -> list nat).
Context (fetch : E -> option (list hg_value)) (cmdline_ok : bool).
Context (forwarding_file : nat -> option str) (fuel : nat).
Local Abbreviation S := (session N K E).
Local Abbreviation init :=
  (init_preload cfg MAX_OPEN_FDS str_hash engine_ok lookup shuffle fetch cmdline_ok forwarding_file fuel).

(** What a client keeps of a daemon's configuration. *)
Definition conf_of (f : FsData.data) (uid gid : Z) : FsConfig :=
  MkFsConfig (FsData.atime_state f) (FsData.mtime_state f) (FsData.ctime_state f) (FsData.link_cnt_state f)
    (FsData.blocks_state f) (u32 uid) (u32 gid) (FsData.rootdir f).

Lemma fs_config_arrives f uid gid : NUL ∉ FsData.mountdir f -> NUL ∉ FsData.rootdir f ->
  fs_config_output (rpc_srv_get_fs_config f uid gid) = Some (FsData.mountdir f, conf_of f uid gid).
Proof. intros Hm Hr. cbn. by rewrite !cstr_id. Qed.


(** A start that fails ends the process cleanly: whenever
    [init_preload] exits, it does so with [EXIT_FAILURE], with the
    interception disabled and all hook points reset. *)
Theorem failed_start_exits_cleanly (s s' : S) (c : Z) :
  init s = (Throw (Exit c), s') ->
  c = EXIT_FAILURE /\ interception_enabled_ (the_ctx s') = false /\ points (thr s') = MkHooks None false false false.
Proof.
  cut (exits_cleanly (init : M S ())); [intros H; apply H|].
  assert (exits_cleanly (load_hosts_step lookup shuffle : M S ())) as H1.
  { unfold load_hosts_step. apply exits_bind; [apply the_state_exits|]. intros x.
    destruct (load_hosts _ _ _) as [[addrs local]|e|]; [|by apply exit_exits|by intros ? ? ?].
    apply exits_bind; [apply in_ctx_exits|]. intros _. apply exits_bind; [apply modify_exits|]. intros _. apply in_ctx_exits. }
  assert (exits_cleanly (load_forwarding_map_step forwarding_file fuel : M S ())) as H2.
  { unfold load_forwarding_map_step. apply exits_bind; [apply the_state_exits|]. intros x.
    destruct (load_forwarding_map _ _ _) as [[f|e|]|]; [apply in_ctx_exits|by apply exit_exits|by intros ? ? ?..]. }
  assert (exits_cleanly (forward_get_fs_config fetch : M S bool)) as H3.
  { unfold forward_get_fs_config. apply exits_bind; [apply the_state_exits|]. intros x.
    destruct (endpoints x !! _); [|by intros ? ? ?]. destruct (_ ≫= _) as [[m conf]|]; [|apply ret_exits].
    apply exits_bind; [apply get_exits|]. intros y. apply exits_bind.
    { intros ? ? ?. unfold m_lift, set_mountdir, assert_. by repeat case_match. }
    intros z. apply exits_bind; [apply in_ctx_exits|]. intros _. apply exits_bind; [apply in_ctx_exits|]. intros _.
    apply ret_exits. }
  assert (exits_cleanly (with_thread start_interception : M S ())) as H4.
  { intros x y z. unfold with_thread, start_interception, intercepting, m_bind, m_get, m_assert.
    by destruct (interception_enabled_ _). }
  unfold init_preload, init_ld_env_if_needed, init_ld_environment_, init_hermes_client, log_prog_name.
  repeat first
    [ exact H1 | exact H2 | exact H3 | by apply exit_exits | exact H4
    | apply exits_bind; [|intros ?]
    | apply in_ctx_exits | apply modify_exits | apply get_exits | apply ret_exits
    | apply stays_exits, stays_on, protect_stays | apply stays_exits, stays_on, unprotect_stays
    | apply stays_exits, stays_on, init_cwd_stays
    | by intros ? ? ? | progress case_match ].
Qed.

(** A remapping is not followed: in forwarding mode the mapper thread
    reads the new forwarder into the context, but the distributor was built
    with the forwarder found at the start and keeps sending the data
    there. *)
Theorem remapping_not_followed (s : S) (f f' : Z) (path : str) (chunk : Z) :
  forwarding_running s = true -> load_forwarding_map (machine s) fuel forwarding_file = Some (Ok f') ->
  distributor_ s = Some (ForwarderDistributor str_hash f (hosts_size_ (the_ctx s))) ->
  exists s' d, forwarding_mapper_step forwarding_file fuel s = (Ok tt, s') /\ fwd_host_id_ (the_ctx s') = f' /\
    distributor_ s' = Some d /\ locate_data d path chunk = f.
Proof.
  intros Hr Hload Hd. unfold forwarding_mapper_step, m_bind, m_gets. rewrite Hr.
  unfold load_forwarding_map_step, m_bind, m_get. rewrite Hload, in_ctx_run. eexists _, _. split; [done|].
  split; [done|]. split; [exact Hd|done].
Qed.
End properties.

(** ** Witnesses *)

(** A kernel that grants everything. *)
#[local] Instance EasyKernel : Kernel () := {|
  k_syscall c k := (match c with SYS_open_null => 3 | SYS_dup3 _ fd _ => Z.max 0 fd | SYS_fcntl _ _ _ => - EBADF | _ => 0 end, k);
  syscall_error_code r := if (r <? 0) && (- 4096 <=? r) then - r else 0;
  k_getcwd _ := Some (s_ "/home");
  k_lstat _ _ := None;
  k_realpath _ _ := None;
  k_getenv _ := None;
  k_setenv _ k := (0, k);
  k_unsetenv k := (0, k)
|}.

(** With at most 260 descriptors, 4 of them the application's. *)
Definition new_context : PreloadContext :=
  MkContext new_OpenFileMap (MkFsConfig false false false false false 0 0 []) [] [] [] 0 0 0 false
    (replicate 256 true) true (replicate 4 false).
Definition new_session (o : host_os) : session () () str :=
  MkSession (MkThread (MkClient (MkProcess new_context ()) () 0) false 0 (MkHooks None false false false)) o false None []
    false false.

Definition example_data : FsData.data :=
  FsData.Mk (s_ "/tmp/root") (s_ "/mnt/gkfs") (s_ "/tmp/root") (s_ "ofi+sockets://n1") hostfile_path false false false
    false false.

Lemma easy_protects : kernel_protects (K := ()) 260.
Proof.
  split.
  - intros k. cbn. unfold MIN_INTERNAL_FD, MAX_INTERNAL_FDS. lia.
  - intros fd fd' k. cbn. by rewrite (proj2 (Z.ltb_ge (Z.max 0 fd') 0)) by lia.
Qed.

Local Abbreviation easy_fetch := (fun _ : str => Some (rpc_srv_get_fs_config example_data 1000 1000)).
Local Abbreviation easy_init o engine :=
  (init_preload default_config 260 (fun _ => 0) engine (fun u _ => Some u) (fun n => seq 0 n) easy_fetch true
    (fun _ => None) 0 (new_session o)).


(** The start on this machine, run. *)
Example client_starts_run :
  match register_all hostfile_path two_daemons fresh_os with
  | Ok o' =>
      let out := easy_init (MkHostOS (text_files o') (can_open o') (can_write o') (Some (s_ "n2.cluster")) (env_var o')) true in
      out.1 = Ok tt /\ mountdir_ (the_ctx out.2) = s_ "/mnt/gkfs" /\ local_host_id_ (the_ctx out.2) = 1 /\
      intercept_hook_point (points (thr out.2)) = Some hook_guard
  | _ => False
  end.
Proof. vm_compute. done. Qed.

Lemma failed_start_exits_cleanly_witness :
  interception_enabled_ (the_ctx (easy_init fresh_os false).2) = false.
Proof.
  refine (proj1 (proj2 (failed_start_exits_cleanly default_config 260 (fun _ => 0) false (fun u _ => Some u)
    (fun n => seq 0 n) easy_fetch true (fun _ => None) 0 (new_session fresh_os) _ 1 _))).
  vm_compute. reflexivity.
Defined.

Definition forwarding_session : session () () str :=
  MkSession (thr (new_session fresh_os)) (MkHostOS ∅ (fun _ => true) (fun _ => true) (Some (s_ "n1")) (fun _ => None)) true
    (Some (ForwarderDistributor (fun _ => 0) 0 0)) [] true true.

Lemma remapping_not_followed_witness : exists s' d,
  forwarding_mapper_step (fun _ => Some (s_ "n1 1")) 1 forwarding_session = (Ok tt, s') /\
  fwd_host_id_ (the_ctx s') = 1 /\ distributor_ s' = Some d /\ locate_data d (s_ "/f") 7 = 0.
Proof.
  apply (remapping_not_followed (fun _ => 0) (fun _ => Some (s_ "n1 1")) 1 forwarding_session 0 1 (s_ "/f") 7).
  - reflexivity.
  - vm_compute. reflexivity.
  - reflexivity.
Defined.
