(* ===== verification/Daemon.v ===== *)
(** * The daemon's life ([src/daemon/daemon.cpp], [FsData] of
    [src/daemon/classes/fs_data.cpp], the loggers of
    [src/global/log_util.cpp])

    [main] takes its configuration from the options, sets up the metadata
    store, the chunk storage, the RPC server and the I/O streams, creates
    the root directory's entry, registers in the hosts file and waits for a
    signal.  RocksDB's [Open], Margo, Argobots, Boost's file system calls
    and option parser are parameters.  Initialising the optional AGIOS
    scheduler is in [Agios]. *)

From S2P Require Import Prelude Config PathUtil Distributor Metadata Merge MetadataDB ChunkStorage ChunkPlan SrvData.
From S2P Require Import SrvMetadata Rpc Cluster Wire OpenFileMap Kernel PreloadContext GkfsFunctions HostFile Intercept Preload.

(** ** Options and environment *)

(** The parsed command line ([variables_map]). *)
Record options := MkOptions {
  opt_help : bool;
  opt_version : bool;
  opt_mountdir : option str;
  opt_rootdir : option str;
  opt_metadir : option str;
  opt_listen : option str;
  opt_hosts_file : option str
}.

(** What the daemon's libraries answer. *)
Record surroundings (D : Type) := MkSurroundings {
  create_directories : str -> bool;            (* false: an exception *)
  canonical : str -> option str;               (* None: an exception *)
  getpid : Z;
  open_db : rdb_options -> str -> option D;    (* rocksdb::DB::Open *)
  margo_init_ok : bool;
  margo_addr_self_ok : bool;
  margo_addr_string : option str;              (* margo_addr_to_string *)
  pool_create_ok : bool;
  xstream_create_ok : nat -> bool;
  now : Z;                                     (* std::time *)
  rpc_protocol : str                           (* RPC_PROTOCOL *)
}.
Arguments MkSurroundings {D}.
Arguments create_directories {D}.
Arguments canonical {D}.
Arguments getpid {D}.
Arguments open_db {D}.
Arguments margo_init_ok {D}.
Arguments margo_addr_self_ok {D}.
Arguments margo_addr_string {D}.
Arguments pool_create_ok {D}.
Arguments xstream_create_ok {D}.
Arguments now {D}.
Arguments rpc_protocol {D}.

Definition daemon_io_xstreams : nat := 8.
Definition ofi_verbs : str := s_ "ofi+verbs".
Definition FI_VERBS_IFACE : str := s_ "FI_VERBS_IFACE".
Definition DAEMON_HOSTS_FILE : str := s_ "GKFS_HOSTS_FILE".

(** ** Log levels *)

Inductive level_enum := lvl_trace | lvl_debug | lvl_info | lvl_warn | lvl_err | lvl_critical | lvl_off.

Definition get_level_number (level : Z) : level_enum :=
  if level =? 0 then lvl_off else if level =? 1 then lvl_critical else if level =? 2 then lvl_err
  else if level =? 3 then lvl_warn else if level =? 4 then lvl_info else if level =? 5 then lvl_debug else lvl_trace.

Definition tolower (c : ascii) : ascii :=
  let n := nat_of_ascii c in if (65 <=? n)%nat && (n <=? 90)%nat then ascii_of_nat (n + 32) else c.

(** [strtoul(.., 10)]: the value and the number of characters read; a value
    too large becomes [ULONG_MAX], and the sign wraps. *)
Definition strtoul (s : str) : Z * nat :=
  match scan_number (cstr s) with
  | None => (0, 0%nat)
  | Some (neg, v, n) =>
      (if 2 ^ 64 - 1 <? v then 2 ^ 64 - 1 else if (neg : bool) then u64 (- v) else v, n)
  end.

Definition get_level (level_str : str) : res level_enum :=
  let '(level, parse_end) := strtoul level_str in
  if decide (parse_end <> length level_str) then
    let l := tolower <$> level_str in
    if decide (l = s_ "off") then Ok lvl_off
    else if decide (l = s_ "critical") then Ok lvl_critical
    else if decide (l = s_ "err") then Ok lvl_err
    else if decide (l = s_ "warn") then Ok lvl_warn
    else if decide (l = s_ "info") then Ok lvl_info
    else if decide (l = s_ "debug") then Ok lvl_debug
    else if decide (l = s_ "trace") then Ok lvl_trace
    else Throw RuntimeError
  else Ok (get_level_number level).

(** A logger of spdlog as [gkfs::log::setup] configures it. *)
Record spd_logger := MkSpdLogger {
  lg_name : str;
  lg_sink : str;              (* the file of the common sink *)
  lg_flush_on : level_enum;
  lg_level : level_enum
}.

(** [spdlog::register_logger] for each logger: a second logger of a name is
    refused with an exception. *)
Fixpoint register_loggers (ls reg : list spd_logger) : res (list spd_logger) :=
  match ls with
  | [] => Ok reg
  | l :: ls' =>
      if decide (lg_name l ∈ lg_name <$> reg) then Throw SpdlogException
      else register_loggers ls' (reg ++ [l])
  end.

(** [gkfs::log::setup] from an empty registry: the sink throws when it cannot
    open its file, and the level is set for all loggers at the end. *)
Definition setup (o : host_os) (loggers_name : list str) (level : level_enum) (path : str)
    : res (list spd_logger) :=
  if negb (can_open o path) then Throw SpdlogException else
  reg ← register_loggers ((fun name => MkSpdLogger name path lvl_trace lvl_info) <$> loggers_name) [];
  Ok (map (fun l => MkSpdLogger (lg_name l) (lg_sink l) (lg_flush_on l) level) reg).

Definition logger_names : list str := [s_ "main"; s_ "MetadataDB"; s_ "ChunkStorage"].

Definition initialize_loggers (o : host_os) : res (list spd_logger) :=
  let path := get_var o (s_ "GKFS_DAEMON_LOG_PATH") (s_ "/tmp/gkfs_daemon.log") in
  level ← match env_var o (s_ "GKFS_LOG_LEVEL") with
          | Some l => get_level l
          | None => Ok (get_level_number 4)
          end;
  setup o logger_names level path.

Lemma register_fresh ls reg : NoDup (lg_name <$> reg ++ ls) -> register_loggers ls reg = Ok (reg ++ ls).
Proof.
  revert reg. induction ls as [|l ls IH]; intros reg H; cbn [register_loggers]; [by rewrite app_nil_r|].
  rewrite decide_False.
  - rewrite IH by (by rewrite <- app_assoc). by rewrite <- app_assoc.
  - rewrite fmap_app in H. apply NoDup_app in H as (_ & H & _). intros Hin. apply (H (lg_name l) Hin). csimpl. constructor.
Qed.

(** The daemon has its three loggers, at the level the environment names,
    exactly when that name is valid and the log file can be opened. *)
Lemma initialize_loggers_spec o :
  initialize_loggers o =
  (level ← match env_var o (s_ "GKFS_LOG_LEVEL") with Some l => get_level l | None => Ok lvl_info end;
   let path := get_var o (s_ "GKFS_DAEMON_LOG_PATH") (s_ "/tmp/gkfs_daemon.log") in
   if can_open o path then Ok ((fun n => MkSpdLogger n path lvl_trace level) <$> logger_names)
   else Throw SpdlogException).
Proof.
  unfold initialize_loggers, setup. cbv zeta. change (get_level_number 4) with lvl_info.
  destruct (match env_var o (s_ "GKFS_LOG_LEVEL") with Some l => get_level l | None => Ok lvl_info end); [|done..].
  cbn [mbind res_bind]. destruct (can_open o _); [|done]. cbn [negb]. rewrite register_fresh; [done|].
  cbn. apply (bool_decide_unpack _). vm_compute. exact I.
Qed.

(** ** State *)

(** [GKFS_DATA] and [RPC_DATA], the machine and the local file system. *)
Record dstate (D F : Type) := MkDState {
  fs_data : FsData.data;
  mdb_ : option D;
  storage_ : option ChunkStorage;
  local_fs : F;
  server_rpc_mid : bool;
  self_addr_str : str;
  io_streams : nat;
  dmachine : host_os
}.
Arguments MkDState {D F}.
Arguments fs_data {D F}.
Arguments mdb_ {D F}.
Arguments storage_ {D F}.
Arguments local_fs {D F}.
Arguments server_rpc_mid {D F}.
Arguments self_addr_str {D F}.
Arguments io_streams {D F}.
Arguments dmachine {D F}.

Section daemon.
Context {D F : Type} {R : RocksDB D}.
Context (cfg : config) (env : surroundings D).
Local Abbreviation S := (dstate D F).

Definition set_data (f : FsData.data -> FsData.data) : M S () := m_modify (fun s =>
  MkDState (f (fs_data s)) (mdb_ s) (storage_ s) (local_fs s) (server_rpc_mid s) (self_addr_str s) (io_streams s) (dmachine s)).
Definition set_mdb (m : option D) : M S () := m_modify (fun s =>
  MkDState (fs_data s) m (storage_ s) (local_fs s) (server_rpc_mid s) (self_addr_str s) (io_streams s) (dmachine s)).
Definition set_storage (st : ChunkStorage) : M S () := m_modify (fun s =>
  MkDState (fs_data s) (mdb_ s) (Some st) (local_fs s) (server_rpc_mid s) (self_addr_str s) (io_streams s) (dmachine s)).
Definition set_rpc (mid : bool) (addr : str) : M S () := m_modify (fun s =>
  MkDState (fs_data s) (mdb_ s) (storage_ s) (local_fs s) mid addr (io_streams s) (dmachine s)).
Definition set_streams (n : nat) : M S () := m_modify (fun s =>
  MkDState (fs_data s) (mdb_ s) (storage_ s) (local_fs s) (server_rpc_mid s) (self_addr_str s) n (dmachine s)).
Definition on_machine {A} (f : M host_os A) : M S A := fun s =>
  let '(r, o) := f (dmachine s) in
  (r, MkDState (fs_data s) (mdb_ s) (storage_ s) (local_fs s) (server_rpc_mid s) (self_addr_str s) (io_streams s) o).

(** An operation of the handlers on the store and the file system; without
    a store the pointer is null. *)
Definition on_store {A} (f : M (daemon D F) A) : M S A := fun s =>
  match mdb_ s with
  | None => (Trap, s)
  | Some m =>
      let '(r, d) := f (MkDaemon m (local_fs s)) in
      (r, MkDState (fs_data s) (Some (mdb d)) (storage_ s) (storage d) (server_rpc_mid s) (self_addr_str s) (io_streams s)
            (dmachine s))
  end.

Definition mkdirs (p : str) : M S () := if create_directories env p then m_ret tt else m_throw FilesystemError.

(** The setters of [FsData] the start uses. *)
Definition data_rootdir (p : str) (f : FsData.data) : FsData.data :=
  FsData.Mk p (FsData.mountdir f) (FsData.metadir f) (FsData.bind_addr f) (FsData.hosts_file f) (FsData.atime_state f)
    (FsData.mtime_state f) (FsData.ctime_state f) (FsData.link_cnt_state f) (FsData.blocks_state f).
Definition data_mountdir (p : str) (f : FsData.data) : FsData.data :=
  FsData.Mk (FsData.rootdir f) p (FsData.metadir f) (FsData.bind_addr f) (FsData.hosts_file f) (FsData.atime_state f)
    (FsData.mtime_state f) (FsData.ctime_state f) (FsData.link_cnt_state f) (FsData.blocks_state f).
Definition data_metadir (p : str) (f : FsData.data) : FsData.data :=
  FsData.Mk (FsData.rootdir f) (FsData.mountdir f) p (FsData.bind_addr f) (FsData.hosts_file f) (FsData.atime_state f)
    (FsData.mtime_state f) (FsData.ctime_state f) (FsData.link_cnt_state f) (FsData.blocks_state f).
Definition data_bind_addr (p : str) (f : FsData.data) : FsData.data :=
  FsData.Mk (FsData.rootdir f) (FsData.mountdir f) (FsData.metadir f) p (FsData.hosts_file f) (FsData.atime_state f)
    (FsData.mtime_state f) (FsData.ctime_state f) (FsData.link_cnt_state f) (FsData.blocks_state f).
Definition data_hosts_file (p : str) (f : FsData.data) : FsData.data :=
  FsData.Mk (FsData.rootdir f) (FsData.mountdir f) (FsData.metadir f) (FsData.bind_addr f) p (FsData.atime_state f)
    (FsData.mtime_state f) (FsData.ctime_state f) (FsData.link_cnt_state f) (FsData.blocks_state f).
Definition data_states (f : FsData.data) : FsData.data :=
  FsData.Mk (FsData.rootdir f) (FsData.mountdir f) (FsData.metadir f) (FsData.bind_addr f) (FsData.hosts_file f)
    (use_atime cfg) (use_mtime cfg) (use_ctime cfg) (use_link_cnt cfg) (use_blocks cfg).

(** ** Initialisation *)

(** The loop that creates the execution streams from the [i]-th on. *)
Fixpoint create_xstreams (i n : nat) : M S () :=
  match n with
  | O => m_ret tt
  | Datatypes.S n' => if xstream_create_ok env i then create_xstreams (Datatypes.S i) n' else m_throw RuntimeError
  end.

Definition init_io_tasklet_pool : M S () :=
  if negb (pool_create_ok env) then m_throw RuntimeError else
  create_xstreams 0 daemon_io_xstreams ;;;
  set_streams daemon_io_xstreams.

(** The address goes through a C string. *)
Definition init_rpc_server : M S () :=
  if negb (margo_init_ok env) then m_throw RuntimeError else
  if negb (margo_addr_self_ok env) then m_throw RuntimeError else
  match margo_addr_string env with
  | None => m_throw RuntimeError
  | Some a => set_rpc true (cstr a)
  end.

Definition root_mode : Z := Z.lor S_IFDIR 511.

(** [create] of the root's entry; every exception becomes a
    [runtime_error]. *)
Definition create_root : M S () :=
  let* md := m_lift (Metadata_mode root_mode) in
  m_try (on_store (create cfg (now env) (s_ "/") md)) (fun _ => m_throw RuntimeError).

(** The metadata store of the daemon; the constructor's exception leaves. *)
Definition init_metadata (path : str) : M S () :=
  let* m := m_lift (MetadataDB_new (open_db env) path) in set_mdb (Some (db m)).

Definition init_environment : M S () :=
  let* f := m_gets fs_data in
  init_metadata (FsData.metadir f ++ s_ "/rocksdb") ;;;
  let chunk_storage_path := FsData.rootdir f ++ s_ "/data/chunks" in
  mkdirs chunk_storage_path ;;;
  let* st := m_lift (ChunkStorage_init chunk_storage_path (chunksize cfg)) in
  set_storage st ;;;
  init_rpc_server ;;;
  init_io_tasklet_pool ;;;
  set_data data_states ;;;
  create_root ;;;
  let* s := m_get in
  if decide (FsData.hosts_file f <> [])
  then on_machine (populate_hosts_file (FsData.hosts_file f) (self_addr_str s)) else m_ret tt.

(** The mount directory itself is not part of the state. *)
Definition destroy_enviroment : M S () :=
  let* f := m_gets fs_data in
  set_streams 0 ;;;
  (if decide (FsData.hosts_file f <> []) then on_machine (destroy_hosts_file (FsData.hosts_file f)) else m_ret tt) ;;;
  let* s := m_get in
  (if server_rpc_mid s then set_rpc false (self_addr_str s) else m_ret tt) ;;;
  set_mdb None.

(** ** [main] *)

(** [a / b] on paths. *)
Definition path_join (a b : str) : str :=
  if decide (a = []) then b else if decide (back a = sep) then a ++ b else a ++ sep :: b.

(** The address to bind to; with [ofi+verbs] the interface goes to the
    environment. *)
Definition bind_address (o : options) : M S str :=
  let* s := m_get in
  match opt_listen o with
  | Some addr =>
      if decide (rpc_protocol env = ofi_verbs) then
        (match env_var (dmachine s) FI_VERBS_IFACE with
         | Some _ => m_ret tt
         | None => on_machine (m_modify (fun h => MkHostOS (text_files h) (can_open h) (can_write h) (host_name h)
                     (fun v => if decide (v = FI_VERBS_IFACE) then Some addr else env_var h v)))
         end) ;;;
        m_ret []
      else m_ret addr
  | None => m_ret (if decide (rpc_protocol env <> ofi_verbs) then get_my_hostname (dmachine s) true else [])
  end.

Definition canonical_of (p : str) : M S str :=
  match canonical env p with Some c => m_ret c | None => m_throw FilesystemError end.

Definition configure (o : options) (mountdir rootdir : str) : M S () :=
  let* addr := bind_address o in
  set_data (data_bind_addr (rpc_protocol env ++ s_ "://" ++ addr)) ;;;
  let* s := m_get in
  set_data (data_hosts_file (match opt_hosts_file o with
                             | Some h => h
                             | None => get_var (dmachine s) DAEMON_HOSTS_FILE hostfile_path
                             end)) ;;;
  mkdirs mountdir ;;;
  let* m := canonical_of mountdir in
  set_data (data_mountdir m) ;;;
  let pid := to_string_u (getpid env) in
  let rootdir_path := if enable_forwarding cfg then rootdir else path_join rootdir pid in
  mkdirs rootdir_path ;;;
  set_data (data_rootdir rootdir_path) ;;;
  match opt_metadir o with
  | Some metadir =>
      let metadir_path := if enable_forwarding cfg then path_join metadir pid else metadir in
      mkdirs metadir_path ;;;
      let* m := canonical_of metadir_path in
      set_data (data_metadir m)
  | None =>
      if enable_forwarding cfg then
        let metadir_path := path_join rootdir pid in
        mkdirs metadir_path ;;;
        let* m := canonical_of metadir_path in
        set_data (data_metadir m)
      else set_data (data_metadir rootdir_path)
  end.

(** [main] up to the wait for a signal: the value returned, or [None] when
    the daemon is ready. *)
Definition start (o : options) : M S (option Z) :=
  if opt_help o then m_ret (Some 1) else
  if opt_version o then m_ret (Some 0) else
  match opt_mountdir o, opt_rootdir o with
  | Some mountdir, Some rootdir =>
      let* s := m_get in
      let* _ := m_lift (initialize_loggers (dmachine s)) in
      configure o mountdir rootdir ;;;
      m_try init_environment (fun _ => destroy_enviroment ;;; m_throw (Exit EXIT_FAILURE)) ;;;
      m_ret None
  | _, _ => m_ret (Some 1)
  end.
End daemon.

(** ** Running the start *)

(** Read the fields of a state that was just built. *)
Ltac fields := cbn [fs_data mdb_ storage_ local_fs server_rpc_mid self_addr_str io_streams dmachine].

Section running.
Context {D F : Type} {R : RocksDB D}.
Context (cfg : config) (env : surroundings D).
Local Abbreviation S := (dstate D F).

(** Every library call of the start succeeds. *)
Record surroundings_ok (canon : str -> str) (dbs : str -> D) (addr : str) : Prop := {
  so_dirs p : create_directories env p = true;
  so_canonical p : canonical env p = Some (canon p);
  so_db o p : open_db env o p = Some (dbs p);
  so_margo : margo_init_ok env = true;
  so_self : margo_addr_self_ok env = true;
  so_addr : margo_addr_string env = Some addr;
  so_pool : pool_create_ok env = true;
  so_xstreams i : xstream_create_ok env i = true
}.

Lemma init_metadata_run canon dbs addr p (s : S) : surroundings_ok canon dbs addr ->
  init_metadata env p s = set_mdb (Some (dbs p)) s.
Proof. intros H. unfold init_metadata, m_bind, m_lift, MetadataDB_new. by rewrite (so_db _ _ _ H). Qed.

Lemma create_xstreams_run i n (s : S) : (forall i, xstream_create_ok env i = true) -> create_xstreams env i n s = (Ok tt, s).
Proof. intros H. revert i. induction n as [|n IH]; intros i; cbn; [done|]. by rewrite H. Qed.

Lemma init_io_run (s : S) canon db addr : surroundings_ok canon db addr ->
  init_io_tasklet_pool env s =
    (Ok tt, MkDState (fs_data s) (mdb_ s) (storage_ s) (local_fs s) (server_rpc_mid s) (self_addr_str s)
      daemon_io_xstreams (dmachine s)).
Proof.
  intros H. unfold init_io_tasklet_pool. rewrite (so_pool _ _ _ H). cbn [negb]. unfold m_bind.
  by rewrite create_xstreams_run by apply (so_xstreams _ _ _ H).
Qed.

Lemma init_rpc_run (s : S) canon db addr : surroundings_ok canon db addr ->
  init_rpc_server env s =
    (Ok tt, MkDState (fs_data s) (mdb_ s) (storage_ s) (local_fs s) true (cstr addr) (io_streams s) (dmachine s)).
Proof.
  intros H. unfold init_rpc_server. by rewrite (so_margo _ _ _ H), (so_self _ _ _ H), (so_addr _ _ _ H).
Qed.

(** The entry of the root directory. *)
Definition root_entry : Metadata := stamped cfg (now env) (fresh_md root_mode []).

Lemma create_root_run (s : S) m m' : mdb_ s = Some m -> db_put (s_ "/") (serialize cfg root_entry) m = (Ok tt, m') ->
  create_root cfg env s = (Ok tt, MkDState (fs_data s) (Some m') (storage_ s) (local_fs s) (server_rpc_mid s)
    (self_addr_str s) (io_streams s) (dmachine s)).
Proof.
  intros Hm Hput. unfold create_root, m_bind, m_lift. change (Metadata_mode root_mode) with (Ok (fresh_md root_mode [])). unfold m_try, on_store. rewrite Hm.
  change (create cfg (now env) (s_ "/") (fresh_md root_mode []))
    with (on_mdb (F := F) (db_put (s_ "/") (serialize cfg root_entry))).
  unfold on_mdb. cbn [mdb storage]. by rewrite Hput.
Qed.

Lemma init_environment_run (s : S) canon db addr m' : surroundings_ok canon db addr ->
  let f := fs_data s in
  let st := MkChunkStorage (FsData.rootdir f ++ s_ "/data/chunks") (chunksize cfg) in
  is_absolute (FsData.rootdir f) = true -> FsData.hosts_file f <> [] ->
  can_open (dmachine s) (FsData.hosts_file f) = true -> can_write (dmachine s) (FsData.hosts_file f) = true ->
  db_put (s_ "/") (serialize cfg root_entry) (db (FsData.metadir f ++ s_ "/rocksdb")) = (Ok tt, m') ->
  init_environment cfg env s = (Ok tt, MkDState (data_states cfg f) (Some m') (Some st) (local_fs s) true (cstr addr)
    daemon_io_xstreams (populate_hosts_file (FsData.hosts_file f) (cstr addr) (dmachine s)).2).
Proof.
  intros H f st Habs Hne Ho Hw Hput. unfold init_environment, m_bind at 1, m_gets. fold f.
  unfold m_bind at 1. rewrite (init_metadata_run _ _ _ _ s H). unfold set_mdb, m_modify at 1. fields.
  unfold m_bind at 1, mkdirs. rewrite (so_dirs _ _ _ H). cbn [m_ret].
  unfold m_bind at 1, m_lift, ChunkStorage_init, assert_.
  assert (is_absolute (FsData.rootdir f ++ s_ "/data/chunks") = true) as ->.
  { unfold is_absolute in *. by destruct (FsData.rootdir f). }
  unfold m_bind at 1, set_storage, m_modify at 1. fields. unfold m_bind at 1. erewrite init_rpc_run by done. fields.
  unfold m_bind at 1. erewrite init_io_run by done. fields. unfold m_bind at 1, set_data, m_modify at 1. fields.
  unfold m_bind at 1. erewrite create_root_run by done. fields. unfold m_bind at 1, m_get. fields.
  rewrite decide_True by done. unfold on_machine. fields. by rewrite populate_run by done.
Qed.

(** The configuration [main] derives from its options. *)
Definition the_hosts_file (o : options) (h : host_os) : str :=
  match opt_hosts_file o with Some f => f | None => get_var h DAEMON_HOSTS_FILE hostfile_path end.
Definition the_rootdir (rootdir : str) : str :=
  if enable_forwarding cfg then rootdir else path_join rootdir (to_string_u (getpid env)).
Definition the_metadir (canon : str -> str) (o : options) (rootdir : str) : str :=
  let pid := to_string_u (getpid env) in
  match opt_metadir o with
  | Some m => canon (if enable_forwarding cfg then path_join m pid else m)
  | None => if enable_forwarding cfg then canon (path_join rootdir pid) else path_join rootdir pid
  end.
Definition the_address (o : options) (h : host_os) : str :=
  match opt_listen o with Some a => a | None => get_my_hostname h true end.

Lemma configure_run (o : options) mountdir rootdir (s : S) canon db addr :
  surroundings_ok canon db addr -> rpc_protocol env <> ofi_verbs ->
  configure cfg env o mountdir rootdir s = (Ok tt, MkDState
    (FsData.Mk (the_rootdir rootdir) (canon mountdir) (the_metadir canon o rootdir)
       (rpc_protocol env ++ s_ "://" ++ the_address o (dmachine s)) (the_hosts_file o (dmachine s))
       (FsData.atime_state (fs_data s)) (FsData.mtime_state (fs_data s)) (FsData.ctime_state (fs_data s))
       (FsData.link_cnt_state (fs_data s)) (FsData.blocks_state (fs_data s)))
    (mdb_ s) (storage_ s) (local_fs s) (server_rpc_mid s) (self_addr_str s) (io_streams s) (dmachine s)).
Proof.
  intros H Hv. unfold configure, bind_address, mkdirs, canonical_of, the_rootdir, the_metadir, the_hosts_file, the_address.
  rewrite !(so_dirs _ _ _ H), !(so_canonical _ _ _ H).
  unfold m_bind, m_get. destruct (opt_listen o) as [a|];
    [rewrite decide_False by done|rewrite decide_True by done]; unfold m_ret, set_data, m_modify; cbn;
    destruct (opt_metadir o) as [m|], (enable_forwarding cfg); cbn; rewrite ?(so_dirs _ _ _ H), ?(so_canonical _ _ _ H); done.
Qed.
End running.

(** ** Stopping *)

Section stopping.
Context {D F : Type} {R : RocksDB D}.
Context (cfg : config) (env : surroundings D).
Local Abbreviation S := (dstate D F).

(** What [destroy_enviroment] leaves. *)
Record stopped (s s' : S) : Prop := {
  sp_data : fs_data s' = fs_data s;
  sp_mdb : mdb_ s' = None;
  sp_rpc : server_rpc_mid s' = false;
  sp_streams : io_streams s' = 0%nat;
  sp_files : text_files (dmachine s') =
    if decide (FsData.hosts_file (fs_data s) <> [])
    then delete (FsData.hosts_file (fs_data s)) (text_files (dmachine s)) else text_files (dmachine s)
}.

Lemma destroy_run (s : S) : exists s', destroy_enviroment s = (Ok tt, s') /\ stopped s s'.
Proof.
  unfold destroy_enviroment, m_bind, m_gets, set_streams, m_modify, m_get.
  destruct (decide (FsData.hosts_file (fs_data s) <> [])) as [Hd|Hd]; unfold on_machine, destroy_hosts_file, m_modify, m_ret;
    fields; destruct (server_rpc_mid s) eqn:Hm; eexists; (split; [reflexivity|]); (split; [done|done|done|done|]); fields;
    by destruct (decide _).
Qed.

Lemma on_machine_stays {A} (m : M host_os A) : stays m -> stays (on_machine m : M S A).
Proof. intros H s c s'. unfold on_machine. destruct (m (dmachine s)) eqn:E. intros [= -> _]. by apply H in E. Qed.

Ltac quiet := repeat first
  [ apply stays_bind; [|intros ?]
  | by intros ? ? ?
  | apply on_machine_stays
  | progress case_match ].

Lemma configure_stays o m r : stays (configure cfg env o m r : M S ()).
Proof. unfold configure, bind_address, mkdirs, canonical_of. quiet. Qed.

Lemma get_level_stays l : forall c, get_level l <> Throw (Exit c).
Proof. intros c. unfold get_level. by repeat case_match. Qed.
End stopping.

(** ** Properties *)


(** A daemon that fails to start takes the others down with it: when
    [main] exits, it does so with [EXIT_FAILURE] after closing its own
    store, server and streams, and after removing the hosts file, which the
    daemons share: a client that reads it afterwards finds no daemon. *)
Theorem failed_daemon_removes_hosts {D F : Type} {R : RocksDB D} (cfg : config) (env : surroundings D)
    (o : options) (s s' : dstate D F) (c : Z) :
  start cfg env o s = (Throw (Exit c), s') ->
  c = EXIT_FAILURE /\ mdb_ s' = None /\ server_rpc_mid s' = false /\ io_streams s' = 0%nat /\
  (FsData.hosts_file (fs_data s') <> [] -> forall client_os, text_files client_os = text_files (dmachine s') ->
     load_hostfile client_os (FsData.hosts_file (fs_data s')) = Throw RuntimeError).
Proof.
  unfold start. destruct (opt_help o); [done|]. destruct (opt_version o); [done|].
  destruct (opt_mountdir o) as [mountdir|]; [|done]. destruct (opt_rootdir o) as [rootdir|]; [|done].
  unfold m_bind at 1, m_get. unfold m_bind at 1, m_lift.
  destruct (initialize_loggers (dmachine s)) as [lg|e|] eqn:El.
  2:{ intros [= -> _]. exfalso. revert El. rewrite initialize_loggers_spec. destruct (env_var _ _) as [l|].
      - pose proof (get_level_stays l c) as Hl. destruct (get_level l) as [v|x|]; cbn; [by case_match| |done].
        intros Hx. injection Hx as ->. done.
      - cbn. by case_match. }
  2:{ done. }
  unfold m_bind at 1. destruct (configure cfg env o mountdir rootdir s) as [[[]|e|] s1] eqn:Ec; [| |done].
  2:{ intros [= -> ->]. by apply configure_stays in Ec. }
  unfold m_bind at 1, m_try. destruct (init_environment cfg env s1) as [[[]|e|] s2] eqn:Ei; [done| |done].
  unfold m_bind at 1. destruct (destroy_run s2) as (s3 & E3 & [Hd Hm Hr Hst Hf]). rewrite E3. unfold m_throw.
  intros [= <- <-]. split; [done|]. split; [done|]. split; [done|]. split; [done|].
  intros Hne co Hco. unfold load_hostfile. rewrite Hco, Hf, Hd in *. rewrite decide_True by done. by rewrite lookup_delete_eq.
Qed.

(** A relative root directory stops the daemon: the mount point and
    the metadata directory are made canonical, the root directory is not,
    and the chunk storage asserts that its path is absolute. *)
Theorem relative_rootdir_aborts {D F : Type} {R : RocksDB D} (cfg : config) (env : surroundings D)
    (o : options) (mountdir rootdir addr : str) (canon : str -> str) (db : str -> D) (s : dstate D F) :
  surroundings_ok env canon db addr -> rpc_protocol env <> ofi_verbs ->
  opt_help o = false -> opt_version o = false -> opt_mountdir o = Some mountdir -> opt_rootdir o = Some rootdir ->
  is_ok (initialize_loggers (dmachine s)) = true -> rootdir <> [] -> is_absolute rootdir = false ->
  (start cfg env o s).1 = Trap.
Proof.
  intros HS Hv Hh Hver Hmd Hrd Hlog Hne Hrel. unfold start. rewrite Hh, Hver, Hmd, Hrd.
  unfold m_bind at 1, m_get. unfold m_bind at 1, m_lift.
  destruct (initialize_loggers (dmachine s)) as [lg| |]; [|done..].
  unfold m_bind at 1. rewrite (configure_run cfg env o mountdir rootdir s canon db addr HS Hv).
  unfold m_bind at 1, m_try, init_environment, m_bind at 1, m_gets. fields.
  unfold m_bind at 1. erewrite init_metadata_run by exact HS. unfold set_mdb, m_modify at 1. fields. unfold m_bind at 1, mkdirs. rewrite (so_dirs _ _ _ _ HS). cbn [m_ret].
  unfold m_bind at 1, m_lift, ChunkStorage_init, assert_. cbn [FsData.rootdir].
  assert (is_absolute (the_rootdir cfg env rootdir ++ s_ "/data/chunks") = false) as ->; [|done].
  unfold the_rootdir, path_join, is_absolute in *. destruct rootdir as [|c r]; [done|].
  destruct (enable_forwarding cfg); [exact Hrel|]. rewrite decide_False by done.
  destruct (decide (back (c :: r) = sep)); exact Hrel.
Qed.

(** ** Waiting for the end *)

Inductive signal := SIGINT | SIGTERM | SIGKILL.

(** [main] after the initialisation: the handlers are not yet installed;
    they are, and the main thread has not reached [wait]; it waits; it has
    been woken; it has returned; or the process was killed. *)
Inductive phase := Initialised | Armed | Waiting | ShuttingDown | Finished | Killed.

(** A step of the main thread ([None]) or a signal.  Before the handlers are
    installed a signal has its default action; [SIGKILL] cannot be caught,
    whatever [signal] was told; [notify_all] wakes a thread that waits and
    does nothing otherwise; a wait may also end by itself, and nothing is
    checked after it. *)
Inductive life_step : option signal -> phase -> phase -> Prop :=
| step_install : life_step None Initialised Armed
| step_wait : life_step None Armed Waiting
| step_spurious : life_step None Waiting ShuttingDown
| step_destroy : life_step None ShuttingDown Finished
| step_default sg : sg <> SIGKILL -> life_step (Some sg) Initialised Killed
| step_early sg : sg <> SIGKILL -> life_step (Some sg) Armed Armed
| step_wake sg : sg <> SIGKILL -> life_step (Some sg) Waiting ShuttingDown
| step_late sg : sg <> SIGKILL -> life_step (Some sg) ShuttingDown ShuttingDown
| step_kill p : p <> Finished -> p <> Killed -> life_step (Some SIGKILL) p Killed.

(** Runs with their signals. *)
Inductive life : list signal -> phase -> phase -> Prop :=
| life_refl p : life [] p p
| life_main l p q r : life_step None p q -> life l q r -> life l p r
| life_signal sg l p q r : life_step (Some sg) p q -> life l q r -> life (sg :: l) p r.

(** Without [SIGKILL], a daemon that shuts down goes on doing so. *)
Lemma shutting_down_stays l p q : life l p q -> p = ShuttingDown \/ p = Finished -> Forall (fun sg => sg <> SIGKILL) l ->
  q = ShuttingDown \/ q = Finished.
Proof.
  induction 1 as [p|l p q r Hs _ IH|sg l p q r Hs _ IH]; intros Hp Hl; [done| |].
  - apply IH; [|done]. destruct Hp as [-> | ->]; inversion Hs; subst; auto.
  - apply Forall_cons in Hl as [Hsg Hl]. apply IH; [|done]. destruct Hp as [-> | ->]; inversion Hs; subst; auto; done.
Qed.

Lemma waiting_wakes l p q : life l p q -> p = Waiting -> l <> [] -> Forall (fun sg => sg <> SIGKILL) l ->
  q = ShuttingDown \/ q = Finished.
Proof.
  induction 1 as [p|l p q r Hs Hl _|sg l p q r Hs Hl _]; intros -> Hne Hk; [done| |].
  - inversion Hs; subst. eapply shutting_down_stays; eauto.
  - apply Forall_cons in Hk as [Hsg Hk]. inversion Hs; subst; [|done]. eapply shutting_down_stays; eauto.
Qed.


(** ** Witnesses *)

Local Abbreviation MDB := (MemDB (FullMergeV2 default_config example_md)).

Definition good_surroundings : surroundings (gmap str db_entry) :=
  MkSurroundings (fun _ => true) (fun p => Some (s_ "/canonical")) 4711 (fun _ _ => Some example_db) true true
    (Some (s_ "ofi+sockets://10.0.0.1:4000")) true (fun _ => true) 1600000000 (s_ "ofi+sockets").
Definition good_options : options :=
  MkOptions false false (Some (s_ "/mnt")) (Some (s_ "/data")) None None None.
Definition no_data : FsData.data := FsData.Mk [] [] [] [] [] false false false false false.
Definition new_daemon (h : host_os) : dstate (gmap str db_entry) memfs :=
  MkDState no_data None None empty_fs false [] 0 h.
Definition n1_os : host_os := MkHostOS ∅ (fun _ => true) (fun _ => true) (Some (s_ "n1")) (fun _ => None).

Lemma good_surroundings_ok :
  surroundings_ok good_surroundings (fun _ => s_ "/canonical") (fun _ => example_db) (s_ "ofi+sockets://10.0.0.1:4000").
Proof. by split. Qed.

Local Abbreviation started := (start (R := MDB) default_config good_surroundings good_options (new_daemon n1_os)).

Lemma root_put : exists m1,
  db_put (R := MDB) (s_ "/") (serialize default_config (root_entry default_config good_surroundings)) example_db = (Ok tt, m1).
Proof. eexists. reflexivity. Qed.


(** The same daemon without its RPC server. *)
Definition bad_surroundings : surroundings (gmap str db_entry) :=
  MkSurroundings (fun _ => true) (fun p => Some (s_ "/canonical")) 4711 (fun _ _ => Some example_db) false true
    None true (fun _ => true) 1600000000 (s_ "ofi+sockets").
Definition shared_os : host_os :=
  MkHostOS {[ hostfile_path := s_ "n2 tcp://10.0.0.2" ]} (fun _ => true) (fun _ => true) (Some (s_ "n1")) (fun _ => None).
Local Abbreviation failed := (start (R := MDB) default_config bad_surroundings good_options (new_daemon shared_os)).

Lemma failed_exits : failed.1 = Throw (Exit 1).
Proof. vm_compute. reflexivity. Qed.

Lemma failed_daemon_removes_hosts_witness : 1 = EXIT_FAILURE /\ mdb_ failed.2 = None.
Proof.
  destruct (failed_daemon_removes_hosts (R := MDB) default_config bad_surroundings good_options
    (new_daemon shared_os) failed.2 1) as (H1 & H2 & _).
  - by rewrite <- failed_exits, <- surjective_pairing.
  - split; [exact H1|exact H2].
Defined.

(** The line of the other daemon is gone. *)
Example other_daemon_lost :
  text_files (dmachine (new_daemon shared_os)) !! hostfile_path = Some (s_ "n2 tcp://10.0.0.2") /\
  text_files (dmachine failed.2) !! hostfile_path = None.
Proof. vm_compute. done. Qed.

Lemma relative_rootdir_aborts_witness :
  (start (R := MDB) default_config good_surroundings
     (MkOptions false false (Some (s_ "/mnt")) (Some (s_ "data")) None None None) (new_daemon n1_os)).1 = Trap.
Proof.
  apply (relative_rootdir_aborts (R := MDB) default_config good_surroundings
    (MkOptions false false (Some (s_ "/mnt")) (Some (s_ "data")) None None None) (s_ "/mnt") (s_ "data")
    (s_ "ofi+sockets://10.0.0.1:4000") (fun _ => s_ "/canonical") (fun _ => example_db) (new_daemon n1_os)).
  - exact good_surroundings_ok.
  - done.
  - reflexivity.
  - reflexivity.
  - reflexivity.
  - reflexivity.
  - reflexivity.
  - done.
  - reflexivity.
Defined.

